(* ===== verification/_CoqProject ===== *)
-Q . S2P
Prelude.v
GF128.v
Host.v
Ghash.v
Aes.v
TlsRecord.v
Sni.v
Dns.v
VipAddr.v
State.v
Hooks.v
HExtract.v
XorPath.v
Packet.v
TcGhash.v
TcEgress.v
TcFacts.v
TcpSend.v
SendFacts.v
Vip.v
VipHooks.v
DnsRewrite.v
StateType.v
Keeps.v
Frames.v
Inv.v
InvSend.v
InvTc.v
System.v
Refine.v
Progress.v
Between.v
Library.v
EndToEnd.v
Corners.v
VipPlan.v
VipReserve.v
VipSync.v
VipSyncFacts.v
VipLive.v
VipHome.v
VipOrder.v
VipOwner.v
SecretSync.v
SecretFacts.v
SecretExact.v
Conformance.v
