(* ===== verification/Prelude.v ===== *)
(** * kloak: the in-kernel data plane, modelled and verified

    kloak lets a pod use a secret without holding it. The pod is given a placeholder
    ([kl::...]); eBPF programs replace the placeholder by the secret in the TLS record
    that leaves, after encryption, and correct the AES-GCM tag of the record. This
    library models those programs, src/pkg/ebpf/bpf/tls_uprobe.c and the functions of
    src/pkg/ebpf/bpf/helpers.h they call, and two parts of the controller, the one that
    reserves fake IPs (src/pkg/ebpf/virtual_ip.go, virtual_ip_linux.go) and the one that
    grants secrets to pods (sync.go, secret_binding.go, uprobe.go), and proves what they do.

    ** The program's parts and their models

    The programs are run by events of the kernel and share BPF maps. A write to a TLS
    connection goes through these, in this order:

    - a uprobe on the library's write function scans the text for placeholders, checks
      that the pod may redeem each, and stores in xor_pending the bytes that turn the
      placeholders into the secrets (XorPath.v; HExtract.v reads the connection's
      GHASH key H from the library's memory);
    - a kprobe on tcp_sendmsg parses a ClientHello and remembers the SNI of the socket,
      and a second one, the bridge, drops the patches whose secret may not leave on
      the socket (host, IP, port, SNI), recovers H, and hands the rest to tc in
      tc_pending (TcpSend.v, with the parser in Sni.v);
    - tc egress finds the record of the write in the packet, applies the patches to
      the ciphertext and tail-calls the program that corrects the tag, now or, when
      the tag is in a later segment, through tc_tag_pending (TcEgress.v, TcGhash.v);
    - beside them, tc ingress rewrites DNS answers for watched hosts to fake IPs, and
      cgroup hooks on connect and getpeername translate these back, so that a socket
      can be tied to a host name (Vip.v, with the parser in Dns.v and the tables in
      VipAddr.v); tracepoints follow connects, closes, execs and exits (Hooks.v);
    - the controller plans the fake IP of each watched host from the reservations kept
      in vip_ip_host (VipPlan.v), and brings that map, vip_host_ip and vip_upstream in
      line with the plan, one map operation at a time, while the programs run (VipSync.v);
    - the controller brings secret_map, secret_acl and vip_pod_host in line with a snapshot
      of the secrets and the bindings of the pods, and changes the last two when a pod
      is bound or unbound (SecretSync.v).

    Models, by file. Each Module of the first group has the functions of the source
    under their own names; each has its facts in the Modules next to it.

    - GF128.v [GF128]: gf128_mul and its variants, the power table, gf128_halve_to_h;
      [Field]: GF(2^128) as NIST SP 800-38D has it.
    - Ghash.v [GhashCode]: ghash_block_delta; [Ghash]: GHASH and the GCM tag as
      SP 800-38D has them, and what a change of the ciphertext does to the tag.
    - Aes.v [Aes]: the AES functions of helpers.h; [Fips197]: AES as FIPS-197 has it.
    - Host.v, TlsRecord.v, Sni.v, Dns.v, VipAddr.v: the other functions of helpers.h
      (Host headers and lengths, record headers, ClientHello, DNS messages, virtual IPs).
    - State.v [Types]: the structs; [Kernel]: one record [kst] for all maps, the state
      monad [M] of the programs, bpf_loop, the maps' updates, a running task with its
      user memory, a socket. Packet.v [Skb]: a packet, its loads and stores.
    - Hooks.v, HExtract.v, XorPath.v, TcGhash.v, TcEgress.v, TcpSend.v, Vip.v: the
      programs of tls_uprobe.c.
    - VipPlan.v [NetIP]: addresses and prefixes of Go's net/netip; [Plan]: virtual_ip.go,
      planVirtualIPRanges and freeVirtualIP and what they call. VipSync.v [Sync]:
      virtual_ip_linux.go, virtualIPAllocator.sync and what it calls, and vipConfig.
    - SecretSync.v [Grants]: secret_binding.go (secretACL, vipPodHosts and what they call),
      sync.go (applySecrets, syncSecretACL), syncVipPodHost of virtual_ip_linux.go, and of
      uprobe.go SyncSecrets, the functions that bind and unbind a pod and their helpers.
    - Conformance.v: the tests of helpers_test.c and the ClientHellos of
      tls_sni_fixtures.h, computed on the model.

    Theories about them, by file:

    - TcFacts.v, SendFacts.v, VipHooks.v, DnsRewrite.v: what the programs of tc egress,
      of tcp_sendmsg, of connect and getpeername, and the DNS rewrite do.
    - Keeps.v (a logic of programs that keep an invariant), Frames.v (what programs
      leave alone), StateType.v (the type of the state), Inv.v, InvSend.v, InvTc.v
      (every program keeps it), System.v (all programs as one step relation).
    - Refine.v [Vault]: an abstract machine of secrets held and leaving, which the
      system refines. Progress.v: termination of the tail calls, and progress of
      connects to fake IPs.
    - Between.v: programs that run for other processes and connections leave a write on
      its way alone. Library.v [TlsLibrary]: the interface between a TLS library with its write
      uprobe and the bridge, with instances for Go, BoringSSL and OpenSSL (two ways);
      EndToEnd.v: the theorems on a whole write, whose record leaves in one segment or
      cut in two, proved against the interface.
    - VipReserve.v: what the plan guarantees. VipSyncFacts.v [Values]: the values of the
      maps read back; [Config]: vip_config and the ranges; [SyncLogic]: a logic of syncs,
      for an invariant that programs and operations keep. VipLive.v, VipOrder.v: what a
      sync, or many, do to a system that goes on running. VipHome.v, VipOwner.v: whose
      addresses are recorded for a fake IP, by the programs and across syncs.
    - SecretFacts.v [AclFacts]: which entries secretACL gives; [Governed]: the system with
      its controller, and the policy its objects make. SecretExact.v: what operations of
      the controller that do not fail leave in the tables.
    - Corners.v: what happens in cases the code does not handle.

    ** What the theorems show

    - The whole path (C1, C2): a written text leaves, under the key stream its record was
      encrypted with and with the right tag, as the text with the secrets, in one
      segment or, with programs running in between, in two.
    - Its stages (C3 to C7): the segment, a record cut in two segments, the patch, the
      uprobe, and the refinement of the abstract machine, in which a secret is only held
      by a process whose pod may redeem it and only leaves on a socket it may leave on.
    - The controller's grants (C8 to C10): the system together with its controller is a
      run of that abstract machine under the policy that the pods' references and the
      secrets' restrictions make, whatever fails; a sync without failures leaves exactly
      the granted entries, and so does a change of a pod's binding.
    - The bridge, sockets and names (C11 to C15): the bridge, the SNI of a socket, the DNS
      rewrite, connect and getpeername.
    - Fake IPs over time (C16 to C23): one handed out leads to a real address as long as
      its host is watched, across syncs that fail anywhere; the order of a sync's
      writes; what a sync writes; a fake IP never leads to an address of another host,
      also when it was that host's before; the plan is sound, gives no IP to another host
      early, and finds free addresses; the programs and the controller agree on the ranges.
    - The system (C24, C25): every reachable state is well typed, and the chain of tail
      calls ends.
    - The parsers (C26 to C31): ClientHello and DNS, soundness and completeness.
    - Cryptography (C32 to C36): the field, the powers, the blocks, AES.
    - Keys and bounds (C37 to C40): the walks to H in OpenSSL's and BoringSSL's memory, and
      the bounds of the scan (C39).
    - Besides, the tests of the repository give on the model what they expect of the
      code: a check of the model, by computation on their inputs.

    ** The model

    Machine integers are [Z], wrapped by [u8] to [u64] (and the operators [+32], [-32],
    [*32]) where an operation can leave its range. Bytes are [Z]s, C arrays lists of
    them. A program is a function of the state [kst]; a run is atomic. A map is a
    [gmap] over tuples of the key's fields; a HASH map has a capacity and refuses an
    insertion when full, an LRU_HASH map accepts it. Between runs (System.v) the
    environment may evict an LRU entry, free a socket's storage, move to another CPU,
    whose per-CPU areas have any contents, or change the tables the control plane owns.

    Bounds and fuel. Loops of the source with a constant bound have that bound as fuel:
    XOR_MAX_PATCHES and XOR_MAX_MATCHES (4), TC_MAX_LEADING_RECORDS and
    TC_MAX_SCAN_RECORDS (4), MAX_DATA_SIZE (256), the tables' slots. bpf_loop runs at
    most 2^23 iterations, and none when asked for more: with chunks of 249 bytes
    the scan covers writes of up to 249 * 2^23 bytes (C39). Tail calls have the
    kernel's limit MAX_TAIL_CALL_CNT (33), of which C25 shows that four are enough.
    Evictions of the plan have as many rounds as there are entries; each takes one away.

    The controller. Hosts are lists of bytes, times nanoseconds since the epoch, Go maps
    [gmap]s. The order in which Go visits a map is left open: the plan takes it as an
    argument with [visits], the sync as an instance of the class [GoOrder], and the
    theorems hold for each. A sync is a run of map operations; before each of them the
    environment [env] runs anything of the system (programs, evictions, other tables),
    and an oracle [fails] says whether it fails, so that a controller that dies at some
    operation is one whose later operations all fail. A sync of the secrets takes the
    lock of the bindings only for its last part: C8 lets other goroutines bind and unbind
    pods between its map operations; C9 and C10 are about requests one after another.
    A delete of a key that is not there succeeds, where the code reports it.

    Parameters. bpf_l4_csum_replace is a kernel function: tc_dns_rewrite takes it as an
    argument, and its theorems assume that it updates the one's-complement sum by the
    32-bit change, as documented ([csum_updates] of DnsRewrite.v); the witnesses
    instantiate it with such a function. The HPACK Huffman code of a string, which
    golang.org/x/net gives applySecrets, is a parameter of SecretSync.v that maps bytes to
    bytes. Which secrets snapshots hold and which bindings pods get are parameters of C8 to
    C10; a secret's host is taken to hold no zero byte, and C9 and C10 take an owner's key
    to name one secret of a snapshot, as the comment of Secret says. Which addresses are a host's is a parameter of C19, which
    assumes that trusted resolvers' answers for a host hold such only. The kernel's answers to a program
    (time, random numbers, free space of a ring buffer, whether a program array is
    filled, reads of user memory) are fields of the task or arguments.

    ** Not modelled

    - The kernel's types (vmlinux_x86.h, vmlinux_arm64.h), generated from BTF: the few
      fields read are records of Packet.v, TcpSend.v and Vip.v.
    - Code under KLOAK_DEBUG: the bpf_printk calls, and the bssl_probe map, which is
      written in debug builds only.
    - Lookups of an array's entry 0, which cannot fail: their NULL branches are there
      for the verifier.
    - What the kernel keeps beside a packet's bytes: the flag BPF_F_RECOMPUTE_CSUM of
      bpf_skb_store_bytes has no effect in the model, and the TCP checksum of a patched
      segment is left to the kernel, as the programs leave it.
    - The rest of the Go control plane (the controller, the webhook, pkg/secrets, the other
      functions of uprobe.go and sync.go), which makes the snapshots and bindings from
      Kubernetes objects and attaches the programs: its updates are steps of the
      environment. Of virtual_ip.go: parsing the flag and /proc/net routes; of
      virtual_ip_linux.go: pinning the maps (pinned maps are reachable states a new
      controller starts from), attaching programs in a pod's namespace; everywhere,
      what is logged.
    - Go's gf128.go, a second implementation of the field used by tests only.
    - The demos and the OpenSSL offset probe, which hold no logic of the system. *)

From Stdlib Require Export ZArith Lia Bool.
From stdpp Require Export base tactics option list gmap.

#[global] Open Scope Z_scope.

(** ** Machine integers

    A C integer of width [w] is a [Z]; an operation that can leave the range
    wraps with the function of its width. *)

Definition u8 (x : Z) : Z := x mod 256.
Definition u16 (x : Z) : Z := x mod 65536.
Definition u32 (x : Z) : Z := x mod 4294967296.
Definition u64 (x : Z) : Z := x mod 18446744073709551616.

Declare Scope cword_scope.
Delimit Scope cword_scope with cw.
Notation "x '+32' y" := (u32 (x + y)) (at level 50, left associativity) : cword_scope.
Notation "x '-32' y" := (u32 (x - y)) (at level 50, left associativity) : cword_scope.
Notation "x '*32' y" := (u32 (x * y)) (at level 40, left associativity) : cword_scope.
#[global] Open Scope cword_scope.

Lemma u8_small x : 0 ≤ x < 256 → u8 x = x.
Proof. intros. unfold u8. by rewrite Z.mod_small. Qed.
Lemma u16_small x : 0 ≤ x < 65536 → u16 x = x.
Proof. intros. unfold u16. by rewrite Z.mod_small. Qed.
Lemma u32_small x : 0 ≤ x < 4294967296 → u32 x = x.
Proof. intros. unfold u32. by rewrite Z.mod_small. Qed.
Lemma u64_small x : 0 ≤ x < 18446744073709551616 → u64 x = x.
Proof. intros. unfold u64. by rewrite Z.mod_small. Qed.

Lemma u8_range x : 0 ≤ u8 x < 256.
Proof. apply Z.mod_pos_bound. lia. Qed.
Lemma u16_range x : 0 ≤ u16 x < 65536.
Proof. apply Z.mod_pos_bound. lia. Qed.
Lemma u32_range x : 0 ≤ u32 x < 4294967296.
Proof. apply Z.mod_pos_bound. lia. Qed.
Lemma u64_range x : 0 ≤ u64 x < 18446744073709551616.
Proof. apply Z.mod_pos_bound. lia. Qed.

Lemma u32_add_l x y : u32 (u32 x + y) = u32 (x + y).
Proof. unfold u32. apply Zplus_mod_idemp_l. Qed.

(** [word_lia]: linear arithmetic over the wrapping operations. *)
Ltac word_lia :=
  unfold u8, u16, u32, u64 in *; Z.div_mod_to_equations; lia.

(** [wsmall] removes the wrap of every operation whose argument [lia] bounds. *)
Ltac wsmall :=
  repeat match goal with
         | |- context [u8 ?x] => rewrite (u8_small x) by lia
         | |- context [u16 ?x] => rewrite (u16_small x) by lia
         | |- context [u32 ?x] => rewrite (u32_small x) by lia
         | |- context [u64 ?x] => rewrite (u64_small x) by lia
         end.
Ltac wsmall_in H :=
  repeat match type of H with
         | context [u8 ?x] => rewrite (u8_small x) in H by lia
         | context [u16 ?x] => rewrite (u16_small x) in H by lia
         | context [u32 ?x] => rewrite (u32_small x) in H by lia
         | context [u64 ?x] => rewrite (u64_small x) in H by lia
         end.

(** [zbool] turns the boolean comparisons of the code into propositions. *)
Lemma andb_iff a b : a && b = true ↔ a = true ∧ b = true.
Proof. apply andb_true_iff. Qed.

Ltac zbool_step :=
  match goal with
  | H : (_ <? _) = true |- _ => apply Z.ltb_lt in H
  | H : (_ <? _) = false |- _ => apply Z.ltb_ge in H
  | H : (_ <=? _) = true |- _ => apply Z.leb_le in H
  | H : (_ <=? _) = false |- _ => apply Z.leb_gt in H
  | H : (_ >? _) = true |- _ => rewrite Z.gtb_ltb in H; apply Z.ltb_lt in H
  | H : (_ >? _) = false |- _ => rewrite Z.gtb_ltb in H; apply Z.ltb_ge in H
  | H : (_ >=? _) = true |- _ => rewrite Z.geb_leb in H; apply Z.leb_le in H
  | H : (_ >=? _) = false |- _ => rewrite Z.geb_leb in H; apply Z.leb_gt in H
  | H : (_ =? _) = true |- _ => apply Z.eqb_eq in H
  | H : (_ =? _) = false |- _ => apply Z.eqb_neq in H
  | H : negb _ = true |- _ => apply negb_true_iff in H
  | H : negb _ = false |- _ => apply negb_false_iff in H
  | H : _ && _ = true |- _ => apply andb_true_iff in H; destruct H
  | H : _ || _ = false |- _ => apply orb_false_iff in H; destruct H
  | H : _ || _ = true |- _ => apply orb_true_iff in H
  | H : _ && _ = false |- _ => apply andb_false_iff in H
  end.
Ltac zbool := repeat zbool_step.

(** ** Byte strings: C byte arrays, a list of bytes as [Z] *)

Definition byte (b : Z) : Prop := 0 ≤ b < 256.
Abbreviation bytes := (list Z).
Definition bytes_ok (l : bytes) : Prop := Forall byte l.

#[export] Instance byte_dec b : Decision (byte b).
Proof. unfold byte. apply _. Defined.
#[export] Instance bytes_ok_dec l : Decision (bytes_ok l).
Proof. unfold bytes_ok. apply _. Defined.

(** [by_compute] proves a decidable fact of concrete data. *)
Ltac by_compute := match goal with |- ?P => apply (bool_decide_unpack P); vm_compute; exact I end.

(** [l .[ i ]]: the byte at index [i]. A C array access; the code only makes
    in-range ones, where [0] as the default value is not seen. *)
Definition byte_at (l : bytes) (i : Z) : Z := nth (Z.to_nat i) l 0.
Notation "l .[ i ]" := (byte_at l i) (at level 1, left associativity, format "l .[ i ]").

Definition set_byte (i v : Z) (l : bytes) : bytes := <[Z.to_nat i := v]> l.

Definition zeros (n : nat) : bytes := replicate n 0.
Definition zlen {A} (l : list A) : Z := Z.of_nat (length l).

(** The [n] bytes of [l] from offset [off]. *)
Definition slice (l : bytes) (off : Z) (n : nat) : bytes := take n (drop (Z.to_nat off) l).

(** [l] with the bytes from [off] overwritten by [new]. *)
Definition splice (l : bytes) (off : Z) (new : bytes) : bytes :=
  take (Z.to_nat off) l ++ new ++ drop (Z.to_nat off + length new) l.

Definition xor_bytes (a b : bytes) : bytes := zip_with Z.lxor a b.

(** *** Lemmas on byte strings *)

Section ByteStrings.
Implicit Types l k : bytes.

Lemma byte_at_lookup l i : 0 ≤ i → l.[i] = default 0 (l !! Z.to_nat i).
Proof. intros. unfold byte_at. apply nth_lookup. Qed.

Lemma byte_at_nat l n : l.[Z.of_nat n] = default 0 (l !! n).
Proof. rewrite byte_at_lookup by lia. by rewrite Nat2Z.id. Qed.

Lemma byte_at_lookup_Some l i b : 0 ≤ i → l !! Z.to_nat i = Some b → l.[i] = b.
Proof. intros ? E. rewrite byte_at_lookup by lia. by rewrite E. Qed.

Lemma byte_at_range l i : bytes_ok l → byte (l.[i]).
Proof.
  intros Hl. unfold byte_at, byte. rewrite nth_lookup.
  destruct (l !! Z.to_nat i) eqn:E; simpl; [|lia].
  by apply (Forall_lookup_1 _ _ _ _ Hl E).
Qed.

Lemma byte_at_app_l l k i : 0 ≤ i < zlen l → (l ++ k).[i] = l.[i].
Proof. unfold zlen. intros. rewrite !byte_at_lookup by lia. rewrite lookup_app_l by lia. done. Qed.

Lemma byte_at_app_r l k i : zlen l ≤ i → (l ++ k).[i] = k.[i - zlen l].
Proof.
  unfold zlen. intros. rewrite !byte_at_lookup by lia. rewrite lookup_app_r by lia.
  do 2 f_equal. lia.
Qed.

Lemma byte_at_take l n i : 0 ≤ i < Z.of_nat n → (take n l).[i] = l.[i].
Proof. intros. rewrite !byte_at_lookup by lia. rewrite lookup_take_lt by lia. done. Qed.

Lemma byte_at_drop l n i : 0 ≤ i → (drop n l).[i] = l.[Z.of_nat n + i].
Proof. intros. rewrite !byte_at_lookup by lia. rewrite lookup_drop. do 2 f_equal. lia. Qed.

Lemma byte_at_ge l i : zlen l ≤ i → l.[i] = 0.
Proof. unfold zlen. intros. rewrite byte_at_lookup by lia. rewrite lookup_ge_None_2 by lia. done. Qed.

(** Two strings with a common prefix read the same below its length. *)
Lemma byte_at_agree l k n i :
  take (Z.to_nat n) l = take (Z.to_nat n) k → 0 ≤ i < n → l.[i] = k.[i].
Proof.
  intros E Hi. rewrite <- (byte_at_take l (Z.to_nat n)), <- (byte_at_take k (Z.to_nat n)) by lia.
  by rewrite E.
Qed.

Lemma byte_at_set l i j v :
  0 ≤ i → 0 ≤ j →
  (set_byte i v l).[j] = if (j =? i) && (j <? zlen l) then v else l.[j].
Proof.
  unfold zlen, set_byte. intros. rewrite !byte_at_lookup by lia.
  destruct (Z.eqb_spec j i) as [->|Hne]; simpl.
  - destruct (Z.ltb_spec i (Z.of_nat (length l))).
    + rewrite list_lookup_insert_eq by lia. done.
    + rewrite list_insert_ge by lia. done.
  - rewrite list_lookup_insert_ne by lia. done.
Qed.

Lemma length_set_byte i v l : length (set_byte i v l) = length l.
Proof. apply length_insert. Qed.

Lemma set_byte_app_r l k i v : 0 ≤ i → set_byte (zlen l + i) v (l ++ k) = l ++ set_byte i v k.
Proof.
  intros. unfold set_byte, zlen.
  replace (Z.to_nat (Z.of_nat (length l) + i)) with (length l + Z.to_nat i)%nat by lia.
  apply insert_app_r.
Qed.

Lemma byte_list_ext l k :
  length l = length k → (∀ i, 0 ≤ i < zlen l → l.[i] = k.[i]) → l = k.
Proof.
  intros Hlen H. apply list_eq. intros i.
  destruct (decide (i < length l)%nat) as [Hi|Hi].
  - destruct (lookup_lt_is_Some_2 l i Hi) as [x Hx].
    destruct (lookup_lt_is_Some_2 k i ltac:(lia)) as [y Hy].
    specialize (H (Z.of_nat i)). rewrite !byte_at_nat, Hx, Hy in H. simpl in H.
    rewrite Hx, Hy. f_equal. apply H. unfold zlen. lia.
  - rewrite !lookup_ge_None_2 by lia. done.
Qed.

Lemma bytes_ok_app l k : bytes_ok (l ++ k) ↔ bytes_ok l ∧ bytes_ok k.
Proof. apply Forall_app. Qed.
Lemma bytes_ok_byte_at l : (∀ i, 0 ≤ i < zlen l → byte (l.[i])) → bytes_ok l.
Proof.
  intros H. apply Forall_lookup. intros i b E. pose proof (lookup_lt_Some _ _ _ E).
  specialize (H (Z.of_nat i) ltac:(unfold zlen; lia)). by rewrite byte_at_nat, E in H.
Qed.
Lemma bytes_ok_take n l : bytes_ok l → bytes_ok (take n l).
Proof. apply Forall_take. Qed.
Lemma bytes_ok_drop n l : bytes_ok l → bytes_ok (drop n l).
Proof. apply Forall_drop. Qed.
Lemma bytes_ok_zeros n : bytes_ok (zeros n).
Proof. apply Forall_replicate. unfold byte. lia. Qed.
Lemma bytes_ok_insert i v l : byte v → bytes_ok l → bytes_ok (set_byte i v l).
Proof. intros. by apply Forall_insert. Qed.
End ByteStrings.

(** *** Bit operations on words *)

Lemma testbit_ge n k i : 0 ≤ n < 2 ^ k → k ≤ i → Z.testbit n i = false.
Proof.
  intros Hn Hi. destruct (decide (0 ≤ k)) as [Hk|Hk].
  - destruct (Z.eq_dec n 0) as [->|]; [apply Z.bits_0|].
    apply Z.bits_above_log2; [lia|].
    apply Z.lt_le_trans with k; [|lia]. apply Z.log2_lt_pow2; lia.
  - rewrite Z.pow_neg_r in Hn by lia. lia.
Qed.

(** A number is below [2 ^ k] when its bits from [k] on are clear. *)
Lemma bound_of_bits x k :
  0 ≤ k → 0 ≤ x → (∀ i, k ≤ i → Z.testbit x i = false) → x < 2 ^ k.
Proof.
  intros Hk Hx H. destruct (Z.lt_ge_cases x (2 ^ k)) as [|Hge]; [done|exfalso].
  pose proof (Z.pow_pos_nonneg 2 k ltac:(lia) Hk).
  assert (Hl : k ≤ Z.log2 x) by (rewrite <- (Z.log2_pow2 k) by lia; by apply Z.log2_le_mono).
  specialize (H _ Hl). rewrite Z.bit_log2 in H by lia. done.
Qed.

Lemma lxor_range a b k : 0 ≤ k → 0 ≤ a < 2 ^ k → 0 ≤ b < 2 ^ k → 0 ≤ Z.lxor a b < 2 ^ k.
Proof.
  intros Hk Ha Hb. assert (0 ≤ Z.lxor a b) by (apply Z.lxor_nonneg; lia).
  split; [done|]. apply bound_of_bits; [lia..|]. intros i Hi.
  rewrite Z.lxor_spec, (testbit_ge a k), (testbit_ge b k) by lia. done.
Qed.

Lemma lor_range a b k : 0 ≤ k → 0 ≤ a < 2 ^ k → 0 ≤ b < 2 ^ k → 0 ≤ Z.lor a b < 2 ^ k.
Proof.
  intros Hk Ha Hb. assert (0 ≤ Z.lor a b) by (apply Z.lor_nonneg; lia).
  split; [done|]. apply bound_of_bits; [lia..|]. intros i Hi.
  rewrite Z.lor_spec, (testbit_ge a k), (testbit_ge b k) by lia. done.
Qed.

Lemma land_range a b k : 0 ≤ k → 0 ≤ a < 2 ^ k → 0 ≤ b → 0 ≤ Z.land a b < 2 ^ k.
Proof.
  intros Hk Ha Hb. assert (0 ≤ Z.land a b) by (apply Z.land_nonneg; lia).
  split; [done|]. apply bound_of_bits; [lia..|]. intros i Hi.
  rewrite Z.land_spec, (testbit_ge a k) by lia. done.
Qed.

Lemma byte_lxor a b : byte a → byte b → byte (Z.lxor a b).
Proof. intros. by apply (lxor_range a b 8). Qed.
Lemma byte_lor a b : byte a → byte b → byte (Z.lor a b).
Proof. intros. by apply (lor_range a b 8). Qed.

(** A mask of [k] low bits is the remainder modulo [2 ^ k]. *)
Lemma land_mask x k : 0 ≤ k → Z.land x (2 ^ k - 1) = x mod 2 ^ k.
Proof. intros. rewrite <- Z.land_ones, Z.ones_equiv by lia. done. Qed.

(** Joining a high and a low part: bits, [lor] and [lxor]. *)
Lemma testbit_join a b k i :
  0 ≤ k → 0 ≤ b < 2 ^ k → 0 ≤ i →
  Z.testbit (a * 2 ^ k + b) i = if i <? k then Z.testbit b i else Z.testbit a (i - k).
Proof.
  intros Hk Hb Hi. destruct (Z.ltb_spec i k) as [Hik|Hik].
  - rewrite <- (Z.mod_pow2_bits_low _ k i) by lia.
    rewrite Z.add_comm, Z_mod_plus_full, Z.mod_small by lia. done.
  - replace i with ((i - k) + k) at 1 by lia. rewrite <- Z.div_pow2_bits by lia.
    rewrite Z.add_comm, Z_div_plus_full, (Z.div_small b) by lia. done.
Qed.

Lemma lxor_join a b c d k :
  0 ≤ k → 0 ≤ b < 2 ^ k → 0 ≤ d < 2 ^ k →
  Z.lxor (a * 2 ^ k + b) (c * 2 ^ k + d) = Z.lxor a c * 2 ^ k + Z.lxor b d.
Proof.
  intros Hk Hb Hd. apply Z.bits_inj'. intros i Hi.
  rewrite Z.lxor_spec, !testbit_join by (auto using lxor_range).
  destruct (i <? k); by rewrite Z.lxor_spec.
Qed.

Lemma land_join a b c d k :
  0 ≤ k → 0 ≤ b < 2 ^ k → 0 ≤ d < 2 ^ k →
  Z.land (a * 2 ^ k + b) (c * 2 ^ k + d) = Z.land a c * 2 ^ k + Z.land b d.
Proof.
  intros Hk Hb Hd. apply Z.bits_inj'. intros i Hi.
  rewrite Z.land_spec, !testbit_join by (auto using land_range || (apply land_range; lia) || lia).
  destruct (i <? k); by rewrite Z.land_spec.
Qed.

Lemma lor_disjoint a b k :
  0 ≤ k → 0 ≤ b < 2 ^ k → Z.lor (a * 2 ^ k) b = a * 2 ^ k + b.
Proof.
  intros Hk Hb. pose proof (Z.pow_pos_nonneg 2 k ltac:(lia) Hk).
  apply Z.bits_inj'. intros i Hi.
  rewrite Z.lor_spec, testbit_join by lia.
  replace (a * 2 ^ k) with (a * 2 ^ k + 0) by lia. rewrite testbit_join by lia.
  destruct (Z.ltb_spec i k).
  - by rewrite Z.bits_0.
  - rewrite (testbit_ge b k) by lia. by rewrite orb_false_r.
Qed.

(** *** Byte strings as big-endian integers *)

Fixpoint be_val (l : bytes) : Z :=
  match l with
  | [] => 0
  | b :: l' => b * 256 ^ zlen l' + be_val l'
  end.

Lemma zlen_cons {A} (x : A) l : zlen (x :: l) = zlen l + 1.
Proof. unfold zlen. simpl length. lia. Qed.
Lemma zlen_nil {A} : zlen (@nil A) = 0.
Proof. done. Qed.
Lemma zlen_app {A} (l k : list A) : zlen (l ++ k) = zlen l + zlen k.
Proof. unfold zlen. rewrite length_app. lia. Qed.
Lemma zlen_nonneg {A} (l : list A) : 0 ≤ zlen l.
Proof. unfold zlen. lia. Qed.

Lemma pow256 n : 0 ≤ n → 256 ^ n = 2 ^ (8 * n).
Proof. intros. rewrite Z.pow_mul_r by lia. done. Qed.

Lemma be_val_range l : bytes_ok l → 0 ≤ be_val l < 256 ^ zlen l.
Proof.
  induction 1 as [|b l Hb _ IH]; [done|].
  cbn [be_val]. rewrite zlen_cons, Z.pow_add_r by (pose proof (zlen_nonneg l); lia).
  unfold byte in Hb. change (256 ^ 1) with 256. nia.
Qed.

Lemma be_val_range2 l : bytes_ok l → 0 ≤ be_val l < 2 ^ (8 * zlen l).
Proof. intros. rewrite <- pow256 by apply zlen_nonneg. by apply be_val_range. Qed.

Lemma be_val_zeros n : be_val (zeros n) = 0.
Proof. unfold zeros. induction n as [|n IH]; simpl; [done|]. rewrite IH. lia. Qed.

Lemma be_val_inj l k :
  bytes_ok l → bytes_ok k → length l = length k → be_val l = be_val k → l = k.
Proof.
  intros Hl. revert k. induction Hl as [|b l Hb Hl IH]; intros k Hk Hlen E.
  - by destruct k.
  - destruct k as [|c k]; [done|]. apply Forall_cons in Hk as [Hc Hk].
    simpl in Hlen. cbn [be_val] in E.
    pose proof (be_val_range l Hl) as H1. pose proof (be_val_range k Hk) as H2.
    assert (Ez : zlen l = zlen k) by (unfold zlen; lia). rewrite Ez in *.
    assert (b = c) by nia. subst c. f_equal. apply IH; [done|lia|lia].
Qed.

Lemma be_val_xor l k :
  bytes_ok l → bytes_ok k → length l = length k →
  be_val (xor_bytes l k) = Z.lxor (be_val l) (be_val k).
Proof.
  intros Hl. revert k. induction Hl as [|b l Hb Hl IH]; intros k Hk Hlen.
  - by destruct k.
  - destruct k as [|c k]; [done|]. apply Forall_cons in Hk as [Hc Hk].
    simpl in Hlen. cbn [be_val xor_bytes zip_with]. unfold xor_bytes in IH.
    rewrite IH by (done || lia).
    assert (Ez : zlen (zip_with Z.lxor l k) = zlen l)
      by (unfold zlen; rewrite length_zip_with; lia).
    assert (Ek : zlen k = zlen l) by (unfold zlen; lia).
    pose proof (be_val_range2 l Hl). pose proof (be_val_range2 k Hk) as Hkr. rewrite Ek in Hkr.
    rewrite Ez, Ek, !pow256 by apply zlen_nonneg.
    rewrite lxor_join; [done|pose proof (zlen_nonneg l); lia|done|done].
Qed.

Lemma bytes_ok_xor l k : bytes_ok l → bytes_ok k → bytes_ok (xor_bytes l k).
Proof.
  intros Hl. revert k. induction Hl as [|b l Hb Hl IH]; intros k Hk; [apply Forall_nil_2|].
  destruct k as [|c k]; [apply Forall_nil_2|]. apply Forall_cons in Hk as [Hc Hk].
  apply Forall_cons_2; [by apply byte_lxor|]. by apply IH.
Qed.

Lemma length_xor_bytes l k : length l = length k → length (xor_bytes l k) = length l.
Proof. intros. unfold xor_bytes. rewrite length_zip_with. lia. Qed.

Lemma byte_at_xor l k j : length l = length k → 0 ≤ j → (xor_bytes l k).[j] = Z.lxor (l.[j]) (k.[j]).
Proof.
  intros Hl Hj. rewrite !byte_at_lookup by lia. unfold xor_bytes. rewrite lookup_zip_with.
  destruct (l !! Z.to_nat j) eqn:E1, (k !! Z.to_nat j) eqn:E2; try done;
    [apply lookup_lt_Some in E1; apply lookup_ge_None in E2|apply lookup_lt_Some in E2; apply lookup_ge_None in E1]; lia.
Qed.

(** Bit [k] of a big-endian string, counted from its last byte. *)
Lemma testbit_be_val l k :
  bytes_ok l → 0 ≤ k < 8 * zlen l →
  Z.testbit (be_val l) k = Z.testbit (l.[zlen l - 1 - k / 8]) (k mod 8).
Proof.
  intros Hl. revert k. induction Hl as [|b l Hb Hl IH]; intros k Hk.
  - change (zlen []) with 0 in Hk. lia.
  - cbn [be_val]. rewrite zlen_cons in *. pose proof (zlen_nonneg l).
    rewrite pow256, testbit_join by (lia || by apply be_val_range2).
    destruct (Z.ltb_spec k (8 * zlen l)).
    + rewrite IH by lia. unfold byte_at.
      replace (Z.to_nat (zlen l + 1 - 1 - k / 8)) with (S (Z.to_nat (zlen l - 1 - k / 8)))
        by (Z.div_mod_to_equations; lia).
      done.
    + replace (zlen l + 1 - 1 - k / 8) with 0 by (Z.div_mod_to_equations; lia).
      replace (k mod 8) with (k - 8 * zlen l) by (Z.div_mod_to_equations; lia). done.
Qed.

(** The [n] big-endian bytes of [x]. *)
Fixpoint be_bytes (n : nat) (x : Z) : bytes :=
  match n with
  | O => []
  | S n' => u8 (x / 256 ^ Z.of_nat n') :: be_bytes n' x
  end.

Lemma length_be_bytes n x : length (be_bytes n x) = n.
Proof. induction n; simpl; congruence. Qed.

Lemma be_bytes_ok n x : bytes_ok (be_bytes n x).
Proof. induction n; simpl; constructor; [apply u8_range|done]. Qed.

Lemma be_val_be_bytes n x : be_val (be_bytes n x) = x mod 256 ^ Z.of_nat n.
Proof.
  induction n as [|n IH]; [by rewrite Z.mod_1_r|].
  cbn [be_bytes be_val]. rewrite IH. unfold zlen. rewrite length_be_bytes.
  replace (Z.of_nat (S n)) with (Z.of_nat n + 1) by lia.
  rewrite Z.pow_add_r, Z.rem_mul_r by lia. unfold u8. change (256 ^ 1) with 256. lia.
Qed.

Lemma be_val_app l k : be_val (l ++ k) = be_val l * 256 ^ zlen k + be_val k.
Proof.
  induction l as [|b l IH]; simpl; [done|]. rewrite IH, zlen_app.
  rewrite Z.pow_add_r by apply zlen_nonneg. lia.
Qed.

(** *** Powers-of-two facts for the wrapping arithmetic *)

Lemma shr_div x k : 0 ≤ k → Z.shiftr x k = x / 2 ^ k.
Proof. apply Z.shiftr_div_pow2. Qed.

(** [u64 (-x)] and the sign bit: the arithmetic comparisons of the code. *)
Lemma u64_top x : - 2 ^ 63 ≤ x < 2 ^ 63 → Z.shiftr (u64 x) 63 = if x <? 0 then 1 else 0.
Proof.
  intros Hx. rewrite shr_div by lia. change (2 ^ 63) with 9223372036854775808 in *.
  destruct (Z.ltb_spec x 0); word_lia.
Qed.

(** *** Byte strings as little-endian integers, as [__builtin_memcpy] into a
    word reads them *)

Definition le_val (l : bytes) : Z := be_val (rev l).

Lemma le_val_inj l k :
  bytes_ok l → bytes_ok k → length l = length k → le_val l = le_val k → l = k.
Proof.
  intros Hl Hk Hlen E. apply be_val_inj in E.
  - by rewrite <- (rev_involutive l), E, rev_involutive.
  - by apply Forall_rev.
  - by apply Forall_rev.
  - by rewrite !length_rev.
Qed.

Lemma length_slice l off n : 0 ≤ off → off + Z.of_nat n ≤ zlen l → length (slice l off n) = n.
Proof. unfold slice, zlen. intros. rewrite length_take, length_drop. lia. Qed.

Lemma slice_ok l off n : bytes_ok l → bytes_ok (slice l off n).
Proof. intros. unfold slice. by apply bytes_ok_take, bytes_ok_drop. Qed.

Lemma byte_at_slice l off n i :
  0 ≤ off → 0 ≤ i < Z.of_nat n → (slice l off n).[i] = l.[off + i].
Proof.
  intros. unfold slice. rewrite byte_at_take, byte_at_drop by lia. f_equal. lia.
Qed.

Lemma slice_app_split l off m n :
  0 ≤ off → slice l off (m + n) = slice l off m ++ slice l (off + Z.of_nat m) n.
Proof.
  intros. unfold slice. rewrite Z2Nat.inj_add, Nat2Z.id by lia.
  rewrite <- drop_drop. symmetry. rewrite <- (take_drop m (drop (Z.to_nat off) l)) at 3.
  destruct (decide (m <= length (drop (Z.to_nat off) l))%nat).
  - rewrite take_app_ge by (rewrite length_take; lia). rewrite length_take.
    do 2 f_equal. lia.
  - rewrite (take_ge (drop _ l) m) by lia. rewrite (drop_ge (drop _ l) m) by lia.
    rewrite take_nil, !app_nil_r. symmetry. apply take_ge. lia.
Qed.

(** *** Windows: [n] bytes from [off], zeros past the end *)

Definition window (b : bytes) (off : Z) (n : nat) : bytes :=
  map (λ i, b.[off + Z.of_nat i]) (seq 0 n).

Lemma length_window b off n : length (window b off n) = n.
Proof. unfold window. by rewrite length_map, length_seq. Qed.
Lemma zlen_window b off n : zlen (window b off n) = Z.of_nat n.
Proof. unfold zlen. by rewrite length_window. Qed.
Lemma window_ok b off n : bytes_ok b → bytes_ok (window b off n).
Proof. intros. apply Forall_fmap, Forall_forall. intros. by apply byte_at_range. Qed.

Lemma byte_at_window b off n i : 0 ≤ i < Z.of_nat n → (window b off n).[i] = b.[off + i].
Proof.
  intros. rewrite byte_at_lookup by lia. unfold window.
  rewrite list_lookup_fmap, lookup_seq_lt by lia. simpl. f_equal. lia.
Qed.

Lemma window_S b off n : window b off (S n) = b.[off] :: window b (off + 1) n.
Proof.
  unfold window. cbn [seq map]. f_equal; [f_equal; lia|].
  rewrite <- seq_shift, map_map. apply list_fmap_ext. intros i x _. f_equal. lia.
Qed.

Lemma window_app b off m n : window b off (m + n) = window b off m ++ window b (off + Z.of_nat m) n.
Proof.
  revert off. induction m as [|m IH]; intros off.
  - cbn [Nat.add]. change (window b off 0) with (@nil Z). by rewrite Z.add_0_r.
  - cbn [Nat.add]. rewrite !window_S, IH. cbn [app].
    replace (off + Z.of_nat (S m)) with (off + 1 + Z.of_nat m) by lia. done.
Qed.

Lemma window_0 b off : window b off 0 = [].
Proof. done. Qed.

Lemma window_drop b off m n : drop m (window b off (m + n)) = window b (off + Z.of_nat m) n.
Proof. rewrite window_app. apply drop_app_length'. by rewrite length_window. Qed.

Lemma window_app_list l k off n :
  0 ≤ off → off + Z.of_nat n ≤ zlen l → window (l ++ k) off n = window l off n.
Proof.
  intros. unfold window. apply list_fmap_ext. intros i x Hi. apply lookup_seq in Hi as [-> Hi].
  apply byte_at_app_l. lia.
Qed.

Lemma window_skip l k off n : 0 ≤ off → window (l ++ k) (zlen l + off) n = window k off n.
Proof.
  intros. unfold window. apply list_fmap_ext. intros i x _.
  rewrite byte_at_app_r by lia. f_equal. lia.
Qed.

Lemma window_all l n : Z.of_nat n = zlen l → window l 0 n = l.
Proof.
  intros E. apply byte_list_ext.
  - rewrite length_window. unfold zlen in E. lia.
  - intros i Hi. rewrite zlen_window in Hi. rewrite byte_at_window by lia. f_equal.
Qed.

Lemma window_agree b b' off n :
  (∀ i, off ≤ i < off + Z.of_nat n → b.[i] = b'.[i]) → window b off n = window b' off n.
Proof.
  intros H. unfold window. apply list_fmap_ext. intros i x Hi.
  apply lookup_seq in Hi as [-> Hi]. apply H. lia.
Qed.

Lemma window_byte b off : window b off 1 = [b.[off]].
Proof. by rewrite window_S. Qed.

(** [holds b off s]: [s] is what [b] has at [off]. *)
Definition holds (b : bytes) (off : Z) (s : bytes) : Prop := window b off (length s) = s.

Lemma holds_app b off s t : holds b off (s ++ t) ↔ holds b off s ∧ holds b (off + zlen s) t.
Proof.
  unfold holds, zlen. rewrite length_app, window_app. split.
  - intros E. apply app_inj_1 in E as [E1 E2]; [by split|]. by rewrite length_window.
  - intros [E1 E2]. by rewrite E1, E2.
Qed.

Lemma holds_cons b off x t : holds b off (x :: t) ↔ b.[off] = x ∧ holds b (off + 1) t.
Proof.
  unfold holds. cbn [length]. rewrite window_S. split.
  - intros [= E1 E2]. by rewrite E1.
  - intros [-> E2]. by rewrite E2.
Qed.

Lemma holds_nil b off : holds b off [].
Proof. done. Qed.

Lemma holds_byte b off s i : holds b off s → 0 ≤ i < zlen s → b.[off + i] = s.[i].
Proof.
  unfold holds, zlen. intros E Hi. rewrite <- E, byte_at_window; [done|]. lia.
Qed.

Lemma holds_window b off n : holds b off (window b off n).
Proof. unfold holds. by rewrite length_window. Qed.

Lemma holds_app_list s t k off : holds s off t → 0 ≤ off → off + zlen t ≤ zlen s → holds (s ++ k) off t.
Proof. unfold holds, zlen. intros E ??. by rewrite window_app_list by (unfold zlen; lia). Qed.

Lemma holds_prefix s k : holds (s ++ k) 0 s.
Proof.
  unfold holds. rewrite window_app_list by (unfold zlen; lia). by apply window_all.
Qed.

(** [agree n b b']: the first [n] bytes are the same. *)
Definition agree (n : Z) (b b' : bytes) : Prop := ∀ i, 0 ≤ i < n → b.[i] = b'.[i].

Lemma agree_window n b b' off k :
  agree n b b' → 0 ≤ off → off + Z.of_nat k ≤ n → window b off k = window b' off k.
Proof. intros H ??. apply window_agree. intros i Hi. apply H. lia. Qed.

Lemma agree_take n b b' : take (Z.to_nat n) b = take (Z.to_nat n) b' → agree n b b'.
Proof. intros E i Hi. by apply (byte_at_agree _ _ n). Qed.

(** The two-byte big-endian field at [i]. *)
Definition u16_at (b : bytes) (i : Z) : Z := b.[i] * 256 + b.[i + 1].

Lemma u16_at_range b i : bytes_ok b → 0 ≤ u16_at b i < 65536.
Proof.
  intros Hb. pose proof (byte_at_range b i Hb) as H1. pose proof (byte_at_range b (i + 1) Hb) as H2.
  unfold byte in *. unfold u16_at. lia.
Qed.

(** A two-byte big-endian field. *)
Definition be16 (x : Z) : bytes := [x / 256; x mod 256].

Lemma zlen_be16 x : zlen (be16 x) = 2.
Proof. done. Qed.

Lemma be16_ok x : 0 ≤ x < 65536 → bytes_ok (be16 x).
Proof.
  intros. repeat constructor; unfold byte; Z.div_mod_to_equations; lia.
Qed.

Lemma be16_window b off : bytes_ok b → window b off 2 = be16 (b.[off] * 256 + b.[off + 1]).
Proof.
  intros Hb. rewrite !window_S, window_0. unfold be16.
  pose proof (byte_at_range b off Hb) as H1. pose proof (byte_at_range b (off + 1) Hb) as H2.
  unfold byte in *. f_equal; [|f_equal]; Z.div_mod_to_equations; lia.
Qed.

Lemma holds_be16 b off x : holds b off (be16 x) → b.[off] * 256 + b.[off + 1] = x.
Proof.
  unfold be16. rewrite !holds_cons. intros (-> & -> & _). Z.div_mod_to_equations; lia.
Qed.

(** ** Record updates

    [r <| f := v |>] for a record whose [Eta] instance lists its fields. *)

Class Eta (R : Type) := eta : R → R.
Class Setter {R T : Type} (proj : R → T) := setter : (T → T) → R → R.
#[global] Hint Mode Setter + + + : typeclass_instances.

Ltac solve_setter :=
  match goal with
  | |- @Setter ?R ?T ?proj =>
      let b := eval hnf in (@eta R _) in
      let p := eval pattern proj in b in
      match p with
      | ?g _ =>
          let s := eval cbv beta in (fun (f : T -> T) => g (fun r => f (proj r))) in
          exact s
      end
  end.
#[global] Hint Extern 1 (Setter _) => solve_setter : typeclass_instances.

Notation "r <| f := v |>" := (setter (proj := f) (fun _ => v) r)
  (at level 1, left associativity, f at level 0, format "r  <| f  :=  v |>").
