(* ===== verification/GF128.v ===== *)
(** * GF(2^128) in the GHASH convention (pkg/ebpf/bpf/helpers.h)

    [GF128]: the shift-and-xor multiplication and the square-and-multiply power
    routines of helpers.h, on 16-byte arrays.
    [Field]: the multiplication of NIST SP 800-38D on 128-bit integers (bit 127
    of the integer, the most significant bit of byte 0, is the coefficient of
    x^0), and its algebra: a commutative ring with unit, derived from the one
    fact that multiplication by a constant is linear and commutes with
    multiplication by x.
    The last section shows that the byte routines compute the field ones. *)

From S2P Require Import Prelude.

Create HintDb gf128.

(** ** The code: byte arrays *)

Module GF128.

(** The mask of step [i]: 0xff when bit [i] (MSB-first) of [a] is set. *)
Definition gf128_step_mask (a : bytes) (i : Z) : Z :=
  u8 (- u8 (Z.land (Z.shiftr (a.[Z.land (Z.shiftr i 3) 0xF]) (7 - Z.land i 7)) 1)).

(** The unrolled loop over [j]: [z[j] ^= cur & mask] and
    [v[j] = (cur >> 1) | (u8)(prev << 7)]; returns the last [cur] as [prev]. *)
Fixpoint gf128_shift_loop (mask prev : Z) (v z : bytes) : bytes * bytes * Z :=
  match v, z with
  | cur :: v', zj :: z' =>
      let '(v2, z2, last) := gf128_shift_loop mask cur v' z' in
      (Z.lor (Z.shiftr cur 1) (u8 (Z.shiftl prev 7)) :: v2,
       Z.lxor zj (Z.land cur mask) :: z2, last)
  | _, _ => (v, z, prev)
  end.

Definition gf128_mul_step (a v z : bytes) (i : Z) : bytes * bytes :=
  let '(v1, z1, prev) := gf128_shift_loop (gf128_step_mask a i) 0 v z in
  (if Z.land prev 1 =? 0 then v1 else set_byte 0 (Z.lxor (v1.[0]) 0xe1) v1, z1).

(** [for (i = 0; i < 128; i++) gf128_mul_step(a, v, z, i)]: [n] steps from [i]. *)
Fixpoint gf128_mul_loop (n : nat) (i : Z) (a v z : bytes) : bytes * bytes :=
  match n with
  | O => (v, z)
  | S n' => let '(v1, z1) := gf128_mul_step a v z i in gf128_mul_loop n' (i + 1) a v1 z1
  end.

Definition gf128_mul (a b : bytes) : bytes :=
  snd (gf128_mul_loop 128 0 a b (zeros 16)).

(** The identity of the field, as the routines set [result] up. *)
Definition gf128_one : bytes := set_byte 0 0x80 (zeros 16).

Fixpoint gf128_h_power_loop (n : nat) (power : Z) (base result : bytes) : bytes :=
  match n with
  | O => result
  | S n' =>
      if 0 <? power then
        let result := if Z.land power 1 =? 0 then result else gf128_mul result base in
        gf128_h_power_loop n' (Z.shiftr power 1) (gf128_mul base base) result
      else result
  end.

Definition gf128_h_power (h : bytes) (power : Z) : bytes :=
  gf128_h_power_loop 11 power h gf128_one.

Fixpoint gf128_table_loop (n : nat) (i : Z) (h_powers : list bytes) (power : Z)
    (result : bytes) : bytes :=
  match n with
  | O => result
  | S n' =>
      if 0 <? power then
        let result :=
          if Z.land power (Z.shiftl 1 i) =? 0 then result
          else gf128_mul result (nth (Z.to_nat i) h_powers []) in
        gf128_table_loop n' (i + 1) h_powers power result
      else result
  end.

Definition gf128_h_power_table (h_powers : list bytes) (power : Z) : bytes :=
  gf128_table_loop 11 0 h_powers power gf128_one.

(** The variants with caller-provided workspace return it with the result. *)
Record mul_ws := { ws_v : bytes; ws_z : bytes }.

Definition gf128_mul_ws (a b : bytes) : bytes * mul_ws :=
  let '(v, z) := gf128_mul_loop 128 0 a b (zeros 16) in (z, {| ws_v := v; ws_z := z |}).

Fixpoint gf128_h_power_ws_loop (n : nat) (power : Z) (ws_base result : bytes) (w : mul_ws)
    : bytes * mul_ws :=
  match n with
  | O => (result, w)
  | S n' =>
      if 0 <? power then
        let '(result, _) :=
          if Z.land power 1 =? 0 then (result, w) else gf128_mul_ws result ws_base in
        let '(ws_base, w) := gf128_mul_ws ws_base ws_base in
        gf128_h_power_ws_loop n' (Z.shiftr power 1) ws_base result w
      else (result, w)
  end.

Definition gf128_h_power_ws (h : bytes) (power : Z) (w : mul_ws) : bytes * mul_ws :=
  gf128_h_power_ws_loop 11 power h gf128_one w.

Fixpoint gf128_table_ws_loop (n : nat) (i : Z) (h_powers : list bytes) (power : Z)
    (result : bytes) (w : mul_ws) : bytes * mul_ws :=
  match n with
  | O => (result, w)
  | S n' =>
      if 0 <? power then
        let '(result, w) :=
          if Z.land power (Z.shiftl 1 i) =? 0 then (result, w)
          else gf128_mul_ws result (nth (Z.to_nat i) h_powers []) in
        gf128_table_ws_loop n' (i + 1) h_powers power result w
      else (result, w)
  end.

Definition gf128_h_power_table_ws (h_powers : list bytes) (power : Z) (w : mul_ws)
    : bytes * mul_ws :=
  gf128_table_ws_loop 11 0 h_powers power gf128_one w.

(** The 8 big-endian bytes of [x]: [out[i] = (u8)(x >> (56 - 8 * i))]. *)
Definition be64_bytes (x : Z) : bytes :=
  map (λ i, u8 (Z.shiftr x (56 - 8 * Z.of_nat i))) (seq 0 8).

Definition gf128_halve_to_h (lo hi : Z) : bytes :=
  let reduced := Z.land lo 1 in
  let '(hi, lo) :=
    if reduced =? 0 then (hi, lo)
    else (Z.lxor hi 0xC200000000000000, Z.lxor lo 0x0000000000000001) in
  let lo := Z.lor (Z.shiftr lo 1) (u64 (Z.shiftl hi 63)) in
  let hi := Z.lor (Z.shiftr hi 1) (u64 (Z.shiftl reduced 63)) in
  be64_bytes hi ++ be64_bytes lo.

End GF128.

(** ** The field of NIST SP 800-38D, on 128-bit integers *)

Module Field.

Definition elt (v : Z) : Prop := 0 ≤ v < 2 ^ 128.

Definition R : Z := 0xe1 * 2 ^ 120.
Definition one : Z := 2 ^ 127.

(** Multiplication by x: one bit to the right, folding the bit that leaves. *)
Definition xtime (v : Z) : Z := Z.lxor (v / 2) (if Z.odd v then R else 0).

Definition xtimes (n : nat) (v : Z) : Z := Nat.iter n xtime v.

(** Exclusive or of [f 0 .. f (n-1)]. *)
Fixpoint xsum (f : nat → Z) (n : nat) : Z :=
  match n with
  | O => 0
  | S n' => Z.lxor (xsum f n') (f n')
  end.

(** SP 800-38D algorithm 1: the sum of the [x^i b] over the set bits of [a]. *)
Definition mul (a b : Z) : Z :=
  xsum (λ i, if Z.testbit a (127 - Z.of_nat i) then xtimes i b else 0) 128.

Definition pow (h : Z) (n : nat) : Z := Nat.iter n (mul h) one.

(** *** Sums *)

Lemma xsum_ext f g n : (∀ i, (i < n)%nat → f i = g i) → xsum f n = xsum g n.
Proof.
  induction n as [|n IH]; intros H; [done|]. simpl. rewrite IH by (intros; apply H; lia).
  by rewrite H by lia.
Qed.

Lemma lxor_swap a b c d :
  Z.lxor (Z.lxor a b) (Z.lxor c d) = Z.lxor (Z.lxor a c) (Z.lxor b d).
Proof. rewrite !Z.lxor_assoc. f_equal. rewrite <- !Z.lxor_assoc. f_equal. apply Z.lxor_comm. Qed.

Lemma xsum_lxor f g n : xsum (λ i, Z.lxor (f i) (g i)) n = Z.lxor (xsum f n) (xsum g n).
Proof. induction n as [|n IH]; simpl; [done|]. rewrite IH. apply lxor_swap. Qed.

Lemma xsum_zero n : xsum (λ _, 0) n = 0.
Proof. induction n as [|n IH]; simpl; [done|]. by rewrite IH. Qed.

(** A map on integers that respects exclusive or. *)
Class Linear (L : Z → Z) := linear a b : L (Z.lxor a b) = Z.lxor (L a) (L b).

Lemma linear_0 L `{!Linear L} : L 0 = 0.
Proof.
  pose proof (linear (L := L) 0 0) as H. rewrite !Z.lxor_0_r, Z.lxor_nilpotent in H. done.
Qed.

Lemma linear_if L `{!Linear L} (c : bool) x :
  L (if c then x else 0) = if c then L x else 0.
Proof. destruct c; [done|]. by apply linear_0. Qed.

Lemma linear_xsum L `{!Linear L} f n : L (xsum f n) = xsum (λ i, L (f i)) n.
Proof.
  induction n as [|n IH]; simpl; [by apply linear_0|]. by rewrite (linear (L := L)), IH.
Qed.

#[export] Instance xtime_linear : Linear xtime.
Proof.
  intros a b. unfold xtime. rewrite <- !Z.div2_div, !Z.div2_spec, Z.shiftr_lxor.
  assert (Ho : Z.odd (Z.lxor a b) = xorb (Z.odd a) (Z.odd b))
    by (rewrite <- !Z.bit0_odd; apply Z.lxor_spec).
  rewrite Ho. destruct (Z.odd a), (Z.odd b); simpl; rewrite lxor_swap, ?Z.lxor_nilpotent,
    ?Z.lxor_0_r, ?Z.lxor_0_l; done.
Qed.

#[export] Instance xtimes_linear n : Linear (xtimes n).
Proof.
  induction n as [|n IH]; intros a b; [done|].
  change (xtimes (S n)) with (λ v, xtime (xtimes n v)). simpl.
  by rewrite (linear (L := xtimes n)), (linear (L := xtime)).
Qed.

Lemma xtimes_S n v : xtimes (S n) v = xtimes n (xtime v).
Proof. unfold xtimes. rewrite <- Nat.iter_succ_r. done. Qed.

(** *** Multiplication is linear in each argument *)

#[export] Instance mul_linear_r a : Linear (mul a).
Proof.
  intros b c. unfold mul. rewrite <- xsum_lxor. apply xsum_ext. intros i _.
  destruct (Z.testbit a _); [apply (linear (L := xtimes i))|done].
Qed.

Lemma mul_lxor_r a b c : mul a (Z.lxor b c) = Z.lxor (mul a b) (mul a c).
Proof. apply mul_linear_r. Qed.

Lemma mul_lxor_l a b c : mul (Z.lxor a b) c = Z.lxor (mul a c) (mul b c).
Proof.
  unfold mul. rewrite <- xsum_lxor. apply xsum_ext. intros i _. rewrite Z.lxor_spec.
  destruct (Z.testbit a _), (Z.testbit b _); simpl;
    rewrite ?Z.lxor_nilpotent, ?Z.lxor_0_r, ?Z.lxor_0_l; done.
Qed.

Lemma mul_0_r a : mul a 0 = 0.
Proof. apply (linear_0 (mul a)). Qed.
Lemma mul_0_l a : mul 0 a = 0.
Proof. transitivity (xsum (λ _, 0) 128); [|apply xsum_zero]. apply xsum_ext. intros. by rewrite Z.bits_0. Qed.

(** A linear map that commutes with multiplication by x commutes with every
    multiplication. *)
Lemma mul_commutes L `{!Linear L} (HL : ∀ v, L (xtime v) = xtime (L v)) a b :
  L (mul a b) = mul a (L b).
Proof.
  assert (Hn : ∀ n v, L (xtimes n v) = xtimes n (L v)).
  { induction n as [|n IH]; intros v; [done|]. by rewrite !xtimes_S, IH, HL. }
  unfold mul. rewrite linear_xsum by done. apply xsum_ext. intros i _.
  rewrite linear_if by done. by rewrite Hn.
Qed.

Lemma mul_xtime_r a v : mul a (xtime v) = xtime (mul a v).
Proof. symmetry. by apply (mul_commutes xtime). Qed.

Lemma mul_swap a b c : mul a (mul b c) = mul b (mul a c).
Proof. apply (mul_commutes (mul a)). apply mul_xtime_r. Qed.

(** *** The unit *)

Lemma xtimes_one n : (n <= 127)%nat → xtimes n one = 2 ^ (127 - Z.of_nat n).
Proof.
  induction n as [|n IH]; intros Hn; [done|]. unfold xtimes. simpl Nat.iter.
  fold (xtimes n one). rewrite IH by lia.
  replace (127 - Z.of_nat n) with (Z.succ (127 - Z.of_nat (S n))) by lia.
  rewrite Z.pow_succ_r by lia. unfold xtime. rewrite Z.odd_mul. simpl.
  rewrite Z.lxor_0_r. rewrite Z.mul_comm, Z.div_mul by lia. done.
Qed.

Lemma mul_one_r a : elt a → mul a one = a.
Proof.
  intros Ha. unfold mul.
  assert (H : ∀ n, (n <= 128)%nat → ∀ k, 0 ≤ k →
    Z.testbit (xsum (λ i, if Z.testbit a (127 - Z.of_nat i) then xtimes i one else 0) n) k
    = (128 - Z.of_nat n <=? k) && Z.testbit a k).
  { induction n as [|n IH]; intros Hn k Hk; simpl xsum.
    - rewrite Z.bits_0. destruct (Z.leb_spec (128 - Z.of_nat 0) k); [|done].
      by rewrite (testbit_ge a 128) by (unfold elt in Ha; lia).
    - rewrite Z.lxor_spec, IH by lia.
      assert (Hf : Z.testbit (if Z.testbit a (127 - Z.of_nat n) then xtimes n one else 0) k
                   = (k =? 127 - Z.of_nat n) && Z.testbit a k).
      { destruct (Z.eqb_spec k (127 - Z.of_nat n)) as [->|Hne]; simpl.
        - destruct (Z.testbit a (127 - Z.of_nat n)); [|apply Z.bits_0].
          rewrite xtimes_one by lia. apply Z.pow2_bits_true. lia.
        - destruct (Z.testbit a (127 - Z.of_nat n)); [|apply Z.bits_0].
          rewrite xtimes_one by lia. apply Z.pow2_bits_false. lia. }
      rewrite Hf. destruct (Z.testbit a k); [|by rewrite !andb_false_r].
      rewrite !andb_true_r.
      destruct (Z.leb_spec (128 - Z.of_nat n) k), (Z.eqb_spec k (127 - Z.of_nat n)),
        (Z.leb_spec (128 - Z.of_nat (S n)) k); try done; lia. }
  apply Z.bits_inj'. intros k Hk. rewrite H by lia.
  destruct (Z.leb_spec (128 - Z.of_nat 128) k); [done|lia].
Qed.

(** *** A commutative ring *)

Lemma mul_comm a b : elt a → elt b → mul a b = mul b a.
Proof.
  intros Ha Hb. rewrite <- (mul_one_r b Hb) at 1. rewrite mul_swap. by rewrite mul_one_r.
Qed.

Lemma xtime_elt v : elt v → elt (xtime v).
Proof.
  unfold elt, xtime. intros Hv. apply lxor_range; [lia| |].
  - split; [apply Z.div_pos; lia|]. apply Z.div_lt_upper_bound; lia.
  - destruct (Z.odd v); [|lia]. split; vm_compute; congruence.
Qed.

Lemma xtimes_elt n v : elt v → elt (xtimes n v).
Proof. intros. induction n as [|n IH]; [done|]. by apply xtime_elt. Qed.

Lemma xsum_elt f n : (∀ i, (i < n)%nat → elt (f i)) → elt (xsum f n).
Proof.
  induction n as [|n IH]; intros H; simpl; [unfold elt; lia|].
  apply lxor_range; [lia|apply IH; intros; apply H; lia|apply H; lia].
Qed.

Lemma mul_elt a b : elt b → elt (mul a b).
Proof.
  intros Hb. apply xsum_elt. intros i _. destruct (Z.testbit a _).
  - by apply xtimes_elt.
  - unfold elt. lia.
Qed.

Lemma one_elt : elt one.
Proof. unfold elt, one. lia. Qed.
Lemma zero_elt : elt 0.
Proof. unfold elt. lia. Qed.
Lemma lxor_elt a b : elt a → elt b → elt (Z.lxor a b).
Proof. apply lxor_range. lia. Qed.
#[export] Hint Resolve mul_elt one_elt zero_elt lxor_elt : gf128.

Lemma mul_assoc a b c : elt a → elt b → elt c → mul (mul a b) c = mul a (mul b c).
Proof.
  intros. rewrite (mul_comm (mul a b)) by auto with gf128. rewrite mul_swap.
  by rewrite (mul_comm c b).
Qed.

Lemma mul_one_l a : elt a → mul one a = a.
Proof. intros. rewrite mul_comm by auto with gf128. by apply mul_one_r. Qed.

(** *** Powers *)

Lemma pow_elt h n : elt (pow h n).
Proof. induction n as [|n IH]; [apply one_elt|]. by apply mul_elt. Qed.
#[export] Hint Resolve pow_elt : gf128.

Lemma pow_S h n : pow h (S n) = mul h (pow h n).
Proof. done. Qed.

Lemma pow_1 h : elt h → pow h 1 = h.
Proof. apply mul_one_r. Qed.

Lemma pow_add h m n : elt h → pow h (m + n) = mul (pow h m) (pow h n).
Proof.
  intros Hh. induction m as [|m IH]; simpl.
  - by rewrite mul_one_l by auto with gf128.
  - change (pow h (S ?m)) with (mul h (pow h m)). rewrite IH.
    by rewrite mul_assoc by auto with gf128.
Qed.

Lemma pow_pow h m n : elt h → pow (pow h m) n = pow h (m * n).
Proof.
  intros Hh. induction n as [|n IH].
  - by rewrite Nat.mul_0_r.
  - rewrite pow_S, IH. rewrite <- pow_add by done. f_equal. lia.
Qed.

End Field.

(** ** The byte routines compute the field operations *)

Module GF128Facts.
Import GF128 Field.

(** A 16-byte block. *)
Definition block (l : bytes) : Prop := length l = 16%nat ∧ bytes_ok l.

Lemma block_zlen l : block l → zlen l = 16.
Proof. intros [H _]. unfold zlen. by rewrite H. Qed.

Lemma block_elt l : block l → elt (be_val l).
Proof. intros H. pose proof (be_val_range2 l (proj2 H)) as Hr. by rewrite (block_zlen l H) in Hr. Qed.

Lemma block_zeros : block (zeros 16).
Proof. split; [done|apply bytes_ok_zeros]. Qed.

Lemma block_one : block gf128_one.
Proof. split; [done|]. unfold bytes_ok, byte. by_compute. Qed.
Lemma be_val_one : be_val gf128_one = one.
Proof. reflexivity. Qed.

Lemma block_inj a b : block a → block b → be_val a = be_val b → a = b.
Proof. intros [Ha ?] [Hb ?]. apply be_val_inj; [done..|lia]. Qed.

#[export] Hint Resolve block_elt block_zeros block_one : gf128.

(** *** The shift loop *)

Lemma shr1_or_carry cur prev : byte cur →
  Z.lor (Z.shiftr cur 1) (u8 (Z.shiftl prev 7)) = cur / 2 + 128 * (prev mod 2).
Proof.
  intros Hc. unfold byte in Hc. rewrite Z.shiftr_div_pow2 by lia.
  rewrite Z.shiftl_mul_pow2 by lia. change (2 ^ 7) with 128. change (2 ^ 1) with 2.
  assert (E : u8 (prev * 128) = prev mod 2 * 2 ^ 7) by word_lia. rewrite E.
  rewrite Z.lor_comm, lor_disjoint by word_lia. lia.
Qed.

Lemma land_mask255 x (b : bool) : byte x → Z.land x (if b then 255 else 0) = if b then x else 0.
Proof.
  intros Hx. destruct b; [|apply Z.land_0_r]. change 255 with (2 ^ 8 - 1).
  rewrite land_mask by lia. by apply Z.mod_small.
Qed.

(** The half and the parity of a big-endian value, byte by byte. *)
Lemma be_val_half cur v v2 prev : 0 ≤ cur < 256 → zlen v2 = zlen v →
  be_val v2 = be_val v / 2 + cur mod 2 * (256 ^ zlen v / 2) →
  be_val (cur / 2 + 128 * (prev mod 2) :: v2) = be_val (cur :: v) / 2 + prev mod 2 * (256 ^ zlen (cur :: v) / 2).
Proof.
  intros Hc Z2 B1. cbn [be_val]. rewrite B1, Z2, zlen_cons. destruct v as [|c v].
  - change (256 ^ (zlen (@nil Z) + 1) / 2) with 128. change (256 ^ zlen (@nil Z)) with 1.
    change (1 / 2) with 0. change (be_val []) with 0. change (0 / 2) with 0. rewrite !Z.add_0_r, !Z.mul_1_r. lia.
  - rewrite (zlen_cons c v) in *. set (n := zlen v) in *. assert (0 ≤ n) by apply zlen_nonneg.
    rewrite !Z.pow_add_r by lia. change (256 ^ 1) with 256.
    set (P := 256 ^ n) in *. set (L := be_val (c :: v)) in *.
    assert (E3 : (cur * (P * 256) + L) / 2 = cur * (P * 128) + L / 2)
      by (rewrite <- Z.div_add_l by lia; f_equal; lia).
    rewrite E3. replace (P * 256) with ((P * 128) * 2) by lia.
    rewrite Z.div_mul by lia. replace (P * 128 * 2 * 256) with ((P * 128 * 256) * 2) by lia.
    rewrite Z.div_mul by lia. word_lia.
Qed.

Lemma be_val_parity cur v : match v with [] => cur mod 2 | _ => be_val v mod 2 end = be_val (cur :: v) mod 2.
Proof.
  destruct v as [|c v]; [change (be_val [cur]) with (cur * 1 + 0); f_equal; lia|].
  set (w := c :: v) in *. cbn [be_val].
  assert (0 < zlen w) by (unfold w; rewrite zlen_cons; pose proof (zlen_nonneg v); lia).
  replace (zlen w) with (1 + (zlen w - 1)) by lia. rewrite Z.pow_add_r by lia. change (256 ^ 1) with (128 * 2).
  replace (cur * (128 * 2 * 256 ^ (zlen w - 1))) with ((cur * 128 * 256 ^ (zlen w - 1)) * 2) by lia.
  by rewrite Z.add_comm, Z_mod_plus_full.
Qed.

Lemma shift_loop_spec (m : bool) v : ∀ prev z v' z' last,
  bytes_ok v → bytes_ok z → length z = length v → 0 ≤ prev →
  gf128_shift_loop (if m then 255 else 0) prev v z = (v', z', last) →
  length v' = length v ∧ bytes_ok v' ∧ length z' = length v ∧ bytes_ok z' ∧
  be_val v' = be_val v / 2 + prev mod 2 * (256 ^ zlen v / 2) ∧
  be_val z' = Z.lxor (be_val z) (if m then be_val v else 0) ∧
  last mod 2 = match v with [] => prev mod 2 | _ => be_val v mod 2 end.
Proof.
  induction v as [|cur v IH]; intros prev z v' z' last Hv Hz Hlen Hp E;
    destruct z as [|zj z]; try done.
  - simpl in E. simplify_eq. repeat split; try done.
    + change (256 ^ zlen (@nil Z) / 2) with 0. cbn. rewrite Z.mul_0_r. done.
    + by destruct m.
  - cbn [gf128_shift_loop] in E. apply Forall_cons in Hv as [Hc Hv].
    apply Forall_cons in Hz as [Hzj Hz]. simpl in Hlen.
    destruct (gf128_shift_loop _ cur v z) as [[v2 z2] l2] eqn:E2. simplify_eq.
    unfold byte in Hc.
    destruct (IH cur z v2 z2 last Hv Hz ltac:(lia) ltac:(lia) E2)
      as (L1 & O1 & L2 & O2 & B1 & B2 & B3).
    assert (Z2 : zlen v2 = zlen v) by (unfold zlen; lia).
    assert (Z3 : zlen z2 = zlen v) by (unfold zlen; lia).
    assert (Z4 : zlen z = zlen v) by (unfold zlen; lia).
    pose proof (be_val_range v Hv) as Rv.
    rewrite shr1_or_carry, land_mask255 by done.
    repeat split.
    + simpl. lia.
    + apply Forall_cons_2; [unfold byte; word_lia|done].
    + simpl. lia.
    + apply Forall_cons_2; [|done]. apply byte_lxor; [done|].
      destruct m; unfold byte; lia.
    + by apply be_val_half.
    + cbn [be_val]. rewrite B2, Z3, Z4.
      pose proof (be_val_range z Hz) as Rz. rewrite Z4 in Rz.
      rewrite !pow256 in * by apply zlen_nonneg.
      pose proof (zlen_nonneg v).
      destruct m.
      * rewrite lxor_join by lia. done.
      * rewrite !Z.lxor_0_r. done.
    + rewrite B3. apply be_val_parity.
Qed.

(** *** One step and the whole multiplication *)

Lemma step_mask_spec a i : block a → 0 ≤ i < 128 →
  gf128_step_mask a i = if Z.testbit (be_val a) (127 - i) then 255 else 0.
Proof.
  intros Ha Hi. rewrite testbit_be_val; [|apply Ha|rewrite block_zlen by done; lia].
  rewrite (block_zlen a Ha). unfold gf128_step_mask.
  rewrite (Z.shiftr_div_pow2 i 3) by lia. change (2 ^ 3) with 8.
  change 0xF with (2 ^ 4 - 1). change 7 with (2 ^ 3 - 1) at 2. rewrite !land_mask by lia.
  change (2 ^ 4) with 16. change (2 ^ 3) with 8.
  replace (16 - 1 - (127 - i) / 8) with ((i / 8) mod 16) by (Z.div_mod_to_equations; lia).
  replace ((127 - i) mod 8) with (7 - i mod 8) by (Z.div_mod_to_equations; lia).
  change 1 with (2 ^ 1 - 1) at 1. rewrite land_mask by lia.
  rewrite <- (Z.add_0_r (7 - i mod 8)) at 2.
  rewrite Z.add_comm, <- Z.shiftr_spec by lia. rewrite Z.bit0_odd.
  change (2 ^ 1) with 2. rewrite Zmod_odd. by destruct (Z.odd _).
Qed.

Lemma mul_step_spec a v z i : block a → block v → block z → 0 ≤ i < 128 →
  let '(v', z') := gf128_mul_step a v z i in
  block v' ∧ block z' ∧ be_val v' = xtime (be_val v) ∧
  be_val z' = Z.lxor (be_val z) (if Z.testbit (be_val a) (127 - i) then be_val v else 0).
Proof.
  intros Ha Hv Hz Hi. unfold gf128_mul_step. rewrite step_mask_spec by done.
  destruct (gf128_shift_loop _ 0 v z) as [[v1 z1] last] eqn:E.
  pose proof Hv as [Lv Ov]. pose proof Hz as [Lz Oz].
  apply shift_loop_spec in E as (L1 & O1 & L2 & O2 & B1 & B2 & B3); try done; [|lia].
  assert (Hb1 : block v1) by (split; [lia|done]).
  rewrite (block_zlen v Hv) in B1.
  assert (Hlast : Z.land last 1 = be_val v mod 2).
  { change 1 with (2 ^ 1 - 1). rewrite land_mask by lia. change (2 ^ 1) with 2.
    rewrite B3. by destruct v. }
  rewrite Hlast, Zmod_odd. split_and!.
  - destruct (Z.odd _); simpl; [|done]. split; [rewrite length_set_byte; lia|].
    apply bytes_ok_insert; [|done]. apply byte_lxor; [by apply byte_at_range|]. unfold byte; lia.
  - split; [lia|done].
  - unfold xtime. change (0 mod 2) with 0 in B1. rewrite Z.mul_0_l, Z.add_0_r in B1.
    rewrite <- B1. destruct (Z.odd (be_val v)); simpl; [|by rewrite Z.lxor_0_r].
    destruct v1 as [|c v1]; [simpl in L1; lia|].
    change (set_byte 0 _ (c :: v1)) with (Z.lxor c 225 :: v1). cbn [be_val].
    assert (zlen v1 = 15) as -> by (unfold zlen; simpl in L1; lia).
    apply Forall_cons in O1 as [_ O1]. pose proof (be_val_range2 v1 O1) as Rv.
    assert (H15 : zlen v1 = 15) by (unfold zlen; simpl in L1; lia). rewrite H15 in Rv.
    unfold R. change (256 ^ 15) with (2 ^ 120). rewrite <- (Z.add_0_r (225 * 2 ^ 120)).
    rewrite lxor_join by lia. by rewrite Z.lxor_0_r.
  - by rewrite B2.
Qed.

(** [n] steps from [i]: the terms [i .. i + n - 1] of the product are added to [z]. *)
Lemma mul_loop_spec a n : ∀ i v z, block a → block v → block z → 0 ≤ i → i + Z.of_nat n ≤ 128 →
  let '(v', z') := gf128_mul_loop n i a v z in
  block v' ∧ block z' ∧
  be_val z' = Z.lxor (be_val z)
    (xsum (λ j, if Z.testbit (be_val a) (127 - (i + Z.of_nat j)) then xtimes j (be_val v) else 0) n).
Proof.
  induction n as [|n IH]; intros i v z Ha Hv Hz Hi Hn.
  - simpl. rewrite Z.lxor_0_r. done.
  - cbn [gf128_mul_loop].
    pose proof (mul_step_spec a v z i Ha Hv Hz ltac:(lia)) as Hs.
    destruct (gf128_mul_step a v z i) as [v1 z1]. destruct Hs as (Hv1 & Hz1 & Ev1 & Ez1).
    specialize (IH (i + 1) v1 z1 Ha Hv1 Hz1 ltac:(lia) ltac:(lia)).
    destruct (gf128_mul_loop n (i + 1) a v1 z1) as [v' z'].
    destruct IH as (Hv' & Hz' & E). split_and!; [done..|].
    rewrite E, Ez1, Ev1, Z.lxor_assoc. f_equal. clear E.
    set (b := be_val v). set (m := be_val a).
    assert (Hshift : ∀ k, xsum (λ j, if Z.testbit m (127 - (i + Z.of_nat j)) then xtimes j b else 0) (S k)
      = Z.lxor (if Z.testbit m (127 - i) then b else 0)
          (xsum (λ j, if Z.testbit m (127 - (i + 1 + Z.of_nat j)) then xtimes j (xtime b) else 0) k)).
    { induction k as [|k IHk].
      - cbn [xsum]. rewrite Z.add_0_r, Z.lxor_0_r, Z.lxor_0_l. done.
      - cbn [xsum] in *. rewrite IHk, !Z.lxor_assoc. do 2 f_equal.
        replace (i + 1 + Z.of_nat k) with (i + Z.of_nat (S k)) by lia.
        by rewrite xtimes_S. }
    by rewrite Hshift.
Qed.

Lemma mul_spec a b : block a → block b →
  block (gf128_mul a b) ∧ be_val (gf128_mul a b) = mul (be_val a) (be_val b).
Proof.
  intros Ha Hb. unfold gf128_mul.
  pose proof (mul_loop_spec a 128 0 b (zeros 16) Ha Hb block_zeros ltac:(lia) ltac:(lia)) as H.
  destruct (gf128_mul_loop 128 0 a b (zeros 16)) as [v z]. destruct H as (_ & Hz & E).
  split; [done|]. cbn [snd]. rewrite E, be_val_zeros, Z.lxor_0_l. apply xsum_ext.
  intros i _. by rewrite Z.add_0_l.
Qed.

Lemma gf128_mul_block a b : block a → block b → block (gf128_mul a b).
Proof. intros. by apply mul_spec. Qed.
Lemma be_val_mul a b : block a → block b → be_val (gf128_mul a b) = mul (be_val a) (be_val b).
Proof. intros. by apply mul_spec. Qed.
#[export] Hint Resolve gf128_mul_block : gf128.

Lemma gf128_mul_ws_eq a b : fst (gf128_mul_ws a b) = gf128_mul a b.
Proof. unfold gf128_mul_ws, gf128_mul. by destruct (gf128_mul_loop _ _ _ _ _). Qed.

(** *** Powers *)

(** The square-and-multiply loop on field elements. *)
Lemma h_power_loop_spec n : ∀ power base result, block base → block result → 0 ≤ power →
  block (gf128_h_power_loop n power base result) ∧
  be_val (gf128_h_power_loop n power base result)
  = mul (be_val result) (pow (be_val base) (Z.to_nat (power mod 2 ^ Z.of_nat n))).
Proof.
  induction n as [|n IH]; intros power base result Hb Hr Hp.
  - simpl. rewrite Z.mod_1_r. split; [done|]. symmetry. apply mul_one_r. auto with gf128.
  - cbn [gf128_h_power_loop]. destruct (Z.ltb_spec 0 power) as [Hpos|Hz].
    + set (result' := if Z.land power 1 =? 0 then result else gf128_mul result base).
      assert (Hr' : block result') by (unfold result'; destruct (_ =? _); auto with gf128).
      destruct (IH (Z.shiftr power 1) (gf128_mul base base) result') as [Hbl E];
        [auto with gf128..|apply Z.shiftr_nonneg; lia|].
      split; [done|]. rewrite E. rewrite be_val_mul by done.
      set (B := be_val base). assert (HB : elt B) by (unfold B; auto with gf128).
      assert (E2 : mul B B = pow B 2).
      { change (pow B 2) with (mul B (mul B one)). by rewrite mul_one_r. }
      rewrite E2, pow_pow by done.
      rewrite Z.shiftr_div_pow2 by lia. change (2 ^ 1) with 2.
      replace (Z.of_nat (S n)) with (1 + Z.of_nat n) by lia.
      rewrite Z.pow_add_r, Z.rem_mul_r by lia. change (2 ^ 1) with 2.
      pose proof (Z.mod_pos_bound (power / 2) (2 ^ Z.of_nat n) ltac:(lia)).
      pose proof (Z.mod_pos_bound power 2 ltac:(lia)).
      rewrite Z2Nat.inj_add, Z2Nat.inj_mul by lia. change (Z.to_nat 2) with 2%nat.
      rewrite pow_add by done.
      unfold result'. change 1 with (2 ^ 1 - 1). rewrite land_mask by lia. change (2 ^ 1) with 2.
      rewrite Zmod_odd. destruct (Z.odd power).
      * change (1 =? 0) with false. cbv iota. rewrite be_val_mul by done. fold B.
        change (Z.to_nat 1) with 1%nat. rewrite pow_1 by done.
        apply mul_assoc; auto with gf128.
      * change (0 =? 0) with true. cbv iota. change (Z.to_nat 0) with 0%nat.
        change (pow B 0) with one. rewrite mul_one_l by auto with gf128. done.
    + replace power with 0 by lia. rewrite Z.mod_0_l by lia. simpl. split; [done|].
      symmetry. apply mul_one_r. auto with gf128.
Qed.

(** [h_powers[i]] is [H^(2^i)]. *)
Definition is_power_table (h : bytes) (t : list bytes) : Prop :=
  ∀ i, (i < 11)%nat → block (nth i t []) ∧
    be_val (nth i t []) = pow (be_val h) (2 ^ i).

Lemma table_loop_spec h t n : ∀ i power result,
  block h → is_power_table h t → (i + n <= 11)%nat → block result → 0 ≤ power →
  block (gf128_table_loop n (Z.of_nat i) t power result) ∧
  be_val (gf128_table_loop n (Z.of_nat i) t power result)
  = mul (be_val result)
      (pow (be_val h) (Z.to_nat (power / 2 ^ Z.of_nat i mod 2 ^ Z.of_nat n * 2 ^ Z.of_nat i))).
Proof.
  induction n as [|n IH]; intros i power result Hh Ht Hin Hr Hp.
  - simpl. rewrite Z.mod_1_r. split; [done|]. symmetry. apply mul_one_r. auto with gf128.
  - cbn [gf128_table_loop]. destruct (Z.ltb_spec 0 power) as [Hpos|Hz].
    + rewrite Nat2Z.id. destruct (Ht i ltac:(lia)) as [Hti Eti].
      set (bit := Z.land power (Z.shiftl 1 (Z.of_nat i)) =? 0).
      set (result' := if bit then result else gf128_mul result (nth i t [])).
      assert (Hr' : block result') by (unfold result'; destruct bit; auto with gf128).
      replace (Z.of_nat i + 1) with (Z.of_nat (S i)) by lia.
      destruct (IH (S i) power result' Hh Ht ltac:(lia) Hr' Hp) as [Hbl E].
      split; [done|]. rewrite E. clear E IH.
      set (H := be_val h). assert (HH : elt H) by (unfold H; auto with gf128).
      set (q := power / 2 ^ Z.of_nat i).
      replace (Z.of_nat (S i)) with (Z.of_nat i + 1) by lia.
      replace (Z.of_nat (S n)) with (1 + Z.of_nat n) by lia.
      rewrite !Z.pow_add_r, <- Z.div_div by lia. fold q. rewrite (Z.rem_mul_r q) by lia.
      change (2 ^ 1) with 2. set (I := 2 ^ Z.of_nat i).
      pose proof (Z.mod_pos_bound (q / 2) (2 ^ Z.of_nat n) ltac:(lia)) as Bq.
      set (m := (q / 2) mod 2 ^ Z.of_nat n) in *.
      pose proof (Z.mod_pos_bound q 2 ltac:(lia)) as Bq2.
      assert (0 < I) by (unfold I; lia).
      replace ((q mod 2 + 2 * m) * I) with (q mod 2 * I + m * (I * 2)) by lia.
      rewrite (Z2Nat.inj_add (q mod 2 * I)) by nia. rewrite pow_add by done.
      assert (Eb : bit = negb (Z.odd q)).
      { unfold bit, q. rewrite Z.shiftl_1_l.
        rewrite <- (Z.bit0_odd (power / _)), Z.div_pow2_bits by lia. rewrite Z.add_0_l.
        destruct (Z.testbit power (Z.of_nat i)) eqn:Eb; simpl.
        - apply Z.eqb_neq. intros E0.
          assert (Z.testbit (Z.land power (2 ^ Z.of_nat i)) (Z.of_nat i) = false)
            by (rewrite E0; apply Z.bits_0).
          rewrite Z.land_spec, Eb, Z.pow2_bits_true in * by lia. done.
        - apply Z.eqb_eq. apply Z.bits_inj'. intros k Hk. rewrite Z.land_spec, Z.bits_0.
          rewrite Z.pow2_bits_eqb by lia. destruct (Z.eqb_spec (Z.of_nat i) k) as [<-|].
          + by rewrite Eb.
          + apply andb_false_r. }
      unfold result'. rewrite Eb, Zmod_odd. destruct (Z.odd q); simpl negb; cbv iota.
      * rewrite be_val_mul by done. rewrite Eti. fold H.
        assert (EI : (2 ^ i)%nat = Z.to_nat (1 * I)).
        { unfold I. rewrite Z.mul_1_l. apply Nat2Z.inj. rewrite Nat2Z.inj_pow. rewrite Z2Nat.id by lia. done. }
        rewrite EI. apply mul_assoc; auto with gf128.
      * rewrite Z.mul_0_l. change (pow H (Z.to_nat 0)) with one.
        rewrite mul_one_l by auto with gf128. done.
    + replace power with 0 by lia. rewrite Z.div_0_l, Z.mod_0_l by lia. simpl. split; [done|].
      symmetry. apply mul_one_r. auto with gf128.
Qed.

Lemma h_power_ws_loop_eq n : ∀ power base r w,
  fst (gf128_h_power_ws_loop n power base r w) = gf128_h_power_loop n power base r.
Proof.
  induction n as [|n IH]; intros power base r w; [done|]. cbn [gf128_h_power_ws_loop gf128_h_power_loop].
  destruct (0 <? power); [|done].
  pose proof (gf128_mul_ws_eq base base) as E1. pose proof (gf128_mul_ws_eq r base) as E2.
  destruct (gf128_mul_ws base base), (gf128_mul_ws r base). cbn [fst] in *. subst.
  destruct (_ =? 0); apply IH.
Qed.

Lemma table_ws_loop_eq n : ∀ i t power r w,
  fst (gf128_table_ws_loop n i t power r w) = gf128_table_loop n i t power r.
Proof.
  induction n as [|n IH]; intros i t power r w; [done|]. cbn [gf128_table_ws_loop gf128_table_loop].
  destruct (0 <? power); [|done]. pose proof (gf128_mul_ws_eq r (nth (Z.to_nat i) t [])) as E.
  destruct (gf128_mul_ws _ _). cbn [fst] in E. subst. destruct (_ =? 0); apply IH.
Qed.

Lemma h_power_table_spec h t power : block h → is_power_table h t → 0 ≤ power < 2048 →
  block (gf128_h_power_table t power) ∧ be_val (gf128_h_power_table t power) = pow (be_val h) (Z.to_nat power).
Proof.
  intros Hh Ht Hp. destruct (table_loop_spec h t 11 0 power gf128_one Hh Ht ltac:(lia) block_one ltac:(lia)) as [B E].
  split; [exact B|]. unfold gf128_h_power_table. change (Z.of_nat 0) with 0 in E. rewrite E.
  change (2 ^ Z.of_nat 11) with 2048. change (2 ^ 0) with 1.
  rewrite Z.div_1_r, Z.mul_1_r, Z.mod_small, be_val_one, mul_one_l by (lia || apply pow_elt). done.
Qed.

(** *** The claims *)

(** C32: [gf128_mul] is multiplication in the field of GHASH, GF(2^128) with the
    polynomial x^128 + x^7 + x^2 + x + 1, on 16-byte blocks read big-endian; the
    workspace variant computes the same. *)
Theorem gf128_mul_correct a b : block a → block b →
  block (gf128_mul a b) ∧ be_val (gf128_mul a b) = mul (be_val a) (be_val b) ∧
  fst (gf128_mul_ws a b) = gf128_mul a b.
Proof.
  intros Ha Hb. destruct (mul_spec a b Ha Hb). split_and!; try done. apply gf128_mul_ws_eq.
Qed.

Lemma gf128_mul_correct_witness :
  block (gf128_mul (zeros 15 ++ [3]) gf128_one) ∧
  be_val (gf128_mul (zeros 15 ++ [3]) gf128_one) = mul (be_val (zeros 15 ++ [3])) (be_val gf128_one) ∧
  fst (gf128_mul_ws (zeros 15 ++ [3]) gf128_one) = gf128_mul (zeros 15 ++ [3]) gf128_one.
Proof.
  apply gf128_mul_correct; (split; [reflexivity|]); by_compute.
Defined.

(** C33: the square-and-multiply, the one that reads a table of the powers
    H^(2^i), and their workspace variants all compute the power, for every
    exponent of 11 bits. *)
Theorem gf128_h_power_correct h t power w :
  block h → is_power_table h t → 0 ≤ power < 2048 →
  let p := gf128_h_power h power in
  block p ∧ be_val p = pow (be_val h) (Z.to_nat power) ∧ gf128_h_power_table t power = p ∧
  fst (gf128_h_power_ws h power w) = p ∧ fst (gf128_h_power_table_ws t power w) = p.
Proof.
  intros Hh Ht Hp. cbn zeta. unfold gf128_h_power_ws, gf128_h_power_table_ws.
  rewrite h_power_ws_loop_eq, table_ws_loop_eq.
  destruct (h_power_loop_spec 11 power h gf128_one Hh block_one ltac:(lia)) as [B1 E1].
  destruct (h_power_table_spec h t power Hh Ht Hp) as [B2 E2].
  change (2 ^ Z.of_nat 11) with 2048 in *. rewrite Z.mod_small in E1 by lia.
  rewrite be_val_one, mul_one_l in E1 by apply pow_elt.
  assert (E : gf128_h_power_table t power = gf128_h_power h power).
  { apply block_inj; [exact B2|exact B1|exact (eq_trans E2 (eq_sym E1))]. }
  by split_and!.
Qed.

(** The table of the powers of [h], as the code fills it. *)
Definition power_table (h : bytes) : list bytes := map (λ i, gf128_h_power h (2 ^ Z.of_nat i)) (seq 0 11).

Lemma power_table_ok h : block h → is_power_table h (power_table h).
Proof.
  intros Hh i Hi.
  assert (E : nth i (power_table h) [] = gf128_h_power h (2 ^ Z.of_nat i)).
  { unfold power_table. by rewrite nth_lookup, list_lookup_fmap, lookup_seq_lt by lia. }
  rewrite E.
  destruct (h_power_loop_spec 11 (2 ^ Z.of_nat i) h gf128_one Hh block_one ltac:(lia)) as [B1 E1].
  split; [exact B1|]. unfold gf128_h_power. rewrite E1.
  rewrite Z.mod_small by (split; [lia|]; apply Z.pow_lt_mono_r; lia).
  rewrite be_val_one, mul_one_l by apply pow_elt. f_equal.
  apply Nat2Z.inj. rewrite Z2Nat.id by lia. by rewrite Nat2Z.inj_pow.
Qed.

Lemma gf128_h_power_correct_witness :
  let h := zeros 15 ++ [3] in
  gf128_h_power_table (power_table h) 1025 = gf128_h_power h 1025 ∧
  be_val (gf128_h_power h 1025) = pow (be_val h) 1025.
Proof.
  assert (Hb : block (zeros 15 ++ [3])) by (split; [reflexivity|]; by_compute).
  cbn zeta.
  destruct (gf128_h_power_correct (zeros 15 ++ [3]) (power_table (zeros 15 ++ [3])) 1025
    {| ws_v := []; ws_z := [] |} Hb (power_table_ok _ Hb) ltac:(lia)) as (_ & E & T & _).
  split; [exact T|exact E].
Defined.

End GF128Facts.
