(* ===== verification/Host.v ===== *)
(** * Host names, prefixes and lengths (pkg/ebpf/bpf/helpers.h)

    [Host]: the small helpers on host buffers and secret lengths: the scan for
    an HTTP Host header, the comparison of host buffers in 8-byte chunks, the
    clamp of a secret length, the placeholder prefixes. *)

From S2P Require Import Prelude.

Module Host.

Definition MAX_HOST_LEN : Z := 64.
Definition SECRET_MAX_LEN : Z := 128.
Definition MAX_DATA_SIZE : Z := 256.

(** "Host: " at index [i] of [data]. *)
Definition is_host_header (data : bytes) (i : Z) : bool :=
  (data.[i] =? 72) && (data.[i + 1] =? 111) && (data.[i + 2] =? 115) &&
  (data.[i + 3] =? 116) && (data.[i + 4] =? 58) && (data.[i + 5] =? 32).

(** [for (i = 0; i < MAX_DATA_SIZE; i++)]: [n] iterations from [i]; the result
    is [host_start]. *)
Fixpoint host_start_loop (n : nat) (i : Z) (data : bytes) (data_len : Z) : Z :=
  match n with
  | O => 0
  | S n' =>
      if data_len <? i + 6 then 0
      else if is_host_header data i then i + 6
      else host_start_loop n' (i + 1) data data_len
  end.

Definition host_end_char (c : Z) : bool := (c =? 13) || (c =? 10) || (c =? 58).

(** The copy loop: [n] iterations from [j]; returns [host_out] and [host_len]. *)
Fixpoint host_copy_loop (n : nat) (j : Z) (data : bytes) (data_len host_start host_max_len : Z)
    (host_out : bytes) (host_len : Z) : bytes * Z :=
  match n with
  | O => (host_out, host_len)
  | S n' =>
      if host_max_len <=? j then (host_out, host_len)
      else
        let idx := host_start + j in
        if data_len <=? idx then (host_out, host_len)
        else
          let c := data.[idx] in
          if host_end_char c then (host_out, host_len)
          else host_copy_loop n' (j + 1) data data_len host_start host_max_len
                 (set_byte j c host_out) (host_len + 1)
  end.

Definition parse_http_host (data : bytes) (data_len : Z) (host_out : bytes) (host_max_len : Z)
    : bytes * Z :=
  let data_len := if MAX_DATA_SIZE <? data_len then MAX_DATA_SIZE else data_len in
  let host_start := host_start_loop (Z.to_nat MAX_DATA_SIZE) 0 data data_len in
  if host_start =? 0 then (host_out, 0)
  else host_copy_loop (Z.to_nat MAX_HOST_LEN) 0 data data_len host_start host_max_len host_out 0.

(** [for (i = 0; i < MAX_HOST_LEN; i += 8)]: [n] chunks from offset [i]. *)
Fixpoint hosts_match_loop (n : nat) (i : Z) (a b : bytes) : bool :=
  match n with
  | O => true
  | S n' =>
      if le_val (slice a i 8) =? le_val (slice b i 8) then hosts_match_loop n' (i + 8) a b
      else false
  end.

Definition hosts_match (a b : bytes) : bool := hosts_match_loop 8 0 a b.

Definition clamp_write_len (val_len : Z) : Z := Z.land (u32 (val_len - 1)) (SECRET_MAX_LEN - 1) + 1.

Definition is_kloak_prefix (buf : bytes) : bool :=
  (buf.[0] =? 107) && (buf.[1] =? 108) && (buf.[2] =? 58) && (buf.[3] =? 58).

Definition is_kloak_prefix_huffman (buf : bytes) : bool :=
  (buf.[0] =? 0xeb) && (buf.[1] =? 0x45) && (buf.[2] =? 0xcb).

Definition KLOAK_CIPHER_UNKNOWN : Z := 0.
Definition KLOAK_CIPHER_AES_GCM : Z := 1.
Definition is_aes_gcm (cipher_type : Z) : bool := cipher_type =? KLOAK_CIPHER_AES_GCM.

(** *** The clamp *)

Lemma clamp_range v : 1 ≤ clamp_write_len v ≤ 128.
Proof.
  unfold clamp_write_len, SECRET_MAX_LEN. change (128 - 1) with (2 ^ 7 - 1).
  rewrite land_mask by lia. change (2 ^ 7) with 128. word_lia.
Qed.

Lemma clamp_id v : 1 ≤ v ≤ 128 → clamp_write_len v = v.
Proof.
  intros. unfold clamp_write_len, SECRET_MAX_LEN. change (128 - 1) with (2 ^ 7 - 1).
  rewrite land_mask, u32_small, Z.mod_small by lia. lia.
Qed.

(** *** Host buffers *)

(** A zero-padded host buffer. *)
Definition host_buf (l : bytes) : Prop := length l = 64%nat ∧ bytes_ok l.

Lemma hosts_match_loop_spec n : ∀ i a b,
  bytes_ok a → bytes_ok b → 0 ≤ i → i + 8 * Z.of_nat n ≤ zlen a → zlen a = zlen b →
  hosts_match_loop n i a b = true ↔ slice a i (8 * n) = slice b i (8 * n).
Proof.
  induction n as [|n IH]; intros i a b Ha Hb Hi Hn Hab; [done|].
  cbn [hosts_match_loop].
  replace (8 * S n)%nat with (8 + 8 * n)%nat by lia. rewrite !slice_app_split by lia.
  assert (L1 : length (slice a i 8) = 8%nat) by (apply length_slice; lia).
  assert (L2 : length (slice b i 8) = 8%nat) by (apply length_slice; lia).
  destruct (Z.eqb_spec (le_val (slice a i 8)) (le_val (slice b i 8))) as [E|E].
  - apply le_val_inj in E; [|by apply slice_ok|by apply slice_ok|lia].
    rewrite E, IH by (done || lia). split.
    + intros H. change (Z.of_nat 8) with 8. by rewrite H.
    + intros H. by apply app_inv_head in H.
  - split; [done|]. intros H. apply app_inj_1 in H as [H _]; [|lia]. congruence.
Qed.

Lemma hosts_match_eq a b : host_buf a → host_buf b → hosts_match a b = true ↔ a = b.
Proof.
  intros [La Ha] [Lb Hb]. unfold hosts_match.
  rewrite hosts_match_loop_spec by (done || unfold zlen; lia).
  unfold slice. rewrite !drop_0, !take_ge by lia. done.
Qed.

Lemma hosts_match_false a b : host_buf a → host_buf b → hosts_match a b = false ↔ a ≠ b.
Proof.
  intros Ha Hb. rewrite <- not_true_iff_false, hosts_match_eq by done. done.
Qed.

Lemma hosts_match_refl a : hosts_match a a = true.
Proof.
  unfold hosts_match. generalize 0. generalize 8%nat.
  intros n. induction n as [|n IH]; intros i; simpl; [done|]. by rewrite Z.eqb_refl.
Qed.

(** *** The Host header *)

(** The first index from [i] below [data_len - 5] where the header starts. *)
Definition first_header (data : bytes) (data_len p : Z) : Prop :=
  0 ≤ p ∧ p + 6 ≤ data_len ∧ is_host_header data p = true ∧
  ∀ q, 0 ≤ q < p → is_host_header data q = false.

Lemma host_start_loop_spec n : ∀ i data data_len,
  0 ≤ i → data_len ≤ i + Z.of_nat n + 5 →
  (∀ q, 0 ≤ q < i → is_host_header data q = false) →
  let s := host_start_loop n i data data_len in
  (s = 0 ∧ ∀ q, 0 ≤ q → q + 6 ≤ data_len → is_host_header data q = false) ∨
  (6 ≤ s ∧ first_header data data_len (s - 6)).
Proof.
  induction n as [|n IH]; intros i data data_len Hi Hn Hq; cbn [host_start_loop].
  - left. split; [done|]. intros q H1 H2. apply Hq. lia.
  - destruct (Z.ltb_spec data_len (i + 6)).
    + left. split; [done|]. intros q H1 H2. apply Hq. lia.
    + destruct (is_host_header data i) eqn:E.
      * right. split; [lia|]. replace (i + 6 - 6) with i by lia. by split_and!.
      * apply IH; [lia|lia|]. intros q H1. destruct (Z.eq_dec q i) as [->|]; [done|].
        apply Hq. lia.
Qed.

Lemma host_copy_loop_spec n : ∀ j data data_len start max out len out' len',
  0 ≤ j → 0 ≤ start → len = j → j + Z.of_nat n ≤ zlen out →
  host_copy_loop n j data data_len start max out len = (out', len') →
  len ≤ len' ≤ len + Z.of_nat n ∧ length out' = length out ∧
  (∀ k, 0 ≤ k → out'.[k] = if (j <=? k) && (k <? len') then data.[start + k] else out.[k]) ∧
  (∀ k, j ≤ k < len' → k < max ∧ start + k < data_len ∧ host_end_char (data.[start + k]) = false) ∧
  (len' = j + Z.of_nat n ∨ max ≤ len' ∨ data_len ≤ start + len' ∨
   host_end_char (data.[start + len']) = true).
Proof.
  induction n as [|n IH]; intros j data data_len start max out len out' len' Hj Hs -> Hout E;
    cbn [host_copy_loop] in E.
  { simplify_eq. split_and!; [lia|lia|done| |intros; lia|lia].
    intros k Hk. destruct (Z.leb_spec len' k), (Z.ltb_spec k len'); done || lia. }
  assert (Hstop : ∀ P : Prop, P → (out, j) = (out', len') →
    (P → len' = j + Z.of_nat (S n) ∨ max ≤ len' ∨ data_len ≤ start + len' ∨
         host_end_char (data.[start + len']) = true) →
    j ≤ len' ≤ j + Z.of_nat (S n) ∧ length out' = length out ∧
    (∀ k, 0 ≤ k → out'.[k] = if (j <=? k) && (k <? len') then data.[start + k] else out.[k]) ∧
    (∀ k, j ≤ k < len' → k < max ∧ start + k < data_len ∧ host_end_char (data.[start + k]) = false) ∧
    (len' = j + Z.of_nat (S n) ∨ max ≤ len' ∨ data_len ≤ start + len' ∨
     host_end_char (data.[start + len']) = true)).
  { intros P HP E' HPc. simplify_eq. split_and!; [lia|lia|done| |intros; lia|by apply HPc].
    intros k Hk. destruct (Z.leb_spec len' k), (Z.ltb_spec k len'); done || lia. }
  destruct (Z.leb_spec max j); [apply (Hstop (max ≤ j)); [done|done|]; intros; simplify_eq; lia|].
  destruct (Z.leb_spec data_len (start + j));
    [apply (Hstop (data_len ≤ start + j)); [done|done|]; intros; simplify_eq; lia|].
  destruct (host_end_char (data.[start + j])) eqn:Ec;
    [apply (Hstop True); [done|done|]; intros _; simplify_eq; auto|].
  clear Hstop. apply IH in E as (H1 & H2 & H3 & H4 & H5); try lia.
  2:{ unfold zlen in *. rewrite length_set_byte. lia. }
  split_and!; [lia|lia|rewrite H2; apply length_set_byte| | |].
  - intros k Hk. rewrite H3 by done. rewrite byte_at_set by lia.
    destruct (Z.leb_spec (j + 1) k), (Z.ltb_spec k len'), (Z.leb_spec j k), (Z.eqb_spec k j);
      simpl; try lia; try done.
    subst k. destruct (Z.ltb_spec j (zlen out)); [done|lia].
  - intros k Hk. destruct (Z.eq_dec k j) as [->|]; [done|]. apply H4. lia.
  - destruct H5 as [H5|H5]; [left; lia|right; done].
Qed.

(** *** The claims *)

(** Two zero-padded host buffers match exactly when they are equal. *)
Theorem hosts_match_correct a b : host_buf a → host_buf b → hosts_match a b = true ↔ a = b.
Proof. apply hosts_match_eq. Qed.

Lemma hosts_match_correct_witness :
  hosts_match (97 :: zeros 63) (97 :: zeros 63) = true ∧ hosts_match (97 :: zeros 63) (98 :: zeros 63) ≠ true.
Proof.
  assert (H : ∀ c, 0 ≤ c < 256 → host_buf (c :: zeros 63)).
  { intros c Hc. split; [reflexivity|]. apply Forall_cons. split; [exact Hc|apply bytes_ok_zeros]. }
  split.
  - apply (hosts_match_correct (97 :: zeros 63) (97 :: zeros 63)); [apply H; lia..|reflexivity].
  - intros E. apply (hosts_match_correct (97 :: zeros 63) (98 :: zeros 63)) in E; [discriminate E|apply H; lia..].
Defined.

(** C39: [parse_http_host] copies the value of the first Host header that starts
    in the bytes it may read, up to a CR, LF, colon, the end of the data or the
    room for it, and nothing when there is none. *)
Theorem parse_http_host_correct data data_len out max :
  zlen out = 64 → 0 ≤ data_len →
  let n := Z.min 256 data_len in
  let '(out', len) := parse_http_host data data_len out max in
  (len = 0 ∧ out' = out ∧ ∀ q, 0 ≤ q → q + 6 ≤ n → is_host_header data q = false) ∨
  ∃ p, first_header data n p ∧ 0 ≤ len ≤ 64 ∧ zlen out' = 64 ∧
    (∀ k, 0 ≤ k < len → out'.[k] = data.[p + 6 + k] ∧ k < max ∧ p + 6 + k < n ∧
      host_end_char (data.[p + 6 + k]) = false) ∧
    (∀ k, len ≤ k → out'.[k] = out.[k]) ∧
    (len = 64 ∨ max ≤ len ∨ n ≤ p + 6 + len ∨ host_end_char (data.[p + 6 + len]) = true).
Proof.
  intros Ho Hd. cbn zeta. unfold parse_http_host.
  replace (if MAX_DATA_SIZE <? data_len then MAX_DATA_SIZE else data_len) with (Z.min 256 data_len)
    by (unfold MAX_DATA_SIZE; destruct (Z.ltb_spec 256 data_len); lia).
  set (n := Z.min 256 data_len). assert (0 ≤ n ≤ 256) by lia. clearbody n.
  pose proof (host_start_loop_spec (Z.to_nat MAX_DATA_SIZE) 0 data n ltac:(lia)) as H1.
  change (Z.of_nat (Z.to_nat MAX_DATA_SIZE)) with 256 in H1.
  specialize (H1 ltac:(lia) ltac:(lia)). cbn zeta in H1.
  set (st := host_start_loop _ 0 data n) in *. clearbody st.
  destruct H1 as [[-> Hno]|[Hst Hh]]; [by left|].
  destruct (Z.eqb_spec st 0); [lia|].
  destruct (host_copy_loop (Z.to_nat MAX_HOST_LEN) 0 data n st max out 0) as [out' len] eqn:E.
  apply host_copy_loop_spec in E as (L1 & L2 & L3 & L4 & L5); [|lia..|].
  2:{ rewrite Ho. unfold MAX_HOST_LEN. lia. }
  change (Z.of_nat (Z.to_nat MAX_HOST_LEN)) with 64 in *. unfold zlen in *.
  right. exists (st - 6). replace (st - 6 + 6) with st by lia. split_and!; try done; try lia.
  - intros k Hk. destruct (L4 k ltac:(lia)) as (M1 & M2 & M3). split_and!; try done.
    rewrite L3 by lia. destruct (Z.leb_spec 0 k), (Z.ltb_spec k len); try lia. done.
  - intros k Hk. rewrite L3 by lia. destruct (Z.ltb_spec k len); [lia|]. by rewrite andb_false_r.
Qed.

Lemma parse_http_host_correct_witness :
  let data := [10; 72; 111; 115; 116; 58; 32; 97; 98; 13] in
  parse_http_host data 10 (zeros 64) 64 = ([97; 98] ++ zeros 62, 2) ∧
  ((2 = 0 ∧ [97; 98] ++ zeros 62 = zeros 64 ∧ ∀ q, 0 ≤ q → q + 6 ≤ 10 → is_host_header data q = false) ∨
   ∃ p, first_header data 10 p ∧ 0 ≤ 2 ≤ 64 ∧ zlen ([97; 98] ++ zeros 62) = 64 ∧
    (∀ k, 0 ≤ k < 2 → ([97; 98] ++ zeros 62).[k] = data.[p + 6 + k] ∧ k < 64 ∧ p + 6 + k < 10 ∧
      host_end_char (data.[p + 6 + k]) = false) ∧
    (∀ k, 2 ≤ k → ([97; 98] ++ zeros 62).[k] = (zeros 64).[k]) ∧
    (2 = 64 ∨ 64 ≤ 2 ∨ 10 ≤ p + 6 + 2 ∨ host_end_char (data.[p + 6 + 2]) = true)).
Proof.
  cbn zeta. split; [vm_compute; reflexivity|].
  exact (parse_http_host_correct [10; 72; 111; 115; 116; 58; 32; 97; 98; 13] 10 (zeros 64) 64
    eq_refl ltac:(lia)).
Defined.

End Host.
