(* ===== verification/Ghash.v ===== *)
(** * GHASH and the GCM tag

    [Ghash]: GHASH and the AES-GCM tag as NIST SP 800-38D defines them, over
    the field of GF128.v, and the identity the data plane relies on: changing
    ciphertext bytes changes the tag by a sum of the changes of the blocks, each
    times a power of H, whatever the key stream and the other blocks are.
    [GhashCode]: [ghash_block_delta] and [gf128_halve_to_h] of helpers.h against
    their specifications. *)

From S2P Require Import Prelude GF128 Host.
Import Field GF128Facts.

Module Ghash.

(** SP 800-38D algorithm 2. *)
Definition ghash (h : Z) (xs : list Z) : Z := foldl (λ y x, mul (Z.lxor y x) h) 0 xs.

(** Block [b] of a byte string, padded with zeros to 16 bytes. *)
Definition block_at (l : bytes) (b : nat) : Z :=
  be_val (map (λ i, l.[16 * Z.of_nat b + Z.of_nat i]) (seq 0 16)).

Definition n_blocks (l : bytes) : nat := Z.to_nat ((zlen l + 15) / 16).
Definition blocks (l : bytes) : list Z := map (block_at l) (seq 0 (n_blocks l)).

(** The last block: the bit lengths of the additional data and the ciphertext. *)
Definition len_block (aad ct : bytes) : Z := 8 * zlen aad * 2 ^ 64 + 8 * zlen ct.

(** The tag of ciphertext [ct] with additional data [aad], hash subkey [h], and
    [ek0] the encrypted first counter block. *)
Definition gcm_tag (h ek0 : Z) (aad ct : bytes) : Z :=
  Z.lxor (ghash h (blocks aad ++ blocks ct ++ [len_block aad ct])) ek0.

(** *** GHASH as a sum *)

Lemma ghash_snoc h xs x : ghash h (xs ++ [x]) = mul (Z.lxor (ghash h xs) x) h.
Proof. unfold ghash. by rewrite foldl_snoc. Qed.

Lemma xsum_add f m n : xsum f (m + n) = Z.lxor (xsum f m) (xsum (λ i, f (m + i)%nat) n).
Proof.
  induction n as [|n IH].
  - rewrite Nat.add_0_r. simpl. by rewrite Z.lxor_0_r.
  - rewrite Nat.add_succ_r. simpl. by rewrite IH, Z.lxor_assoc.
Qed.

Lemma nth_elt xs i : Forall elt xs → elt (nth i xs 0).
Proof.
  intros H. rewrite nth_lookup. destruct (xs !! i) eqn:E; [|apply zero_elt].
  by apply (Forall_lookup_1 _ _ _ _ H E).
Qed.

Lemma ghash_xsum h xs : elt h → Forall elt xs →
  ghash h xs = xsum (λ i, mul (nth i xs 0) (pow h (length xs - i))) (length xs).
Proof.
  intros Hh. induction xs as [|x xs IH] using rev_ind; intros Hxs; [done|].
  apply Forall_app in Hxs as [Hxs Hx]. apply Forall_singleton in Hx.
  rewrite ghash_snoc, IH by done. rewrite length_app. cbn [length].
  rewrite Nat.add_1_r. cbn [xsum]. rewrite mul_lxor_l. f_equal.
  - rewrite (mul_comm _ h); [|apply xsum_elt; intros; auto with gf128|done].
    rewrite (linear_xsum (mul h)). apply xsum_ext. intros i Hi.
    rewrite app_nth1 by lia. replace (S (length xs) - i)%nat with (S (length xs - i)) by lia.
    rewrite pow_S. apply mul_swap.
  - rewrite app_nth2, Nat.sub_diag by lia. cbn [nth].
    replace (S (length xs) - length xs)%nat with 1%nat by lia. by rewrite pow_1.
Qed.

(** Replacing the blocks [c] by [c'] in the middle changes GHASH by the sum of
    the changes times the powers of [h]; the last block of [c] has power 2, the
    block after it (the lengths) power 1. *)
Lemma ghash_replace h a c c' l :
  elt h → Forall elt a → Forall elt c → Forall elt c' → elt l → length c' = length c →
  ghash h (a ++ c' ++ [l]) =
  Z.lxor (ghash h (a ++ c ++ [l]))
    (xsum (λ b, mul (Z.lxor (nth b c 0) (nth b c' 0)) (pow h (length c - b + 1))) (length c)).
Proof.
  intros Hh Ha Hc Hc' Hl Hlen.
  assert (Hsplit : ∀ c0, Forall elt c0 → length c0 = length c →
    ghash h (a ++ c0 ++ [l]) =
    Z.lxor (Z.lxor (xsum (λ i, mul (nth i a 0) (pow h (length a + S (length c) - i))) (length a))
      (xsum (λ b, mul (nth b c0 0) (pow h (length c - b + 1))) (length c))) (mul l h)).
  { intros c0 Hc0 E. rewrite ghash_xsum; [|done|].
    2:{ rewrite !Forall_app, Forall_singleton. auto. }
    rewrite !length_app. cbn [length]. rewrite E, Nat.add_1_r, xsum_add.
    rewrite Z.lxor_assoc. f_equal.
    { apply xsum_ext. intros i Hi. rewrite app_nth1 by lia. done. }
    cbn [xsum]. f_equal.
    - apply xsum_ext. intros b Hb. rewrite app_nth2, app_nth1 by lia.
      do 3 f_equal; lia.
    - rewrite app_nth2, app_nth2, <- E by lia.
      replace (length a + length c0 - length a - length c0)%nat with 0%nat by lia. cbn [nth].
      replace (length a + S (length c0) - (length a + length c0))%nat with 1%nat by lia.
      by rewrite pow_1. }
  rewrite !Hsplit by done.
  set (A := xsum _ (length a)). set (L := mul l h).
  assert (E : xsum (λ b, mul (nth b c' 0) (pow h (length c - b + 1))) (length c) =
    Z.lxor (xsum (λ b, mul (nth b c 0) (pow h (length c - b + 1))) (length c))
     (xsum (λ b, mul (Z.lxor (nth b c 0) (nth b c' 0)) (pow h (length c - b + 1))) (length c))).
  { rewrite <- xsum_lxor. apply xsum_ext. intros b _.
    rewrite <- mul_lxor_l, <- Z.lxor_assoc, Z.lxor_nilpotent, Z.lxor_0_l. done. }
  rewrite E. rewrite !Z.lxor_assoc. do 2 f_equal. apply Z.lxor_comm.
Qed.

(** *** The tag under a change of ciphertext bytes *)

Lemma block_at_elt l b : bytes_ok l → elt (block_at l b).
Proof.
  intros Hl. apply (be_val_range2 (map _ (seq 0 16))).
  apply Forall_fmap, Forall_forall. intros i _. by apply byte_at_range.
Qed.

Lemma blocks_elt l : bytes_ok l → Forall elt (blocks l).
Proof. intros. apply Forall_fmap, Forall_forall. intros i _. by apply block_at_elt. Qed.

Lemma length_blocks l : length (blocks l) = n_blocks l.
Proof. unfold blocks. by rewrite length_map, length_seq. Qed.

Lemma nth_blocks l b : (b < n_blocks l)%nat → nth b (blocks l) 0 = block_at l b.
Proof.
  intros. rewrite nth_lookup. unfold blocks. rewrite list_lookup_fmap, lookup_seq_lt by lia. done.
Qed.

(** [delta_at δ b]: block [b] of the change [δ], a byte for each position. *)
Definition delta_at (δ : Z → Z) (b : nat) : Z :=
  be_val (map (λ i, δ (16 * Z.of_nat b + Z.of_nat i)) (seq 0 16)).

Lemma block_at_xor l l' δ b :
  bytes_ok l → (∀ p, 0 ≤ p → byte (δ p)) →
  (∀ p, 0 ≤ p → l'.[p] = Z.lxor (l.[p]) (δ p)) →
  block_at l' b = Z.lxor (block_at l b) (delta_at δ b).
Proof.
  intros Hl Hδ H. unfold block_at, delta_at. rewrite <- be_val_xor.
  - f_equal. unfold xor_bytes. rewrite zip_with_fmap_l, zip_with_fmap_r, zip_with_diag.
    apply list_fmap_ext. intros i x _. apply H. lia.
  - apply Forall_fmap, Forall_forall. intros. by apply byte_at_range.
  - apply Forall_fmap, Forall_forall. intros. apply Hδ. simpl. lia.
  - by rewrite !length_map.
Qed.

(** The correction of the tag for a change [δ] of [n] ciphertext blocks. *)
Definition tag_correction (h : Z) (δ : Z → Z) (n : nat) : Z :=
  xsum (λ b, mul (delta_at δ b) (pow h (n - b + 1))) n.

Lemma gcm_tag_change h ek0 aad ct ct' δ :
  elt h → bytes_ok aad → bytes_ok ct → bytes_ok ct' → length ct' = length ct →
  zlen ct < 2 ^ 40 → zlen aad < 2 ^ 40 →
  (∀ p, 0 ≤ p → byte (δ p)) →
  (∀ p, 0 ≤ p → ct'.[p] = Z.lxor (ct.[p]) (δ p)) →
  gcm_tag h ek0 aad ct' = Z.lxor (gcm_tag h ek0 aad ct) (tag_correction h δ (n_blocks ct)).
Proof.
  intros Hh Ha Hc Hc' Hlen Hsz Hsza Hδ H. unfold gcm_tag, tag_correction.
  assert (En : n_blocks ct' = n_blocks ct) by (unfold n_blocks, zlen; by rewrite Hlen).
  assert (El : len_block aad ct' = len_block aad ct) by (unfold len_block, zlen; by rewrite Hlen).
  rewrite El, (ghash_replace h (blocks aad) (blocks ct) (blocks ct'));
    try done; try (by apply blocks_elt).
  - rewrite length_blocks, !Z.lxor_assoc. f_equal. rewrite Z.lxor_comm. f_equal.
    apply xsum_ext. intros b Hb. rewrite !nth_blocks by lia. f_equal.
    rewrite (block_at_xor ct ct' δ b) by done.
    by rewrite <- Z.lxor_assoc, Z.lxor_nilpotent, Z.lxor_0_l.
  - pose proof (zlen_nonneg ct). pose proof (zlen_nonneg aad). unfold elt, len_block. lia.
  - by rewrite !length_blocks.
Qed.

(** The correction is additive in the change, and a block that does not change
    adds nothing. *)
Lemma delta_at_lxor δ1 δ2 b : (∀ p, byte (δ1 p)) → (∀ p, byte (δ2 p)) →
  delta_at (λ p, Z.lxor (δ1 p) (δ2 p)) b = Z.lxor (delta_at δ1 b) (delta_at δ2 b).
Proof.
  intros H1 H2. unfold delta_at. rewrite <- be_val_xor.
  - by unfold xor_bytes; rewrite zip_with_fmap_l, zip_with_fmap_r, zip_with_diag.
  - apply Forall_fmap, Forall_forall. intros. apply H1.
  - apply Forall_fmap, Forall_forall. intros. apply H2.
  - by rewrite !length_map.
Qed.

Lemma delta_at_zero δ b : (∀ i, 0 ≤ i < 16 → δ (16 * Z.of_nat b + i) = 0) → delta_at δ b = 0.
Proof.
  intros H. unfold delta_at. transitivity (be_val (zeros 16)); [|reflexivity]. f_equal.
  apply list_eq. intros i. rewrite list_lookup_fmap. destruct (decide (i < 16)%nat).
  - rewrite lookup_seq_lt by lia. unfold zeros. rewrite lookup_replicate_2 by lia. cbn. f_equal. apply H. lia.
  - rewrite lookup_seq_ge by lia. unfold zeros. by rewrite lookup_ge_None_2 by (rewrite length_replicate; lia).
Qed.

Lemma tag_correction_lxor h δ1 δ2 n : (∀ p, byte (δ1 p)) → (∀ p, byte (δ2 p)) →
  tag_correction h (λ p, Z.lxor (δ1 p) (δ2 p)) n = Z.lxor (tag_correction h δ1 n) (tag_correction h δ2 n).
Proof.
  intros H1 H2. unfold tag_correction. rewrite <- xsum_lxor. apply xsum_ext. intros b _.
  by rewrite delta_at_lxor, mul_lxor_l.
Qed.

Lemma tag_correction_0 h n : tag_correction h (λ _, 0) n = 0.
Proof.
  unfold tag_correction. transitivity (xsum (λ _, 0) n); [|apply xsum_zero]. apply xsum_ext. intros b _.
  rewrite delta_at_zero by done. apply mul_0_l.
Qed.

Lemma tag_correction_ext h δ1 δ2 n : (∀ p, 0 ≤ p → δ1 p = δ2 p) → tag_correction h δ1 n = tag_correction h δ2 n.
Proof.
  intros H. unfold tag_correction. apply xsum_ext. intros b _. f_equal. unfold delta_at. f_equal.
  apply list_fmap_ext. intros i x _. apply H. lia.
Qed.

(** A sum whose terms vanish outside a window. *)
Lemma xsum_window f n a m : (a + m <= n)%nat → (∀ b, (b < n)%nat → ¬ (a <= b < a + m)%nat → f b = 0) →
  xsum f n = xsum (λ k, f (a + k)%nat) m.
Proof.
  intros Hn Hz. replace n with (a + (m + (n - (a + m))))%nat by lia. rewrite !xsum_add.
  transitivity (Z.lxor 0 (Z.lxor (xsum (λ k, f (a + k)%nat) m) 0)).
  - f_equal; [|f_equal].
    + transitivity (xsum (λ _, 0) a); [|apply xsum_zero]. apply xsum_ext. intros. apply Hz; lia.
    + transitivity (xsum (λ _, 0) (n - (a + m))); [|apply xsum_zero]. apply xsum_ext. intros. apply Hz; lia.
  - by rewrite Z.lxor_0_l, Z.lxor_0_r.
Qed.

End Ghash.

(** ** helpers.h *)

Module GhashCode.
Import GF128 Ghash Host.

(** 64-bit complement. *)
Definition lnot64 (x : Z) : Z := Z.lxor x 0xFFFFFFFFFFFFFFFF.

Definition ghash_block_delta (xor_delta : bytes) (block sec_off len : Z) : bytes :=
  let start := u64 (Z.land block 0x3FF * 16 - sec_off) in
  map (λ i,
    let d := u64 (start + Z.of_nat i) in
    let in_ := u8 (Z.shiftr (Z.land (lnot64 d) (u64 (d - len))) 63) in
    u8 (Z.land (xor_delta.[Z.land d (SECRET_MAX_LEN - 1)]) (- in_))) (seq 0 16).

(** The change a patch makes at position [p] of the ciphertext. *)
Definition patch_delta (xor_delta : bytes) (sec_off len p : Z) : Z :=
  if (sec_off <=? p) && (p <? sec_off + len) then xor_delta.[p - sec_off] else 0.

Lemma in_patch_bit x len : - 2 ^ 40 ≤ x < 2 ^ 40 → 0 ≤ len ≤ 128 →
  u8 (Z.shiftr (Z.land (lnot64 (u64 x)) (u64 (u64 x - len))) 63)
  = if (0 <=? x) && (x <? len) then 1 else 0.
Proof.
  intros Hx Hlen. rewrite Z.shiftr_land.
  assert (E1 : Z.shiftr (lnot64 (u64 x)) 63 = if x <? 0 then 0 else 1).
  { unfold lnot64. rewrite Z.shiftr_lxor, u64_top by lia. by destruct (x <? 0). }
  assert (E2 : u64 (u64 x - len) = u64 (x - len)).
  { unfold u64. by rewrite Zminus_mod_idemp_l. }
  rewrite E1, E2, u64_top by lia.
  destruct (Z.ltb_spec x 0), (Z.ltb_spec (x - len) 0), (Z.leb_spec 0 x), (Z.ltb_spec x len);
    try lia; done.
Qed.

Lemma ghash_block_delta_spec xor_delta b sec_off len :
  bytes_ok xor_delta → 0 ≤ b < 1024 → 0 ≤ sec_off < 2 ^ 32 → 0 ≤ len ≤ 128 →
  ghash_block_delta xor_delta b sec_off len =
  map (λ i, patch_delta xor_delta sec_off len (16 * b + Z.of_nat i)) (seq 0 16).
Proof.
  intros Hd Hb Hs Hl. unfold ghash_block_delta. apply list_fmap_ext.
  intros k i Hk. apply lookup_seq in Hk as [-> Hi]. rewrite Nat.add_0_l in *. rename k into i.
  assert (Eb : Z.land b 0x3FF = b).
  { change 0x3FF with (2 ^ 10 - 1). rewrite land_mask by lia. apply Z.mod_small. lia. }
  rewrite Eb. set (x := b * 16 - sec_off + Z.of_nat i).
  assert (Ex : u64 (u64 (b * 16 - sec_off) + Z.of_nat i) = u64 x).
  { unfold u64, x. by rewrite Zplus_mod_idemp_l. }
  rewrite Ex, in_patch_bit by (unfold x; lia). unfold patch_delta.
  replace (16 * b + Z.of_nat i - sec_off) with x by (unfold x; lia).
  replace (sec_off <=? 16 * b + Z.of_nat i) with (0 <=? x)
    by (unfold x; destruct (Z.leb_spec 0 (b * 16 - sec_off + Z.of_nat i)),
          (Z.leb_spec sec_off (16 * b + Z.of_nat i)); lia || done).
  replace (16 * b + Z.of_nat i <? sec_off + len) with (x <? len)
    by (unfold x; destruct (Z.ltb_spec (b * 16 - sec_off + Z.of_nat i) len),
          (Z.ltb_spec (16 * b + Z.of_nat i) (sec_off + len)); lia || done).
  destruct ((0 <=? x) && (x <? len)) eqn:E.
  - zbool. unfold SECRET_MAX_LEN. change (128 - 1) with (2 ^ 7 - 1).
    rewrite land_mask, u64_small by lia. rewrite (Z.mod_small x) by lia.
    change (- (1)) with (-1). rewrite Z.land_m1_r. apply u8_small. by apply byte_at_range.
  - change (- 0) with 0. by rewrite Z.land_0_r.
Qed.

Lemma block_delta_spec xor_delta b sec_off len :
  bytes_ok xor_delta → 0 ≤ b < 1024 → 0 ≤ sec_off < 2 ^ 32 → 0 ≤ len ≤ 128 →
  block (ghash_block_delta xor_delta b sec_off len) ∧
  be_val (ghash_block_delta xor_delta b sec_off len) =
    delta_at (patch_delta xor_delta sec_off len) (Z.to_nat b).
Proof.
  intros Hd Hb Hs Hl. rewrite ghash_block_delta_spec by done. unfold delta_at. rewrite Z2Nat.id by lia.
  split; [|done]. split; [by rewrite length_map, length_seq|].
  apply Forall_fmap, Forall_forall. intros i _. simpl. unfold patch_delta.
  destruct (_ && _); [by apply byte_at_range|unfold byte; lia].
Qed.

(** *** The doubled subkey *)

Definition POLY : Z := 0xC2 * 2 ^ 120 + 1.

(** The value carry-less-multiply GHASH code stores for the subkey [n]. *)
Definition double_h (n : Z) : Z :=
  Z.lxor ((2 * n) mod 2 ^ 128) (if Z.testbit n 127 then POLY else 0).

Lemma be64_bytes_be_bytes x : be64_bytes x = be_bytes 8 x.
Proof.
  unfold be64_bytes. cbn [seq map be_bytes]. rewrite !shr_div by lia.
  repeat (f_equal; [reflexivity|]). done.
Qed.

Lemma pair_bytes_val hi lo : 0 ≤ hi < 2 ^ 64 → 0 ≤ lo < 2 ^ 64 →
  block (be64_bytes hi ++ be64_bytes lo) ∧
  be_val (be64_bytes hi ++ be64_bytes lo) = hi * 2 ^ 64 + lo.
Proof.
  intros Hh Hl. rewrite !be64_bytes_be_bytes. split.
  - split; [by rewrite length_app, !length_be_bytes|].
    apply bytes_ok_app. split; apply be_bytes_ok.
  - rewrite be_val_app, !be_val_be_bytes. unfold zlen. rewrite length_be_bytes.
    change (256 ^ Z.of_nat 8) with (2 ^ 64). by rewrite !Z.mod_small by lia.
Qed.

(** Half of [v], with bit 127 set when [v] was reduced. *)
Lemma halve_pair lo hi : 0 ≤ lo < 2 ^ 64 → 0 ≤ hi < 2 ^ 64 →
  let v := hi * 2 ^ 64 + lo in
  block (gf128_halve_to_h lo hi) ∧
  be_val (gf128_halve_to_h lo hi) =
    (if Z.odd v then Z.lxor v POLY / 2 + 2 ^ 127 else v / 2).
Proof.
  intros Hlo Hhi v.
  assert (Hodd : Z.land lo 1 = if Z.odd v then 1 else 0).
  { change 1 with (2 ^ 1 - 1) at 1. rewrite land_mask by lia. change (2 ^ 1) with 2.
    rewrite Zmod_odd. unfold v. rewrite Z.odd_add, Z.odd_mul. by rewrite andb_false_r. }
  assert (Hshift : ∀ h l r, 0 ≤ h < 2 ^ 64 → 0 ≤ l < 2 ^ 64 → 0 ≤ r ≤ 1 →
    block (be64_bytes (Z.lor (Z.shiftr h 1) (u64 (Z.shiftl r 63))) ++
           be64_bytes (Z.lor (Z.shiftr l 1) (u64 (Z.shiftl h 63)))) ∧
    be_val (be64_bytes (Z.lor (Z.shiftr h 1) (u64 (Z.shiftl r 63))) ++
            be64_bytes (Z.lor (Z.shiftr l 1) (u64 (Z.shiftl h 63))))
    = (h * 2 ^ 64 + l) / 2 + r * 2 ^ 127).
  { intros h l r Hh Hl Hr.
    assert (Ehalf : ∀ x c, 0 ≤ x < 2 ^ 64 → 0 ≤ c →
      Z.lor (Z.shiftr x 1) (u64 (Z.shiftl c 63)) = x / 2 + c mod 2 * 2 ^ 63).
    { intros x c Hx Hc. rewrite Z.shiftl_mul_pow2, shr_div by lia. change (2 ^ 1) with 2.
      assert (E : u64 (c * 2 ^ 63) = c mod 2 * 2 ^ 63)
        by (change (2 ^ 63) with 9223372036854775808; word_lia).
      rewrite E, Z.lor_comm, lor_disjoint; [lia|lia|].
      change (2 ^ 63) with 9223372036854775808; change (2 ^ 64) with 18446744073709551616 in *.
      word_lia. }
    rewrite !Ehalf by lia.
    destruct (pair_bytes_val (h / 2 + r mod 2 * 2 ^ 63) (l / 2 + h mod 2 * 2 ^ 63)) as [Hb E].
    - change (2 ^ 63) with 9223372036854775808; change (2 ^ 64) with 18446744073709551616 in *.
      word_lia.
    - change (2 ^ 63) with 9223372036854775808; change (2 ^ 64) with 18446744073709551616 in *.
      word_lia.
    - split; [done|]. rewrite E. clear E Hb. 
      change (2 ^ 127) with 170141183460469231731687303715884105728.
      change (2 ^ 63) with 9223372036854775808; change (2 ^ 64) with 18446744073709551616 in *.
      word_lia. }
  unfold gf128_halve_to_h. rewrite Hodd. destruct (Z.odd v).
  - change (1 =? 0) with false. cbv iota.
    destruct (Hshift (Z.lxor hi 0xC200000000000000) (Z.lxor lo 1) 1) as [Hb E];
      [apply lxor_range; lia..|lia|].
    split; [exact Hb|]. rewrite E.
    unfold POLY, v. change (0xC2 * 2 ^ 120 + 1) with (0xC200000000000000 * 2 ^ 64 + 1).
    rewrite lxor_join by lia. lia.
  - change (0 =? 0) with true. cbv iota.
    destruct (Hshift hi lo 0) as [Hb E]; [done|done|lia|].
    split; [exact Hb|]. rewrite E. unfold v. lia.
Qed.

Lemma halve_double n : elt n →
  block (gf128_halve_to_h (double_h n mod 2 ^ 64) (double_h n / 2 ^ 64)) ∧
  be_val (gf128_halve_to_h (double_h n mod 2 ^ 64) (double_h n / 2 ^ 64)) = n.
Proof.
  intros Hn. unfold elt in Hn.
  assert (Hr : 0 ≤ double_h n < 2 ^ 128).
  { unfold double_h. apply lxor_range; [lia|apply Z.mod_pos_bound; lia|].
    destruct (Z.testbit n 127); [|lia]. split; vm_compute; congruence. }
  destruct (halve_pair (double_h n mod 2 ^ 64) (double_h n / 2 ^ 64)) as [Hb E].
  { apply Z.mod_pos_bound. lia. }
  { split; [apply Z.div_pos; lia|]. apply Z.div_lt_upper_bound; [lia|].
    change (2 ^ 64 * 2 ^ 64) with (2 ^ 128). lia. }
  split; [done|]. rewrite E.
  replace (double_h n / 2 ^ 64 * 2 ^ 64 + double_h n mod 2 ^ 64) with (double_h n)
    by (rewrite (Z.div_mod (double_h n) (2 ^ 64)) at 1 by lia; lia).
  set (r := n mod 2 ^ 127).
  assert (Hnr : n = (if Z.testbit n 127 then 2 ^ 127 else 0) + r).
  { pose proof (Z.testbit_spec' n 127 ltac:(lia)) as Ht.
    rewrite (Z.div_mod n (2 ^ 127)) at 1 by lia. fold r.
    assert (n / 2 ^ 127 = Z.b2z (Z.testbit n 127)) as ->.
    { rewrite Ht, Z.mod_small; [done|]. split; [apply Z.div_pos; lia|].
      apply Z.div_lt_upper_bound; lia. }
    by destruct (Z.testbit n 127). }
  assert (Hr2 : 0 ≤ r < 2 ^ 127) by (apply Z.mod_pos_bound; lia).
  assert (E2 : (2 * n) mod 2 ^ 128 = 2 * r).
  { change (2 ^ 128) with (2 * 2 ^ 127). by rewrite Z.mul_mod_distr_l by lia. }
  assert (Eo : Z.odd (double_h n) = Z.testbit n 127).
  { unfold double_h. rewrite E2, <- Z.bit0_odd, Z.lxor_spec, Z.testbit_even_0.
    by destruct (Z.testbit n 127). }
  rewrite Eo. unfold double_h. rewrite E2.
  destruct (Z.testbit n 127).
  - rewrite Z.lxor_assoc, Z.lxor_nilpotent, Z.lxor_0_r.
    rewrite Z.mul_comm, Z.div_mul by lia. lia.
  - rewrite Z.lxor_0_r, Z.mul_comm, Z.div_mul by lia. lia.
Qed.

(** *** The claims *)

(** C34: [ghash_block_delta] is the block of the change a patch of [len] bytes
    at [sec_off] makes, branchless or not, for every block of a record. *)
Theorem ghash_block_delta_correct xor_delta b sec_off len :
  bytes_ok xor_delta → 0 ≤ b < 1024 → 0 ≤ sec_off < 2 ^ 32 → 0 ≤ len ≤ 128 →
  block (ghash_block_delta xor_delta b sec_off len) ∧
  be_val (ghash_block_delta xor_delta b sec_off len) =
    delta_at (patch_delta xor_delta sec_off len) (Z.to_nat b).
Proof. apply block_delta_spec. Qed.

Lemma ghash_block_delta_correct_witness :
  let xd := 1 :: 2 :: 3 :: zeros 125 in
  ghash_block_delta xd 2 31 3 = 2 :: 3 :: zeros 14 ∧
  block (ghash_block_delta xd 2 31 3) ∧
  be_val (ghash_block_delta xd 2 31 3) = delta_at (patch_delta xd 31 3) 2.
Proof.
  split; [vm_compute; reflexivity|].
  apply (ghash_block_delta_correct (1 :: 2 :: 3 :: zeros 125) 2 31 3); [|lia..].
  by_compute.
Defined.

(** Changing ciphertext bytes by [δ] changes the GCM tag of the record by
    [tag_correction], the GHASH of the change alone. *)
Theorem gcm_tag_correction h ek0 aad ct ct' xor_delta sec_off len :
  elt h → bytes_ok aad → bytes_ok ct → bytes_ok ct' → length ct' = length ct →
  zlen ct < 2 ^ 40 → zlen aad < 2 ^ 40 → bytes_ok xor_delta →
  (∀ p, 0 ≤ p → ct'.[p] = Z.lxor (ct.[p]) (patch_delta xor_delta sec_off len p)) →
  gcm_tag h ek0 aad ct' =
    Z.lxor (gcm_tag h ek0 aad ct) (tag_correction h (patch_delta xor_delta sec_off len) (n_blocks ct)).
Proof.
  intros. apply gcm_tag_change; try done. intros p _. unfold patch_delta.
  destruct (_ && _); [by apply byte_at_range|unfold byte; lia].
Qed.

(** C35: [gf128_halve_to_h] undoes the doubling of the subkey that OpenSSL's
    AVX-512 code stores as HashKey_1. *)
Theorem gf128_halve_to_h_correct n : elt n →
  block (gf128_halve_to_h (double_h n mod 2 ^ 64) (double_h n / 2 ^ 64)) ∧
  be_val (gf128_halve_to_h (double_h n mod 2 ^ 64) (double_h n / 2 ^ 64)) = n.
Proof. apply halve_double. Qed.

Lemma gf128_halve_to_h_correct_witness :
  be_val (gf128_halve_to_h (double_h (2 ^ 127 + 5) mod 2 ^ 64) (double_h (2 ^ 127 + 5) / 2 ^ 64)) = 2 ^ 127 + 5.
Proof. apply gf128_halve_to_h_correct. split; vm_compute; congruence. Defined.

End GhashCode.
