(* ===== verification/Aes.v ===== *)
(** * AES single-block encryption (pkg/ebpf/bpf/helpers.h)

    [Aes]: the in-place cipher of helpers.h on 16-byte states (byte index =
    row + 4 * column) and [aes_recover_h], which recomputes the GHASH subkey
    H = AES_K(0) from a round-key schedule.
    [Fips197]: the cipher as FIPS-197 defines it: GF(2^8) arithmetic modulo
    x^8 + x^4 + x^3 + x + 1, the S-box as inverse and affine map, ShiftRows and
    MixColumns on rows and columns, and the key expansion.
    [AesFacts]: the two agree. *)

From S2P Require Import Prelude GF128.
Import GF128Facts.

Module Aes.

Definition KLOAK_AES_SBOX : bytes :=
  [0x63; 0x7c; 0x77; 0x7b; 0xf2; 0x6b; 0x6f; 0xc5; 0x30; 0x01; 0x67; 0x2b; 0xfe; 0xd7; 0xab; 0x76;
   0xca; 0x82; 0xc9; 0x7d; 0xfa; 0x59; 0x47; 0xf0; 0xad; 0xd4; 0xa2; 0xaf; 0x9c; 0xa4; 0x72; 0xc0;
   0xb7; 0xfd; 0x93; 0x26; 0x36; 0x3f; 0xf7; 0xcc; 0x34; 0xa5; 0xe5; 0xf1; 0x71; 0xd8; 0x31; 0x15;
   0x04; 0xc7; 0x23; 0xc3; 0x18; 0x96; 0x05; 0x9a; 0x07; 0x12; 0x80; 0xe2; 0xeb; 0x27; 0xb2; 0x75;
   0x09; 0x83; 0x2c; 0x1a; 0x1b; 0x6e; 0x5a; 0xa0; 0x52; 0x3b; 0xd6; 0xb3; 0x29; 0xe3; 0x2f; 0x84;
   0x53; 0xd1; 0x00; 0xed; 0x20; 0xfc; 0xb1; 0x5b; 0x6a; 0xcb; 0xbe; 0x39; 0x4a; 0x4c; 0x58; 0xcf;
   0xd0; 0xef; 0xaa; 0xfb; 0x43; 0x4d; 0x33; 0x85; 0x45; 0xf9; 0x02; 0x7f; 0x50; 0x3c; 0x9f; 0xa8;
   0x51; 0xa3; 0x40; 0x8f; 0x92; 0x9d; 0x38; 0xf5; 0xbc; 0xb6; 0xda; 0x21; 0x10; 0xff; 0xf3; 0xd2;
   0xcd; 0x0c; 0x13; 0xec; 0x5f; 0x97; 0x44; 0x17; 0xc4; 0xa7; 0x7e; 0x3d; 0x64; 0x5d; 0x19; 0x73;
   0x60; 0x81; 0x4f; 0xdc; 0x22; 0x2a; 0x90; 0x88; 0x46; 0xee; 0xb8; 0x14; 0xde; 0x5e; 0x0b; 0xdb;
   0xe0; 0x32; 0x3a; 0x0a; 0x49; 0x06; 0x24; 0x5c; 0xc2; 0xd3; 0xac; 0x62; 0x91; 0x95; 0xe4; 0x79;
   0xe7; 0xc8; 0x37; 0x6d; 0x8d; 0xd5; 0x4e; 0xa9; 0x6c; 0x56; 0xf4; 0xea; 0x65; 0x7a; 0xae; 0x08;
   0xba; 0x78; 0x25; 0x2e; 0x1c; 0xa6; 0xb4; 0xc6; 0xe8; 0xdd; 0x74; 0x1f; 0x4b; 0xbd; 0x8b; 0x8a;
   0x70; 0x3e; 0xb5; 0x66; 0x48; 0x03; 0xf6; 0x0e; 0x61; 0x35; 0x57; 0xb9; 0x86; 0xc1; 0x1d; 0x9e;
   0xe1; 0xf8; 0x98; 0x11; 0x69; 0xd9; 0x8e; 0x94; 0x9b; 0x1e; 0x87; 0xe9; 0xce; 0x55; 0x28; 0xdf;
   0x8c; 0xa1; 0x89; 0x0d; 0xbf; 0xe6; 0x42; 0x68; 0x41; 0x99; 0x2d; 0x0f; 0xb0; 0x54; 0xbb; 0x16].

Definition aes_mul2 (x : Z) : Z :=
  u8 (Z.lxor (Z.shiftl x 1) (if Z.land x 0x80 =? 0 then 0 else 0x1b)).
Definition aes_mul3 (x : Z) : Z := u8 (Z.lxor (aes_mul2 x) x).

(** The assignments of each row, in order, through the temporary [t]. *)
Definition aes_shift_rows (s : bytes) : bytes :=
  let t := s.[1] in
  let s := set_byte 1 (s.[5]) s in
  let s := set_byte 5 (s.[9]) s in
  let s := set_byte 9 (s.[13]) s in
  let s := set_byte 13 t s in
  let t := s.[2] in
  let s := set_byte 2 (s.[10]) s in
  let s := set_byte 10 t s in
  let t := s.[6] in
  let s := set_byte 6 (s.[14]) s in
  let s := set_byte 14 t s in
  let t := s.[15] in
  let s := set_byte 15 (s.[11]) s in
  let s := set_byte 11 (s.[7]) s in
  let s := set_byte 7 (s.[3]) s in
  set_byte 3 t s.

Definition aes_mix_column (c : Z) (s : bytes) : bytes :=
  let a0 := s.[4 * c + 0] in
  let a1 := s.[4 * c + 1] in
  let a2 := s.[4 * c + 2] in
  let a3 := s.[4 * c + 3] in
  let s := set_byte (4 * c + 0) (u8 (Z.lxor (Z.lxor (Z.lxor (aes_mul2 a0) (aes_mul3 a1)) a2) a3)) s in
  let s := set_byte (4 * c + 1) (u8 (Z.lxor (Z.lxor (Z.lxor a0 (aes_mul2 a1)) (aes_mul3 a2)) a3)) s in
  let s := set_byte (4 * c + 2) (u8 (Z.lxor (Z.lxor (Z.lxor a0 a1) (aes_mul2 a2)) (aes_mul3 a3))) s in
  set_byte (4 * c + 3) (u8 (Z.lxor (Z.lxor (Z.lxor (aes_mul3 a0) a1) a2) (aes_mul2 a3))) s.

(** [for (c = 0; c < 4; c++)] *)
Definition aes_mix_columns (s : bytes) : bytes :=
  fold_left (λ s c, aes_mix_column c s) [0; 1; 2; 3] s.

(** [state[i] ^= k[i]] for the 16 bytes at [rk + off]. *)
Definition aes_add_round_key (rk : bytes) (off : Z) (s : bytes) : bytes :=
  zip_with Z.lxor s (slice rk off 16).

Definition aes_sub_bytes (s : bytes) : bytes := map (λ b, KLOAK_AES_SBOX.[b]) s.

(** [for (round = 1; round < 14; round++)], which breaks once [round >= nr]. *)
Fixpoint aes_rounds (n : nat) (round : Z) (rk : bytes) (nr : Z) (s : bytes) : bytes :=
  match n with
  | O => s
  | S n' =>
      if nr <=? round then s
      else
        let s := aes_mix_columns (aes_shift_rows (aes_sub_bytes s)) in
        aes_rounds n' (round + 1) rk nr (aes_add_round_key rk (16 * round) s)
  end.

Definition aes_block_encrypt (rk : bytes) (nr : Z) (state : bytes) : bytes :=
  let s := aes_add_round_key rk 0 state in
  let s := aes_rounds 13 1 rk nr s in
  let s := aes_shift_rows (aes_sub_bytes s) in
  aes_add_round_key rk (if nr =? 14 then 16 * 14 else 16 * 10) s.

(** [Some h] when the code returns 1. On 0 [h_out] is left zero. *)
Definition aes_recover_h (rd_key : bytes) (rounds : Z) : option bytes :=
  if (rounds =? 10) || (rounds =? 9) then Some (aes_block_encrypt rd_key 10 (zeros 16))
  else if (rounds =? 14) || (rounds =? 13) then Some (aes_block_encrypt rd_key 14 (zeros 16))
  else None.

End Aes.

Module Fips197.

(** Multiplication in GF(2^8): the carry-less product, reduced from bit 14
    down by 0x11b. *)
Definition clmul (a b : Z) : Z :=
  fold_left (λ acc i, if Z.testbit a i then Z.lxor acc (Z.shiftl b i) else acc)
    [0; 1; 2; 3; 4; 5; 6; 7] 0.
Definition reduce (x : Z) : Z :=
  fold_left (λ acc k, if Z.testbit acc k then Z.lxor acc (Z.shiftl 0x11b (k - 8)) else acc)
    [14; 13; 12; 11; 10; 9; 8] x.
Definition gmul (a b : Z) : Z := reduce (clmul a b).

(** The inverse is the power 254 (0 for 0). *)
Fixpoint gpow (n : nat) (a : Z) : Z :=
  match n with O => 1 | S n' => gmul a (gpow n' a) end.
Definition ginv (a : Z) : Z := gpow 254 a.

(** 5.1.1: b'_i = b_i + b_(i+4) + b_(i+5) + b_(i+6) + b_(i+7) + c_i, c = 0x63. *)
Definition affine (b : Z) : Z :=
  fold_left (λ acc i,
    let bit j := Z.testbit b ((i + j) mod 8) in
    if xorb (xorb (xorb (xorb (xorb (bit 0) (bit 4)) (bit 5)) (bit 6)) (bit 7)) (Z.testbit 0x63 i)
    then acc + 2 ^ i else acc) [0; 1; 2; 3; 4; 5; 6; 7] 0.
Definition sbox (b : Z) : Z := affine (ginv b).

Definition cell (s : bytes) (r c : nat) : Z := s.[Z.of_nat (r + 4 * c)].
(** The state whose cell in row [r] and column [c] is [f r c]. *)
Definition of_cells (f : nat → nat → Z) : bytes :=
  map (λ k, f (k mod 4)%nat (k / 4)%nat) (seq 0 16).

Definition sub_bytes (s : bytes) : bytes := map sbox s.
Definition shift_rows (s : bytes) : bytes :=
  of_cells (λ r c, cell s r ((c + r) mod 4)%nat).
Definition mix_coeff (r j : nat) : Z := nth ((j + 4 - r) mod 4)%nat [2; 3; 1; 1] 0.
Definition mix_columns (s : bytes) : bytes :=
  of_cells (λ r c, fold_left Z.lxor (map (λ j, gmul (mix_coeff r j) (cell s j c)) (seq 0 4)) 0).
Definition add_round_key (s k : bytes) : bytes := xor_bytes s k.

(** Round key [round] of a schedule. *)
Definition round_key (w : bytes) (round : nat) : bytes := slice w (Z.of_nat (16 * round)) 16.

(** Figure 5. *)
Definition cipher (nr : nat) (w input : bytes) : bytes :=
  let s := add_round_key input (round_key w 0) in
  let s := fold_left (λ s r, add_round_key (mix_columns (shift_rows (sub_bytes s))) (round_key w r))
             (seq 1 (nr - 1)) s in
  add_round_key (shift_rows (sub_bytes s)) (round_key w nr).

(** Figure 11, on 4-byte words, newest first. *)
Definition rot_word (w : bytes) : bytes := drop 1 w ++ take 1 w.
Definition rcon (i : nat) : bytes := [Nat.iter (i - 1) (gmul 2) 1; 0; 0; 0].
Definition next_word (nk i : nat) (ws : list bytes) : bytes :=
  let temp := nth 0 ws [] in
  let temp :=
    if (i mod nk =? 0)%nat then xor_bytes (sub_bytes (rot_word temp)) (rcon (i / nk))
    else if (6 <? nk)%nat && (i mod nk =? 4)%nat then sub_bytes temp else temp in
  xor_bytes (nth (nk - 1) ws []) temp.
Definition key_expansion (nk nr : nat) (key : bytes) : bytes :=
  let ws := rev (map (λ i, slice key (Z.of_nat (4 * i)) 4) (seq 0 nk)) in
  concat (rev (fold_left (λ ws i, next_word nk i ws :: ws) (seq nk (4 * (nr + 1) - nk)) ws)).

End Fips197.

Module AesFacts.
Import Aes.

(** *** Bytes, checked one by one *)

Lemma byte_forall (P : Z → bool) :
  forallb P (map Z.of_nat (seq 0 256)) = true → ∀ b, byte b → P b = true.
Proof.
  intros H b Hb. rewrite forallb_forall in H. apply H. apply in_map_iff.
  exists (Z.to_nat b). unfold byte in Hb. split; [lia|]. apply in_seq. lia.
Qed.

Lemma sbox_correct b : byte b → KLOAK_AES_SBOX.[b] = Fips197.sbox b.
Proof.
  intros Hb. apply Z.eqb_eq.
  refine (byte_forall (λ b, KLOAK_AES_SBOX.[b] =? Fips197.sbox b) _ b Hb). vm_compute. done.
Qed.

Lemma mul2_correct b : byte b → aes_mul2 b = Fips197.gmul 2 b.
Proof.
  intros Hb. apply Z.eqb_eq.
  refine (byte_forall (λ b, aes_mul2 b =? Fips197.gmul 2 b) _ b Hb). vm_compute. done.
Qed.

Lemma mul3_correct b : byte b → aes_mul3 b = Fips197.gmul 3 b.
Proof.
  intros Hb. apply Z.eqb_eq.
  refine (byte_forall (λ b, aes_mul3 b =? Fips197.gmul 3 b) _ b Hb). vm_compute. done.
Qed.

Lemma mul1_id b : byte b → Fips197.gmul 1 b = b.
Proof.
  intros Hb. apply Z.eqb_eq.
  refine (byte_forall (λ b, Fips197.gmul 1 b =? b) _ b Hb). vm_compute. done.
Qed.

Lemma sbox_byte b : byte b → byte (KLOAK_AES_SBOX.[b]).
Proof.
  intros Hb.
  pose proof (byte_forall (λ b, (0 <=? KLOAK_AES_SBOX.[b]) && (KLOAK_AES_SBOX.[b] <? 256))
    ltac:(vm_compute; done) b Hb) as H. cbv beta in H. zbool. done.
Qed.

(** *** The steps of a round *)

(** A block, taken apart. *)
Ltac block_cases s H :=
  let Hl := fresh in let Hb := fresh in
  destruct H as [Hl Hb];
  do 16 (destruct s as [|? s]; [discriminate|]); destruct s; [|discriminate];
  clear Hl; unfold bytes_ok in Hb; rewrite ?Forall_cons in Hb; destruct_and! Hb.

Lemma sub_bytes_correct s : bytes_ok s → aes_sub_bytes s = Fips197.sub_bytes s.
Proof.
  intros Hs. apply list_fmap_ext. intros i b Hb. apply sbox_correct.
  by apply (Forall_lookup_1 _ _ _ _ Hs Hb).
Qed.

Lemma sub_bytes_block s : block s → block (aes_sub_bytes s).
Proof.
  intros [Hl Hb]. split; [unfold aes_sub_bytes; by rewrite length_map|].
  apply Forall_fmap. eapply Forall_impl; [exact Hb|]. intros. by apply sbox_byte.
Qed.

Lemma shift_rows_correct s : block s → aes_shift_rows s = Fips197.shift_rows s.
Proof. intros H. block_cases s H. reflexivity. Qed.

Lemma shift_rows_block s : block s → block (aes_shift_rows s).
Proof.
  intros H. block_cases s H. split; [done|]. unfold bytes_ok. repeat (apply Forall_cons_2; [assumption|]). apply Forall_nil_2.
Qed.

Lemma mul2_byte b : byte (aes_mul2 b).
Proof. apply u8_range. Qed.
Lemma mul3_byte b : byte (aes_mul3 b).
Proof. apply u8_range. Qed.

(** One column of the product. *)
Definition mixed (a0 a1 a2 a3 : Z) : bytes :=
  [u8 (Z.lxor (Z.lxor (Z.lxor (aes_mul2 a0) (aes_mul3 a1)) a2) a3);
   u8 (Z.lxor (Z.lxor (Z.lxor a0 (aes_mul2 a1)) (aes_mul3 a2)) a3);
   u8 (Z.lxor (Z.lxor (Z.lxor a0 a1) (aes_mul2 a2)) (aes_mul3 a3));
   u8 (Z.lxor (Z.lxor (Z.lxor (aes_mul3 a0) a1) a2) (aes_mul2 a3))].

Lemma mix_column_at c p a0 a1 a2 a3 q :
  zlen p = 4 * c →
  aes_mix_column c (p ++ a0 :: a1 :: a2 :: a3 :: q) = p ++ mixed a0 a1 a2 a3 ++ q.
Proof.
  intros Hp. unfold aes_mix_column. rewrite <- Hp.
  assert (Hat : ∀ k j, 0 ≤ j → (p ++ k).[zlen p + j] = k.[j]).
  { intros k j Hj. rewrite byte_at_app_r by lia. f_equal. lia. }
  rewrite !Hat by lia. rewrite set_byte_app_r by lia. reflexivity || idtac.
  do 3 rewrite set_byte_app_r by lia. reflexivity.
Qed.

Lemma mix_columns_eq x0 x1 x2 x3 x4 x5 x6 x7 x8 x9 x10 x11 x12 x13 x14 x15 :
  aes_mix_columns [x0; x1; x2; x3; x4; x5; x6; x7; x8; x9; x10; x11; x12; x13; x14; x15] =
  mixed x0 x1 x2 x3 ++ mixed x4 x5 x6 x7 ++ mixed x8 x9 x10 x11 ++ mixed x12 x13 x14 x15.
Proof.
  unfold aes_mix_columns. cbn [fold_left].
  pose proof (mix_column_at 0 [] x0 x1 x2 x3
    [x4; x5; x6; x7; x8; x9; x10; x11; x12; x13; x14; x15] eq_refl) as E.
  cbn [app] in E. rewrite E. clear E.
  rewrite (mix_column_at 1 (mixed x0 x1 x2 x3) x4 x5 x6 x7), app_assoc by done.
  rewrite (mix_column_at 2 (mixed x0 x1 x2 x3 ++ mixed x4 x5 x6 x7) x8 x9 x10 x11) by done.
  rewrite app_assoc, (mix_column_at 3 _ x12 x13 x14 x15 []) by done.
  by rewrite app_nil_r, <- !app_assoc.
Qed.

Lemma mixed_bytes a0 a1 a2 a3 : bytes_ok (mixed a0 a1 a2 a3).
Proof. repeat (apply Forall_cons_2; [apply u8_range|]). apply Forall_nil_2. Qed.

Lemma mix_columns_block s : block s → block (aes_mix_columns s).
Proof.
  intros H. block_cases s H. rewrite mix_columns_eq. split; [done|].
  rewrite !bytes_ok_app. auto using mixed_bytes.
Qed.

(** One column of FIPS-197's product. *)
Lemma mixed_correct a0 a1 a2 a3 : byte a0 → byte a1 → byte a2 → byte a3 →
  mixed a0 a1 a2 a3 =
  map (λ r, fold_left Z.lxor
    (map (λ j, Fips197.gmul (Fips197.mix_coeff r j) (nth j [a0; a1; a2; a3] 0)) (seq 0 4)) 0)
    (seq 0 4).
Proof.
  intros.
  assert (Hx : ∀ a b c d, byte a → byte b → byte c → byte d →
    u8 (Z.lxor (Z.lxor (Z.lxor a b) c) d) = Z.lxor (Z.lxor (Z.lxor (Z.lxor 0 a) b) c) d).
  { intros. rewrite Z.lxor_0_l. apply u8_small. by repeat apply byte_lxor. }
  unfold mixed. rewrite !Hx by (done || apply mul2_byte || apply mul3_byte).
  cbn [seq map fold_left nth].
  repeat match goal with
  | |- context [Fips197.mix_coeff ?r ?j] =>
      let x := eval vm_compute in (Fips197.mix_coeff r j) in
      change (Fips197.mix_coeff r j) with x
  end.
  rewrite <- !mul2_correct, <- !mul3_correct, !mul1_id by done. reflexivity.
Qed.

Lemma mix_columns_correct s : block s → aes_mix_columns s = Fips197.mix_columns s.
Proof.
  intros H. block_cases s H. rewrite mix_columns_eq, !mixed_correct by done.
  unfold Fips197.mix_columns, Fips197.of_cells. generalize Fips197.gmul as g. reflexivity.
Qed.

Lemma add_round_key_block rk off s :
  block s → bytes_ok rk → 0 ≤ off → off + 16 ≤ zlen rk → block (aes_add_round_key rk off s).
Proof.
  intros [Hl Hb] Hr Ho Hn. unfold aes_add_round_key. split.
  - rewrite length_zip_with. unfold slice, zlen in *.
    rewrite length_take, length_drop. lia.
  - apply (bytes_ok_xor s (slice rk off 16)); [done|].
    unfold slice. by apply bytes_ok_take, bytes_ok_drop.
Qed.

(** The two ways to add a round key. *)
Lemma add_round_key_eq rk round s :
  aes_add_round_key rk (Z.of_nat (16 * round)) s
  = Fips197.add_round_key s (Fips197.round_key rk round).
Proof. reflexivity. Qed.

Lemma round_correct rk round s : block s → bytes_ok rk →
  aes_add_round_key rk (Z.of_nat (16 * round)) (aes_mix_columns (aes_shift_rows (aes_sub_bytes s)))
  = Fips197.add_round_key
      (Fips197.mix_columns (Fips197.shift_rows (Fips197.sub_bytes s))) (Fips197.round_key rk round).
Proof.
  intros Hs Hr. pose proof (sub_bytes_block s Hs). pose proof (shift_rows_block _ H).
  rewrite <- sub_bytes_correct by apply Hs.
  rewrite <- shift_rows_correct, <- mix_columns_correct by assumption.
  apply add_round_key_eq.
Qed.

Lemma aes_rounds_correct rk nr n : ∀ round s, block s → bytes_ok rk →
  (1 <= round)%nat → 16 * (Z.of_nat nr + 1) ≤ zlen rk → (nr - round <= n)%nat →
  let s' := aes_rounds n (Z.of_nat round) rk (Z.of_nat nr) s in
  block s' ∧
  s' = fold_left (λ s r, Fips197.add_round_key
         (Fips197.mix_columns (Fips197.shift_rows (Fips197.sub_bytes s))) (Fips197.round_key rk r))
         (seq round (nr - round)) s.
Proof.
  induction n as [|n IH]; intros round s Hs Hr H1 Hlen Hn; cbn [aes_rounds].
  - replace (nr - round)%nat with 0%nat by lia. done.
  - destruct (Z.leb_spec (Z.of_nat nr) (Z.of_nat round)).
    + replace (nr - round)%nat with 0%nat by lia. done.
    + replace (Z.of_nat round + 1) with (Z.of_nat (S round)) by lia.
      replace (16 * Z.of_nat round) with (Z.of_nat (16 * round)) by lia.
      destruct (IH (S round)
        (aes_add_round_key rk (Z.of_nat (16 * round))
           (aes_mix_columns (aes_shift_rows (aes_sub_bytes s))))) as [Hb E]; try lia; try done.
      { apply add_round_key_block; [|done|lia|lia].
        by apply mix_columns_block, shift_rows_block, sub_bytes_block. }
      split; [exact Hb|]. rewrite E, round_correct by done.
      replace (nr - round)%nat with (S (nr - S round)) by lia. done.
Qed.

Lemma aes_block_encrypt_correct nr rk s :
  (nr = 10 ∨ nr = 14)%nat → block s → bytes_ok rk → 16 * (Z.of_nat nr + 1) ≤ zlen rk →
  block (aes_block_encrypt rk (Z.of_nat nr) s) ∧
  aes_block_encrypt rk (Z.of_nat nr) s = Fips197.cipher nr rk s.
Proof.
  intros Hnr Hs Hr Hlen. unfold aes_block_encrypt, Fips197.cipher.
  assert (H0 : block (aes_add_round_key rk 0 s)) by (apply add_round_key_block; [done..|lia|lia]).
  change 1 with (Z.of_nat 1).
  destruct (aes_rounds_correct rk nr 13 1 _ H0 Hr ltac:(lia) Hlen ltac:(lia)) as [Hb E].
  set (m := aes_rounds _ _ _ _ _) in *.
  pose proof (sub_bytes_block m Hb) as Hsb.
  replace (if Z.of_nat nr =? 14 then 16 * 14 else 16 * 10) with (Z.of_nat (16 * nr))
    by (destruct Hnr; subst nr; reflexivity).
  split.
  - apply add_round_key_block; [by apply shift_rows_block|done|lia|lia].
  - rewrite shift_rows_correct, sub_bytes_correct by (done || apply Hb).
    rewrite add_round_key_eq. do 3 f_equal. exact E.
Qed.

Lemma recover_h_spec rk rounds : bytes_ok rk →
  aes_recover_h rk rounds =
  if (rounds =? 10) || (rounds =? 9) then Some (aes_block_encrypt rk 10 (zeros 16))
  else if (rounds =? 14) || (rounds =? 13) then Some (aes_block_encrypt rk 14 (zeros 16)) else None.
Proof. done. Qed.

Lemma zeros_block : block (zeros 16).
Proof. split; [done|apply bytes_ok_zeros]. Qed.

(** The subkey H of a schedule: AES of the zero block. *)
Lemma recover_h_cipher nr rk rounds : bytes_ok rk →
  (nr = 10%nat ∧ (rounds = 10 ∨ rounds = 9) ∨ nr = 14%nat ∧ (rounds = 14 ∨ rounds = 13)) →
  16 * (Z.of_nat nr + 1) ≤ zlen rk →
  aes_recover_h rk rounds = Some (Fips197.cipher nr rk (zeros 16)) ∧
  block (Fips197.cipher nr rk (zeros 16)).
Proof.
  intros Hr Hnr Hlen.
  destruct (aes_block_encrypt_correct nr rk (zeros 16)) as [Hb <-]; try done;
    [destruct Hnr as [[-> _]|[-> _]]; auto|apply zeros_block|].
  split; [|exact Hb]. rewrite recover_h_spec by done.
  destruct Hnr as [[-> [-> | ->]]|[-> [-> | ->]]]; reflexivity.
Qed.

(** *** The claims *)

(** C36: [aes_block_encrypt] is the cipher of FIPS-197, with its S-box computed
    and its MixColumns in GF(2^8), for the schedules of AES-128 and AES-256. *)
Theorem aes_block_encrypt_fips197 nr rk s :
  (nr = 10 ∨ nr = 14)%nat → block s → bytes_ok rk → 16 * (Z.of_nat nr + 1) ≤ zlen rk →
  block (aes_block_encrypt rk (Z.of_nat nr) s) ∧
  aes_block_encrypt rk (Z.of_nat nr) s = Fips197.cipher nr rk s.
Proof. apply aes_block_encrypt_correct. Qed.

Lemma aes_block_encrypt_fips197_witness :
  aes_block_encrypt (zeros 240) 14 (zeros 16) = Fips197.cipher 14 (zeros 240) (zeros 16).
Proof.
  apply (aes_block_encrypt_fips197 14 (zeros 240) (zeros 16)).
  - right. reflexivity.
  - apply zeros_block.
  - apply bytes_ok_zeros.
  - vm_compute. congruence.
Defined.

(** C27: [aes_recover_h] returns the GHASH subkey, the encryption of the zero
    block under the schedule, and refuses any number of rounds but AES-128's and
    AES-256's. *)
Theorem aes_recover_h_correct rk rounds : bytes_ok rk → zlen rk = 240 →
  aes_recover_h rk rounds =
    if decide (rounds = 10 ∨ rounds = 9) then Some (Fips197.cipher 10 rk (zeros 16))
    else if decide (rounds = 14 ∨ rounds = 13) then Some (Fips197.cipher 14 rk (zeros 16)) else None.
Proof.
  intros Hr Hl. destruct (decide (rounds = 10 ∨ rounds = 9)) as [H|H].
  { apply (recover_h_cipher 10 rk rounds Hr); [by left|lia]. }
  destruct (decide (rounds = 14 ∨ rounds = 13)) as [H'|H'].
  { apply (recover_h_cipher 14 rk rounds Hr); [by right|lia]. }
  rewrite recover_h_spec by done.
  destruct (Z.eqb_spec rounds 10), (Z.eqb_spec rounds 9), (Z.eqb_spec rounds 14), (Z.eqb_spec rounds 13);
    try done; lia.
Qed.

Lemma aes_recover_h_correct_witness :
  aes_recover_h (zeros 240) 9 = Some (Fips197.cipher 10 (zeros 240) (zeros 16)).
Proof. exact (aes_recover_h_correct (zeros 240) 9 (bytes_ok_zeros 240) eq_refl). Defined.

End AesFacts.

(** ** Known answers: FIPS-197 appendix C *)

Module AesKat.
Import Fips197.

Definition kat_plaintext : bytes := map (λ i, 17 * Z.of_nat i) (seq 0 16).
Definition kat_key (n : nat) : bytes := map Z.of_nat (seq 0 n).

Example fips197_c1 :
  cipher 10 (key_expansion 4 10 (kat_key 16)) kat_plaintext =
  [0x69; 0xc4; 0xe0; 0xd8; 0x6a; 0x7b; 0x04; 0x30; 0xd8; 0xcd; 0xb7; 0x80; 0x70; 0xb4; 0xc5; 0x5a].
Proof. vm_compute. reflexivity. Qed.

Example fips197_c3 :
  cipher 14 (key_expansion 8 14 (kat_key 32)) kat_plaintext =
  [0x8e; 0xa2; 0xb7; 0xca; 0x51; 0x67; 0x45; 0xbf; 0xea; 0xfc; 0x49; 0x90; 0x4b; 0x49; 0x60; 0x89].
Proof. vm_compute. reflexivity. Qed.

End AesKat.
