(* ===== verification/TlsRecord.v ===== *)
(** * TLS record framing (pkg/ebpf/bpf/helpers.h)

    [TlsRecord]: the classification of a 5-byte record header, and the test
    that a record length fits a plaintext length under the TLS 1.2 or 1.3
    AES-GCM layout; with the record layout they are checked against. *)

From S2P Require Import Prelude.

Module TlsRecord.

Definition TLS_CT_CHANGE_CIPHER_SPEC : Z := 0x14.
Definition TLS_CT_ALERT : Z := 0x15.
Definition TLS_CT_HANDSHAKE : Z := 0x16.
Definition TLS_CT_APPLICATION_DATA : Z := 0x17.
Definition TLS_MAX_RECORD_LEN : Z := 16384 + 2048.
Definition TLS_APPDATA_MIN_RECORD_LEN : Z := 17.
Definition TLS_NONCE_UNKNOWN : Z := 0xFF.
Definition TLS_REC_INVALID : Z := 0.
Definition TLS_REC_SKIPPABLE : Z := 1.
Definition TLS_REC_APPDATA : Z := 2.

(** Returns the kind and [*rec_len], which an invalid header leaves alone. *)
Definition tls_record_hdr_kind (hdr : bytes) (rec_len : Z) : Z * Z :=
  if negb (hdr.[1] =? 0x03) || (0x03 <? hdr.[2]) then (TLS_REC_INVALID, rec_len)
  else
    let len := Z.lor (u32 (Z.shiftl (hdr.[3]) 8)) (hdr.[4]) in
    if TLS_MAX_RECORD_LEN <? len then (TLS_REC_INVALID, rec_len)
    else if hdr.[0] =? TLS_CT_APPLICATION_DATA then
      if len <? TLS_APPDATA_MIN_RECORD_LEN then (TLS_REC_INVALID, rec_len)
      else (TLS_REC_APPDATA, len)
    else if hdr.[0] =? TLS_CT_CHANGE_CIPHER_SPEC then
      if negb (len =? 1) then (TLS_REC_INVALID, rec_len) else (TLS_REC_SKIPPABLE, len)
    else if hdr.[0] =? TLS_CT_ALERT then
      if len <? 2 then (TLS_REC_INVALID, rec_len) else (TLS_REC_SKIPPABLE, len)
    else if hdr.[0] =? TLS_CT_HANDSHAKE then
      if len <? 4 then (TLS_REC_INVALID, rec_len) else (TLS_REC_SKIPPABLE, len)
    else (TLS_REC_INVALID, rec_len).

(** Returns whether the length matches and [*out_nonce], written on a match. *)
Definition tls_appdata_reclen_match (rec_len pt_len nonce_len out_nonce : Z) : bool * Z :=
  if pt_len =? 0 then (false, out_nonce)
  else if negb (nonce_len =? 8) && (rec_len =? pt_len +32 17) then (true, 0)
  else if negb (nonce_len =? 0) && (rec_len =? pt_len +32 24) then (true, 8)
  else (false, out_nonce).

(** ** The layouts *)

(** The record header of a body of [len] bytes. *)
Definition header (ct minor len : Z) : bytes := [ct; 3; minor; len / 256; len mod 256].

(** Body lengths a record of type [ct] may have, as the code bounds them. *)
Definition legal_len (ct len : Z) : Prop :=
  (ct = TLS_CT_APPLICATION_DATA ∧ 17 ≤ len ≤ TLS_MAX_RECORD_LEN) ∨
  (ct = TLS_CT_CHANGE_CIPHER_SPEC ∧ len = 1) ∨
  (ct = TLS_CT_ALERT ∧ 2 ≤ len ≤ TLS_MAX_RECORD_LEN) ∨
  (ct = TLS_CT_HANDSHAKE ∧ 4 ≤ len ≤ TLS_MAX_RECORD_LEN).

Definition kind_of (ct : Z) : Z :=
  if ct =? TLS_CT_APPLICATION_DATA then TLS_REC_APPDATA else TLS_REC_SKIPPABLE.

Lemma rd16_be hi lo : byte hi → byte lo → Z.lor (u32 (Z.shiftl hi 8)) lo = hi * 256 + lo.
Proof.
  unfold byte. intros. rewrite Z.shiftl_mul_pow2 by lia. rewrite u32_small by lia.
  change 256 with (2 ^ 8). by apply lor_disjoint.
Qed.

(** A header is accepted, with its kind and length, exactly when it is the
    header of a record with a legal type, version 3.0 to 3.3 and length. *)
Lemma hdr_kind_iff hdr r k len :
  length hdr = 5%nat → bytes_ok hdr → k ≠ TLS_REC_INVALID →
  tls_record_hdr_kind hdr r = (k, len) ↔
  ∃ ct minor, hdr = header ct minor len ∧ 0 ≤ minor ≤ 3 ∧ legal_len ct len ∧ k = kind_of ct.
Proof.
  intros Hl Hok Hk. do 5 (destruct hdr as [|? hdr]; [done|]). destruct hdr; [|done].
  rename z into h0, z0 into h1, z1 into h2, z2 into h3, z3 into h4.
  unfold bytes_ok in Hok. rewrite !Forall_cons in Hok. destruct Hok as (B0 & B1 & B2 & B3 & B4 & _).
  unfold byte in *. unfold tls_record_hdr_kind.
  change ([h0; h1; h2; h3; h4].[0]) with h0. change ([h0; h1; h2; h3; h4].[1]) with h1.
  change ([h0; h1; h2; h3; h4].[2]) with h2. change ([h0; h1; h2; h3; h4].[3]) with h3.
  change ([h0; h1; h2; h3; h4].[4]) with h4.
  rewrite rd16_be by done. unfold legal_len, kind_of, header.
  unfold TLS_CT_APPLICATION_DATA, TLS_CT_CHANGE_CIPHER_SPEC, TLS_CT_ALERT, TLS_CT_HANDSHAKE,
    TLS_MAX_RECORD_LEN, TLS_APPDATA_MIN_RECORD_LEN, TLS_REC_INVALID, TLS_REC_SKIPPABLE,
    TLS_REC_APPDATA in *.
  split.
  - intros E. exists h0, h2.
    repeat match type of E with context [if ?b then _ else _] => destruct b eqn:? end;
      zbool; simplify_eq; try done; try lia.
    all: assert (H256 : (h3 * 256 + h4) / 256 = h3 ∧ (h3 * 256 + h4) mod 256 = h4)
           by (split; Z.div_mod_to_equations; lia); destruct H256 as [E1 E2].
    all: rewrite ?E1, ?E2; clear E1 E2.
    all: split_and!; try done; try lia.
  - intros (ct & minor & E & Hm & Hlen & ->).
    injection E as -> -> -> E3 E4.
    assert (Elen : h3 * 256 + h4 = len) by (subst; Z.div_mod_to_equations; lia).
    rewrite Elen. clear E3 E4.
    destruct (Z.eqb_spec 3 3); [|lia]. destruct (Z.ltb_spec 3 minor); [lia|]. simpl.
    destruct Hlen as [[-> ?]|[[-> ?]|[[-> ?]|[-> ?]]]]; simpl;
      repeat match goal with |- context [if ?b then _ else _] => destruct b eqn:? end;
      zbool; try done; lia.
Qed.

(** An AES-GCM application_data record of [pt] plaintext bytes: with an explicit
    nonce of 8 bytes (TLS 1.2), or with the inner content type (TLS 1.3). *)
Definition gcm_record_len (pt nonce : Z) : Z :=
  pt + 16 + (if nonce =? 8 then 8 else 1).

Lemma reclen_match_iff rec_len pt_len nonce_len out n :
  0 ≤ pt_len < 2 ^ 32 - 24 → 0 ≤ rec_len → nonce_len ∈ [0; 8; TLS_NONCE_UNKNOWN] →
  tls_appdata_reclen_match rec_len pt_len nonce_len out = (true, n) ↔
  0 < pt_len ∧ (n = 0 ∨ n = 8) ∧ rec_len = gcm_record_len pt_len n ∧
  (nonce_len = TLS_NONCE_UNKNOWN ∨ nonce_len = n).
Proof.
  intros Hp Hr Hn. unfold tls_appdata_reclen_match, gcm_record_len, TLS_NONCE_UNKNOWN in *.
  rewrite !u32_small by lia.
  rewrite !elem_of_cons in Hn. destruct Hn as [->|[->|[->|Hn]]]; [..|by apply not_elem_of_nil in Hn].
  all: destruct (Z.eqb_spec pt_len 0); simpl;
    repeat match goal with |- context [?a =? ?b] => destruct (Z.eqb_spec a b) end; simpl;
    split; intros; simplify_eq; destruct_and?; try done; try lia;
    try (split_and!; lia); repeat f_equal; lia.
Qed.

(** *** The claims *)

(** A record header is accepted, with its kind and length, exactly when it
    is the header of a record of a legal type, version and length. *)
Theorem tls_record_hdr_kind_correct hdr r k len :
  length hdr = 5%nat → bytes_ok hdr → k ≠ TLS_REC_INVALID →
  tls_record_hdr_kind hdr r = (k, len) ↔
  ∃ ct minor, hdr = header ct minor len ∧ 0 ≤ minor ≤ 3 ∧ legal_len ct len ∧ k = kind_of ct.
Proof. apply hdr_kind_iff. Qed.

Lemma tls_record_hdr_kind_correct_witness :
  tls_record_hdr_kind [0x17; 3; 3; 1; 2] 0 = (TLS_REC_APPDATA, 258).
Proof.
  apply (tls_record_hdr_kind_correct [0x17; 3; 3; 1; 2] 0 TLS_REC_APPDATA 258).
  - reflexivity.
  - by_compute.
  - discriminate.
  - exists 0x17, 3. split; [reflexivity|]. split; [lia|]. split; [|reflexivity].
    left. split; [reflexivity|]. unfold TLS_MAX_RECORD_LEN. lia.
Defined.

(** A record length fits a plaintext length exactly when it is that of an
    AES-GCM record of TLS 1.2 or 1.3 with the nonce length asked for. *)
Theorem tls_appdata_reclen_match_correct rec_len pt_len nonce_len out n :
  0 ≤ pt_len < 2 ^ 32 - 24 → 0 ≤ rec_len → nonce_len ∈ [0; 8; TLS_NONCE_UNKNOWN] →
  tls_appdata_reclen_match rec_len pt_len nonce_len out = (true, n) ↔
  0 < pt_len ∧ (n = 0 ∨ n = 8) ∧ rec_len = gcm_record_len pt_len n ∧
  (nonce_len = TLS_NONCE_UNKNOWN ∨ nonce_len = n).
Proof. apply reclen_match_iff. Qed.

Lemma tls_appdata_reclen_match_correct_witness :
  tls_appdata_reclen_match 41 24 TLS_NONCE_UNKNOWN 0 = (true, 0).
Proof.
  apply (tls_appdata_reclen_match_correct 41 24 TLS_NONCE_UNKNOWN 0 0); [lia|lia| |].
  - right. right. left.
  - split; [lia|]. split; [left; reflexivity|]. split; [reflexivity|left; reflexivity].
Defined.

End TlsRecord.
