(* ===== verification/Sni.v ===== *)
(** * The ClientHello SNI parser (pkg/ebpf/bpf/helpers.h)

    [Sni]: [tls_parse_sni] with its walk over the extensions and its copy loop.
    [Hello]: a ClientHello as a value, its encoding (RFC 8446 4.1.2), and the
    outcome the parser owes to it.
    [SniFacts]: the parser reads no byte past the [len] copied ones; on a fully
    copied ClientHello it returns that outcome; and SNI_STATUS_SEEN is only
    returned for bytes that are the start of a ClientHello naming that host. *)

From S2P Require Import Prelude Host TlsRecord.
Import Host TlsRecord.

Module Sni.

Definition TLS_SNI_BUF_LEN : Z := 2048.
Definition TLS_SNI_BUF_MASK : Z := TLS_SNI_BUF_LEN - 1.
Definition TLS_SNI_MAX_EXTS : Z := 32.
Definition TLS_HS_CLIENT_HELLO : Z := 0x01.
Definition TLS_EXT_SERVER_NAME : Z := 0x0000.
Definition TLS_EXT_ECH : Z := 0xfe0d.

Definition SNI_STATUS_NONE : Z := 0.
Definition SNI_STATUS_SEEN : Z := 1.
Definition SNI_STATUS_ABSENT : Z := 2.
Definition SNI_STATUS_ECH : Z := 3.
Definition SNI_STATUS_TRUNCATED : Z := 4.
Definition SNI_STATUS_MALFORMED : Z := 5.
Definition SNI_STATUS_MISMATCH : Z := 6.
Definition SNI_NOT_CLIENT_HELLO : Z := 0xFF.

Definition sni_idx (off : Z) : Z := Z.land off TLS_SNI_BUF_MASK.

Definition sni_rd16 (b : bytes) (off : Z) : Z :=
  Z.lor (u32 (Z.shiftl (b.[sni_idx off]) 8)) (b.[sni_idx (off +32 1)]).

Definition sni_host_char_ok (c : Z) : bool :=
  ((97 <=? c) && (c <=? 122)) || ((48 <=? c) && (c <=? 57)) || (c =? 45) || (c =? 46) || (c =? 95).

(** The locals of the extension walk. *)
Record ext_state := {
  x_off : Z;
  x_ech : bool;
  x_found : bool;
  x_truncated : bool;
  x_n : Z;
  x_name_off : Z
}.

(** The walk leaves the function with a status, or ends (or breaks). *)
Inductive ext_result :=
  | ext_return (status : Z)
  | ext_done (st : ext_state).

(** [for (i = 0; i < TLS_SNI_MAX_EXTS; i++)]: [fuel] iterations. *)
Fixpoint sni_ext_loop (fuel : nat) (buf : bytes) (len ext_end : Z) (st : ext_state) : ext_result :=
  match fuel with
  | O => ext_done st
  | S fuel' =>
      let off := x_off st in
      if ext_end <=? off then ext_done st
      else if ext_end <? off +32 4 then ext_return SNI_STATUS_MALFORMED
      else if len <? off +32 4 then
        ext_done {| x_off := off; x_ech := x_ech st; x_found := x_found st;
                    x_truncated := true; x_n := x_n st; x_name_off := x_name_off st |}
      else
        let type := sni_rd16 buf off in
        let elen := sni_rd16 buf (off +32 2) in
        let off := off +32 4 in
        if ext_end <? off +32 elen then ext_return SNI_STATUS_MALFORMED
        else
          let ech := if type =? TLS_EXT_ECH then true else x_ech st in
          if type =? TLS_EXT_SERVER_NAME then
            if x_found st then ext_return SNI_STATUS_MALFORMED
            else if len <? off +32 elen then
              ext_done {| x_off := off; x_ech := ech; x_found := x_found st;
                          x_truncated := true; x_n := x_n st; x_name_off := x_name_off st |}
            else if (elen <? 5) || negb (sni_rd16 buf off =? elen -32 2) ||
                    negb (buf.[sni_idx (off +32 2)] =? 0)
            then ext_return SNI_STATUS_MALFORMED
            else
              let n := sni_rd16 buf (off +32 3) in
              if (n =? 0) || negb (n +32 5 =? elen) || (MAX_HOST_LEN <=? n)
              then ext_return SNI_STATUS_MALFORMED
              else
                sni_ext_loop fuel' buf len ext_end
                  {| x_off := off +32 elen; x_ech := ech; x_found := true;
                     x_truncated := x_truncated st; x_n := n; x_name_off := off +32 5 |}
          else
            sni_ext_loop fuel' buf len ext_end
              {| x_off := off +32 elen; x_ech := ech; x_found := x_found st;
                 x_truncated := x_truncated st; x_n := x_n st; x_name_off := x_name_off st |}
  end.

Definition to_lower (c : Z) : Z :=
  if (65 <=? c) && (c <=? 90) then u8 (c - 65 + 97) else c.

(** [for (j = 0; j < MAX_HOST_LEN; j++)]: [fuel] iterations from [j]; [false]
    when a byte is not a host byte. *)
Fixpoint sni_copy_loop (fuel : nat) (j : Z) (buf : bytes) (name_off n : Z) (host_out : bytes)
    : bool * bytes :=
  match fuel with
  | O => (true, host_out)
  | S fuel' =>
      if n <=? j then (true, host_out)
      else
        let c := to_lower (buf.[sni_idx (name_off +32 j)]) in
        if sni_host_char_ok c then
          sni_copy_loop fuel' (j + 1) buf name_off n
            (set_byte (Z.land j (MAX_HOST_LEN - 1)) c host_out)
        else (false, host_out)
  end.

(** The function's result with its two output parameters. *)
Record sni_result := { r_status : Z; r_host : bytes; r_len : Z }.

(** The copy of the name and what follows it. *)
Definition sni_finish (buf : bytes) (name_off n : Z) (host_out : bytes) : sni_result :=
  let '(ok, host_out) := sni_copy_loop (Z.to_nat MAX_HOST_LEN) 0 buf name_off n host_out in
  if negb ok then {| r_status := SNI_STATUS_MALFORMED; r_host := host_out; r_len := 0 |}
  else
    let last := Z.land (u32 (n - 1)) (MAX_HOST_LEN - 1) in
    let '(host_out, n) :=
      if host_out.[last] =? 46 then (set_byte last 0 host_out, u32 (n - 1)) else (host_out, n) in
    if n =? 0 then {| r_status := SNI_STATUS_MALFORMED; r_host := host_out; r_len := 0 |}
    else {| r_status := SNI_STATUS_SEEN; r_host := host_out; r_len := n |}.

Definition tls_parse_sni (buf : bytes) (len : Z) (host_out : bytes) : sni_result :=
  let ret status := {| r_status := status; r_host := host_out; r_len := 0 |} in
  let len := if TLS_SNI_BUF_LEN <? len then TLS_SNI_BUF_LEN else len in
  if len <? 9 then ret SNI_NOT_CLIENT_HELLO
  else if negb (buf.[0] =? TLS_CT_HANDSHAKE) || negb (buf.[1] =? 0x03) ||
          negb (buf.[5] =? TLS_HS_CLIENT_HELLO)
  then ret SNI_NOT_CLIENT_HELLO
  else
    let rec_end := 5 +32 sni_rd16 buf 3 in
    let hs_end := 9 +32 Z.lor (u32 (Z.shiftl (buf.[6]) 16)) (sni_rd16 buf 7) in
    if rec_end <? hs_end then ret SNI_STATUS_MALFORMED
    else
      let off := 9 + 2 + 32 in
      if len <? off +32 1 then ret SNI_STATUS_TRUNCATED
      else
        let off := off +32 (1 + buf.[sni_idx off]) in
        if len <? off +32 2 then ret SNI_STATUS_TRUNCATED
        else
          let off := off +32 (2 + sni_rd16 buf off) in
          if len <? off +32 1 then ret SNI_STATUS_TRUNCATED
          else
            let off := off +32 (1 + buf.[sni_idx off]) in
            if hs_end <? off then ret SNI_STATUS_MALFORMED
            else if off =? hs_end then ret SNI_STATUS_ABSENT
            else if len <? off +32 2 then ret SNI_STATUS_TRUNCATED
            else
              let ext_end := (off +32 2) +32 sni_rd16 buf off in
              if negb (ext_end =? hs_end) then ret SNI_STATUS_MALFORMED
              else
                match sni_ext_loop (Z.to_nat TLS_SNI_MAX_EXTS) buf len ext_end
                        {| x_off := off +32 2; x_ech := false; x_found := false;
                           x_truncated := false; x_n := 0; x_name_off := 0 |} with
                | ext_return status => ret status
                | ext_done st =>
                    if x_ech st then ret SNI_STATUS_ECH
                    else if x_truncated st then ret SNI_STATUS_TRUNCATED
                    else if x_off st <? ext_end then ret SNI_STATUS_MALFORMED
                    else if negb (x_found st) then ret SNI_STATUS_ABSENT
                    else sni_finish buf (x_name_off st) (x_n st) host_out
                end.

End Sni.

(** ** The ClientHello as a value *)

Module Hello.
Import Sni.

Definition be24 (x : Z) : bytes := [x / 65536; x / 256 mod 256; x mod 256].

Record client_hello := {
  version_random : bytes;      (* client_version (2) and random (32) *)
  session_id : bytes;
  cipher_suites : bytes;
  compression : bytes;
  extensions : option (list (Z * bytes))   (* the field may be missing *)
}.

Definition encode_ext (e : Z * bytes) : bytes := be16 (fst e) ++ be16 (zlen (snd e)) ++ snd e.
Definition encode_exts (es : list (Z * bytes)) : bytes := concat (map encode_ext es).

Definition encode_hello (h : client_hello) : bytes :=
  version_random h ++
  [zlen (session_id h)] ++ session_id h ++
  be16 (zlen (cipher_suites h)) ++ cipher_suites h ++
  [zlen (compression h)] ++ compression h ++
  match extensions h with
  | None => []
  | Some es => be16 (zlen (encode_exts es)) ++ encode_exts es
  end.

(** The record: its header, the handshake header, the hello, and whatever else
    ([rest]) the record carries. *)
Definition encode_record (minor : Z) (h : client_hello) (rest : bytes) : bytes :=
  let hello := encode_hello h in
  [TLS_CT_HANDSHAKE; 0x03; minor] ++ be16 (4 + zlen hello + zlen rest) ++
  [TLS_HS_CLIENT_HELLO] ++ be24 (zlen hello) ++ hello ++ rest.

(** The vectors fit their length fields. *)
Definition ext_wf (e : Z * bytes) : Prop :=
  0 ≤ fst e < 65536 ∧ zlen (snd e) < 65536 ∧ bytes_ok (snd e).

Definition hello_wf (minor : Z) (h : client_hello) (rest : bytes) : Prop :=
  byte minor ∧ zlen (version_random h) = 34 ∧ bytes_ok (version_random h) ∧
  zlen (session_id h) < 256 ∧ bytes_ok (session_id h) ∧
  zlen (cipher_suites h) < 65536 ∧ bytes_ok (cipher_suites h) ∧
  zlen (compression h) < 256 ∧ bytes_ok (compression h) ∧
  Forall ext_wf (default [] (extensions h)) ∧
  4 + zlen (encode_hello h) + zlen rest < 65536 ∧ bytes_ok rest.

(** *** What the extensions say *)

(** The host_name of a server_name body holding one host_name entry of 1 to
    [MAX_HOST_LEN - 1] bytes. *)
Definition server_name (body : bytes) : option bytes :=
  let name := drop 5 body in
  if (5 <=? zlen body) && (body.[0] * 256 + body.[1] =? zlen body - 2) && (body.[2] =? 0) &&
     (body.[3] * 256 + body.[4] =? zlen name) && (0 <? zlen name) && (zlen name <? MAX_HOST_LEN)
  then Some name else None.

(** The extensions from left to right: whether one is ECH, and the name; [None]
    on a malformed or second server_name. *)
Fixpoint walk (es : list (Z * bytes)) (ech : bool) (name : option bytes)
    : option (bool * option bytes) :=
  match es with
  | [] => Some (ech, name)
  | (t, body) :: es' =>
      let ech := if t =? TLS_EXT_ECH then true else ech in
      if t =? TLS_EXT_SERVER_NAME then
        match name, server_name body with
        | None, Some nm => walk es' ech (Some nm)
        | _, _ => None
        end
      else walk es' ech name
  end.

(** The host a name stands for: lowercased, without a trailing dot; [None] when
    a byte is not one the check accepts, or nothing is left. *)
Definition host_of (name : bytes) : option bytes :=
  let l := map to_lower name in
  if negb (forallb sni_host_char_ok l) then None
  else
    let l := match last l with Some c => if c =? 46 then removelast l else l | None => l end in
    if zlen l =? 0 then None else Some l.

(** A host as the [MAX_HOST_LEN]-byte, zero-padded buffer. *)
Definition pad_host (h : bytes) : bytes := h ++ zeros (64 - length h).

(** The status and host of a fully copied ClientHello; the parser walks over
    [TLS_SNI_MAX_EXTS] extensions at most. *)
Definition outcome (h : client_hello) : Z * option bytes :=
  match extensions h with
  | None => (SNI_STATUS_ABSENT, None)
  | Some es =>
      match walk (take 32 es) false None with
      | None => (SNI_STATUS_MALFORMED, None)
      | Some (true, _) => (SNI_STATUS_ECH, None)
      | Some (false, name) =>
          if (32 <? zlen es) then (SNI_STATUS_MALFORMED, None)
          else
            match name with
            | None => (SNI_STATUS_ABSENT, None)
            | Some nm =>
                match host_of nm with
                | None => (SNI_STATUS_MALFORMED, None)
                | Some host => (SNI_STATUS_SEEN, Some host)
                end
            end
      end
  end.

End Hello.

Module SniFacts.
Import Sni Hello.

(** *** Reads *)

Lemma sni_idx_id off : 0 ≤ off < 2048 → sni_idx off = off.
Proof.
  intros. unfold sni_idx, TLS_SNI_BUF_MASK, TLS_SNI_BUF_LEN. change (2048 - 1) with (2 ^ 11 - 1).
  rewrite land_mask by lia. by apply Z.mod_small.
Qed.

Lemma rd16_val b off : bytes_ok b → 0 ≤ off → off + 2 ≤ 2048 →
  sni_rd16 b off = b.[off] * 256 + b.[off + 1].
Proof.
  intros Hb H1 H2. unfold sni_rd16. rewrite (u32_small (off + 1)), !sni_idx_id by lia.
  apply rd16_be; by apply byte_at_range.
Qed.

Lemma rd16_range b off : bytes_ok b → 0 ≤ sni_rd16 b off < 65536.
Proof.
  intros Hb. unfold sni_rd16.
  rewrite rd16_be by (by apply byte_at_range).
  pose proof (byte_at_range b (sni_idx off) Hb). pose proof (byte_at_range b (sni_idx (off +32 1)) Hb).
  unfold byte in *. lia.
Qed.

Lemma zlen_encode_ext e : zlen (encode_ext e) = 4 + zlen (snd e).
Proof. unfold encode_ext. rewrite !zlen_app, !zlen_be16. lia. Qed.

Lemma encode_exts_cons e es : encode_exts (e :: es) = encode_ext e ++ encode_exts es.
Proof. done. Qed.

(** The bytes at [off] are the encoding of the extension whose type, length and
    body are read there. *)
Lemma window_ext b off elen : bytes_ok b → 0 ≤ elen < 65536 →
  b.[off + 2] * 256 + b.[off + 3] = elen →
  window b off (4 + Z.to_nat elen) =
  encode_ext (b.[off] * 256 + b.[off + 1], window b (off + 4) (Z.to_nat elen)).
Proof.
  intros Hb He E. rewrite (window_app b off 4). unfold encode_ext. cbn [fst snd].
  rewrite app_assoc. f_equal.
  change 4%nat with (2 + 2)%nat. rewrite window_app, !be16_window by done.
  rewrite zlen_window, Z2Nat.id by lia. change (Z.of_nat 2) with 2.
  replace (off + 2 + 1) with (off + 3) by lia. by rewrite E.
Qed.

(** What the encoding of an extension reads back as. *)
Lemma ext_fields t body k : 0 ≤ t < 65536 → zlen body < 65536 →
  let b := encode_ext (t, body) ++ k in
  b.[0] * 256 + b.[1] = t ∧ b.[2] * 256 + b.[3] = zlen body.
Proof.
  intros Ht Hb b. pose proof (zlen_nonneg body).
  change (b.[0]) with (t / 256). change (b.[1]) with (t mod 256).
  change (b.[2]) with (zlen body / 256). change (b.[3]) with (zlen body mod 256).
  split; Z.div_mod_to_equations; lia.
Qed.

(** *** The server_name checks *)

Lemma server_name_window b off elen len :
  bytes_ok b → 0 ≤ off → 0 ≤ elen < 65536 → off + elen ≤ len → len ≤ 2048 →
  server_name (window b off (Z.to_nat elen)) =
  if (elen <? 5) || negb (sni_rd16 b off =? elen -32 2) || negb (b.[sni_idx (off +32 2)] =? 0)
  then None
  else
    let n := sni_rd16 b (off +32 3) in
    if (n =? 0) || negb (n +32 5 =? elen) || (MAX_HOST_LEN <=? n) then None
    else Some (window b (off +32 5) (Z.to_nat n)).
Proof.
  intros Hb Ho He Hl Hlen. unfold server_name. rewrite zlen_window, Z2Nat.id by lia.
  destruct (Z.ltb_spec elen 5) as [|H5]; simpl orb; cbv iota.
  { destruct (Z.leb_spec 5 elen); [lia|done]. }
  destruct (Z.leb_spec 5 elen); [|lia].
  rewrite !u32_small by lia. rewrite sni_idx_id by lia. rewrite !rd16_val by (done || lia).
  rewrite !byte_at_window by lia.
  replace (Z.to_nat elen) with (5 + Z.to_nat (elen - 5))%nat by lia.
  rewrite window_drop, zlen_window. rewrite Z2Nat.id by lia. change (Z.of_nat 5) with 5.
  rewrite Z.add_0_r. replace (off + 3 + 1) with (off + 4) by lia.
  pose proof (byte_at_range b (off + 3) Hb). pose proof (byte_at_range b (off + 4) Hb).
  set (n := b.[off + 3] * 256 + b.[off + 4]).
  assert (0 ≤ n < 65536) by (unfold n, byte in *; lia). rewrite (u32_small (n + 5)) by lia.
  unfold MAX_HOST_LEN.
  destruct (_ =? elen - 2); simpl; [|done].
  destruct (b.[off + 2] =? 0); simpl; [|done].
  destruct (Z.eqb_spec n (elen - 5)) as [E|E], (Z.eqb_spec n 0), (Z.eqb_spec (n + 5) elen),
    (Z.leb_spec 64 n), (Z.ltb_spec 0 (elen - 5)), (Z.ltb_spec (elen - 5) 64); simpl; try lia; try done.
  rewrite (u32_small (off + 5)) by lia. by rewrite E.
Qed.

(** *** The walk over the extensions *)

Definition name_of (b : bytes) (st : ext_state) : option bytes :=
  if x_found st then Some (window b (x_name_off st) (Z.to_nat (x_n st))) else None.

Definition name_ok (len : Z) (st : ext_state) : Prop :=
  x_found st = true → 0 < x_n st < 64 ∧ 0 ≤ x_name_off st ∧ x_name_off st + x_n st ≤ len.

(** One iteration on an extension whose header is in the copied bytes. *)
Definition after (b : bytes) (st : ext_state) (t elen : Z) : ext_state :=
  let off := x_off st + 4 in
  if t =? TLS_EXT_SERVER_NAME then
    {| x_off := off + elen; x_ech := x_ech st; x_found := true; x_truncated := x_truncated st;
       x_n := sni_rd16 b (off + 3); x_name_off := off + 5 |}
  else
    {| x_off := off + elen; x_ech := if t =? TLS_EXT_ECH then true else x_ech st;
       x_found := x_found st; x_truncated := x_truncated st; x_n := x_n st;
       x_name_off := x_name_off st |}.

Lemma ext_step fuel b len ext_end st :
  bytes_ok b → 0 ≤ x_off st → x_off st + 4 ≤ ext_end → ext_end < 2 ^ 20 →
  x_off st + 4 ≤ len → len ≤ 2048 →
  let t := b.[x_off st] * 256 + b.[x_off st + 1] in
  let elen := b.[x_off st + 2] * 256 + b.[x_off st + 3] in
  let off := x_off st + 4 in
  sni_ext_loop (S fuel) b len ext_end st =
  if ext_end <? off + elen then ext_return SNI_STATUS_MALFORMED
  else if t =? TLS_EXT_SERVER_NAME then
    if x_found st then ext_return SNI_STATUS_MALFORMED
    else if len <? off + elen then
      ext_done {| x_off := off; x_ech := x_ech st; x_found := x_found st;
                  x_truncated := true; x_n := x_n st; x_name_off := x_name_off st |}
    else match server_name (window b off (Z.to_nat elen)) with
         | None => ext_return SNI_STATUS_MALFORMED
         | Some _ => sni_ext_loop fuel b len ext_end (after b st t elen)
         end
  else sni_ext_loop fuel b len ext_end (after b st t elen).
Proof.
  intros Hb Ho He He2 Hl Hlen t elen off.
  assert (Ht : sni_rd16 b (x_off st) = t) by (apply rd16_val; done || lia).
  assert (Hel : sni_rd16 b (x_off st + 2) = elen).
  { rewrite rd16_val by (done || lia). unfold elen. do 2 f_equal. lia. }
  pose proof (rd16_range b (x_off st + 2) Hb) as Hr. rewrite Hel in Hr.
  cbn [sni_ext_loop]. rewrite !(u32_small (x_off st + _)) by lia. fold off.
  rewrite Ht, Hel. rewrite !(u32_small (off + elen)) by lia.
  destruct (Z.leb_spec ext_end (x_off st)); [lia|].
  destruct (Z.ltb_spec ext_end off); [lia|]. destruct (Z.ltb_spec len off); [lia|].
  destruct (Z.ltb_spec ext_end (off + elen)); [done|].
  destruct (Z.eqb_spec t TLS_EXT_SERVER_NAME) as [Et|Et].
  - destruct (x_found st) eqn:Ef; [done|].
    assert (Ech : (if t =? TLS_EXT_ECH then true else x_ech st) = x_ech st) by (by rewrite Et).
    rewrite Ech.
    destruct (Z.ltb_spec len (off + elen)); [done|].
    rewrite (server_name_window b off elen len) by (done || lia).
    destruct ((elen <? 5) || _ || _) eqn:E1; [done|]. zbool.
    cbv zeta. destruct ((_ =? 0) || _ || _) eqn:E2; [done|].
    f_equal. unfold after. fold off. rewrite Et. simpl.
    by rewrite !u32_small by lia.
  - f_equal. unfold after. fold off. destruct (Z.eqb_spec t TLS_EXT_SERVER_NAME); done.
Qed.

Lemma after_name b st t elen len :
  bytes_ok b → 0 ≤ x_off st → 0 ≤ elen < 65536 → x_off st + 4 + elen ≤ len → len ≤ 2048 →
  (t = TLS_EXT_SERVER_NAME → x_found st = false) → name_ok len st →
  (t = TLS_EXT_SERVER_NAME →
     server_name (window b (x_off st + 4) (Z.to_nat elen)) ≠ None) →
  name_ok len (after b st t elen) ∧
  ∀ es, walk ((t, window b (x_off st + 4) (Z.to_nat elen)) :: es) (x_ech st) (name_of b st)
        = walk es (x_ech (after b st t elen)) (name_of b (after b st t elen)).
Proof.
  intros Hb Ho He Hl Hlen Hf Hn Hs. cbn [walk]. unfold after.
  destruct (Z.eqb_spec t TLS_EXT_SERVER_NAME) as [->|Ht].
  - specialize (Hs eq_refl). specialize (Hf eq_refl). clear Hn.
    rewrite (server_name_window b _ elen len) in * by (done || lia).
    unfold name_of at 1 2. rewrite Hf. cbn [x_ech x_found x_n x_name_off name_of].
    change (TLS_EXT_SERVER_NAME =? TLS_EXT_ECH) with false. cbv iota.
    destruct ((elen <? 5) || _ || _) eqn:E1; [done|]. cbv zeta in *.
    rewrite !(u32_small (x_off st + 4 + _)) in * by lia.
    destruct ((_ =? 0) || _ || _) eqn:E2; [done|]. unfold MAX_HOST_LEN in *. zbool.
    pose proof (rd16_range b (x_off st + 4 + 3) Hb). rewrite u32_small in * by lia.
    split; [|done]. intros _. cbn. lia.
  - split; [|done]. exact Hn.
Qed.

(** A name found so far is kept by an extension other than server_name, however
    long. *)
Lemma after_other b st t elen len :
  t ≠ TLS_EXT_SERVER_NAME → name_ok len st →
  name_ok len (after b st t elen) ∧
  ∀ body es, walk ((t, body) :: es) (x_ech st) (name_of b st)
        = walk es (x_ech (after b st t elen)) (name_of b (after b st t elen)).
Proof.
  intros Ht Hn. cbn [walk]. unfold after.
  destruct (Z.eqb_spec t TLS_EXT_SERVER_NAME); [done|]. by split.
Qed.

Lemma after_off b st t elen : x_off (after b st t elen) = x_off st + 4 + elen.
Proof. unfold after. by destruct (t =? _). Qed.
Lemma after_truncated b st t elen : x_truncated (after b st t elen) = x_truncated st.
Proof. unfold after. by destruct (t =? _). Qed.

(** Soundness of the walk: when it ends past the last extension, the bytes it
    went over are the encoding of extensions that say what it found. *)
Lemma ext_loop_sound fuel : ∀ b len ext_end st st',
  bytes_ok b → 0 ≤ x_off st ≤ ext_end → ext_end < 2 ^ 20 → len ≤ 2048 →
  name_ok len st → x_truncated st' = false → ext_end ≤ x_off st' →
  sni_ext_loop fuel b len ext_end st = ext_done st' →
  name_ok len st' ∧
  ∃ es, (length es <= fuel)%nat ∧ Forall ext_wf es ∧
    window b (x_off st) (Z.to_nat (ext_end - x_off st)) = encode_exts es ∧
    walk es (x_ech st) (name_of b st) = Some (x_ech st', name_of b st').
Proof.
  induction fuel as [|fuel IH]; intros b len ext_end st st' Hb Ho He Hl Hn Ht Hend E.
  { cbn in E. simplify_eq. split; [done|]. exists []. split_and!; [done|constructor| |done].
    by replace (Z.to_nat (ext_end - x_off st')) with 0%nat by lia. }
  destruct (Z.leb_spec ext_end (x_off st)) as [Hge|Hlt].
  { cbn [sni_ext_loop] in E. destruct (Z.leb_spec ext_end (x_off st)); [|lia].
    simplify_eq. split; [done|]. exists []. split_and!; [cbn; lia|constructor| |done].
    by replace (Z.to_nat (ext_end - x_off st')) with 0%nat by lia. }
  assert (Hhdr : x_off st + 4 ≤ ext_end ∧ x_off st + 4 ≤ len).
  { cbn [sni_ext_loop] in E. destruct (Z.leb_spec ext_end (x_off st)); [lia|].
    rewrite u32_small in E by lia.
    destruct (Z.ltb_spec ext_end (x_off st + 4)); [done|].
    destruct (Z.ltb_spec len (x_off st + 4)); [|lia]. simplify_eq. }
  rewrite ext_step in E by (done || lia).
  set (t := b.[x_off st] * 256 + b.[x_off st + 1]) in *.
  set (elen := b.[x_off st + 2] * 256 + b.[x_off st + 3]) in *.
  assert (Hrange : ∀ i, 0 ≤ b.[i] < 256) by (intros; by apply byte_at_range).
  pose proof (Hrange (x_off st)). pose proof (Hrange (x_off st + 1)).
  pose proof (Hrange (x_off st + 2)). pose proof (Hrange (x_off st + 3)).
  assert (0 ≤ elen < 65536) by (unfold elen; lia). assert (0 ≤ t < 65536) by (unfold t; lia).
  cbv zeta in E. destruct (Z.ltb_spec ext_end (x_off st + 4 + elen)); [done|].
  set (body := window b (x_off st + 4) (Z.to_nat elen)) in *.
  assert (Hstep : (name_ok len (after b st t elen) ∧
      ∀ es, walk ((t, body) :: es) (x_ech st) (name_of b st)
        = walk es (x_ech (after b st t elen)) (name_of b (after b st t elen))) ∧
      sni_ext_loop fuel b len ext_end (after b st t elen) = ext_done st').
  { destruct (Z.eqb_spec t TLS_EXT_SERVER_NAME) as [Et|Et].
    - destruct (x_found st) eqn:Ef; [done|].
      destruct (Z.ltb_spec len (x_off st + 4 + elen)); [simplify_eq|].
      destruct (server_name body) eqn:Es; [|done]. split; [|done].
      apply after_name; try done; try lia. intros _. fold body. by rewrite Es.
    - split; [|done]. destruct (after_other b st t elen len Et Hn) as [Hn' Hw].
      split; [done|]. intros es. apply Hw. }
  destruct Hstep as [[Hn' Hw] E']. rewrite <- (after_off b st t elen) in *.
  apply IH in E' as (Hn2 & es & Hlen & Hwf & Hwin & Hwalk); try done; [|rewrite after_off in *; lia].
  split; [done|]. exists ((t, body) :: es). split_and!.
  - simpl. lia.
  - constructor; [|done]. split_and!; cbn; [lia|lia| |by apply window_ok].
    unfold body. rewrite zlen_window. lia.
  - rewrite encode_exts_cons, <- Hwin. rewrite after_off in *.
    replace (Z.to_nat (ext_end - x_off st))
      with ((4 + Z.to_nat elen) + Z.to_nat (ext_end - (x_off st + 4 + elen)))%nat by lia.
    rewrite window_app, (window_ext b (x_off st) elen) by done. do 2 f_equal; lia.
  - by rewrite Hw.
Qed.

Lemma length_encode_ext t body : length (encode_ext (t, body)) = (4 + length body)%nat.
Proof. pose proof (zlen_encode_ext (t, body)) as Hz. unfold zlen in Hz. cbn [snd] in Hz. lia. Qed.

(** The extension at [off], when the bytes there are its encoding. *)
Lemma ext_at b off t body : 0 ≤ off → 0 ≤ t < 65536 → zlen body < 65536 →
  window b off (length (encode_ext (t, body))) = encode_ext (t, body) →
  b.[off] * 256 + b.[off + 1] = t ∧ b.[off + 2] * 256 + b.[off + 3] = zlen body ∧
  window b (off + 4) (length body) = body.
Proof.
  intros Ho Ht0 Hbl Hw1. pose proof (zlen_nonneg body).
  assert (Hle : length (encode_ext (t, body)) = (4 + length body)%nat) by apply length_encode_ext.
  assert (Hat : ∀ i, 0 ≤ i < 4 → b.[off + i] = (encode_ext (t, body)).[i]).
  { intros i Hi. rewrite <- Hw1, byte_at_window by lia. done. }
  destruct (ext_fields t body [] Ht0 Hbl) as [F1 F2]. rewrite app_nil_r in F1, F2.
  rewrite <- !Hat in F1, F2 by lia. rewrite Z.add_0_r in F1. split; [done|]. split; [done|].
  rewrite Hle in Hw1. rewrite window_app in Hw1. unfold encode_ext in Hw1. cbn [fst snd] in Hw1.
  rewrite app_assoc in Hw1. apply app_inj_1 in Hw1 as [_ Hw1]; [done|]. by rewrite length_window.
Qed.

(** Completeness of the walk: on the encoding of extensions, all copied, it
    finds what the first [fuel] of them say. *)
Lemma ext_loop_complete fuel : ∀ es b len ext_end st,
  bytes_ok b → 0 ≤ x_off st → len ≤ 2048 → ext_end ≤ len → name_ok len st →
  x_truncated st = false → Forall ext_wf es →
  ext_end = x_off st + zlen (encode_exts es) →
  window b (x_off st) (length (encode_exts es)) = encode_exts es →
  match walk (take fuel es) (x_ech st) (name_of b st) with
  | None => sni_ext_loop fuel b len ext_end st = ext_return SNI_STATUS_MALFORMED
  | Some (ech, name) =>
      ∃ st', sni_ext_loop fuel b len ext_end st = ext_done st' ∧ x_truncated st' = false ∧
        name_ok len st' ∧ x_ech st' = ech ∧ name_of b st' = name ∧
        x_off st' = x_off st + zlen (encode_exts (take fuel es))
  end.
Proof.
  induction fuel as [|fuel IH]; intros es b len ext_end st Hb Ho Hl He Hn Ht Hwf Hend Hwin.
  { rewrite take_0. cbn. exists st. split_and!; try done. rewrite Z.add_0_r. done. }
  destruct es as [|[t body] es].
  { change (zlen (encode_exts [])) with 0 in Hend. rewrite firstn_nil. cbn [walk]. exists st.
    cbn [sni_ext_loop]. destruct (Z.leb_spec ext_end (x_off st)); [|lia].
    split_and!; try done. change (zlen (encode_exts [])) with 0. lia. }
  apply Forall_cons in Hwf as [[Ht0 [Hbl Hbo]] Hwf]. cbn [fst snd] in *.
  rewrite encode_exts_cons in *. rewrite zlen_app, zlen_encode_ext in Hend. cbn [snd] in Hend.
  rewrite length_app, window_app in Hwin.
  assert (Hle : length (encode_ext (t, body)) = (4 + length body)%nat) by apply length_encode_ext.
  apply app_inj_1 in Hwin as [Hw1 Hw2]; [|apply length_window].
  pose proof (zlen_nonneg (encode_exts es)). pose proof (zlen_nonneg body).
  destruct (ext_at b (x_off st) t body Ho Ht0 Hbl Hw1) as (F1 & F2 & Hbody).
  rewrite ext_step by (done || lia). rewrite F1, F2. cbv zeta.
  assert (Hzb : Z.to_nat (zlen body) = length body) by (unfold zlen; lia).
  rewrite Hzb, Hbody. cbn [take].
  destruct (Z.ltb_spec ext_end (x_off st + 4 + zlen body)); [lia|].
  assert (Hnext : name_ok len (after b st t (zlen body)) →
    (∀ es, walk ((t, body) :: es) (x_ech st) (name_of b st)
      = walk es (x_ech (after b st t (zlen body))) (name_of b (after b st t (zlen body)))) →
    match walk ((t, body) :: take fuel es) (x_ech st) (name_of b st) with
    | None => sni_ext_loop fuel b len ext_end (after b st t (zlen body)) =
              ext_return SNI_STATUS_MALFORMED
    | Some (ech, name) =>
      ∃ st', sni_ext_loop fuel b len ext_end (after b st t (zlen body)) = ext_done st' ∧
        x_truncated st' = false ∧ name_ok len st' ∧ x_ech st' = ech ∧ name_of b st' = name ∧
        x_off st' = x_off st + zlen (encode_exts ((t, body) :: take fuel es))
    end).
  { intros Hn' Hw. rewrite Hw.
    specialize (IH es b len ext_end (after b st t (zlen body)) Hb).
    rewrite after_off, after_truncated in IH.
    rewrite Hle in Hw2. replace (x_off st + Z.of_nat (4 + length body))
      with (x_off st + 4 + zlen body) in Hw2 by (unfold zlen; lia).
    specialize (IH ltac:(lia) Hl He Hn' Ht Hwf ltac:(lia) Hw2).
    destruct (walk (take fuel es) _ _) as [[ech name]|]; [|done].
    destruct IH as (st' & ? & ? & ? & ? & ? & E). exists st'. split_and!; try done.
    rewrite E, encode_exts_cons, zlen_app, zlen_encode_ext. cbn [snd]. lia. }
  destruct (Z.eqb_spec t TLS_EXT_SERVER_NAME) as [Et|Et].
  - destruct (x_found st) eqn:Ef.
    { cbn [walk]. rewrite Et. cbn. unfold name_of. by rewrite Ef. }
    destruct (Z.ltb_spec len (x_off st + 4 + zlen body)); [lia|].
    destruct (server_name body) as [nm|] eqn:Es.
    + destruct (after_name b st t (zlen body) len Hb Ho) as [Hn' Hw]; try done; try lia.
      { intros _. by rewrite Hzb, Hbody, Es. }
      rewrite Hzb, Hbody in Hw. by apply Hnext.
    + cbn [walk]. rewrite Et. cbn. unfold name_of. by rewrite Ef, Es.
  - destruct (after_other b st t (zlen body) len Et Hn) as [Hn' Hw]. apply Hnext; [done|].
    intros. apply Hw.
Qed.

(** *** The name *)

Lemma copy_loop_spec fuel : ∀ j buf off n pre,
  n - j ≤ Z.of_nat fuel → length pre = Z.to_nat j →
  0 ≤ j ≤ n → n < 64 → 0 ≤ off → off + n ≤ 2048 →
  let name := map to_lower (window buf (off + j) (Z.to_nat (n - j))) in
  if forallb sni_host_char_ok name
  then sni_copy_loop fuel j buf off n (pre ++ zeros (64 - Z.to_nat j)) =
       (true, pre ++ name ++ zeros (64 - Z.to_nat n))
  else fst (sni_copy_loop fuel j buf off n (pre ++ zeros (64 - Z.to_nat j))) = false.
Proof.
  induction fuel as [|fuel IH]; intros j buf off n pre Hf Hp Hj Hn Ho Hl name.
  { assert (n = j) as -> by lia. subst name. by rewrite Z.sub_diag. }
  cbn [sni_copy_loop]. destruct (Z.leb_spec n j).
  { assert (n = j) as -> by lia. subst name. by rewrite Z.sub_diag. }
  assert (En : name = to_lower (buf.[off + j]) ::
    map to_lower (window buf (off + (j + 1)) (Z.to_nat (n - (j + 1))))).
  { subst name. replace (Z.to_nat (n - j)) with (S (Z.to_nat (n - (j + 1)))) by lia.
    rewrite window_S. cbn [map]. do 3 f_equal. lia. }
  rewrite En. cbn [forallb]. rewrite u32_small, sni_idx_id by lia.
  set (c := to_lower (buf.[off + j])). destruct (sni_host_char_ok c); cbn [andb]; [|done].
  change (MAX_HOST_LEN - 1) with (2 ^ 6 - 1). rewrite land_mask, Z.mod_small by lia.
  replace (64 - Z.to_nat j)%nat with (S (64 - Z.to_nat (j + 1))) by lia.
  replace (set_byte j c (pre ++ zeros _)) with ((pre ++ [c]) ++ zeros (64 - Z.to_nat (j + 1))).
  2:{ replace j with (zlen pre + 0) at 2 by (unfold zlen; lia).
      rewrite set_byte_app_r by lia. by rewrite <- app_assoc. }
  specialize (IH (j + 1) buf off n (pre ++ [c])). cbv zeta in IH.
  rewrite length_app in IH. cbn [length] in IH.
  specialize (IH ltac:(lia) ltac:(lia) ltac:(lia) Hn Ho Hl).
  destruct (forallb _ _); [|done]. rewrite IH, <- !app_assoc. done.
Qed.

Lemma snoc_or_nil {A} (l : list A) : l = [] ∨ ∃ k x, l = k ++ [x].
Proof. destruct l using rev_ind; [by left|right; eauto]. Qed.

Lemma removelast_snoc {A} (l : list A) x : removelast (l ++ [x]) = l.
Proof. apply removelast_last. Qed.

Lemma finish_spec buf off n :
  0 < n < 64 → 0 ≤ off → off + n ≤ 2048 →
  let r := sni_finish buf off n (zeros 64) in
  match host_of (window buf off (Z.to_nat n)) with
  | Some h => r = {| r_status := SNI_STATUS_SEEN; r_host := pad_host h; r_len := zlen h |}
  | None => r_status r = SNI_STATUS_MALFORMED ∧ r_len r = 0
  end.
Proof.
  intros Hn Ho Hl. unfold sni_finish, host_of.
  pose proof (copy_loop_spec (Z.to_nat MAX_HOST_LEN) 0 buf off n []) as Hc. cbv zeta in Hc.
  specialize (Hc ltac:(change MAX_HOST_LEN with 64; lia) eq_refl ltac:(lia) ltac:(lia) Ho Hl).
  rewrite Z.add_0_r, Z.sub_0_r in Hc. cbn [app] in Hc.
  change (zeros (64 - Z.to_nat 0)) with (zeros 64) in Hc.
  assert (Hlen : length (map to_lower (window buf off (Z.to_nat n))) = Z.to_nat n)
    by (by rewrite length_map, length_window).
  set (l := map to_lower (window buf off (Z.to_nat n))) in *.
  destruct (forallb sni_host_char_ok l); cbn [negb]; cbv iota.
  2:{ destruct (sni_copy_loop _ _ _ _ _ _) as [ok h]. cbn in Hc. subst ok. done. }
  rewrite Hc. cbn [negb]. cbv iota.
  rewrite (u32_small (n - 1)) by lia. change (MAX_HOST_LEN - 1) with (2 ^ 6 - 1).
  rewrite land_mask, Z.mod_small by lia.
  destruct (snoc_or_nil l) as [->|(k & c & ->)]; [simpl in Hlen; lia|].
  rewrite last_snoc, removelast_snoc. rewrite length_app in Hlen. cbn [length] in Hlen.
  assert (Hz : zlen k = n - 1) by (unfold zlen; lia).
  cbv zeta. rewrite <- app_assoc. rewrite <- Hz. rewrite byte_at_app_r, Z.sub_diag by lia. rewrite Hz.
  change ((([c] ++ zeros (64 - Z.to_nat n)).[0])) with c.
  destruct (Z.eqb_spec c 46) as [->|Hc46].
  - destruct (Z.eqb_spec (n - 1) 0) as [E|E].
    + rewrite Hz. destruct (Z.eqb_spec (n - 1) 0); done.
    + rewrite Hz. destruct (Z.eqb_spec (n - 1) 0); [done|].
      rewrite <- Hz. f_equal. rewrite <- (Z.add_0_r (zlen k)), set_byte_app_r by lia.
      unfold pad_host. f_equal. cbn [app]. unfold set_byte.
      change (<[Z.to_nat 0:=0]> (46 :: zeros (64 - Z.to_nat n)))
        with (zeros (S (64 - Z.to_nat n))).
      by replace (S (64 - Z.to_nat n)) with (64 - length k)%nat by lia.
  - destruct (Z.eqb_spec n 0); [lia|]. rewrite zlen_app. change (zlen [c]) with 1.
    destruct (Z.eqb_spec (zlen k + 1) 0); [lia|]. f_equal; [|rewrite zlen_app; change (zlen [c]) with 1; lia].
    unfold pad_host. rewrite <- app_assoc, length_app. cbn [length].
    by replace (64 - (length k + 1))%nat with (64 - Z.to_nat n)%nat by lia.
Qed.

(** *** Where the fields of a hello are *)

Lemma holds_hello b h :
  holds b 9 (encode_hello h) → zlen (version_random h) = 34 →
  let off1 := 44 + zlen (session_id h) in
  let off2 := off1 + 2 + zlen (cipher_suites h) in
  let off3 := off2 + 1 + zlen (compression h) in
  b.[43] = zlen (session_id h) ∧
  b.[off1] * 256 + b.[off1 + 1] = zlen (cipher_suites h) ∧
  b.[off2] = zlen (compression h) ∧
  match extensions h with
  | None => zlen (encode_hello h) = off3 - 9
  | Some es =>
      zlen (encode_hello h) = off3 + 2 + zlen (encode_exts es) - 9 ∧
      b.[off3] * 256 + b.[off3 + 1] = zlen (encode_exts es) ∧
      holds b (off3 + 2) (encode_exts es)
  end.
Proof.
  intros H Hv. cbv zeta. unfold encode_hello in *.
  rewrite !holds_app, !holds_cons, Hv in H. rewrite !zlen_app, !zlen_be16, Hv in *.
  change (9 + 34) with 43 in H. change (zlen [_]) with 1 in *. rewrite !Z.add_assoc in *.
  change (43 + 1) with 44 in H.
  destruct H as (_ & (H1 & _) & _ & H2 & _ & (H3 & _) & _ & H4).
  apply holds_be16 in H2. split_and!; try done.
  destruct (extensions h) as [es|]; [|rewrite zlen_nil; lia].
  rewrite holds_app, zlen_be16 in H4. rewrite zlen_app, zlen_be16. destruct H4 as [H4 H5].
  apply holds_be16 in H4. split_and!; [lia|done|done].
Qed.

(** The buffer has the hello of [encode_record minor h rest]: the bytes of the
    record up to the end of the hello. *)
Definition has_hello (b : bytes) (minor : Z) (h : client_hello) (rest : bytes) : Prop :=
  holds b 0 (take (Z.to_nat (9 + zlen (encode_hello h))) (encode_record minor h rest)).

Lemma take_record minor h rest :
  take (Z.to_nat (9 + zlen (encode_hello h))) (encode_record minor h rest) =
  [TLS_CT_HANDSHAKE; 0x03; minor] ++ be16 (4 + zlen (encode_hello h) + zlen rest) ++
  [TLS_HS_CLIENT_HELLO] ++ be24 (zlen (encode_hello h)) ++ encode_hello h.
Proof.
  unfold encode_record. rewrite !app_assoc. apply take_app_length'. rewrite !length_app.
  cbn. unfold zlen. lia.
Qed.

Lemma holds_record b minor h rest :
  has_hello b minor h rest →
  b.[0] = TLS_CT_HANDSHAKE ∧ b.[1] = 0x03 ∧ b.[5] = TLS_HS_CLIENT_HELLO ∧ b.[2] = minor ∧
  b.[3] * 256 + b.[4] = 4 + zlen (encode_hello h) + zlen rest ∧
  b.[6] * 65536 + b.[7] * 256 + b.[8] = zlen (encode_hello h) ∧
  holds b 9 (encode_hello h).
Proof.
  unfold has_hello. rewrite take_record. rewrite !holds_app, zlen_be16, !holds_cons.
  unfold be24. rewrite !holds_cons. change (zlen [_]) with 1. change (zlen [_; _; _]) with 3.
  intros ((H0 & H1 & H2 & _) & H3 & (H5 & _) & (H6 & H7 & H8 & _) & H9). apply holds_be16 in H3.
  split_and!; try done. change (b.[6]) with (b.[0 + 3 + 2 + 1]).
  change (b.[7]) with (b.[0 + 3 + 2 + 1 + 1]). change (b.[8]) with (b.[0 + 3 + 2 + 1 + 1 + 1]).
  rewrite H6, H7, H8. Z.div_mod_to_equations; lia.
Qed.

(** *** The parser with its wrapping arithmetic resolved *)

Definition walk_result (fuel : nat) (b : bytes) (len ext_end off : Z) (host : bytes) : sni_result :=
  let ret status := {| r_status := status; r_host := host; r_len := 0 |} in
  match sni_ext_loop fuel b len ext_end
          {| x_off := off; x_ech := false; x_found := false;
             x_truncated := false; x_n := 0; x_name_off := 0 |} with
  | ext_return status => ret status
  | ext_done st =>
      if x_ech st then ret SNI_STATUS_ECH
      else if x_truncated st then ret SNI_STATUS_TRUNCATED
      else if x_off st <? ext_end then ret SNI_STATUS_MALFORMED
      else if negb (x_found st) then ret SNI_STATUS_ABSENT
      else sni_finish b (x_name_off st) (x_n st) host
  end.

Lemma parse_eq b len host :
  bytes_ok b →
  let n := Z.min len 2048 in
  let ret status := {| r_status := status; r_host := host; r_len := 0 |} in
  let hs_end := 9 + (b.[6] * 65536 + u16_at b 7) in
  let off1 := 44 + b.[43] in
  let off2 := off1 + 2 + u16_at b off1 in
  let off3 := off2 + 1 + b.[off2] in
  tls_parse_sni b len host =
  if n <? 9 then ret SNI_NOT_CLIENT_HELLO
  else if negb (b.[0] =? TLS_CT_HANDSHAKE) || negb (b.[1] =? 0x03) ||
          negb (b.[5] =? TLS_HS_CLIENT_HELLO)
  then ret SNI_NOT_CLIENT_HELLO
  else if 5 + u16_at b 3 <? hs_end then ret SNI_STATUS_MALFORMED
  else if n <? 44 then ret SNI_STATUS_TRUNCATED
  else if n <? off1 + 2 then ret SNI_STATUS_TRUNCATED
  else if n <? off2 + 1 then ret SNI_STATUS_TRUNCATED
  else if hs_end <? off3 then ret SNI_STATUS_MALFORMED
  else if off3 =? hs_end then ret SNI_STATUS_ABSENT
  else if n <? off3 + 2 then ret SNI_STATUS_TRUNCATED
  else if negb (off3 + 2 + u16_at b off3 =? hs_end) then ret SNI_STATUS_MALFORMED
  else walk_result 32 b n hs_end (off3 + 2) host.
Proof.
  intros Hb. cbv zeta. unfold tls_parse_sni.
  assert (En : (if TLS_SNI_BUF_LEN <? len then TLS_SNI_BUF_LEN else len) = Z.min len 2048).
  { unfold TLS_SNI_BUF_LEN. destruct (Z.ltb_spec 2048 len); lia. }
  rewrite En. set (n := Z.min len 2048). assert (n ≤ 2048) by lia. clearbody n. clear En.
  destruct (n <? 9); [done|].
  destruct (negb (b.[0] =? TLS_CT_HANDSHAKE) || _ || _); [done|].
  assert (Hrange : ∀ i, 0 ≤ b.[i] < 256) by (intros; by apply byte_at_range).
  pose proof (Hrange 6). pose proof (u16_at_range b 3 Hb). pose proof (u16_at_range b 7 Hb).
  rewrite (rd16_val b 3), (rd16_val b 7) by (done || lia). fold (u16_at b 3) (u16_at b 7).
  assert (Elor : Z.lor (u32 (Z.shiftl (b.[6]) 16)) (u16_at b 7) = b.[6] * 65536 + u16_at b 7).
  { rewrite Z.shiftl_mul_pow2 by lia. rewrite u32_small by lia. by apply lor_disjoint. }
  rewrite Elor. set (HS := b.[6] * 65536 + u16_at b 7) in *.
  rewrite (u32_small (5 + u16_at b 3)), (u32_small (9 + HS)) by lia.
  destruct (Z.ltb_spec (5 + u16_at b 3) (9 + HS)); [done|].
  change (9 + 2 + 32) with 43. change (43 +32 1) with 44. change (sni_idx 43) with 43.
  destruct (Z.ltb_spec n 44); [done|].
  pose proof (Hrange 43). rewrite (u32_small (43 + (1 + b.[43]))) by lia.
  replace (43 + (1 + b.[43])) with (44 + b.[43]) by lia.
  set (off1 := 44 + b.[43]) in *. rewrite (u32_small (off1 + 2)) by lia.
  destruct (Z.ltb_spec n (off1 + 2)); [done|].
  rewrite (rd16_val b off1) by (done || lia). fold (u16_at b off1).
  pose proof (u16_at_range b off1 Hb).
  rewrite (u32_small (off1 + (2 + u16_at b off1))), !Z.add_assoc by lia.
  set (off2 := off1 + 2 + u16_at b off1) in *. rewrite (u32_small (off2 + 1)) by lia.
  destruct (Z.ltb_spec n (off2 + 1)); [done|]. pose proof (Hrange off2).
  rewrite (sni_idx_id off2) by lia. rewrite (u32_small (off2 + 1 + b.[off2])) by lia.
  set (off3 := off2 + 1 + b.[off2]) in *.
  destruct (Z.ltb_spec (9 + HS) off3); [done|]. destruct (off3 =? 9 + HS); [done|].
  rewrite (u32_small (off3 + 2)) by lia.
  destruct (Z.ltb_spec n (off3 + 2)); [done|].
  rewrite (rd16_val b off3) by (done || lia). fold (u16_at b off3).
  pose proof (u16_at_range b off3 Hb). rewrite (u32_small (off3 + 2 + u16_at b off3)) by lia.
  destruct (Z.eqb_spec (off3 + 2 + u16_at b off3) (9 + HS)) as [->|]; [|done].
  unfold walk_result. change (Z.to_nat TLS_SNI_MAX_EXTS) with 32%nat. cbn [negb]. reflexivity.
Qed.

Lemma walk_result_seen fuel b len ext_end off :
  bytes_ok b → 0 ≤ off ≤ ext_end → ext_end < 2 ^ 20 → len ≤ 2048 →
  let r := walk_result fuel b len ext_end off (zeros 64) in
  r_status r = SNI_STATUS_SEEN →
  ∃ es nm host, (length es <= fuel)%nat ∧ Forall ext_wf es ∧
    window b off (Z.to_nat (ext_end - off)) = encode_exts es ∧
    walk es false None = Some (false, Some nm) ∧ host_of nm = Some host ∧
    r_host r = pad_host host ∧ r_len r = zlen host.
Proof.
  intros Hb Ho He Hl r Hr. subst r. unfold walk_result in *.
  destruct (sni_ext_loop _ _ _ _ _) as [status|st] eqn:E.
  { exfalso. cbn in Hr. revert E. rewrite Hr. generalize {| x_off := off; x_ech := false;
      x_found := false; x_truncated := false; x_n := 0; x_name_off := 0 |} as s.
    clear. induction fuel as [|fuel IH]; intros s; [done|].
    cbn [sni_ext_loop]. intros E. repeat case_match; try done; eauto. }
  destruct (x_ech st) eqn:E1; [done|]. destruct (x_truncated st) eqn:E2; [done|].
  destruct (Z.ltb_spec (x_off st) ext_end); [done|].
  destruct (x_found st) eqn:E3; [|done]. cbn [negb] in *. cbv iota in *.
  apply ext_loop_sound in E as (Hn & es & Hes & Hwf & Hwin & Hw); try done; try (cbn; lia).
  cbn [x_off x_ech] in *. unfold name_of in Hw. cbn [x_found] in Hw. rewrite E1, E3 in Hw.
  destruct (Hn E3) as (Hn1 & Hn2 & Hn3).
  pose proof (finish_spec b (x_name_off st) (x_n st) Hn1 Hn2 ltac:(lia)) as Hf. cbv zeta in Hf.
  destruct (host_of _) as [host|] eqn:Eh; [|destruct Hf as [Hf _]; rewrite Hf in Hr; done].
  exists es, (window b (x_name_off st) (Z.to_nat (x_n st))), host. rewrite Hf. by split_and!.
Qed.

Lemma walk_result_complete fuel b len es off :
  bytes_ok b → 0 ≤ off → len ≤ 2048 → off + zlen (encode_exts es) ≤ len →
  Forall ext_wf es → holds b off (encode_exts es) →
  let r := walk_result fuel b len (off + zlen (encode_exts es)) off (zeros 64) in
  let o := match walk (take fuel es) false None with
      | None => (SNI_STATUS_MALFORMED, None)
      | Some (true, _) => (SNI_STATUS_ECH, None)
      | Some (false, name) =>
          if (Z.of_nat fuel <? zlen es) then (SNI_STATUS_MALFORMED, None)
          else
            match name with
            | None => (SNI_STATUS_ABSENT, None)
            | Some nm =>
                match host_of nm with
                | None => (SNI_STATUS_MALFORMED, None)
                | Some host => (SNI_STATUS_SEEN, Some host)
                end
            end
      end in
  r_status r = fst o ∧
  match snd o with
  | Some host => r_host r = pad_host host ∧ r_len r = zlen host
  | None => r_len r = 0
  end.
Proof.
  intros Hb Ho Hl He Hwf Hh. cbv zeta. unfold walk_result.
  set (st0 := {| x_off := off; x_ech := false; x_found := false; x_truncated := false;
                 x_n := 0; x_name_off := 0 |}).
  pose proof (ext_loop_complete fuel es b len (off + zlen (encode_exts es)) st0 Hb) as H.
  cbn [x_off x_ech x_found x_truncated st0] in H.
  specialize (H Ho Hl He ltac:(done) eq_refl Hwf eq_refl Hh).
  unfold name_of at 1 in H. cbn [x_found st0] in H.
  destruct (walk (take fuel es) false None) as [[ech name]|]; [|by rewrite H].
  destruct H as (st & -> & Ht & Hn & Ee & En & Eo). rewrite Ee, Ht.
  destruct ech; [done|].
  assert (Hcat : zlen (encode_exts es) =
    zlen (encode_exts (take fuel es)) + zlen (encode_exts (drop fuel es))).
  { rewrite <- zlen_app. unfold encode_exts. rewrite <- concat_app, <- map_app. by rewrite take_drop. }
  destruct (Z.ltb_spec (Z.of_nat fuel) (zlen es)) as [H32|H32].
  - assert (0 < zlen (encode_exts (drop fuel es))).
    { destruct (drop fuel es) as [|e es'] eqn:Ed.
      - exfalso. assert (length (drop fuel es) = 0)%nat as E0 by (by rewrite Ed).
        rewrite length_drop in E0. unfold zlen in H32. lia.
      - rewrite encode_exts_cons, zlen_app, zlen_encode_ext.
        pose proof (zlen_nonneg (snd e)). pose proof (zlen_nonneg (encode_exts es')). lia. }
    destruct (Z.ltb_spec (x_off st) (off + zlen (encode_exts es))); [done|lia].
  - rewrite take_ge in Eo by (unfold zlen in *; lia).
    destruct (Z.ltb_spec (x_off st) (off + zlen (encode_exts es))); [lia|].
    unfold name_of in En. destruct (x_found st) eqn:Ef; cbn [negb]; subst name; [|done].
    destruct (Hn Ef) as (Hn1 & Hn2 & Hn3).
    pose proof (finish_spec b (x_name_off st) (x_n st) Hn1 Hn2 ltac:(lia)) as Hf. cbv zeta in Hf.
    destruct (host_of _); [by rewrite Hf|]. by destruct Hf as [-> ->].
Qed.

(** *** No byte past the copied ones is read *)

Lemma agree_rd16 n b b' off :
  agree n b b' → 0 ≤ off → off + 2 ≤ n → n ≤ 2048 → sni_rd16 b off = sni_rd16 b' off.
Proof.
  intros H ???. unfold sni_rd16. rewrite (u32_small (off + 1)), !sni_idx_id by lia.
  by rewrite !H by lia.
Qed.

Lemma ext_loop_agree fuel : ∀ b b' len ext_end st,
  bytes_ok b → bytes_ok b' → agree len b b' → 0 ≤ x_off st → ext_end < 2 ^ 20 → len ≤ 2048 →
  x_off st ≤ ext_end →
  sni_ext_loop fuel b len ext_end st = sni_ext_loop fuel b' len ext_end st.
Proof.
  induction fuel as [|fuel IH]; intros b b' len ext_end st Hb Hb' Ha Ho He Hl Hle; [done|].
  destruct (decide (x_off st + 4 ≤ ext_end ∧ x_off st + 4 ≤ len)) as [[H1 H2]|Hn].
  - rewrite !ext_step by (done || lia). rewrite <- !Ha by lia.
    set (t := b.[x_off st] * 256 + b.[x_off st + 1]).
    pose proof (u16_at_range b (x_off st + 2) Hb) as Hr. unfold u16_at in Hr.
    replace (x_off st + 2 + 1) with (x_off st + 3) in Hr by lia.
    set (elen := b.[x_off st + 2] * 256 + b.[x_off st + 3]) in *. cbv zeta.
    destruct (Z.ltb_spec ext_end (x_off st + 4 + elen)); [done|].
    destruct (Z.eqb_spec t TLS_EXT_SERVER_NAME) as [Et|Et].
    + destruct (x_found st); [done|]. destruct (Z.ltb_spec len (x_off st + 4 + elen)); [done|].
      rewrite (agree_window len b b') by (done || lia).
      destruct (server_name _) eqn:Es; [|done].
      assert (5 ≤ elen).
      { unfold server_name in Es. rewrite zlen_window, Z2Nat.id in Es by lia.
        destruct (Z.leb_spec 5 elen); [done|]. by cbn [andb] in Es. }
      assert (Ea : after b st t elen = after b' st t elen).
      { unfold after. by rewrite (agree_rd16 len b b') by (done || lia). }
      rewrite <- Ea. apply IH; rewrite ?after_off; done || lia.
    + assert (Ea : after b st t elen = after b' st t elen).
      { unfold after. by destruct (Z.eqb_spec t TLS_EXT_SERVER_NAME). }
      rewrite <- Ea. apply IH; rewrite ?after_off; done || lia.
  - cbn [sni_ext_loop]. destruct (Z.leb_spec ext_end (x_off st)); [done|].
    rewrite u32_small by lia. destruct (Z.ltb_spec ext_end (x_off st + 4)); [done|].
    destruct (Z.ltb_spec len (x_off st + 4)); [done|]. lia.
Qed.

(** What a walk that found a name and was not cut short knows of the name. *)
Lemma ext_loop_name fuel : ∀ b len ext_end st st',
  bytes_ok b → 0 ≤ x_off st ≤ ext_end → ext_end < 2 ^ 20 → len ≤ 2048 → name_ok len st →
  sni_ext_loop fuel b len ext_end st = ext_done st' → x_truncated st' = false →
  x_found st' = true → 0 < x_n st' < 64 ∧ 0 ≤ x_name_off st' ∧ x_name_off st' + x_n st' ≤ len.
Proof.
  induction fuel as [|fuel IH]; intros b len ext_end st st' Hb Ho He Hl Hn E Ht Hf.
  { cbn in E. simplify_eq. auto. }
  destruct (decide (x_off st + 4 ≤ ext_end ∧ x_off st + 4 ≤ len)) as [[H1 H2]|Hne].
  - rewrite ext_step in E by (done || lia). cbv zeta in E.
    pose proof (u16_at_range b (x_off st + 2) Hb) as Hr. unfold u16_at in Hr.
    replace (x_off st + 2 + 1) with (x_off st + 3) in Hr by lia.
    set (t := b.[x_off st] * 256 + b.[x_off st + 1]) in *.
    set (elen := b.[x_off st + 2] * 256 + b.[x_off st + 3]) in *.
    destruct (Z.ltb_spec ext_end (x_off st + 4 + elen)); [done|].
    destruct (Z.eqb_spec t TLS_EXT_SERVER_NAME) as [Et|Et].
    + destruct (x_found st) eqn:Ef; [done|].
      destruct (Z.ltb_spec len (x_off st + 4 + elen)); [by simplify_eq|].
      destruct (server_name _) eqn:Es; [|done].
      apply IH in E; rewrite ?after_off; try done; try lia.
      apply after_name; try done; try lia. by rewrite Es.
    + apply IH in E; rewrite ?after_off; try done; try lia. by apply after_other.
  - cbn [sni_ext_loop] in E. destruct (Z.leb_spec ext_end (x_off st)); [simplify_eq; auto|].
    rewrite u32_small in E by lia. destruct (Z.ltb_spec ext_end (x_off st + 4)); [done|].
    destruct (Z.ltb_spec len (x_off st + 4)); [by simplify_eq|lia].
Qed.

Lemma copy_loop_agree fuel : ∀ j b b' off n host,
  agree (off + n) b b' → 0 ≤ off → 0 ≤ j → off + n ≤ 2048 →
  sni_copy_loop fuel j b off n host = sni_copy_loop fuel j b' off n host.
Proof.
  induction fuel as [|fuel IH]; intros j b b' off n host Ha Ho Hj Hl; [done|].
  cbn [sni_copy_loop]. destruct (Z.leb_spec n j); [done|].
  rewrite (u32_small (off + j)), sni_idx_id by lia. rewrite Ha by lia.
  destruct (sni_host_char_ok _); [|done]. apply IH; done || lia.
Qed.

Lemma walk_result_agree fuel b b' len ext_end off host :
  bytes_ok b → bytes_ok b' → agree len b b' → 0 ≤ off ≤ ext_end → ext_end < 2 ^ 20 → len ≤ 2048 →
  walk_result fuel b len ext_end off host = walk_result fuel b' len ext_end off host.
Proof.
  intros Hb Hb' Ha Ho He Hl. unfold walk_result.
  rewrite (ext_loop_agree fuel b b') by (done || cbn; lia).
  destruct (sni_ext_loop _ _ _ _ _) as [|st] eqn:E; [done|].
  destruct (x_ech st); [done|]. destruct (x_truncated st) eqn:Et; [done|].
  destruct (_ <? _); [done|]. destruct (x_found st) eqn:Ef; [|done].
  apply ext_loop_name in E; try done; try (cbn; lia). unfold sni_finish.
  rewrite (copy_loop_agree _ 0 b b'); [done| |lia..].
  intros i Hi. apply Ha. lia.
Qed.

(** The statuses the parser gives. *)
Definition parse_statuses : list Z :=
  [SNI_STATUS_SEEN; SNI_STATUS_ABSENT; SNI_STATUS_ECH; SNI_STATUS_TRUNCATED; SNI_STATUS_MALFORMED; SNI_NOT_CLIENT_HELLO].

Lemma ext_loop_status fuel buf len ext_end : ∀ st status,
  sni_ext_loop fuel buf len ext_end st = ext_return status → status = SNI_STATUS_MALFORMED.
Proof.
  induction fuel as [|fuel IH]; intros st status; [done|]. cbn [sni_ext_loop]. cbv zeta.
  repeat (match goal with |- context [if ?b then _ else _] => destruct b end); try done; try apply IH; congruence.
Qed.

Lemma finish_status buf off n host : r_status (sni_finish buf off n host) ∈ parse_statuses.
Proof.
  unfold sni_finish. destruct (sni_copy_loop _ _ _ _ _ _) as [ok ho]. destruct ok; [|by_compute]. cbn [negb].
  destruct (_ =? 46); destruct (_ =? 0); by_compute.
Qed.

Lemma walk_status fuel buf len ext_end off host : r_status (walk_result fuel buf len ext_end off host) ∈ parse_statuses.
Proof.
  unfold walk_result. destruct (sni_ext_loop _ _ _ _ _) as [status|st] eqn:E.
  { apply ext_loop_status in E. subst status. by_compute. }
  destruct (x_ech st); [by_compute|]. destruct (x_truncated st); [by_compute|]. destruct (x_off st <? ext_end); [by_compute|].
  destruct (x_found st); [apply finish_status|by_compute].
Qed.

Lemma parse_status_range buf len host : bytes_ok buf → r_status (tls_parse_sni buf len host) ∈ parse_statuses.
Proof.
  intros Hb. rewrite parse_eq by done. cbv zeta.
  repeat match goal with |- r_status (if ?b then _ else _) ∈ _ => destruct b; [by_compute|] end.
  apply walk_status.
Qed.

(** The bytes past the length are not read. *)
Lemma parse_sni_agree b b' len host :
  bytes_ok b → bytes_ok b' → agree len b b' →
  tls_parse_sni b len host = tls_parse_sni b' len host.
Proof.
  intros Hb Hb' Ha0. rewrite !parse_eq by done. cbv zeta.
  assert (Ha : agree (Z.min len 2048) b b') by (intros i Hi; apply Ha0; lia).
  set (n := Z.min len 2048) in *. assert (n ≤ 2048) by lia. clearbody n. clear Ha0.
  destruct (Z.ltb_spec n 9); [done|].
  assert (Hu : ∀ i, 0 ≤ i → i + 2 ≤ n → u16_at b' i = u16_at b i)
    by (intros i ??; unfold u16_at; by rewrite !Ha by lia).
  rewrite <- (Ha 0), <- (Ha 1), <- (Ha 5), <- (Ha 6), (Hu 3), (Hu 7) by lia.
  destruct (negb (b.[0] =? _) || _ || _); [done|].
  destruct (Z.ltb_spec (5 + u16_at b 3) (9 + (b.[6] * 65536 + u16_at b 7))) as [|Hend]; [done|].
  destruct (Z.ltb_spec n 44); [done|]. rewrite <- (Ha 43) by lia.
  pose proof (byte_at_range b 43 Hb) as H43. unfold byte in H43.
  destruct (Z.ltb_spec n (44 + b.[43] + 2)); [done|]. rewrite Hu by lia.
  pose proof (u16_at_range b (44 + b.[43]) Hb).
  set (off2 := 44 + b.[43] + 2 + u16_at b (44 + b.[43])) in *.
  destruct (Z.ltb_spec n (off2 + 1)); [done|]. rewrite <- (Ha off2) by lia.
  pose proof (byte_at_range b off2 Hb) as Hb2. unfold byte in Hb2.
  pose proof (u16_at_range b 3 Hb).
  set (off3 := off2 + 1 + b.[off2]) in *. set (hs := 9 + _) in *.
  destruct (Z.ltb_spec hs off3); [done|]. destruct (Z.eqb_spec off3 hs); [done|].
  destruct (Z.ltb_spec n (off3 + 2)); [done|]. rewrite Hu by lia.
  pose proof (u16_at_range b off3 Hb).
  destruct (Z.eqb_spec (off3 + 2 + u16_at b off3) hs); cbn [negb]; [|done].
  apply walk_result_agree; done || lia.
Qed.

(** C28: [tls_parse_sni] reads none of the bytes past the [len] the caller copied
    into the buffer. *)
Theorem parse_sni_no_stale_read b b' len host :
  bytes_ok b → bytes_ok b' → agree len b b' →
  tls_parse_sni b len host = tls_parse_sni b' len host.
Proof. apply parse_sni_agree. Qed.

Lemma parse_sni_no_stale_read_witness :
  tls_parse_sni (zeros 2048) 9 (zeros 64) = tls_parse_sni (zeros 9 ++ replicate 2039 7) 9 (zeros 64).
Proof.
  apply parse_sni_no_stale_read; [by_compute|by_compute|]. apply agree_take. vm_compute. reflexivity.
Defined.

(** A hello with one extension, a server_name of [ab.c], as the code gets it. *)
Definition sample_hello : client_hello :=
  {| version_random := zeros 34; session_id := [7; 7]; cipher_suites := [0x13; 0x01]; compression := [0];
     extensions := Some [(0, [0; 7; 0; 0; 4; 97; 66; 46; 99])] |}.
Definition sample_buf : bytes := encode_record 3 sample_hello [] ++ zeros 1900.

(** C27: A well-formed ClientHello whose bytes are all copied gets the outcome its
    extensions ask for. *)
Theorem parse_sni_complete b len minor h rest :
  bytes_ok b → hello_wf minor h rest → has_hello b minor h rest →
  9 + zlen (encode_hello h) ≤ Z.min len 2048 →
  let r := tls_parse_sni b len (zeros 64) in
  r_status r = fst (outcome h) ∧
  match snd (outcome h) with
  | Some host => r_host r = pad_host host ∧ r_len r = zlen host
  | None => r_len r = 0
  end.
Proof.
  intros Hb (_ & Hv & _ & Hs & _ & Hc & _ & Hm & _ & Hwf & Hfit & _) Hh Hlen. cbv zeta.
  apply holds_record in Hh as (H0 & H1 & H5 & _ & H3 & H6 & Hh).
  apply holds_hello in Hh as (H43 & Ho1 & Ho2 & Hext); [|done].
  assert (Hz : ∀ {A} (l : list A), 0 ≤ zlen l) by (intros; apply zlen_nonneg).
  pose proof (Hz _ (session_id h)). pose proof (Hz _ (cipher_suites h)).
  pose proof (Hz _ (compression h)). pose proof (Hz _ rest). pose proof (Hz _ (encode_hello h)).
  rewrite parse_eq by done. unfold u16_at. cbv zeta.
  change (3 + 1) with 4. change (7 + 1) with 8. rewrite (Z.add_assoc (b.[6] * 65536)), H0, H1, H5, H3, H6.
  rewrite H43, Ho1, Ho2. cbn [Z.eqb Pos.eqb negb orb TLS_CT_HANDSHAKE TLS_HS_CLIENT_HELLO].
  set (off1 := 44 + zlen (session_id h)) in *.
  set (off2 := off1 + 2 + zlen (cipher_suites h)) in *.
  set (off3 := off2 + 1 + zlen (compression h)) in *. set (n := Z.min len 2048) in *.
  assert (n ≤ 2048) by lia. clearbody n. clear Hz. unfold outcome.
  destruct (extensions h) as [es|] eqn:Ees.
  - destruct Hext as (Hl & Ho3 & Hh). pose proof (zlen_nonneg (encode_exts es)). rewrite Ho3.
    rewrite !(proj2 (Z.ltb_ge _ _)) by lia. rewrite (proj2 (Z.eqb_neq _ _)) by lia.
    rewrite (proj2 (Z.eqb_eq _ _)) by lia. cbn [negb].
    replace (9 + zlen (encode_hello h)) with (off3 + 2 + zlen (encode_exts es)) by lia.
    apply (walk_result_complete 32); done || lia.
  - rewrite !(proj2 (Z.ltb_ge _ _)) by lia. rewrite (proj2 (Z.eqb_eq _ _)) by lia. done.
Qed.

Lemma parse_sni_complete_witness :
  let r := tls_parse_sni sample_buf 2048 (zeros 64) in
  r_status r = SNI_STATUS_SEEN ∧ r_host r = pad_host [97; 98; 46; 99] ∧ r_len r = 4.
Proof.
  exact (parse_sni_complete sample_buf 2048 3 sample_hello [] ltac:(by_compute)
    ltac:(repeat match goal with |- hello_wf _ _ _ => unfold hello_wf end; split_and!; by_compute)
    ltac:(vm_compute; reflexivity) ltac:(vm_compute; congruence)).
Defined.

(** The bytes a parser that goes past the compression methods saw, as a hello. *)
Lemma hello_of_bytes b hs_end es :
  let off1 := 44 + b.[43] in
  let off2 := off1 + 2 + u16_at b off1 in
  let off3 := off2 + 1 + b.[off2] in
  let h := {| version_random := window b 9 34; session_id := window b 44 (Z.to_nat (b.[43]));
              cipher_suites := window b (off1 + 2) (Z.to_nat (u16_at b off1));
              compression := window b (off2 + 1) (Z.to_nat (b.[off2])); extensions := Some es |} in
  bytes_ok b → Forall ext_wf es →
  off3 + 2 + u16_at b off3 = hs_end → hs_end < 5 + 65536 →
  window b (off3 + 2) (Z.to_nat (u16_at b off3)) = encode_exts es →
  zlen (encode_hello h) = hs_end - 9 ∧ holds b 9 (encode_hello h) ∧
  zlen (session_id h) < 256 ∧ zlen (cipher_suites h) < 65536 ∧ zlen (compression h) < 256.
Proof.
  intros off1 off2 off3 h Hb Hwf He Hend Hw.
  pose proof (byte_at_range b 43 Hb) as H43. pose proof (byte_at_range b off2 Hb) as H2.
  unfold byte in H43, H2.
  pose proof (u16_at_range b off1 Hb) as Hc. pose proof (u16_at_range b off3 Hb) as Hx.
  assert (Hl : zlen (encode_exts es) = u16_at b off3) by (rewrite <- Hw, zlen_window; lia).
  assert (Hsid : zlen (session_id h) = b.[43]) by (unfold h; cbn [session_id cipher_suites compression]; rewrite zlen_window; lia).
  assert (Hcs : zlen (cipher_suites h) = u16_at b off1) by (unfold h; cbn [session_id cipher_suites compression]; rewrite zlen_window; lia).
  assert (Hcm : zlen (compression h) = b.[off2]) by (unfold h; cbn [session_id cipher_suites compression]; rewrite zlen_window; lia).
  assert (Hvr : zlen (version_random h) = 34) by (unfold h; cbn [version_random]; by rewrite zlen_window).
  split_and!; try lia.
  - unfold encode_hello. rewrite !zlen_app, !zlen_be16, Hsid, Hcs, Hcm, Hvr. cbn [extensions h].
    rewrite zlen_app, zlen_be16, Hl. change (zlen [_]) with 1. lia.
  - unfold encode_hello.
    rewrite !holds_app, !zlen_be16, Hvr, Hsid, Hcs, Hcm. change (zlen [_]) with 1.
    change (9 + 34) with 43. change (43 + 1) with 44. fold off1. fold off2.
    fold off3. cbn [extensions h]. rewrite holds_app, zlen_be16, Hl.
    split_and!; try apply holds_window.
    + by apply holds_cons.
    + unfold holds. rewrite be16_window by done. done.
    + by apply holds_cons.
    + unfold holds. rewrite be16_window by done. done.
    + unfold holds. rewrite <- Hw at 2. f_equal. unfold zlen in Hl. lia.
Qed.

Lemma be24_window b off : bytes_ok b → 0 ≤ off → holds b off (be24 (b.[off] * 65536 + u16_at b (off + 1))).
Proof.
  intros Hb Ho. pose proof (byte_at_range b off Hb) as B6. pose proof (byte_at_range b (off + 1) Hb) as B7.
  pose proof (byte_at_range b (off + 1 + 1) Hb) as B8. unfold byte in *. unfold be24, u16_at. rewrite !holds_cons.
  repeat split; Z.div_mod_to_equations; lia.
Qed.

(** C26: SNI_STATUS_SEEN is only returned when the buffer holds a well-formed
    ClientHello (what lies past the copied bytes counting as part of a body
    that is skipped) whose extensions name the host returned. *)
Theorem parse_sni_sound b len :
  bytes_ok b → r_status (tls_parse_sni b len (zeros 64)) = SNI_STATUS_SEEN →
  let r := tls_parse_sni b len (zeros 64) in
  ∃ minor h rest host,
    hello_wf minor h rest ∧ has_hello b minor h rest ∧
    outcome h = (SNI_STATUS_SEEN, Some host) ∧ r_host r = pad_host host ∧ r_len r = zlen host.
Proof.
  intros Hb. cbv zeta. rewrite parse_eq by done. cbv zeta.
  set (n := Z.min len 2048). assert (n ≤ 2048) by lia. clearbody n.
  destruct (n <? 9); [done|].
  destruct (negb (b.[0] =? _) || _ || _) eqn:Ehdr; [done|].
  apply orb_false_iff in Ehdr as [Ehdr E5]. apply orb_false_iff in Ehdr as [E0 E1]. zbool.
  destruct (Z.ltb_spec (5 + u16_at b 3) (9 + (b.[6] * 65536 + u16_at b 7))) as [|Hend]; [done|].
  destruct (n <? 44); [done|].
  set (off1 := 44 + b.[43]). destruct (n <? off1 + 2); [done|].
  set (off2 := off1 + 2 + u16_at b off1). destruct (n <? off2 + 1); [done|].
  set (off3 := off2 + 1 + b.[off2]). set (hs := 9 + _).
  destruct (Z.ltb_spec hs off3); [done|]. destruct (off3 =? hs); [done|].
  destruct (n <? off3 + 2); [done|].
  destruct (Z.eqb_spec (off3 + 2 + u16_at b off3) hs) as [Ehs|]; cbn [negb]; [|done]. cbv iota.
  intros Hseen. pose proof (u16_at_range b 3 Hb). pose proof (u16_at_range b off3 Hb).
  pose proof (u16_at_range b off1 Hb). pose proof (byte_at_range b 43 Hb) as H43.
  pose proof (byte_at_range b off2 Hb) as Hb2. unfold byte in H43, Hb2.
  apply walk_result_seen in Hseen as (es & nm & host & Hes & Hwf & Hw & Hwalk & Hhost & Hr & Hl);
    [|done|lia|lia|done].
  replace (hs - (off3 + 2)) with (u16_at b off3) in Hw by lia.
  destruct (hello_of_bytes b hs es Hb Hwf Ehs ltac:(lia) Hw) as (Hz & Hh & L1 & L2 & L3).
  fold off1 off2 in Hz, Hh, L1, L2, L3. set (h := Build_client_hello _ _ _ _ _) in *.
  set (rest := zeros (Z.to_nat (5 + u16_at b 3 - hs))).
  assert (Hrest : zlen rest = 5 + u16_at b 3 - hs)
    by (unfold rest, zeros, zlen; rewrite length_replicate; lia).
  exists (b.[2]), h, rest, host. split_and!; try done.
  - split_and!; try (by apply byte_at_range); try (by apply window_ok); try done; try lia.
    apply bytes_ok_zeros.
  - unfold has_hello. rewrite take_record, Hz, Hrest.
    replace (4 + (hs - 9) + (5 + u16_at b 3 - hs)) with (u16_at b 3) by lia.
    rewrite !holds_app, !holds_cons. change (zlen [_; _; _]) with 3. change (zlen [_]) with 1.
    change (zlen (be16 _)) with 2. change (zlen (be24 _)) with 3.
    split_and!; try done.
    + unfold holds. by rewrite be16_window.
    + change (0 + 3 + 2 + 1) with 6. subst hs. rewrite Z.add_simpl_l. by apply (be24_window b 6).
  - unfold outcome. cbn [extensions h]. rewrite take_ge by lia. rewrite Hwalk.
    destruct (Z.ltb_spec 32 (zlen es)); [unfold zlen in *; lia|]. by rewrite Hhost.
Qed.

Lemma parse_sni_sound_witness :
  let r := tls_parse_sni sample_buf 2048 (zeros 64) in
  ∃ minor h rest host,
    hello_wf minor h rest ∧ has_hello sample_buf minor h rest ∧
    outcome h = (SNI_STATUS_SEEN, Some host) ∧ r_host r = pad_host host ∧ r_len r = zlen host.
Proof. apply parse_sni_sound; [by_compute|vm_compute; reflexivity]. Defined.

End SniFacts.
