(* ===== verification/Dns.v ===== *)
(** * DNS answers (pkg/ebpf/bpf/helpers.h)

    [Dns]: the walks over the question name and over the answer section, as the
    begin / step / end triples of the code and their plain-loop drivers.
    [DnsMsg]: names, questions and resource records as values, with their
    encoding (RFC 1035 4.1).
    [DnsFacts]: an accepted question is the encoding of the name returned, and
    such a question is accepted; an accepted answer section is the encoding of
    exactly the announced records, and the records listed are those of the
    question's type, all of them. *)

From S2P Require Import Prelude Host TlsRecord Sni.
Import TlsRecord(rd16_be).
Import Host.

Module Dns.
Import Sni(sni_host_char_ok, to_lower).

Definition MAX_DNS_PKT : Z := 512.
Definition DNS_MSG_MASK : Z := MAX_DNS_PKT - 1.
Definition DNS_MAX_ADDR_RECORDS : Z := 8.
Definition DNS_SCAN_STEPS : Z := 64.
Definition DNS_TYPE_A : Z := 1.
Definition DNS_TYPE_AAAA : Z := 28.
Definition DNS_CLASS_IN : Z := 1.

Definition DNS_SCAN_OK : Z := 0.
Definition DNS_SCAN_NOT_ANSWER : Z := 1.
Definition DNS_SCAN_BAD_NAME : Z := 2.
Definition DNS_SCAN_INCOMPLETE : Z := 3.
Definition DNS_SCAN_MALFORMED : Z := 4.
Definition DNS_SCAN_RUNNING : Z := 0xFF.
Definition DNS_QNAME_STEPS : Z := MAX_HOST_LEN + 1.

Record dns_addr_record := { rec_off : Z; rec_ttl : Z; rec_ip : bytes }.

Definition dns_addr_len (qtype : Z) : Z :=
  if qtype =? DNS_TYPE_A then 4 else if qtype =? DNS_TYPE_AAAA then 16 else 0.

Definition dns_idx (off : Z) : Z := Z.land off DNS_MSG_MASK.

Definition dns_rd16 (b : bytes) (off : Z) : Z :=
  Z.lor (u32 (Z.shiftl (b.[dns_idx off]) 8)) (b.[dns_idx (off +32 1)]).

(** *** The question *)

Record dns_question := {
  qname : bytes;
  qname_len : Z;
  qtype : Z;
  q_ancount : Z;
  answers_off : Z;
  q_status : Z;
  q_len : Z;
  q_off : Z;
  label_rem : Z
}.
#[export] Instance dns_question_eta : Eta dns_question :=
  λ q, Build_dns_question (qname q) (qname_len q) (qtype q) (q_ancount q) (answers_off q)
    (q_status q) (q_len q) (q_off q) (label_rem q).

(** The zeroed struct. *)
Definition dns_question_zero : dns_question :=
  Build_dns_question (zeros 64) 0 0 0 0 0 0 0 0.

Definition dns_question_begin (q : dns_question) (msg : bytes) (len : Z) : dns_question :=
  let q := q <| q_status := DNS_SCAN_NOT_ANSWER |> in
  let len := if MAX_DNS_PKT <? len then MAX_DNS_PKT else len in
  let q := q <| q_len := len |> in
  if len <? 12 then q
  else if negb (Z.land (msg.[2]) 0xFA =? 0x80) || negb (Z.land (msg.[3]) 0x0F =? 0) then q
  else if negb (dns_rd16 msg 4 =? 1) then q
  else
    let q := q <| q_ancount := dns_rd16 msg 6 |> in
    if q_ancount q =? 0 then q
    else q <| q_off := 12 |> <| q_status := DNS_SCAN_RUNNING |>.

(** The flag is the return value: [true] once the walk is over. *)
Definition dns_question_step (q : dns_question) (msg : bytes) : bool * dns_question :=
  if negb (q_status q =? DNS_SCAN_RUNNING) then (true, q)
  else
    let off := q_off q in
    let len := q_len q in
    let n := qname_len q in
    if (len <=? off) || (MAX_DNS_PKT <=? off) then
      (true, q <| q_status := DNS_SCAN_NOT_ANSWER |>)
    else
      let c := msg.[dns_idx off] in
      let q := q <| q_off := off +32 1 |> in
      if label_rem q =? 0 then
        if c =? 0 then
          if n =? 0 then (true, q <| q_status := DNS_SCAN_BAD_NAME |>)
          else if len <? (off +32 1) +32 4 then (true, q <| q_status := DNS_SCAN_NOT_ANSWER |>)
          else
            (true, q <| qtype := dns_rd16 msg (off +32 1) |>
                     <| answers_off := (off +32 1) +32 4 |>
                     <| q_status := DNS_SCAN_OK |>)
        else if 63 <? c then (true, q <| q_status := DNS_SCAN_BAD_NAME |>)
        else if 0 <? n then
          if MAX_HOST_LEN - 1 <=? n then (true, q <| q_status := DNS_SCAN_BAD_NAME |>)
          else
            (false, q <| qname := set_byte (Z.land n (MAX_HOST_LEN - 1)) 46 (qname q) |>
                      <| qname_len := n +32 1 |> <| label_rem := c |>)
        else (false, q <| label_rem := c |>)
      else
        let c := to_lower c in
        if (c =? 46) || negb (sni_host_char_ok c) || (MAX_HOST_LEN - 1 <=? n) then
          (true, q <| q_status := DNS_SCAN_BAD_NAME |>)
        else
          (false, q <| qname := set_byte (Z.land n (MAX_HOST_LEN - 1)) c (qname q) |>
                    <| qname_len := n +32 1 |> <| label_rem := label_rem q -32 1 |>).

Definition dns_question_end (q : dns_question) : Z * dns_question :=
  let q := if q_status q =? DNS_SCAN_RUNNING then q <| q_status := DNS_SCAN_BAD_NAME |> else q in
  (q_status q, q).

Fixpoint dns_question_loop (fuel : nat) (q : dns_question) (msg : bytes) : dns_question :=
  match fuel with
  | O => q
  | S fuel' =>
      let '(stop, q) := dns_question_step q msg in
      if stop then q else dns_question_loop fuel' q msg
  end.

Definition dns_parse_question (msg : bytes) (len : Z) (q : dns_question) : Z * dns_question :=
  dns_question_end
    (dns_question_loop (Z.to_nat DNS_QNAME_STEPS) (dns_question_begin q msg len) msg).

(** *** The answer section *)

Record dns_answers := {
  recs : list dns_addr_record;     (* [DNS_MAX_ADDR_RECORDS] of them *)
  n_recs : Z;
  rr_type : Z;
  rr_len : Z;
  a_status : Z;
  a_len : Z;
  a_off : Z;
  a_ancount : Z;
  a_done : Z;
  in_name : bool
}.
#[export] Instance dns_answers_eta : Eta dns_answers :=
  λ a, Build_dns_answers (recs a) (n_recs a) (rr_type a) (rr_len a) (a_status a) (a_len a)
    (a_off a) (a_ancount a) (a_done a) (in_name a).

Definition dns_answers_zero : dns_answers :=
  Build_dns_answers (replicate 8 {| rec_off := 0; rec_ttl := 0; rec_ip := zeros 16 |})
    0 0 0 0 0 0 0 0 false.

Definition dns_answers_begin (a : dns_answers) (len off ancount qtype : Z) : dns_answers :=
  let len := if MAX_DNS_PKT <? len then MAX_DNS_PKT else len in
  a <| rr_type := qtype |> <| rr_len := dns_addr_len qtype |> <| a_len := len |>
    <| a_off := off |> <| a_ancount := ancount |> <| in_name := true |>
    <| a_status := DNS_SCAN_RUNNING |>.

(** [for (k = 0; k < 16; k++) r->ip[k] = k < alen ? msg[dns_idx(off + k)] : 0] *)
Definition dns_rec_ip (msg : bytes) (off alen : Z) : bytes :=
  map (λ k, let k := Z.of_nat k in if k <? alen then msg.[dns_idx (off +32 k)] else 0) (seq 0 16).

Definition dns_answers_step (a : dns_answers) (msg : bytes) : bool * dns_answers :=
  if negb (a_status a =? DNS_SCAN_RUNNING) then (true, a)
  else if a_ancount a <=? a_done a then (true, a <| a_status := DNS_SCAN_OK |>)
  else
    let off := a_off a in
    let len := a_len a in
    if in_name a then
      if (len <=? off) || (MAX_DNS_PKT <=? off) then
        (true, a <| a_status := DNS_SCAN_INCOMPLETE |>)
      else
        let b := msg.[dns_idx off] in
        if b =? 0 then (false, a <| a_off := off +32 1 |> <| in_name := false |>)
        else if Z.land b 0xC0 =? 0xC0 then
          (false, a <| a_off := off +32 2 |> <| in_name := false |>)
        else if negb (Z.land b 0xC0 =? 0) then (true, a <| a_status := DNS_SCAN_MALFORMED |>)
        else (false, a <| a_off := (off +32 1) +32 b |>)
    else if (len <? off +32 10) || (MAX_DNS_PKT <=? off) then
      (true, a <| a_status := DNS_SCAN_INCOMPLETE |>)
    else
      let type := dns_rd16 msg off in
      let cls := dns_rd16 msg (off +32 2) in
      let ttl := Z.lor (u32 (Z.shiftl (dns_rd16 msg (off +32 4)) 16)) (dns_rd16 msg (off +32 6)) in
      let rdlen := dns_rd16 msg (off +32 8) in
      let off := off +32 10 in
      if len <? off +32 rdlen then (true, a <| a_status := DNS_SCAN_INCOMPLETE |>)
      else
        let alen := rr_len a in
        let next a := (false, a <| a_off := off +32 rdlen |> <| a_done := a_done a +32 1 |>
                                <| in_name := true |>) in
        if negb (alen =? 0) && (type =? rr_type a) && (cls =? DNS_CLASS_IN) then
          let n := n_recs a in
          if negb (rdlen =? alen) then (true, a <| a_status := DNS_SCAN_MALFORMED |>)
          else if DNS_MAX_ADDR_RECORDS <=? n then (true, a <| a_status := DNS_SCAN_INCOMPLETE |>)
          else
            let r := {| rec_off := off; rec_ttl := ttl; rec_ip := dns_rec_ip msg off alen |} in
            next (a <| recs := <[Z.to_nat (Z.land n (DNS_MAX_ADDR_RECORDS - 1)) := r]> (recs a) |>
                    <| n_recs := n +32 1 |>)
        else next a.

Definition dns_answers_end (a : dns_answers) : Z * dns_answers :=
  let a :=
    if a_status a =? DNS_SCAN_RUNNING then
      a <| a_status := if a_ancount a <=? a_done a then DNS_SCAN_OK else DNS_SCAN_INCOMPLETE |>
    else a in
  (a_status a, a).

Fixpoint dns_answers_loop (fuel : nat) (a : dns_answers) (msg : bytes) : dns_answers :=
  match fuel with
  | O => a
  | S fuel' =>
      let '(stop, a) := dns_answers_step a msg in
      if stop then a else dns_answers_loop fuel' a msg
  end.

Definition dns_scan_addr_records (msg : bytes) (len off ancount qtype : Z) (a : dns_answers)
    : Z * dns_answers :=
  dns_answers_end
    (dns_answers_loop (Z.to_nat DNS_SCAN_STEPS) (dns_answers_begin a len off ancount qtype) msg).

End Dns.

(** ** Messages as values *)

Module DnsMsg.
Import Dns Sni(sni_host_char_ok, to_lower) Hello(pad_host).

Definition label_ok (l : bytes) : Prop :=
  1 ≤ zlen l ≤ 63 ∧ bytes_ok l ∧
  Forall (λ c, sni_host_char_ok (to_lower c) = true ∧ to_lower c ≠ 46) l.

Definition encode_labels (ls : list bytes) : bytes := concat (map (λ l, zlen l :: l) ls).

(** The name as text: labels lowercased and joined by dots. *)
Definition dotted (ls : list bytes) : bytes := concat (map (λ l, 46 :: map to_lower l) ls).
Definition text (ls : list bytes) : bytes := drop 1 (dotted ls).

Lemma encode_labels_cons l ls : encode_labels (l :: ls) = zlen l :: l ++ encode_labels ls.
Proof. done. Qed.
Lemma dotted_cons l ls : dotted (l :: ls) = 46 :: map to_lower l ++ dotted ls.
Proof. done. Qed.
Lemma text_cons l ls : text (l :: ls) = map to_lower l ++ dotted ls.
Proof. done. Qed.

(** *** The question walk as a machine on the name read so far *)

Inductive q_next :=
  | q_bad
  | q_ok
  | q_go (s : bytes) (r : Z).

Definition question_next (c len : Z) (s : bytes) (r off : Z) : q_next :=
  if len <=? off then q_bad
  else if r =? 0 then
    if c =? 0 then (if zlen s =? 0 then q_bad else if len <? off + 5 then q_bad else q_ok)
    else if 63 <? c then q_bad
    else if zlen s =? 0 then q_go s c
    else if 63 <=? zlen s then q_bad
    else q_go (s ++ [46]) c
  else
    let c := to_lower c in
    if (c =? 46) || negb (sni_host_char_ok c) || (63 <=? zlen s) then q_bad
    else q_go (s ++ [c]) (r - 1).

Fixpoint question_run (fuel : nat) (msg : bytes) (len : Z) (s : bytes) (r off : Z)
    : option (bytes * Z) :=
  match fuel with
  | O => None
  | S fuel' =>
      match question_next (msg.[off]) len s r off with
      | q_bad => None
      | q_ok => Some (s, off)
      | q_go s r => question_run fuel' msg len s r (off + 1)
      end
  end.

(** The walk accepts what it has read when it is the rest of a name. *)
Lemma question_run_sound fuel : ∀ msg len s r off s' off',
  0 ≤ off → 0 ≤ r ≤ 63 → bytes_ok msg →
  question_run fuel msg len s r off = Some (s', off') →
  ∃ cur ls, zlen cur = r ∧ bytes_ok cur ∧
    Forall (λ c, sni_host_char_ok (to_lower c) = true ∧ to_lower c ≠ 46) cur ∧
    Forall label_ok ls ∧
    holds msg off (cur ++ encode_labels ls ++ [0]) ∧
    off' = off + zlen (cur ++ encode_labels ls) ∧ off' + 5 ≤ len ∧
    s' = s ++ map to_lower cur ++ (if zlen (s ++ cur) =? 0 then text ls else dotted ls) ∧
    zlen s' ≠ 0 ∧ (zlen s ≤ 63 → zlen s' ≤ 63).
Proof.
  induction fuel as [|fuel IH]; intros msg len s r off s' off' Ho Hr Hm E; [done|].
  cbn [question_run] in E. unfold question_next in E.
  pose proof (byte_at_range msg off Hm) as Hc. unfold byte in Hc. set (c := msg.[off]) in *.
  destruct (Z.leb_spec len off); [done|].
  destruct (Z.eqb_spec r 0) as [->|Hr0].
  - destruct (Z.eqb_spec c 0) as [Ec|Ec].
    { destruct (Z.eqb_spec (zlen s) 0) as [|Hs]; [done|].
      destruct (Z.ltb_spec len (off + 5)); [done|]. simplify_eq.
      exists [], []. rewrite app_nil_r. destruct (Z.eqb_spec (zlen s') 0); [lia|].
      change (encode_labels []) with (@nil Z). change (dotted []) with (@nil Z).
      cbn [map app]. rewrite app_nil_r, zlen_nil.
      split_and!; try (by constructor); try done; try lia.
      - apply holds_cons. by split.
      - destruct (Z.eqb_spec (zlen s') 0); [done|]. by rewrite app_nil_r. }
    destruct (Z.ltb_spec 63 c); [done|].
    assert (Hstep : ∃ s1, (s1 = if zlen s =? 0 then s else s ++ [46]) ∧
      (zlen s ≤ 63 → zlen s1 ≤ 63) ∧
      question_run fuel msg len s1 c (off + 1) = Some (s', off')).
    { destruct (Z.eqb_spec (zlen s) 0); [by eauto|].
      destruct (Z.leb_spec 63 (zlen s)); [done|]. eexists. split; [done|].
      split; [|done]. rewrite zlen_app. change (zlen [46]) with 1. lia. }
    destruct Hstep as (s1 & Es1 & Hs1 & E1). clear E.
    apply IH in E1 as (cur & ls & H1 & H2 & H3 & H4 & H5 & H6 & H7 & H8 & H9 & H10);
      [|lia|lia|done].
    exists [], (cur :: ls). rewrite app_nil_r, encode_labels_cons, dotted_cons, text_cons.
    split_and!; try done; try lia.
    + by constructor.
    + constructor; [|done]. split; [lia|done].
    + cbn [app]. apply holds_cons. rewrite H1, <- app_assoc. by split.
    + cbn [app]. rewrite zlen_cons. lia.
    + rewrite H8. cbn [map app]. rewrite !zlen_app, H1.
      destruct (Z.eqb_spec (zlen s1 + c) 0); [pose proof (zlen_nonneg s1); lia|]. subst s1.
      destruct (Z.eqb_spec (zlen s) 0); [done|]. by rewrite <- app_assoc.
  - destruct ((to_lower c =? 46) || _ || _) eqn:Ebad; [done|]. zbool.
    apply IH in E as (cur & ls & J1 & J2 & J3 & J4 & J5 & J6 & J7 & J8 & J9 & J10);
      [|lia|lia|done].
    exists (c :: cur), ls. cbn [app map]. rewrite !zlen_cons, !zlen_app, !zlen_cons in *.
    rewrite zlen_nil in *. pose proof (zlen_nonneg s). pose proof (zlen_nonneg cur).
    split_and!; try done; try lia.
    + by constructor.
    + constructor; [|done]. done.
    + apply holds_cons. done.
    + rewrite J8. destruct (Z.eqb_spec (zlen s + (0 + 1) + zlen cur) 0); [lia|].
      destruct (Z.eqb_spec (zlen s + (zlen cur + 1)) 0); [lia|]. by rewrite <- app_assoc.
Qed.

Lemma zlen_map_lower l : zlen (map to_lower l) = zlen l.
Proof. unfold zlen. by rewrite length_map. Qed.

Lemma question_run_complete fuel : ∀ msg len s cur ls off s' off',
  0 ≤ off → Forall (λ c, sni_host_char_ok (to_lower c) = true ∧ to_lower c ≠ 46) cur →
  Forall label_ok ls → holds msg off (cur ++ encode_labels ls ++ [0]) →
  s' = s ++ map to_lower cur ++ (if zlen (s ++ cur) =? 0 then text ls else dotted ls) →
  off' = off + zlen (cur ++ encode_labels ls) →
  off' + 5 ≤ len → zlen s' ≠ 0 → zlen s' ≤ 63 →
  zlen (cur ++ encode_labels ls) < Z.of_nat fuel →
  question_run fuel msg len s (zlen cur) off = Some (s', off').
Proof.
  induction fuel as [|fuel IH]; intros msg len s cur ls off s' off' Ho Hcur Hls Hm Es' Eo' Hl Hs0 Hs63 Hf.
  { pose proof (zlen_nonneg (cur ++ encode_labels ls)). lia. }
  cbn [question_run]. unfold question_next. destruct cur as [|c cur].
  - cbn [app map] in *. rewrite app_nil_r in Es'. rewrite zlen_nil, Z.eqb_refl.
    destruct ls as [|l ls].
    + change (encode_labels []) with (@nil Z) in *. change (dotted []) with (@nil Z) in *.
      change (text []) with (@nil Z) in *. cbn [app] in *. rewrite zlen_nil in *.
      assert (Es : s' = s) by (rewrite Es'; destruct (_ =? 0); by rewrite app_nil_r).
      clear Es'. subst s' off'. rewrite Z.add_0_r in *.
      apply holds_cons in Hm as [-> _]. destruct (Z.leb_spec len off); [lia|].
      rewrite Z.eqb_refl. destruct (Z.eqb_spec (zlen s) 0); [done|].
      destruct (Z.ltb_spec len (off + 5)); [lia|done].
    + rewrite encode_labels_cons in *. rewrite zlen_cons, zlen_app in *.
      apply Forall_cons in Hls as [[Hlen [Hlb Hlc]] Hls].
      cbn [app] in Hm. apply holds_cons in Hm as [-> Hm]. rewrite <- app_assoc in Hm.
      pose proof (zlen_nonneg (encode_labels ls)).
      destruct (Z.leb_spec len off); [lia|]. destruct (Z.eqb_spec (zlen l) 0); [lia|].
      destruct (Z.ltb_spec 63 (zlen l)); [lia|].
      destruct (Z.eqb_spec (zlen s) 0) as [E0|E0].
      * assert (s = []) as -> by (destruct s; [done|rewrite zlen_cons in E0; pose proof (zlen_nonneg s); lia]).
        rewrite text_cons in Es'. cbn [app] in *.
        apply (IH _ _ _ l ls); rewrite ?zlen_app; try done; try lia. rewrite Es', zlen_nil.
        destruct (Z.eqb_spec (0 + zlen l) 0); [lia|done].
      * rewrite dotted_cons in Es'.
        assert (El : zlen s' = zlen s + (zlen l + zlen (dotted ls) + 1))
          by (by rewrite Es', !zlen_app, zlen_cons, zlen_app, zlen_map_lower).
        pose proof (zlen_nonneg s). pose proof (zlen_nonneg (dotted ls)).
        destruct (Z.leb_spec 63 (zlen s)); [lia|].
        apply (IH _ _ _ l ls); rewrite ?zlen_app; try done; try lia. change (zlen [46]) with 1.
        destruct (Z.eqb_spec (zlen s + 1 + zlen l) 0); [lia|]. by rewrite <- app_assoc.
  - apply Forall_cons in Hcur as [[Hc1 Hc2] Hcur]. cbn [app map] in *.
    rewrite zlen_cons in *. apply holds_cons in Hm as [-> Hm].
    pose proof (zlen_nonneg cur). pose proof (zlen_nonneg s).
    pose proof (zlen_nonneg (cur ++ encode_labels ls)).
    destruct (Z.leb_spec len off); [lia|]. destruct (Z.eqb_spec (zlen cur + 1) 0); [lia|].
    destruct (Z.eqb_spec (to_lower c) 46); [done|]. rewrite Hc1.
    assert (Hsz : zlen (s ++ c :: cur) ≠ 0) by (rewrite zlen_app, zlen_cons; lia).
    destruct (Z.eqb_spec (zlen (s ++ c :: cur)) 0); [done|].
    assert (El : zlen s' = zlen s + (zlen cur + zlen (dotted ls) + 1))
      by (by rewrite Es', zlen_app, zlen_cons, zlen_app, zlen_map_lower).
    pose proof (zlen_nonneg (dotted ls)).
    destruct (Z.leb_spec 63 (zlen s)); [lia|]. cbn [orb negb].
    replace (zlen cur + 1 - 1) with (zlen cur) by lia.
    apply (IH _ _ _ cur ls); try done; try lia. rewrite !zlen_app. change (zlen [_]) with 1.
    destruct (Z.eqb_spec (zlen s + 1 + zlen cur) 0); [lia|]. by rewrite <- app_assoc.
Qed.

End DnsMsg.

Module DnsFacts.
Import Dns Sni(to_lower) Hello(pad_host) DnsMsg.

Lemma dns_idx_id off : 0 ≤ off < 512 → dns_idx off = off.
Proof.
  intros. unfold dns_idx, DNS_MSG_MASK, MAX_DNS_PKT. change (512 - 1) with (2 ^ 9 - 1).
  rewrite land_mask by lia. by apply Z.mod_small.
Qed.

Lemma dns_rd16_val b off : bytes_ok b → 0 ≤ off → off + 2 ≤ 512 → dns_rd16 b off = u16_at b off.
Proof.
  intros Hb H1 H2. unfold dns_rd16. rewrite (u32_small (off + 1)), !dns_idx_id by lia.
  apply rd16_be; by apply byte_at_range.
Qed.

(** *** The question walk against its machine *)

(** The walk is running at [off], with [r] bytes left in the label, and has read
    the name [s]. *)
Definition view (len an : Z) (q : dns_question) (s : bytes) (r off : Z) : Prop :=
  q_status q = DNS_SCAN_RUNNING ∧ q_len q = len ∧ q_ancount q = an ∧ q_off q = off ∧
  label_rem q = r ∧ qname q = pad_host s ∧ qname_len q = zlen s ∧ zlen s ≤ 63.

Lemma pad_set s c : zlen s ≤ 63 →
  set_byte (Z.land (zlen s) (MAX_HOST_LEN - 1)) c (pad_host s) = pad_host (s ++ [c]).
Proof.
  intros. pose proof (zlen_nonneg s). change (MAX_HOST_LEN - 1) with (2 ^ 6 - 1).
  rewrite land_mask, Z.mod_small by lia. unfold pad_host.
  rewrite <- (Z.add_0_r (zlen s)), set_byte_app_r, <- app_assoc by lia. f_equal.
  rewrite length_app. cbn [length].
  replace (64 - length s)%nat with (S (64 - (length s + 1))) by (unfold zlen in *; lia). done.
Qed.

Lemma question_step_next msg len an q s r off :
  bytes_ok msg → len ≤ 512 → 0 ≤ off → 0 ≤ r ≤ 63 → view len an q s r off →
  match question_next (msg.[off]) len s r off with
  | q_bad => ∃ q', dns_question_step q msg = (true, q') ∧
      q_status q' ≠ DNS_SCAN_OK ∧ q_status q' ≠ DNS_SCAN_RUNNING
  | q_ok => ∃ q', dns_question_step q msg = (true, q') ∧
      q_status q' = DNS_SCAN_OK ∧ qname q' = pad_host s ∧ qname_len q' = zlen s ∧
      qtype q' = u16_at msg (off + 1) ∧ answers_off q' = off + 5 ∧ q_ancount q' = an
  | q_go s' r' => ∃ q', dns_question_step q msg = (false, q') ∧ view len an q' s' r' (off + 1) ∧
      0 ≤ r' ≤ 63
  end.
Proof.
  intros Hm Hl Ho Hr (V1 & V2 & V3 & V4 & V5 & V6 & V7 & V8).
  unfold question_next, dns_question_step. rewrite V1, V2, V4, V7. cbn [negb Z.eqb Pos.eqb].
  change (DNS_SCAN_RUNNING =? DNS_SCAN_RUNNING) with true. cbn [negb]. cbv iota.
  unfold MAX_DNS_PKT. pose proof (byte_at_range msg off Hm) as Hc. unfold byte in Hc.
  pose proof (zlen_nonneg s).
  destruct (Z.leb_spec len off); [eexists; split; [reflexivity|done]|].
  destruct (Z.leb_spec 512 off); [lia|]. cbn [orb]. rewrite dns_idx_id by lia.
  rewrite !(u32_small (off + 1)) by lia. rewrite !(u32_small (off + 1 + 4)) by lia.
  change (label_rem (q <| q_off := off + 1 |>)) with (label_rem q). rewrite V5.
  replace (off + 1 + 4) with (off + 5) by lia.
  destruct (Z.eqb_spec r 0) as [->|Hr0].
  - destruct (Z.eqb_spec (msg.[off]) 0).
    + destruct (Z.eqb_spec (zlen s) 0); [eexists; split; [reflexivity|done]|].
      destruct (Z.ltb_spec len (off + 5)); [eexists; split; [reflexivity|done]|].
      eexists. split; [reflexivity|]. cbn. rewrite dns_rd16_val by (done || lia). done.
    + destruct (Z.ltb_spec 63 (msg.[off])); [eexists; split; [reflexivity|done]|].
      change (MAX_HOST_LEN - 1) with 63.
      destruct (Z.eqb_spec (zlen s) 0), (Z.ltb_spec 0 (zlen s)); try lia.
      * eexists. split; [reflexivity|]. split; [|lia]. unfold view. cbn. done.
      * destruct (Z.leb_spec 63 (zlen s)); [eexists; split; [reflexivity|done]|].
        eexists. split; [reflexivity|]. split; [|lia]. unfold view.
        rewrite u32_small, zlen_app by lia. change (zlen [46]) with 1. 
        split_and!; try done; [|lia].
        change (set_byte (Z.land (zlen s) (MAX_HOST_LEN - 1)) 46 (qname q) = pad_host (s ++ [46])).
        rewrite V6. by apply pad_set.
  - change (MAX_HOST_LEN - 1) with 63. set (c := to_lower (msg.[off])).
    destruct ((c =? 46) || _ || _) eqn:E; [eexists; split; [reflexivity|done]|]. zbool.
    eexists. split; [reflexivity|]. split; [|lia]. unfold view.
    rewrite (u32_small (r - 1)), (u32_small (zlen s + 1)), zlen_app by lia.
    change (zlen [c]) with 1. split_and!; try done; [|lia].
    change (set_byte (Z.land (zlen s) (MAX_HOST_LEN - 1)) c (qname q) = pad_host (s ++ [c])).
    rewrite V6. by apply pad_set.
Qed.

Lemma question_loop_run fuel : ∀ msg len an q s r off,
  bytes_ok msg → len ≤ 512 → 0 ≤ off → 0 ≤ r ≤ 63 → view len an q s r off →
  let q' := dns_question_loop fuel q msg in
  match question_run fuel msg len s r off with
  | Some (s', off') => q_status q' = DNS_SCAN_OK ∧ qname q' = pad_host s' ∧ qname_len q' = zlen s' ∧
      qtype q' = u16_at msg (off' + 1) ∧ answers_off q' = off' + 5 ∧ q_ancount q' = an
  | None => q_status q' ≠ DNS_SCAN_OK
  end.
Proof.
  induction fuel as [|fuel IH]; intros msg len an q s r off Hm Hl Ho Hr V; cbn zeta.
  { cbn. destruct V as [-> _]. done. }
  cbn [dns_question_loop question_run].
  pose proof (question_step_next msg len an q s r off Hm Hl Ho Hr V) as H.
  destruct (question_next _ _ _ _ _) as [| |s' r'].
  - destruct H as (q' & -> & ? & _). done.
  - destruct H as (q' & -> & H). done.
  - destruct H as (q' & -> & V' & Hr'). apply IH; done || lia.
Qed.

(** An untruncated NOERROR response to one standard query, with an answer:
    QR set, opcode 0, TC clear, RCODE 0, QDCOUNT 1. *)
Definition answer_header (msg : bytes) : Prop :=
  Z.testbit (msg.[2]) 7 = true ∧ msg.[2] / 8 mod 16 = 0 ∧ Z.testbit (msg.[2]) 1 = false ∧
  msg.[3] mod 16 = 0 ∧ u16_at msg 4 = 1 ∧ u16_at msg 6 ≠ 0.

Lemma flags_ok b : byte b →
  Z.land b 0xFA = 0x80 ↔ Z.testbit b 7 = true ∧ b / 8 mod 16 = 0 ∧ Z.testbit b 1 = false.
Proof.
  intros Hb. unfold byte in Hb.
  assert (H : forallb (λ n, let b := Z.of_nat n in
      eqb (Z.land b 0xFA =? 0x80) (Z.testbit b 7 && (b / 8 mod 16 =? 0) && negb (Z.testbit b 1)))
    (seq 0 256) = true) by (vm_compute; reflexivity).
  rewrite forallb_forall in H. specialize (H (Z.to_nat b)).
  rewrite Z2Nat.id in H by lia. specialize (H ltac:(apply in_seq; lia)).
  apply eqb_prop in H. rewrite <- !(Z.eqb_eq (_ mod _)), <- (Z.eqb_eq (Z.land _ _)), H.
  destruct (Z.testbit b 7), (b / 8 mod 16 =? 0), (Z.testbit b 1); clear;
    (split; [intros E; cbn in E; repeat split; congruence|intros (?&?&?); cbn; congruence]).
Qed.

(** The question of [msg]: labels from offset 12, the root label, QTYPE and
    QCLASS, inside the first [n] bytes. *)
Definition question_at (msg : bytes) (n : Z) (ls : list bytes) : Prop :=
  ls ≠ [] ∧ Forall label_ok ls ∧ holds msg 12 (encode_labels ls ++ [0]) ∧
  12 + zlen (encode_labels ls) + 5 ≤ n ∧ zlen (text ls) ≤ 63.

Lemma question_begin_eq msg len :
  bytes_ok msg →
  let n := Z.min len 512 in
  let q := dns_question_begin dns_question_zero msg len in
  (12 ≤ n ∧ answer_header msg ∧ view n (u16_at msg 6) q [] 0 12) ∨
  (¬ (12 ≤ n ∧ answer_header msg) ∧ q_status q = DNS_SCAN_NOT_ANSWER).
Proof.
  intros Hm n q. subst q. unfold dns_question_begin.
  assert (En : (if MAX_DNS_PKT <? len then MAX_DNS_PKT else len) = n).
  { unfold MAX_DNS_PKT, n. destruct (Z.ltb_spec 512 len); lia. }
  rewrite En, !dns_rd16_val by (done || lia).
  pose proof (flags_ok (msg.[2]) (byte_at_range msg 2 Hm)) as Hf.
  assert (Hr : Z.land (msg.[3]) 0x0F = msg.[3] mod 16) by (by apply (land_mask _ 4)).
  rewrite Hr. clear Hr. unfold answer_header.
  destruct (Z.ltb_spec n 12); [right; split; [lia|done]|].
  destruct (Z.eqb_spec (Z.land (msg.[2]) 0xFA) 0x80); cbn [negb orb];
    [|right; split; [tauto|done]].
  destruct (Z.eqb_spec (msg.[3] mod 16) 0); cbn [negb]; [|right; split; [tauto|done]].
  destruct (Z.eqb_spec (u16_at msg 4) 1); cbn [negb]; [|right; split; [tauto|done]].
  cbn [q_ancount]. set (q1 := _ <| q_ancount := _ |>). change (q_ancount q1) with (u16_at msg 6).
  destruct (Z.eqb_spec (u16_at msg 6) 0); [right; split; [tauto|done]|].
  left. split; [lia|]. split; [tauto|]. unfold view. subst q1. by split_and!.
Qed.

Lemma parse_question_spec msg len q :
  bytes_ok msg → dns_parse_question msg len dns_question_zero = (DNS_SCAN_OK, q) →
  ∃ ls, 12 ≤ Z.min len 512 ∧ answer_header msg ∧ question_at msg (Z.min len 512) ls ∧
    qname q = pad_host (text ls) ∧ qname_len q = zlen (text ls) ∧
    q_ancount q = u16_at msg 6 ∧
    answers_off q = 12 + zlen (encode_labels ls) + 5 ∧
    qtype q = u16_at msg (answers_off q - 4).
Proof.
  intros Hm E. unfold dns_parse_question, dns_question_end in E.
  destruct (question_begin_eq msg len Hm) as [(Hn & Hh & V)|[_ Hs]].
  - pose proof (question_loop_run (Z.to_nat DNS_QNAME_STEPS) msg (Z.min len 512) _ _ [] 0 12
      Hm ltac:(lia)
      ltac:(lia) ltac:(lia) V) as H. cbn zeta in H.
    destruct (question_run _ _ _ _ _ _) as [[s off]|] eqn:Er.
    + destruct H as (H1 & H2 & H3 & H4 & H5 & H6). rewrite H1 in E.
      change (DNS_SCAN_OK =? DNS_SCAN_RUNNING) with false in E. cbv iota in E. simplify_eq.
      apply question_run_sound in Er as (cur & ls & J1 & J2 & J3 & J4 & J5 & J6 & J7 & J8 & J9 & J10);
        [|lia|lia|done].
      assert (cur = []) as -> by (destruct cur; [done|rewrite zlen_cons in J1; pose proof (zlen_nonneg cur); lia]).
      cbn [app map] in *. change (zlen [] =? 0) with true in J8. cbv iota in J8. subst s off.
      exists ls. rewrite H4, H5. split_and!; try done; try lia.
      * split_and!; try done; try lia. by intros ->.
      * f_equal. lia.
    + exfalso. destruct (Z.eqb_spec (q_status (dns_question_loop (Z.to_nat DNS_QNAME_STEPS)
        (dns_question_begin dns_question_zero msg len) msg)) DNS_SCAN_RUNNING); simplify_eq; done.
  - exfalso. unfold DNS_QNAME_STEPS in E. revert E.
    change (Z.to_nat (MAX_HOST_LEN + 1)) with 65%nat. cbn [dns_question_loop].
    unfold dns_question_step. rewrite Hs. cbn [negb Z.eqb Pos.eqb].
    change (negb (DNS_SCAN_NOT_ANSWER =? DNS_SCAN_RUNNING)) with true. cbv iota.
    rewrite Hs. change (DNS_SCAN_NOT_ANSWER =? DNS_SCAN_RUNNING) with false. cbv iota.
    rewrite Hs. done.
Qed.

(** C30: A question is only accepted when the message is an answer to it, and the
    name returned is the question's. *)
Theorem dns_parse_question_sound msg len q :
  bytes_ok msg → dns_parse_question msg len dns_question_zero = (DNS_SCAN_OK, q) →
  ∃ ls, 12 ≤ Z.min len 512 ∧ answer_header msg ∧ question_at msg (Z.min len 512) ls ∧
    qname q = pad_host (text ls) ∧ qname_len q = zlen (text ls) ∧
    q_ancount q = u16_at msg 6 ∧
    answers_off q = 12 + zlen (encode_labels ls) + 5 ∧
    qtype q = u16_at msg (answers_off q - 4).
Proof. exact (parse_question_spec msg len q). Qed.

(** An answer to the A question [aB.c], with one record, as the code gets it. *)
Definition sample_msg : bytes :=
  [0; 7; 0x81; 0x80; 0; 1; 0; 1; 0; 0; 0; 0; 2; 97; 66; 1; 99; 0; 0; 1; 0; 1] ++
  [0xC0; 12; 0; 1; 0; 1; 0; 0; 0; 60; 0; 4; 10; 1; 2; 3] ++ zeros 474.

Lemma dns_parse_question_sound_witness :
  let q := snd (dns_parse_question sample_msg 38 dns_question_zero) in
  ∃ ls, 12 ≤ Z.min 38 512 ∧ answer_header sample_msg ∧ question_at sample_msg (Z.min 38 512) ls ∧
    qname q = pad_host (text ls) ∧ qname_len q = zlen (text ls) ∧
    q_ancount q = u16_at sample_msg 6 ∧
    answers_off q = 12 + zlen (encode_labels ls) + 5 ∧
    qtype q = u16_at sample_msg (answers_off q - 4).
Proof. apply (dns_parse_question_sound sample_msg 38); [by_compute|vm_compute; reflexivity]. Defined.

(** C31: Every such question is accepted, with its name. *)
Theorem dns_parse_question_complete msg len ls :
  bytes_ok msg → 12 ≤ Z.min len 512 → answer_header msg → question_at msg (Z.min len 512) ls →
  let '(status, q) := dns_parse_question msg len dns_question_zero in
  status = DNS_SCAN_OK ∧ qname q = pad_host (text ls) ∧ qname_len q = zlen (text ls) ∧
  answers_off q = 12 + zlen (encode_labels ls) + 5.
Proof.
  intros Hm Hn Hh (Hne & Hls & Hmsg & Hfit & Htext). unfold dns_parse_question, dns_question_end.
  destruct (question_begin_eq msg len Hm) as [(_ & _ & V)|[Hno _]]; [|tauto].
  pose proof (question_loop_run (Z.to_nat DNS_QNAME_STEPS) msg (Z.min len 512) _ _ [] 0 12
      Hm ltac:(lia)
      ltac:(lia) ltac:(lia) V) as H. cbn zeta in H.
  assert (Hwire : zlen (encode_labels ls) = zlen (text ls) + 1 ∧ zlen (text ls) ≠ 0).
  { assert (Hd : zlen (encode_labels ls) = zlen (dotted ls)).
    { clear. induction ls as [|l ls IH]; [done|].
      rewrite encode_labels_cons, dotted_cons, !zlen_cons, !zlen_app, zlen_map_lower. lia. }
    destruct ls as [|l ls]; [done|]. apply Forall_cons in Hls as [[Hl _] _].
    rewrite Hd, text_cons, dotted_cons, zlen_cons, zlen_app, zlen_map_lower.
    pose proof (zlen_nonneg (dotted ls)). lia. }
  pose proof (question_run_complete (Z.to_nat DNS_QNAME_STEPS) msg (Z.min len 512) [] [] ls 12
    (text ls) (12 + zlen (encode_labels ls))) as Hr.
  change (zlen []) with 0 in Hr. rewrite Hr in H; try done; try lia.
  2:{ change (Z.to_nat DNS_QNAME_STEPS) with 65%nat. cbn [app]. lia. }
  destruct H as (H1 & H2 & H3 & H4 & H5 & H6). rewrite H1. by split_and!.
Qed.

Lemma dns_parse_question_complete_witness :
  fst (dns_parse_question sample_msg 38 dns_question_zero) = DNS_SCAN_OK ∧
  qname (snd (dns_parse_question sample_msg 38 dns_question_zero)) = pad_host [97; 98; 46; 99].
Proof.
  assert (H : let '(status, q) := dns_parse_question sample_msg 38 dns_question_zero in
    status = DNS_SCAN_OK ∧ qname q = pad_host (text [[97; 66]; [99]]) ∧
    qname_len q = zlen (text [[97; 66]; [99]]) ∧ answers_off q = 12 + zlen (encode_labels [[97; 66]; [99]]) + 5).
  { apply dns_parse_question_complete; [by_compute|vm_compute; congruence| |].
    - unfold answer_header. split_and!; vm_compute; congruence.
    - split; [discriminate|]. split; [repeat constructor; vm_compute; congruence|].
      split; [vm_compute; reflexivity|]. split; vm_compute; congruence. }
  destruct (dns_parse_question sample_msg 38 dns_question_zero). destruct H as (H1 & H2 & _).
  split; [exact H1|exact H2].
Defined.

End DnsFacts.

(** ** The answer section *)

Module DnsAnswers.
Import Dns DnsMsg DnsFacts.

(** A resource record: its owner name as encoded, and its fields. *)
Record rr := {
  owner : bytes;
  rtype : Z;
  rclass : Z;
  rttl : Z;
  rdata : bytes
}.

(** Labels, then the root label or a compression pointer. *)
Definition owner_ok (o : bytes) : Prop :=
  ∃ ls e, o = encode_labels ls ++ e ∧ Forall (λ l, 1 ≤ zlen l ≤ 63 ∧ bytes_ok l) ls ∧
    (e = [0] ∨ ∃ hi lo, 192 ≤ hi < 256 ∧ byte lo ∧ e = [hi; lo]).

Definition fields_ok (r : rr) : Prop :=
  0 ≤ rtype r < 65536 ∧ 0 ≤ rclass r < 65536 ∧ 0 ≤ rttl r < 2 ^ 32 ∧
  zlen (rdata r) < 65536 ∧ bytes_ok (rdata r).

Definition encode_rr (r : rr) : bytes :=
  owner r ++ be16 (rtype r) ++ be16 (rclass r) ++ be16 (rttl r / 65536) ++ be16 (rttl r mod 65536) ++
  be16 (zlen (rdata r)) ++ rdata r.
Definition encode_rrs (rs : list rr) : bytes := concat (map encode_rr rs).

(** The records to list for a question of type [qt]. *)
Definition wanted (qt : Z) (r : rr) : bool :=
  negb (dns_addr_len qt =? 0) && (rtype r =? qt) && (rclass r =? DNS_CLASS_IN).

Fixpoint listed (qt off : Z) (rs : list rr) : list dns_addr_record :=
  match rs with
  | [] => []
  | r :: rs' =>
      let off' := off + zlen (encode_rr r) in
      (if wanted qt r then
         [{| rec_off := off' - zlen (rdata r); rec_ttl := rttl r;
             rec_ip := rdata r ++ zeros (16 - length (rdata r)) |}]
       else []) ++ listed qt off' rs'
  end.

Lemma encode_rrs_cons r rs : encode_rrs (r :: rs) = encode_rr r ++ encode_rrs rs.
Proof. done. Qed.

Lemma zlen_encode_rr r : zlen (encode_rr r) = zlen (owner r) + 10 + zlen (rdata r).
Proof. unfold encode_rr. rewrite !zlen_app, !zlen_be16. lia. Qed.

(** The walk's invariant. *)
Definition inv (len an qt : Z) (a : dns_answers) (l : list dns_addr_record) : Prop :=
  a_status a = DNS_SCAN_RUNNING ∧ a_len a = len ∧ len ≤ 512 ∧ a_ancount a = an ∧ an < 65536 ∧
  rr_type a = qt ∧ rr_len a = dns_addr_len qt ∧ length (recs a) = 8%nat ∧
  n_recs a = zlen l ∧ zlen l ≤ 8 ∧ take (length l) (recs a) = l ∧
  0 ≤ a_off a < 2 ^ 20 ∧ 0 ≤ a_done a ≤ an ∧ (in_name a = false → a_done a < an).

(** A step that goes on. *)
Inductive go (msg : bytes) (len an qt : Z) (a a' : dns_answers) (l l' : list dns_addr_record) : Prop :=
  | go_label lab :
      in_name a = true → in_name a' = true → 1 ≤ zlen lab ≤ 63 → bytes_ok lab →
      holds msg (a_off a) (zlen lab :: lab) → a_off a' = a_off a + (1 + zlen lab) →
      a_done a' = a_done a → a_done a < an → l' = l → go msg len an qt a a' l l'
  | go_end e :
      in_name a = true → in_name a' = false →
      (e = [0] ∨ ∃ hi lo, 192 ≤ hi < 256 ∧ byte lo ∧ e = [hi; lo]) →
      holds msg (a_off a) e → a_off a' = a_off a + zlen e → a_done a' = a_done a → l' = l →
      go msg len an qt a a' l l'
  | go_record r :
      in_name a = false → in_name a' = true → owner r = [] → fields_ok r →
      (wanted qt r = true → zlen (rdata r) = dns_addr_len qt) →
      holds msg (a_off a) (encode_rr r) → a_off a' = a_off a + zlen (encode_rr r) → a_off a' ≤ len →
      a_done a' = a_done a + 1 → l' = l ++ listed qt (a_off a) [r] →
      go msg len an qt a a' l l'.

Lemma label_byte b : byte b →
  (Z.land b 0xC0 =? 0xC0) = (192 <=? b) ∧ (Z.land b 0xC0 =? 0) = (b <? 64).
Proof.
  intros Hb. unfold byte in Hb.
  assert (H : forallb (λ n, let b := Z.of_nat n in
      eqb (Z.land b 0xC0 =? 0xC0) (192 <=? b) && eqb (Z.land b 0xC0 =? 0) (b <? 64))
    (seq 0 256) = true) by (vm_compute; reflexivity).
  rewrite forallb_forall in H. specialize (H (Z.to_nat b)).
  rewrite Z2Nat.id in H by lia. specialize (H ltac:(apply in_seq; lia)).
  apply andb_true_iff in H as [H1 H2]. split; by apply eqb_prop.
Qed.

Lemma rec_ip_eq msg off alen : 0 ≤ off → off + alen ≤ 512 → alen = 4 ∨ alen = 16 →
  dns_rec_ip msg off alen =
  window msg off (Z.to_nat alen) ++ zeros (16 - length (window msg off (Z.to_nat alen))).
Proof.
  intros Ho Hl Ha. rewrite length_window. unfold dns_rec_ip.
  replace 16%nat with (Z.to_nat alen + (16 - Z.to_nat alen))%nat at 1 by lia.
  rewrite seq_app, map_app. f_equal.
  - apply list_fmap_ext. intros k i Hk. apply lookup_seq in Hk as [-> Hk]. cbv zeta.
    destruct (Z.ltb_spec (Z.of_nat (0 + k)) alen); [|lia].
    rewrite u32_small, dns_idx_id by lia. done.
  - unfold zeros. apply list_eq. intros i. rewrite list_lookup_fmap.
    destruct (decide (i < 16 - Z.to_nat alen)%nat).
    + rewrite lookup_seq_lt, lookup_replicate_2 by lia. cbn.
      destruct (Z.ltb_spec (Z.of_nat (Z.to_nat alen + i)) alen); [lia|done].
    + by rewrite !lookup_ge_None_2 by (rewrite ?length_seq, ?length_replicate; lia).
Qed.

Lemma dns_addr_len_cases qt : dns_addr_len qt = 0 ∨ dns_addr_len qt = 4 ∨ dns_addr_len qt = 16.
Proof. unfold dns_addr_len. destruct (qt =? _); [auto|]. destruct (qt =? _); auto. Qed.

(** The record whose fields the code reads at [off], after the owner name. *)
Definition rr_at (msg : bytes) (off : Z) : rr :=
  {| owner := []; rtype := u16_at msg off; rclass := u16_at msg (off + 2);
     rttl := u16_at msg (off + 4) * 65536 + u16_at msg (off + 6);
     rdata := window msg (off + 10) (Z.to_nat (u16_at msg (off + 8))) |}.

Lemma rr_at_spec msg off : bytes_ok msg → 0 ≤ off →
  let r := rr_at msg off in
  fields_ok r ∧ holds msg off (encode_rr r) ∧ zlen (rdata r) = u16_at msg (off + 8) ∧
  zlen (encode_rr r) = 10 + u16_at msg (off + 8).
Proof.
  intros Hm Ho r. assert (Hr := u16_at_range msg).
  pose proof (Hr off Hm). pose proof (Hr (off + 2) Hm). pose proof (Hr (off + 4) Hm).
  pose proof (Hr (off + 6) Hm). pose proof (Hr (off + 8) Hm). clear Hr.
  assert (Hz : zlen (rdata r) = u16_at msg (off + 8)).
  { unfold r, rr_at; cbn [rdata]. rewrite zlen_window. lia. }
  split; [|split; [|split]]; [|..|done|].
  - unfold fields_ok. rewrite Hz. unfold r, rr_at. cbn [rtype rclass rttl rdata].
    split_and!; try lia. by apply window_ok.
  - unfold encode_rr. rewrite !holds_app, !zlen_be16, Hz.
    unfold r, rr_at; cbn [owner rtype rclass rttl rdata]. change (zlen []) with 0.
    replace ((u16_at msg (off + 4) * 65536 + u16_at msg (off + 6)) / 65536)
      with (u16_at msg (off + 4)) by (Z.div_mod_to_equations; lia).
    replace ((u16_at msg (off + 4) * 65536 + u16_at msg (off + 6)) mod 65536)
      with (u16_at msg (off + 6)) by (Z.div_mod_to_equations; lia).
    replace (off + 0 + 2) with (off + 2) by lia. replace (off + 2 + 2) with (off + 4) by lia.
    replace (off + 4 + 2) with (off + 6) by lia. replace (off + 6 + 2) with (off + 8) by lia.
    replace (off + 8 + 2) with (off + 10) by lia. rewrite Z.add_0_r.
    split_and!; try (unfold holds; by rewrite be16_window); [done|apply holds_window].
  - rewrite zlen_encode_rr, Hz. unfold r, rr_at; cbn [owner]. rewrite zlen_nil. lia.
Qed.

Lemma answers_step_name msg len an qt a l :
  bytes_ok msg → inv len an qt a l → in_name a = true → a_done a < an →
  (∃ a', dns_answers_step a msg = (true, a') ∧
     (a_status a' = DNS_SCAN_INCOMPLETE ∨ a_status a' = DNS_SCAN_MALFORMED)) ∨
  (∃ a', dns_answers_step a msg = (false, a') ∧ go msg len an qt a a' l l ∧ inv len an qt a' l).
Proof.
  intros Hm (I1 & I2 & I3 & I4 & I5 & I6 & I7 & I8 & I9 & I10 & I11 & I12 & I13 & I14) Hn Hd.
  unfold dns_answers_step. rewrite I1, I2, I4, Hn. cbn [negb].
  change (DNS_SCAN_RUNNING =? DNS_SCAN_RUNNING) with true. cbn [negb]. cbv iota.
  destruct (Z.leb_spec an (a_done a)); [lia|]. unfold MAX_DNS_PKT.
  destruct (Z.leb_spec len (a_off a)); [left; eexists; split; [reflexivity|by left]|].
  destruct (Z.leb_spec 512 (a_off a)); [lia|]. cbn [orb]. rewrite dns_idx_id by lia.
  pose proof (byte_at_range msg (a_off a) Hm) as Hb. set (b := msg.[a_off a]) in *.
  destruct (label_byte b Hb) as [-> ->]. unfold byte in Hb.
  rewrite (u32_small (a_off a + 1)), (u32_small (a_off a + 2)), (u32_small (a_off a + 1 + b)) by lia.
  destruct (Z.eqb_spec b 0) as [E0|E0].
  { right. eexists. split; [reflexivity|]. split.
    - apply (go_end _ _ _ _ _ _ _ _ [0]); try done; [by left|]. by apply holds_cons.
    - unfold inv. cbn. split_and!; done || lia. }
  destruct (Z.leb_spec 192 b).
  { right. eexists. split; [reflexivity|]. split.
    - apply (go_end _ _ _ _ _ _ _ _ [b; msg.[a_off a + 1]]); try done.
      + right. exists b, (msg.[a_off a + 1]). split_and!; try done; try lia. by apply byte_at_range.
      + rewrite !holds_cons. by split_and!.
    - unfold inv. cbn. split_and!; done || lia. }
  destruct (Z.ltb_spec b 64); cbn [negb]; [|left; eexists; split; [reflexivity|by right]].
  right. eexists. split; [reflexivity|]. split.
  - apply (go_label _ _ _ _ _ _ _ _ (window msg (a_off a + 1) (Z.to_nat b))); try done;
      rewrite ?zlen_window; try lia; [by apply window_ok| |cbn; lia].
    apply holds_cons. rewrite Z2Nat.id by lia. split; [done|]. apply holds_window.
  - unfold inv. cbn. split_and!; done || lia.
Qed.

Lemma ttl_val msg off : bytes_ok msg →
  Z.lor (u32 (Z.shiftl (u16_at msg (off + 4)) 16)) (u16_at msg (off + 6)) = rttl (rr_at msg off).
Proof.
  intros Hm. pose proof (u16_at_range msg (off + 4) Hm). pose proof (u16_at_range msg (off + 6) Hm).
  rewrite Z.shiftl_mul_pow2 by lia. rewrite u32_small by lia. by rewrite lor_disjoint by lia.
Qed.

(** The one entry of a wanted record. *)
Lemma listed_one msg off qt : bytes_ok msg → 0 ≤ off → wanted qt (rr_at msg off) = true →
  u16_at msg (off + 8) = dns_addr_len qt → off + 10 + u16_at msg (off + 8) ≤ 512 →
  listed qt off [rr_at msg off] =
    [{| rec_off := off + 10; rec_ttl := rttl (rr_at msg off); rec_ip := dns_rec_ip msg (off + 10) (dns_addr_len qt) |}].
Proof.
  intros Hm Ho Hw El Hle. destruct (rr_at_spec msg off Hm Ho) as (_ & _ & R3 & R4). cbn [listed]. rewrite Hw, app_nil_r, R3, R4.
  f_equal. f_equal; [lia|].
  assert (Ed : rdata (rr_at msg off) = window msg (off + 10) (Z.to_nat (dns_addr_len qt))) by (by rewrite <- El).
  rewrite Ed. symmetry. apply rec_ip_eq; [lia|lia|].
  destruct (dns_addr_len_cases qt) as [E0|]; [|done]. unfold wanted in Hw. by rewrite E0 in Hw.
Qed.

Lemma answers_step_record msg len an qt a l :
  bytes_ok msg → inv len an qt a l → in_name a = false →
  (∃ a', dns_answers_step a msg = (true, a') ∧
     (a_status a' = DNS_SCAN_INCOMPLETE ∨ a_status a' = DNS_SCAN_MALFORMED)) ∨
  (∃ a' l', dns_answers_step a msg = (false, a') ∧ go msg len an qt a a' l l' ∧ inv len an qt a' l').
Proof.
  intros Hm (I1 & I2 & I3 & I4 & I5 & I6 & I7 & I8 & I9 & I10 & I11 & I12 & I13 & I14) Hn.
  specialize (I14 Hn). unfold dns_answers_step. rewrite I1, I2, I4, I6, I7, I9, Hn.
  change (DNS_SCAN_RUNNING =? DNS_SCAN_RUNNING) with true. cbn [negb]. cbv iota.
  destruct (Z.leb_spec an (a_done a)); [lia|]. rewrite (u32_small (a_off a + 10)) by lia.
  unfold MAX_DNS_PKT.
  destruct (Z.ltb_spec len (a_off a + 10)); [left; eexists; split; [reflexivity|by left]|].
  destruct (Z.leb_spec 512 (a_off a)); [lia|]. cbn [orb].
  rewrite !(u32_small (a_off a + 2)), !(u32_small (a_off a + 4)), !(u32_small (a_off a + 6)),
    !(u32_small (a_off a + 8)) by lia.
  rewrite !dns_rd16_val by (done || lia).
  destruct (rr_at_spec msg (a_off a) Hm ltac:(lia)) as (R1 & R2 & R3 & R4).
  set (r := rr_at msg (a_off a)) in *.
  change (u16_at msg (a_off a)) with (rtype r). change (u16_at msg (a_off a + 2)) with (rclass r).
  pose proof (u16_at_range msg (a_off a + 8) Hm). pose proof (u16_at_range msg (a_off a + 4) Hm).
  pose proof (u16_at_range msg (a_off a + 6) Hm).
  rewrite (ttl_val msg (a_off a) Hm). fold r. set (rdlen := u16_at msg (a_off a + 8)) in *.
  rewrite (u32_small (a_off a + 10 + rdlen)), (u32_small (a_done a + 1)) by lia.
  destruct (Z.ltb_spec len (a_off a + 10 + rdlen)); [left; eexists; split; [reflexivity|by left]|].
  fold (wanted qt r). destruct (wanted qt r) eqn:Ew.
  - destruct (Z.eqb_spec rdlen (dns_addr_len qt)) as [El|El]; cbn [negb];
      [|left; eexists; split; [reflexivity|by right]].
    unfold DNS_MAX_ADDR_RECORDS.
    destruct (Z.leb_spec 8 (zlen l)); [left; eexists; split; [reflexivity|by left]|].
    right. eexists _, _. split; [reflexivity|].
    change (8 - 1) with (2 ^ 3 - 1). rewrite land_mask, Z.mod_small by (pose proof (zlen_nonneg l); lia).
    set (rec := {| rec_off := _; rec_ttl := _; rec_ip := _ |}).
    assert (Erec : [rec] = listed qt (a_off a) [r]).
    { unfold r. rewrite listed_one by (done || lia). unfold rec. do 2 f_equal; lia. }
    rewrite ?(u32_small (zlen l + 1)) by (pose proof (zlen_nonneg l); lia).
    change (a_done (a <|recs := ?x|> <|n_recs := ?y|>)) with (a_done a).
    rewrite (u32_small (a_done a + 1)) by lia. split.
    + apply (go_record _ _ _ _ _ _ _ _ r); try done.
      * intros _. lia.
      * change (a_off a + 10 + rdlen = a_off a + zlen (encode_rr r)). lia.
    + unfold inv. rewrite <- Erec. rewrite zlen_app, length_app. change (zlen [rec]) with 1.
      split_and!; try done; cbn [recs a_off a_done in_name setter]; try lia.
      * change (length (<[Z.to_nat (zlen l):=rec]> (recs a)) = 8%nat). by rewrite length_insert.
      * change (take (length l + 1) (<[Z.to_nat (zlen l):=rec]> (recs a)) = l ++ [rec]).
        replace (Z.to_nat (zlen l)) with (length l) by (unfold zlen; lia).
        rewrite Nat.add_1_r, (take_S_r _ _ rec); [|apply list_lookup_insert_eq; unfold zlen in *; lia].
        by rewrite take_insert_ge, I11 by lia.
  - right. eexists _, l. split; [reflexivity|]. split.
    + apply (go_record _ _ _ _ _ _ _ _ r); try done.
      * by rewrite Ew.
      * change (a_off a + 10 + rdlen = a_off a + zlen (encode_rr r)). lia.
      * cbn [listed]. rewrite Ew. by rewrite !app_nil_r.
    + unfold inv. cbn. split_and!; done || lia.
Qed.

(** The records from [off] on; when the owner name of the first one is partly
    walked, what is left of it is its [owner]. *)
Definition records_at (msg : bytes) (off len qt : Z) (named : bool) (rs : list rr) : Prop :=
  Forall fields_ok rs ∧
  Forall (λ r, wanted qt r = true → zlen (rdata r) = dns_addr_len qt) rs ∧
  holds msg off (encode_rrs rs) ∧ (rs ≠ [] → off + zlen (encode_rrs rs) ≤ len) ∧
  (if named then Forall (λ r, owner_ok (owner r)) rs
   else match rs with [] => False | r :: rs' => owner r = [] ∧ Forall (λ r, owner_ok (owner r)) rs' end).

Definition with_owner (o : bytes) (r : rr) : rr :=
  {| owner := o; rtype := rtype r; rclass := rclass r; rttl := rttl r; rdata := rdata r |}.

Lemma encode_with_owner o r : encode_rr (with_owner (o ++ owner r) r) = o ++ encode_rr r.
Proof. unfold encode_rr, with_owner. cbn [owner rtype rclass rttl rdata]. by rewrite <- app_assoc. Qed.

(** Prepending to the first owner name. *)
Lemma records_at_owner msg off len qt named o r rs :
  records_at msg (off + zlen o) len qt named (r :: rs) → holds msg off o →
  (owner_ok (owner r) ∨ owner r = [] → owner_ok (o ++ owner r)) →
  records_at msg off len qt true (with_owner (o ++ owner r) r :: rs) ∧
  listed qt off (with_owner (o ++ owner r) r :: rs) = listed qt (off + zlen o) (r :: rs).
Proof.
  intros (H1 & H2 & H3 & H4 & H5) Ho Hok. unfold records_at.
  rewrite !encode_rrs_cons in *. rewrite encode_with_owner, !zlen_app in *.
  apply Forall_cons in H1 as [H1 H1']. apply Forall_cons in H2 as [H2 H2'].
  split.
  - split_and!.
    + by constructor.
    + by constructor.
    + rewrite <- app_assoc. by apply holds_app.
    + intros _. specialize (H4 ltac:(done)). lia.
    + destruct named; [apply Forall_cons in H5 as [H5 H5']|destruct H5 as [H5 H5']];
        (constructor; [apply Hok; auto|done]).
  - cbn [listed]. rewrite encode_with_owner, zlen_app. unfold wanted. cbn [rtype rclass rttl rdata with_owner].
    rewrite !Z.add_assoc. done.
Qed.

(** What the rest of the scan, from [a] with [l] listed, ends with. *)
Definition scanned (msg : bytes) (len an qt : Z) (a : dns_answers) (l : list dns_addr_record) (a' : dns_answers) : Prop :=
  ∃ rs, records_at msg (a_off a) len qt (in_name a) rs ∧ zlen rs = an - a_done a ∧
    let l' := l ++ listed qt (a_off a) rs in
    n_recs a' = zlen l' ∧ zlen l' ≤ 8 ∧ take (length l') (recs a') = l'.

Lemma scanned_stop msg len an qt a l a' : inv len an qt a l → an ≤ a_done a →
  n_recs a' = n_recs a → recs a' = recs a → scanned msg len an qt a l a'.
Proof.
  intros (I1 & I2 & I3 & I4 & I5 & I6 & I7 & I8 & I9 & I10 & I11 & I12 & I13 & I14) Hd E1 E2. unfold scanned. rewrite E1, E2.
  exists []. cbn [listed]. rewrite app_nil_r. change (zlen []) with 0. split; [|split; [lia|done]].
  destruct (in_name a) eqn:En; [|by specialize (I14 eq_refl); lia].
  split_and!; [constructor|constructor|done|done|constructor].
Qed.

Lemma answers_end_bad a a' st : a_status a = DNS_SCAN_INCOMPLETE ∨ a_status a = DNS_SCAN_MALFORMED →
  dns_answers_end a = (st, a') → st ≠ DNS_SCAN_OK.
Proof.
  intros Hs. unfold dns_answers_end. intros E.
  destruct Hs as [Hs|Hs]; rewrite Hs in E; cbn in E; rewrite Hs in E; by injection E as <- _.
Qed.

(** A step that leaves records to read goes on, unless the scan fails. *)
Lemma answers_step_goes fuel msg len an qt a l a' : bytes_ok msg → inv len an qt a l → a_done a < an →
  dns_answers_end (dns_answers_loop (S fuel) a msg) = (DNS_SCAN_OK, a') →
  ∃ a1 l1, dns_answers_step a msg = (false, a1) ∧ go msg len an qt a a1 l l1 ∧ inv len an qt a1 l1.
Proof.
  intros Hm I Hd E. cbn [dns_answers_loop] in E. destruct (in_name a) eqn:En.
  - destruct (answers_step_name msg len an qt a l Hm I En Hd) as [(a1 & E1 & Hs)|(a1 & ? & ? & ?)];
      [|by exists a1, l]. rewrite E1 in E. by apply (answers_end_bad a1) in E.
  - destruct (answers_step_record msg len an qt a l Hm I En) as [(a1 & E1 & Hs)|(a1 & l1 & ? & ? & ?)];
      [|by exists a1, l1]. rewrite E1 in E. by apply (answers_end_bad a1) in E.
Qed.

(** What is read in a step comes before what is read after it. *)
Lemma scanned_back msg len an qt a a1 l l1 a' : a_done a < an → go msg len an qt a a1 l l1 →
  scanned msg len an qt a1 l1 a' → scanned msg len an qt a l a'.
Proof.
  intros Hd G (rs & Hrs & Hn & Hl). unfold scanned.
  destruct G as [lab G1 G2 G3 G4 G5 G6 G7 G8 G9 | e G1 G2 G3 G4 G5 G6 G7
                | r G1 G2 G3 G4 G5 G6 G7 G8 G9 G10].
  + destruct rs as [|r rs]; [change (zlen []) with 0 in Hn; lia|].
    rewrite G2, G6, G9 in *. assert (Ez : zlen (zlen lab :: lab) = 1 + zlen lab) by (rewrite zlen_cons; lia).
    rewrite <- Ez in *. rewrite G1.
    destruct (records_at_owner msg (a_off a) len qt true (zlen lab :: lab) r rs Hrs G5) as [Hr' Hl'].
    { intros [(ls & e & Eo & Hls & He)|Eo].
      - exists (lab :: ls), e. rewrite Eo, encode_labels_cons. cbn [app]. rewrite <- app_assoc.
        split_and!; try done. by constructor.
      - destruct Hrs as (_ & _ & _ & _ & Hrs). apply Forall_cons in Hrs as [(ls & e & Eo' & _ & He) _].
        exfalso. rewrite Eo in Eo'. symmetry in Eo'. apply app_eq_nil in Eo' as [_ ->].
        destruct He as [He|(? & ? & _ & _ & He)]; done. }
    exists (with_owner ((zlen lab :: lab) ++ owner r) r :: rs). rewrite Hl'.
    split_and!; try done; try apply Hl. rewrite zlen_cons in *. lia.
  + destruct rs as [|r rs].
    { destruct Hrs as (_ & _ & _ & _ & Hrs). by rewrite G2 in Hrs. }
    rewrite G2, G5, G7 in *. rewrite G1.
    destruct (records_at_owner msg (a_off a) len qt false e r rs Hrs G4) as [Hr' Hl'].
    { intros _. destruct Hrs as (_ & _ & _ & _ & [-> _]). rewrite app_nil_r. exists [], e. by split_and!. }
    exists (with_owner (e ++ owner r) r :: rs). rewrite Hl'.
    split_and!; try done; try apply Hl. rewrite zlen_cons in *. lia.
  + rewrite G2, G7, G10 in *. rewrite G1. exists (r :: rs).
    destruct Hrs as (R1 & R2 & R3 & R4 & R5). split; [|split].
    * unfold records_at. rewrite encode_rrs_cons, zlen_app. split_and!; try by constructor.
      -- by apply holds_app.
      -- intros _. destruct rs as [|r' rs]; [change (zlen (encode_rrs [])) with 0; lia|].
         specialize (R4 ltac:(done)). lia.
      -- done.
      -- done.
    * rewrite zlen_cons. lia.
    * cbn [listed] in *. rewrite app_nil_r in *. by rewrite <- app_assoc in Hl.
Qed.

Lemma answers_loop_sound fuel : ∀ msg len an qt a l a',
  bytes_ok msg → inv len an qt a l →
  dns_answers_end (dns_answers_loop fuel a msg) = (DNS_SCAN_OK, a') → scanned msg len an qt a l a'.
Proof.
  induction fuel as [|fuel IH]; intros msg len an qt a l a' Hm I E; pose proof I as (I1 & _ & _ & I4 & _).
  - cbn in E. unfold dns_answers_end in E. rewrite I1, I4 in E. change (DNS_SCAN_RUNNING =? DNS_SCAN_RUNNING) with true in E.
    cbv iota in E. destruct (Z.leb_spec an (a_done a)); [|done]. injection E as <-. by apply scanned_stop.
  - destruct (Z.le_gt_cases an (a_done a)) as [Hd|Hd].
    { cbn [dns_answers_loop] in E. unfold dns_answers_step in E. rewrite I1, I4 in E.
      change (DNS_SCAN_RUNNING =? DNS_SCAN_RUNNING) with true in E. cbn [negb] in E. cbv iota in E.
      destruct (Z.leb_spec an (a_done a)); [|lia]. injection E as <-. by apply scanned_stop. }
    destruct (answers_step_goes fuel msg len an qt a l a' Hm I ltac:(lia) E) as (a1 & l1 & E1 & G & I1').
    cbn [dns_answers_loop] in E. rewrite E1 in E. apply (scanned_back msg len an qt a a1 l l1); [lia|done|by apply (IH msg)].
Qed.

Lemma answers_scan_spec msg len off ancount qt a :
  bytes_ok msg → 0 ≤ off < 65536 → 0 ≤ ancount < 65536 →
  dns_scan_addr_records msg len off ancount qt dns_answers_zero = (DNS_SCAN_OK, a) →
  ∃ rs, zlen rs = ancount ∧ Forall fields_ok rs ∧ Forall (λ r, owner_ok (owner r)) rs ∧
    holds msg off (encode_rrs rs) ∧ (0 < ancount → off + zlen (encode_rrs rs) ≤ Z.min len 512) ∧
    Forall (λ r, wanted qt r = true → zlen (rdata r) = dns_addr_len qt) rs ∧
    n_recs a = zlen (listed qt off rs) ∧ n_recs a ≤ 8 ∧
    take (Z.to_nat (n_recs a)) (recs a) = listed qt off rs.
Proof.
  intros Hm Ho Ha E. unfold dns_scan_addr_records in E.
  assert (I : inv (Z.min len 512) ancount qt
    (dns_answers_begin dns_answers_zero len off ancount qt) []).
  { unfold inv, dns_answers_begin, MAX_DNS_PKT. change (zlen []) with 0.
    split_and!; try done; cbn; try lia. destruct (Z.ltb_spec 512 len); lia. }
  apply answers_loop_sound with (1 := Hm) (2 := I) in E as (rs & Hrs & Hn & H1 & H2 & H3).
  change (a_off (dns_answers_begin dns_answers_zero len off ancount qt)) with off in *.
  change (a_done (dns_answers_begin dns_answers_zero len off ancount qt)) with 0 in *.
  change (in_name (dns_answers_begin dns_answers_zero len off ancount qt)) with true in *.
  cbn [app] in *. destruct Hrs as (R1 & R2 & R3 & R4 & R5).
  exists rs. rewrite H1. split_and!; try done; try lia.
  - intros Hpos. apply R4. intros ->. change (zlen []) with 0 in Hn. lia.
  - unfold zlen. by rewrite Nat2Z.id.
Qed.

(** C29: An answer section is only accepted when it is the encoding of exactly the
    announced records, inside the message; the records listed are then all those
    of the question's type, in order, each with its offset, TTL and address. *)
Theorem dns_scan_sound msg len off ancount qt a :
  bytes_ok msg → 0 ≤ off < 65536 → 0 ≤ ancount < 65536 →
  dns_scan_addr_records msg len off ancount qt dns_answers_zero = (DNS_SCAN_OK, a) →
  ∃ rs, zlen rs = ancount ∧ Forall fields_ok rs ∧ Forall (λ r, owner_ok (owner r)) rs ∧
    holds msg off (encode_rrs rs) ∧ (0 < ancount → off + zlen (encode_rrs rs) ≤ Z.min len 512) ∧
    Forall (λ r, wanted qt r = true → zlen (rdata r) = dns_addr_len qt) rs ∧
    n_recs a = zlen (listed qt off rs) ∧ n_recs a ≤ 8 ∧
    take (Z.to_nat (n_recs a)) (recs a) = listed qt off rs.
Proof. exact (answers_scan_spec msg len off ancount qt a). Qed.

Lemma dns_scan_sound_witness :
  let a := snd (dns_scan_addr_records sample_msg 38 22 1 1 dns_answers_zero) in
  ∃ rs, zlen rs = 1 ∧ Forall fields_ok rs ∧ Forall (λ r, owner_ok (owner r)) rs ∧
    holds sample_msg 22 (encode_rrs rs) ∧ (0 < 1 → 22 + zlen (encode_rrs rs) ≤ Z.min 38 512) ∧
    Forall (λ r, wanted 1 r = true → zlen (rdata r) = dns_addr_len 1) rs ∧
    n_recs a = zlen (listed 1 22 rs) ∧ n_recs a ≤ 8 ∧
    take (Z.to_nat (n_recs a)) (recs a) = listed 1 22 rs.
Proof.
  apply (dns_scan_sound sample_msg 38 22 1 1); [by_compute|lia|lia|vm_compute; reflexivity].
Defined.

End DnsAnswers.
