(* ===== verification/VipAddr.v ===== *)
(** * Virtual IP addresses and their upstreams (pkg/ebpf/bpf/helpers.h)

    [VipAddr]: the tests on 16-byte addresses, the four real addresses kept for
    a fake IP (recording one, picking one for a connect), the host, IP and port
    check of a socket, and the byte swap for checksums at odd offsets.
    [VipFacts]: each operation against its specification. *)

From S2P Require Import Prelude Host.
Import Host.

Module VipAddr.

Definition csum_odd_bytes (v : Z) : Z :=
  Z.lor (u32 (Z.shiftl (Z.land v 0x00FF00FF) 8)) (Z.land (Z.shiftr v 8) 0x00FF00FF).

(** [for (i = 0; i < n; i++) diff |= f(i)] *)
Definition or_bytes (n : nat) (f : Z → Z) (diff : Z) : Z :=
  fold_left (λ diff i, u8 (Z.lor diff (f (Z.of_nat i)))) (seq 0 n) diff.

Definition vip_addr_eq (a b : bytes) : bool :=
  or_bytes 16 (λ i, Z.lxor (a.[i]) (b.[i])) 0 =? 0.

Definition vip_addr_v4mapped (ip : bytes) : bool :=
  let diff := Z.lor (u8 (Z.lxor (ip.[10]) 0xff)) (u8 (Z.lxor (ip.[11]) 0xff)) in
  or_bytes 10 (λ i, ip.[i]) diff =? 0.

Definition vip_addr_unspecified (ip : bytes) : bool :=
  let rest := Z.lor (Z.lor (Z.lor (ip.[12]) (ip.[13])) (ip.[14])) (ip.[15]) in
  let rest := or_bytes 10 (λ i, ip.[i]) rest in
  if negb (rest =? 0) then false
  else (Z.lor (ip.[10]) (ip.[11]) =? 0) || (Z.land (ip.[10]) (ip.[11]) =? 0xff).

Definition vip_in_prefix6 (net mask ip : bytes) : bool :=
  let diff := or_bytes 16 (λ i, Z.lxor (Z.land (ip.[i]) (mask.[i])) (net.[i])) 0 in
  let any := or_bytes 16 (λ i, mask.[i]) 0 in
  (diff =? 0) && negb (any =? 0).

Definition VIP_UPSTREAM_SLOTS : Z := 4.

Record vip_upstream_slot := { slot_ip : bytes; expires_at : Z }.
(** [VIP_UPSTREAM_SLOTS] slots. *)
Abbreviation vip_upstream_val := (list vip_upstream_slot).

(** The scan of [vip_upstream_record] over the slots from index [i]: the slot
    whose expiry is renewed, or the victim. *)
Fixpoint record_scan (slots : list vip_upstream_slot) (i : nat) (ip : bytes)
    (victim : nat) (victim_exp : Z) : nat + nat :=
  match slots with
  | [] => inr victim
  | s :: slots' =>
      let exp := expires_at s in
      if negb (exp =? 0) && vip_addr_eq (slot_ip s) ip then inl i
      else
        if exp <? victim_exp then record_scan slots' (S i) ip i exp
        else record_scan slots' (S i) ip victim victim_exp
  end.

Definition vip_upstream_record (v : vip_upstream_val) (ip : bytes) (expires : Z) : vip_upstream_val :=
  if (expires =? 0) || vip_addr_unspecified ip then v
  else
    match record_scan v 0 ip 0 0xFFFFFFFFFFFFFFFF with
    | inl i =>
        match v !! i with
        | Some s =>
            if expires_at s <? expires
            then <[i := {| slot_ip := slot_ip s; expires_at := expires |}]> v
            else v
        | None => v
        end
    | inr victim => <[victim := {| slot_ip := ip; expires_at := expires |}]> v
    end.

(** The first loop of [vip_upstream_pick]: [n_live], [newest], [newest_exp]. *)
Fixpoint pick_scan (slots : list vip_upstream_slot) (i : nat) (now : Z)
    (n_live : Z) (newest : nat) (newest_exp : Z) : Z * nat :=
  match slots with
  | [] => (n_live, newest)
  | s :: slots' =>
      let exp := expires_at s in
      if exp =? 0 then pick_scan slots' (S i) now n_live newest newest_exp
      else
        let n_live := if now <? exp then n_live +32 1 else n_live in
        if newest_exp <? exp then pick_scan slots' (S i) now n_live i exp
        else pick_scan slots' (S i) now n_live newest newest_exp
  end.

(** The second loop: the [k]-th unexpired slot, [pick] when there is none. *)
Fixpoint pick_live (slots : list vip_upstream_slot) (i : nat) (now k : Z) (pick : nat) : nat :=
  match slots with
  | [] => pick
  | s :: slots' =>
      if expires_at s <=? now then pick_live slots' (S i) now k pick
      else if k =? 0 then i
      else pick_live slots' (S i) now (k - 1) pick
  end.

(** [None] when the code returns 0. *)
Definition vip_upstream_pick (v : vip_upstream_val) (now rnd : Z) : option bytes :=
  let '(n_live, newest) := pick_scan v 0 now 0 (Z.to_nat VIP_UPSTREAM_SLOTS) 0 in
  if (newest =? Z.to_nat VIP_UPSTREAM_SLOTS)%nat then None
  else
    let pick := if 0 <? n_live then pick_live v 0 now (rnd mod n_live) newest else newest in
    slot_ip <$> v !! pick.

Definition VIP_SOCK_OK : Z := 0.
Definition VIP_SOCK_DENY_HOST : Z := 1.
Definition VIP_SOCK_DENY_ADDR : Z := 2.

(** [sock_host] is [None] for NULL. *)
Definition vip_socket_check (sock_host : option bytes) (host_len : Z) (allowed_host : bytes)
    (ip_len : Z) (allowed_ip daddr16 : bytes) (port dport : Z) : Z :=
  if (0 <? host_len) && (host_len <? MAX_HOST_LEN) &&
     match sock_host with None => true | Some h => negb (hosts_match h allowed_host) end
  then VIP_SOCK_DENY_HOST
  else if (ip_len =? 16) && negb (bool_decide (take 16 daddr16 = take 16 allowed_ip))
  then VIP_SOCK_DENY_ADDR
  else if negb (port =? 0) && negb (dport =? port) then VIP_SOCK_DENY_ADDR
  else VIP_SOCK_OK.

End VipAddr.

Module VipFacts.
Import VipAddr.

(** *** Address tests *)

Definition addr (ip : bytes) : Prop := length ip = 16%nat ∧ bytes_ok ip.

Lemma or_bytes_spec n f d : byte d → (∀ i, 0 ≤ i < Z.of_nat n → byte (f i)) →
  byte (or_bytes n f d) ∧
  (or_bytes n f d = 0 ↔ d = 0 ∧ ∀ i, 0 ≤ i < Z.of_nat n → f i = 0).
Proof.
  intros Hd. unfold or_bytes. induction n as [|n IH]; intros Hf.
  { split; [done|]. split; [|by intros []]. intros E. split; [done|]. lia. }
  rewrite seq_S, fold_left_app. cbn [fold_left]. rewrite Nat.add_0_l.
  destruct IH as [Hb IH]; [intros; apply Hf; lia|]. set (x := fold_left _ _ _) in *.
  assert (Hfn : byte (f (Z.of_nat n))) by (apply Hf; lia).
  pose proof (byte_lor x (f (Z.of_nat n)) Hb Hfn) as Hl. rewrite u8_small by done.
  split; [done|]. unfold byte in *. rewrite Z.lor_eq_0_iff, IH. split.
  - intros [[H1 H2] H3]. split; [done|]. intros i Hi.
    destruct (Z.eq_dec i (Z.of_nat n)) as [->|]; [done|]. apply H2. lia.
  - intros [H1 H2]. split_and!; [done| |apply H2; lia]. intros i Hi. apply H2. lia.
Qed.

Lemma vip_addr_eq_spec a b : addr a → addr b → vip_addr_eq a b = true ↔ a = b.
Proof.
  intros [La Ha] [Lb Hb]. unfold vip_addr_eq. rewrite Z.eqb_eq.
  destruct (or_bytes_spec 16 (λ i, Z.lxor (a.[i]) (b.[i])) 0) as [_ ->].
  { done. } { intros i _. by apply byte_lxor; apply byte_at_range. }
  split.
  - intros [_ H]. apply byte_list_ext; [lia|]. intros i Hi. apply Z.lxor_eq_0_iff, H.
    unfold zlen in Hi. lia.
  - intros ->. split; [done|]. intros. apply Z.lxor_nilpotent.
Qed.

(** The IPv4-mapped address of [v4]. *)
Definition v4mapped (v4 : bytes) : bytes := zeros 10 ++ [0xff; 0xff] ++ v4.

Lemma zeros_at n i : (zeros n).[i] = 0.
Proof.
  unfold byte_at, zeros. rewrite nth_lookup. destruct (replicate n 0 !! Z.to_nat i) eqn:E; [|done].
  by apply lookup_replicate in E as [-> _].
Qed.

Lemma lxor_ff_0 x : byte x → u8 (Z.lxor x 0xff) = 0 ↔ x = 0xff.
Proof.
  intros Hx. rewrite u8_small by (by apply byte_lxor). apply Z.lxor_eq_0_iff.
Qed.

Lemma addr_split ip : addr ip →
  ip = window ip 0 10 ++ [ip.[10]; ip.[11]] ++ [ip.[12]; ip.[13]; ip.[14]; ip.[15]].
Proof.
  intros [L _]. rewrite <- (window_all ip 16) at 1 by (unfold zlen; lia).
  change 16%nat with (10 + 6)%nat. by rewrite window_app, !window_S, window_0.
Qed.

Lemma window_zero ip n : (∀ i, 0 ≤ i < Z.of_nat n → ip.[i] = 0) → window ip 0 n = zeros n.
Proof.
  intros H. apply byte_list_ext.
  - unfold zeros. by rewrite length_window, length_replicate.
  - intros i Hi. rewrite zlen_window in Hi. rewrite byte_at_window, zeros_at by lia. apply H. lia.
Qed.

Lemma v4mapped_spec ip : addr ip →
  vip_addr_v4mapped ip = true ↔ ∃ v4, length v4 = 4%nat ∧ ip = v4mapped v4.
Proof.
  intros Hip. pose proof Hip as [L Hb]. unfold vip_addr_v4mapped. rewrite Z.eqb_eq.
  assert (Hr := byte_at_range ip). cbv zeta.
  destruct (or_bytes_spec 10 (λ i, ip.[i])
    (Z.lor (u8 (Z.lxor (ip.[10]) 0xff)) (u8 (Z.lxor (ip.[11]) 0xff)))) as [_ ->].
  { apply byte_lor; apply u8_range. } { intros; by apply Hr. }
  rewrite Z.lor_eq_0_iff, !lxor_ff_0 by (by apply Hr). split.
  - intros [[H1 H2] H3]. eexists. split; [|rewrite (addr_split ip Hip) at 1].
    2:{ rewrite H1, H2, window_zero by (intros; apply H3; lia). reflexivity. }
    done.
  - intros (v4 & Hv & ->). split; [done|]. intros i Hi. unfold v4mapped.
    rewrite byte_at_app_l, zeros_at; [done|]. unfold zlen, zeros. rewrite length_replicate. lia.
Qed.

(** :: or 0.0.0.0 *)
Lemma unspecified_spec ip : addr ip →
  vip_addr_unspecified ip = true ↔ ip = zeros 16 ∨ ip = v4mapped (zeros 4).
Proof.
  intros Hip. pose proof Hip as [L Hb]. unfold vip_addr_unspecified.
  assert (Hr : ∀ i, byte (ip.[i])) by (intros; by apply byte_at_range). cbv zeta.
  destruct (or_bytes_spec 10 (λ i, ip.[i])
    (Z.lor (Z.lor (Z.lor (ip.[12]) (ip.[13])) (ip.[14])) (ip.[15]))) as [_ Hrest].
  { by repeat apply byte_lor. } { intros; apply Hr. }
  rewrite !Z.lor_eq_0_iff in Hrest.
  assert (Hand : Z.land (ip.[10]) (ip.[11]) = 0xff ↔ ip.[10] = 0xff ∧ ip.[11] = 0xff).
  { pose proof (Hr 10) as A. pose proof (Hr 11) as B. unfold byte in *. split; [|by intros [-> ->]].
    intros E. assert (Hle : ∀ a b, 0 ≤ a < 256 → 0 ≤ b → Z.land a b = 0xff → a = 0xff).
    { intros a b Ha Hb' E'. assert (Em : Z.land a 0xff = a).
      { change 0xff with (2 ^ 8 - 1). rewrite land_mask by lia. by apply Z.mod_small. }
      rewrite <- Em, <- E' at 1. by rewrite Z.land_assoc, Z.land_diag. }
    split; [by apply (Hle _ (ip.[11])); lia|]. apply (Hle _ (ip.[10])); [lia|lia|by rewrite Z.land_comm]. }
  destruct (Z.eqb_spec (or_bytes 10 (λ i, ip.[i])
    (Z.lor (Z.lor (Z.lor (ip.[12]) (ip.[13])) (ip.[14])) (ip.[15]))) 0) as [E|E]; cbn [negb].
  - apply Hrest in E as [[[[H12 H13] H14] H15] H].
    rewrite orb_true_iff, !Z.eqb_eq, Z.lor_eq_0_iff, Hand.
    rewrite (addr_split ip Hip) at 5 6. rewrite H12, H13, H14, H15, window_zero by (intros; apply H; lia).
    split.
    + intros [[-> ->]|[-> ->]]; [by left|by right].
    + intros [E|E]; injection E; intros; auto.
  - split; [done|]. intros H. exfalso. apply E, Hrest.
    destruct H as [-> | ->]; (split; [done|]); intros i Hi; [apply zeros_at|].
    unfold v4mapped. rewrite byte_at_app_l, zeros_at; [done|].
    unfold zlen, zeros. rewrite length_replicate. lia.
Qed.

(** *** The upstream slots *)

Definition live (s : vip_upstream_slot) : Prop := expires_at s ≠ 0.
#[export] Instance live_dec s : Decision (live s).
Proof. unfold live. apply _. Defined.

Definition slot_ok (s : vip_upstream_slot) : Prop := addr (slot_ip s) ∧ 0 ≤ expires_at s < 2 ^ 64.

(** Four slots, the non-empty ones with distinct, specified addresses. *)
Definition upstream_ok (v : vip_upstream_val) : Prop :=
  length v = 4%nat ∧ Forall slot_ok v ∧
  (∀ s, s ∈ v → live s → vip_addr_unspecified (slot_ip s) = false) ∧
  ∀ i j s s', v !! i = Some s → v !! j = Some s' → live s → live s' → slot_ip s = slot_ip s' → i = j.

Lemma record_scan_spec ip : addr ip → ∀ slots pre victim vexp,
  Forall slot_ok slots →
  Forall (λ s, live s → slot_ip s ≠ ip) pre →
  (pre = [] ∧ victim = O ∧ vexp = 2 ^ 64 - 1 ∧ slots ≠ []) ∨
  (∃ s, pre !! victim = Some s ∧ expires_at s = vexp ∧ Forall (λ s', vexp ≤ expires_at s') pre) →
  match record_scan slots (length pre) ip victim vexp with
  | inl i => ∃ s, (pre ++ slots) !! i = Some s ∧ live s ∧ slot_ip s = ip
  | inr i => Forall (λ s, live s → slot_ip s ≠ ip) (pre ++ slots) ∧
      ∃ s, (pre ++ slots) !! i = Some s ∧ Forall (λ s', expires_at s ≤ expires_at s') (pre ++ slots)
  end.
Proof.
  intros Hip slots. induction slots as [|s slots IH]; intros pre victim vexp Hs Hpre Hv.
  { cbn. rewrite app_nil_r. split; [done|].
    destruct Hv as [(_ & _ & _ & ?)|(s & ? & <- & ?)]; [done|]. by exists s. }
  apply Forall_cons in Hs as [[Ha He] Hs]. cbn [record_scan].
  destruct (negb (expires_at s =? 0) && vip_addr_eq (slot_ip s) ip) eqn:E.
  { zbool. exists s. rewrite list_lookup_middle by done. split_and!; [done|done|].
    by apply vip_addr_eq_spec. }
  assert (Hne : live s → slot_ip s ≠ ip).
  { intros Hl Heq. apply vip_addr_eq_spec in Heq; [|done|done]. unfold live in Hl.
    rewrite Heq, andb_true_r in E. zbool. done. }
  assert (Hpre' : Forall (λ s, live s → slot_ip s ≠ ip) (pre ++ [s])).
  { apply Forall_app. split; [done|]. by constructor. }
  assert (Hlen : length (pre ++ [s]) = S (length pre)) by (rewrite length_app; cbn; lia).
  replace (pre ++ s :: slots) with ((pre ++ [s]) ++ slots) by (by rewrite <- app_assoc).
  rewrite <- Hlen. change (2 ^ 64) with 18446744073709551616 in *.
  destruct (Z.ltb_spec (expires_at s) vexp) as [Hlt|Hge].
  - apply IH; [done|done|]. right. exists s. rewrite list_lookup_middle by done.
    split_and!; [done|done|]. apply Forall_app. split; [|by constructor].
    destruct Hv as [(-> & _)|(s' & _ & _ & Hv)]; [done|].
    eapply Forall_impl; [exact Hv|]. cbn. intros. lia.
  - apply IH; [done|done|]. right. destruct Hv as [(-> & -> & -> & _)|(s' & Hl & <- & Hv)].
    + exists s. cbn. split_and!; [done|lia|]. constructor; [lia|done].
    + exists s'. split_and!; [|done|].
      * rewrite lookup_app_l; [done|]. by apply lookup_lt_Some in Hl.
      * apply Forall_app. split; [done|]. by constructor.
Qed.

(** What recording an address does: nothing for an expiry of 0 or an
    unspecified address; the slot that has the address keeps the later expiry;
    otherwise the address takes a slot that expires first. *)
Lemma record_cases v ip e :
  upstream_ok v → addr ip → 0 ≤ e < 2 ^ 64 →
  let v' := vip_upstream_record v ip e in
  ((e = 0 ∨ vip_addr_unspecified ip = true) ∧ v' = v) ∨
  (e ≠ 0 ∧ vip_addr_unspecified ip = false ∧ ∃ i s, v !! i = Some s ∧
    ((live s ∧ slot_ip s = ip ∧
      v' = <[i := {| slot_ip := ip; expires_at := Z.max (expires_at s) e |}]> v) ∨
     ((∀ s', s' ∈ v → live s' → slot_ip s' ≠ ip) ∧ (∀ s', s' ∈ v → expires_at s ≤ expires_at s') ∧
      v' = <[i := {| slot_ip := ip; expires_at := e |}]> v))).
Proof.
  intros (Hl & Hs & _ & _) Hip He. unfold vip_upstream_record.
  destruct (Z.eqb_spec e 0); [left; by auto|]. destruct (vip_addr_unspecified ip); [left; by auto|].
  right. cbn [orb]. split; [done|]. split; [done|].
  pose proof (record_scan_spec ip Hip v [] 0 0xFFFFFFFFFFFFFFFF Hs) as H. cbn [app length] in H.
  specialize (H ltac:(constructor)). destruct (record_scan v 0 ip 0 _) as [i|i].
  - destruct H as (s & Hi & Hlive & E). { left. split_and!; try done. by destruct v. }
    exists i, s. split; [done|]. left. split_and!; [done|done|]. rewrite Hi, E.
    destruct (Z.ltb_spec (expires_at s) e).
    + by rewrite Z.max_r by lia.
    + rewrite Z.max_l by lia. symmetry. apply list_insert_id. rewrite Hi. f_equal.
      destruct s as [ip' e']. cbn in *. by rewrite E.
  - destruct H as (Hne & s & Hi & Hmin). { left. split_and!; try done. by destruct v. }
    exists i, s. split; [done|]. right.
    rewrite Forall_forall in Hne, Hmin. by split_and!.
Qed.

Lemma record_keeps_ok v ip e :
  upstream_ok v → addr ip → 0 ≤ e < 2 ^ 64 → upstream_ok (vip_upstream_record v ip e).
Proof.
  intros Hok Hip He. pose proof (record_cases v ip e Hok Hip He) as H. cbv zeta in H.
  destruct H as [[_ ->]|(He0 & Hun & i & s & Hi & H)]; [done|].
  destruct Hok as (Hl & Hs & Hu & Hd).
  assert (Hnew : ∃ e', vip_upstream_record v ip e = <[i := {| slot_ip := ip; expires_at := e' |}]> v ∧
    0 ≤ e' < 2 ^ 64 ∧ ∀ j s', j ≠ i → v !! j = Some s' → live s' → slot_ip s' ≠ ip).
  { pose proof (Forall_lookup_1 _ _ _ _ Hs Hi) as [_ Hb].
    destruct H as [(Hlive & Hsi & ->)|(Hne & _ & ->)]; eexists; (split; [reflexivity|]).
    - split; [lia|]. intros j s' Hj Hs' Hlive' E. apply Hj. apply (Hd j i s' s); congruence.
    - split; [done|]. intros j s' _ Hs'. apply Hne. by apply list_elem_of_lookup_2 in Hs'. }
  destruct Hnew as (e' & -> & He' & Hne). split_and!.
  - by rewrite length_insert.
  - apply Forall_insert; [done|]. by split.
  - intros s' Hin. apply list_elem_of_lookup in Hin as [j Hj].
    destruct (decide (j = i)) as [->|Hji].
    + rewrite list_lookup_insert_eq in Hj by (by apply lookup_lt_Some in Hi). by simplify_eq.
    + rewrite list_lookup_insert_ne in Hj by done. apply Hu. by apply list_elem_of_lookup_2 in Hj.
  - intros j k s1 s2 H1 H2 L1 L2 E. pose proof (lookup_lt_Some _ _ _ Hi) as Hlt.
    destruct (decide (j = i)) as [->|Hji], (decide (k = i)) as [->|Hki]; [done|..].
    + rewrite list_lookup_insert_eq in H1 by done. rewrite list_lookup_insert_ne in H2 by done.
      simplify_eq. exfalso. by apply (Hne k s2).
    + rewrite list_lookup_insert_eq in H2 by done. rewrite list_lookup_insert_ne in H1 by done.
      simplify_eq. exfalso. by apply (Hne j s1).
    + rewrite list_lookup_insert_ne in H1, H2 by done. by apply (Hd j k s1 s2).
Qed.

(** *** Picking *)

Definition unexpired (now : Z) (v : list vip_upstream_slot) : list vip_upstream_slot :=
  filter (λ s, now < expires_at s) v.

(** The newest slot of [pre] so far: its index and expiry; [4] when none is used. *)
Definition newest_of (pre : list vip_upstream_slot) (newest : nat) (nexp : Z) : Prop :=
  (newest = 4%nat ∧ nexp = 0 ∧ Forall (λ s, expires_at s = 0) pre) ∨
  (∃ s, pre !! newest = Some s ∧ expires_at s = nexp ∧ 0 < nexp ∧ Forall (λ s', expires_at s' ≤ nexp) pre).

Lemma newest_old pre s newest nexp : newest_of pre newest nexp → 0 ≤ expires_at s ≤ nexp → newest_of (pre ++ [s]) newest nexp.
Proof.
  intros [(-> & -> & Hz)|(s0 & Hi & <- & Hpos & Hz)] Hle.
  - left. split_and!; [done|done|]. apply Forall_app. split; [done|]. constructor; [lia|done].
  - right. exists s0. split_and!; [|done|done|].
    + rewrite lookup_app_l; [done|]. by apply lookup_lt_Some in Hi.
    + apply Forall_app. split; [done|]. constructor; [lia|done].
Qed.

Lemma newest_new pre s newest nexp : newest_of pre newest nexp → nexp < expires_at s →
  newest_of (pre ++ [s]) (length pre) (expires_at s).
Proof.
  intros Hinv Hlt. right. exists s. rewrite list_lookup_middle by done.
  destruct Hinv as [(-> & -> & Hz)|(s0 & Hi & <- & Hpos & Hz)];
    (split_and!; [done|done|lia|]); apply Forall_app; (split; [|constructor; [lia|done]]);
    (eapply Forall_impl; [exact Hz|]); cbn; lia.
Qed.

Lemma pick_scan_spec now slots : ∀ pre n newest nexp,
  0 ≤ now → 0 ≤ n → n + zlen slots < 2 ^ 32 → Forall slot_ok slots → newest_of pre newest nexp →
  let '(n', newest') := pick_scan slots (length pre) now n newest nexp in
  n' = n + zlen (unexpired now slots) ∧ ∃ nexp', newest_of (pre ++ slots) newest' nexp'.
Proof.
  induction slots as [|s slots IH]; intros pre n newest nexp Hnow Hn Hsz Hs Hinv.
  { cbn. rewrite app_nil_r. change (zlen []) with 0. split; [lia|by exists nexp]. }
  apply Forall_cons in Hs as [[_ He] Hs]. rewrite zlen_cons in Hsz. cbn [pick_scan].
  assert (Hlen : length (pre ++ [s]) = S (length pre)) by (rewrite length_app; cbn; lia).
  pose proof (zlen_nonneg slots).
  replace (pre ++ s :: slots) with ((pre ++ [s]) ++ slots) by (by rewrite <- app_assoc).
  rewrite <- Hlen. rewrite (u32_small (n + 1)) by lia. unfold unexpired. rewrite filter_cons.
  assert (Hcont : ∀ n1 newest1 nexp1 d, n1 = n + d → 0 ≤ d ≤ 1 → newest_of (pre ++ [s]) newest1 nexp1 →
    let '(n', newest') := pick_scan slots (length (pre ++ [s])) now n1 newest1 nexp1 in
    n' = n + (d + zlen (filter (λ s, now < expires_at s) slots)) ∧ ∃ nexp', newest_of ((pre ++ [s]) ++ slots) newest' nexp').
  { intros n1 newest1 nexp1 d -> Hd Hi.
    specialize (IH (pre ++ [s]) (n + d) newest1 nexp1 Hnow ltac:(lia) ltac:(lia) Hs Hi).
    destruct (pick_scan _ _ _ _ _ _) as [n' newest']. destruct IH as [-> IH]. split; [unfold unexpired; lia|done]. }
  destruct (Z.eqb_spec (expires_at s) 0) as [E0|E0].
  - destruct (decide (now < expires_at s)); [lia|]. apply (Hcont _ _ _ 0); [lia|lia|].
    apply newest_old; [done|]. destruct Hinv as [(_ & -> & _)|(? & _ & _ & ? & _)]; lia.
  - destruct (decide (now < expires_at s)) as [Hlt|Hge], (Z.ltb_spec now (expires_at s)); try lia.
    + rewrite zlen_cons. rewrite (Z.add_comm (zlen _) 1).
      destruct (Z.ltb_spec nexp (expires_at s));
        (apply (Hcont _ _ _ 1); [lia|lia|]); [by apply (newest_new _ _ newest nexp)|apply newest_old; [done|lia]].
    + destruct (Z.ltb_spec nexp (expires_at s));
        (apply (Hcont _ _ _ 0); [lia|lia|]); [by apply (newest_new _ _ newest nexp)|apply newest_old; [done|lia]].
Qed.

Lemma pick_live_spec now slots : ∀ pre k pick,
  0 ≤ k < zlen (unexpired now slots) →
  (pre ++ slots) !! pick_live slots (length pre) now k pick = unexpired now slots !! Z.to_nat k.
Proof.
  induction slots as [|s slots IH]; intros pre k pick Hk; [change (zlen _) with 0 in Hk; lia|].
  cbn [pick_live]. unfold unexpired in *. rewrite filter_cons in *.
  destruct (Z.leb_spec (expires_at s) now), (decide (now < expires_at s)); try lia.
  - replace (pre ++ s :: slots) with ((pre ++ [s]) ++ slots) by (by rewrite <- app_assoc).
    replace (S (length pre)) with (length (pre ++ [s])) by (rewrite length_app; cbn; lia).
    by apply IH.
  - destruct (Z.eqb_spec k 0) as [->|Hk0].
    + by rewrite list_lookup_middle.
    + rewrite zlen_cons in Hk.
      replace (pre ++ s :: slots) with ((pre ++ [s]) ++ slots) by (by rewrite <- app_assoc).
      replace (S (length pre)) with (length (pre ++ [s])) by (rewrite length_app; cbn; lia).
      rewrite IH by lia. by replace (Z.to_nat k) with (S (Z.to_nat (k - 1))) by lia.
Qed.

(** Where a connect goes: to the unexpired address [rnd] selects, if there is an
    unexpired one; else to one that expired last; nowhere only when no address
    is recorded. *)
Lemma pick_spec v now rnd :
  upstream_ok v → 0 ≤ now → 0 ≤ rnd →
  match vip_upstream_pick v now rnd with
  | None => ∀ s, s ∈ v → ¬ live s
  | Some ip => ∃ s, s ∈ v ∧ live s ∧ slot_ip s = ip ∧
      if decide (unexpired now v = [])
      then ∀ s', s' ∈ v → expires_at s' ≤ expires_at s
      else unexpired now v !! Z.to_nat (rnd mod zlen (unexpired now v)) = Some s
  end.
Proof.
  intros (Hl & Hs & _) Hnow Hr. unfold vip_upstream_pick. change (Z.to_nat VIP_UPSTREAM_SLOTS) with 4%nat.
  pose proof (pick_scan_spec now v [] 0 4 0 Hnow ltac:(lia)) as H.
  assert (Hz : zlen v = 4) by (unfold zlen; lia). rewrite Hz in H. cbn [app length] in H.
  specialize (H ltac:(lia) Hs ltac:(left; auto)).
  destruct (pick_scan v 0 now 0 4 0) as [n newest]. destruct H as [-> H]. rewrite Z.add_0_l.
  set (u := unexpired now v) in *.
  destruct H as [nexp [(-> & _ & Hemp)|(s & Hn & <- & Hlive & Hmax)]].
  { cbn [Nat.eqb]. intros s Hin Hlive. rewrite Forall_forall in Hemp. by apply Hlive, Hemp. }
  assert (live s) by (unfold live; lia). clear Hlive.
  pose proof (lookup_lt_Some _ _ _ Hn) as Hlt.
  destruct (Nat.eqb_spec newest 4); [lia|]. destruct (decide (u = [])) as [E|E].
  - rewrite E. change (0 <? zlen []) with false. cbv iota. rewrite Hn. cbn.
    exists s. split_and!; [by apply list_elem_of_lookup_2 in Hn|done|done|].
    intros s' Hin. rewrite Forall_forall in Hmax. by apply Hmax.
  - assert (Hpos : 0 < zlen u) by (destruct u; [done|rewrite zlen_cons; pose proof (zlen_nonneg u); lia]).
    destruct (Z.ltb_spec 0 (zlen u)); [|lia].
    pose proof (Z.mod_pos_bound rnd (zlen u) Hpos) as Hk.
    pose proof (pick_live_spec now v [] (rnd mod zlen u) newest Hk) as Hp. cbn [app length] in Hp.
    rewrite Hp. fold u.
    destruct (lookup_lt_is_Some_2 u (Z.to_nat (rnd mod zlen u))) as [s' Hs']; [unfold zlen in *; lia|].
    rewrite Hs'. cbn. exists s'.
    pose proof (list_elem_of_lookup_2 _ _ _ Hs') as Hin. unfold u, unexpired in Hin.
    apply list_elem_of_filter in Hin as [Hexp Hin]. split_and!; try done. unfold live. lia.
Qed.

(** *** The socket check *)

(** A secret's restrictions: to the host of a fake IP, to an address, to a port. *)
Definition sock_allowed (sock_host : option bytes) (host_len : Z) (allowed_host : bytes)
    (ip_len : Z) (allowed_ip daddr16 : bytes) (port dport : Z) : Prop :=
  (0 < host_len < 64 → sock_host = Some allowed_host) ∧
  (ip_len = 16 → daddr16 = allowed_ip) ∧
  (port ≠ 0 → dport = port).

Lemma socket_check_iff sock_host host_len allowed_host ip_len allowed_ip daddr16 port dport :
  (∀ h, sock_host = Some h → host_buf h) → host_buf allowed_host → addr allowed_ip → addr daddr16 →
  vip_socket_check sock_host host_len allowed_host ip_len allowed_ip daddr16 port dport = VIP_SOCK_OK ↔
  sock_allowed sock_host host_len allowed_host ip_len allowed_ip daddr16 port dport.
Proof.
  intros Hh Ha [Li _] [Ld _]. unfold vip_socket_check, sock_allowed, MAX_HOST_LEN.
  rewrite !take_ge by lia.
  assert (Hm : match sock_host with None => true | Some h => negb (hosts_match h allowed_host) end = false
    ↔ sock_host = Some allowed_host).
  { destruct sock_host as [h|]; [|done]. rewrite negb_false_iff, hosts_match_eq by auto.
    split; [by intros ->|by intros [= ->]]. }
  destruct (match sock_host with None => true | _ => _ end).
  - rewrite andb_true_r. assert (sock_host ≠ Some allowed_host) by (rewrite <- Hm; done).
    destruct (Z.ltb_spec 0 host_len), (Z.ltb_spec host_len 64); cbn [andb].
    1: split; [done|]; intros (E & _); exfalso; by apply H, E.
    all: destruct (Z.eqb_spec ip_len 16), (bool_decide_reflect (daddr16 = allowed_ip)),
      (Z.eqb_spec port 0), (Z.eqb_spec dport port); cbn;
      (split; [try done; intros _; split_and!; intros; try done; lia|]);
      intros (E1 & E2 & E3); try done; try (by specialize (E2 ltac:(done))); by specialize (E3 ltac:(done)).
  - rewrite andb_false_r. destruct Hm as [Hm _]. specialize (Hm eq_refl).
    destruct (Z.eqb_spec ip_len 16), (bool_decide_reflect (daddr16 = allowed_ip)),
      (Z.eqb_spec port 0), (Z.eqb_spec dport port); cbn;
      (split; [try done; intros _; split_and!; intros; try done; lia|]);
      intros (E1 & E2 & E3); try done; try (by specialize (E2 ltac:(done))); by specialize (E3 ltac:(done)).
Qed.

(** *** Checksums at odd offsets *)

Lemma csum_half b0 b1 : byte b0 → byte b1 →
  Z.land (b1 * 2 ^ 8 + b0) 0xFF = b0.
Proof.
  intros. change 0xFF with (2 ^ 8 - 1). rewrite land_mask by lia.
  unfold byte in *. rewrite Z.add_comm, Z_mod_plus_full. by apply Z.mod_small.
Qed.

Lemma csum_odd_le b0 b1 b2 b3 : byte b0 → byte b1 → byte b2 → byte b3 →
  csum_odd_bytes (le_val [b0; b1; b2; b3]) = le_val [b1; b0; b3; b2].
Proof.
  intros H0 H1 H2 H3. unfold csum_odd_bytes.
  assert (Ev : le_val [b0; b1; b2; b3] = (b3 * 2 ^ 8 + b2) * 2 ^ 16 + (b1 * 2 ^ 8 + b0)).
  { unfold le_val, byte in *. cbn [rev app be_val]. unfold zlen. cbn [length]. lia. }
  assert (Es : Z.shiftr ((b3 * 2 ^ 8 + b2) * 2 ^ 16 + (b1 * 2 ^ 8 + b0)) 8
    = (0 * 2 ^ 8 + b3) * 2 ^ 16 + (b2 * 2 ^ 8 + b1)).
  { rewrite shr_div by lia. unfold byte in *. Z.div_mod_to_equations; lia. }
  rewrite Ev, Es. change 0x00FF00FF with (0xFF * 2 ^ 16 + 0xFF). unfold byte in *.
  rewrite !land_join, !csum_half by (unfold byte; lia).
  rewrite Z.shiftl_mul_pow2, u32_small by lia.
  unfold le_val. cbn [rev app be_val]. unfold zlen. cbn [length].
  replace ((b2 * 2 ^ 16 + b0) * 2 ^ 8) with ((b2 * 2 ^ 8 + 0) * 2 ^ 16 + (b0 * 2 ^ 8)) by lia.
  assert (Hlj : ∀ a b c d, 0 ≤ b < 2 ^ 16 → 0 ≤ d < 2 ^ 16 →
    Z.lor (a * 2 ^ 16 + b) (c * 2 ^ 16 + d) = Z.lor a c * 2 ^ 16 + Z.lor b d).
  { intros a b c d Hb Hd. apply Z.bits_inj'. intros i Hi.
    rewrite Z.lor_spec, !testbit_join by (lia || (apply lor_range; lia)).
    destruct (i <? 16); by rewrite Z.lor_spec. }
  rewrite Hlj by lia. rewrite Z.add_0_r, !lor_disjoint by lia. lia.
Qed.

(** The ones' complement sum of a byte string before folding: the sum of its
    big-endian 16-bit words; [hi] says whether the first byte is a high one. *)
Fixpoint csum (hi : bool) (l : bytes) : Z :=
  match l with
  | [] => 0
  | b :: l' => (if hi then b * 256 else b) + csum (negb hi) l'
  end.

Lemma csum_app hi l k :
  csum hi (l ++ k) = csum hi l + csum (if Nat.even (length l) then hi else negb hi) k.
Proof.
  revert hi. induction l as [|b l IH]; intros hi; [done|]. cbn [app csum length].
  rewrite IH, Nat.even_succ, <- Nat.negb_even. destruct (Nat.even (length l)), hi; cbn [negb]; lia.
Qed.

(** The sum of the two aligned words the update helpers see in a 32-bit value. *)
Definition value_sum (v : Z) : Z := csum true (rev (be_bytes 4 v)).

Lemma value_sum_le b0 b1 b2 b3 : byte b0 → byte b1 → byte b2 → byte b3 →
  value_sum (le_val [b0; b1; b2; b3]) = csum true [b0; b1; b2; b3].
Proof.
  intros H0 H1 H2 H3. unfold value_sum. f_equal.
  assert (Hok : bytes_ok (rev [b0; b1; b2; b3])) by (cbn; unfold bytes_ok; rewrite !Forall_cons; auto using Forall_nil_2).
  assert (E : be_bytes 4 (le_val [b0; b1; b2; b3]) = rev [b0; b1; b2; b3]).
  { apply be_val_inj; [apply be_bytes_ok|done|done|]. rewrite be_val_be_bytes. unfold le_val.
    apply Z.mod_small. by apply be_val_range. }
  by rewrite E, rev_involutive.
Qed.

Lemma csum_odd_update pre old new post :
  Nat.odd (length pre) = true → length old = 4%nat → length new = 4%nat → bytes_ok old → bytes_ok new →
  csum true (pre ++ new ++ post) =
  csum true (pre ++ old ++ post)
  - value_sum (csum_odd_bytes (le_val old)) + value_sum (csum_odd_bytes (le_val new)).
Proof.
  intros Hodd Lo Ln Ho Hn.
  assert (He : Nat.even (length pre) = false) by (rewrite <- Nat.negb_odd, Hodd; done).
  assert (Hq : ∀ l, length l = 4%nat → bytes_ok l →
    csum false l = value_sum (csum_odd_bytes (le_val l)) ∧ ∀ k, csum false (l ++ k) = csum false l + csum false k).
  { intros l Hl Hok. destruct l as [|b0 [|b1 [|b2 [|b3 [|]]]]]; try done.
    unfold bytes_ok in Hok. rewrite !Forall_cons in Hok. destruct Hok as (B0 & B1 & B2 & B3 & _).
    rewrite csum_odd_le, value_sum_le by done. split; [cbn; lia|]. intros k. cbn. lia. }
  destruct (Hq old Lo Ho) as [E1 A1], (Hq new Ln Hn) as [E2 A2].
  rewrite !(csum_app true pre), He. cbn [negb]. rewrite A1, A2, E1, E2. lia.
Qed.

(** *** The claims *)

Definition slot (ip : bytes) (e : Z) : vip_upstream_slot := {| slot_ip := ip; expires_at := e |}.
Definition sample_ip (b : Z) : bytes := v4mapped [10; 0; 0; b].
Definition pad64 (h : bytes) : bytes := h ++ zeros (64 - length h).
Definition sample_slots : vip_upstream_val :=
  [slot (sample_ip 1) 50; slot (sample_ip 2) 20; slot (sample_ip 3) 70; slot (zeros 16) 0].

Lemma sample_addr b : byte b → addr (sample_ip b).
Proof.
  intros H. split; [reflexivity|]. unfold sample_ip, v4mapped. rewrite !bytes_ok_app.
  split_and!; [by_compute..|]. repeat (apply Forall_cons; split; [by_compute || done|]). apply Forall_nil_2.
Qed.

Lemma sample_slots_ok : upstream_ok sample_slots.
Proof.
  split; [reflexivity|]. split.
  - repeat (apply Forall_cons; split; [split; [split; [reflexivity|by_compute]|vm_compute; split; congruence]|]).
    apply Forall_nil_2.
  - split.
    + intros s Hs Hl. unfold sample_slots in Hs. rewrite !elem_of_cons in Hs.
      destruct Hs as [->|[->|[->|[->|Hs]]]]; [reflexivity..| |].
      * by destruct Hl.
      * by apply not_elem_of_nil in Hs.
    + intros i j s s' Hi Hj Hl Hl' E.
      destruct i as [|[|[|[|i]]]], j as [|[|[|[|j]]]]; cbn in Hi, Hj; try done;
        injection Hi as <-; injection Hj as <-; try done; try (by destruct Hl); by destruct Hl'.
Qed.

(** Recording an address for a fake IP keeps the slots well formed (four,
    distinct, specified addresses); it refuses an unspecified address or an
    expiry of 0, renews the slot that has the address, and else takes a slot
    that expires first. *)
Theorem vip_upstream_record_correct v ip e :
  upstream_ok v → addr ip → 0 ≤ e < 2 ^ 64 →
  let v' := vip_upstream_record v ip e in
  upstream_ok v' ∧
  (((e = 0 ∨ vip_addr_unspecified ip = true) ∧ v' = v) ∨
   (e ≠ 0 ∧ vip_addr_unspecified ip = false ∧ ∃ i s, v !! i = Some s ∧
    ((live s ∧ slot_ip s = ip ∧
      v' = <[i := {| slot_ip := ip; expires_at := Z.max (expires_at s) e |}]> v) ∨
     ((∀ s', s' ∈ v → live s' → slot_ip s' ≠ ip) ∧ (∀ s', s' ∈ v → expires_at s ≤ expires_at s') ∧
      v' = <[i := {| slot_ip := ip; expires_at := e |}]> v)))).
Proof. intros Hv Hip He. split; [by apply record_keeps_ok|by apply record_cases]. Qed.

Lemma vip_upstream_record_correct_witness :
  vip_upstream_record sample_slots (sample_ip 9) 90 =
    [slot (sample_ip 1) 50; slot (sample_ip 2) 20; slot (sample_ip 3) 70; slot (sample_ip 9) 90] ∧
  upstream_ok (vip_upstream_record sample_slots (sample_ip 9) 90).
Proof.
  split; [vm_compute; reflexivity|].
  exact (proj1 (vip_upstream_record_correct sample_slots (sample_ip 9) 90 sample_slots_ok
    (sample_addr 9 ltac:(by_compute)) ltac:(lia))).
Defined.

(** A connect is sent to the unexpired address the random number selects,
    when there is an unexpired one; else to an address that expired last; to none
    only when none is recorded. *)
Theorem vip_upstream_pick_correct v now rnd :
  upstream_ok v → 0 ≤ now → 0 ≤ rnd →
  match vip_upstream_pick v now rnd with
  | None => ∀ s, s ∈ v → ¬ live s
  | Some ip => ∃ s, s ∈ v ∧ live s ∧ slot_ip s = ip ∧
      if decide (unexpired now v = [])
      then ∀ s', s' ∈ v → expires_at s' ≤ expires_at s
      else unexpired now v !! Z.to_nat (rnd mod zlen (unexpired now v)) = Some s
  end.
Proof. apply pick_spec. Qed.

Lemma vip_upstream_pick_correct_witness :
  ∃ s, s ∈ sample_slots ∧ live s ∧ slot_ip s = sample_ip 3 ∧
    unexpired 30 sample_slots !! Z.to_nat (5 mod zlen (unexpired 30 sample_slots)) = Some s.
Proof.
  exact (vip_upstream_pick_correct sample_slots 30 5 sample_slots_ok ltac:(lia) ltac:(lia)).
Defined.

(** A secret may be redeemed on a socket exactly when the socket's host, its
    address and its port are those the secret is restricted to. *)
Theorem vip_socket_check_correct sock_host host_len allowed_host ip_len allowed_ip daddr16 port dport :
  (∀ h, sock_host = Some h → host_buf h) → host_buf allowed_host → addr allowed_ip → addr daddr16 →
  vip_socket_check sock_host host_len allowed_host ip_len allowed_ip daddr16 port dport = VIP_SOCK_OK ↔
  sock_allowed sock_host host_len allowed_host ip_len allowed_ip daddr16 port dport.
Proof. apply socket_check_iff. Qed.

Lemma vip_socket_check_correct_witness :
  vip_socket_check (Some (pad64 [97])) 1 (pad64 [97]) 16 (sample_ip 4) (sample_ip 4) 443 443 = VIP_SOCK_OK.
Proof.
  apply vip_socket_check_correct.
  - intros h [= <-]. split; [reflexivity|by_compute].
  - split; [reflexivity|by_compute].
  - split; [reflexivity|by_compute].
  - split; [reflexivity|by_compute].
  - split_and!; [reflexivity|reflexivity|lia].
Defined.

(** When four bytes at an odd offset change, the ones' complement sum of the
    packet changes by what the helper computes from the values
    [csum_odd_bytes] returns for the old and the new bytes. *)
Theorem csum_odd_bytes_update pre old new post :
  Nat.odd (length pre) = true → length old = 4%nat → length new = 4%nat → bytes_ok old → bytes_ok new →
  csum true (pre ++ new ++ post) =
  csum true (pre ++ old ++ post)
  - value_sum (csum_odd_bytes (le_val old)) + value_sum (csum_odd_bytes (le_val new)).
Proof. apply csum_odd_update. Qed.

Lemma csum_odd_bytes_update_witness :
  csum true ([1] ++ [9; 8; 7; 6] ++ [3]) = csum true ([1] ++ [1; 2; 3; 4] ++ [3])
  - value_sum (csum_odd_bytes (le_val [1; 2; 3; 4])) + value_sum (csum_odd_bytes (le_val [9; 8; 7; 6])).
Proof. apply csum_odd_bytes_update; (reflexivity || by_compute). Defined.

End VipFacts.
