(* ===== verification/State.v ===== *)
(** * The BPF maps, the running task and the packets (pkg/ebpf/bpf/tls_uprobe.c)

    [Types]: the structs the programs keep in their maps.
    [Kernel]: the state all programs share, one field per map, the operations
    on maps, the task a program runs for (its ids, clocks and user memory), a
    socket, and a packet at tc.
    Keys are tuples of the key struct's fields; addresses and byte arrays are
    lists of bytes. Per-CPU arrays and arrays of one entry always have their
    entry 0, so a lookup of it never fails and they are plain fields. A HASH map
    refuses an insertion when it is full ([hash_update]); an LRU_HASH map always
    accepts one, and any of its entries may be evicted at any time, which is a
    step of the environment (System.v). *)

From S2P Require Import Prelude Host Sni Dns VipAddr.
Import Host.

Module Types.
Import Dns(dns_question, dns_answers) VipAddr(vip_upstream_slot).

Definition SECRET_KEY_LEN : Z := 8.
Definition SECRET_PREFIX_MAX : Z := 42.
Definition CHUNK_STRIDE : Z := MAX_DATA_SIZE - (SECRET_KEY_LEN - 1).
Definition SECRET_BINDING_ENFORCE : Z := 0.
Definition SECRET_BINDING_AUDIT : Z := 1.
Definition XOR_MAX_MATCHES : Z := 4.
Definition XOR_MAX_PATCHES : Z := 4.
Definition SECRET_EVT_BINDING : Z := 0.
Definition SECRET_EVT_SNI : Z := 1.
Definition STRATEGY_KPROBE_WALK : Z := 0.
Definition STRATEGY_LIBCRYPTO_HOOK : Z := 1.
Definition CHAIN_GO_TLS : Z := 2.
Definition SNI_CHECK_ENFORCE : Z := 0.
Definition SNI_CHECK_AUDIT : Z := 1.
Definition TLS_LIB_OPENSSL : Z := 0.
Definition TLS_LIB_BORINGSSL : Z := 1.
Definition BSSL_AESKEY_ROUNDS_OFF : Z := 240.
Definition BSSL_AES_RDKEY_BYTES : Z := 240.

(** Keys. *)
Abbreviation secret_key := bytes.
Abbreviation addr16 := bytes.
Abbreviation tc_dest_key := (bytes * Z * Z)%type.     (* dst_ip, src_port, cgroup_id *)
Abbreviation tls_conn_key := (Z * Z)%type.            (* tgid, ssl_ptr *)
Abbreviation evp_h_key := (Z * Z)%type.               (* tgid, evp_ctx_ptr *)
Abbreviation tls_binary_key := (Z * Z)%type.          (* cgroup_id, exe_inode *)
Abbreviation conn_ip_key := (Z * Z)%type.             (* tgid, fd *)
Abbreviation secret_acl_key := (Z * bytes)%type.      (* cgroup_id, key *)
Abbreviation vip_pod_host_key := (bytes * bytes)%type. (* pod_ip, host *)

Record secret_value := {
  sv_len : Z;
  real_secret : bytes;
  host_len : Z;
  allowed_host : bytes;
  ip_len : Z;
  allowed_ip : bytes;
  sv_port : Z;
  protocol : Z;
  prefix_len : Z;
  full_prefix : bytes
}.

(** A match found by the prescan. *)
Record xor_match := { m_pos : Z; m_key : secret_key }.

Record scratch_buf := {
  user_data_ptr : Z;
  sd_ssl_ptr : Z;
  read_len : Z;
  total_data_len : Z;
  sd_chain_type : Z;
  h_fresh : bool;
  sd_memory_bio : bool;
  xor_match_count : Z;
  xor_current_match : Z;
  xor_matches : list xor_match;      (* [XOR_MAX_MATCHES] of them *)
  sd_data : bytes                    (* [MAX_DATA_SIZE] bytes *)
}.
#[export] Instance scratch_buf_eta : Eta scratch_buf := λ s,
  Build_scratch_buf (user_data_ptr s) (sd_ssl_ptr s) (read_len s) (total_data_len s)
    (sd_chain_type s) (h_fresh s) (sd_memory_bio s) (xor_match_count s) (xor_current_match s)
    (xor_matches s) (sd_data s).

Record secret_binding_event := {
  ev_cgroup_id : Z;
  ev_tgid : Z;
  ev_audit : bool;
  ev_reason : Z;
  ev_sni_status : Z;
  ev_memory_bio : bool;
  ev_key : bytes;
  ev_sni : bytes
}.

Record conn_ip_val := { civ_ip : addr16; civ_port : Z }.
Record connect_pending_val := { cpv_fd : Z; cpv_ip : addr16; cpv_port : Z }.
Record evp_h_val := { evp_ghash_h : bytes; evp_cipher_type : Z; evp_nonce_len : Z }.
Record vip_host_val := { vh_ip4 : bytes; vh_ip6 : bytes }.
Record vip_ip_val := { vi_host : bytes; vi_host_len : Z; vi_flags : Z; vi_retired_at : Z }.
(** [net4] and [mask4] as the machine words the code compares. *)
Record vip_config_val := { net4 : Z; mask4 : Z; net6 : bytes; mask6 : bytes }.
Record vip_sock_val := { fake_ip : addr16; real_ip : addr16; vs_port : Z }.
Record vip_sock_dst_val := { vd_ip : addr16; vd_port : Z }.
Record kloak_proc_event := { pe_tgid : Z; pe_type : Z; pe_cgroup_id : Z }.

Record tls_conn_state := { ghash_h : bytes; cipher_type : Z; nonce_len : Z }.
Definition tls_conn_state_zero : tls_conn_state :=
  {| ghash_h := zeros 16; cipher_type := 0; nonce_len := 0 |}.

Record xor_patch := {
  secret_offset : Z;
  secret_len : Z;
  xor_delta : bytes;
  p_key : secret_key
}.
Definition xor_patch_zero : xor_patch :=
  {| secret_offset := 0; secret_len := 0; xor_delta := zeros 128; p_key := zeros 8 |}.
#[export] Instance xor_patch_eta : Eta xor_patch := λ p,
  Build_xor_patch (secret_offset p) (secret_len p) (xor_delta p) (p_key p).

Record xor_pending_val := {
  xp_ssl_ptr : Z;
  xp_tgid : Z;
  xp_patch_count : Z;
  xp_patches : list xor_patch;       (* [XOR_MAX_PATCHES] of them *)
  xp_active : bool;
  xp_chain_type : Z;
  xp_memory_bio : bool;
  h_valid : bool;
  xp_plaintext_len : Z;
  created_at : Z;
  xp_ghash_h : bytes;
  xp_cipher_type : Z;
  xp_nonce_len : Z
}.
#[export] Instance xor_pending_val_eta : Eta xor_pending_val := λ x,
  Build_xor_pending_val (xp_ssl_ptr x) (xp_tgid x) (xp_patch_count x) (xp_patches x) (xp_active x)
    (xp_chain_type x) (xp_memory_bio x) (h_valid x) (xp_plaintext_len x) (created_at x)
    (xp_ghash_h x) (xp_cipher_type x) (xp_nonce_len x).
Definition xor_pending_zero : xor_pending_val :=
  Build_xor_pending_val 0 0 0 (replicate 4 xor_patch_zero) false 0 false false 0 0 (zeros 16) 0 0.

Record tls_offsets := {
  ssl_to_wrl : Z;
  wrl_to_enc_ctx : Z;
  enc_ctx_to_algctx : Z;
  algctx_to_h : Z;
  ssl_to_version : Z;
  ssl_to_wbio : Z;
  tls_lib : Z;
  bssl_ssl_to_s3 : Z;
  bssl_s3_to_aead : Z;
  bssl_aead_to_aeskey : Z;
  ossl_algctx_to_gcm_key : Z;
  ossl_algctx_to_ks : Z;
  ossl_algctx_to_vaes_hkey1 : Z
}.

Definition OFFSETS_UNCALIBRATED (o : tls_offsets) : bool :=
  (ssl_to_wrl o =? 0) && negb ((tls_lib o =? TLS_LIB_BORINGSSL) && negb (bssl_ssl_to_s3 o =? 0)).

Record go_tls_offsets := {
  conn_to_cipher : Z;
  aead_iface_off : Z;
  h2_hi_off : Z;
  h2_lo_off : Z;
  conn_vers_off : Z
}.

Record tc_pending_val := {
  tp_tgid : Z;
  tp_ssl_ptr : Z;
  tp_patch_count : Z;
  tp_patches : list xor_patch;       (* [XOR_MAX_PATCHES] of them *)
  tp_active : bool;
  tp_plaintext_len : Z;
  write_seq : Z
}.
#[export] Instance tc_pending_val_eta : Eta tc_pending_val := λ t,
  Build_tc_pending_val (tp_tgid t) (tp_ssl_ptr t) (tp_patch_count t) (tp_patches t) (tp_active t)
    (tp_plaintext_len t) (write_seq t).
Definition tc_pending_zero : tc_pending_val :=
  Build_tc_pending_val 0 0 0 (replicate 4 xor_patch_zero) false 0 0.

(** The per-CPU work area of the XOR path and the tc programs. *)
Record ghash_work := {
  staged_pending : xor_pending_val;
  staged_tc : tc_pending_val;
  ct_buf : bytes;
  old_tag : bytes;
  tag_delta : bytes;
  new_tag : bytes;
  block_delta : bytes;
  h_pow : bytes;
  mul_a : bytes;
  mul_v : bytes;
  mul_z : bytes;
  ghash_ct_len : Z;
  ghash_tgid : Z;
  ghash_ssl_ptr : Z;
  ghash_secret_offset : Z;
  ghash_patch_len : Z;
  ghash_nonce_len : Z;
  ghash_payload_off : Z;
  ghash_xor_delta : bytes;
  ghash_active : bool;
  ghash_first_block : Z;
  ghash_ct_blocks : Z;
  ghash_h_power_val : Z;
  ghash_conn_key : tc_dest_key;
  ghash_pkt_seq : Z;
  ghash_record_tcp_off : Z
}.
#[export] Instance ghash_work_eta : Eta ghash_work := λ w,
  Build_ghash_work (staged_pending w) (staged_tc w) (ct_buf w) (old_tag w) (tag_delta w) (new_tag w)
    (block_delta w) (h_pow w) (mul_a w) (mul_v w) (mul_z w) (ghash_ct_len w) (ghash_tgid w)
    (ghash_ssl_ptr w) (ghash_secret_offset w) (ghash_patch_len w) (ghash_nonce_len w)
    (ghash_payload_off w) (ghash_xor_delta w) (ghash_active w) (ghash_first_block w)
    (ghash_ct_blocks w) (ghash_h_power_val w) (ghash_conn_key w) (ghash_pkt_seq w)
    (ghash_record_tcp_off w).

Record tc_tag_val := { tv_tag_delta : bytes; tag_tcp_seq : Z }.

Record sni_state_val := { st_status : Z; st_len : Z; st_sni : bytes }.
#[export] Instance sni_state_val_eta : Eta sni_state_val := λ s,
  Build_sni_state_val (st_status s) (st_len s) (st_sni s).

End Types.

(** ** Debug counters *)

Inductive dbg :=
  | DBG_XOR_CONN_CHECK | DBG_XOR_CONN_HIT | DBG_XOR_PRESCAN_MATCH | DBG_XOR_TAILCALL
  | DBG_XOR_PATH_ENTERED | DBG_XOR_SECRET_FOUND | DBG_XOR_DELTA_DONE | DBG_TC_ENTRY | DBG_TC_MATCH
  | DBG_TC_PATCHED | DBG_KPROBE_BRIDGE | DBG_KPROBE_BRIDGE_NO_ENTRY | DBG_KPROBE_BRIDGE_H_FAIL
  | DBG_EVP_INIT_ENTRY | DBG_EVP_INIT_H_OK | DBG_EVP_INIT_H_ZERO | DBG_EVP_INIT_CHAIN_FAIL
  | DBG_H_EXTRACT_CACHE_HIT | DBG_H_EXTRACT_CACHE_MISS | DBG_KPROBE_BRIDGE_FROM_PENDING
  | DBG_KPROBE_WALK_LEGACY | DBG_H_EXTRACT_LIVE_WALK | DBG_BSSL_REACHED | DBG_BSSL_H_OK
  | DBG_BSSL_S3_NULL | DBG_BSSL_AEAD_NULL | DBG_BSSL_RDKEY_FAIL | DBG_BSSL_ROUNDS_BAD
  | DBG_BSSL_HZERO | DBG_OSSL_GCM_GATE_FAIL | DBG_OSSL_H_FROM_HKEY1 | DBG_SECRET_BINDING_DENY
  | DBG_SECRET_BINDING_AUDIT | DBG_SNI_CAPTURED | DBG_SNI_DENY | DBG_SNI_AUDIT
  | DBG_VIP_DNS_REWRITTEN | DBG_VIP_DNS_UNCHANGED | DBG_VIP_CONNECT_REDIRECT
  | DBG_VIP_CONNECT_REFUSED | DBG_VIP_DNS_UNBOUND | DBG_VIP_SOCK_HOST_DENY
  | DBG_VIP_SOCK_ADDR_DENY.

#[export] Instance dbg_eq_dec : EqDecision dbg.
Proof. solve_decision. Defined.

(** ** The shared state *)

Module Kernel.
Import Types VipAddr(vip_upstream_slot).

Record kst := {
  k_secret_map : gmap secret_key secret_value;
  k_secret_acl : gmap secret_acl_key Z;
  k_secret_binding_mode : Z;   (* index 0 *)
  k_scratch : scratch_buf;   (* per-CPU *)
  k_binding_events : list secret_binding_event;   (* ring buffer, in order *)
  k_debug_counters : dbg → Z;
  k_tracked_tgids : gmap Z Z;
  k_conn_ip_map : gmap conn_ip_key conn_ip_val;
  k_trusted_dns_servers : gmap addr16 Z;
  k_dns_whitelist_enabled : Z;
  k_connect_pending : gmap Z connect_pending_val;   (* by pid_tgid *)
  k_evp_init_scratch : gmap Z Z;   (* by pid_tgid *)
  k_evp_h_cache : gmap evp_h_key evp_h_val;
  k_tls_strategy : gmap Z Z;
  k_vip_host_ip : gmap bytes vip_host_val;
  k_vip_ip_host : gmap addr16 vip_ip_val;
  k_vip_config : vip_config_val;
  k_vip_upstream : gmap addr16 (list vip_upstream_slot);
  k_vip_sock : gmap Z vip_sock_val;   (* by socket *)
  k_vip_sock_host : gmap Z bytes;   (* by cookie *)
  k_vip_sock_dst : gmap Z vip_sock_dst_val;   (* by cookie *)
  k_vip_pod_host : gmap vip_pod_host_key Z;
  k_dns_msg : bytes;   (* dns_rewrite_scratch.msg, [MAX_DNS_PKT] bytes *)
  k_tracked_cgroups : gmap Z Z;
  k_proc_events : list kloak_proc_event;
  k_tls_conn_state : gmap tls_conn_key tls_conn_state;
  k_xor_pending : gmap Z xor_pending_val;   (* by tgid *)
  k_tls_offset_config : gmap tls_binary_key tls_offsets;
  k_go_tls_offset_config : gmap tls_binary_key go_tls_offsets;
  k_ghash_scratch : ghash_work;   (* per-CPU *)
  k_h_power_entries : list bytes;   (* per-CPU, 16 entries *)
  k_tc_pending : gmap tc_dest_key tc_pending_val;
  k_tc_tag_pending : gmap tc_dest_key tc_tag_val;
  k_sni_state : gmap Z sni_state_val;   (* by struct sock address *)
  k_sni_buf : bytes;   (* sni_scratch.buf, [TLS_SNI_BUF_LEN] bytes *)
  k_sni_check_mode : Z
}.
#[export] Instance kst_eta : Eta kst := λ s,
  Build_kst (k_secret_map s) (k_secret_acl s) (k_secret_binding_mode s) (k_scratch s)
    (k_binding_events s) (k_debug_counters s) (k_tracked_tgids s) (k_conn_ip_map s)
    (k_trusted_dns_servers s) (k_dns_whitelist_enabled s) (k_connect_pending s)
    (k_evp_init_scratch s) (k_evp_h_cache s) (k_tls_strategy s) (k_vip_host_ip s)
    (k_vip_ip_host s) (k_vip_config s) (k_vip_upstream s) (k_vip_sock s) (k_vip_sock_host s)
    (k_vip_sock_dst s) (k_vip_pod_host s) (k_dns_msg s) (k_tracked_cgroups s)
    (k_proc_events s) (k_tls_conn_state s) (k_xor_pending s) (k_tls_offset_config s)
    (k_go_tls_offset_config s) (k_ghash_scratch s) (k_h_power_entries s) (k_tc_pending s)
    (k_tc_tag_pending s) (k_sni_state s) (k_sni_buf s) (k_sni_check_mode s).

(** A program: what it returns, and the state it leaves. *)
Definition M (A : Type) : Type := kst → A * kst.
#[export] Instance m_ret : MRet M := λ _ a s, (a, s).
#[export] Instance m_bind : MBind M := λ _ _ f m s, let '(a, s) := m s in f a s.

Definition gets {A} (f : kst → A) : M A := λ s, (f s, s).
Definition modify (f : kst → kst) : M unit := λ s, ((), f s).
Definition pass : M unit := mret ().

(** [if (c) { ...; return; }]: the early returns of the code. *)
Definition when (c : bool) (m : M unit) : M unit := if c then m else pass.

Definition dbg_inc (i : dbg) : M unit :=
  modify (λ s, s <| k_debug_counters := λ j, if decide (j = i) then u64 (k_debug_counters s j + 1)
                                             else k_debug_counters s j |>).

(** [bpf_map_update_elem(.., BPF_ANY)] on a HASH map of [max] entries; [false]
    when it fails. *)
Definition hash_update `{Countable K} {V} (max : Z) (k : K) (v : V) (m : gmap K V) : bool * gmap K V :=
  if bool_decide (is_Some (m !! k)) || (Z.of_nat (size m) <? max) then (true, <[k := v]> m) else (false, m).

(** Arrays of a struct, indexed as the code does (with a mask that keeps the
    index in range). *)
Definition nth_patch (l : list xor_patch) (i : Z) : xor_patch := nth (Z.to_nat i) l xor_patch_zero.
Definition set_patch (i : Z) (p : xor_patch) (l : list xor_patch) : list xor_patch := <[Z.to_nat i := p]> l.

(** [mrun] runs the monadic steps of a program on its state. *)
Ltac mrun := unfold mbind, m_bind, mret, m_ret, gets, modify, pass, when, mret, m_ret in *; cbv beta iota in *.

(** *** bpf_loop: at most [n] calls of the callback, fewer when it stops; none
    when [n] is past the helper's limit. *)

Fixpoint bpf_loop_from {S} (f : Z → S → bool * S) (fuel : nat) (i : Z) (s : S) : S :=
  match fuel with
  | O => s
  | S fuel' =>
      let '(stop, s) := f i s in
      if stop then s else bpf_loop_from f fuel' (i + 1) s
  end.
Definition BPF_MAX_LOOPS : Z := 8388608.
Definition bpf_loop {S} (n : Z) (f : Z → S → bool * S) (s : S) : S :=
  if BPF_MAX_LOOPS <? n then s else bpf_loop_from f (Z.to_nat n) 0 s.

(** *** The task a program runs for *)

Record task := {
  pid_tgid : Z;
  cgroup_id : Z;
  exe_inode : Z;
  ktime_ns : Z;
  boot_ns : Z;
  prandom : Z;
  umem : Z → option Z;              (* user memory, a byte per mapped address *)
  x86 : bool;                       (* the architecture: x86-64, else arm64 *)
  prog_loaded : Z → bool;           (* prog_array has a program at this index *)
  ringbuf_free : bool;              (* a ring buffer reservation succeeds *)
  storage_free : bool;              (* socket storage can be created *)
  under_ancestor : bool             (* bpf_current_task_under_cgroup *)
}.

Definition tgid_of (t : task) : Z := Z.shiftr (pid_tgid t) 32.

(** [bpf_probe_read_user(dst, n, addr)]: the bytes, or [None] when any of them
    faults. A failed read leaves [dst] zeroed. *)
Definition probe_read (t : task) (addr : Z) (n : nat) : option bytes :=
  mapM (λ i, umem t (u64 (addr + Z.of_nat i))) (seq 0 n).
Definition probe_read_z (t : task) (addr : Z) (n : nat) : bytes := default (zeros n) (probe_read t addr n).
(** A 2-, 4- or 8-byte little-endian load. *)
Definition probe_word (t : task) (addr : Z) (n : nat) : option Z := le_val <$> probe_read t addr n.
Definition probe_word_z (t : task) (addr : Z) (n : nat) : Z := le_val (probe_read_z t addr n).

(** A non-NULL pointer read from user memory. *)
Definition probe_ptr (t : task) (addr : Z) : option Z :=
  match probe_word t addr 8 with Some p => if p =? 0 then None else Some p | None => None end.

(** User memory holds bytes. *)
Definition mem_ok (t : task) : Prop := ∀ a b, umem t a = Some b → byte b.

Lemma probe_read_ok t a n l : mem_ok t → probe_read t a n = Some l → bytes_ok l ∧ length l = n.
Proof.
  intros Hm. unfold probe_read. intros E. apply mapM_Some in E. split.
  - apply Forall_forall. intros b Hb. apply list_elem_of_lookup in Hb as [i Hi].
    destruct (Forall2_lookup_r _ _ _ _ _ E Hi) as (j & _ & Hj). by eapply Hm.
  - apply Forall2_length in E. by rewrite <- E, length_seq.
Qed.

(** *** Reads of mapped memory *)

(** [d] is mapped at [addr]. *)
Definition mapped (t : task) (addr : Z) (d : bytes) : Prop :=
  ∀ i, 0 ≤ i < zlen d → umem t (u64 (addr + i)) = Some (d.[i]).

Lemma mapM_seq {A} (f : nat → option A) (g : nat → A) n k :
  (∀ i, (k <= i < k + n)%nat → f i = Some (g i)) → mapM f (seq k n) = Some (map g (seq k n)).
Proof.
  revert k. induction n as [|n IH]; intros k H; [done|].
  cbn [seq map]. cbn. rewrite H by lia. cbn. rewrite IH; [done|]. intros i Hi. apply H. lia.
Qed.

Lemma probe_read_mapped t addr d off n :
  mapped t addr d → 0 ≤ off → off + Z.of_nat n ≤ zlen d →
  probe_read t (addr + off) n = Some (take n (drop (Z.to_nat off) d)).
Proof.
  intros Hm Ho Hn. unfold probe_read.
  rewrite (mapM_seq _ (λ i, d.[off + Z.of_nat i])).
  - f_equal. change (window d off n = slice d off n). apply byte_list_ext.
    + by rewrite length_window, length_slice by lia.
    + intros i Hi. rewrite zlen_window in Hi. by rewrite byte_at_window, byte_at_slice by lia.
  - intros i Hi. rewrite <- Z.add_assoc. apply Hm. lia.
Qed.

(** *** The state at load: empty maps, zeroed arrays *)

Definition scratch_buf_init : scratch_buf :=
  Build_scratch_buf 0 0 0 0 0 false false 0 0 (replicate 4 {| m_pos := 0; m_key := zeros 8 |}) (zeros 256).
Definition ghash_work_init : ghash_work :=
  Build_ghash_work xor_pending_zero tc_pending_zero (zeros 128) (zeros 16) (zeros 16) (zeros 16) (zeros 16)
    (zeros 16) (zeros 16) (zeros 16) (zeros 16) 0 0 0 0 0 0 0 (zeros 128) false 0 0 0 (zeros 4, 0, 0) 0 0.
Definition kst_init : kst :=
  Build_kst ∅ ∅ 0 scratch_buf_init [] (λ _, 0) ∅ ∅ ∅ 0 ∅ ∅ ∅ ∅ ∅ ∅
    {| net4 := 0; mask4 := 0; net6 := zeros 16; mask6 := zeros 16 |} ∅ ∅ ∅ ∅ ∅ (zeros 512) ∅ [] ∅ ∅ ∅ ∅
    ghash_work_init (replicate 16 (zeros 16)) ∅ ∅ ∅ (zeros 2048) 0.

(** A task of process 7 in cgroup 3, with [d] as its whole memory, at [base]. *)
Definition task_with (base : Z) (d : bytes) : task :=
  {| pid_tgid := 7 * 2 ^ 32 + 9; cgroup_id := 3; exe_inode := 11; ktime_ns := 1000; boot_ns := 2000;
     prandom := 5;
     umem := λ a, if (base <=? a) && (a <? base + zlen d) then Some (d.[a - base]) else None;
     x86 := true; prog_loaded := λ _, true; ringbuf_free := true; storage_free := true;
     under_ancestor := true |}.

Lemma task_with_mapped base d : 0 ≤ base → base + zlen d ≤ 2 ^ 64 → mapped (task_with base d) base d.
Proof.
  intros Hb Hd i Hi. change (2 ^ 64) with 18446744073709551616 in Hd. rewrite u64_small by lia. cbn.
  destruct (Z.leb_spec base (base + i)), (Z.ltb_spec (base + i) (base + zlen d)); try lia. cbn [andb].
  do 2 f_equal. lia.
Qed.

Lemma task_with_mem_ok base d : bytes_ok d → mem_ok (task_with base d).
Proof.
  intros Hd a b. cbn. destruct (_ && _); [|done]. intros [= <-]. by apply byte_at_range.
Qed.

End Kernel.
