(* ===== verification/Hooks.v ===== *)
(** * Processes, bindings and connections (pkg/ebpf/bpf/tls_uprobe.c)

    [Hooks]: the check of a placeholder's pod binding and its event, the address
    helpers, the connect / close tracepoints, the exec / exit tracepoints.
    [HooksFacts]: what each of them does to the state. *)

From S2P Require Import Prelude Host Dns VipAddr State.
Import Host VipAddr Types Kernel.

Module Hooks.

Definition secret_map_max_entries : Z := 4096.
Definition secret_acl_max_entries : Z := 65536.
Definition connect_pending_max_entries : Z := 1024.
Definition tracked_tgids_max_entries : Z := 16384.
Definition tracked_cgroups_max_entries : Z := 4096.

(** *** Pod bindings *)

(** [sni] is [None] for NULL. *)
Definition report_secret_event (t : task) (key : secret_key) (audit : bool) (reason sni_status : Z)
    (memory_bio : bool) (sni : option bytes) : M unit :=
  if ringbuf_free t then
    modify (λ s, s <| k_binding_events := k_binding_events s ++
      [{| ev_cgroup_id := cgroup_id t; ev_tgid := tgid_of t; ev_audit := audit; ev_reason := reason;
          ev_sni_status := sni_status; ev_memory_bio := memory_bio; ev_key := key;
          ev_sni := match sni with Some b => b | None => zeros 64 end |}] |>)
  else pass.

Definition secret_binding_allows (t : task) (key : secret_key) : M bool :=
  acl ← gets k_secret_acl;
  match acl !! (cgroup_id t, key) with
  | Some _ => mret true
  | None =>
      mode ← gets k_secret_binding_mode;
      let audit := mode =? SECRET_BINDING_AUDIT in
      dbg_inc (if audit then DBG_SECRET_BINDING_AUDIT else DBG_SECRET_BINDING_DENY);;
      report_secret_event t key audit SECRET_EVT_BINDING 0 false None;;
      mret audit
  end.

(** *** Addresses *)

Definition ipv4_to_mapped (ipv4 : bytes) : addr16 :=
  zeros 10 ++ [0xff; 0xff; ipv4.[0]; ipv4.[1]; ipv4.[2]; ipv4.[3]].

Definition vip_in_range (cfg : vip_config_val) (ip4 : Z) : bool :=
  negb (mask4 cfg =? 0) && (Z.land ip4 (mask4 cfg) =? net4 cfg).

Definition vip_addr_in_range (cfg : vip_config_val) (ip : addr16) : bool :=
  if vip_addr_v4mapped ip then vip_in_range cfg (le_val (slice ip 12 4))
  else negb (mask4 cfg =? 0) && vip_in_prefix6 (net6 cfg) (mask6 cfg) ip.

Definition dns_server_trusted (ip : addr16) : M bool :=
  enabled ← gets k_dns_whitelist_enabled;
  if negb (enabled =? 1) then mret true
  else
    servers ← gets k_trusted_dns_servers;
    mret (bool_decide (is_Some (servers !! ip))).

(** *** connect() and close() *)

Definition tp_enter_connect (t : task) (fd addr_ptr : Z) : M unit :=
  if addr_ptr =? 0 then pass
  else
    let sa_family := probe_word_z t addr_ptr 2 in
    let save ip port :=
      modify (λ s, s <| k_connect_pending :=
        snd (hash_update connect_pending_max_entries (pid_tgid t)
               {| cpv_fd := u32 fd; cpv_ip := ip; cpv_port := port |} (k_connect_pending s)) |>) in
    if sa_family =? 2 then
      save (ipv4_to_mapped (probe_read_z t (u64 (addr_ptr + 4)) 4)) (probe_word_z t (u64 (addr_ptr + 2)) 2)
    else if sa_family =? 10 then
      save (probe_read_z t (u64 (addr_ptr + 8)) 16) (probe_word_z t (u64 (addr_ptr + 2)) 2)
    else pass.

Definition tp_exit_connect (t : task) (ret : Z) : M unit :=
  pending ← gets (λ s, k_connect_pending s !! pid_tgid t);
  match pending with
  | None => pass
  | Some p =>
      modify (λ s, s <| k_connect_pending := delete (pid_tgid t) (k_connect_pending s) |>);;
      if negb (ret =? 0) && negb (ret =? -115) then pass
      else
        modify (λ s, s <| k_conn_ip_map :=
          <[(tgid_of t, cpv_fd p) := {| civ_ip := cpv_ip p; civ_port := cpv_port p |}]>
            (k_conn_ip_map s) |>)
  end.

Definition tp_enter_close (t : task) (fd : Z) : M unit :=
  modify (λ s, s <| k_conn_ip_map := delete (tgid_of t, u32 fd) (k_conn_ip_map s) |>).

(** *** exec and exit *)

(** [pid]: the tracepoint's pid field. *)
Definition tp_sched_process_exec (t : task) (pid : Z) : M unit :=
  if negb (under_ancestor t) then pass
  else
    modify (λ s, s <| k_tracked_tgids :=
      snd (hash_update tracked_tgids_max_entries (u32 pid) 1 (k_tracked_tgids s)) |>);;
    modify (λ s, s <| k_tracked_cgroups :=
      snd (hash_update tracked_cgroups_max_entries (cgroup_id t) 1 (k_tracked_cgroups s)) |>);;
    when (ringbuf_free t)
      (modify (λ s, s <| k_proc_events := k_proc_events s ++
         [{| pe_tgid := u32 pid; pe_type := 1; pe_cgroup_id := cgroup_id t |}] |>)).

Definition tp_sched_process_exit (pid : Z) : M unit :=
  modify (λ s, s <| k_tracked_tgids := delete (u32 pid) (k_tracked_tgids s) |>).

End Hooks.

Module HooksFacts.
Import Hooks VipFacts.

(** A placeholder may be redeemed exactly when its cgroup is bound to it, or in
    audit mode. *)
Lemma binding_allows_iff t key s :
  fst (secret_binding_allows t key s) = true ↔
  is_Some (k_secret_acl s !! (cgroup_id t, key)) ∨ k_secret_binding_mode s = SECRET_BINDING_AUDIT.
Proof.
  unfold secret_binding_allows, report_secret_event, dbg_inc. mrun.
  destruct (k_secret_acl s !! (cgroup_id t, key)) eqn:E; cbn.
  { split; [intros _; left; eauto|done]. }
  unfold SECRET_BINDING_AUDIT.
  destruct (Z.eqb_spec (k_secret_binding_mode s) 1), (ringbuf_free t); cbn;
    (split; [by auto|intros [[? ?]|?]; done]).
Qed.

(** The state after a check: its counters and its events, nothing else. *)
Lemma binding_allows_frame t key s :
  ∃ c e, snd (secret_binding_allows t key s) = s <| k_debug_counters := c |> <| k_binding_events := e |>.
Proof.
  unfold secret_binding_allows, report_secret_event, dbg_inc. mrun.
  destruct (k_secret_acl s !! (cgroup_id t, key)) eqn:E; cbn.
  { exists (k_debug_counters s), (k_binding_events s). by destruct s. }
  destruct (ringbuf_free t); eexists _, _; reflexivity.
Qed.

Lemma mapped_addr ipv4 : bytes_ok ipv4 → addr (ipv4_to_mapped ipv4).
Proof.
  intros. split; [done|]. unfold ipv4_to_mapped. apply bytes_ok_app. split; [apply bytes_ok_zeros|].
  repeat (apply Forall_cons; split; [try (by apply byte_at_range); unfold byte; lia|]). done.
Qed.

Lemma mapped_is_v4mapped ipv4 : bytes_ok ipv4 → vip_addr_v4mapped (ipv4_to_mapped ipv4) = true.
Proof.
  intros H. apply v4mapped_spec; [by apply mapped_addr|].
  exists [ipv4.[0]; ipv4.[1]; ipv4.[2]; ipv4.[3]]. by split.
Qed.

(** *** The claims *)

(** A placeholder may be redeemed exactly when its cgroup is bound to it or
    the check only audits; a bound one leaves no trace, any other is reported
    with its key and cgroup when the ring buffer has room; nothing else of the
    state changes. *)
Theorem secret_binding_allows_correct t key s :
  let '(ok, s') := secret_binding_allows t key s in
  let bound := is_Some (k_secret_acl s !! (cgroup_id t, key)) in
  (ok = true ↔ bound ∨ k_secret_binding_mode s = SECRET_BINDING_AUDIT) ∧
  (∃ c e, s' = s <| k_debug_counters := c |> <| k_binding_events := e |>) ∧
  (bound → s' = s) ∧
  (¬ bound → ringbuf_free t = true → ∃ ev, k_binding_events s' = k_binding_events s ++ [ev] ∧
    ev_key ev = key ∧ ev_cgroup_id ev = cgroup_id t ∧ ev_tgid ev = tgid_of t ∧ ev_audit ev = ok).
Proof.
  pose proof (binding_allows_iff t key s) as Hi. pose proof (binding_allows_frame t key s) as Hf.
  destruct (secret_binding_allows t key s) as [ok s'] eqn:E. cbn [fst snd] in *.
  split; [exact Hi|]. split; [exact Hf|]. clear Hi Hf.
  unfold secret_binding_allows, report_secret_event, dbg_inc in E. mrun.
  destruct (k_secret_acl s !! (cgroup_id t, key)) as [v|].
  - injection E as <- <-. split; [done|]. intros Hn. exfalso. apply Hn. eauto.
  - split; [by intros [? ?]|]. intros _ Hr. rewrite Hr in E. injection E as <- <-.
    eexists. split; [reflexivity|]. done.
Qed.

Lemma secret_binding_allows_correct_witness :
  let t := task_with 0 [] in
  fst (secret_binding_allows t (zeros 8) kst_init) = false ∧
  ∃ ev, k_binding_events (snd (secret_binding_allows t (zeros 8) kst_init)) = [ev] ∧ ev_cgroup_id ev = 3.
Proof.
  cbn zeta. pose proof (secret_binding_allows_correct (task_with 0 []) (zeros 8) kst_init) as H.
  split; [vm_compute; reflexivity|].
  destruct (secret_binding_allows (task_with 0 []) (zeros 8) kst_init) as [ok s'].
  destruct H as (_ & _ & _ & H). cbn [snd].
  destruct H as (ev & E & _ & Ec & _); [vm_compute; by intros [? ?]|reflexivity|].
  exists ev. split; [exact E|exact Ec].
Defined.

(** A sockaddr_in of [ip] and [port] bytes. *)
Definition sockaddr_in (port ip : bytes) : bytes := [2; 0] ++ port ++ ip.

Lemma sockaddr_reads t p port ip :
  mapped t p (sockaddr_in port ip) → 0 < p → p + 8 < 2 ^ 64 → length port = 2%nat → length ip = 4%nat →
  probe_word_z t p 2 = 2 ∧ probe_word_z t (u64 (p + 2)) 2 = le_val port ∧ probe_read_z t (u64 (p + 4)) 4 = ip.
Proof.
  intros Hm H0 H1 Hp Hi. change (2 ^ 64) with 18446744073709551616 in H1. rewrite !u64_small by lia.
  assert (Hz : zlen (sockaddr_in port ip) = 8) by (unfold sockaddr_in, zlen; rewrite !length_app, Hp, Hi; done).
  assert (Hr : ∀ off n, 0 ≤ off → off + Z.of_nat n ≤ 8 →
    probe_read_z t (p + off) n = take n (drop (Z.to_nat off) (sockaddr_in port ip))).
  { intros off n ??. unfold probe_read_z.
    by rewrite (probe_read_mapped t p (sockaddr_in port ip)) by (done || lia). }
  unfold probe_word_z. rewrite <- (Z.add_0_r p) at 1. rewrite !Hr by lia.
  destruct port as [|p0 [|p1 []]]; try done. by destruct ip as [|a [|b [|c [|d []]]]].
Qed.

Lemma enter_connect_in t fd p port ip s :
  mapped t p (sockaddr_in port ip) → 0 < p → p + 8 < 2 ^ 64 → length port = 2%nat → length ip = 4%nat →
  Z.of_nat (size (k_connect_pending s)) < connect_pending_max_entries →
  tp_enter_connect t fd p s = ((), s <| k_connect_pending :=
    <[pid_tgid t := {| cpv_fd := u32 fd; cpv_ip := ipv4_to_mapped ip; cpv_port := le_val port |}]>
      (k_connect_pending s) |>).
Proof.
  intros Hm H0 H1 Hp Hi Hs. destruct (sockaddr_reads t p port ip Hm H0 H1 Hp Hi) as (E1 & E2 & E3).
  unfold tp_enter_connect. destruct (Z.eqb_spec p 0); [lia|]. rewrite E1, E2, E3. cbn [Z.eqb Pos.eqb]. mrun.
  unfold hash_update. by rewrite (proj2 (Z.ltb_lt _ _) Hs), orb_true_r.
Qed.

(** A connect that succeeds or is in progress makes the process's descriptor
    stand for the address it was given, until it is closed; one that fails
    changes nothing. *)
Theorem connect_tracks_address t fd addr_ptr port ip ret s :
  mapped t addr_ptr (sockaddr_in port ip) → 0 < addr_ptr → addr_ptr + 8 < 2 ^ 64 →
  length port = 2%nat → length ip = 4%nat →
  k_connect_pending s !! pid_tgid t = None → Z.of_nat (size (k_connect_pending s)) < connect_pending_max_entries →
  let s1 := snd ((tp_enter_connect t fd addr_ptr;; tp_exit_connect t ret) s) in
  let key := (tgid_of t, u32 fd) in
  k_connect_pending s1 = k_connect_pending s ∧
  (if (ret =? 0) || (ret =? -115)
   then k_conn_ip_map s1 = <[key := {| civ_ip := ipv4_to_mapped ip; civ_port := le_val port |}]> (k_conn_ip_map s)
   else k_conn_ip_map s1 = k_conn_ip_map s) ∧
  k_conn_ip_map (snd (tp_enter_close t fd s1)) !! key = None.
Proof.
  intros Hm H0 H1 Hp Hi Hn Hs. cbn zeta. unfold mbind, m_bind.
  rewrite (enter_connect_in t fd addr_ptr port ip) by done.
  split_and!; [| |unfold tp_enter_close; mrun; cbn; by rewrite lookup_delete_eq].
  all: unfold tp_exit_connect; mrun; cbn; rewrite lookup_insert_eq; cbn.
  all: destruct (ret =? 0), (ret =? -115); cbn; try done; by rewrite delete_insert_id.
Qed.

Lemma connect_tracks_address_witness :
  let t := task_with 4096 (sockaddr_in [1; 187] [10; 0; 0; 4]) in
  k_conn_ip_map (snd ((tp_enter_connect t 5 4096;; tp_exit_connect t (-115)) kst_init)) =
    <[(7, 5) := {| civ_ip := ipv4_to_mapped [10; 0; 0; 4]; civ_port := le_val [1; 187] |}]> ∅.
Proof.
  cbn zeta. eapply (connect_tracks_address (task_with 4096 (sockaddr_in [1; 187] [10; 0; 0; 4])) 5 4096
    [1; 187] [10; 0; 0; 4] (-115) kst_init);
    [apply task_with_mapped; [lia|vm_compute; congruence]|lia|lia|reflexivity..].
Defined.

End HooksFacts.
