(* ===== verification/HExtract.v ===== *)
(** * Reading the GHASH key from TLS libraries (pkg/ebpf/bpf/tls_uprobe.c)

    [HExtract]: the walks over the TLS libraries' structs in user memory
    (OpenSSL provider contexts, BoringSSL round keys, the write BIO), the
    EVP_CipherInit_ex hooks that cache H, and [bpf_h_extract].
    [HFacts]: a walk that succeeds has found H, for contexts laid out as the
    libraries lay them out. *)

From S2P Require Import Prelude Host GF128 Ghash Aes State Hooks.
Import Host GF128 GhashCode Aes Types Kernel Hooks.

Module HExtract.

Definition OSSL_H_READ_FAIL : Z := 0.
Definition OSSL_H_ZERO : Z := 1.
Definition OSSL_H_NOT_GCM : Z := 2.
Definition OSSL_H_RAW : Z := 3.
Definition OSSL_H_HKEY1 : Z := 4.
Definition OSSL_H_OK (r : Z) : bool := OSSL_H_RAW <=? r.

(** [h[0] | h[1]] *)
Definition h_nonzero (h : bytes) : bool :=
  negb (Z.lor (le_val (slice h 0 8)) (le_val (slice h 8 8)) =? 0).

(** [__builtin_bswap64] of both halves. *)
Definition bswap_halves (h : bytes) : bytes := rev (slice h 0 8) ++ rev (slice h 8 8).

(** The gate: [Some] result when it ends the function. *)
Definition ossl_gate (t : task) (algctx : Z) (o : tls_offsets) : option Z :=
  if negb (ossl_algctx_to_gcm_key o =? 0) && negb (ossl_algctx_to_ks o =? 0) then
    match probe_word t (algctx + ossl_algctx_to_gcm_key o) 8 with
    | None => Some OSSL_H_READ_FAIL
    | Some key => if key =? u64 (algctx + ossl_algctx_to_ks o) then None else Some OSSL_H_NOT_GCM
    end
  else None.

(** The result, and [h] (only meaningful when [OSSL_H_OK]). *)
Definition ossl_read_gcm_h (t : task) (algctx : Z) (o : tls_offsets) : M (Z * bytes) :=
  let gated := negb (ossl_algctx_to_gcm_key o =? 0) && negb (ossl_algctx_to_ks o =? 0) in
  match ossl_gate t algctx o with
  | Some r => when (r =? OSSL_H_NOT_GCM) (dbg_inc DBG_OSSL_GCM_GATE_FAIL);; mret (r, zeros 16)
  | None =>
      match probe_read t (algctx + algctx_to_h o) 16 with
      | None => mret (OSSL_H_READ_FAIL, zeros 16)
      | Some h =>
          if h_nonzero h then mret (OSSL_H_RAW, bswap_halves h)
          else if x86 t && gated && negb (ossl_algctx_to_vaes_hkey1 o =? 0) then
            match probe_read t (algctx + ossl_algctx_to_vaes_hkey1 o) 16 with
            | None => mret (OSSL_H_READ_FAIL, zeros 16)
            | Some h =>
                if h_nonzero h then
                  dbg_inc DBG_OSSL_H_FROM_HKEY1;;
                  mret (OSSL_H_HKEY1, gf128_halve_to_h (le_val (slice h 0 8)) (le_val (slice h 8 8)))
                else mret (OSSL_H_ZERO, zeros 16)
            end
          else mret (OSSL_H_ZERO, zeros 16)
      end
  end.

(** [None] when the code returns 0. *)
Definition bssl_recover_h (t : task) (ssl_ptr ssl_to_s3 s3_to_aead aead_to_aeskey : Z) : M (option bytes) :=
  match probe_ptr t (ssl_ptr + ssl_to_s3) with
  | None => dbg_inc DBG_BSSL_S3_NULL;; mret None
  | Some s3 =>
      match probe_ptr t (s3 + s3_to_aead) with
      | None => dbg_inc DBG_BSSL_AEAD_NULL;; mret None
      | Some aead =>
          let aeskey := aead + aead_to_aeskey in
          match probe_read t aeskey (Z.to_nat BSSL_AES_RDKEY_BYTES) with
          | None => dbg_inc DBG_BSSL_RDKEY_FAIL;; mret None
          | Some rd_key =>
              match probe_word t (aeskey + BSSL_AESKEY_ROUNDS_OFF) 4 with
              | None => dbg_inc DBG_BSSL_RDKEY_FAIL;; mret None
              | Some rounds =>
                  match aes_recover_h rd_key rounds with
                  | None => dbg_inc DBG_BSSL_ROUNDS_BAD;; mret None
                  | Some h =>
                      if h_nonzero h then mret (Some h) else dbg_inc DBG_BSSL_HZERO;; mret None
                  end
              end
          end
      end
  end.

(** *** Per-binary offsets: the binary's entry, or the one under inode 0, that
    passes the caller's test *)

Definition lookup_offsets (bad : tls_offsets → bool) (t : task) (m : gmap tls_binary_key tls_offsets)
    : option tls_offsets :=
  let fallback :=
    match m !! (cgroup_id t, 0) with
    | Some o => if bad o then None else Some o
    | None => None
    end in
  match m !! (cgroup_id t, exe_inode t) with
  | Some o => if bad o then fallback else Some o
  | None => fallback
  end.

Definition SSL_WBIO_OFFSET_FALLBACK : Z := 88.
Definition BIO_NUM_OFFSET : Z := 56.

Definition resolve_wbio_offset (t : task) : M Z :=
  m ← gets k_tls_offset_config;
  mret (match lookup_offsets (λ o, ssl_to_wbio o =? 0) t m with
        | Some o => ssl_to_wbio o
        | None => SSL_WBIO_OFFSET_FALLBACK
        end).

Definition ssl_read_fd (t : task) (ssl_ptr : Z) : M Z :=
  if ssl_ptr =? 0 then mret 0
  else
    wbio_off ← resolve_wbio_offset t;
    mret (match probe_ptr t (ssl_ptr + wbio_off) with
          | None => 0
          | Some wbio => default 0 (probe_word t (wbio + BIO_NUM_OFFSET) 4)
          end).

(** *** EVP_CipherInit_ex *)

Definition evp_init_scratch_max_entries : Z := 1024.

(** [evp_ctx_ptr]: the first argument. *)
Definition bpf_uprobe_evp_cipher_init (t : task) (evp_ctx_ptr : Z) : M unit :=
  tracked ← gets (λ s, k_tracked_cgroups s !! cgroup_id t);
  match tracked with
  | None => pass
  | Some _ =>
      if evp_ctx_ptr =? 0 then pass
      else
        modify (λ s, s <| k_evp_init_scratch :=
          snd (hash_update evp_init_scratch_max_entries (pid_tgid t) evp_ctx_ptr (k_evp_init_scratch s)) |>);;
        dbg_inc DBG_EVP_INIT_ENTRY
  end.

Definition bpf_uretprobe_evp_cipher_init (t : task) : M unit :=
  ctx ← gets (λ s, k_evp_init_scratch s !! pid_tgid t);
  match ctx with
  | None => pass
  | Some evp_ctx_ptr =>
      modify (λ s, s <| k_evp_init_scratch := delete (pid_tgid t) (k_evp_init_scratch s) |>);;
      m ← gets k_tls_offset_config;
      match lookup_offsets (λ o, enc_ctx_to_algctx o =? 0) t m with
      | None => dbg_inc DBG_EVP_INIT_CHAIN_FAIL
      | Some offsets =>
          match probe_ptr t (evp_ctx_ptr + enc_ctx_to_algctx offsets) with
          | None => dbg_inc DBG_EVP_INIT_CHAIN_FAIL
          | Some algctx =>
              let key := (tgid_of t, evp_ctx_ptr) in
              '(src, h) ← ossl_read_gcm_h t algctx offsets;
              if negb (OSSL_H_OK src) then
                dbg_inc (if src =? OSSL_H_READ_FAIL then DBG_EVP_INIT_CHAIN_FAIL else DBG_EVP_INIT_H_ZERO);;
                when (src =? OSSL_H_NOT_GCM)
                  (modify (λ s, s <| k_evp_h_cache := delete key (k_evp_h_cache s) |>))
              else
                modify (λ s, s <| k_evp_h_cache :=
                  <[key := {| evp_ghash_h := h; evp_cipher_type := KLOAK_CIPHER_AES_GCM;
                              evp_nonce_len := 0xFF |}]> (k_evp_h_cache s) |>);;
                dbg_inc DBG_EVP_INIT_H_OK
          end
      end
  end.

(** *** bpf_h_extract *)

(** SSL → wrl → enc_ctx, or SSL → enc_ctx. *)
Definition walk_enc_ctx (t : task) (ssl_ptr : Z) (o : tls_offsets) : option Z :=
  if 0 <? wrl_to_enc_ctx o then
    match probe_ptr t (ssl_ptr + ssl_to_wrl o) with
    | None => None
    | Some wrl => probe_ptr t (wrl + wrl_to_enc_ctx o)
    end
  else probe_ptr t (ssl_ptr + ssl_to_wrl o).

(** The nonce length from the connection's TLS version. *)
Definition version_nonce (t : task) (ssl_ptr : Z) (o : tls_offsets) : Z :=
  if ssl_to_version o =? 0xFFFFFFFF then 0xFF
  else if 0x0304 <=? probe_word_z t (ssl_ptr + ssl_to_version o) 4 then 0 else 8.

(** H and the cipher type for [enc_ctx]: from the cache, or read live and then
    cached. *)
Definition h_of_enc_ctx (t : task) (enc_ctx : Z) (o : tls_offsets) : M (option (bytes * Z)) :=
  let key := (tgid_of t, enc_ctx) in
  cached ← gets (λ s, k_evp_h_cache s !! key);
  match cached with
  | Some v => dbg_inc DBG_H_EXTRACT_CACHE_HIT;; mret (Some (evp_ghash_h v, u8 (evp_cipher_type v)))
  | None =>
      match probe_ptr t (enc_ctx + enc_ctx_to_algctx o) with
      | None => dbg_inc DBG_H_EXTRACT_CACHE_MISS;; mret None
      | Some algctx =>
          '(src, h) ← ossl_read_gcm_h t algctx o;
          if negb (OSSL_H_OK src) then dbg_inc DBG_H_EXTRACT_CACHE_MISS;; mret None
          else
            modify (λ s, s <| k_evp_h_cache :=
              <[key := {| evp_ghash_h := h; evp_cipher_type := KLOAK_CIPHER_AES_GCM;
                          evp_nonce_len := 0xFF |}]> (k_evp_h_cache s) |>);;
            dbg_inc DBG_H_EXTRACT_LIVE_WALK;;
            mret (Some (h, KLOAK_CIPHER_AES_GCM))
      end
  end.

(** [true]: it tail-calls [bpf_xor_path]. *)
Definition bpf_h_extract (t : task) : M bool :=
  ssl_ptr ← gets (λ s, sd_ssl_ptr (k_scratch s));
  if ssl_ptr =? 0 then mret false
  else
    m ← gets k_tls_offset_config;
    match lookup_offsets (λ o, ssl_to_wrl o =? 0) t m with
    | None => dbg_inc DBG_H_EXTRACT_CACHE_MISS;; mret false
    | Some offsets =>
        match walk_enc_ctx t ssl_ptr offsets with
        | None => dbg_inc DBG_H_EXTRACT_CACHE_MISS;; mret false
        | Some enc_ctx =>
            r ← h_of_enc_ctx t enc_ctx offsets;
            match r with
            | None => mret false
            | Some (h, ctype) =>
                let new_conn :=
                  {| ghash_h := h; cipher_type := ctype; nonce_len := version_nonce t ssl_ptr offsets |} in
                modify (λ s, s <| k_tls_conn_state :=
                  <[(tgid_of t, ssl_ptr) := new_conn]> (k_tls_conn_state s) |>);;
                dbg_inc DBG_XOR_CONN_HIT;;
                modify (λ s, s <| k_scratch := (k_scratch s) <| h_fresh := true |> |>);;
                mret true
            end
        end
    end.

End HExtract.

Module HFacts.
Import HExtract Field GF128Facts Fips197 AesFacts.

(** Sixteen bytes as two little-endian words: the low one first, or the high
    one first. *)
Definition words_lo_hi (lo hi : Z) : bytes := rev (be_bytes 8 lo) ++ rev (be_bytes 8 hi).

Lemma length_words lo hi : length (words_lo_hi lo hi) = 16%nat.
Proof. unfold words_lo_hi. by rewrite length_app, !length_rev, !length_be_bytes. Qed.

Lemma slice_words lo hi : 0 ≤ lo < 2 ^ 64 → 0 ≤ hi < 2 ^ 64 →
  slice (words_lo_hi lo hi) 0 8 = rev (be_bytes 8 lo) ∧
  slice (words_lo_hi lo hi) 8 8 = rev (be_bytes 8 hi).
Proof.
  intros _ _. unfold slice, words_lo_hi. split.
  - rewrite drop_0. apply take_app_length'. by rewrite length_rev, length_be_bytes.
  - rewrite drop_app_length' by (by rewrite length_rev, length_be_bytes).
    apply take_ge. by rewrite length_rev, length_be_bytes.
Qed.

Lemma le_words lo hi : 0 ≤ lo < 2 ^ 64 → 0 ≤ hi < 2 ^ 64 →
  le_val (slice (words_lo_hi lo hi) 0 8) = lo ∧ le_val (slice (words_lo_hi lo hi) 8 8) = hi.
Proof.
  intros Hl Hh. destruct (slice_words lo hi Hl Hh) as [-> ->]. unfold le_val.
  rewrite !rev_involutive, !be_val_be_bytes. change (256 ^ Z.of_nat 8) with (2 ^ 64).
  by rewrite !Z.mod_small.
Qed.

(** OpenSSL's layouts of H, the number [n] of the GHASH field: GCM128_CONTEXT.H
    holds its native halves, high half first; Htable[15] of the AVX-512 code
    holds the doubled value, low half first. *)
Definition raw_h (n : Z) : bytes := words_lo_hi (n / 2 ^ 64) (n mod 2 ^ 64).
Definition hash_key_1 (n : Z) : bytes := words_lo_hi (double_h n mod 2 ^ 64) (double_h n / 2 ^ 64).

Lemma half_range n : 0 ≤ n < 2 ^ 128 → 0 ≤ n / 2 ^ 64 < 2 ^ 64 ∧ 0 ≤ n mod 2 ^ 64 < 2 ^ 64.
Proof.
  intros Hn. split; [|apply Z.mod_pos_bound; lia].
  split; [apply Z.div_pos; lia|]. apply Z.div_lt_upper_bound; [lia|].
  change (2 ^ 64 * 2 ^ 64) with (2 ^ 128). lia.
Qed.

Lemma raw_h_ok n : elt n → n ≠ 0 →
  h_nonzero (raw_h n) = true ∧ block (bswap_halves (raw_h n)) ∧ be_val (bswap_halves (raw_h n)) = n.
Proof.
  intros Hn H0. destruct (half_range n Hn) as [Hh Hl]. unfold raw_h.
  destruct (le_words _ _ Hh Hl) as [E1 E2]. destruct (slice_words _ _ Hh Hl) as [S1 S2].
  pose proof (Z.div_mod n (2 ^ 64) ltac:(lia)) as Hd.
  split; [|unfold bswap_halves; rewrite S1, S2, !rev_involutive].
  - unfold h_nonzero. rewrite E1, E2. destruct (Z.eqb_spec (Z.lor (n / 2 ^ 64) (n mod 2 ^ 64)) 0) as [E|]; [|done].
    apply Z.lor_eq_0_iff in E. lia.
  - rewrite <- !be64_bytes_be_bytes. destruct (pair_bytes_val _ _ Hh Hl) as [Hb ->]. split; [done|lia].
Qed.

Lemma double_range n : elt n → 0 ≤ double_h n < 2 ^ 128.
Proof.
  intros Hn. unfold double_h. apply lxor_range; [lia|apply Z.mod_pos_bound; lia|].
  destruct (Z.testbit n 127); [|lia]. split; vm_compute; congruence.
Qed.

Lemma hash_key_1_ok n : elt n → n ≠ 0 →
  let m := hash_key_1 n in
  let h := gf128_halve_to_h (le_val (slice m 0 8)) (le_val (slice m 8 8)) in
  h_nonzero m = true ∧ block h ∧ be_val h = n.
Proof.
  intros Hn H0. cbv zeta. unfold hash_key_1.
  destruct (half_range (double_h n) (double_range n Hn)) as [Hh Hl].
  destruct (le_words _ _ Hl Hh) as [E1 E2]. unfold h_nonzero. rewrite E1, E2.
  destruct (halve_double n Hn) as [Hb Ev]. split; [|done].
  destruct (Z.eqb_spec (Z.lor (double_h n mod 2 ^ 64) (double_h n / 2 ^ 64)) 0) as [E|]; [|done].
  exfalso. apply Z.lor_eq_0_iff in E as [Ea Eb]. rewrite Ea, Eb in Ev. apply H0.
  rewrite <- Ev. vm_compute. reflexivity.
Qed.

(** What OpenSSL lays out. The 8 bytes of a pointer to [a]; where the offsets are
    known, a context is keyed when its gcm.key points at its own key schedule. *)
Definition pointer_to (a : Z) : bytes := rev (be_bytes 8 a).
Definition calibrated (o : tls_offsets) : Prop := ossl_algctx_to_gcm_key o ≠ 0 ∧ ossl_algctx_to_ks o ≠ 0.
Definition keyed (t : task) (algctx : Z) (o : tls_offsets) : Prop :=
  calibrated o → probe_read t (algctx + ossl_algctx_to_gcm_key o) 8 = Some (pointer_to (algctx + ossl_algctx_to_ks o)).
(** HashKey_1 is looked for. *)
Definition has_hkey1 (t : task) (o : tls_offsets) : Prop := x86 t = true ∧ calibrated o ∧ ossl_algctx_to_vaes_hkey1 o ≠ 0.

(** The provider context at [algctx] is a keyed GCM context with subkey [n]: it holds
    H raw, or (on x86-64, the field H left zero) as HashKey_1. *)
Definition gcm_ctx (t : task) (algctx : Z) (o : tls_offsets) (n : Z) : Prop :=
  keyed t algctx o ∧
  (probe_read t (algctx + algctx_to_h o) 16 = Some (raw_h n) ∨
   (probe_read t (algctx + algctx_to_h o) 16 = Some (zeros 16) ∧ has_hkey1 t o ∧
    probe_read t (algctx + ossl_algctx_to_vaes_hkey1 o) 16 = Some (hash_key_1 n))).

Lemma le_pointer a : le_val (pointer_to a) = u64 a.
Proof. unfold le_val, pointer_to. by rewrite rev_involutive, be_val_be_bytes. Qed.
Lemma pointer_ok a : bytes_ok (pointer_to a).
Proof. apply Forall_rev, be_bytes_ok. Qed.

Lemma calibrated_gate o : reflect (calibrated o) (negb (ossl_algctx_to_gcm_key o =? 0) && negb (ossl_algctx_to_ks o =? 0)).
Proof.
  unfold calibrated. destruct (Z.eqb_spec (ossl_algctx_to_gcm_key o) 0), (Z.eqb_spec (ossl_algctx_to_ks o) 0); constructor; tauto.
Qed.

Lemma gate_keyed t algctx o : keyed t algctx o → ossl_gate t algctx o = None.
Proof.
  unfold ossl_gate, keyed, probe_word. destruct (calibrated_gate o) as [Hc|]; [|done]. intros H. rewrite (H Hc). cbn [fmap option_fmap option_map].
  by rewrite le_pointer, Z.eqb_refl.
Qed.

(** The gate refuses every other context. *)
Lemma gate_spec t algctx o : mem_ok t →
  match ossl_gate t algctx o with
  | None => keyed t algctx o
  | Some r => calibrated o ∧
      match probe_read t (algctx + ossl_algctx_to_gcm_key o) 8 with
      | None => r = OSSL_H_READ_FAIL
      | Some m => r = OSSL_H_NOT_GCM ∧ m ≠ pointer_to (algctx + ossl_algctx_to_ks o)
      end
  end.
Proof.
  intros Hm. unfold ossl_gate, keyed, probe_word. destruct (calibrated_gate o) as [Hc|]; [|done].
  destruct (probe_read _ _ 8) as [m|] eqn:E; cbn [fmap option_fmap option_map]; [|done]. destruct (probe_read_ok _ _ _ _ Hm E) as [Hb Hl].
  destruct (Z.eqb_spec (le_val m) (u64 (algctx + ossl_algctx_to_ks o))) as [Ev|Hne].
  - intros _. f_equal. apply le_val_inj; [done|apply pointer_ok| |by rewrite le_pointer]. unfold pointer_to. by rewrite length_rev, length_be_bytes.
  - split; [done|]. split; [done|]. intros ->. apply Hne, le_pointer.
Qed.

Lemma nonzero_iff m : bytes_ok m → length m = 16%nat → h_nonzero m = true ↔ m ≠ zeros 16.
Proof.
  intros Hb Hl. unfold h_nonzero. rewrite negb_true_iff, Z.eqb_neq, Z.lor_eq_0_iff. split; [intros H ->; by apply H|]. intros Hne [E1 E2]. apply Hne.
  assert (Hs : ∀ i, (i + 8 ≤ 16)%nat → le_val (slice m (Z.of_nat i) 8) = 0 → slice m (Z.of_nat i) 8 = zeros 8).
  { intros i Hi E. apply le_val_inj; [by apply slice_ok|apply bytes_ok_zeros| |done]. rewrite length_slice by (unfold zlen; lia). done. }
  rewrite <- (take_drop 8 m). change (zeros 16) with (zeros 8 ++ zeros 8). f_equal.
  - specialize (Hs 0%nat ltac:(lia) E1). unfold slice in Hs. exact Hs.
  - specialize (Hs 8%nat ltac:(lia) E2). unfold slice in Hs. rewrite <- Hs. symmetry. apply take_ge. rewrite length_drop. lia.
Qed.

Lemma read_gcm_h_ok t algctx o n s : elt n → n ≠ 0 → gcm_ctx t algctx o n →
  ∃ r h, fst (ossl_read_gcm_h t algctx o s) = (r, h) ∧ OSSL_H_OK r = true ∧ block h ∧ be_val h = n.
Proof.
  intros Hn H0 [Hg%gate_keyed [Hr|(Hz & (Hx & Hc & G3) & Hk)]]; unfold ossl_read_gcm_h; mrun; rewrite Hg.
  - rewrite Hr. destruct (raw_h_ok n Hn H0) as (-> & Hb & Hv). cbn [fst]. by eexists _, _.
  - rewrite Hz, Hx, Hk. change (h_nonzero (zeros 16)) with false. cbv iota.
    destruct (calibrated_gate o); [|done]. apply Z.eqb_neq in G3 as ->. cbn [negb andb].
    destruct (hash_key_1_ok n Hn H0) as (-> & Hb & Hv). unfold dbg_inc. mrun. cbn [fst]. by eexists _, _.
Qed.

(** The walk yields a key from a keyed context with a slot that is not zero, and from
    no other; a pointer that was read and is wrong is reported as such, and only it. *)
Lemma read_gcm_h_iff t algctx o s : mem_ok t →
  let r := fst (fst (ossl_read_gcm_h t algctx o s)) in
  (OSSL_H_OK r = true ↔ keyed t algctx o ∧ ∃ m, probe_read t (algctx + algctx_to_h o) 16 = Some m ∧
     (m ≠ zeros 16 ∨ has_hkey1 t o ∧ ∃ m', probe_read t (algctx + ossl_algctx_to_vaes_hkey1 o) 16 = Some m' ∧ m' ≠ zeros 16)) ∧
  (r = OSSL_H_NOT_GCM ↔ calibrated o ∧ ∃ m, probe_read t (algctx + ossl_algctx_to_gcm_key o) 8 = Some m ∧
     m ≠ pointer_to (algctx + ossl_algctx_to_ks o)).
Proof.
  intros Hm. cbn zeta. unfold ossl_read_gcm_h, dbg_inc. mrun. pose proof (gate_spec t algctx o Hm) as Hg.
  destruct (ossl_gate t algctx o) as [r|].
  { assert (Hk : ¬ keyed t algctx o).
    { destruct Hg as [Hc Hg]. intros Hk. rewrite (Hk Hc) in Hg. by destruct Hg. }
    destruct Hg as [Hc Hg]. destruct (probe_read t (algctx + ossl_algctx_to_gcm_key o) 8) as [m|] eqn:E;
      [destruct Hg as [-> Hne]|subst r]; (split; [split; [done|by intros [? _]]|]).
    - split; [intros _; split; [done|by exists m]|done].
    - split; [done|intros (_ & m & ? & _); congruence]. }
  assert (Hnot : ¬ (calibrated o ∧ ∃ m, probe_read t (algctx + ossl_algctx_to_gcm_key o) 8 = Some m ∧ m ≠ pointer_to (algctx + ossl_algctx_to_ks o))).
  { intros (Hc & m & E & Hne). rewrite (Hg Hc) in E. congruence. }
  destruct (probe_read t (algctx + algctx_to_h o) 16) as [m|] eqn:E1.
  2:{ split; [split; [done|intros (_ & m & ? & _); congruence]|split; [done|by intros ?%Hnot]]. }
  destruct (probe_read_ok _ _ _ _ Hm E1) as [Hb Hl]. pose proof (nonzero_iff m Hb Hl) as Hz. destruct (h_nonzero m).
  { split; [split; [intros _; split; [done|]; exists m; split; [done|left; by apply (proj1 Hz)]|done]|split; [done|by intros ?%Hnot]]. }
  assert (Em : m = zeros 16) by (apply dec_stable; intros Hne; discriminate (proj2 Hz Hne)).
  assert (Hh : has_hkey1 t o ↔ x86 t && (negb (ossl_algctx_to_gcm_key o =? 0) && negb (ossl_algctx_to_ks o =? 0)) && negb (ossl_algctx_to_vaes_hkey1 o =? 0) = true).
  { unfold has_hkey1. rewrite !(andb_true_iff _ (negb (ossl_algctx_to_vaes_hkey1 o =? 0))), negb_true_iff, Z.eqb_neq, (andb_true_iff (x86 t)).
    destruct (calibrated_gate o); intuition done. }
  destruct (_ && _ && _).
  2:{ split; [|split; [done|by intros ?%Hnot]]. split; [done|]. intros (_ & m1 & [= <-] & [?|[?%Hh _]]); done. }
  destruct (probe_read t (algctx + ossl_algctx_to_vaes_hkey1 o) 16) as [m'|] eqn:E2.
  2:{ split; [|split; [done|by intros ?%Hnot]]. split; [done|]. intros (_ & m1 & [= <-] & [?|(_ & m2 & ? & _)]); [done|congruence]. }
  destruct (probe_read_ok _ _ _ _ Hm E2) as [Hb' Hl']. pose proof (nonzero_iff m' Hb' Hl') as Hz'. destruct (h_nonzero m').
  - mrun. split; [|split; [done|by intros ?%Hnot]]. split; [|done]. intros _. split; [done|]. exists m. split; [done|]. right. split; [by apply Hh|].
    exists m'. split; [done|by apply (proj1 Hz')].
  - split; [|split; [done|by intros ?%Hnot]]. split; [done|]. intros (_ & m1 & [= <-] & [?|(_ & m2 & [= <-] & ?%Hz')]); done.
Qed.

(** *** BoringSSL *)

(** The write context of the SSL object at [ssl]: the pointers to it, and its
    AES_KEY, the schedule [rk] with [rounds]. *)
Definition bssl_ctx (t : task) (ssl s3_off aead_off key_off : Z) (rk : bytes) (rounds : Z) : Prop :=
  ∃ s3 aead, probe_ptr t (ssl + s3_off) = Some s3 ∧ probe_ptr t (s3 + aead_off) = Some aead ∧
    probe_read t (aead + key_off) 240 = Some rk ∧
    probe_word t (aead + key_off + BSSL_AESKEY_ROUNDS_OFF) 4 = Some rounds.

Lemma bssl_recover_ok t ssl s3_off aead_off key_off rk rounds nr s :
  bssl_ctx t ssl s3_off aead_off key_off rk rounds → bytes_ok rk → length rk = 240%nat →
  (nr = 10%nat ∧ (rounds = 10 ∨ rounds = 9) ∨ nr = 14%nat ∧ (rounds = 14 ∨ rounds = 13)) →
  h_nonzero (cipher nr rk (zeros 16)) = true →
  fst (bssl_recover_h t ssl s3_off aead_off key_off s) = Some (cipher nr rk (zeros 16)).
Proof.
  intros (s3 & aead & E1 & E2 & E3 & E4) Hr Hl Hnr Hnz. unfold bssl_recover_h, dbg_inc. mrun.
  rewrite E1, E2. change (Z.to_nat BSSL_AES_RDKEY_BYTES) with 240%nat. rewrite E3, E4.
  destruct (recover_h_cipher nr rk rounds Hr Hnr) as [-> _]; [unfold zlen; lia|]. by rewrite Hnz.
Qed.

(** *** The claims *)

(** C37: on a keyed GCM context of OpenSSL the walk finds the GHASH subkey,
    wherever the library keeps it. *)
Theorem ossl_read_gcm_h_finds t algctx o n s : elt n → n ≠ 0 → gcm_ctx t algctx o n →
  ∃ r h, fst (ossl_read_gcm_h t algctx o s) = (r, h) ∧ OSSL_H_OK r = true ∧ block h ∧ be_val h = n.
Proof. apply read_gcm_h_ok. Qed.

(** A context at 4096 with gcm.key at 8, its key schedule at 16, H at 32 and Htable[15]
    at 48: keyed, with H left zero, and one whose pointer leads elsewhere. *)
Definition sample_offsets : tls_offsets := Build_tls_offsets 0 0 0 32 0 0 0 0 0 0 8 16 48.
Definition sample_ctx (key : Z) (h hkey1 : bytes) : task := task_with 4096 (zeros 8 ++ pointer_to key ++ zeros 16 ++ h ++ hkey1).

Lemma ossl_read_gcm_h_finds_witness :
  ∃ r h, fst (ossl_read_gcm_h (sample_ctx 4112 (zeros 16) (hash_key_1 (2 ^ 100 + 3))) 4096 sample_offsets kst_init) = (r, h) ∧
    OSSL_H_OK r = true ∧ block h ∧ be_val h = 2 ^ 100 + 3.
Proof.
  apply ossl_read_gcm_h_finds; [split; vm_compute; congruence|vm_compute; congruence|].
  split; [intros _; vm_compute; reflexivity|right]. split; [vm_compute; reflexivity|]. split; [|vm_compute; reflexivity].
  repeat split; vm_compute; congruence.
Defined.

(** C38: the walk yields a key exactly for a keyed context (one whose gcm.key, where the
    offsets are known, points at its own key schedule) in which H, or on x86-64
    HashKey_1 with H left zero, can be read and is not zero; and it reports that a
    context is not a GCM context exactly when the pointer was read and leads elsewhere. *)
Theorem ossl_read_gcm_h_refuses t algctx o s : mem_ok t →
  let r := fst (fst (ossl_read_gcm_h t algctx o s)) in
  (OSSL_H_OK r = true ↔ keyed t algctx o ∧ ∃ m, probe_read t (algctx + algctx_to_h o) 16 = Some m ∧
     (m ≠ zeros 16 ∨ has_hkey1 t o ∧ ∃ m', probe_read t (algctx + ossl_algctx_to_vaes_hkey1 o) 16 = Some m' ∧ m' ≠ zeros 16)) ∧
  (r = OSSL_H_NOT_GCM ↔ calibrated o ∧ ∃ m, probe_read t (algctx + ossl_algctx_to_gcm_key o) 8 = Some m ∧
     m ≠ pointer_to (algctx + ossl_algctx_to_ks o)).
Proof. apply read_gcm_h_iff. Qed.

(** The context whose pointer leads to 4120, though it has bytes at H. *)
Lemma ossl_read_gcm_h_refuses_witness :
  let r := fst (fst (ossl_read_gcm_h (sample_ctx 4120 (raw_h 5) (zeros 16)) 4096 sample_offsets kst_init)) in
  OSSL_H_OK r ≠ true ∧ r = OSSL_H_NOT_GCM.
Proof.
  destruct (ossl_read_gcm_h_refuses (sample_ctx 4120 (raw_h 5) (zeros 16)) 4096 sample_offsets kst_init) as [H1 H2].
  { apply task_with_mem_ok. by_compute. }
  split.
  - intros [Hk _]%H1. assert (E : calibrated sample_offsets) by (split; vm_compute; congruence). specialize (Hk E). revert Hk. vm_compute. congruence.
  - apply H2. split; [split; vm_compute; congruence|]. eexists. split; [vm_compute; reflexivity|]. vm_compute. congruence.
Defined.

(** C40: On a BoringSSL write context the walk returns the subkey of the AES-128
    or AES-256 schedule it finds there. *)
Theorem bssl_recover_h_correct t ssl s3_off aead_off key_off rk rounds nr s :
  bssl_ctx t ssl s3_off aead_off key_off rk rounds → bytes_ok rk → length rk = 240%nat →
  (nr = 10%nat ∧ (rounds = 10 ∨ rounds = 9) ∨ nr = 14%nat ∧ (rounds = 14 ∨ rounds = 13)) →
  h_nonzero (cipher nr rk (zeros 16)) = true →
  fst (bssl_recover_h t ssl s3_off aead_off key_off s) = Some (cipher nr rk (zeros 16)).
Proof. apply bssl_recover_ok. Qed.

(** An SSL object at 4096 whose pointers lead to a schedule of AES-256. *)
Definition sample_bssl : bytes :=
  rev (be_bytes 8 4104) ++ rev (be_bytes 8 4112) ++ zeros 239 ++ [1] ++ rev (be_bytes 4 14).

Lemma bssl_recover_h_correct_witness :
  fst (bssl_recover_h (task_with 4096 sample_bssl) 4096 0 0 0 kst_init) =
    Some (cipher 14 (zeros 239 ++ [1]) (zeros 16)).
Proof.
  apply (bssl_recover_h_correct _ _ _ _ _ _ 14).
  - exists 4104, 4112. split_and!; vm_compute; reflexivity.
  - by_compute.
  - reflexivity.
  - right. split; [reflexivity|left; reflexivity].
  - vm_compute. reflexivity.
Defined.

End HFacts.
