(* ===== verification/XorPath.v ===== *)
(** * From a TLS write to pending patches (pkg/ebpf/bpf/tls_uprobe.c)

    [XorPath]: the scan of a write for placeholders ([prescan_chunk] driven by
    bpf_loop), [bpf_xor_path], which turns the matches into XOR patches one tail
    call at a time, and the Go and SSL_write uprobes.
    [PrescanFacts]: the scan finds exactly the first four placeholders.
    [XorPathFacts]: the patches stored are those of the matches whose secret
    exists and may be redeemed, with the bytes that turn the placeholder into
    the secret. *)

From S2P Require Import Prelude Host State Hooks HExtract.
Import Host Types Kernel Hooks HExtract.

Module XorPath.

(** *** The prescan *)

Definition set_match (i : Z) (m : xor_match) (l : list xor_match) : list xor_match := <[Z.to_nat i := m]> l.
Definition nth_match (l : list xor_match) (i : Z) : xor_match :=
  nth (Z.to_nat i) l {| m_pos := 0; m_key := zeros 8 |}.

(** [for (i = 0; i < MAX_DATA_SIZE && i < scan_limit; i++)]: [fuel] iterations
    from [i]. *)
Fixpoint prescan_scan (fuel : nat) (i scan_limit offset : Z) : M unit :=
  match fuel with
  | O => pass
  | S fuel' =>
      if scan_limit <=? i then pass
      else
        sd ← gets k_scratch;
        if XOR_MAX_MATCHES <=? xor_match_count sd then pass
        else
          let si := Z.land i (MAX_DATA_SIZE - 1) in
          let buf := drop (Z.to_nat si) (sd_data sd) in
          when (is_kloak_prefix buf || is_kloak_prefix_huffman buf)
            (let idx := xor_match_count sd in
             let m := {| m_pos := offset +32 i; m_key := take 8 buf |} in
             modify (λ s, s <| k_scratch :=
               sd <| xor_matches := set_match (Z.land idx (XOR_MAX_MATCHES - 1)) m (xor_matches sd) |>
                  <| xor_match_count := idx +32 1 |> |>);;
             dbg_inc DBG_XOR_PRESCAN_MATCH);;
          prescan_scan fuel' (i + 1) scan_limit offset
  end.

(** The callback; [udp] and [total_len] are its context. *)
Definition prescan_chunk (t : task) (udp total_len : Z) (chunk_idx : Z) : M bool :=
  let offset := chunk_idx *32 CHUNK_STRIDE in
  if total_len <=? offset then mret true
  else
    sd ← gets k_scratch;
    if XOR_MAX_MATCHES <=? xor_match_count sd then mret true
    else
      let read_len := total_len -32 offset in
      let read_len := if MAX_DATA_SIZE <? read_len then MAX_DATA_SIZE else read_len in
      let data := probe_read_z t (udp + offset) (Z.to_nat read_len) in
      modify (λ s, s <| k_scratch := sd <| sd_data := splice (sd_data sd) 0 data |> |>);;
      let scan_limit := if SECRET_KEY_LEN <=? read_len then read_len - SECRET_KEY_LEN + 1 else 0 in
      prescan_scan (Z.to_nat MAX_DATA_SIZE) 0 scan_limit offset;;
      mret false.

Definition prescan (t : task) (udp total_len : Z) : M unit :=
  let num_chunks := (total_len +32 (CHUNK_STRIDE - 1)) / CHUNK_STRIDE in
  λ s, ((), bpf_loop num_chunks (prescan_chunk t udp total_len) s).

(** *** bpf_xor_path *)

Definition xor_pending_max_entries : Z := 4096.

(** The first invocation's reset of the staging area. *)
Definition staged_init (t : task) (sd : scratch_buf) (conns : gmap tls_conn_key tls_conn_state) : xor_pending_val :=
  let x := xor_pending_zero <| xp_ssl_ptr := sd_ssl_ptr sd |> <| xp_tgid := tgid_of t |>
             <| xp_active := true |> <| xp_chain_type := sd_chain_type sd |>
             <| xp_plaintext_len := total_data_len sd |> <| xp_memory_bio := sd_memory_bio sd |>
             <| created_at := ktime_ns t |> in
  if negb (sd_chain_type sd =? CHAIN_GO_TLS) && h_fresh sd then
    match conns !! (tgid_of t, sd_ssl_ptr sd) with
    | Some conn =>
        if cipher_type conn =? KLOAK_CIPHER_AES_GCM then
          x <| xp_ghash_h := ghash_h conn |> <| xp_cipher_type := cipher_type conn |>
            <| xp_nonce_len := nonce_len conn |> <| h_valid := true |>
        else x
    | None => x
    end
  else x.

Definition xor_init_staged (t : task) (sd : scratch_buf) : M unit :=
  conns ← gets k_tls_conn_state;
  modify (λ s, s <| k_ghash_scratch := (k_ghash_scratch s) <| staged_pending := staged_init t sd conns |> |>).

(** [for (j = 0; j < SECRET_MAX_LEN && j < delta_len; j++) ct_buf[j] ^= real_secret[j]] *)
Definition xor_prefix (buf real : bytes) (n : Z) : bytes :=
  imap (λ j b, if Z.of_nat j <? n then Z.lxor b (real.[Z.of_nat j]) else b) buf.

(** The store of a patch in the staging area. *)
Definition xor_stage_patch (p : xor_patch) : M unit :=
  modify (λ s,
    let w := k_ghash_scratch s in
    let x := staged_pending w in
    let pi := xp_patch_count x in
    if pi <? XOR_MAX_PATCHES then
      s <| k_ghash_scratch := w <| staged_pending :=
        x <| xp_patches := set_patch (Z.land pi (XOR_MAX_PATCHES - 1)) p (xp_patches x) |>
          <| xp_patch_count := pi +32 1 |> |> |>
    else s).

(** One match: up to the label [next]. *)
Definition xor_match_patch (t : task) (sd : scratch_buf) (m : xor_match) : M unit :=
  secrets ← gets k_secret_map;
  match secrets !! m_key m with
  | None => pass
  | Some val =>
      if (sv_len val =? 0) || (SECRET_MAX_LEN <? sv_len val) then pass
      else
        allowed ← secret_binding_allows t (m_key m);
        if negb allowed then pass
        else
          dbg_inc DBG_XOR_SECRET_FOUND;;
          let delta_len := clamp_write_len (sv_len val) in
          let shadow := probe_read_z t (user_data_ptr sd + m_pos m) (Z.to_nat SECRET_MAX_LEN) in
          let buf := xor_prefix shadow (real_secret val) delta_len in
          modify (λ s, s <| k_ghash_scratch := (k_ghash_scratch s) <| ct_buf := buf |> |>);;
          xor_stage_patch
            {| secret_offset := m_pos m; secret_len := sv_len val; xor_delta := buf; p_key := m_key m |}
  end.

(** The end of the last invocation. *)
Definition xor_finish (t : task) : M unit :=
  w ← gets k_ghash_scratch;
  if xp_patch_count (staged_pending w) =? 0 then pass
  else
    modify (λ s, s <| k_xor_pending :=
      snd (hash_update xor_pending_max_entries (tgid_of t) (staged_pending w) (k_xor_pending s)) |>);;
    dbg_inc DBG_XOR_DELTA_DONE.

(** One invocation; [true]: it tail-calls itself. *)
Definition bpf_xor_path (t : task) : M bool :=
  sd ← gets k_scratch;
  let mi := xor_current_match sd in
  if (xor_match_count sd <=? mi) || (XOR_MAX_MATCHES <=? mi) then mret false
  else
    when (mi =? 0) (xor_init_staged t sd);;
    dbg_inc DBG_XOR_PATH_ENTERED;;
    xor_match_patch t sd (nth_match (xor_matches sd) (Z.land mi (XOR_MAX_MATCHES - 1)));;
    modify (λ s, s <| k_scratch := (k_scratch s) <| xor_current_match := mi +32 1 |> |>);;
    if (mi + 1 <? xor_match_count sd) && (mi + 1 <? XOR_MAX_MATCHES) && prog_loaded t 1
    then mret true
    else xor_finish t;; mret false.

(** The chain of tail calls: the kernel allows [MAX_TAIL_CALL_CNT]. *)
Definition MAX_TAIL_CALL_CNT : nat := 33.
Fixpoint xor_path_run (fuel : nat) (t : task) : M unit :=
  match fuel with
  | O => pass
  | S fuel' =>
      again ← bpf_xor_path t;
      when again (xor_path_run fuel' t)
  end.

(** *** The uprobes *)

(** What both write uprobes store before the scan. *)
Definition write_scratch (t : task) (data_ptr read_len total ssl_ptr chain : Z) (membio : bool) : M unit :=
  modify (λ s, s <| k_scratch := (k_scratch s)
    <| sd_data := splice (sd_data (k_scratch s)) 0 (probe_read_z t data_ptr (Z.to_nat read_len)) |>
    <| user_data_ptr := data_ptr |> <| State.Types.read_len := read_len |> <| total_data_len := total |>
    <| sd_memory_bio := membio |> |>);;
  dbg_inc DBG_XOR_CONN_CHECK;;
  modify (λ s, s <| k_scratch := (k_scratch s)
    <| sd_ssl_ptr := ssl_ptr |> <| sd_chain_type := chain |> <| h_fresh := false |>
    <| xor_match_count := 0 |> <| xor_current_match := 0 |> |>).

(** [conn_ptr], [data_ptr], [data_len]: the Go ABI's receiver, data and length
    registers. *)
Definition bpf_uprobe_go_tls_write (t : task) (conn_ptr data_ptr data_len : Z) : M unit :=
  if (data_ptr =? 0) || (data_len =? 0) then pass
  else
    let read_len := u32 data_len in
    let read_len := if MAX_DATA_SIZE <? read_len then MAX_DATA_SIZE else read_len in
    write_scratch t data_ptr read_len (u32 data_len) conn_ptr CHAIN_GO_TLS false;;
    prescan t data_ptr (u32 data_len);;
    when (prog_loaded t 1) (xor_path_run MAX_TAIL_CALL_CNT t).

(** [num] is a signed int. *)
Definition bpf_uprobe_ssl_write (t : task) (ssl_ptr data_ptr num : Z) : M unit :=
  tracked ← gets (λ s, k_tracked_cgroups s !! cgroup_id t);
  match tracked with
  | None => pass
  | Some _ =>
      bio_fd ← ssl_read_fd t ssl_ptr;
      conn ← gets (λ s, k_conn_ip_map s !! (tgid_of t, bio_fd));
      if negb (bio_fd =? 0) && negb (bool_decide (is_Some conn)) then pass
      else if (data_ptr =? 0) || (num <=? 0) then pass
      else
        let read_len := if MAX_DATA_SIZE <? num then MAX_DATA_SIZE else num in
        write_scratch t data_ptr read_len num ssl_ptr 0 (bio_fd =? 0);;
        prescan t data_ptr num;;
        strat ← gets (λ s, k_tls_strategy s !! tgid_of t);
        if bool_decide (strat = Some STRATEGY_LIBCRYPTO_HOOK) then
          when (prog_loaded t 2)
            (again ← bpf_h_extract t;
             when (again && prog_loaded t 1) (xor_path_run (pred MAX_TAIL_CALL_CNT) t))
        else when (prog_loaded t 1) (xor_path_run MAX_TAIL_CALL_CNT t)
  end.

End XorPath.

(** ** The prescan finds the first four placeholders *)

Module PrescanFacts.
Import XorPath.

(** A placeholder starts at [p]: its prefix, plain or HPACK-Huffman coded, and
    room for its key. *)
Definition placeholder_at (d : bytes) (p : nat) : bool :=
  is_kloak_prefix (drop p d) || is_kloak_prefix_huffman (drop p d).
Definition match_at (d : bytes) (p : nat) : xor_match :=
  {| m_pos := Z.of_nat p; m_key := take 8 (drop p d) |}.

(** The positions, in order. *)
Definition placeholders (d : bytes) : list nat := filter (λ p, placeholder_at d p) (seq 0 (length d - 7)).

(** The matches found: their number and the array that holds them. *)
Definition hits (s : kst) : Z * list xor_match :=
  (xor_match_count (k_scratch s), xor_matches (k_scratch s)).

Definition add_hit (d : bytes) (h : Z * list xor_match) (p : nat) : Z * list xor_match :=
  if placeholder_at d p && (fst h <? XOR_MAX_MATCHES)
  then (fst h + 1, set_match (fst h) (match_at d p) (snd h)) else h.

(** The state without what the scan changes: two states that agree on it differ
    at most by the matches, the data buffer and the counters. *)
Definition but_scan (s : kst) : kst :=
  s <| k_scratch := (k_scratch s) <| xor_match_count := 0 |> <| xor_matches := [] |> <| sd_data := [] |> |>
    <| k_debug_counters := λ _, 0 |>.

Lemma prefix_take8 l k : take 8 l = take 8 k →
  is_kloak_prefix l || is_kloak_prefix_huffman l = is_kloak_prefix k || is_kloak_prefix_huffman k.
Proof.
  intros E. unfold is_kloak_prefix, is_kloak_prefix_huffman.
  by rewrite !(byte_at_agree l k 8 _ E) by lia.
Qed.

Lemma add_hit_full d ps h : XOR_MAX_MATCHES ≤ fst h → fold_left (add_hit d) ps h = h.
Proof.
  intros Hf. induction ps as [|p ps IH]; [done|]. cbn [fold_left]. unfold add_hit at 2.
  destruct (Z.ltb_spec (fst h) XOR_MAX_MATCHES); [lia|]. by rewrite andb_false_r.
Qed.

Lemma scan_spec d offset limit fuel : ∀ i s,
  0 ≤ offset → 0 ≤ i → i + Z.of_nat fuel ≤ 256 → limit ≤ i + Z.of_nat fuel → offset + 256 < 2 ^ 32 →
  (∀ j, i ≤ j < limit →
     take 8 (drop (Z.to_nat j) (sd_data (k_scratch s))) = take 8 (drop (Z.to_nat (offset + j)) d)) →
  0 ≤ xor_match_count (k_scratch s) →
  let s' := snd (prescan_scan fuel i limit offset s) in
  but_scan s' = but_scan s ∧
  hits s' = fold_left (add_hit d) (seq (Z.to_nat (offset + i)) (Z.to_nat (limit - i))) (hits s).
Proof.
  induction fuel as [|fuel IH]; intros i s Ho Hi Hf Hl Hoff Hd Hc; cbn zeta.
  { replace (Z.to_nat (limit - i)) with 0%nat by lia. split; [done|done]. }
  cbn [prescan_scan]. destruct (Z.leb_spec limit i).
  { replace (Z.to_nat (limit - i)) with 0%nat by lia. split; [done|done]. }
  mrun. destruct (Z.leb_spec XOR_MAX_MATCHES (xor_match_count (k_scratch s))).
  { split; [done|]. by rewrite add_hit_full. }
  change (MAX_DATA_SIZE - 1) with (2 ^ 8 - 1). rewrite land_mask, Z.mod_small by lia.
  replace (Z.to_nat (limit - i)) with (S (Z.to_nat (limit - (i + 1)))) by lia.
  cbn [seq fold_left]. replace (S (Z.to_nat (offset + i))) with (Z.to_nat (offset + (i + 1))) by lia.
  pose proof (Hd i ltac:(lia)) as Hi8. rewrite (prefix_take8 _ _ Hi8).
  fold (placeholder_at d (Z.to_nat (offset + i))). unfold add_hit at 2.
  assert (Hlt : (fst (hits s) <? XOR_MAX_MATCHES) = true) by (apply Z.ltb_lt; cbn; lia).
  rewrite Hlt, andb_true_r. unfold XOR_MAX_MATCHES in *.
  destruct (placeholder_at d (Z.to_nat (offset + i))).
  - unfold dbg_inc. mrun. change (4 - 1) with (2 ^ 2 - 1).
    rewrite land_mask, (Z.mod_small (xor_match_count (k_scratch s))) by lia.
    rewrite Hi8, (u32_small (offset + i)), (u32_small (xor_match_count _ + 1)) by lia.
    set (s1 := _ <| k_debug_counters := _ |>).
    destruct (IH (i + 1) s1) as [Hs Hh]; try done; try lia.
    { intros j Hj. apply Hd. lia. }
    { change (0 ≤ xor_match_count (k_scratch s) + 1). lia. }
    split.
    + rewrite Hs. reflexivity.
    + rewrite Hh. f_equal. change (hits s1) with (xor_match_count (k_scratch s) + 1,
        set_match (xor_match_count (k_scratch s))
          {| m_pos := offset + i; m_key := take 8 (drop (Z.to_nat (offset + i)) d) |}
          (xor_matches (k_scratch s))).
      unfold hits, match_at. cbn [fst snd]. by rewrite Z2Nat.id by lia.
  - apply IH; try done; try lia. intros j Hj. apply Hd. lia.
Qed.

Lemma drop_take_8 (n i : nat) (l : bytes) : (i + 8 <= n)%nat → take 8 (drop i (take n l)) = take 8 (drop i l).
Proof. intros. rewrite !take_drop_commute, take_take. do 2 f_equal. lia. Qed.

Lemma prescan_scan_data fuel : ∀ i limit offset s,
  sd_data (k_scratch (snd (prescan_scan fuel i limit offset s))) = sd_data (k_scratch s).
Proof.
  induction fuel as [|fuel IH]; intros i limit offset s; [done|]. cbn [prescan_scan].
  destruct (limit <=? i); [done|]. mrun.
  destruct (XOR_MAX_MATCHES <=? _); [done|]. unfold dbg_inc. mrun. destruct (_ || _); rewrite IH; reflexivity.
Qed.

Lemma add_hit_nonneg d ps : ∀ h, 0 ≤ fst h → 0 ≤ fst (fold_left (add_hit d) ps h).
Proof.
  induction ps as [|p ps IH]; intros h Hh; [done|]. cbn [fold_left]. apply IH.
  unfold add_hit. destruct (_ && _); cbn; lia.
Qed.

Lemma chunk_spec t udp d k s :
  mapped t udp d → zlen d < 2 ^ 31 → 0 ≤ k → k * 249 < zlen d → length (sd_data (k_scratch s)) = 256%nat →
  0 ≤ xor_match_count (k_scratch s) < 4 →
  ∃ s', prescan_chunk t udp (zlen d) k s = (false, s') ∧ but_scan s' = but_scan s ∧
    length (sd_data (k_scratch s')) = 256%nat ∧
    hits s' = fold_left (add_hit d)
      (seq (Z.to_nat (k * 249)) (Z.to_nat (Z.min 249 (zlen d - 7 - k * 249)))) (hits s).
Proof.
  intros Hm Hz Hk Hlt Hlen Hc. unfold prescan_chunk. change CHUNK_STRIDE with 249.
  rewrite (u32_small (k * 249)) by lia. destruct (Z.leb_spec (zlen d) (k * 249)); [lia|].
  mrun. unfold XOR_MAX_MATCHES, MAX_DATA_SIZE, SECRET_KEY_LEN.
  destruct (Z.leb_spec 4 (xor_match_count (k_scratch s))); [lia|].
  rewrite u32_small by lia. set (off := k * 249) in *.
  set (rl := if 256 <? zlen d - off then 256 else zlen d - off).
  assert (Hrl : rl = Z.min 256 (zlen d - off)).
  { unfold rl. destruct (Z.ltb_spec 256 (zlen d - off)); lia. }
  clearbody rl. unfold probe_read_z.
  rewrite (probe_read_mapped t udp d off (Z.to_nat rl)) by (done || lia). cbn [default].
  set (rd := take (Z.to_nat rl) (drop (Z.to_nat off) d)).
  assert (Hrd : length rd = Z.to_nat rl).
  { unfold rd. rewrite length_take, length_drop. unfold zlen in *. lia. }
  set (s1 := s <| k_scratch := _ |>).
  set (limit := if 8 <=? rl then rl - 8 + 1 else 0).
  assert (Hlimit : Z.to_nat limit = Z.to_nat (Z.min 249 (zlen d - 7 - off)) ∧ limit ≤ 249 ∧
    (0 < limit → limit = rl - 7)).
  { unfold limit. destruct (Z.leb_spec 8 rl); lia. }
  clearbody limit. destruct Hlimit as (Hlim & Hlim2 & Hlim3).
  assert (Hdata : sd_data (k_scratch s1) = splice (sd_data (k_scratch s)) 0 rd) by reflexivity.
  destruct (scan_spec d off limit 256 0 s1) as [Hs Hh]; try done; try lia.
  { intros j Hj. rewrite Hdata. unfold splice. change (Z.to_nat 0) with 0%nat. rewrite take_0. cbn [app].
    rewrite drop_app_le, take_app_le by (rewrite ?length_drop; lia).
    unfold rd. rewrite drop_take_8 by lia. rewrite drop_drop. do 2 f_equal. lia. }
  { cbn. lia. }
  change (Z.to_nat 256) with 256%nat. cbv zeta in Hs, Hh.
  destruct (prescan_scan 256 0 limit off s1) as [[] s2] eqn:E2. cbn [snd] in *.
  exists s2. split; [done|]. split; [rewrite Hs; reflexivity|]. split.
  - pose proof (prescan_scan_data 256 0 limit off s1) as Hdd. rewrite E2 in Hdd. cbn [snd] in Hdd.
    rewrite Hdd, Hdata. unfold splice. rewrite !length_app, length_take, length_drop, Hrd. cbn. lia.
  - rewrite Hh, Z.add_0_r, Z.sub_0_r, Hlim. reflexivity.
Qed.

Lemma prescan_loop_spec t udp d fuel : ∀ k s,
  mapped t udp d → zlen d < 2 ^ 31 → 0 ≤ k → zlen d ≤ (k + Z.of_nat fuel) * 249 →
  k + Z.of_nat fuel ≤ 8388608 →
  length (sd_data (k_scratch s)) = 256%nat → 0 ≤ xor_match_count (k_scratch s) →
  let s' := bpf_loop_from (prescan_chunk t udp (zlen d)) fuel k s in
  but_scan s' = but_scan s ∧
  hits s' = fold_left (add_hit d)
      (seq (Z.to_nat (k * 249)) (Z.to_nat (zlen d - 7 - k * 249))) (hits s).
Proof.
  induction fuel as [|fuel IH]; intros k s Hm Hz Hk Hf Hk2 Hlen Hc; cbn zeta; cbn [bpf_loop_from].
  { replace (Z.to_nat (zlen d - 7 - k * 249)) with 0%nat by lia. done. }
  destruct (Z.leb_spec (zlen d) (k * 249)) as [Hge|Hlt].
  { assert (E : prescan_chunk t udp (zlen d) k s = (true, s)).
    { unfold prescan_chunk. change CHUNK_STRIDE with 249. rewrite (u32_small (k * 249)) by lia.
      destruct (Z.leb_spec (zlen d) (k * 249)); [done|lia]. }
    replace (Z.to_nat (zlen d - 7 - k * 249)) with 0%nat by lia. by rewrite E. }
  destruct (Z.lt_ge_cases (xor_match_count (k_scratch s)) 4) as [Hc4|Hc4].
  - destruct (chunk_spec t udp d k s Hm Hz Hk Hlt Hlen ltac:(lia)) as (s1 & -> & Hb & Hl1 & Hh).
    destruct (IH (k + 1) s1) as [Hb2 Hh2]; try done; try lia.
    { change (0 ≤ fst (hits s1)). rewrite Hh. apply add_hit_nonneg. done. }
    split; [by rewrite Hb2|]. rewrite Hh2, Hh, <- fold_left_app. f_equal.
    destruct (Z.le_gt_cases 249 (zlen d - 7 - k * 249)).
    + rewrite Z.min_l by lia.
      replace (Z.to_nat (zlen d - 7 - k * 249))
        with (Z.to_nat 249 + Z.to_nat (zlen d - 7 - (k + 1) * 249))%nat by lia.
      rewrite seq_app. do 2 f_equal. lia.
    + rewrite Z.min_r by lia. replace (Z.to_nat (zlen d - 7 - (k + 1) * 249)) with 0%nat by lia.
      by rewrite app_nil_r.
  - assert (E : prescan_chunk t udp (zlen d) k s = (true, s)).
    { unfold prescan_chunk. change CHUNK_STRIDE with 249. rewrite (u32_small (k * 249)) by lia.
      destruct (Z.leb_spec (zlen d) (k * 249)); [done|]. mrun. unfold XOR_MAX_MATCHES.
      destruct (Z.leb_spec 4 (xor_match_count (k_scratch s))); [done|lia]. }
    rewrite E. split; [done|]. by rewrite add_hit_full.
Qed.

Lemma fold_hits d ps : ∀ n l, 0 ≤ n ≤ 4 → length l = 4%nat →
  let f := filter (λ p, placeholder_at d p) ps in
  let h := fold_left (add_hit d) ps (n, l) in
  fst h = Z.min 4 (n + zlen f) ∧ length (snd h) = 4%nat ∧
  take (Z.to_nat (fst h)) (snd h) = take (Z.to_nat n) l ++ map (match_at d) (take (Z.to_nat (4 - n)) f).
Proof.
  induction ps as [|p ps IH]; intros n l Hn Hl; cbn zeta.
  { cbn. rewrite zlen_nil, take_nil, app_nil_r, Z.min_r by lia. by rewrite Z.add_0_r. }
  cbn [fold_left].
  assert (Es : add_hit d (n, l) p = if placeholder_at d p && (n <? 4) then (n + 1, set_match n (match_at d p) l)
    else (n, l)) by done.
  rewrite Es. clear Es.
  rewrite filter_cons. destruct (placeholder_at d p) eqn:E; cbn [andb Is_true decide decide_rel].
  2: { rewrite decide_False by (by intros []). by apply IH. }
  rewrite decide_True by done. destruct (Z.ltb_spec n 4).
  - specialize (IH (n + 1) (set_match n (match_at d p) l) ltac:(lia)).
    unfold set_match in IH at 1. rewrite length_insert in IH. destruct (IH Hl) as (H1 & H2 & H3). clear IH.
    split; [rewrite H1, zlen_cons; f_equal; lia|]. split; [done|]. rewrite H3. unfold set_match.
    replace (Z.to_nat (n + 1)) with (S (Z.to_nat n)) by lia.
    replace (Z.to_nat (4 - n)) with (S (Z.to_nat (4 - (n + 1)))) by lia.
    cbn [take map]. rewrite (take_S_r _ _ (match_at d p)) by (apply list_lookup_insert_eq; lia).
    rewrite take_insert_ge by lia. by rewrite <- app_assoc.
  - assert (n = 4) by lia. subst n. rewrite add_hit_full by done. cbn [fst snd].
    change (Z.to_nat (4 - 4)) with 0%nat. rewrite take_0. rewrite app_nil_r, zlen_cons.
    pose proof (zlen_nonneg (filter (λ p, placeholder_at d p) ps)). split; [lia|done].
Qed.

(** What the scan leaves: the state as it was but for its matches, which are the
    first four placeholders. *)
Lemma prescan_result t udp d s :
  mapped t udp d → zlen d ≤ 249 * 8388608 → length (sd_data (k_scratch s)) = 256%nat →
  xor_match_count (k_scratch s) = 0 → length (xor_matches (k_scratch s)) = 4%nat →
  let s' := snd (prescan t udp (zlen d) s) in
  let ps := placeholders d in
  but_scan s' = but_scan s ∧ xor_match_count (k_scratch s') = Z.min 4 (zlen ps) ∧
  take (Z.to_nat (xor_match_count (k_scratch s'))) (xor_matches (k_scratch s')) =
    map (match_at d) (take 4 ps) ∧ length (xor_matches (k_scratch s')) = 4%nat.
Proof.
  intros Hm Hz Hl Hc Hx. cbn zeta. unfold prescan. cbn [snd]. change CHUNK_STRIDE with 249.
  pose proof (zlen_nonneg d). rewrite (u32_small (zlen d + (249 - 1))) by lia.
  set (n := (zlen d + (249 - 1)) / 249).
  assert (Hn : 0 ≤ n ≤ 8388608 ∧ zlen d ≤ n * 249) by (unfold n; Z.div_mod_to_equations; lia).
  clearbody n. unfold bpf_loop, BPF_MAX_LOOPS. destruct (Z.ltb_spec 8388608 n); [lia|].
  destruct (prescan_loop_spec t udp d (Z.to_nat n) 0 s) as [Hb Hh]; try done; try lia.
  set (s' := bpf_loop_from _ _ _ _) in *. clearbody s'. split; [done|].
  unfold hits at 2 in Hh. rewrite Hc in Hh.
  destruct (fold_hits d (seq (Z.to_nat (0 * 249)) (Z.to_nat (zlen d - 7 - 0 * 249))) 0
    (xor_matches (k_scratch s)) ltac:(lia) Hx) as (H1 & H2 & H3).
  rewrite <- Hh in H1, H2, H3. cbn [hits fst snd] in H1, H2, H3.
  replace (Z.to_nat (zlen d - 7 - 0 * 249)) with (length d - 7)%nat in * by (unfold zlen; lia).
  change (filter _ (seq (Z.to_nat (0 * 249)) _)) with (placeholders d) in H1, H3. rewrite H1. split; [lia|].
  split; [by rewrite <- H1, H3|done].
Qed.

Lemma prescan_too_long t udp total s :
  249 * 8388608 < total ≤ 2 ^ 32 - 249 → prescan t udp total s = ((), s).
Proof.
  intros H. unfold prescan. change CHUNK_STRIDE with 249. rewrite (u32_small (total + _)) by lia.
  unfold bpf_loop, BPF_MAX_LOOPS. destruct (Z.ltb_spec 8388608 ((total + (249 - 1)) / 249)); [done|].
  exfalso. Z.div_mod_to_equations; lia.
Qed.

(** C39: the scan of a write finds its placeholders, the first four of them, in
    any write of up to 249 * 2^23 bytes, wherever they lie in its chunks; it
    finds none in a longer one, since bpf_loop refuses as many chunks. *)
Theorem prescan_bounds t udp d s :
  mapped t udp d → zlen d ≤ 2 ^ 32 - 249 → length (sd_data (k_scratch s)) = 256%nat →
  xor_match_count (k_scratch s) = 0 → length (xor_matches (k_scratch s)) = 4%nat →
  let s' := snd (prescan t udp (zlen d) s) in
  but_scan s' = but_scan s ∧
  (if zlen d <=? 249 * 8388608 then
     xor_match_count (k_scratch s') = Z.min 4 (zlen (placeholders d)) ∧
     take (Z.to_nat (xor_match_count (k_scratch s'))) (xor_matches (k_scratch s')) =
       map (match_at d) (take 4 (placeholders d))
   else xor_match_count (k_scratch s') = 0).
Proof.
  intros Hm Hz Hl Hc Hx. cbn zeta. destruct (Z.leb_spec (zlen d) (249 * 8388608)).
  - destruct (prescan_result t udp d s) as (H1 & H2 & H3 & _); try done.
  - by rewrite prescan_too_long by lia.
Qed.

(** A text with placeholders at 2 and at 247, across the end of its first chunk. *)
Definition sample_text : bytes :=
  zeros 2 ++ [107; 108; 58; 58; 65; 66; 67; 68] ++ zeros 237 ++ [107; 108; 58; 58; 69; 70; 71; 72] ++ zeros 150.

Lemma prescan_bounds_witness :
  let s' := snd (prescan (task_with 4096 sample_text) 4096 (zlen sample_text) kst_init) in
  xor_match_count (k_scratch s') = 2 ∧ m_pos <$> take 2 (xor_matches (k_scratch s')) = [2; 247].
Proof.
  cbv zeta. destruct (prescan_bounds (task_with 4096 sample_text) 4096 sample_text kst_init) as [_ H];
    [apply task_with_mapped; vm_compute; congruence|vm_compute; congruence|reflexivity..|].
  change (zlen sample_text <=? 249 * 8388608) with true in H. destruct H as [H1 H2]. assert (E : Z.min 4 (zlen (placeholders sample_text)) = 2) by (vm_compute; reflexivity).
  rewrite E in H1. split; [exact H1|]. rewrite H1 in H2. change (Z.to_nat 2) with 2%nat in H2. rewrite H2. vm_compute. reflexivity.
Defined.

End PrescanFacts.

(** ** The patches stored are those of the matches that may be redeemed *)

Module XorPathFacts.
Import XorPath HooksFacts PrescanFacts.

Definition allowed (t : task) (s : kst) (key : secret_key) : bool :=
  bool_decide (is_Some (k_secret_acl s !! (cgroup_id t, key))) || (k_secret_binding_mode s =? SECRET_BINDING_AUDIT).

(** The patch of a match: none when its key has no usable secret, or the pod may
    not redeem it. [udp]: the address of the data. *)
Definition patch_at (t : task) (udp : Z) (s : kst) (m : xor_match) : option xor_patch :=
  match k_secret_map s !! m_key m with
  | Some val =>
      if bool_decide (1 ≤ sv_len val ≤ SECRET_MAX_LEN) && allowed t s (m_key m) then
        let shadow := probe_read_z t (udp + m_pos m) 128 in
        Some {| secret_offset := m_pos m; secret_len := sv_len val;
                xor_delta := xor_prefix shadow (real_secret val) (sv_len val); p_key := m_key m |}
      else None
  | None => None
  end.
Definition patch_of (t : task) (s : kst) (m : xor_match) : option xor_patch :=
  patch_at t (user_data_ptr (k_scratch s)) s m.

Definition add_patch (x : xor_pending_val) (p : xor_patch) : xor_pending_val :=
  x <| xp_patches := set_patch (xp_patch_count x) p (xp_patches x) |>
    <| xp_patch_count := xp_patch_count x + 1 |>.
Definition add_match (t : task) (s : kst) (x : xor_pending_val) (m : xor_match) : xor_pending_val :=
  match patch_of t s m with Some p => add_patch x p | None => x end.

Definition staged (s : kst) : xor_pending_val := staged_pending (k_ghash_scratch s).

(** The state without what the chain changes on its way. *)
Definition but_xor (s : kst) : kst :=
  s <| k_scratch := (k_scratch s) <| xor_current_match := 0 |> |>
    <| k_ghash_scratch := (k_ghash_scratch s) <| ct_buf := [] |> <| staged_pending := xor_pending_zero |> |>
    <| k_debug_counters := λ _, 0 |> <| k_binding_events := [] |> <| k_xor_pending := ∅ |>.

Lemma patch_of_but t s s' m : but_xor s = but_xor s' → patch_of t s m = patch_of t s' m.
Proof.
  intros E. change (patch_of t s m) with (patch_of t (but_xor s) m). by rewrite E.
Qed.

Lemma match_patch_spec t m s :
  0 ≤ xp_patch_count (staged s) < 4 → (∀ val, k_secret_map s !! m_key m = Some val → 0 ≤ sv_len val) →
  let s' := snd (xor_match_patch t (k_scratch s) m s) in
  but_xor s' = but_xor s ∧ staged s' = add_match t s (staged s) m ∧
  k_scratch s' = k_scratch s ∧ k_xor_pending s' = k_xor_pending s.
Proof.
  intros Hc Hv. cbn zeta. unfold xor_match_patch, add_match, patch_of, patch_at. mrun.
  destruct (k_secret_map s !! m_key m) as [val|] eqn:Ek; [|done]. specialize (Hv val eq_refl).
  destruct (Z.eqb_spec (sv_len val) 0), (Z.ltb_spec SECRET_MAX_LEN (sv_len val)); cbn [orb].
  1-3: rewrite (bool_decide_false (1 ≤ sv_len val ≤ _)) by lia; done.
  rewrite bool_decide_true by lia. cbn [andb].
  destruct (secret_binding_allows t (m_key m) s) as [b s1] eqn:Ea.
  destruct (binding_allows_frame t (m_key m) s) as (c & e & Es). rewrite Ea in Es. cbn [snd] in Es.
  assert (Hb : b = allowed t s (m_key m)).
  { apply eq_true_iff_eq. pose proof (binding_allows_iff t (m_key m) s) as Hi. rewrite Ea in Hi. cbn [fst] in Hi.
    rewrite Hi. unfold allowed. by rewrite orb_true_iff, bool_decide_eq_true, Z.eqb_eq. }
  destruct (allowed t s (m_key m)); subst b s1; [|done]. cbn [negb].
  unfold dbg_inc, xor_stage_patch. mrun. rewrite clamp_id by (unfold SECRET_MAX_LEN in *; lia).
  change (Z.to_nat SECRET_MAX_LEN) with 128%nat.
  set (p := {| secret_offset := _ |}). cbn [snd]. unfold staged in *.
  match goal with |- context [if ?a <? XOR_MAX_PATCHES then _ else _] =>
    replace (a <? XOR_MAX_PATCHES) with true by (symmetry; apply Z.ltb_lt; apply Hc) end.
  unfold add_patch. change (XOR_MAX_PATCHES - 1) with (2 ^ 2 - 1).
  split; [reflexivity|]. split; [|done]. cbn.
  change 3 with (2 ^ 2 - 1). rewrite land_mask, Z.mod_small, u32_small by lia. done.
Qed.

(** The matches still to do, and the whole chain from match [mi]. *)
Definition todo (s : kst) (mi : Z) : list xor_match :=
  drop (Z.to_nat mi) (take (Z.to_nat (xor_match_count (k_scratch s))) (xor_matches (k_scratch s))).

Definition secrets_ok (s : kst) : Prop := ∀ k val, k_secret_map s !! k = Some val → 0 ≤ sv_len val.

Definition scan_ok (s : kst) : Prop :=
  0 ≤ xor_match_count (k_scratch s) ≤ 4 ∧ length (xor_matches (k_scratch s)) = 4%nat ∧ secrets_ok s.

Lemma scan_ok_but s s' : but_xor s' = but_xor s → scan_ok s → scan_ok s'.
Proof. intros E. change (scan_ok (but_xor s) → scan_ok (but_xor s')). by rewrite E. Qed.

Lemma todo_but s s' mi : but_xor s' = but_xor s → todo s' mi = todo s mi.
Proof. intros E. change (todo (but_xor s') mi = todo (but_xor s) mi). by rewrite E. Qed.

Lemma fold_add_but t s s' ms : but_xor s' = but_xor s → ∀ x, fold_left (add_match t s') ms x = fold_left (add_match t s) ms x.
Proof.
  intros E. induction ms as [|m ms IH]; intros x; [done|]. cbn [fold_left]. rewrite IH. f_equal.
  unfold add_match. by rewrite (patch_of_but t s' s m E).
Qed.

Lemma todo_cons s mi : scan_ok s → 0 ≤ mi < xor_match_count (k_scratch s) →
  todo s mi = nth_match (xor_matches (k_scratch s)) mi :: todo s (mi + 1).
Proof.
  intros (Hc & Hl & _) Hm. unfold todo, nth_match. set (l := take _ _).
  assert (E : l !! Z.to_nat mi = Some (nth (Z.to_nat mi) (xor_matches (k_scratch s)) {| m_pos := 0; m_key := zeros 8 |})).
  { unfold l. rewrite lookup_take_lt by lia.
    destruct (lookup_lt_is_Some_2 (xor_matches (k_scratch s)) (Z.to_nat mi) ltac:(lia)) as [m Em].
    by rewrite nth_lookup, Em. }
  rewrite (drop_S _ _ _ E). do 2 f_equal. lia.
Qed.

Lemma add_match_count t s x m :
  xp_patch_count x ≤ xp_patch_count (add_match t s x m) ≤ xp_patch_count x + 1.
Proof. unfold add_match. destruct (patch_of t s m); cbn; lia. Qed.

(** One invocation at match [mi]. *)
Definition start (t : task) (s : kst) (mi : Z) : xor_pending_val :=
  if mi =? 0 then staged_init t (k_scratch s) (k_tls_conn_state s) else staged s.

Definition stored (t : task) (s : kst) (x : xor_pending_val) : gmap Z xor_pending_val :=
  if xp_patch_count x =? 0 then k_xor_pending s
  else snd (hash_update xor_pending_max_entries (tgid_of t) x (k_xor_pending s)).

Lemma xor_step t mi s : prog_loaded t 1 = true → scan_ok s →
  xor_current_match (k_scratch s) = mi → 0 ≤ mi < xor_match_count (k_scratch s) →
  0 ≤ xp_patch_count (start t s mi) ≤ mi →
  let x := add_match t s (start t s mi) (nth_match (xor_matches (k_scratch s)) mi) in
  ∃ s', bpf_xor_path t s = (mi + 1 <? xor_match_count (k_scratch s), s') ∧
    but_xor s' = but_xor s ∧ staged s' = x ∧ xor_current_match (k_scratch s') = mi + 1 ∧
    k_xor_pending s' = if mi + 1 <? xor_match_count (k_scratch s) then k_xor_pending s else stored t s x.
Proof.
  intros Hp Hok Hmi Hr Hc x. destruct Hok as (Hn & Hl & Hs). unfold bpf_xor_path, XOR_MAX_MATCHES. mrun.
  rewrite Hmi. destruct (Z.leb_spec (xor_match_count (k_scratch s)) mi), (Z.leb_spec 4 mi); try lia. cbn [orb].
  change (4 - 1) with (2 ^ 2 - 1). rewrite land_mask, (Z.mod_small mi), (u32_small (mi + 1)) by lia.
  set (m := nth_match _ mi) in *.
  destruct (if mi =? 0 then _ else _) as [u s1] eqn:E1.
  assert (H1 : but_xor s1 = but_xor s ∧ staged s1 = start t s mi ∧ k_scratch s1 = k_scratch s ∧
    k_xor_pending s1 = k_xor_pending s).
  { unfold start. destruct (mi =? 0); [unfold xor_init_staged in E1; mrun|]; injection E1 as <- <-; done. }
  destruct H1 as (B1 & S1 & C1 & P1). destruct (dbg_inc _ s1) as [u2 s2] eqn:E2.
  assert (H2 : but_xor s2 = but_xor s1 ∧ staged s2 = staged s1 ∧ k_scratch s2 = k_scratch s1 ∧
    k_xor_pending s2 = k_xor_pending s1) by (unfold dbg_inc in E2; mrun; by injection E2 as <- <-).
  destruct H2 as (B2 & S2 & C2 & P2). rewrite S1 in S2. rewrite C1 in C2. rewrite P1 in P2. rewrite B1 in B2.
  destruct (match_patch_spec t m s2) as (B3 & S3 & C3 & P3).
  { rewrite S2. lia. }
  { change (k_secret_map s2) with (k_secret_map (but_xor s2)). rewrite B2. apply Hs. }
  rewrite <- C2. destruct (xor_match_patch t (k_scratch s2) m s2) as [u3 s3]. cbn [snd] in *.
  rewrite C2 in *. rewrite P2 in P3. rewrite S2 in S3. rewrite B2 in B3.
  assert (Sx : staged s3 = x).
  { rewrite S3. unfold x, add_match. by rewrite (patch_of_but t s2 s m B2). }
  rewrite C3, Hp, andb_true_r.
  set (s4 := s3 <| k_scratch := _ |>).
  assert (H4 : but_xor s4 = but_xor s ∧ staged s4 = x ∧ xor_current_match (k_scratch s4) = mi + 1 ∧
    k_xor_pending s4 = k_xor_pending s).
  { split; [unfold s4; rewrite <- C3; exact B3|]. by split. }
  clearbody s4. destruct H4 as (B4 & S4 & C4 & P4).
  destruct (Z.ltb_spec (mi + 1) (xor_match_count (k_scratch s))) as [Hm|Hm]; cbn [andb].
  { destruct (Z.ltb_spec (mi + 1) 4); [|lia]. by exists s4. }
  unfold xor_finish, dbg_inc. mrun. fold (staged s4). unfold stored. rewrite S4.
  destruct (xp_patch_count x =? 0); [by exists s4|].
  eexists. split; [reflexivity|]. split; [by rewrite <- B4|]. split; [done|]. split; [done|].
  cbn. by rewrite P4.
Qed.

Lemma xor_run_spec t fuel : ∀ mi s, prog_loaded t 1 = true → scan_ok s →
  xor_current_match (k_scratch s) = mi → 0 ≤ mi < xor_match_count (k_scratch s) →
  xor_match_count (k_scratch s) - mi ≤ Z.of_nat fuel → 0 ≤ xp_patch_count (start t s mi) ≤ mi →
  let s' := snd (xor_path_run fuel t s) in
  but_xor s' = but_xor s ∧
  k_xor_pending s' = stored t s (fold_left (add_match t s) (todo s mi) (start t s mi)).
Proof.
  induction fuel as [|fuel IH]; intros mi s Hp Hok Hmi Hr Hf Hc; [lia|]. cbn zeta. cbn [xor_path_run]. mrun.
  destruct (xor_step t mi s Hp Hok Hmi Hr Hc) as (s1 & -> & B1 & S1 & C1 & P1).
  rewrite (todo_cons s mi Hok Hr). cbn [fold_left].
  pose proof (add_match_count t s (start t s mi) (nth_match (xor_matches (k_scratch s)) mi)).
  assert (Hn : xor_match_count (k_scratch s1) = xor_match_count (k_scratch s)).
  { change (xor_match_count (k_scratch (but_xor s1)) = xor_match_count (k_scratch (but_xor s))). by rewrite B1. }
  destruct (Z.ltb_spec (mi + 1) (xor_match_count (k_scratch s))) as [Hm|Hm].
  - assert (Hst : start t s1 (mi + 1) = staged s1).
    { unfold start. by destruct (Z.eqb_spec (mi + 1) 0); [lia|]. }
    destruct (IH (mi + 1) s1) as [B2 P2]; try done; try lia.
    { by apply (scan_ok_but s). }
    { rewrite Hst, S1. lia. }
    cbn zeta in *. split; [by rewrite B2|]. rewrite P2. unfold stored.
    rewrite (todo_but s s1), (fold_add_but t s s1) by done. by rewrite Hst, S1, P1.
  - cbn [snd]. split; [done|]. simpl. rewrite P1. destruct Hok as (? & Hl & _).
    replace (todo s (mi + 1)) with (@nil xor_match); [done|]. symmetry. apply drop_ge.
    rewrite length_take. lia.
Qed.

(** The patches accumulated. *)
Lemma fold_patches t s ms : ∀ x, 0 ≤ xp_patch_count x → xp_patch_count x + zlen ms ≤ 4 →
  length (xp_patches x) = 4%nat →
  let x' := fold_left (add_match t s) ms x in
  xp_patch_count x' = xp_patch_count x + zlen (omap (patch_of t s) ms) ∧
  take (Z.to_nat (xp_patch_count x')) (xp_patches x') =
    take (Z.to_nat (xp_patch_count x)) (xp_patches x) ++ omap (patch_of t s) ms ∧
  x' <| xp_patches := [] |> <| xp_patch_count := 0 |> = x <| xp_patches := [] |> <| xp_patch_count := 0 |>.
Proof.
  induction ms as [|m ms IH]; intros x H0 Hc Hl; cbn zeta.
  { cbn. rewrite app_nil_r, zlen_nil. split; [lia|done]. }
  cbn [fold_left]. rewrite zlen_cons in Hc. pose proof (zlen_nonneg ms).
  assert (Ea : add_match t s x m = match patch_of t s m with Some p => add_patch x p | None => x end) by done.
  change (omap (patch_of t s) (m :: ms)) with
    (match patch_of t s m with Some p => p :: omap (patch_of t s) ms | None => omap (patch_of t s) ms end).
  rewrite Ea. destruct (patch_of t s m) as [p|]; [|apply IH; lia].
  destruct (IH (add_patch x p)) as (H1 & H2 & H3).
  { cbn. lia. } { cbn. lia. } { cbn. unfold set_patch. by rewrite length_insert. }
  cbn zeta in *. split; [rewrite H1, zlen_cons; cbn; lia|]. split; [|by rewrite H3].
  rewrite H2. cbn. unfold set_patch. replace (Z.to_nat (xp_patch_count x + 1)) with (S (Z.to_nat (xp_patch_count x))) by lia.
  rewrite (take_S_r _ _ p) by (apply list_lookup_insert_eq; lia).
  rewrite take_insert_ge by lia. by rewrite <- app_assoc.
Qed.

(** *** The uprobes, end to end *)

Definition scratch_zero : scratch_buf := Build_scratch_buf 0 0 0 0 0 false false 0 0 [] [].

(** The state without what a write uprobe changes. *)
Definition but_write (s : kst) : kst := but_xor (s <| k_scratch := scratch_zero |>).

Lemma but_write_xor s s' : but_xor s' = but_xor s → but_write s' = but_write s.
Proof. intros E. exact (f_equal but_write E). Qed.
Lemma but_write_scan s s' : but_scan s' = but_scan s → but_write s' = but_write s.
Proof. intros E. exact (f_equal but_write E). Qed.
Lemma patch_at_but t udp s s' m : but_write s' = but_write s → patch_at t udp s' m = patch_at t udp s m.
Proof. intros E. change (patch_at t udp (but_write s') m = patch_at t udp (but_write s) m). by rewrite E. Qed.

(** The buffers have their C sizes, the secrets their unsigned lengths. *)
Definition buffers_ok (s : kst) : Prop :=
  length (sd_data (k_scratch s)) = 256%nat ∧ length (xor_matches (k_scratch s)) = 4%nat ∧ secrets_ok s.

(** The patches of a write of [d] at [udp]. *)
Definition write_patches (t : task) (udp : Z) (s : kst) (d : bytes) : list xor_patch :=
  omap (patch_at t udp s) (map (match_at d) (take 4 (placeholders d))).

(** The entry stored for the process: [ps] with the write's own fields. *)
Definition entry_of (t : task) (sc : scratch_buf) (conns : gmap tls_conn_key tls_conn_state)
    (ps : list xor_patch) (x : xor_pending_val) : Prop :=
  xp_patch_count x = zlen ps ∧ take (Z.to_nat (xp_patch_count x)) (xp_patches x) = ps ∧
  x <| xp_patches := [] |> <| xp_patch_count := 0 |> =
    (staged_init t sc conns) <| xp_patches := [] |> <| xp_patch_count := 0 |>.

Lemma omap_same {A B} (f g : A → option B) (l : list A) : (∀ x, f x = g x) → omap f l = omap g l.
Proof. intros E. induction l as [|x l IH]; [done|]. cbn. rewrite E. by destruct (g x); cbn; rewrite IH. Qed.

Lemma staged_init_fresh t sc conns :
  xp_patch_count (staged_init t sc conns) = 0 ∧ length (xp_patches (staged_init t sc conns)) = 4%nat.
Proof. unfold staged_init. repeat case_match; done. Qed.

Lemma staged_init_same t sc sc' conns :
  sd_ssl_ptr sc' = sd_ssl_ptr sc → sd_chain_type sc' = sd_chain_type sc → total_data_len sc' = total_data_len sc →
  sd_memory_bio sc' = sd_memory_bio sc → h_fresh sc' = h_fresh sc →
  staged_init t sc' conns = staged_init t sc conns.
Proof. unfold staged_init. by intros -> -> -> -> ->. Qed.

(** The chain of XOR programs, from a state that holds the matches of [d]. *)
Lemma chain_run t udp d fuel s : prog_loaded t 1 = true → (4 <= fuel)%nat →
  xor_match_count (k_scratch s) = Z.min 4 (zlen (placeholders d)) →
  take (Z.to_nat (xor_match_count (k_scratch s))) (xor_matches (k_scratch s)) = map (match_at d) (take 4 (placeholders d)) →
  length (xor_matches (k_scratch s)) = 4%nat → secrets_ok s →
  user_data_ptr (k_scratch s) = udp → xor_current_match (k_scratch s) = 0 →
  let s' := snd (xor_path_run fuel t s) in
  ∃ x, entry_of t (k_scratch s) (k_tls_conn_state s) (write_patches t udp s d) x ∧
    but_write s' = but_write s ∧ k_xor_pending s' = stored t s x.
Proof.
  intros Hp Hf N T L S U C. cbn zeta. pose proof (zlen_nonneg (placeholders d)) as Hn0.
  destruct (staged_init_fresh t (k_scratch s) (k_tls_conn_state s)) as [F1 F2].
  destruct (decide (zlen (placeholders d) = 0)) as [Hn|Hn].
  - (* no placeholder: the chain ends at once *)
    exists (staged_init t (k_scratch s) (k_tls_conn_state s)). destruct fuel as [|fuel]; [lia|].
    assert (Hps : write_patches t udp s d = []).
    { unfold write_patches. destruct (placeholders d); [done|]. rewrite zlen_cons in Hn. pose proof (zlen_nonneg l). lia. }
    unfold entry_of, stored. rewrite Hps, F1. split; [done|].
    cbn [xor_path_run]. unfold bpf_xor_path. mrun. rewrite N, C, Hn. by cbn.
  - destruct (xor_run_spec t fuel 0 s) as [B2 P2]; try done; try lia.
    { unfold scan_ok. split; [lia|done]. }
    { unfold start. cbn. lia. }
    cbn zeta in *. set (x := fold_left _ _ _) in P2. exists x. split; [|split; [by apply but_write_xor|done]].
    assert (Ht : todo s 0 = map (match_at d) (take 4 (placeholders d))) by (unfold todo; by rewrite T).
    destruct (fold_patches t s (todo s 0) (start t s 0)) as (G1 & G2 & G3); unfold start in *; cbn [Z.eqb] in *.
    { lia. }
    { rewrite F1, Ht. unfold zlen. rewrite length_map, length_take. lia. }
    { done. }
    cbn zeta in *. fold x in G1, G2, G3. rewrite F1 in G1, G2.
    assert (Hps : omap (patch_of t s) (todo s 0) = write_patches t udp s d).
    { rewrite Ht. unfold write_patches. apply omap_same. intros m. unfold patch_of. by rewrite U. }
    rewrite Hps in G1, G2. unfold entry_of. rewrite G3. split; [lia|done].
Qed.

Lemma write_patches_but t udp s s' d : but_write s' = but_write s → write_patches t udp s' d = write_patches t udp s d.
Proof. intros E. unfold write_patches. apply omap_same. intros m. by apply patch_at_but. Qed.

(** The scan of [d], from a state whose scratch buffer describes the write. *)
Lemma scan_path t udp d s :
  mapped t udp d → zlen d ≤ 249 * 8388608 → buffers_ok s → user_data_ptr (k_scratch s) = udp →
  xor_match_count (k_scratch s) = 0 → xor_current_match (k_scratch s) = 0 →
  let s' := snd (prescan t udp (zlen d) s) in
  but_write s' = but_write s ∧ k_xor_pending s' = k_xor_pending s ∧ k_tls_conn_state s' = k_tls_conn_state s ∧
  secrets_ok s' ∧ user_data_ptr (k_scratch s') = udp ∧ xor_current_match (k_scratch s') = 0 ∧
  staged_init t (k_scratch s') (k_tls_conn_state s') = staged_init t (k_scratch s) (k_tls_conn_state s) ∧
  (sd_ssl_ptr (k_scratch s') = sd_ssl_ptr (k_scratch s) ∧ sd_chain_type (k_scratch s') = sd_chain_type (k_scratch s) ∧
   total_data_len (k_scratch s') = total_data_len (k_scratch s) ∧ sd_memory_bio (k_scratch s') = sd_memory_bio (k_scratch s)) ∧
  xor_match_count (k_scratch s') = Z.min 4 (zlen (placeholders d)) ∧
  take (Z.to_nat (xor_match_count (k_scratch s'))) (xor_matches (k_scratch s')) = map (match_at d) (take 4 (placeholders d)) ∧
  length (xor_matches (k_scratch s')) = 4%nat.
Proof.
  intros Hm Hz (Hd & Hx & Hs) Hu H0 Hc. cbn zeta.
  pose proof (prescan_result t udp d s Hm Hz Hd H0 Hx) as Hr. cbn zeta in Hr.
  destruct (prescan t udp (zlen d) s) as [[] s1]. cbn [snd] in *. destruct Hr as (B1 & N1 & T1 & L1).
  pose (f := λ s, (k_xor_pending s, user_data_ptr (k_scratch s), xor_current_match (k_scratch s),
    k_tls_conn_state s, staged_init t (k_scratch s) (k_tls_conn_state s), k_secret_map s,
    (sd_ssl_ptr (k_scratch s), sd_chain_type (k_scratch s), total_data_len (k_scratch s), sd_memory_bio (k_scratch s)))).
  assert (Ef : f s1 = f s) by (change (f (but_scan s1) = f (but_scan s)); by rewrite B1).
  unfold f in Ef. injection Ef as E1 E2 E3 E4 E5 E6 E7 E8 E9 E10.
  split; [by apply but_write_scan|]. unfold secrets_ok. rewrite E1, E2, E3, E4, E6, E7, E8, E9, E10.
  split_and!; try done.
  by rewrite <- E5, E4.
Qed.

(** The scan and the chain. *)
Lemma write_path t udp d s :
  prog_loaded t 1 = true → mapped t udp d → zlen d ≤ 249 * 8388608 → buffers_ok s →
  user_data_ptr (k_scratch s) = udp → xor_match_count (k_scratch s) = 0 → xor_current_match (k_scratch s) = 0 →
  let s' := snd ((prescan t udp (zlen d);; xor_path_run MAX_TAIL_CALL_CNT t) s) in
  ∃ x, entry_of t (k_scratch s) (k_tls_conn_state s) (write_patches t udp s d) x ∧
    but_write s' = but_write s ∧ k_xor_pending s' = stored t s x.
Proof.
  intros Hp Hm Hz Hb Hu H0 Hc. cbn zeta. mrun.
  destruct (scan_path t udp d s Hm Hz Hb Hu H0 Hc) as (B1 & P1 & K1 & S1 & U1 & C1 & I1 & _ & N1 & T1 & L1). cbn zeta in *.
  destruct (prescan t udp (zlen d) s) as [[] s1]. cbn [snd] in *.
  destruct (chain_run t udp d MAX_TAIL_CALL_CNT s1) as (x & Hx & B2 & P2); try done; [unfold MAX_TAIL_CALL_CNT; lia|].
  exists x. unfold entry_of in *. rewrite I1, (write_patches_but t udp s s1) in Hx by done. split; [done|].
  rewrite B2, P2, B1. split; [done|]. unfold stored. by rewrite P1.
Qed.

(** What the entry says of the write, apart from H: [h_fresh] is clear. *)
Definition describes (t : task) (ssl chain len : Z) (membio : bool) (x : xor_pending_val) : Prop :=
  xp_tgid x = tgid_of t ∧ xp_ssl_ptr x = ssl ∧ xp_chain_type x = chain ∧ xp_plaintext_len x = len ∧
  xp_memory_bio x = membio ∧ xp_active x = true ∧ h_valid x = false ∧ created_at x = ktime_ns t.

Lemma entry_describes t sc conns ps x : entry_of t sc conns ps x → h_fresh sc = false →
  describes t (sd_ssl_ptr sc) (sd_chain_type sc) (total_data_len sc) (sd_memory_bio sc) x.
Proof.
  intros (_ & _ & E) Hf. unfold staged_init in E. rewrite Hf, andb_false_r in E.
  exact (conj (f_equal xp_tgid E) (conj (f_equal xp_ssl_ptr E) (conj (f_equal xp_chain_type E)
    (conj (f_equal xp_plaintext_len E) (conj (f_equal xp_memory_bio E) (conj (f_equal xp_active E)
    (conj (f_equal h_valid E) (f_equal created_at E)))))))).
Qed.

(** The scratch buffer after [write_scratch]. *)
Lemma write_scratch_spec t data_ptr len total ssl chain membio s :
  0 ≤ len ≤ 256 → buffers_ok s →
  let s' := snd (write_scratch t data_ptr len total ssl chain membio s) in
  but_write s' = but_write s ∧ buffers_ok s' ∧ k_xor_pending s' = k_xor_pending s ∧
  user_data_ptr (k_scratch s') = data_ptr ∧ total_data_len (k_scratch s') = total ∧
  sd_ssl_ptr (k_scratch s') = ssl ∧ sd_chain_type (k_scratch s') = chain ∧
  sd_memory_bio (k_scratch s') = membio ∧ h_fresh (k_scratch s') = false ∧
  xor_match_count (k_scratch s') = 0 ∧ xor_current_match (k_scratch s') = 0.
Proof.
  intros Hl (Hd & Hx & Hs). cbn zeta. unfold write_scratch, dbg_inc. mrun.
  repeat apply conj; try reflexivity; [|done|done].
  assert (Hr : length (probe_read_z t data_ptr (Z.to_nat len)) = Z.to_nat len).
  { unfold probe_read_z, probe_read. destruct (mapM _ _) as [l|] eqn:E; cbn.
    - apply length_mapM in E. by rewrite <- E, length_seq.
    - apply length_replicate. }
  cbn. unfold splice. change (Z.to_nat 0) with 0%nat. rewrite take_0. cbn [app]. rewrite length_app, length_drop, Hr. lia.
Qed.

(** The patch of a match turns the text there into the secret. *)
Lemma patch_text t udp d s m pt : mapped t udp d → 0 ≤ m_pos m → m_pos m + 128 ≤ zlen d → patch_at t udp s m = Some pt →
  ∃ val, k_secret_map s !! m_key m = Some val ∧ allowed t s (m_key m) = true ∧ p_key pt = m_key m ∧
    secret_len pt = sv_len val ∧ 1 ≤ sv_len val ≤ 128 ∧ secret_offset pt = m_pos m ∧
    ∀ j, 0 ≤ j < sv_len val → Z.lxor (d.[m_pos m + j]) ((xor_delta pt).[j]) = (real_secret val).[j].
Proof.
  intros Hm Hp0 Hp. unfold patch_at. destruct (k_secret_map s !! _) as [val|] eqn:Ek; [|done].
  destruct (bool_decide _) eqn:Eb; [|done]. apply bool_decide_eq_true in Eb.
  destruct (allowed t s _) eqn:Ea; [|done]. cbn [andb]. intros [= <-]. cbn [p_key secret_len secret_offset xor_delta].
  unfold SECRET_MAX_LEN in *. exists val. split_and!; try done; try lia. intros j Hj.
  unfold probe_read_z. rewrite (probe_read_mapped t udp d) by (done || unfold zlen in *; lia). cbn [from_option]. unfold id.
  unfold xor_prefix. rewrite (byte_at_lookup (imap _ _)), list_lookup_imap by lia.
  rewrite lookup_take_lt, lookup_drop by lia.
  destruct (lookup_lt_is_Some_2 d (Z.to_nat (m_pos m) + Z.to_nat j) ltac:(unfold zlen in *; lia)) as [b Eb'].
  rewrite Eb'. cbn. rewrite Z2Nat.id by lia. destruct (Z.ltb_spec j (sv_len val)); [|lia].
  replace (d.[m_pos m + j]) with b.
  - rewrite <- Z.lxor_assoc, Z.lxor_nilpotent. apply Z.lxor_0_l.
  - symmetry. rewrite byte_at_lookup by lia. replace (Z.to_nat (m_pos m + j)) with (Z.to_nat (m_pos m) + Z.to_nat j)%nat by lia. by rewrite Eb'.
Qed.

(** A patch at a placeholder. *)
Lemma patch_turns t udp d s p pt :
  mapped t udp d → (p + 128 <= length d)%nat → patch_at t udp s (match_at d p) = Some pt →
  ∃ val, k_secret_map s !! p_key pt = Some val ∧ allowed t s (p_key pt) = true ∧
    secret_len pt = sv_len val ∧ 1 ≤ secret_len pt ≤ 128 ∧ secret_offset pt = Z.of_nat p ∧
    ∀ j, 0 ≤ j < secret_len pt → Z.lxor (d.[Z.of_nat p + j]) ((xor_delta pt).[j]) = (real_secret val).[j].
Proof.
  intros Hm Hp E. destruct (patch_text t udp d s (match_at d p) pt Hm) as (val & ? & ? & Ek & El & ? & ? & Hj); [cbn; lia|cbn; unfold zlen; lia|done|].
  exists val. rewrite Ek, El. split_and!; first [done|lia].
Qed.

Lemma allowed_iff t s key : allowed t s key = true ↔ is_Some (k_secret_acl s !! (cgroup_id t, key)) ∨ k_secret_binding_mode s = SECRET_BINDING_AUDIT.
Proof. unfold allowed. by rewrite orb_true_iff, bool_decide_eq_true, Z.eqb_eq. Qed.

(** What one match of the scan stages. *)
Lemma match_stages t d s m : mapped t (user_data_ptr (k_scratch s)) d → 0 ≤ m_pos m → m_pos m + 128 ≤ zlen d →
  0 ≤ xp_patch_count (staged s) < XOR_MAX_PATCHES → secrets_ok s →
  let s' := snd (xor_match_patch t (k_scratch s) m s) in let n := xp_patch_count (staged s) in
  let may val := 1 ≤ sv_len val ≤ SECRET_MAX_LEN ∧
    (is_Some (k_secret_acl s !! (cgroup_id t, m_key m)) ∨ k_secret_binding_mode s = SECRET_BINDING_AUDIT) in
  but_xor s' = but_xor s ∧ k_xor_pending s' = k_xor_pending s ∧
  (staged s' = staged s ∧ (∀ val, k_secret_map s !! m_key m = Some val → ¬ may val) ∨
   ∃ val pt, k_secret_map s !! m_key m = Some val ∧ may val ∧
     staged s' = (staged s) <| xp_patches := set_patch n pt (xp_patches (staged s)) |> <| xp_patch_count := n + 1 |> ∧
     p_key pt = m_key m ∧ secret_offset pt = m_pos m ∧ secret_len pt = sv_len val ∧
     ∀ j, 0 ≤ j < sv_len val → Z.lxor (d.[m_pos m + j]) ((xor_delta pt).[j]) = (real_secret val).[j]).
Proof.
  intros Hm Hp0 Hp Hc Hs. cbn zeta. destruct (match_patch_spec t m s Hc (Hs (m_key m))) as (B & S & _ & P). cbn zeta in *.
  split; [done|]. split; [done|]. rewrite S. unfold add_match, patch_of. destruct (patch_at t _ s m) as [pt|] eqn:E.
  - right. destruct (patch_text t _ d s m pt Hm Hp0 Hp E) as (val & Ev & Ea & Ek & El & Hl & Eo & Hj). exists val, pt.
    apply allowed_iff in Ea. split_and!; first [done|unfold SECRET_MAX_LEN; lia].
  - left. split; [done|]. intros val Ev [Hl Ha%allowed_iff]. unfold patch_at in E. rewrite Ev, Ha, bool_decide_true in E; done.
Qed.

(** The Go uprobe. *)
Lemma go_write_spec t conn_ptr data_ptr d s :
  prog_loaded t 1 = true → mapped t data_ptr d → 0 < zlen d ≤ 249 * 8388608 → data_ptr ≠ 0 → buffers_ok s →
  let s' := snd (bpf_uprobe_go_tls_write t conn_ptr data_ptr (zlen d) s) in
  let ps := write_patches t data_ptr s d in
  but_write s' = but_write s ∧
  ∃ x, xp_patch_count x = zlen ps ∧ take (Z.to_nat (zlen ps)) (xp_patches x) = ps ∧
    describes t conn_ptr CHAIN_GO_TLS (zlen d) false x ∧ k_xor_pending s' = stored t s x.
Proof.
  intros Hp Hm Hz H0 Hb. cbn zeta.
  set (len := if MAX_DATA_SIZE <? zlen d then MAX_DATA_SIZE else zlen d).
  assert (Hl : 0 ≤ len ≤ 256) by (unfold len, MAX_DATA_SIZE; destruct (Z.ltb_spec 256 (zlen d)); lia).
  destruct (write_scratch_spec t data_ptr len (zlen d) conn_ptr CHAIN_GO_TLS false s Hl Hb)
    as (B1 & Hb1 & P1 & U1 & T1 & I1 & C1 & M1 & F1 & N1 & Q1). cbn zeta in *.
  set (s1 := snd (write_scratch _ _ _ _ _ _ _ s)) in *.
  assert (Es : bpf_uprobe_go_tls_write t conn_ptr data_ptr (zlen d) s =
    (prescan t data_ptr (zlen d);; xor_path_run MAX_TAIL_CALL_CNT t) s1).
  { unfold bpf_uprobe_go_tls_write. destruct (Z.eqb_spec data_ptr 0); [done|].
    destruct (Z.eqb_spec (zlen d) 0); [lia|]. cbn [orb]. rewrite u32_small by lia. rewrite Hp. fold len.
    unfold s1, mbind at 1, m_bind at 1. by destruct (write_scratch _ _ _ _ _ _ _ s) as [[] ?]. }
  rewrite Es. clear Es. clearbody s1.
  destruct (write_path t data_ptr d s1) as (x & Hx & B2 & P2); try done; [lia|]. cbn zeta in *.
  rewrite B2, P2. split; [done|]. exists x. pose proof (entry_describes _ _ _ _ _ Hx F1) as Hd.
  rewrite I1, C1, T1, M1 in Hd. destruct Hx as (G1 & G2 & _). unfold stored. rewrite P1.
  replace (write_patches t data_ptr s d) with (write_patches t data_ptr s1 d).
  - by rewrite <- G1.
  - by apply write_patches_but.
Qed.

(** *** The claims *)

(** C5: one match of the scan (a position in the written text and the key found there):
    xor_match_patch stages a patch exactly when the key has a secret of a valid length
    and the process's cgroup is bound to the key, or the check only audits; the patch is
    the next one, of that position and length, and turns the text there into the secret,
    byte by byte. Nothing else is staged, and no entry is made. *)
Theorem patch_turns_placeholder t d s m : mapped t (user_data_ptr (k_scratch s)) d → 0 ≤ m_pos m → m_pos m + 128 ≤ zlen d →
  0 ≤ xp_patch_count (staged s) < XOR_MAX_PATCHES → secrets_ok s →
  let s' := snd (xor_match_patch t (k_scratch s) m s) in let n := xp_patch_count (staged s) in
  let may val := 1 ≤ sv_len val ≤ SECRET_MAX_LEN ∧
    (is_Some (k_secret_acl s !! (cgroup_id t, m_key m)) ∨ k_secret_binding_mode s = SECRET_BINDING_AUDIT) in
  but_xor s' = but_xor s ∧ k_xor_pending s' = k_xor_pending s ∧
  (staged s' = staged s ∧ (∀ val, k_secret_map s !! m_key m = Some val → ¬ may val) ∨
   ∃ val pt, k_secret_map s !! m_key m = Some val ∧ may val ∧
     staged s' = (staged s) <| xp_patches := set_patch n pt (xp_patches (staged s)) |> <| xp_patch_count := n + 1 |> ∧
     p_key pt = m_key m ∧ secret_offset pt = m_pos m ∧ secret_len pt = sv_len val ∧
     ∀ j, 0 ≤ j < sv_len val → Z.lxor (d.[m_pos m + j]) ((xor_delta pt).[j]) = (real_secret val).[j]).
Proof. apply match_stages. Qed.

(** C6: A Go TLS write of [d]: the patches of its first four placeholders are stored
    for the process, or nothing when none may be redeemed. *)
Theorem go_write_patches t conn_ptr data_ptr d s :
  prog_loaded t 1 = true → mapped t data_ptr d → 0 < zlen d ≤ 249 * 8388608 → data_ptr ≠ 0 → buffers_ok s →
  let s' := snd (bpf_uprobe_go_tls_write t conn_ptr data_ptr (zlen d) s) in
  let ps := write_patches t data_ptr s d in
  but_write s' = but_write s ∧
  ∃ x, xp_patch_count x = zlen ps ∧ take (Z.to_nat (zlen ps)) (xp_patches x) = ps ∧
    describes t conn_ptr CHAIN_GO_TLS (zlen d) false x ∧ k_xor_pending s' = stored t s x.
Proof. apply go_write_spec. Qed.

(** A secret [abc], and a write of 200 bytes with its placeholder at 5. *)
Definition sample_key : bytes := [107; 108; 58; 58; 65; 66; 67; 68].
Definition sample_secret : secret_value :=
  {| sv_len := 3; real_secret := [97; 98; 99] ++ zeros 125; host_len := 0; allowed_host := zeros 64; ip_len := 0;
     allowed_ip := zeros 16; sv_port := 0; protocol := 0; prefix_len := 0; full_prefix := zeros 42 |}.
Definition sample_write : bytes := zeros 5 ++ sample_key ++ zeros 187.
Definition sample_state : kst :=
  kst_init <| k_secret_map := {[ sample_key := sample_secret ]} |> <| k_secret_binding_mode := 1 |>.

Lemma sample_secrets_ok : secrets_ok sample_state.
Proof.
  intros k val H. change (({[ sample_key := sample_secret ]} : gmap bytes secret_value) !! k = Some val) in H.
  apply lookup_singleton_Some in H as [_ <-]. vm_compute. congruence.
Qed.

(** The match at 5, with the text at 4096. *)
Definition sample_scanned : kst := sample_state <| k_scratch := (k_scratch sample_state) <| user_data_ptr := 4096 |> |>.
Definition sample_match : xor_match := {| m_pos := 5; m_key := sample_key |}.

Lemma patch_turns_placeholder_witness :
  let s' := snd (xor_match_patch (task_with 4096 sample_write) (k_scratch sample_scanned) sample_match sample_scanned) in
  xp_patch_count (staged s') = 1 ∧
  ∃ pt, staged s' = (staged sample_scanned) <| xp_patches := set_patch 0 pt (xp_patches (staged sample_scanned)) |> <| xp_patch_count := 1 |> ∧
    ∀ j, 0 ≤ j < 3 → Z.lxor (sample_write.[5 + j]) ((xor_delta pt).[j]) = (real_secret sample_secret).[j].
Proof.
  cbn zeta. assert (E : xp_patch_count (staged (snd (xor_match_patch (task_with 4096 sample_write) (k_scratch sample_scanned) sample_match sample_scanned))) = 1)
    by (vm_compute; reflexivity).
  split; [exact E|].
  destruct (patch_turns_placeholder (task_with 4096 sample_write) sample_write sample_scanned sample_match) as (_ & _ & [[H _]|(val & pt & Ev & _ & H & _ & _ & _ & Hj)]).
  - apply (task_with_mapped 4096 sample_write); [lia|vm_compute; congruence].
  - vm_compute. congruence.
  - vm_compute. congruence.
  - vm_compute. split; congruence.
  - exact sample_secrets_ok.
  - rewrite H in E. discriminate E.
  - exists pt. split; [exact H|]. change (({[ sample_key := sample_secret ]} : gmap bytes secret_value) !! sample_key = Some val) in Ev.
    apply lookup_singleton_Some in Ev as [_ <-]. exact Hj.
Defined.

Lemma go_write_patches_witness :
  let t := task_with 4096 sample_write in
  let s' := snd (bpf_uprobe_go_tls_write t 77 4096 (zlen sample_write) sample_state) in
  but_write s' = but_write sample_state ∧
  ∃ x, xp_patch_count x = 1 ∧ describes t 77 CHAIN_GO_TLS 200 false x ∧
    k_xor_pending s' = stored t sample_state x.
Proof.
  cbn zeta.
  destruct (go_write_patches (task_with 4096 sample_write) 77 4096 sample_write sample_state) as (B & x & C & _ & D & E).
  - reflexivity.
  - apply task_with_mapped; [lia|vm_compute; congruence].
  - vm_compute. split; congruence.
  - lia.
  - split; [reflexivity|]. split; [reflexivity|apply sample_secrets_ok].
  - split; [exact B|]. exists x. split; [|split; [exact D|exact E]].
    rewrite C. vm_compute. reflexivity.
Defined.

End XorPathFacts.
