(* ===== verification/Packet.v ===== *)
(** * Packets at tc (the helpers tls_uprobe.c calls on a struct __sk_buff)

    [Skb]: a packet, loads from it and stores to it at an offset. A load past the
    end fails and zeroes its destination; a store fails when the packet cannot be
    made writable, which the programs do not check. *)

From S2P Require Import Prelude State.

Module Skb.

(** The full socket of a packet: its remote address as connect() left it, in the
    family the program reads. *)
Record bpf_sock := { dst_ip4 : bytes; dst_ip6 : bytes }.

Record skb := {
  sb_data : bytes;
  sb_linear : Z;                   (* bytes before [data_end] *)
  sb_protocol : Z;                 (* the number of the L3 protocol *)
  sb_sk : option (option bpf_sock); (* [sk], and what bpf_sk_fullsock returns for it *)
  sb_cgroup_id : Z;
  sb_writable : bool
}.
#[export] Instance skb_eta : Eta skb := λ p,
  Build_skb (sb_data p) (sb_linear p) (sb_protocol p) (sb_sk p) (sb_cgroup_id p) (sb_writable p).

(** The kernel refuses offsets above INT_MAX. *)
Definition in_skb (p : skb) (off len : Z) : bool := (off <=? 0x7FFFFFFF) && (off + len <=? zlen (sb_data p)).

Definition bpf_skb_load_bytes (p : skb) (off len : Z) : option bytes :=
  if in_skb p off len then Some (slice (sb_data p) off (Z.to_nat len)) else None.

Definition bpf_skb_store_bytes (p : skb) (off : Z) (from : bytes) : skb :=
  if in_skb p off (zlen from) && sb_writable p
  then p <| sb_data := splice (sb_data p) off from |> else p.

(** The same store, with its result; [None] for an error. *)
Definition try_store (p : skb) (off : Z) (from : bytes) : option skb :=
  if in_skb p off (zlen from) && sb_writable p
  then Some (p <| sb_data := splice (sb_data p) off from |>) else None.

End Skb.

Module SkbFacts.
Import Skb.

Lemma byte_at_splice l off new i : 0 ≤ off → off + zlen new ≤ zlen l → 0 ≤ i →
  (splice l off new).[i] = if (off <=? i) && (i <? off + zlen new) then new.[i - off] else l.[i].
Proof.
  intros Ho Hn Hi. unfold splice. unfold zlen in *.
  destruct (Z.leb_spec off i); cbn [andb].
  - rewrite byte_at_app_r by (unfold zlen; rewrite length_take; lia).
    replace (i - zlen (take (Z.to_nat off) l)) with (i - off) by (unfold zlen; rewrite length_take; lia).
    destruct (Z.ltb_spec i (off + Z.of_nat (length new))).
    + apply byte_at_app_l. unfold zlen. lia.
    + rewrite byte_at_app_r by (unfold zlen; lia). rewrite byte_at_drop by (unfold zlen; lia).
      f_equal. unfold zlen. lia.
  - rewrite byte_at_app_l by (unfold zlen; rewrite length_take; lia). apply byte_at_take. lia.
Qed.

Lemma zlen_splice l off new : 0 ≤ off → off + zlen new ≤ zlen l → zlen (splice l off new) = zlen l.
Proof. unfold splice, zlen. intros. rewrite !length_app, length_take, length_drop. lia. Qed.

Lemma splice_ok l off new : bytes_ok l → bytes_ok new → bytes_ok (splice l off new).
Proof.
  intros. unfold splice. rewrite !bytes_ok_app. split_and!; [by apply bytes_ok_take|done|by apply bytes_ok_drop].
Qed.

Lemma load_Some p off len : off ≤ 0x7FFFFFFF → off + len ≤ zlen (sb_data p) →
  bpf_skb_load_bytes p off len = Some (slice (sb_data p) off (Z.to_nat len)).
Proof.
  intros. unfold bpf_skb_load_bytes, in_skb.
  destruct (Z.leb_spec off 0x7FFFFFFF), (Z.leb_spec (off + len) (zlen (sb_data p))); done || lia.
Qed.

Lemma load_inv p off len l : bpf_skb_load_bytes p off len = Some l →
  off ≤ 0x7FFFFFFF ∧ off + len ≤ zlen (sb_data p) ∧ l = slice (sb_data p) off (Z.to_nat len).
Proof.
  unfold bpf_skb_load_bytes, in_skb.
  destruct (Z.leb_spec off 0x7FFFFFFF), (Z.leb_spec (off + len) (zlen (sb_data p))); try done.
  intros [= <-]. done.
Qed.

End SkbFacts.
