(* ===== verification/TcGhash.v ===== *)
(** * The tag recomputation at tc egress (pkg/ebpf/bpf/tls_uprobe.c)

    [TcGhash]: the bpf_loop callbacks of the GHASH recomputation on the per-CPU
    work area, and tc_ghash_update.
    [TcGhashFacts]: the tag delta they compute is the correction of the GCM tag
    for the bytes the patches changed. *)

From S2P Require Import Prelude GF128 Host Ghash State Packet.
Import GF128 GhashCode Host Types Kernel Skb.

Module TcGhash.

Definition TC_PASS : Z := -1.

(** [bpf_loop(n, f, NULL, 0)] *)
Definition run_loop (n : Z) (f : Z → M bool) : M unit := λ s, ((), bpf_loop n f s).

(** Updates of the work area. *)
Definition on_work (f : ghash_work → ghash_work) : M unit :=
  modify (λ s, s <| k_ghash_scratch := f (k_ghash_scratch s) |>).

Definition gf128_mul_iter (i : Z) : M bool :=
  on_work (λ w,
    let '(v, z) := gf128_mul_step (mul_a w) (mul_v w) (mul_z w) i in w <| mul_v := v |> <| mul_z := z |>);;
  mret false.

(** The three multiplications: operands set up, 128 steps, the product. *)
Definition mul_in_work (a v : bytes) : M bytes :=
  on_work (λ w, w <| mul_a := a |> <| mul_z := zeros 16 |> <| mul_v := v |>);;
  run_loop 128 gf128_mul_iter;;
  gets (λ s, mul_z (k_ghash_scratch s)).

Definition copy_h_power_step (i : Z) : M bool :=
  if 11 <=? i then mret true
  else
    w ← gets k_ghash_scratch;
    conn ← gets (λ s, k_tls_conn_state s !! (ghash_tgid w, ghash_ssl_ptr w));
    match conn with
    | None => mret true
    | Some conn =>
        entry ←
          (if i =? 0 then mret (ghash_h conn)
           else
             entries ← gets k_h_power_entries;
             let prev_val := nth (Z.to_nat (i - 1)) entries [] in
             mul_in_work prev_val prev_val);
        modify (λ s, s <| k_h_power_entries := <[Z.to_nat i := entry]> (k_h_power_entries s) |>);;
        mret false
    end.

Definition h_power_step (bit : Z) : M bool :=
  w ← gets k_ghash_scratch;
  if 11 <=? bit then mret true
  else if Z.land (ghash_h_power_val w) (Z.shiftl 1 bit) =? 0 then mret false
  else
    entries ← gets k_h_power_entries;
    let hp_val := nth (Z.to_nat bit) entries [] in
    z ← mul_in_work (h_pow w) hp_val;
    on_work (λ w, w <| h_pow := z |>);;
    mret false.

Definition ghash_block_iter (block_idx : Z) : M bool :=
  w ← gets k_ghash_scratch;
  let b := ghash_first_block w +32 block_idx in
  if ghash_ct_blocks w <=? b then mret true
  else
    let delta := ghash_block_delta (ghash_xor_delta w) b (ghash_secret_offset w) (ghash_patch_len w) in
    let power := ghash_ct_blocks w -32 b +32 1 in
    on_work (λ w, w <| block_delta := delta |> <| ghash_h_power_val := power |> <| h_pow := gf128_one |>);;
    run_loop 11 h_power_step;;
    w ← gets k_ghash_scratch;
    z ← mul_in_work (block_delta w) (h_pow w);
    on_work (λ w, w <| tag_delta := xor_bytes (tag_delta w) z |>);;
    mret false.

Definition ghash_patch_iter (p : Z) : M bool :=
  w ← gets k_ghash_scratch;
  let patch := nth_patch (xp_patches (staged_pending w)) (Z.land p (XOR_MAX_PATCHES - 1)) in
  if secret_len patch =? 0 then mret false
  else
    let sec_off := secret_offset patch in
    let sec_len := clamp_write_len (secret_len patch) in
    on_work (λ w, w <| ghash_secret_offset := sec_off |> <| ghash_patch_len := sec_len |>
      <| ghash_xor_delta := xor_delta patch |> <| ghash_first_block := sec_off / 16 |>);;
    let num_blocks := (sec_off +32 sec_len -32 1) / 16 -32 sec_off / 16 +32 1 in
    let num_blocks := if 9 <? num_blocks then 9 else num_blocks in
    run_loop num_blocks ghash_block_iter;;
    mret false.

(** The delta, before it is applied. *)
Definition ghash_compute : M unit :=
  run_loop 11 copy_h_power_step;;
  w ← gets k_ghash_scratch;
  let ct_blocks := (ghash_ct_len w +32 15) / 16 in
  let pc := xp_patch_count (staged_pending w) in
  let pc := if XOR_MAX_PATCHES <? pc then XOR_MAX_PATCHES else pc in
  on_work (λ w, w <| tag_delta := zeros 16 |> <| ghash_ct_blocks := ct_blocks |>);;
  run_loop pc ghash_patch_iter.

Definition tc_ghash_update (skb : skb) : M (Z * Skb.skb) :=
  w ← gets k_ghash_scratch;
  if negb (ghash_active w) then mret (TC_PASS, skb)
  else
    on_work (λ w, w <| ghash_active := false |>);;
    ghash_compute;;
    w ← gets k_ghash_scratch;
    let rel := 5 +32 ghash_nonce_len w +32 ghash_ct_len w in
    let tag_offset := ghash_payload_off w +32 rel in
    match bpf_skb_load_bytes skb tag_offset 16 with
    | Some old =>
        on_work (λ w, w <| old_tag := old |> <| new_tag := xor_bytes old (tag_delta w) |>);;
        mret (TC_PASS, bpf_skb_store_bytes skb tag_offset (xor_bytes old (tag_delta w)))
    | None =>
        on_work (λ w, w <| old_tag := zeros 16 |>);;
        modify (λ s, s <| k_tc_tag_pending :=
          <[ghash_conn_key w := {| tv_tag_delta := tag_delta w;
              tag_tcp_seq := ghash_pkt_seq w +32 ghash_record_tcp_off w +32 rel |}]>
            (k_tc_tag_pending s) |>);;
        mret (TC_PASS, skb)
    end.

End TcGhash.

Module TcGhashFacts.
Import TcGhash Field GF128Facts Ghash.

(** *** Frames: states that agree but for some scratch fields of the work area *)

Definition but_mul (s : kst) : kst :=
  s <| k_ghash_scratch := (k_ghash_scratch s) <| mul_a := [] |> <| mul_v := [] |> <| mul_z := [] |> |>.
Definition but_table (s : kst) : kst := (but_mul s) <| k_h_power_entries := [] |>.
Definition but_power (s : kst) : kst :=
  (but_mul s) <| k_ghash_scratch := (k_ghash_scratch (but_mul s)) <| h_pow := [] |> |>.
Definition but_block (s : kst) : kst :=
  (but_power s) <| k_ghash_scratch := (k_ghash_scratch (but_power s))
    <| block_delta := [] |> <| tag_delta := [] |> <| ghash_h_power_val := 0 |> |>.
Definition but_patch (s : kst) : kst :=
  (but_block s) <| k_ghash_scratch := (k_ghash_scratch (but_block s))
    <| ghash_secret_offset := 0 |> <| ghash_patch_len := 0 |> <| ghash_xor_delta := [] |>
    <| ghash_first_block := 0 |> |>.

Lemma but_mul_table s s' : but_mul s' = but_mul s → but_table s' = but_table s.
Proof. intros E. exact (f_equal but_table E). Qed.
Lemma but_mul_power s s' : but_mul s' = but_mul s → but_power s' = but_power s.
Proof. intros E. exact (f_equal but_power E). Qed.
Lemma but_power_block s s' : but_power s' = but_power s → but_block s' = but_block s.
Proof. intros E. exact (f_equal but_block E). Qed.
Lemma but_block_patch s s' : but_block s' = but_block s → but_patch s' = but_patch s.
Proof. intros E. exact (f_equal but_patch E). Qed.

(** [frame B f]: [f] reads a state only through what [B] keeps. *)
Lemma frame {T} (B : kst → kst) (f : kst → T) s s' : (∀ s, f s = f (B s)) → B s' = B s → f s' = f s.
Proof. intros Hf E. by rewrite (Hf s'), (Hf s), E. Qed.

(** Equations between updates of a state, on its fields and those of the work
    area. *)
Ltac frame_by_cases :=
  intros [? ? ? ? ? ? ? ? ? ? ? ? ? ? ? ? ? ? ? ? ? ? ? ? ? ? ? ? ? w ? ? ? ? ? ?]; destruct w; reflexivity.

(** *** One multiplication *)

Lemma mul_iter_loop n : ∀ i s,
  let w := k_ghash_scratch s in
  let '(v, z) := gf128_mul_loop n i (mul_a w) (mul_v w) (mul_z w) in
  bpf_loop_from gf128_mul_iter n i s = s <| k_ghash_scratch := w <| mul_v := v |> <| mul_z := z |> |>.
Proof.
  induction n as [|n IH]; intros i s; cbn zeta.
  { destruct s as [???????????????????????????? ? w ??????]. by destruct w. }
  cbn [gf128_mul_loop bpf_loop_from]. unfold gf128_mul_iter at 1, on_work. mrun.
  destruct (gf128_mul_step _ _ _ i) as [v1 z1] eqn:E. 
  set (s1 := s <| k_ghash_scratch := (k_ghash_scratch s) <| mul_v := v1 |> <| mul_z := z1 |> |>).
  specialize (IH (i + 1) s1). cbn zeta in IH.
  change (mul_a (k_ghash_scratch s1)) with (mul_a (k_ghash_scratch s)) in IH.
  change (mul_v (k_ghash_scratch s1)) with v1 in IH. change (mul_z (k_ghash_scratch s1)) with z1 in IH.
  destruct (gf128_mul_loop n (i + 1) _ v1 z1). exact IH.
Qed.

Lemma mul_run a v s :
  fst (mul_in_work a v s) = gf128_mul a v ∧ but_mul (snd (mul_in_work a v s)) = but_mul s.
Proof.
  unfold mul_in_work, on_work, run_loop, bpf_loop. mrun. change (BPF_MAX_LOOPS <? 128) with false. cbv iota.
  set (s1 := s <| k_ghash_scratch := _ |>).
  pose proof (mul_iter_loop (Z.to_nat 128) 0 s1) as H. cbn zeta in H.
  change (mul_a (k_ghash_scratch s1)) with a in H. change (mul_v (k_ghash_scratch s1)) with v in H.
  change (mul_z (k_ghash_scratch s1)) with (zeros 16) in H.
  unfold gf128_mul. change (Z.to_nat 128) with 128%nat in *.
  destruct (gf128_mul_loop 128 0 a v (zeros 16)) as [v' z']. rewrite H. cbn [fst snd]. by split.
Qed.

(** *** The table of powers *)

Definition entry_ok (h : bytes) (t : list bytes) (i : nat) : Prop :=
  block (nth i t []) ∧ be_val (nth i t []) = pow (be_val h) (2 ^ i).

Definition conn_h (s : kst) : option bytes :=
  ghash_h <$> k_tls_conn_state s !! (ghash_tgid (k_ghash_scratch s), ghash_ssl_ptr (k_ghash_scratch s)).

Lemma conn_h_table s s' : but_table s' = but_table s → conn_h s' = conn_h s.
Proof. by apply (frame but_table conn_h). Qed.

Lemma square_pow h i : elt h → mul (pow h (2 ^ i)) (pow h (2 ^ i)) = pow h (2 ^ S i).
Proof.
  intros Hh. rewrite <- pow_add by done. f_equal. cbn [Nat.pow]. lia.
Qed.

Lemma copy_step h i s : conn_h s = Some h → block h → (i < 11)%nat → length (k_h_power_entries s) = 16%nat →
  (∀ j, (j < i)%nat → entry_ok h (k_h_power_entries s) j) →
  ∃ s', copy_h_power_step (Z.of_nat i) s = (false, s') ∧ but_table s' = but_table s ∧
    length (k_h_power_entries s') = 16%nat ∧ ∀ j, (j < S i)%nat → entry_ok h (k_h_power_entries s') j.
Proof.
  intros Hc Hh Hi Hl Hj. unfold copy_h_power_step. destruct (Z.leb_spec 11 (Z.of_nat i)); [lia|]. mrun.
  unfold conn_h in Hc. destruct (k_tls_conn_state s !! _) as [c|]; [|done]. injection Hc as Hc.
  assert (Hins : ∀ l e, length l = 16%nat → (∀ j, (j < i)%nat → entry_ok h l j) → block e →
    be_val e = pow (be_val h) (2 ^ i) → length (<[i := e]> l) = 16%nat ∧ ∀ j, (j < S i)%nat → entry_ok h (<[i := e]> l) j).
  { intros l e Hl' Hg He Hv. split; [by rewrite length_insert|]. intros j Hjs. unfold entry_ok. rewrite nth_lookup.
    destruct (decide (j = i)) as [->|Hne].
    - rewrite list_lookup_insert_eq by lia. by split.
    - rewrite list_lookup_insert_ne, <- nth_lookup by done. apply Hg. lia. }
  rewrite Nat2Z.id. destruct (Z.eqb_spec (Z.of_nat i) 0) as [E0|E0].
  - eexists. split; [reflexivity|]. split; [done|]. cbn [k_h_power_entries].
    assert (i = 0%nat) as -> by lia. rewrite Hc. apply Hins; try done.
    change (2 ^ 0)%nat with 1%nat. by rewrite pow_1 by auto with gf128.
  - replace (Z.to_nat (Z.of_nat i - 1)) with (i - 1)%nat by lia.
    set (pv := nth (i - 1) (k_h_power_entries s) []). destruct (Hj (i - 1)%nat ltac:(lia)) as [Hb Hv]. fold pv in Hb, Hv.
    destruct (mul_run pv pv s) as [Hm Hf]. destruct (mul_in_work pv pv s) as [z s1]. cbn [fst snd] in *. subst z.
    assert (El : k_h_power_entries s1 = k_h_power_entries s) by (by apply (frame but_mul)).
    eexists. split; [reflexivity|]. split; [exact (f_equal but_table Hf)|]. cbn. rewrite El.
    destruct (mul_spec pv pv Hb Hb) as [Hbz Hvz]. apply Hins; try done.
    rewrite Hvz, Hv, square_pow by auto with gf128. do 2 f_equal. lia.
Qed.

Lemma copy_loop h n : ∀ i s, conn_h s = Some h → block h → (i + n = 11)%nat → length (k_h_power_entries s) = 16%nat →
  (∀ j, (j < i)%nat → entry_ok h (k_h_power_entries s) j) →
  let s' := bpf_loop_from copy_h_power_step n (Z.of_nat i) s in
  but_table s' = but_table s ∧ is_power_table h (k_h_power_entries s').
Proof.
  induction n as [|n IH]; intros i s Hc Hh Hi Hl Hj; cbn zeta.
  { split; [done|]. intros j Hj'. apply Hj. lia. }
  cbn [bpf_loop_from]. destruct (copy_step h i s Hc Hh ltac:(lia) Hl Hj) as (s1 & -> & B & L & J).
  replace (Z.of_nat i + 1) with (Z.of_nat (S i)) by lia.
  destruct (IH (S i) s1) as [B2 T]; [by rewrite (conn_h_table s s1)|done|lia|done|done|].
  split; [by rewrite B2|done].
Qed.

(** *** The power *)

Lemma power_loop n : ∀ i s, 0 ≤ i → i + Z.of_nat n ≤ 11 → 0 < ghash_h_power_val (k_ghash_scratch s) →
  let s' := bpf_loop_from h_power_step n i s in
  but_power s' = but_power s ∧
  h_pow (k_ghash_scratch s') =
    gf128_table_loop n i (k_h_power_entries s) (ghash_h_power_val (k_ghash_scratch s)) (h_pow (k_ghash_scratch s)).
Proof.
  induction n as [|n IH]; intros i s Hi Hn Hp; cbn zeta; [done|].
  cbn [bpf_loop_from gf128_table_loop]. unfold h_power_step at 1 3. mrun.
  destruct (Z.leb_spec 11 i); [lia|]. destruct (Z.ltb_spec 0 (ghash_h_power_val (k_ghash_scratch s))); [|lia].
  destruct (Z.land _ _ =? 0); [apply IH; lia|].
  set (hp := nth (Z.to_nat i) (k_h_power_entries s) []).
  destruct (mul_run (h_pow (k_ghash_scratch s)) hp s) as [Hm Hf].
  destruct (mul_in_work _ hp s) as [z s1]. cbn [fst snd] in *. subst z. unfold on_work. mrun.
  set (s2 := s1 <| k_ghash_scratch := _ |>).
  assert (B : but_power s2 = but_power s) by (exact (f_equal but_power Hf)).
  assert (E1 : k_h_power_entries s2 = k_h_power_entries s) by (by apply (frame but_power)).
  assert (E2 : ghash_h_power_val (k_ghash_scratch s2) = ghash_h_power_val (k_ghash_scratch s)).
  { by apply (frame but_power (λ s, ghash_h_power_val (k_ghash_scratch s))). }
  destruct (IH (i + 1) s2) as [B2 P2]; [lia|lia|by rewrite E2|]. cbn zeta in *.
  split; [by rewrite B2|]. by rewrite P2, E1, E2.
Qed.

Lemma run_loop_eq n f s : n ≤ BPF_MAX_LOOPS → run_loop n f s = ((), bpf_loop_from f (Z.to_nat n) 0 s).
Proof. intros. unfold run_loop, bpf_loop. by destruct (Z.ltb_spec BPF_MAX_LOOPS n); [lia|]. Qed.

Lemma power_run s : h_pow (k_ghash_scratch s) = gf128_one → 0 < ghash_h_power_val (k_ghash_scratch s) →
  ∃ s', run_loop 11 h_power_step s = ((), s') ∧ but_power s' = but_power s ∧
    h_pow (k_ghash_scratch s') = gf128_h_power_table (k_h_power_entries s) (ghash_h_power_val (k_ghash_scratch s)).
Proof.
  intros H1 Hp. rewrite run_loop_eq by done. eexists. split; [reflexivity|].
  destruct (power_loop (Z.to_nat 11) 0 s ltac:(lia) ltac:(lia) Hp) as [B P]. cbn zeta in *.
  split; [exact B|]. rewrite P, H1. reflexivity.
Qed.

(** *** A block, the blocks of a patch *)

(** The patch in the work area, of a record of [ct_len] bytes in [n] blocks. *)
Definition patch_fits (off len n : Z) (xd : bytes) : Prop :=
  0 ≤ off ∧ 1 ≤ len ≤ 128 ∧ off + len ≤ 16384 ∧ off + len ≤ 16 * n ∧ n ≤ 1152 ∧ bytes_ok xd.
Definition work_fits (w : ghash_work) : Prop :=
  patch_fits (ghash_secret_offset w) (ghash_patch_len w) (ghash_ct_blocks w) (ghash_xor_delta w) ∧
  block (tag_delta w).
Definition work_delta (w : ghash_work) : Z → Z :=
  patch_delta (ghash_xor_delta w) (ghash_secret_offset w) (ghash_patch_len w).

(** The contribution of block [b] to the tag of [n] blocks. *)
Definition term (h : Z) (δ : Z → Z) (n b : nat) : Z := mul (delta_at δ b) (pow h (n - b + 1)).

Lemma tag_correction_terms h δ n : tag_correction h δ n = xsum (term h δ n) n.
Proof. unfold tag_correction, term. apply xsum_ext. intros b _. done. Qed.

(** What of the work area a block leaves alone. *)
Definition block_view (s : kst) :=
  (k_h_power_entries s, ghash_ct_blocks (k_ghash_scratch s), ghash_first_block (k_ghash_scratch s),
   ghash_secret_offset (k_ghash_scratch s), ghash_patch_len (k_ghash_scratch s), ghash_xor_delta (k_ghash_scratch s)).
Lemma block_view_but s s' : but_block s' = but_block s → block_view s' = block_view s.
Proof. by apply (frame but_block block_view). Qed.

Lemma block_step h k s :
  block h → is_power_table h (k_h_power_entries s) → work_fits (k_ghash_scratch s) →
  0 ≤ k → 0 ≤ ghash_first_block (k_ghash_scratch s) →
  let b := ghash_first_block (k_ghash_scratch s) + k in
  b < ghash_ct_blocks (k_ghash_scratch s) → b < 1024 →
  ∃ s', ghash_block_iter k s = (false, s') ∧ but_block s' = but_block s ∧ block (tag_delta (k_ghash_scratch s')) ∧
    be_val (tag_delta (k_ghash_scratch s')) = Z.lxor (be_val (tag_delta (k_ghash_scratch s)))
      (term (be_val h) (work_delta (k_ghash_scratch s)) (Z.to_nat (ghash_ct_blocks (k_ghash_scratch s))) (Z.to_nat b)).
Proof.
  intros Hh Ht [(Ho & Hl & H16 & Hfit & Hn & Hx) Hd] Hk Hf b Hb Hb2. unfold ghash_block_iter, on_work. mrun.
  rewrite (u32_small (_ + k)) by lia. fold b.
  destruct (Z.leb_spec (ghash_ct_blocks (k_ghash_scratch s)) b); [lia|].
  set (n := ghash_ct_blocks (k_ghash_scratch s)) in *. rewrite (u32_small (n - b)), (u32_small (n - b + 1)) by lia.
  set (δ := ghash_block_delta _ _ _ _). set (s1 := s <| k_ghash_scratch := _ |>).
  destruct (power_run s1) as (s2 & -> & B1 & P1); [reflexivity|change (0 < n - b + 1); lia|].
  change (k_h_power_entries s1) with (k_h_power_entries s) in P1.
  change (ghash_h_power_val (k_ghash_scratch s1)) with (n - b + 1) in P1.
  assert (D2 : block_delta (k_ghash_scratch s2) = δ).
  { rewrite (frame but_power (λ s, block_delta (k_ghash_scratch s)) s1 s2); done. }
  assert (T2 : tag_delta (k_ghash_scratch s2) = tag_delta (k_ghash_scratch s)).
  { rewrite (frame but_power (λ s, tag_delta (k_ghash_scratch s)) s1 s2); done. }
  destruct (h_power_table_spec h (k_h_power_entries s) (n - b + 1) Hh Ht ltac:(lia)) as [Bp Ep].
  rewrite <- P1 in Bp, Ep.
  destruct (block_delta_spec (ghash_xor_delta (k_ghash_scratch s)) b (ghash_secret_offset (k_ghash_scratch s))
    (ghash_patch_len (k_ghash_scratch s)) Hx ltac:(lia) ltac:(lia) ltac:(lia)) as [Bd Ed]. fold δ in Bd, Ed.
  destruct (mul_run (block_delta (k_ghash_scratch s2)) (h_pow (k_ghash_scratch s2)) s2) as [Hm Hfr].
  destruct (mul_in_work _ (h_pow (k_ghash_scratch s2)) s2) as [z s3]. cbn [fst snd] in *. subst z.
  assert (T3 : tag_delta (k_ghash_scratch s3) = tag_delta (k_ghash_scratch s2)).
  { by apply (frame but_mul (λ s, tag_delta (k_ghash_scratch s))). }
  eexists. split; [reflexivity|]. rewrite D2 in *.
  split; [transitivity (but_block s2); [exact (f_equal but_block Hfr)|exact (f_equal but_block B1)]|].
  cbn [k_ghash_scratch]. change (tag_delta (k_ghash_scratch (_ <| k_ghash_scratch := ?w <| tag_delta := ?x |> |>))) with x.
  rewrite T3, T2. destruct (mul_spec δ (h_pow (k_ghash_scratch s2)) Bd Bp) as [Bz Ez].
  destruct Bz as [Lz Oz], Hd as [Ld Od]. split.
  - split; [by rewrite length_xor_bytes by lia|by apply bytes_ok_xor].
  - rewrite be_val_xor by (done || lia). f_equal. rewrite Ez, Ed, Ep. unfold term, work_delta. do 2 f_equal. lia.
Qed.

Lemma block_loop h m : ∀ k s,
  block h → is_power_table h (k_h_power_entries s) → work_fits (k_ghash_scratch s) →
  0 ≤ k → 0 ≤ ghash_first_block (k_ghash_scratch s) →
  ghash_first_block (k_ghash_scratch s) + k + Z.of_nat m ≤ ghash_ct_blocks (k_ghash_scratch s) →
  ghash_first_block (k_ghash_scratch s) + k + Z.of_nat m ≤ 1024 →
  let s' := bpf_loop_from ghash_block_iter m k s in
  but_block s' = but_block s ∧ block (tag_delta (k_ghash_scratch s')) ∧
  be_val (tag_delta (k_ghash_scratch s')) = Z.lxor (be_val (tag_delta (k_ghash_scratch s)))
    (xsum (λ i, term (be_val h) (work_delta (k_ghash_scratch s)) (Z.to_nat (ghash_ct_blocks (k_ghash_scratch s)))
       (Z.to_nat (ghash_first_block (k_ghash_scratch s) + k) + i)) m).
Proof.
  induction m as [|m IH]; intros k s Hh Ht Hw Hk Hf Hb Hb2; cbn zeta.
  { cbn. rewrite Z.lxor_0_r. split; [done|]. by destruct Hw. }
  cbn [bpf_loop_from]. destruct (block_step h k s Hh Ht Hw Hk Hf ltac:(lia) ltac:(lia)) as (s1 & -> & B & Bt & Et).
  pose proof (block_view_but s s1 B) as V. unfold block_view in V. injection V as V1 V2 V3 V4 V5 V6.
  destruct Hw as [Hp Hd]. destruct (IH (k + 1) s1) as (B2 & Bt2 & Et2);
    rewrite ?V1, ?V2, ?V3; try done; try lia.
  { split; [by rewrite V2, V4, V5, V6|done]. }
  cbn zeta in *. split; [by rewrite B2|]. split; [done|]. rewrite Et2, Et, Z.lxor_assoc. f_equal.
  unfold work_delta. rewrite V2, V3, V4, V5, V6. change (S m) with (1 + m)%nat. rewrite xsum_add.
  cbn [xsum]. rewrite Z.lxor_0_l, Nat.add_0_r. apply (f_equal (Z.lxor _)), xsum_ext. intros i _.
  by replace (Z.to_nat (ghash_first_block (k_ghash_scratch s) + (k + 1)) + i)%nat
    with (Z.to_nat (ghash_first_block (k_ghash_scratch s) + k) + (1 + i))%nat by lia.
Qed.

(** *** A patch, all patches *)

(** The change a staged patch makes; a patch that was not applied makes none. *)
Definition patch_fn (x : xor_patch) : Z → Z :=
  if secret_len x =? 0 then λ _, 0 else patch_delta (xor_delta x) (secret_offset x) (secret_len x).
Definition total_delta (ps : list xor_patch) (p : Z) : Z :=
  fold_right (λ x a, Z.lxor (patch_fn x p) a) 0 ps.

Definition patch_ok (n : Z) (x : xor_patch) : Prop :=
  0 ≤ secret_offset x ∧ 0 ≤ secret_len x ≤ 128 ∧ (secret_len x ≠ 0 → secret_offset x + secret_len x ≤ Z.min 16384 (16 * n)) ∧
  bytes_ok (xor_delta x).

Lemma patch_fn_byte n x p : patch_ok n x → byte (patch_fn x p).
Proof.
  intros (_ & _ & _ & Hx). unfold patch_fn, patch_delta.
  destruct (_ =? 0); [done|]. destruct (_ && _); [by apply byte_at_range|done].
Qed.

Lemma total_delta_byte n ps p : Forall (patch_ok n) ps → byte (total_delta ps p).
Proof. induction 1; [done|]. cbn. apply byte_lxor; [by eapply patch_fn_byte|done]. Qed.

(** The blocks of a patch carry all of its correction. *)
Lemma patch_blocks h n x : patch_ok n x → secret_len x ≠ 0 →
  let first := secret_offset x / 16 in
  let num := (secret_offset x + secret_len x - 1) / 16 - first + 1 in
  0 ≤ num ≤ 9 ∧ first + num ≤ n ∧ first + num ≤ 1024 ∧
  xsum (λ i, term h (patch_fn x) (Z.to_nat n) (Z.to_nat first + i)) (Z.to_nat num) =
    tag_correction h (patch_fn x) (Z.to_nat n).
Proof.
  intros (Ho & Hl & Hf & Hx) H0 first num. specialize (Hf H0).
  assert (Hnum : 0 ≤ num ≤ 9 ∧ first + num ≤ n ∧ first + num ≤ 1024 ∧ 0 ≤ first) by (unfold num, first; Z.div_mod_to_equations; lia).
  destruct Hnum as (Hn1 & Hn2 & Hn4 & Hn3). split; [done|]. split; [done|]. split; [done|].
  rewrite tag_correction_terms. symmetry. apply (xsum_window (term h (patch_fn x) (Z.to_nat n))); [lia|].
  intros b Hb Hout. unfold term. rewrite delta_at_zero; [apply mul_0_l|].
  intros i Hi. unfold patch_fn, patch_delta. destruct (Z.eqb_spec (secret_len x) 0); [done|].
  destruct (Z.leb_spec (secret_offset x) (16 * Z.of_nat b + i)), (Z.ltb_spec (16 * Z.of_nat b + i) (secret_offset x + secret_len x));
    try done. exfalso. apply Hout. unfold num, first in *. Z.div_mod_to_equations; lia.
Qed.

(** What of the work area a patch leaves alone. *)
Definition patch_view (s : kst) :=
  (k_h_power_entries s, ghash_ct_blocks (k_ghash_scratch s), staged_pending (k_ghash_scratch s)).
Lemma patch_view_but s s' : but_patch s' = but_patch s → patch_view s' = patch_view s.
Proof. by apply (frame but_patch patch_view). Qed.

Lemma patch_step h p s :
  block h → is_power_table h (k_h_power_entries s) → block (tag_delta (k_ghash_scratch s)) →
  0 ≤ p < 4 → 0 ≤ ghash_ct_blocks (k_ghash_scratch s) ≤ 1152 →
  let n := ghash_ct_blocks (k_ghash_scratch s) in
  let x := nth_patch (xp_patches (staged_pending (k_ghash_scratch s))) p in
  patch_ok n x →
  ∃ s', ghash_patch_iter p s = (false, s') ∧ but_patch s' = but_patch s ∧ block (tag_delta (k_ghash_scratch s')) ∧
    be_val (tag_delta (k_ghash_scratch s')) = Z.lxor (be_val (tag_delta (k_ghash_scratch s)))
      (tag_correction (be_val h) (patch_fn x) (Z.to_nat n)).
Proof.
  intros Hh Ht Hd Hp Hn n x Hx. unfold ghash_patch_iter, on_work. mrun. unfold XOR_MAX_PATCHES.
  change (4 - 1) with (2 ^ 2 - 1). rewrite land_mask, Z.mod_small by lia. fold x.
  destruct (Z.eqb_spec (secret_len x) 0) as [E0|E0].
  { exists s. split; [done|]. split; [done|]. split; [done|]. unfold patch_fn. rewrite E0. cbn [Z.eqb].
    by rewrite tag_correction_0, Z.lxor_0_r. }
  destruct (patch_blocks (be_val h) n x Hx E0) as (H1 & H2 & H2' & H3). pose proof Hx as (Ho & Hl & Hf & Hxd).
  specialize (Hf E0). rewrite clamp_id by lia.
  rewrite (u32_small (secret_offset x + secret_len x)), (u32_small (secret_offset x + secret_len x - 1)) by lia.
  set (first := secret_offset x / 16) in *. set (last := (_ - 1) / 16) in *.
  assert (0 ≤ first ≤ last ∧ last < 2 ^ 32 - 1).
  { unfold first, last. change (2 ^ 32) with 4294967296. Z.div_mod_to_equations; lia. }
  change (2 ^ 32) with 4294967296 in *.
  rewrite (u32_small (last - first)), (u32_small (last - first + 1)) by lia. set (num := last - first + 1) in *.
  replace (if 9 <? num then 9 else num) with num by (destruct (Z.ltb_spec 9 num); lia).
  set (s1 := s <| k_ghash_scratch := _ |>). rewrite run_loop_eq by (unfold BPF_MAX_LOOPS; lia).
  assert (Ed : work_delta (k_ghash_scratch s1) = patch_fn x).
  { unfold patch_fn. by destruct (Z.eqb_spec (secret_len x) 0). }
  destruct (block_loop h (Z.to_nat num) 0 s1 Hh) as (B & Bt & Et); try done.
  { split; [|done]. change (patch_fits (secret_offset x) (secret_len x) n (xor_delta x)).
    unfold patch_fits. split_and!; try done; lia. }
  { change (0 ≤ first). lia. }
  { change (first + 0 + Z.of_nat (Z.to_nat num) ≤ n). lia. }
  { change (first + 0 + Z.of_nat (Z.to_nat num) ≤ 1024). lia. }
  cbn zeta in *. eexists. split; [reflexivity|]. split; [exact (f_equal but_patch B)|]. split; [exact Bt|].
  rewrite Et, Ed. change (tag_delta (k_ghash_scratch s1)) with (tag_delta (k_ghash_scratch s)).
  apply (f_equal (Z.lxor _)). rewrite <- H3.
  change (ghash_ct_blocks (k_ghash_scratch s1)) with n. change (ghash_first_block (k_ghash_scratch s1)) with first.
  by rewrite Z.add_0_r.
Qed.

Lemma patch_loop h m : ∀ p s,
  block h → is_power_table h (k_h_power_entries s) → block (tag_delta (k_ghash_scratch s)) →
  0 ≤ ghash_ct_blocks (k_ghash_scratch s) ≤ 1152 → (p + m <= 4)%nat →
  length (xp_patches (staged_pending (k_ghash_scratch s))) = 4%nat →
  let n := ghash_ct_blocks (k_ghash_scratch s) in
  let xs := take m (drop p (xp_patches (staged_pending (k_ghash_scratch s)))) in
  Forall (patch_ok n) xs →
  let s' := bpf_loop_from ghash_patch_iter m (Z.of_nat p) s in
  but_patch s' = but_patch s ∧ block (tag_delta (k_ghash_scratch s')) ∧
  be_val (tag_delta (k_ghash_scratch s')) = Z.lxor (be_val (tag_delta (k_ghash_scratch s)))
    (tag_correction (be_val h) (total_delta xs) (Z.to_nat n)).
Proof.
  induction m as [|m IH]; intros p s Hh Ht Hd Hn Hm Hl n xs Hxs; cbn zeta.
  { split; [done|]. split; [done|]. unfold xs. rewrite take_0. unfold total_delta. cbn [fold_right bpf_loop_from].
    by rewrite tag_correction_0, Z.lxor_0_r. }
  set (ps := xp_patches (staged_pending (k_ghash_scratch s))) in *.
  destruct (lookup_lt_is_Some_2 ps p ltac:(lia)) as [x Ex].
  assert (Exs : xs = x :: take m (drop (S p) ps)) by (unfold xs; by rewrite (drop_S _ _ _ Ex)).
  rewrite Exs in Hxs |- *. apply Forall_cons in Hxs as [Hx Hxs].
  assert (Enth : nth_patch ps (Z.of_nat p) = x) by (unfold nth_patch; by rewrite Nat2Z.id, nth_lookup, Ex).
  cbn [bpf_loop_from].
  destruct (patch_step h (Z.of_nat p) s Hh Ht Hd ltac:(lia) Hn) as (s1 & -> & B & Bt & Et).
  { fold ps. by rewrite Enth. }
  fold ps in Et. rewrite Enth in Et. fold n in Et.
  pose proof (patch_view_but s s1 B) as V. unfold patch_view in V. injection V as V1 V2 V3.
  replace (Z.of_nat p + 1) with (Z.of_nat (S p)) by lia.
  destruct (IH (S p) s1) as (B2 & Bt2 & Et2); rewrite ?V1, ?V2, ?V3; try done; try lia.
  cbn zeta in *. rewrite V2, V3 in Et2. fold ps n in Et2. split; [by rewrite B2|]. split; [done|].
  rewrite Et2, Et, Z.lxor_assoc. apply (f_equal (Z.lxor _)).
  unfold total_delta at 2. cbn [fold_right]. fold (total_delta (take m (drop (S p) ps))).
  change (λ p0, Z.lxor (patch_fn x p0) (fold_right (λ x a, Z.lxor (patch_fn x p0) a) 0 (take m (drop (S p) ps))))
    with (λ p0, Z.lxor (patch_fn x p0) (total_delta (take m (drop (S p) ps)) p0)).
  rewrite tag_correction_lxor; [done| |]; intros q; [by eapply patch_fn_byte|by eapply total_delta_byte].
Qed.

(** *** The program *)

Definition but_ghash (s : kst) : kst :=
  (but_patch s) <| k_h_power_entries := [] |>
    <| k_ghash_scratch := (k_ghash_scratch (but_patch s)) <| ghash_ct_blocks := 0 |> |>.

Lemma but_patch_ghash s s' : but_patch s' = but_patch s → but_ghash s' = but_ghash s.
Proof. apply (frame but_patch but_ghash). frame_by_cases. Qed.
Lemma but_table_ghash s s' : but_table s' = but_table s → but_ghash s' = but_ghash s.
Proof. apply (frame but_table but_ghash). frame_by_cases. Qed.
Lemma but_ghash_setup s td n :
  but_ghash (s <| k_ghash_scratch := (k_ghash_scratch s) <| tag_delta := td |> <| ghash_ct_blocks := n |> |>) = but_ghash s.
Proof. revert s. frame_by_cases. Qed.

(** The work area tc_egress_patch leaves for a record: its ciphertext and its
    patches, with the subkey [h] of its connection. *)
Definition staged_ps (s : kst) : list xor_patch :=
  take (Z.to_nat (xp_patch_count (staged_pending (k_ghash_scratch s)))) (xp_patches (staged_pending (k_ghash_scratch s))).
Definition n_blocks_of (s : kst) : Z := (ghash_ct_len (k_ghash_scratch s) + 15) / 16.
Definition ghash_ready (h : bytes) (s : kst) : Prop :=
  conn_h s = Some h ∧ block h ∧ length (k_h_power_entries s) = 16%nat ∧
  0 ≤ ghash_ct_len (k_ghash_scratch s) ≤ 18432 ∧
  0 ≤ xp_patch_count (staged_pending (k_ghash_scratch s)) ≤ 4 ∧
  length (xp_patches (staged_pending (k_ghash_scratch s))) = 4%nat ∧
  Forall (patch_ok (n_blocks_of s)) (staged_ps s).

Lemma compute_spec h s : ghash_ready h s →
  ∃ s', ghash_compute s = ((), s') ∧ but_ghash s' = but_ghash s ∧ block (tag_delta (k_ghash_scratch s')) ∧
    be_val (tag_delta (k_ghash_scratch s')) =
      tag_correction (be_val h) (total_delta (staged_ps s)) (Z.to_nat (n_blocks_of s)).
Proof.
  intros (Hc & Hh & Hl & Hct & Hpc & Hps & Hok). unfold ghash_compute, on_work. mrun.
  rewrite (run_loop_eq 11) by done. change (Z.to_nat 11) with 11%nat.
  destruct (copy_loop h 11 0 s Hc Hh ltac:(lia) Hl) as [B1 T1]; [intros; lia|]. cbn zeta in *.
  change (Z.of_nat 0) with 0 in *. set (s1 := bpf_loop_from copy_h_power_step 11 0 s) in *. clearbody s1.
  pose (f := λ s, (ghash_ct_len (k_ghash_scratch s), staged_pending (k_ghash_scratch s))).
  assert (V : f s1 = f s) by (by apply (frame but_table f)). unfold f in V. injection V as V1 V2. clear f.
  rewrite V1, V2. unfold XOR_MAX_PATCHES.
  set (pc := xp_patch_count _) in *. replace (if 4 <? pc then 4 else pc) with pc by (destruct (Z.ltb_spec 4 pc); lia).
  rewrite (u32_small (ghash_ct_len (k_ghash_scratch s) + 15)) by lia. fold (n_blocks_of s).
  set (s2 := s1 <| k_ghash_scratch := _ |>). rewrite run_loop_eq by (unfold BPF_MAX_LOOPS; lia).
  assert (Hn : 0 ≤ n_blocks_of s ≤ 1152) by (unfold n_blocks_of; Z.div_mod_to_equations; lia).
  assert (Ps : xp_patches (staged_pending (k_ghash_scratch s2)) = xp_patches (staged_pending (k_ghash_scratch s))).
  { change (xp_patches (staged_pending (k_ghash_scratch s1)) = xp_patches (staged_pending (k_ghash_scratch s))). by rewrite V2. }
  assert (Xs : take (Z.to_nat pc) (drop 0 (xp_patches (staged_pending (k_ghash_scratch s2)))) = staged_ps s).
  { by rewrite Ps, drop_0. }
  destruct (patch_loop h (Z.to_nat pc) 0 s2 Hh) as (B2 & Bt & Et); try done.
  { apply block_zeros. }
  { lia. }
  { by rewrite Ps. }
  { by rewrite Xs. }
  cbn zeta in *. rewrite Xs in Et. eexists. split; [reflexivity|]. split.
  - etransitivity; [exact (but_patch_ghash _ _ B2)|]. unfold s2. rewrite but_ghash_setup. by apply but_table_ghash.
  - split; [exact Bt|]. etransitivity; [exact Et|].
    change (tag_delta (k_ghash_scratch s2)) with (zeros 16). rewrite be_val_zeros. apply Z.lxor_0_l.
Qed.

(** The state without the work area, the table and the deferred tags. *)
Definition but_tags (s : kst) : kst :=
  s <| k_ghash_scratch := ghash_work_init |> <| k_h_power_entries := [] |> <| k_tc_tag_pending := ∅ |>.
Lemma but_tags_ghash s s' : but_ghash s' = but_ghash s → but_tags s' = but_tags s.
Proof. apply (frame but_ghash but_tags). intros s0. by destruct s0. Qed.
Lemma but_tags_work s w : but_tags (s <| k_ghash_scratch := w |>) = but_tags s.
Proof. by destruct s. Qed.
Lemma but_tags_tag s m : but_tags (s <| k_tc_tag_pending := m |>) = but_tags s.
Proof. by destruct s. Qed.

(** Where the tag of the record in the work area is in the packet. *)
Definition tag_offset_of (w : ghash_work) : Z := ghash_payload_off w + 5 + ghash_nonce_len w + ghash_ct_len w.

(** The program, on the packet and the deferred tags. *)
Lemma ghash_update_spec h s p :
  ghash_ready h s → ghash_active (k_ghash_scratch s) = true →
  let w := k_ghash_scratch s in
  0 ≤ ghash_payload_off w → 0 ≤ ghash_nonce_len w ≤ 8 → tag_offset_of w < 2 ^ 31 →
  ∃ td s', block td ∧
    be_val td = tag_correction (be_val h) (total_delta (staged_ps s)) (Z.to_nat (n_blocks_of s)) ∧
    but_tags s' = but_tags s ∧
    ghash_active (k_ghash_scratch s') = false ∧
    if tag_offset_of w + 16 <=? zlen (sb_data p) then
      tc_ghash_update p s =
        ((TC_PASS, bpf_skb_store_bytes p (tag_offset_of w) (xor_bytes (slice (sb_data p) (tag_offset_of w) 16) td)), s') ∧
      k_tc_tag_pending s' = k_tc_tag_pending s
    else
      tc_ghash_update p s = ((TC_PASS, p), s') ∧
      k_tc_tag_pending s' = <[ghash_conn_key w := {| tv_tag_delta := td;
        tag_tcp_seq := u32 (ghash_pkt_seq w + ghash_record_tcp_off w + 5 + ghash_nonce_len w + ghash_ct_len w) |}]>
          (k_tc_tag_pending s).
Proof.
  intros Hr Ha w Hp Hn Ht. unfold tc_ghash_update, on_work. mrun. fold w. change (ghash_active w = true) in Ha. rewrite Ha.
  cbn [negb]. cbv iota. set (s1 := s <| k_ghash_scratch := _ |>).
  destruct (compute_spec h s1 Hr) as (s2 & -> & B & Bt & Et). 
  pose (f := λ s, (ghash_ct_len (k_ghash_scratch s), ghash_nonce_len (k_ghash_scratch s),
    ghash_payload_off (k_ghash_scratch s), ghash_conn_key (k_ghash_scratch s), ghash_pkt_seq (k_ghash_scratch s),
    ghash_record_tcp_off (k_ghash_scratch s), ghash_active (k_ghash_scratch s), k_tc_tag_pending s)).
  assert (V : f s2 = f s1) by (by apply (frame but_ghash f)). unfold f in V. injection V as V1 V2 V3 V4 V5 V6 V7 V8.
  clear f. fold w in V1, V2, V3, V4, V5, V6. rewrite V1, V2, V3, V4, V5, V6.
  destruct Hr as (_ & _ & _ & Hct & _). fold w in Hct. unfold tag_offset_of in Ht. change (2 ^ 31) with 2147483648 in Ht.
  rewrite (u32_small (5 + _)), (u32_small (5 + ghash_nonce_len w + _)) by lia.
  rewrite (u32_small (ghash_payload_off w + _)) by lia.
  replace (ghash_payload_off w + (5 + ghash_nonce_len w + ghash_ct_len w)) with (tag_offset_of w) by (unfold tag_offset_of; lia).
  exists (tag_delta (k_ghash_scratch s2)). unfold bpf_skb_load_bytes, in_skb.
  destruct (Z.leb_spec (tag_offset_of w) 0x7FFFFFFF); [|unfold tag_offset_of in *; lia]. cbn [andb].
  assert (Bs : but_tags s2 = but_tags s).
  { rewrite (but_tags_ghash _ _ B). apply but_tags_work. }
  destruct (tag_offset_of w + 16 <=? zlen (sb_data p)).
  - refine (ex_intro _ _ (conj Bt (conj Et (conj _ (conj _ (conj eq_refl V8)))))); [|exact V7]. by rewrite but_tags_work.
  - refine (ex_intro _ _ (conj Bt (conj Et (conj _ (conj _ (conj eq_refl _)))))); [by rewrite but_tags_tag, but_tags_work|exact V7|].
    assert (Es : u32 (ghash_pkt_seq w + ghash_record_tcp_off w + 5 + ghash_nonce_len w + ghash_ct_len w) =
      u32 (u32 (ghash_pkt_seq w + ghash_record_tcp_off w) + (5 + ghash_nonce_len w + ghash_ct_len w))).
    { rewrite u32_add_l. f_equal. lia. }
    rewrite Es, <- V8. reflexivity.
Qed.

End TcGhashFacts.
