(* ===== verification/TcEgress.v ===== *)
(** * Patching a record at tc egress (pkg/ebpf/bpf/tls_uprobe.c)

    [TcEgress]: tc_egress_patch, step by step as its comments divide it: the
    headers, the tag deferred from an earlier segment, the first application_data
    record, the pending entry, the record that carries the write, the staging
    area, the patches, and the tail call to tc_ghash_update. *)

From S2P Require Import Prelude Host TlsRecord VipAddr State Hooks Packet TcGhash.
Import Host TlsRecord Types Kernel Hooks Skb TcGhash.

Module TcEgress.

Definition TC_MAX_LEADING_RECORDS : Z := 4.
Definition TC_MAX_SCAN_RECORDS : Z := 4.
Definition ETH_P_IP : Z := 0x0800.
Definition ETH_P_IPV6 : Z := 0x86DD.

(** *** The headers *)

Record pkt_headers := {
  h_key : tc_dest_key;
  h_seq : Z;             (* pkt_seq *)
  h_payload_off : Z;
  h_payload_len : Z
}.

(** [l3_off]: [None] when the packet is passed. *)
Definition parse_l3_off (p : skb) : option Z :=
  if negb (sb_protocol p =? ETH_P_IP) && negb (sb_protocol p =? ETH_P_IPV6) then None
  else if sb_linear p <? 14 then None
  else Some (if u16_at (sb_data p) 12 =? sb_protocol p then 14 else 0).

(** The socket's remote address, when the packet has a full socket. *)
Definition sk_dst (p : skb) (f : bpf_sock → bytes) (fallback : bytes) : bytes :=
  match sb_sk p with Some (Some sk) => f sk | _ => fallback end.

(** [key.dst_ip], [ip_hdr_len] and [l4_len]. *)
Definition parse_ip (p : skb) (l3_off : Z) : option (bytes * Z * Z) :=
  let d := sb_data p in
  if sb_protocol p =? ETH_P_IP then
    if sb_linear p <? l3_off + 20 then None
    else if negb (d.[l3_off + 9] =? 6) then None
    else
      let ip_hdr_len := Z.land (d.[l3_off]) 0xF * 4 in
      if ip_hdr_len <? 20 then None
      else Some (ipv4_to_mapped (sk_dst p dst_ip4 (slice d (l3_off + 16) 4)), ip_hdr_len,
                 u16_at d (l3_off + 2) -32 ip_hdr_len)
  else
    if sb_linear p <? l3_off + 40 then None
    else if negb (d.[l3_off + 6] =? 6) then None
    else Some (sk_dst p dst_ip6 (slice d (l3_off + 24) 16), 40, u16_at d (l3_off + 4)).

Definition parse_headers (p : skb) : option pkt_headers :=
  match parse_l3_off p with
  | None => None
  | Some l3_off =>
      match parse_ip p l3_off with
      | None => None
      | Some (dst_ip, ip_hdr_len, l4_len) =>
          let d := sb_data p in
          let tcp := l3_off + ip_hdr_len in
          if sb_linear p <? tcp + 20 then None
          else
            let tcp_hdr_len := Z.shiftr (d.[tcp + 12]) 4 * 4 in
            if tcp_hdr_len <? 20 then None
            else Some {| h_key := (dst_ip, u16_at d tcp, sb_cgroup_id p);
                         h_seq := be_val (slice d (tcp + 4) 4);
                         h_payload_off := tcp + tcp_hdr_len;
                         h_payload_len := l4_len -32 tcp_hdr_len |}
      end
  end.

(** *** The deferred tag *)

Definition apply_deferred_tag (p : skb) (h : pkt_headers) (tag : tc_tag_val) : M skb :=
  let tag_seq := tag_tcp_seq tag in
  let pkt_end := h_seq h +32 h_payload_len h in
  if (h_seq h <=? tag_seq) && (tag_seq +32 16 <=? pkt_end) then
    let tag_off := h_payload_off h +32 (tag_seq -32 h_seq h) in
    let p' :=
      match bpf_skb_load_bytes p tag_off 16 with
      | Some old_tag => bpf_skb_store_bytes p tag_off (xor_bytes old_tag (tv_tag_delta tag))
      | None => p
      end in
    modify (λ s, s <| k_tc_tag_pending := delete (h_key h) (k_tc_tag_pending s) |>);;
    mret p'
  else mret p.

(** *** The records of the segment *)

(** The loop over the leading records, [fuel] iterations from [off]: the offset
    and length of the first application_data record. *)
Fixpoint find_appdata (fuel : nat) (p : skb) (off record_len : Z) : option (Z * Z) :=
  match fuel with
  | O => None
  | S fuel' =>
      match bpf_skb_load_bytes p off 5 with
      | None => None
      | Some hdr =>
          let '(kind, record_len) := tls_record_hdr_kind hdr record_len in
          if kind =? TLS_REC_SKIPPABLE then find_appdata fuel' p (off +32 (5 +32 record_len)) record_len
          else if kind =? TLS_REC_APPDATA then Some (off, record_len) else None
      end
  end.

(** The scan for the record that fits, [fuel] iterations from [off]: its offset,
    length and nonce length. *)
Fixpoint scan_records (fuel : nat) (p : skb) (off pt_len nonce_len : Z) (out : Z) : option (Z * Z * Z) :=
  match fuel with
  | O => None
  | S fuel' =>
      match bpf_skb_load_bytes p off 5 with
      | None => None
      | Some hdr =>
          let '(kind, rlen) := tls_record_hdr_kind hdr 0 in
          if kind =? TLS_REC_INVALID then None
          else
            let '(fits, out) :=
              if kind =? TLS_REC_APPDATA then tls_appdata_reclen_match rlen pt_len nonce_len out
              else (false, out) in
            if fits then Some (off, rlen, out)
            else scan_records fuel' p (off +32 (5 +32 rlen)) pt_len nonce_len out
      end
  end.

(** The record to patch: its offset, its length and its nonce length. *)
Definition find_record (p : skb) (off record_len pt_len nonce_len : Z) : Z * Z * Z :=
  let '(matched, out) := tls_appdata_reclen_match record_len pt_len nonce_len 0 in
  let found :=
    if matched then Some (off, record_len, out)
    else if 0 <? pt_len then
      scan_records (Z.to_nat TC_MAX_SCAN_RECORDS) p (off +32 5 +32 record_len) pt_len nonce_len out
    else None in
  match found with
  | Some r => r
  | None => (off, record_len, if nonce_len =? TLS_NONCE_UNKNOWN then 8 else nonce_len)
  end.

(** The nonce length of the connection, when it is known. *)
Definition known_nonce (s : kst) (pending : tc_pending_val) : Z :=
  match k_tls_conn_state s !! (tp_tgid pending, tp_ssl_ptr pending) with
  | Some conn => nonce_len conn
  | None => TLS_NONCE_UNKNOWN
  end.

(** The segment holds the write: [write_seq] is in it, or unknown. *)
Definition seq_matches (pending : tc_pending_val) (h : pkt_headers) : bool :=
  if 0 <? write_seq pending then
    negb ((write_seq pending <? h_seq h) || (h_seq h +32 h_payload_len h <=? write_seq pending))
  else true.

(** *** Staging and patching *)

(** The first [pc] patches of [ps] over those of [old]. *)
Definition copy_patches (pc : Z) (ps old : list xor_patch) : list xor_patch :=
  imap (λ i x, if Z.of_nat i <? pc then nth_patch ps (Z.of_nat i) else x) old.

Definition stage_record (pending : tc_pending_val) (h : pkt_headers) (payload_off record_len nonce : Z) : M unit :=
  let pc := if XOR_MAX_PATCHES <? tp_patch_count pending then XOR_MAX_PATCHES else tp_patch_count pending in
  on_work (λ w,
    w <| staged_pending := (staged_pending w) <| xp_patch_count := pc |>
           <| xp_patches := copy_patches pc (tp_patches pending) (xp_patches (staged_pending w)) |> |>
      <| ghash_ct_len := record_len -32 16 -32 nonce |> <| ghash_nonce_len := nonce |>
      <| ghash_payload_off := payload_off |> <| ghash_tgid := tp_tgid pending |>
      <| ghash_ssl_ptr := tp_ssl_ptr pending |> <| ghash_active := true |> <| ghash_conn_key := h_key h |>
      <| ghash_pkt_seq := h_seq h |> <| ghash_record_tcp_off := payload_off -32 h_payload_off h |>).

(** [ct_buf[i] ^= xor_delta[i]] over the first [n] bytes. *)
Definition xor_first (n : Z) (buf delta : bytes) : bytes :=
  imap (λ i b, if Z.of_nat i <? n then Z.lxor b (delta.[Z.of_nat i]) else b) buf.

(** [secret_len = 0] in the staged patch [i]. *)
Definition drop_staged (i : Z) : M unit :=
  on_work (λ w,
    let x : xor_pending_val := staged_pending w in
    let patch : xor_patch := nth_patch (xp_patches x) i in
    let dropped : xor_patch := patch <| secret_len := 0 |> in
    w <| staged_pending := x <| xp_patches := set_patch i dropped (xp_patches x) |> |>).

(** One patch; the packet, and whether it was applied. *)
Definition apply_patch (i record_len nonce payload_off : Z) (p : skb) : M (skb * bool) :=
  w ← gets k_ghash_scratch;
  let i := Z.land i (XOR_MAX_PATCHES - 1) in
  let patch := nth_patch (xp_patches (staged_pending w)) i in
  if record_len <? (16 +32 nonce +32 secret_len patch) then drop_staged i;; mret (p, false)
  else
    let patch_off := payload_off +32 5 +32 nonce +32 secret_offset patch in
    let patch_len := clamp_write_len (secret_len patch) in
    match bpf_skb_load_bytes p patch_off patch_len with
    | None =>
        on_work (λ w, w <| ct_buf := splice (ct_buf w) 0 (zeros (Z.to_nat patch_len)) |>);;
        drop_staged i;;
        mret (p, false)
    | Some l =>
        let buf := xor_first patch_len (splice (ct_buf w) 0 l) (xor_delta patch) in
        on_work (λ w, w <| ct_buf := buf |>);;
        dbg_inc DBG_TC_PATCHED;;
        mret (bpf_skb_store_bytes p patch_off (take (Z.to_nat patch_len) buf), true)
    end.

Fixpoint apply_patches (fuel : nat) (i pc record_len nonce payload_off applied : Z) (p : skb) : M (skb * Z) :=
  match fuel with
  | O => mret (p, applied)
  | S fuel' =>
      if pc <=? i then mret (p, applied)
      else
        res ← apply_patch i record_len nonce payload_off p;
        let '(p, ok) := (res : skb * bool) in
        apply_patches fuel' (i + 1) pc record_len nonce payload_off (if ok then applied +32 1 else applied) p
  end.

(** *** The program *)

(** [pending->active = 0] *)
Definition deactivate (pending : tc_pending_val) : tc_pending_val := pending <| tp_active := false |>.

(** From the record found on. [loaded]: tc_prog_array has tc_ghash_update. *)
Definition patch_record (loaded : bool) (h : pkt_headers) (pending : tc_pending_val)
    (payload_off record_len nonce : Z) (p : skb) : M (Z * skb) :=
  if record_len <? (16 +32 nonce) then mret (TC_PASS, p)
  else
    stage_record pending h payload_off record_len nonce;;
    pc ← gets (λ s, xp_patch_count (staged_pending (k_ghash_scratch s)));
    '(p, applied) ← apply_patches (Z.to_nat XOR_MAX_PATCHES) 0 pc record_len nonce payload_off 0 p;
    if 0 <? applied then
      modify (λ s, s <| k_tc_pending := alter deactivate (h_key h) (k_tc_pending s) |>);;
      (if loaded then tc_ghash_update p else mret (TC_PASS, p))
    else mret (TC_PASS, p).

(** A segment that starts a record: past the deferred tag. *)
Definition patch_segment (loaded : bool) (h : pkt_headers) (p : skb) : M (Z * skb) :=
  if h_payload_len h <? 5 then mret (TC_PASS, p)
  else
    match find_appdata (Z.to_nat (TC_MAX_LEADING_RECORDS + 1)) p (h_payload_off h) 0 with
    | None => mret (TC_PASS, p)
    | Some (payload_off, record_len) =>
        entry ← gets (λ s, k_tc_pending s !! h_key h);
        match entry with
        | None => mret (TC_PASS, p)
        | Some pending =>
            if negb (tp_active pending) then mret (TC_PASS, p)
            else if negb (seq_matches pending h) then mret (TC_PASS, p)
            else
              dbg_inc DBG_TC_MATCH;;
              nonce ← gets (λ s, known_nonce s pending);
              let '(payload_off, record_len, nonce) :=
                find_record p payload_off record_len (tp_plaintext_len pending) nonce in
              patch_record loaded h pending payload_off record_len nonce p
        end
    end.

Definition tc_egress_patch (loaded : bool) (p : skb) : M (Z * skb) :=
  dbg_inc DBG_TC_ENTRY;;
  match parse_headers p with
  | None => mret (TC_PASS, p)
  | Some h =>
      tag ← gets (λ s, k_tc_tag_pending s !! h_key h);
      match tag with
      | Some tag => p ← apply_deferred_tag p h tag; mret (TC_PASS, p)
      | None => patch_segment loaded h p
      end
  end.

End TcEgress.
