(* ===== verification/TcFacts.v ===== *)
(** * What tc_egress_patch does to a segment

    [TcRecords]: the records of a segment, and the one the program picks.
    [TcPatches]: the patches it applies, on the packet and the work area.
    [TcFacts]: the program. *)

From S2P Require Import Prelude GF128 Host TlsRecord Ghash State Hooks Packet TcGhash TcEgress.
Import Host TlsRecord Types Kernel Hooks Skb SkbFacts TcEgress.

Module TcRecords.

(** A record: its type, minor version and length. *)
Record tls_rec := { r_ct : Z; r_minor : Z; r_len : Z }.
Definition rec_hdr (r : tls_rec) : bytes := header (r_ct r) (r_minor r) (r_len r).
Definition rec_ok (r : tls_rec) : Prop := 0 ≤ r_minor r ≤ 3 ∧ legal_len (r_ct r) (r_len r).
Definition rec_app (r : tls_rec) : Prop := r_ct r = TLS_CT_APPLICATION_DATA.

Fixpoint size (rs : list tls_rec) : Z :=
  match rs with [] => 0 | r :: rs' => 5 + r_len r + size rs' end.

(** [d] has the records [rs] from [off] on, each with its whole header; the body
    of the last may be cut off. *)
Fixpoint records_at (d : bytes) (off : Z) (rs : list tls_rec) : Prop :=
  match rs with
  | [] => True
  | r :: rs' => rec_ok r ∧ holds d off (rec_hdr r) ∧ off + 5 ≤ zlen d ∧ records_at d (off + 5 + r_len r) rs'
  end.

Lemma size_app rs rs' : size (rs ++ rs') = size rs + size rs'.
Proof. induction rs as [|r rs IH]; cbn [size app]; lia. Qed.

Lemma records_at_app d off rs rs' : records_at d off (rs ++ rs') ↔ records_at d off rs ∧ records_at d (off + size rs) rs'.
Proof.
  revert off. induction rs as [|r rs IH]; intros off; cbn [records_at app size].
  - rewrite Z.add_0_r. tauto.
  - rewrite IH. replace (off + 5 + r_len r + size rs) with (off + (5 + r_len r + size rs)) by lia. tauto.
Qed.

Lemma rec_len_bounds r : rec_ok r → 1 ≤ r_len r ≤ 18432.
Proof. intros [_ H]. unfold legal_len, TLS_MAX_RECORD_LEN in H. lia. Qed.

Lemma size_nonneg d off rs : records_at d off rs → 0 ≤ size rs.
Proof.
  revert off. induction rs as [|r rs IH]; intros off; cbn [records_at size]; [lia|].
  intros (Hr & _ & _ & H). apply rec_len_bounds in Hr. apply IH in H. lia.
Qed.

(** The header the program loads, and what it makes of it. *)
Lemma load_header p off r rl :
  bytes_ok (sb_data p) → zlen (sb_data p) < 2 ^ 31 → 0 ≤ off →
  rec_ok r → holds (sb_data p) off (rec_hdr r) → off + 5 ≤ zlen (sb_data p) →
  ∃ hdr, bpf_skb_load_bytes p off 5 = Some hdr ∧ tls_record_hdr_kind hdr rl = (kind_of (r_ct r), r_len r).
Proof.
  intros Hb Hz Ho [Hm Hl] Hh He. change (2 ^ 31) with 2147483648 in Hz. rewrite load_Some by lia.
  eexists. split; [reflexivity|]. change (Z.to_nat 5) with 5%nat. apply hdr_kind_iff.
  - by rewrite length_slice by lia.
  - by apply slice_ok.
  - unfold kind_of, TLS_REC_INVALID, TLS_REC_APPDATA, TLS_REC_SKIPPABLE. by destruct (_ =? _).
  - exists (r_ct r), (r_minor r). split; [|done]. unfold holds in Hh. change (length (rec_hdr r)) with 5%nat in Hh.
    fold (rec_hdr r). rewrite <- Hh. apply byte_list_ext; [by rewrite length_slice, length_window by lia|].
    intros i Hi. unfold zlen in Hi. rewrite length_slice in Hi by lia. by rewrite byte_at_slice, byte_at_window by lia.
Qed.

(** The first application_data record, after at most [fuel - 1] others. *)
Lemma find_appdata_spec p r : bytes_ok (sb_data p) → zlen (sb_data p) < 2 ^ 31 → rec_app r →
  ∀ leads fuel off rl, 0 ≤ off → (length leads < fuel)%nat → Forall (λ x, ¬ rec_app x) leads →
  records_at (sb_data p) off (leads ++ [r]) →
  find_appdata fuel p off rl = Some (off + size leads, r_len r).
Proof.
  intros Hb Hz Hr. induction leads as [|x leads IH]; intros fuel off rl Ho Hf Hs (Hx & Hh & He & H);
    (destruct fuel as [|fuel]; [cbn in Hf; lia|]); cbn [find_appdata].
  - destruct (load_header p off r rl Hb Hz Ho Hx Hh He) as (hdr & -> & ->). rewrite Hr. cbn. by rewrite Z.add_0_r.
  - destruct (load_header p off x rl Hb Hz Ho Hx Hh He) as (hdr & -> & ->).
    apply Forall_cons in Hs as [Hxs Hs]. unfold kind_of. unfold rec_app in Hxs.
    destruct (Z.eqb_spec (r_ct x) TLS_CT_APPLICATION_DATA); [done|]. cbn [Z.eqb].
    change (TLS_REC_SKIPPABLE =? TLS_REC_SKIPPABLE) with true. cbv iota.
    pose proof (rec_len_bounds x Hx). change (2 ^ 31) with 2147483648 in Hz.
    rewrite (u32_small (5 + _)) by lia. rewrite u32_small by lia.
    rewrite IH; try done; [|lia|cbn in Hf; lia|by replace (off + (5 + r_len x)) with (off + 5 + r_len x) by lia].
    cbn [size]. do 2 f_equal. lia.
Qed.

(** *** The record the write is in *)

(** The record of a write of [pt] bytes on a connection of nonce length [nonce],
    with [n] nonce bytes of its own. *)
Definition fits (pt nonce len n : Z) : Prop :=
  0 < pt ∧ (n = 0 ∨ n = 8) ∧ len = gcm_record_len pt n ∧ (nonce = TLS_NONCE_UNKNOWN ∨ nonce = n).
Definition no_fit (pt nonce : Z) (r : tls_rec) : Prop := rec_app r → ∀ n, ¬ fits pt nonce (r_len r) n.

Section Scan.
Context (p : skb) (pt nonce : Z).
Context (Hb : bytes_ok (sb_data p)) (Hz : zlen (sb_data p) < 2 ^ 31).
Context (Hpt : 0 ≤ pt < 2 ^ 32 - 24) (Hn : nonce ∈ [0; 8; TLS_NONCE_UNKNOWN]).

Lemma match_fits len out n : 0 ≤ len → fits pt nonce len n →
  tls_appdata_reclen_match len pt nonce out = (true, n).
Proof using Hpt Hn. intros Hl H. by apply reclen_match_iff. Qed.

Lemma match_no_fit len out : 0 ≤ len → (∀ n, ¬ fits pt nonce len n) →
  tls_appdata_reclen_match len pt nonce out = (false, out).
Proof using Hpt Hn.
  intros Hl H. destruct (tls_appdata_reclen_match len pt nonce out) as [[] n] eqn:E.
  - exfalso. apply (H n). by apply (reclen_match_iff len pt nonce out n Hpt Hl Hn).
  - revert E. unfold tls_appdata_reclen_match. repeat case_match; congruence.
Qed.

Lemma scan_records_spec r n : rec_app r → fits pt nonce (r_len r) n →
  ∀ mids fuel off out, 0 ≤ off → (length mids < fuel)%nat → Forall (no_fit pt nonce) mids →
  records_at (sb_data p) off (mids ++ [r]) →
  scan_records fuel p off pt nonce out = Some (off + size mids, r_len r, n).
Proof using All.
  intros Hr Hfit. induction mids as [|x mids IH]; intros fuel off out Ho Hf Hs (Hx & Hh & He & H);
    (destruct fuel as [|fuel]; [cbn in Hf; lia|]); cbn [scan_records].
  - destruct (load_header p off r 0 Hb Hz Ho Hx Hh He) as (hdr & -> & ->). rewrite Hr. cbn [kind_of].
    change (kind_of TLS_CT_APPLICATION_DATA) with TLS_REC_APPDATA.
    change (TLS_REC_APPDATA =? TLS_REC_INVALID) with false. change (TLS_REC_APPDATA =? TLS_REC_APPDATA) with true.
    cbv iota. rewrite (match_fits _ _ n) by (done || apply rec_len_bounds in Hx; lia). cbn [size]. by rewrite Z.add_0_r.
  - destruct (load_header p off x 0 Hb Hz Ho Hx Hh He) as (hdr & -> & ->).
    apply Forall_cons in Hs as [Hxs Hs]. pose proof (rec_len_bounds x Hx). change (2 ^ 31) with 2147483648 in Hz.
    assert (Hk : (kind_of (r_ct x) =? TLS_REC_INVALID) = false) by (unfold kind_of; by destruct (r_ct x =? _)). rewrite Hk.
    assert (Em : (if kind_of (r_ct x) =? TLS_REC_APPDATA then tls_appdata_reclen_match (r_len x) pt nonce out
                  else (false, out)) = (false, out)).
    { destruct (Z.eqb_spec (kind_of (r_ct x)) TLS_REC_APPDATA) as [Ek|]; [|done]. apply match_no_fit; [lia|].
      apply Hxs. unfold kind_of in Ek. unfold rec_app. by destruct (Z.eqb_spec (r_ct x) TLS_CT_APPLICATION_DATA). }
    rewrite Em. rewrite (u32_small (5 + _)) by lia. rewrite u32_small by lia.
    rewrite IH; try done; [|lia|cbn in Hf; lia|by replace (off + (5 + r_len x)) with (off + 5 + r_len x) by lia].
    cbn [size]. do 3 f_equal. lia.
Qed.

(** The records of a segment: some that carry no application data, application
    data that does not fit the write, and the record [r] that does. *)
Record segment_of (d : bytes) (off : Z) (leads others : list tls_rec) (r : tls_rec) (n : Z) : Prop := {
  seg_at : records_at d off (leads ++ others ++ [r]);
  seg_leads : Forall (λ x, ¬ rec_app x) leads ∧ (length leads <= 4)%nat;
  seg_others : match others with [] => True | x :: _ => rec_app x end ∧
    Forall (no_fit pt nonce) others ∧ (length others <= 4)%nat;
  seg_rec : rec_app r ∧ fits pt nonce (r_len r) n
}.

Lemma find_record_spec off leads others r n : 0 ≤ off → segment_of (sb_data p) off leads others r n →
  ∃ off' len', find_appdata (Z.to_nat (TC_MAX_LEADING_RECORDS + 1)) p off 0 = Some (off', len') ∧
    find_record p off' len' pt nonce = (off + size (leads ++ others), r_len r, n).
Proof using All.
  intros Ho [Hat [Hl Hl4] (Ho1 & Hof & Ho4) [Hr Hfit]]. change (Z.to_nat (TC_MAX_LEADING_RECORDS + 1)) with 5%nat.
  rewrite size_app. destruct others as [|x mids].
  - exists (off + size leads), (r_len r). split; [apply find_appdata_spec; try done; lia|].
    unfold find_record. cbn [app] in Hat. apply records_at_app in Hat as [_ (Hok & _)]. apply rec_len_bounds in Hok.
    rewrite (match_fits _ _ n) by (done || lia). cbn [size]. by rewrite Z.add_0_r.
  - assert (Hat' : records_at (sb_data p) off (leads ++ [x])).
    { rewrite !records_at_app in Hat |- *. destruct Hat as (H1 & (H2 & H3 & H4 & _)). by split. }
    exists (off + size leads), (r_len x). split; [apply find_appdata_spec; try done; lia|].
    unfold find_record. rewrite records_at_app in Hat. destruct Hat as (H1 & (H2 & H3 & H4 & H5)).
    apply Forall_cons in Hof as [Hx Hof]. pose proof (rec_len_bounds x H2). pose proof (size_nonneg _ _ _ H1).
    rewrite match_no_fit by (lia || by apply Hx). destruct (Z.ltb_spec 0 pt); [|by destruct Hfit; lia].
    change (2 ^ 31) with 2147483648 in Hz. rewrite (u32_small (off + size leads + 5)) by lia. rewrite u32_small by lia.
    rewrite (scan_records_spec r n Hr Hfit mids) by (done || lia).
    cbn [size]. do 2 f_equal. lia.
Qed.

End Scan.
End TcRecords.

Module TcPatches.
Import TcGhash TcGhashFacts GhashCode.

Definition put (p : skb) (d : bytes) : skb := p <| sb_data := d |>.

(** [d'] is [d] with the bytes from [base] on changed by [δ]. *)
Definition changed (base : Z) (δ : Z → Z) (d d' : bytes) : Prop :=
  zlen d' = zlen d ∧ bytes_ok d' ∧ ∀ q, 0 ≤ q < zlen d → d'.[q] = Z.lxor (d.[q]) (δ (q - base)).

Lemma changed_refl base δ d : bytes_ok d → (∀ q, δ q = 0) → changed base δ d d.
Proof. intros Hd H. split; [done|]. split; [done|]. intros q _. by rewrite H, Z.lxor_0_r. Qed.

Lemma changed_trans base δ1 δ2 d d1 d2 : changed base δ1 d d1 → changed base δ2 d1 d2 →
  changed base (λ q, Z.lxor (δ1 q) (δ2 q)) d d2.
Proof.
  intros (L1 & _ & H1) (L2 & O2 & H2). split; [by rewrite L2|]. split; [done|].
  intros q Hq. by rewrite H2, H1, Z.lxor_assoc by lia.
Qed.

(** What the patches leave alone of the state. *)
Definition but_apply (s : kst) : kst :=
  s <| k_debug_counters := λ _, 0 |>
    <| k_ghash_scratch := (k_ghash_scratch s) <| ct_buf := [] |>
      <| staged_pending := (staged_pending (k_ghash_scratch s)) <| xp_patches := [] |> |> |>.

Definition patches_of (s : kst) : list xor_patch := xp_patches (staged_pending (k_ghash_scratch s)).

(** A patch of a write that fits one record. *)
Definition staged_ok (x : xor_patch) : Prop :=
  0 ≤ secret_offset x ∧ 1 ≤ secret_len x ≤ 128 ∧ secret_offset x + secret_len x ≤ 16384 ∧ bytes_ok (xor_delta x).

(** The bytes loaded and the delta, as they are stored back. *)
Lemma xor_first_take n b l δ : 0 ≤ n ≤ zlen b → zlen l = n →
  let r := take (Z.to_nat n) (xor_first n (splice b 0 l) δ) in
  zlen r = n ∧ ∀ j, 0 ≤ j < n → r.[j] = Z.lxor (l.[j]) (δ.[j]).
Proof.
  intros Hn Hl r. assert (L : zlen (splice b 0 l) = zlen b) by (apply zlen_splice; lia).
  unfold zlen in *. split.
  - unfold r, xor_first. rewrite length_take, length_imap. lia.
  - intros j Hj. unfold r. rewrite byte_at_take by lia. unfold xor_first.
    rewrite byte_at_lookup, list_lookup_imap by lia.
    destruct (lookup_lt_is_Some_2 (splice b 0 l) (Z.to_nat j) ltac:(lia)) as [v Ev]. rewrite Ev. cbn [fmap option_fmap option_map default from_option].
    unfold id. rewrite Z2Nat.id by lia. destruct (Z.ltb_spec j n); [|lia].
    assert (Ej : (splice b 0 l).[j] = l.[j]).
    { rewrite byte_at_splice by (unfold zlen; lia). unfold zlen.
      destruct (Z.leb_spec 0 j), (Z.ltb_spec j (0 + Z.of_nat (length l))); try lia. cbn [andb]. f_equal. lia. }
    rewrite byte_at_lookup, Ev in Ej by lia. by rewrite <- Ej.
Qed.

Lemma store_changes p off l δ : bytes_ok (sb_data p) → sb_writable p = true → bytes_ok l → 0 ≤ off → off + zlen l ≤ zlen (sb_data p) →
  zlen (sb_data p) < 2 ^ 31 → ∀ base f,
  (∀ j, 0 ≤ j < zlen l → l.[j] = Z.lxor ((sb_data p).[off + j]) (δ j)) →
  (∀ q, f q = if (off - base <=? q) && (q <? off - base + zlen l) then δ (q - (off - base)) else 0) →
  ∃ d', bpf_skb_store_bytes p off l = put p d' ∧ changed base f (sb_data p) d'.
Proof.
  intros Hb Hw Hl Ho He Hz base f Hj Hf. change (2 ^ 31) with 2147483648 in Hz. unfold bpf_skb_store_bytes, in_skb.
  pose proof (zlen_nonneg l).
  destruct (Z.leb_spec off 0x7FFFFFFF), (Z.leb_spec (off + zlen l) (zlen (sb_data p))); try lia. rewrite Hw. cbn [andb].
  eexists. split; [reflexivity|]. split; [by apply zlen_splice|]. split; [by apply splice_ok|].
  intros q Hq. rewrite byte_at_splice, Hf by lia.
  replace (off - base <=? q - base) with (off <=? q) by (destruct (Z.leb_spec off q), (Z.leb_spec (off - base) (q - base)); lia || done).
  replace (q - base <? off - base + zlen l) with (q <? off + zlen l)
    by (destruct (Z.ltb_spec q (off + zlen l)), (Z.ltb_spec (q - base) (off - base + zlen l)); lia || done).
  destruct (Z.leb_spec off q), (Z.ltb_spec q (off + zlen l)); cbn [andb]; rewrite ?Z.lxor_0_r; try done.
  rewrite Hj by lia. f_equal; f_equal; lia.
Qed.

(** The bytes at [off] XORed with [x]. *)
Lemma store_xor_changes p off x base : bytes_ok (sb_data p) → sb_writable p = true → bytes_ok x → 0 ≤ off →
  off + zlen x ≤ zlen (sb_data p) → zlen (sb_data p) < 2 ^ 31 →
  ∃ d', bpf_skb_store_bytes p off (xor_bytes (slice (sb_data p) off (length x)) x) = put p d' ∧
    changed base (λ q, if (off - base <=? q) && (q <? off - base + zlen x) then x.[q - (off - base)] else 0) (sb_data p) d'.
Proof.
  intros Hb Hw Hx Ho He Hz. assert (Zx : zlen x = Z.of_nat (length x)) by done.
  assert (Ls : length (slice (sb_data p) off (length x)) = length x) by (rewrite length_slice by lia; done).
  assert (Lx : zlen (xor_bytes (slice (sb_data p) off (length x)) x) = zlen x) by (unfold zlen; rewrite length_xor_bytes; lia).
  apply (store_changes p off _ (λ j, x.[j])); try done.
  - apply bytes_ok_xor; [by apply slice_ok|done].
  - rewrite Lx. lia.
  - intros j Hj. rewrite Lx in Hj. rewrite byte_at_xor by lia. by rewrite byte_at_slice by lia.
  - intros q. by rewrite Lx.
Qed.

Section Apply.
Context (record_len nonce payload_off zl : Z).
Context (Hrl : 0 ≤ record_len ≤ 18432) (Hn : 0 ≤ nonce ≤ 8) (Hpo : 0 ≤ payload_off) (Hzl : zl < 2 ^ 31).
Let base := payload_off + 5 + nonce.

(** The program applies [x]: the record is long enough for its length, and its
    bytes are in the segment. *)
Definition applies (x : xor_patch) : bool :=
  (16 + nonce + secret_len x <=? record_len) && (base + secret_offset x + secret_len x <=? zl).
(** What the staging area has for it after that. *)
Definition effective (x : xor_patch) : xor_patch := if applies x then x else x <| secret_len := 0 |>.

Lemma patch_fn_dropped x : (∀ q, patch_fn (x <| secret_len := 0 |>) q = 0).
Proof using. done. Qed.

Lemma apply_patch_spec i p s : sb_writable p = true → bytes_ok (sb_data p) → zlen (sb_data p) = zl →
  0 ≤ i < 4 → length (patches_of s) = 4%nat → 128 ≤ zlen (ct_buf (k_ghash_scratch s)) → 0 ≤ base →
  base < 2 ^ 31 →
  let x := nth_patch (patches_of s) i in
  staged_ok x →
  ∃ s' d', apply_patch i record_len nonce payload_off p s = ((put p d', applies x), s') ∧
    changed base (patch_fn (effective x)) (sb_data p) d' ∧
    but_apply s' = but_apply s ∧ patches_of s' = set_patch i (effective x) (patches_of s) ∧
    zlen (ct_buf (k_ghash_scratch s')) = zlen (ct_buf (k_ghash_scratch s)).
Proof using All.
  intros Hw Hb Hz Hi Hl Hct Hb0 Hb1 x (Ho & Hs & Ho2 & Hx). change (2 ^ 31) with 2147483648 in *.
  unfold apply_patch, drop_staged, on_work, dbg_inc. mrun.
  change (xp_patches (staged_pending (k_ghash_scratch s))) with (patches_of s).
  unfold XOR_MAX_PATCHES. change (4 - 1) with (2 ^ 2 - 1). rewrite land_mask, (Z.mod_small i) by lia. fold x.
  rewrite (u32_small (16 + nonce)), (u32_small (16 + nonce + secret_len x)) by lia.
  rewrite (u32_small (payload_off + 5)), (u32_small (payload_off + 5 + nonce)) by lia. fold base.
  rewrite (u32_small (base + secret_offset x)), clamp_id by lia.
  assert (Edrop : applies x = false → changed base (patch_fn (effective x)) (sb_data p) (sb_data p)).
  { intros E. apply changed_refl; [done|]. unfold effective. by rewrite E. }
  assert (Ep : put p (sb_data p) = p) by (by destruct p).
  unfold effective in *. destruct (Z.ltb_spec record_len (16 + nonce + secret_len x)) as [Hlt|Hge].
  { assert (Ea : applies x = false) by (unfold applies; destruct (Z.leb_spec (16 + nonce + secret_len x) record_len); lia || done).
    rewrite Ea in *. eexists _, (sb_data p). rewrite Ep. split; [reflexivity|]. split; [by apply Edrop|]. split; [by destruct s as [???????????????????????????? ? w ??????]; destruct w|].
    split; [|done]. reflexivity. }
  unfold bpf_skb_load_bytes, in_skb. rewrite Hz.
  assert (Ea : applies x = (base + secret_offset x + secret_len x <=? zl)).
  { unfold applies. destruct (Z.leb_spec (16 + nonce + secret_len x) record_len); [done|lia]. }
  destruct (Z.leb_spec (base + secret_offset x + secret_len x) zl) as [Hin|Hout]; rewrite Ea in *; cycle 1.
  { rewrite andb_false_r. cbv iota. eexists _, (sb_data p). rewrite Ep. split; [reflexivity|]. split; [by apply Edrop|]. split; [by destruct s as [???????????????????????????? ? w ??????]; destruct w|].
    split; [reflexivity|]. cbn. apply zlen_splice; [lia|]. unfold zeros, zlen. rewrite length_replicate. unfold zlen in Hct. lia. }
  destruct (Z.leb_spec (base + secret_offset x) 0x7FFFFFFF); [|lia]. cbn [andb]. cbv iota.
  set (l := slice (sb_data p) (base + secret_offset x) (Z.to_nat (secret_len x))).
  assert (Hll : zlen l = secret_len x) by (unfold l, zlen; rewrite length_slice by lia; lia).
  destruct (xor_first_take (secret_len x) (ct_buf (k_ghash_scratch s)) l (xor_delta x) ltac:(lia) Hll) as [Lr Er].
  set (buf := xor_first _ _ _) in *. set (r := take _ buf) in *.
  assert (Hr : bytes_ok r).
  { apply (bytes_ok_byte_at r). intros j Hj. rewrite Lr in Hj. rewrite Er by lia.
    apply byte_lxor; apply byte_at_range; [by apply slice_ok|done]. }
  destruct (store_changes p (base + secret_offset x) r (λ j, (xor_delta x).[j]) Hb Hw Hr ltac:(lia) ltac:(lia) ltac:(lia)
    base (patch_fn x)) as (d' & -> & C).
  { intros j Hj. rewrite Lr in Hj. rewrite Er by lia. unfold l. by rewrite byte_at_slice by lia. }
  { intros q. unfold patch_fn. destruct (Z.eqb_spec (secret_len x) 0); [lia|]. unfold patch_delta.
    rewrite Lr. by replace (base + secret_offset x - base) with (secret_offset x) by lia. }
  eexists _, d'. split; [reflexivity|]. split; [exact C|]. split; [by destruct s as [???????????????????????????? ? w ??????]; destruct w|].
  split.
  - change (patches_of s = set_patch i x (patches_of s)). symmetry. apply list_insert_id.
    unfold x, nth_patch. rewrite nth_lookup. destruct (lookup_lt_is_Some_2 (patches_of s) (Z.to_nat i) ltac:(lia)) as [v ->]. done.
  - cbn. unfold buf, xor_first, zlen. rewrite length_imap. fold (zlen (splice (ct_buf (k_ghash_scratch s)) 0 l)).
    apply zlen_splice; lia.
Qed.

(** The patches [i] to [i + n - 1]. *)
Lemma apply_patches_loop n : ∀ fuel i pc applied p s,
  sb_writable p = true → bytes_ok (sb_data p) → zlen (sb_data p) = zl →
  (n <= fuel)%nat → pc = Z.of_nat (i + n) → (i + n <= 4)%nat → length (patches_of s) = 4%nat →
  128 ≤ zlen (ct_buf (k_ghash_scratch s)) → 0 ≤ base → base < 2 ^ 31 → 0 ≤ applied ≤ Z.of_nat i →
  let todo := take n (drop i (patches_of s)) in
  Forall staged_ok todo →
  ∃ s' d' a, apply_patches fuel (Z.of_nat i) pc record_len nonce payload_off applied p s = ((put p d', a), s') ∧
    changed base (total_delta (map effective todo)) (sb_data p) d' ∧
    but_apply s' = but_apply s ∧
    patches_of s' = take i (patches_of s) ++ map effective todo ++ drop (i + n) (patches_of s) ∧
    (0 <? a) = (0 <? applied) || existsb applies todo.
Proof using All.
  induction n as [|n IH]; intros fuel i pc applied p s Hw Hb Hz Hf Hpc Hin Hl Hct Hb0 Hb1 Ha todo Hok.
  - exists s, (sb_data p), applied. split.
    { destruct fuel; cbn [apply_patches]; [by destruct p|]. destruct (Z.leb_spec pc (Z.of_nat i)); [by destruct p|lia]. }
    unfold todo. rewrite take_0. split; [by apply changed_refl|]. split; [done|].
    cbn [map existsb app]. by rewrite Nat.add_0_r, take_drop, orb_false_r.
  - destruct fuel as [|fuel]; [lia|]. cbn [apply_patches]. destruct (Z.leb_spec pc (Z.of_nat i)); [lia|].
    destruct (lookup_lt_is_Some_2 (patches_of s) i ltac:(lia)) as [x Ex].
    assert (Exs : todo = x :: take n (drop (S i) (patches_of s))) by (unfold todo; by rewrite (drop_S _ _ _ Ex)).
    rewrite Exs in Hok |- *. apply Forall_cons in Hok as [Hx Hok].
    assert (Enth : nth_patch (patches_of s) (Z.of_nat i) = x) by (unfold nth_patch; by rewrite Nat2Z.id, nth_lookup, Ex).
    destruct (apply_patch_spec (Z.of_nat i) p s) as (s1 & d1 & E1 & C1 & B1 & P1 & L1); rewrite ?Enth; try done; try lia.
    rewrite Enth in *. unfold mbind, m_bind. rewrite E1. cbv beta iota. unfold set_patch in P1. rewrite Nat2Z.id in P1.
    assert (Ed : drop (S i) (patches_of s1) = drop (S i) (patches_of s)) by (rewrite P1; apply drop_insert_lt; lia).
    destruct C1 as (Cl & Cb & Cd). replace (Z.of_nat i + 1) with (Z.of_nat (S i)) by lia.
    assert (Ha' : 0 ≤ (if applies x then applied +32 1 else applied) ≤ Z.of_nat (S i)).
    { destruct (applies x); rewrite ?u32_small by lia; lia. }
    destruct (IH fuel (S i) pc (if applies x then applied +32 1 else applied) (put p d1) s1)
      as (s2 & d2 & a & E2 & C2 & B2 & P2 & A2); rewrite ?Ed; try done; try lia.
    { cbn. by rewrite Cl. }
    { by rewrite P1, length_insert. }
    rewrite Ed in C2, P2, A2. cbn zeta in *. change (put (put p d1) d2) with (put p d2) in E2.
    exists s2, d2, a. rewrite E2. split; [done|]. split.
    { cbn [map]. eapply changed_trans; [split; [exact Cl|split; [exact Cb|exact Cd]]|exact C2]. }
    split; [by rewrite B2|]. split.
    + rewrite P2, P1. rewrite (take_S_r _ i (effective x)) by (apply list_lookup_insert_eq; lia).
      rewrite take_insert_ge, drop_insert_lt by lia. cbn [map]. rewrite <- app_assoc. cbn [app].
      by rewrite Nat.add_succ_r.
    + rewrite A2. cbn [existsb]. rewrite orb_assoc. f_equal. destruct (applies x); [|by rewrite orb_false_r].
      rewrite orb_true_r, u32_small by lia. apply Z.ltb_lt. lia.
Qed.

End Apply.
End TcPatches.

Module TcFacts.
Import TcGhash TcGhashFacts GhashCode GF128Facts TcRecords TcPatches.

Lemma copy_patches_eq pc ps old : 0 ≤ pc ≤ 4 → length ps = 4%nat → length old = 4%nat →
  copy_patches pc ps old = take (Z.to_nat pc) ps ++ drop (Z.to_nat pc) old.
Proof.
  intros Hpc Hp Ho. destruct ps as [|x0 [|x1 [|x2 [|x3 [|? ?]]]]]; try done.
  destruct old as [|y0 [|y1 [|y2 [|y3 [|? ?]]]]]; try done.
  assert (pc = 0 ∨ pc = 1 ∨ pc = 2 ∨ pc = 3 ∨ pc = 4) as [->|[->|[->|[->| ->]]]] by lia; reflexivity.
Qed.

(** What a segment's programs may change of the state. *)
Definition but_egress (s : kst) : kst := but_tags (s <| k_debug_counters := λ _, 0 |> <| k_tc_pending := ∅ |>).

(** The arrays of the work area have their C sizes. *)
Definition work_ok (s : kst) : Prop :=
  length (k_h_power_entries s) = 16%nat ∧ length (patches_of s) = 4%nat ∧ zlen (ct_buf (k_ghash_scratch s)) = 128.

(** The patches of a pending write. *)
Definition pending_ps (v : tc_pending_val) : list xor_patch := take (Z.to_nat (tp_patch_count v)) (tp_patches v).
Definition pending_ok (v : tc_pending_val) : Prop :=
  0 ≤ tp_patch_count v ≤ 4 ∧ length (tp_patches v) = 4%nat ∧ Forall staged_ok (pending_ps v).

(** The delta of the tag of [ct_len] bytes of ciphertext, for the patches [ps]. *)
Definition tag_delta_of (h : bytes) (ps : list xor_patch) (ct_len : Z) (td : bytes) : Prop :=
  block td ∧ be_val td = Ghash.tag_correction (be_val h) (total_delta ps) (Z.to_nat ((ct_len + 15) / 16)).

(** The change of the segment: the ciphertext by the patches, and the tag. *)
Definition record_delta (ps : list xor_patch) (ct_len : Z) (td : bytes) (q : Z) : Z :=
  Z.lxor (total_delta ps q) (if (ct_len <=? q) && (q <? ct_len + 16) then td.[q - ct_len] else 0).

Section Record.
Context (hd : pkt_headers) (v : tc_pending_val) (po ct_len n : Z) (key : bytes).
Context (Hpo : 0 ≤ po) (Hct : 0 ≤ ct_len) (Hn : 0 ≤ n ≤ 8) (Hrl : 16 + n + ct_len ≤ 18432).
Let base := po + 5 + n.
Let rl := 16 + n + ct_len.

Definition in_record (x : xor_patch) : Prop := secret_offset x + secret_len x ≤ ct_len.

(** The work area for a record [v] describes. *)
Definition work_for (w : ghash_work) : Prop :=
  xp_patch_count (staged_pending w) = tp_patch_count v ∧ ghash_ct_len w = ct_len ∧ ghash_nonce_len w = n ∧
  ghash_payload_off w = po ∧ (ghash_tgid w, ghash_ssl_ptr w) = (tp_tgid v, tp_ssl_ptr v) ∧ ghash_active w = true ∧
  ghash_conn_key w = h_key hd ∧ ghash_pkt_seq w = h_seq hd ∧ ghash_record_tcp_off w = u32 (po - h_payload_off hd).

(** The staging area, as tc_egress_patch fills it. *)
Lemma stage_spec s : work_ok s → pending_ok v →
  ∃ s1, stage_record v hd po rl n s = ((), s1) ∧ but_egress s1 = but_egress s ∧
    k_tc_pending s1 = k_tc_pending s ∧ k_tc_tag_pending s1 = k_tc_tag_pending s ∧ k_tls_conn_state s1 = k_tls_conn_state s ∧
    work_ok s1 ∧
    take (Z.to_nat (tp_patch_count v)) (patches_of s1) = pending_ps v ∧
    work_for (k_ghash_scratch s1).
Proof using All.
  intros (Hw1 & Hw2 & Hw3) (Hpc & Hps & Hok). unfold stage_record, on_work. mrun.
  destruct (Z.ltb_spec XOR_MAX_PATCHES (tp_patch_count v)); [unfold XOR_MAX_PATCHES in *; lia|].
  eexists. split; [reflexivity|]. split; [by destruct s|]. split; [done|]. split; [done|]. split; [done|]. split; [split; [done|split; [|done]]|split].
  - change (length (copy_patches (tp_patch_count v) (tp_patches v) (patches_of s)) = 4%nat).
    rewrite copy_patches_eq by done. rewrite length_app, length_take, length_drop. lia.
  - change (take (Z.to_nat (tp_patch_count v)) (copy_patches (tp_patch_count v) (tp_patches v) (patches_of s)) = pending_ps v).
    rewrite copy_patches_eq by done. rewrite take_app_le by (rewrite length_take; lia). unfold pending_ps. rewrite take_take. f_equal. lia.
  - unfold work_for. split_and!; try reflexivity.
    change (u32 (u32 (rl - 16) - n) = ct_len). unfold rl. rewrite (u32_small (16 + n + ct_len - 16)), u32_small by lia. lia.
Qed.

Lemma n_blocks_fit x : in_record x → secret_offset x + secret_len x ≤ 16 * ((ct_len + 15) / 16).
Proof using. unfold in_record. intros H. clear - H. Z.div_mod_to_equations; lia. Qed.

Lemma effective_ok zl x : staged_ok x → in_record x → patch_ok ((ct_len + 15) / 16) (effective rl n po zl x).
Proof using ct_len n po.
  intros (Ho & Hl & H16 & Hx) Hin. pose proof (n_blocks_fit x Hin) as Hb. unfold effective, patch_ok.
  destruct (applies _ _ _ _ x); [split_and!; try done; lia|]. split_and!; try done.
Qed.

(** What the programs after the staging read of the state. *)
Lemma apply_frame s s' : but_apply s' = but_apply s →
  k_tc_pending s' = k_tc_pending s ∧ k_tc_tag_pending s' = k_tc_tag_pending s ∧
  k_tls_conn_state s' = k_tls_conn_state s ∧ k_h_power_entries s' = k_h_power_entries s ∧
  but_egress s' = but_egress s ∧ (work_for (k_ghash_scratch s) → work_for (k_ghash_scratch s')).
Proof using Type.
  intros B. split_and!.
  - by apply (frame but_apply k_tc_pending).
  - by apply (frame but_apply k_tc_tag_pending).
  - by apply (frame but_apply k_tls_conn_state).
  - by apply (frame but_apply k_h_power_entries).
  - apply (frame but_apply but_egress); [|done]. intros s0. by destruct s0.
  - intros W. by rewrite (frame but_apply (λ s, work_for (k_ghash_scratch s)) s s').
Qed.

Lemma work_for_ready s : work_for (k_ghash_scratch s) → block key → Forall staged_ok (pending_ps v) →
  Forall in_record (pending_ps v) → 0 ≤ tp_patch_count v ≤ 4 → length (k_h_power_entries s) = 16%nat →
  ghash_h <$> k_tls_conn_state s !! (tp_tgid v, tp_ssl_ptr v) = Some key → ∀ zl,
  length (patches_of s) = 4%nat → staged_ps s = map (effective rl n po zl) (pending_ps v) → ghash_ready key s.
Proof using ct_len n po Hct Hrl Hn.
  intros (W1 & W2 & W3 & W4 & W5 & W6 & _) Hk Hok Hin Hpc Hl Hc zl Hps E.
  unfold ghash_ready, conn_h, n_blocks_of. rewrite W5, E, W1, W2. split_and!; try done; try lia.
  apply Forall_map, Forall_forall. intros x Hx. rewrite Forall_forall in Hok, Hin. apply effective_ok; auto.
Qed.

Section Patch.
Context (p : skb) (s : kst).
Context (Hw : work_ok s) (Hp : pending_ok v) (Hin : Forall in_record (pending_ps v)) (Hk : block key).
Context (Hc : ghash_h <$> k_tls_conn_state s !! (tp_tgid v, tp_ssl_ptr v) = Some key).
Context (Hwr : sb_writable p = true) (Hb : bytes_ok (sb_data p)).
Context (Hz : zlen (sb_data p) < 2 ^ 31) (Hz2 : base + ct_len < 2 ^ 31).
Let eff := map (effective rl n po (zlen (sb_data p))) (pending_ps v).

(** Up to the tail call. *)
Lemma patch_phase : existsb (applies rl n po (zlen (sb_data p))) (pending_ps v) = true →
  ∃ s' d', patch_record true hd v po rl n p s = tc_ghash_update (put p d') s' ∧
    changed base (total_delta eff) (sb_data p) d' ∧ ghash_ready key s' ∧ staged_ps s' = eff ∧
    but_egress s' = but_egress s ∧ work_for (k_ghash_scratch s') ∧
    k_tc_pending s' = alter deactivate (h_key hd) (k_tc_pending s) ∧ k_tc_tag_pending s' = k_tc_tag_pending s.
Proof using All.
  intros He. change (2 ^ 31) with 2147483648 in *. unfold patch_record. rewrite (u32_small (16 + n)) by lia. fold rl.
  destruct (Z.ltb_spec rl (16 + n)); [unfold rl in *; lia|].
  destruct (stage_spec s Hw Hp) as (s1 & E1 & B1 & T1 & G1 & C1 & (W1 & W2 & W3) & P1 & F1). destruct Hp as (Hpc & Hps & Hok).
  unfold mbind at 1, m_bind at 1. rewrite E1. unfold mbind at 1, m_bind at 1, gets. rewrite (proj1 F1).
  destruct (apply_patches_loop rl n po (zlen (sb_data p)) ltac:(unfold rl; lia) Hn Hpo ltac:(lia) (Z.to_nat (tp_patch_count v))
    (Z.to_nat XOR_MAX_PATCHES) 0 (tp_patch_count v) 0 p s1) as (s2 & d2 & a & E2 & D2 & B2 & P2 & A2);
    unfold XOR_MAX_PATCHES; try done; try lia.
  { by rewrite drop_0, P1. }
  change (Z.of_nat 0) with 0 in E2. change (Z.to_nat XOR_MAX_PATCHES) with 4%nat in E2.
  change (Z.to_nat 4) with 4%nat. unfold mbind at 1, m_bind at 1. rewrite E2.
  rewrite drop_0, P1 in D2, P2, A2. rewrite He in A2. fold eff in D2, P2. rewrite take_0 in P2. cbn [app Nat.add] in P2. rewrite A2. cbn [orb].
  destruct (apply_frame s1 s2 B2) as (V1 & V2 & V3 & V4 & V5 & V6). specialize (V6 F1).
  unfold mbind at 1, m_bind at 1, modify. cbv beta iota.
  set (s3 := s2 <| k_tc_pending := alter deactivate (h_key hd) (k_tc_pending s2) |>).
  exists s3, d2. assert (Eps : staged_ps s3 = eff).
  { unfold staged_ps. change (k_ghash_scratch s3) with (k_ghash_scratch s2). rewrite (proj1 V6). fold (patches_of s2). rewrite P2.
    apply take_app_length'. unfold eff, pending_ps. rewrite length_map, length_take. lia. }
  split; [done|]. split; [done|]. split_and!; try done.
  - eapply (work_for_ready s3); try done.
    + change (k_h_power_entries s3) with (k_h_power_entries s2). by rewrite V4.
    + change (k_tls_conn_state s3) with (k_tls_conn_state s2). by rewrite V3, C1.
    + change (patches_of s3) with (patches_of s2). rewrite P2, length_app, length_drop. unfold eff, pending_ps.
      rewrite length_map, !length_take. lia.
  - transitivity (but_egress s2); [by destruct s2|]. by rewrite V5.
  - unfold s3. cbn. by rewrite V1, T1.
  - change (k_tc_tag_pending s2 = k_tc_tag_pending s). by rewrite V2.
Qed.

(** The record patched, and its tag if the segment has it; else the tag's delta
    is kept for the segment that has. *)
Lemma patch_record_spec : existsb (applies rl n po (zlen (sb_data p))) (pending_ps v) = true →
  ∃ s' d' td, patch_record true hd v po rl n p s = ((TC_PASS, put p d'), s') ∧
    but_egress s' = but_egress s ∧ k_tc_pending s' = alter deactivate (h_key hd) (k_tc_pending s) ∧
    tag_delta_of key eff ct_len td ∧
    if base + ct_len + 16 <=? zlen (sb_data p) then
      changed base (record_delta eff ct_len td) (sb_data p) d' ∧ k_tc_tag_pending s' = k_tc_tag_pending s
    else
      changed base (total_delta eff) (sb_data p) d' ∧
      k_tc_tag_pending s' = <[h_key hd := {| tv_tag_delta := td;
        tag_tcp_seq := u32 (h_seq hd + u32 (po - h_payload_off hd) + 5 + n + ct_len) |}]> (k_tc_tag_pending s).
Proof using All.
  intros He. destruct (patch_phase He) as (s3 & d2 & -> & D2 & Hr & Eps & B3 & W & T3 & G3).
  pose proof W as (W1 & W2 & W3 & W4 & W5 & W6 & W7 & W8 & W9). pose proof D2 as (L2 & O2 & _). change (2 ^ 31) with 2147483648 in *.
  assert (Eo : tag_offset_of (k_ghash_scratch s3) = base + ct_len) by (unfold tag_offset_of; rewrite W2, W3, W4; lia).
  destruct (ghash_update_spec key s3 (put p d2) Hr W6) as (td & s4 & Bt & Et & B4 & A4 & R4); rewrite ?W3, ?W4, ?Eo; try done; try lia.
  rewrite Eps in Et. unfold n_blocks_of in Et. rewrite W2 in Et. rewrite Eo, W7, W8, W9, W3, W2 in R4.
  change (sb_data (put p d2)) with d2 in R4. rewrite L2 in R4.
  assert (B4' : but_egress s4 = but_egress s) by (rewrite <- B3; exact (f_equal but_egress B4)).
  assert (T4 : k_tc_pending s4 = alter deactivate (h_key hd) (k_tc_pending s)) by (rewrite <- T3; exact (f_equal k_tc_pending B4)).
  destruct (Z.leb_spec (base + ct_len + 16) (zlen (sb_data p))); destruct R4 as [-> G4]; rewrite G3 in G4; cycle 1.
  { exists s4, d2, td. by split_and!. }
  destruct Bt as [Lt Ot]. assert (Zt : zlen td = 16) by (unfold zlen; rewrite Lt; lia).
  destruct (store_xor_changes (put p d2) (base + ct_len) td base O2 Hwr Ot) as (d3 & E3 & D3); cbn [put sb_data]; try done; try lia.
  { change (sb_data (put p d2)) with d2. lia. }
  { change (sb_data (put p d2)) with d2. lia. }
  rewrite Lt in E3. change (sb_data (put p d2)) with d2 in E3, D3. rewrite E3.
  exists s4, d3, td. split_and!; try done. rewrite Zt in D3. replace (base + ct_len - base) with ct_len in D3 by lia.
  by eapply changed_trans.
Qed.
End Patch.

End Record.
(** *** The whole program, on the segment of a record *)

Lemma parse_headers_off p hd : bytes_ok (sb_data p) → parse_headers p = Some hd → 0 ≤ h_payload_off hd.
Proof.
  intros Hb. unfold parse_headers. destruct (parse_l3_off p) as [l3|] eqn:E3; [|done].
  destruct (parse_ip p l3) as [[[ip il] l4]|] eqn:E4; [|done]. destruct (_ <? _); [done|]. destruct (_ <? _) eqn:E20; [done|].
  intros [= <-]. cbn [h_payload_off]. zbool.
  assert (0 ≤ l3) by (revert E3; unfold parse_l3_off; repeat case_match; naive_solver lia).
  assert (0 ≤ il) by (revert E4; unfold parse_ip; repeat case_match; zbool; intros; simplify_eq; lia).
  lia.
Qed.

(** A segment with the record [r] of the pending write [v], after [leads] and
    [others], on a connection with subkey [key]. *)
Record carries (s : kst) (p : skb) (hd : pkt_headers) (v : tc_pending_val) (key : bytes)
    (leads others : list tls_rec) (r : tls_rec) (n : Z) : Prop := {
  ca_headers : parse_headers p = Some hd ∧ 5 ≤ h_payload_len hd;
  ca_packet : sb_writable p = true ∧ bytes_ok (sb_data p) ∧ zlen (sb_data p) < 2 ^ 30;
  ca_pending : k_tc_pending s !! h_key hd = Some v ∧ tp_active v = true ∧ seq_matches v hd = true ∧ pending_ok v;
  ca_no_tag : k_tc_tag_pending s !! h_key hd = None;
  ca_conn : ∃ c, k_tls_conn_state s !! (tp_tgid v, tp_ssl_ptr v) = Some c ∧ ghash_h c = key ∧ block key ∧
    nonce_len c ∈ [0; 8; TLS_NONCE_UNKNOWN] ∧
    segment_of (tp_plaintext_len v) (nonce_len c) (sb_data p) (h_payload_off hd) leads others r n;
  ca_work : work_ok s;
  ca_patches : Forall (λ x, secret_offset x + secret_len x ≤ tp_plaintext_len v) (pending_ps v)
}.

(** Where the record starts, its ciphertext, and the lengths. *)
Definition rec_off (hd : pkt_headers) (leads others : list tls_rec) : Z := h_payload_off hd + size (leads ++ others).
Definition ct_off (hd : pkt_headers) (leads others : list tls_rec) (n : Z) : Z := rec_off hd leads others + 5 + n.
Definition ct_len_of (r : tls_rec) (n : Z) : Z := r_len r - 16 - n.

Lemma egress_run s p hd v key leads others r n :
  carries s p hd v key leads others r n →
  let po := rec_off hd leads others in let base := ct_off hd leads others n in let ct_len := ct_len_of r n in
  0 ≤ po ∧ 0 ≤ ct_len ∧ 16 + n + ct_len ≤ 18432 ∧ (n = 0 ∨ n = 8) ∧ po + 5 ≤ zlen (sb_data p) ∧ Forall (in_record ct_len) (pending_ps v) ∧
  ∃ s0, but_egress s0 = but_egress s ∧ k_tc_pending s0 = k_tc_pending s ∧ k_tc_tag_pending s0 = k_tc_tag_pending s ∧
    work_ok s0 ∧ k_tls_conn_state s0 = k_tls_conn_state s ∧
    tc_egress_patch true p s = patch_record true hd v po (16 + n + ct_len) n p s0.
Proof.
  intros [[Hh Hl] (Hw & Hb & Hz) (Hv & Ha & Hs & Hok) Ht (c & Hc & Hk & Hbk & Hn & Hseg) Hwk Hps] po base ct_len.
  pose proof (parse_headers_off p hd Hb Hh) as Ho. change (2 ^ 30) with 1073741824 in Hz.
  pose proof (seg_rec _ _ _ _ _ _ _ _ Hseg) as [Hr (Hpt & Hn8 & Elen & _)].
  pose proof (seg_at _ _ _ _ _ _ _ _ Hseg) as Hat. rewrite app_assoc in Hat. apply records_at_app in Hat as [Hat (Hrok & _ & Hin & _)].
  apply size_nonneg in Hat. apply rec_len_bounds in Hrok. unfold gcm_record_len in Elen.
  assert (Hct : tp_plaintext_len v ≤ ct_len ≤ 18416) by (unfold ct_len, ct_len_of; destruct (Z.eqb_spec n 8); lia).
  split; [unfold po, rec_off; lia|]. split; [lia|]. split; [unfold ct_len, ct_len_of; lia|]. split; [done|]. split; [unfold po, rec_off; lia|].
  split. { eapply Forall_impl; [exact Hps|]. intros x Hx. unfold in_record. cbn in Hx. lia. }
  destruct (find_record_spec p (tp_plaintext_len v) (nonce_len c) Hb ltac:(lia) ltac:(lia) Hn _ leads others r n Ho Hseg)
    as (o & l & Ef & Er).
  unfold tc_egress_patch, dbg_inc. mrun. rewrite Hh.
  set (s1 := s <| k_debug_counters := _ |>). change (k_tc_tag_pending s1) with (k_tc_tag_pending s). rewrite Ht.
  unfold patch_segment. destruct (Z.ltb_spec (h_payload_len hd) 5); [lia|]. rewrite Ef. mrun.
  change (k_tc_pending s1) with (k_tc_pending s). rewrite Hv, Ha, Hs. cbn [negb]. unfold dbg_inc. mrun.
  set (s2 := s1 <| k_debug_counters := _ |>). unfold known_nonce.
  change (k_tls_conn_state s2) with (k_tls_conn_state s). rewrite Hc, Er.
  exists s2. split; [by destruct s|]. split_and!; try done.
  unfold po, rec_off. f_equal. unfold ct_len, ct_len_of. lia.
Qed.

(** *** The record before and after *)

Lemma total_delta_out ps ct_len q : Forall staged_ok ps → Forall (in_record ct_len) ps → q < 0 ∨ ct_len ≤ q →
  total_delta ps q = 0.
Proof.
  intros Hok Hin Hq. induction Hok as [|x ps (Ho & Hl & _) _ IH]; [done|]. apply Forall_cons in Hin as [Hx Hin].
  unfold total_delta in *. cbn [fold_right]. rewrite (IH Hin), Z.lxor_0_r. unfold patch_fn, patch_delta.
  unfold in_record in Hx. destruct (Z.eqb_spec (secret_len x) 0); [done|].
  destruct (Z.leb_spec (secret_offset x) q), (Z.ltb_spec q (secret_offset x + secret_len x)); done || lia.
Qed.

(** The ciphertext and the tag of a record whose ciphertext is at [base] in [d]. *)
Definition ct_at (d : bytes) (base ct_len : Z) : bytes := slice d base (Z.to_nat ct_len).
Definition tag_at (d : bytes) (base ct_len : Z) : bytes := slice d (base + ct_len) 16.

(** [d'] has the record of [d] with the patches [ps]: the ciphertext is changed
    by them, the tag is still that of the ciphertext, and no other byte differs. *)
Definition repatched (key : bytes) (ps : list xor_patch) (base ct_len : Z) (d d' : bytes) : Prop :=
  zlen d' = zlen d ∧
  (∀ q, 0 ≤ q < base ∨ base + ct_len + 16 ≤ q → d'.[q] = d.[q]) ∧
  (∀ q, 0 ≤ q < ct_len → (ct_at d' base ct_len).[q] = Z.lxor ((ct_at d base ct_len).[q]) (total_delta ps q)) ∧
  ∀ ek0 aad, bytes_ok aad → zlen aad < 2 ^ 40 →
    be_val (tag_at d base ct_len) = Ghash.gcm_tag (be_val key) ek0 aad (ct_at d base ct_len) →
    be_val (tag_at d' base ct_len) = Ghash.gcm_tag (be_val key) ek0 aad (ct_at d' base ct_len).

Lemma changed_repatched key ps base ct_len td d d' :
  block key → bytes_ok d → Forall staged_ok ps → Forall (in_record ct_len) ps → 0 ≤ base → 0 ≤ ct_len < 2 ^ 40 →
  base + ct_len + 16 ≤ zlen d → tag_delta_of key ps ct_len td →
  changed base (record_delta ps ct_len td) d d' → repatched key ps base ct_len d d'.
Proof.
  intros Hk Hd Hok Hin Hb Hct Hz [[Lt Ot] Et] (L & O & C).
  assert (Hout := λ q, total_delta_out ps ct_len q Hok Hin).
  assert (Hct1 : ∀ x, zlen x = zlen d → length (ct_at x base ct_len) = Z.to_nat ct_len).
  { intros x Hx. unfold ct_at. by rewrite length_slice by lia. }
  assert (Hct2 : ∀ q, 0 ≤ q < ct_len → (ct_at d' base ct_len).[q] = Z.lxor ((ct_at d base ct_len).[q]) (total_delta ps q)).
  { intros q Hq. unfold ct_at. rewrite !byte_at_slice, C by lia. f_equal. unfold record_delta.
    replace (base + q - base) with q by lia. destruct (Z.leb_spec ct_len q); [lia|]. apply Z.lxor_0_r. }
  split; [done|]. split; [|split; [done|]].
  - intros q Hq. destruct (decide (q < zlen d)).
    + rewrite C by lia. unfold record_delta. rewrite Hout by lia.
      destruct (Z.leb_spec ct_len (q - base)), (Z.ltb_spec (q - base) (ct_len + 16)); cbn [andb]; rewrite ?Z.lxor_0_r; done || lia.
    + by rewrite !byte_at_ge by lia.
  - intros ek0 aad Ha Hz2 E.
    assert (Etag : tag_at d' base ct_len = xor_bytes (tag_at d base ct_len) td).
    { unfold tag_at. apply byte_list_ext.
      - rewrite length_xor_bytes, !length_slice by (rewrite ?length_slice; lia). done.
      - intros q Hq. unfold zlen in Hq. rewrite length_slice in Hq by lia.
        rewrite byte_at_xor, !byte_at_slice, C by (rewrite ?length_slice; lia). f_equal. unfold record_delta.
        rewrite Hout, Z.lxor_0_l by lia. replace (base + ct_len + q - base - ct_len) with q by lia.
        destruct (Z.leb_spec ct_len (base + ct_len + q - base)), (Z.ltb_spec (base + ct_len + q - base) (ct_len + 16)); done || lia. }
    rewrite Etag, be_val_xor, E, Et; [|by apply slice_ok|done|unfold tag_at; rewrite length_slice by lia; by rewrite Lt].
    rewrite (Ghash.gcm_tag_change (be_val key) ek0 aad (ct_at d base ct_len) (ct_at d' base ct_len) (total_delta ps)).
    + f_equal. f_equal. unfold Ghash.n_blocks, zlen. rewrite Hct1 by done. by rewrite Z2Nat.id by lia.
    + by apply block_elt.
    + done.
    + by apply slice_ok.
    + by apply slice_ok.
    + by rewrite !Hct1 by done.
    + unfold zlen. rewrite Hct1 by done. lia.
    + done.
    + intros q _. apply (total_delta_byte 1024). eapply Forall_impl; [exact Hok|]. intros x (? & ? & ? & ?).
      unfold patch_ok. split_and!; try done; lia.
    + intros q Hq. destruct (decide (q < ct_len)); [by apply Hct2|].
      rewrite Hout, Z.lxor_0_r by lia. by rewrite !byte_at_ge by (unfold zlen; rewrite Hct1 by done; lia).
Qed.

(** All patches apply when the segment has the whole record. *)
Lemma all_apply ct_len n po zl ps : Forall staged_ok ps → Forall (in_record ct_len) ps →
  Forall (λ x, po + 5 + n + secret_offset x + secret_len x ≤ zl) ps → ps ≠ [] → existsb (applies (16 + n + ct_len) n po zl) ps = true ∧ map (effective (16 + n + ct_len) n po zl) ps = ps.
Proof.
  intros Hok Hin Hz Hne. assert (H : Forall (λ x, applies (16 + n + ct_len) n po zl x = true) ps).
  { apply Forall_forall. intros x Hx. rewrite Forall_forall in Hok, Hin, Hz. destruct (Hok x Hx) as (Ho & Hl & _).
    specialize (Hin x Hx). specialize (Hz x Hx). cbn in Hz. unfold in_record in Hin. unfold applies.
    destruct (Z.leb_spec (16 + n + secret_len x) (16 + n + ct_len)), (Z.leb_spec (po + 5 + n + secret_offset x + secret_len x) zl); done || lia. }
  split; [destruct ps; [done|]; apply Forall_cons in H as [Hx _]; cbn [existsb]; by rewrite Hx|].
  clear Hok Hin Hne Hz. induction H as [|x ps Hx _ IH]; [done|]. cbn [map]. unfold effective at 1. by rewrite Hx, IH.
Qed.

(** A deferred tag, in the segment that has it. *)
Lemma deferred_tag_spec p hd v s :
  bytes_ok (sb_data p) → sb_writable p = true → zlen (sb_data p) < 2 ^ 30 →
  length (tv_tag_delta v) = 16%nat → bytes_ok (tv_tag_delta v) →
  0 ≤ h_payload_off hd → zlen (sb_data p) = h_payload_off hd + h_payload_len hd →
  0 ≤ h_seq hd ≤ tag_tcp_seq v → tag_tcp_seq v + 16 ≤ h_seq hd + h_payload_len hd → h_seq hd + h_payload_len hd < 2 ^ 32 →
  let off := h_payload_off hd + (tag_tcp_seq v - h_seq hd) in
  ∃ d', apply_deferred_tag p hd v s =
      (put p d', s <| k_tc_tag_pending := delete (h_key hd) (k_tc_tag_pending s) |>) ∧
    changed off (λ q, if (0 <=? q) && (q <? 16) then (tv_tag_delta v).[q] else 0) (sb_data p) d'.
Proof.
  intros Hb Hw Hz Hl Ho Hp Hlen Hs1 Hs2 Hs3 off. change (2 ^ 30) with 1073741824 in Hz. change (2 ^ 32) with 4294967296 in Hs3.
  assert (Zt : zlen (tv_tag_delta v) = 16) by (unfold zlen; lia).
  unfold apply_deferred_tag. rewrite (u32_small (tag_tcp_seq v + 16)), (u32_small (h_seq hd + h_payload_len hd)) by lia.
  destruct (Z.leb_spec (h_seq hd) (tag_tcp_seq v)), (Z.leb_spec (tag_tcp_seq v + 16) (h_seq hd + h_payload_len hd)); try lia.
  cbn [andb]. mrun. rewrite (u32_small (tag_tcp_seq v - h_seq hd)), u32_small by lia. fold off.
  rewrite load_Some by (unfold off; lia).
  destruct (store_xor_changes p off (tv_tag_delta v) off Hb Hw Ho) as (d' & E & C); try (unfold off; lia).
  rewrite Hl in E. change (Z.to_nat 16) with 16%nat. rewrite E. exists d'. split; [done|].
  rewrite Zt in C. destruct C as (C1 & C2 & C3). split; [done|]. split; [done|]. intros q Hq. rewrite C3 by done.
  by rewrite Z.sub_diag, Z.sub_0_r.
Qed.

(** A segment with a whole record of a pending write. *)
Lemma egress_record s p hd v key leads others r n :
  carries s p hd v key leads others r n → pending_ps v ≠ [] →
  let base := ct_off hd leads others n in let ct_len := ct_len_of r n in
  base + ct_len + 16 ≤ zlen (sb_data p) →
  ∃ s' d', tc_egress_patch true p s = ((TC_PASS, put p d'), s') ∧
    repatched key (pending_ps v) base ct_len (sb_data p) d' ∧
    but_egress s' = but_egress s ∧ k_tc_pending s' = alter deactivate (h_key hd) (k_tc_pending s) ∧
    k_tc_tag_pending s' = k_tc_tag_pending s.
Proof.
  intros Hca Hne base ct_len Hz.
  destruct (egress_run s p hd v key leads others r n Hca) as (Hpo & Hct & Hrl & Hn & _ & Hin & s0 & B0 & T0 & G0 & W0 & C0 & E0).
  pose proof Hca as [_ (Hw & Hb & Hz30) (_ & _ & _ & Hok) _ (c & Hc & Hk & Hbk & _) _ _].
  fold ct_len in Hct, E0, Hin. set (po := rec_off hd leads others) in *. change (2 ^ 30) with 1073741824 in Hz30.
  assert (Eb : base = po + 5 + n) by done.
  destruct (all_apply ct_len n po (zlen (sb_data p)) (pending_ps v)) as [Hex Heff]; [apply Hok|done| |done|].
  { eapply Forall_impl; [exact Hin|]. intros x Hx. unfold in_record in Hx. cbn. lia. }
  destruct (patch_record_spec hd v po ct_len n key Hpo ltac:(lia) ltac:(lia) ltac:(lia) p s0 W0 Hok Hin Hbk)
    as (s' & d' & td & E & B & T & Htd & R); try done; [by rewrite C0, Hc, <- Hk|lia|lia|].
  rewrite Heff, <- Eb in *. destruct (Z.leb_spec (base + ct_len + 16) (zlen (sb_data p))); [|lia]. destruct R as [R G].
  exists s', d'. rewrite E0, E, B, T, G, B0, T0, G0. split_and!; try done.
  eapply changed_repatched; try done; [apply Hok|lia|lia].
Qed.

(** C3: the segment of a redeemed write: tc_egress_patch finds the record among the
    others, changes its ciphertext by the patches of the write, so that it
    decrypts to the plaintext with the secrets, gives it the tag of the new
    ciphertext, whatever the other inputs of the tag are, changes no other byte
    of the packet, and never patches a record for this write again. *)
Theorem tc_egress_patches_record s p hd v key leads others r n :
  carries s p hd v key leads others r n → pending_ps v ≠ [] →
  let base := ct_off hd leads others n in let ct_len := ct_len_of r n in
  base + ct_len + 16 ≤ zlen (sb_data p) →
  ∃ s' d', tc_egress_patch true p s = ((TC_PASS, put p d'), s') ∧
    repatched key (pending_ps v) base ct_len (sb_data p) d' ∧
    but_egress s' = but_egress s ∧ k_tc_pending s' = alter deactivate (h_key hd) (k_tc_pending s) ∧
    k_tc_tag_pending s' = k_tc_tag_pending s.
Proof. apply egress_record. Qed.

(** The bytes two segments carry. *)
Definition stream (hd1 hd2 : pkt_headers) (d1 d2 : bytes) : bytes :=
  drop (Z.to_nat (h_payload_off hd1)) d1 ++ drop (Z.to_nat (h_payload_off hd2)) d2.

Lemma stream_at hd1 hd2 d1 d2 q : 0 ≤ h_payload_off hd1 → 0 ≤ h_payload_off hd2 → 0 ≤ q →
  zlen d1 = h_payload_off hd1 + h_payload_len hd1 → 0 ≤ h_payload_len hd1 →
  (stream hd1 hd2 d1 d2).[q] =
    if q <? h_payload_len hd1 then d1.[h_payload_off hd1 + q] else d2.[h_payload_off hd2 + (q - h_payload_len hd1)].
Proof.
  intros H1 H2 Hq Hz Hl. unfold stream. unfold zlen in Hz.
  assert (L : zlen (drop (Z.to_nat (h_payload_off hd1)) d1) = h_payload_len hd1) by (unfold zlen; rewrite length_drop; lia).
  destruct (Z.ltb_spec q (h_payload_len hd1)).
  - rewrite byte_at_app_l, byte_at_drop by lia. f_equal. lia.
  - rewrite byte_at_app_r, byte_at_drop by lia. f_equal. lia.
Qed.

(** Changes of the two segments make one of the stream. *)
Lemma stream_changed hd1 hd2 d1 d2 d1' d2' base f1 f2 off2 f :
  0 ≤ h_payload_off hd1 → 0 ≤ h_payload_off hd2 → 0 ≤ h_payload_len hd1 →
  zlen d1 = h_payload_off hd1 + h_payload_len hd1 → h_payload_off hd2 ≤ zlen d2 →
  changed base f1 d1 d1' → changed off2 f2 d2 d2' →
  (∀ q, 0 ≤ q < h_payload_len hd1 → f (q - (base - h_payload_off hd1)) = f1 (h_payload_off hd1 + q - base)) →
  (∀ q, h_payload_len hd1 ≤ q → f (q - (base - h_payload_off hd1)) = f2 (h_payload_off hd2 + (q - h_payload_len hd1) - off2)) →
  changed (base - h_payload_off hd1) f (stream hd1 hd2 d1 d2) (stream hd1 hd2 d1' d2').
Proof.
  intros H1 H2 Hl Hz Hz2 (L1 & O1 & C1) (L2 & O2 & C2) F1 F2.
  assert (Ls : ∀ x y, zlen x = zlen d1 → zlen y = zlen d2 →
    zlen (stream hd1 hd2 x y) = h_payload_len hd1 + (zlen d2 - h_payload_off hd2)).
  { intros x y Hx Hy. unfold stream, zlen in *. rewrite length_app, !length_drop. lia. }
  split; [by rewrite !Ls|]. split; [unfold stream; apply bytes_ok_app; split; by apply bytes_ok_drop|].
  intros q Hq. rewrite Ls in Hq by done. rewrite !stream_at by lia. destruct (Z.ltb_spec q (h_payload_len hd1)).
  - rewrite C1, F1 by lia. done.
  - rewrite C2, F2 by lia. done.
Qed.

(** The first segment of a cut record. *)
Lemma split_first s p hd v key leads others r n :
  carries s p hd v key leads others r n → pending_ps v ≠ [] →
  let base := ct_off hd leads others n in let ct_len := ct_len_of r n in
  let start := base - h_payload_off hd in
  zlen (sb_data p) = h_payload_off hd + h_payload_len hd →
  Forall (λ x, start + secret_offset x + secret_len x ≤ h_payload_len hd) (pending_ps v) →
  h_payload_len hd < start + ct_len + 16 → 0 ≤ h_seq hd → h_seq hd + start + ct_len < 2 ^ 32 →
  block key ∧ pending_ok v ∧ Forall (in_record ct_len) (pending_ps v) ∧ 5 ≤ start ∧ 0 ≤ ct_len ≤ 18416 ∧
  ∃ s' d' td, tc_egress_patch true p s = ((TC_PASS, put p d'), s') ∧
    tag_delta_of key (pending_ps v) ct_len td ∧ changed base (total_delta (pending_ps v)) (sb_data p) d' ∧
    but_egress s' = but_egress s ∧ k_tc_pending s' = alter deactivate (h_key hd) (k_tc_pending s) ∧
    k_tc_tag_pending s' =
      <[h_key hd := {| tv_tag_delta := td; tag_tcp_seq := h_seq hd + start + ct_len |}]> (k_tc_tag_pending s).
Proof.
  intros Hca Hne base ct_len start Hz1 Hps Hcut Hs0 Hs3. change (2 ^ 32) with 4294967296 in *.
  destruct (egress_run s p hd v key leads others r n Hca) as (Hpo & Hct & Hrl & Hn & Hin5 & Hin & s0 & B0 & T0 & G0 & W0 & C0 & E0).
  pose proof Hca as [[Hh1 Hl1] (Hw & Hb & Hz30) (_ & _ & _ & Hok) Hnotag (c & Hc & Hk & Hbk & _ & Hseg) _ _].
  fold ct_len in Hct, Hrl, E0, Hin. set (po := rec_off hd leads others) in *.
  pose proof (parse_headers_off p hd Hb Hh1) as Ho1. change (2 ^ 30) with 1073741824 in *.
  assert (Eb : base = po + 5 + n) by done.
  assert (Hpo1 : h_payload_off hd ≤ po).
  { unfold po, rec_off. pose proof (seg_at _ _ _ _ _ _ _ _ Hseg) as Hat. rewrite app_assoc in Hat.
    apply records_at_app in Hat as [Hat _]. apply size_nonneg in Hat. lia. }
  split; [done|]. split; [done|]. split; [done|]. split; [unfold start; lia|]. split; [lia|].
  destruct (all_apply ct_len n po (zlen (sb_data p)) (pending_ps v)) as [Hex Heff]; [apply Hok|done| |done|].
  { eapply Forall_impl; [exact Hps|]. intros x Hx. cbn in Hx |- *. lia. }
  destruct (patch_record_spec hd v po ct_len n key Hpo ltac:(lia) ltac:(lia) ltac:(lia) p s0 W0 Hok Hin Hbk)
    as (s1 & d1 & td & E & B & T & Htd & R); try done; [by rewrite C0, Hc, <- Hk|lia|lia|].
  rewrite Heff, <- Eb in *. destruct (Z.leb_spec (base + ct_len + 16) (zlen (sb_data p))); [lia|]. destruct R as [R G].
  exists s1, d1, td. rewrite E0, B, T, G, B0, T0, G0. split_and!; try done.
  rewrite (u32_small (po - _)), u32_small by lia. do 2 f_equal. lia.
Qed.

(** A segment of a connection with a tag deferred. *)
Lemma egress_tag loaded s p hd v : parse_headers p = Some hd → k_tc_tag_pending s !! h_key hd = Some v →
  ∃ s', k_tc_tag_pending s' = k_tc_tag_pending s ∧ k_tc_pending s' = k_tc_pending s ∧ but_egress s' = but_egress s ∧
    tc_egress_patch loaded p s = let '(p', s'') := apply_deferred_tag p hd v s' in ((TC_PASS, p'), s'').
Proof.
  intros Hp Hv. unfold tc_egress_patch, dbg_inc. mrun. rewrite Hp.
  set (s1 := s <| k_debug_counters := _ |>). change (k_tc_tag_pending s1) with (k_tc_tag_pending s). rewrite Hv.
  exists s1. split; [done|]. split; [done|]. split; [by destruct s|]. by destruct (apply_deferred_tag _ _ _ _).
Qed.

(** The two changes are that of the record. *)
Lemma split_changed hd1 hd2 base ct_len ps td d1 d2 d1' d2' :
  let start := base - h_payload_off hd1 in
  0 ≤ h_payload_off hd1 → 0 ≤ h_payload_off hd2 → 0 ≤ h_payload_len hd1 → 0 ≤ h_payload_len hd2 →
  zlen d1 = h_payload_off hd1 + h_payload_len hd1 → zlen d2 = h_payload_off hd2 + h_payload_len hd2 →
  Forall staged_ok ps → Forall (λ x, start + secret_offset x + secret_len x ≤ h_payload_len hd1) ps →
  0 ≤ ct_len → h_payload_len hd1 ≤ start + ct_len →
  changed base (total_delta ps) d1 d1' →
  changed (h_payload_off hd2 + (start + ct_len - h_payload_len hd1)) (λ q, if (0 <=? q) && (q <? 16) then td.[q] else 0) d2 d2' →
  changed start (record_delta ps ct_len td) (stream hd1 hd2 d1 d2) (stream hd1 hd2 d1' d2').
Proof.
  intros start H1 H2 Hl1 Hl2 Hz1 Hz2 Hok Hps Hct Hcut C1 C2.
  eapply stream_changed; [..|exact C1|exact C2| |]; try done; try lia; intros q Hq; unfold record_delta; fold start.
  - destruct (Z.leb_spec ct_len (q - start)); [lia|]. cbn [andb]. rewrite Z.lxor_0_r. f_equal. lia.
  - rewrite (total_delta_out ps (h_payload_len hd1 - start) (q - start)), Z.lxor_0_l; [|done| |lia].
    + replace (h_payload_off hd2 + (q - h_payload_len hd1) - (h_payload_off hd2 + (start + ct_len - h_payload_len hd1)))
        with (q - start - ct_len) by lia.
      replace (ct_len <=? q - start) with (0 <=? q - start - ct_len)
        by (destruct (Z.leb_spec 0 (q - start - ct_len)), (Z.leb_spec ct_len (q - start)); done || lia).
      by replace (q - start <? ct_len + 16) with (q - start - ct_len <? 16)
        by (destruct (Z.ltb_spec (q - start) (ct_len + 16)), (Z.ltb_spec (q - start - ct_len) 16); done || lia).
    + eapply Forall_impl; [exact Hps|]. intros x Hx. unfold in_record. cbn in Hx. lia.
Qed.

(** The segment after the first of a cut record, in any state that still has the
    change of the tag: it gets it. *)
Lemma split_second s1 p1 p2 hd1 hd2 ps key start ct_len td d1 :
  let base := h_payload_off hd1 + start in
  block key → Forall staged_ok ps → Forall (in_record ct_len) ps → bytes_ok (sb_data p1) →
  0 ≤ h_payload_off hd1 → 0 ≤ h_payload_len hd1 → 5 ≤ start → 0 ≤ ct_len ≤ 18416 →
  zlen (sb_data p1) = h_payload_off hd1 + h_payload_len hd1 →
  Forall (λ x, start + secret_offset x + secret_len x ≤ h_payload_len hd1) ps →
  h_payload_len hd1 ≤ start + ct_len → tag_delta_of key ps ct_len td → changed base (total_delta ps) (sb_data p1) d1 →
  k_tc_tag_pending s1 !! h_key hd2 = Some {| tv_tag_delta := td; tag_tcp_seq := h_seq hd1 + start + ct_len |} →
  parse_headers p2 = Some hd2 → sb_writable p2 = true → bytes_ok (sb_data p2) → zlen (sb_data p2) < 2 ^ 30 →
  zlen (sb_data p2) = h_payload_off hd2 + h_payload_len hd2 →
  0 ≤ h_seq hd1 → h_seq hd2 = h_seq hd1 + h_payload_len hd1 → h_seq hd2 + h_payload_len hd2 < 2 ^ 32 →
  start + ct_len + 16 ≤ h_payload_len hd1 + h_payload_len hd2 →
  ∃ s2 d2, tc_egress_patch true p2 s1 = ((TC_PASS, put p2 d2), s2) ∧
    repatched key ps start ct_len (stream hd1 hd2 (sb_data p1) (sb_data p2)) (stream hd1 hd2 d1 d2) ∧
    but_egress s2 = but_egress s1 ∧ k_tc_pending s2 = k_tc_pending s1 ∧
    k_tc_tag_pending s2 = delete (h_key hd2) (k_tc_tag_pending s1).
Proof.
  intros base Hk Hok Hin Hb1 Ho1 Hl1 H5 Hct Hz1 Hps Hcut Htd C1 G1 Hh2 Hw2 Hb2 Hz230 Hz2 Hs0 Hs2 Hs3 Hend.
  set (v2 := {| tv_tag_delta := td; tag_tcp_seq := _ |}) in G1.
  destruct (egress_tag true s1 p2 hd2 v2 Hh2 G1) as (s1' & G1' & T1' & B1' & E2).
  pose proof Htd as [[Lt Ot] _]. pose proof (parse_headers_off p2 hd2 Hb2 Hh2) as Ho2.
  destruct (deferred_tag_spec p2 hd2 v2 s1' Hb2 Hw2) as (d2 & E2' & C2); try done; try (unfold v2; cbn [tag_tcp_seq]; lia).
  exists (s1' <| k_tc_tag_pending := delete (h_key hd2) (k_tc_tag_pending s1') |>), d2.
  split; [by rewrite E2, E2'|]. split; [|split; [|split]].
  - eapply changed_repatched; try done; [by (unfold stream; apply bytes_ok_app; split; apply bytes_ok_drop)|lia|lia| |].
    + unfold stream, zlen in *. rewrite length_app, !length_drop. lia.
    + replace start with (base - h_payload_off hd1) by (unfold base; lia).
      apply split_changed; try done; replace (base - h_payload_off hd1) with start by (unfold base; lia); try done; try lia.
      unfold v2 in C2. cbn [tag_tcp_seq tv_tag_delta] in C2.
      replace (start + ct_len - h_payload_len hd1) with (h_seq hd1 + start + ct_len - h_seq hd2) by lia. exact C2.
  - rewrite <- B1'. by destruct s1'.
  - exact T1'.
  - change (delete (h_key hd2) (k_tc_tag_pending s1') = delete (h_key hd2) (k_tc_tag_pending s1)). by rewrite G1'.
Qed.

(** C4: a record cut by a segment boundary after its patched bytes and before its
    tag: the first segment gets the ciphertext, the tag's change waits in
    tc_tag_pending, the next segment gets it, and the stream of the two has the
    record with the patches and the right tag; nothing is left pending. *)
Theorem tc_egress_split_record s p1 p2 hd1 hd2 v key leads others r n :
  carries s p1 hd1 v key leads others r n → pending_ps v ≠ [] →
  let base := ct_off hd1 leads others n in let ct_len := ct_len_of r n in
  let start := base - h_payload_off hd1 in
  zlen (sb_data p1) = h_payload_off hd1 + h_payload_len hd1 →
  Forall (λ x, start + secret_offset x + secret_len x ≤ h_payload_len hd1) (pending_ps v) →
  h_payload_len hd1 ≤ start + ct_len →
  parse_headers p2 = Some hd2 → h_key hd2 = h_key hd1 →
  sb_writable p2 = true → bytes_ok (sb_data p2) → zlen (sb_data p2) < 2 ^ 30 →
  zlen (sb_data p2) = h_payload_off hd2 + h_payload_len hd2 →
  0 ≤ h_seq hd1 → h_seq hd2 = h_seq hd1 + h_payload_len hd1 →
  h_seq hd2 + h_payload_len hd2 < 2 ^ 32 →
  start + ct_len + 16 ≤ h_payload_len hd1 + h_payload_len hd2 →
  ∃ s1 d1 s2 d2, tc_egress_patch true p1 s = ((TC_PASS, put p1 d1), s1) ∧
    tc_egress_patch true p2 s1 = ((TC_PASS, put p2 d2), s2) ∧
    repatched key (pending_ps v) start ct_len
      (stream hd1 hd2 (sb_data p1) (sb_data p2)) (stream hd1 hd2 d1 d2) ∧
    but_egress s2 = but_egress s ∧ k_tc_pending s2 = alter deactivate (h_key hd1) (k_tc_pending s) ∧
    k_tc_tag_pending s2 = k_tc_tag_pending s.
Proof.
  intros Hca Hne base ct_len start Hz1 Hps Hcut Hh2 Hkey Hw2 Hb2 Hz230 Hz2 Hs0 Hs2 Hs3 Hend.
  pose proof (ca_headers _ _ _ _ _ _ _ _ _ Hca) as [Hh1 Hl1]. pose proof (ca_no_tag _ _ _ _ _ _ _ _ _ Hca) as Hnt.
  pose proof (ca_packet _ _ _ _ _ _ _ _ _ Hca) as (Hw1 & Hb1 & _). pose proof (parse_headers_off p1 hd1 Hb1 Hh1) as Ho1.
  destruct (split_first s p1 hd1 v key leads others r n Hca Hne) as
    (Hk & (_ & _ & Hok) & Hin & H5 & Hct & s1 & d1 & td & E1 & Htd & C1 & B1 & T1 & G1); try done; try lia.
  fold base in C1, E1, G1, H5, Hct, Hin, Htd. fold ct_len in C1, G1, Hct, Hin, Htd. fold start in G1, H5.
  destruct (split_second s1 p1 p2 hd1 hd2 (pending_ps v) key start ct_len td d1) as (s2 & d2 & E2 & R & B2 & T2 & G2); try done; try lia.
  { by replace (h_payload_off hd1 + start) with base by (unfold start; lia). }
  { by rewrite Hkey, G1, lookup_insert_eq. }
  exists s1, d1, s2, d2. split_and!; try done; [by rewrite B2|by rewrite T2|]. by rewrite G2, Hkey, G1, delete_insert_id.
Qed.

(** *** A sample: a ChangeCipherSpec and the record of a write of 100 bytes, one
    patch of three bytes in it *)

(** An Ethernet frame of an IPv4 TCP segment, from port 40000 to 10.0.0.2. *)
Definition sample_packet (seq : Z) (payload : bytes) : skb :=
  let d := zeros 12 ++ [8; 0] ++ [0x45; 0] ++ be16 (40 + zlen payload) ++ [0; 0; 0; 0; 64; 6; 0; 0; 10; 0; 0; 1; 10; 0; 0; 2] ++
    [156; 64; 1; 187] ++ be_bytes 4 seq ++ [0; 0; 0; 0; 0x50; 0x18; 0; 0; 0; 0; 0; 0] ++ payload in
  {| sb_data := d; sb_linear := 54; sb_protocol := 0x0800; sb_sk := None; sb_cgroup_id := 3; sb_writable := true |}.
Definition sample_payload : bytes := [20; 3; 3; 0; 1; 1] ++ [23; 3; 3; 0; 117] ++ zeros 117.
Definition sample_dest : tc_dest_key := (ipv4_to_mapped [10; 0; 0; 2], 40000, 3).
Definition sample_hd (seq len : Z) : pkt_headers :=
  {| h_key := sample_dest; h_seq := seq; h_payload_off := 54; h_payload_len := len |}.
Definition sample_key : bytes := 1 :: zeros 15.
Definition sample_patch : xor_patch :=
  {| secret_offset := 5; secret_len := 3; xor_delta := 1 :: 2 :: 3 :: zeros 125; p_key := zeros 8 |}.
Definition sample_pending : tc_pending_val :=
  Build_tc_pending_val 7 77 1 (sample_patch :: replicate 3 xor_patch_zero) true 100 1000.
Definition sample_state : kst :=
  kst_init <| k_tc_pending := {[ sample_dest := sample_pending ]} |>
    <| k_tls_conn_state := {[ (7, 77) := {| ghash_h := sample_key; cipher_type := 1; nonce_len := 0 |} ]} |>.
Definition sample_lead : tls_rec := {| r_ct := 20; r_minor := 3; r_len := 1 |}.
Definition sample_rec : tls_rec := {| r_ct := 23; r_minor := 3; r_len := 117 |}.

Lemma sample_carries p len : 11 ≤ len →
  parse_headers p = Some (sample_hd 1000 len) → seq_matches sample_pending (sample_hd 1000 len) = true →
  sb_writable p = true ∧ bytes_ok (sb_data p) ∧ zlen (sb_data p) < 2 ^ 30 →
  holds (sb_data p) 54 (rec_hdr sample_lead) → holds (sb_data p) 60 (rec_hdr sample_rec) → 65 ≤ zlen (sb_data p) →
  carries sample_state p (sample_hd 1000 len) sample_pending sample_key [sample_lead] [] sample_rec 0.
Proof.
  intros Hl Hp Hs Hok H1 H2 Hz. split.
  - split; [exact Hp|cbn; lia].
  - exact Hok.
  - split; [reflexivity|]. split; [reflexivity|]. split; [exact Hs|]. split; [cbn; lia|]. split; [reflexivity|].
    apply Forall_singleton. split; [vm_compute; congruence|]. split; [cbn; lia|]. split; [vm_compute; congruence|by_compute].
  - reflexivity.
  - eexists. split; [reflexivity|]. split; [reflexivity|]. split; [split; [reflexivity|by_compute]|]. split; [left|].
    split.
    + cbn [app records_at r_len sample_lead h_payload_off sample_hd]. unfold rec_ok, legal_len, TLS_MAX_RECORD_LEN. cbn.
      split_and!; try done; try lia; try (by right; left); by left.
    + split; [|cbn; lia]. apply Forall_singleton. by vm_compute.
    + split; [done|]. split; [apply Forall_nil_2|cbn; lia].
    + split; [reflexivity|]. split; [cbn; lia|]. split; [by left|]. split; [reflexivity|by right].
  - split; [reflexivity|]. split; reflexivity.
  - apply Forall_singleton. vm_compute. congruence.
Qed.

Lemma tc_egress_patches_record_witness :
  let p := sample_packet 1000 sample_payload in
  ∃ s' d', tc_egress_patch true p sample_state = ((TC_PASS, put p d'), s') ∧
    repatched sample_key [sample_patch] 65 101 (sb_data p) d' ∧
    but_egress s' = but_egress sample_state ∧
    k_tc_pending s' = alter deactivate sample_dest (k_tc_pending sample_state) ∧
    k_tc_tag_pending s' = k_tc_tag_pending sample_state.
Proof.
  cbn zeta. apply (tc_egress_patches_record sample_state (sample_packet 1000 sample_payload) (sample_hd 1000 128)
    sample_pending sample_key [sample_lead] [] sample_rec 0).
  - apply sample_carries; [lia|vm_compute; reflexivity|reflexivity| |reflexivity|reflexivity|vm_compute; congruence].
    split; [reflexivity|]. split; [by_compute|reflexivity].
  - discriminate.
  - vm_compute. congruence.
Defined.

(** The same record cut after 100 bytes of payload. *)
Lemma tc_egress_split_record_witness :
  let p1 := sample_packet 1000 (take 100 sample_payload) in
  let p2 := sample_packet 1100 (drop 100 sample_payload) in
  ∃ s1 d1 s2 d2, tc_egress_patch true p1 sample_state = ((TC_PASS, put p1 d1), s1) ∧
    tc_egress_patch true p2 s1 = ((TC_PASS, put p2 d2), s2) ∧
    repatched sample_key [sample_patch] 11 101
      (stream (sample_hd 1000 100) (sample_hd 1100 28) (sb_data p1) (sb_data p2))
      (stream (sample_hd 1000 100) (sample_hd 1100 28) d1 d2) ∧
    but_egress s2 = but_egress sample_state ∧
    k_tc_pending s2 = alter deactivate sample_dest (k_tc_pending sample_state) ∧
    k_tc_tag_pending s2 = k_tc_tag_pending sample_state.
Proof.
  cbn zeta. apply (tc_egress_split_record sample_state (sample_packet 1000 (take 100 sample_payload))
    (sample_packet 1100 (drop 100 sample_payload)) (sample_hd 1000 100) (sample_hd 1100 28)
    sample_pending sample_key [sample_lead] [] sample_rec 0).
  - apply sample_carries; [lia|vm_compute; reflexivity|reflexivity| |reflexivity|reflexivity|vm_compute; congruence].
    split; [reflexivity|]. split; [by_compute|reflexivity].
  - discriminate.
  - reflexivity.
  - apply Forall_singleton. vm_compute. congruence.
  - vm_compute. congruence.
  - vm_compute. reflexivity.
  - reflexivity.
  - reflexivity.
  - by_compute.
  - reflexivity.
  - reflexivity.
  - cbn; lia.
  - reflexivity.
  - reflexivity.
  - vm_compute. congruence.
Defined.

End TcFacts.
