(* ===== verification/TcpSend.v ===== *)
(** * tcp_sendmsg (pkg/ebpf/bpf/tls_uprobe.c)

    [TcpSend]: the kprobe that records the SNI of a connection, the tracepoint
    that forgets it, the check of a write's patches against the socket they leave
    on, and the bridge kprobe, which recovers H and hands the write over to tc. *)

From S2P Require Import Prelude Host GF128 Ghash TlsRecord Sni VipAddr State Hooks HExtract.
Import Host GF128 TlsRecord Types Kernel Sni VipAddr GhashCode Hooks HExtract.

Module TcpSend.

Definition TCP_SYN_SENT : Z := 2.
Definition TCP_CLOSE : Z := 7.
Definition IPPROTO_TCP : Z := 6.

(** A struct sock, as the programs read it. *)
Record sock := {
  sk_ptr : Z;
  skc_family : Z;
  skc_v6_daddr : bytes;
  skc_daddr : bytes;
  skc_num : Z;                 (* the source port *)
  skc_dport : Z;               (* the destination port, as a number *)
  skc_cookie : Z;
  sk_write_seq : Z             (* tcp_sock.write_seq *)
}.

(** The kinds of msg_iter the code tells apart; [None] of a kernel without
    iter_type. *)
Inductive iter_type := ITER_UBUF | ITER_IOVEC | ITER_OTHER.
Record msghdr := {
  msg_iter_type : option iter_type;
  msg_count : Z;
  iov_offset : Z;
  ubuf : Z;
  iov : option (Z * Z)         (* the first iovec; [None] for NULL *)
}.

(** The address and length of the first chunk; [None] for -1. *)
Definition sendmsg_first_buf (msg : msghdr) : option (Z * Z) :=
  let skip := iov_offset msg in
  match msg_iter_type msg with
  | None => None
  | Some ITER_UBUF => Some (u64 (ubuf msg + skip), msg_count msg)
  | Some ITER_OTHER => None
  | Some ITER_IOVEC =>
      match iov msg with
      | None => None
      | Some (iov_base, iov_len) =>
          if iov_len <=? skip then None
          else
            let len := iov_len - skip in
            Some (u64 (iov_base + skip), if msg_count msg <? len then msg_count msg else len)
      end
  end.

(** *** The SNI of a connection *)

(** The SNI entry of a ClientHello in the first [n] bytes of [buf]. *)
Definition parsed_state (buf : bytes) (n : Z) : sni_state_val :=
  let r := tls_parse_sni buf n (zeros 64) in
  {| st_status := r_status r; st_len := r_len r; st_sni := r_host r |}.

(** What a decided connection's entry becomes; [None]: it stays. *)
Definition sni_after_seen (cur st : sni_state_val) : option sni_state_val :=
  if (st_status st =? SNI_STATUS_ECH) ||
     ((st_status st =? SNI_STATUS_SEEN) && negb (hosts_match (st_sni cur) (st_sni st)))
  then Some (cur <| st_status := SNI_STATUS_MISMATCH |>) else None.

Definition sni_first (st : sni_state_val) : sni_state_val :=
  if st_status st =? SNI_NOT_CLIENT_HELLO then st <| st_status := SNI_STATUS_MALFORMED |> else st.

Definition set_sni (sk_key : Z) (st : sni_state_val) : M unit :=
  modify (λ s, s <| k_sni_state := <[sk_key := st]> (k_sni_state s) |>).

(** The part past the header check: a handshake record at [base]. *)
Definition sni_handshake (t : task) (sk_key base len : Z) : M unit :=
  cur ← gets (λ s, k_sni_state s !! sk_key);
  let cur_status := match cur with Some c => st_status c | None => SNI_STATUS_NONE end in
  if negb (cur_status =? SNI_STATUS_NONE) && negb (cur_status =? SNI_STATUS_SEEN) then pass
  else
    let n := if TLS_SNI_BUF_LEN <? len then TLS_SNI_BUF_LEN else u32 len in
    let data := probe_read t base (Z.to_nat n) in
    modify (λ s, s <| k_sni_buf := splice (k_sni_buf s) 0 (default (zeros (Z.to_nat n)) data) |>);;
    match data with
    | None => pass
    | Some _ =>
        buf ← gets k_sni_buf;
        let st := parsed_state buf n in
        match cur with
        | Some c =>
            if cur_status =? SNI_STATUS_SEEN then
              match sni_after_seen c st with Some c' => set_sni sk_key c' | None => pass end
            else set_sni sk_key (sni_first st);; dbg_inc DBG_SNI_CAPTURED
        | None => set_sni sk_key (sni_first st);; dbg_inc DBG_SNI_CAPTURED
        end
    end.

(** [sk] and [msg]: the arguments of tcp_sendmsg, [None] for NULL. *)
Definition bpf_kprobe_tcp_sendmsg_sni (t : task) (sk : option sock) (msg : option msghdr) : M unit :=
  tracked ← gets (λ s, k_tracked_tgids s !! tgid_of t);
  match tracked, sk, msg with
  | Some _, Some sk, Some msg =>
      match sendmsg_first_buf msg with
      | None => pass
      | Some (base, len) =>
          if len <? 2 then pass
          else
            match probe_read t base 2 with
            | None => pass
            | Some hdr =>
                if negb (hdr.[0] =? TLS_CT_HANDSHAKE) || negb (hdr.[1] =? 0x03) then pass
                else sni_handshake t (sk_ptr sk) base len
            end
      end
  | _, _, _ => pass
  end.

Definition tp_inet_sock_set_state (protocol newstate : Z) (sk : sock) : M unit :=
  if negb (protocol =? IPPROTO_TCP) then pass
  else if negb (newstate =? TCP_SYN_SENT) && negb (newstate =? TCP_CLOSE) then pass
  else
    modify (λ s, s <| k_sni_state := delete (sk_ptr sk) (k_sni_state s) |>);;
    when ((newstate =? TCP_CLOSE) && negb (skc_cookie sk =? 0))
      (modify (λ s, s <| k_vip_sock_host := delete (skc_cookie sk) (k_vip_sock_host s) |>);;
       modify (λ s, s <| k_vip_sock_dst := delete (skc_cookie sk) (k_vip_sock_dst s) |>)).

(** *** The patches a socket may carry *)

Definition sock_dst_addr (sk : sock) : addr16 :=
  if (skc_family sk =? 10) && negb (vip_addr_v4mapped (skc_v6_daddr sk)) then skc_v6_daddr sk
  else ipv4_to_mapped (skc_daddr sk).

(** The address and port a secret's restrictions are checked against. *)
Definition checked_dst (s : kst) (sk : sock) : addr16 * Z :=
  match (if skc_cookie sk =? 0 then None else k_vip_sock_dst s !! skc_cookie sk) with
  | Some d => (vd_ip d, vd_port d)
  | None => (sock_dst_addr sk, skc_dport sk)
  end.

(** The SNI status of the socket for [val]. *)
Definition sni_status_for (s : kst) (sk : sock) (val : secret_value) : Z :=
  match k_sni_state s !! sk_ptr sk with
  | None => SNI_STATUS_NONE
  | Some st =>
      if (st_status st =? SNI_STATUS_SEEN) && negb (hosts_match (st_sni st) (allowed_host val))
      then SNI_STATUS_MISMATCH else st_status st
  end.

(** The check of one secret: [keep]. *)
Definition socket_check_key (t : task) (sk : sock) (audit membio : bool) (dst : addr16 * Z) (key : secret_key) : M bool :=
  secrets ← gets k_secret_map;
  match secrets !! key with
  | None => mret false
  | Some val =>
      sh ← gets (λ s, if skc_cookie sk =? 0 then None else k_vip_sock_host s !! skc_cookie sk);
      let why := vip_socket_check sh (host_len val) (allowed_host val) (ip_len val) (allowed_ip val)
                   (fst dst) (sv_port val) (snd dst) in
      if negb (why =? VIP_SOCK_OK) then
        dbg_inc (if why =? VIP_SOCK_DENY_HOST then DBG_VIP_SOCK_HOST_DENY else DBG_VIP_SOCK_ADDR_DENY);;
        mret false
      else if (0 <? host_len val) && (host_len val <? MAX_HOST_LEN) then
        status ← gets (λ s, sni_status_for s sk val);
        if negb (status =? SNI_STATUS_SEEN) then
          dbg_inc (if audit then DBG_SNI_AUDIT else DBG_SNI_DENY);;
          st ← gets (λ s, k_sni_state s !! sk_ptr sk);
          report_secret_event t key audit SECRET_EVT_SNI (u8 status) membio (st_sni <$> st);;
          mret audit
        else mret true
      else mret true
  end.

Definition on_staged (f : tc_pending_val → tc_pending_val) : M unit :=
  modify (λ s, s <| k_ghash_scratch := (k_ghash_scratch s) <| staged_tc := f (staged_tc (k_ghash_scratch s)) |> |>).

(** [patches[kept] = patches[p]] *)
Definition move_patch (kept p : Z) (v : tc_pending_val) : tc_pending_val :=
  let m := XOR_MAX_PATCHES - 1 in
  v <| tp_patches := set_patch (Z.land kept m) (nth_patch (tp_patches v) (Z.land p m)) (tp_patches v) |>.

(** The loop, [fuel] iterations from [p]; the patches kept. *)
Fixpoint filter_patches (fuel : nat) (t : task) (sk : sock) (audit membio : bool) (dst : addr16 * Z)
    (pc p kept : Z) : M Z :=
  match fuel with
  | O => mret kept
  | S fuel' =>
      if pc <=? p then mret kept
      else
        v ← gets (λ s, staged_tc (k_ghash_scratch s));
        keep ← socket_check_key t sk audit membio dst (p_key (nth_patch (tp_patches v) (Z.land p (XOR_MAX_PATCHES - 1))));
        if negb keep then filter_patches fuel' t sk audit membio dst pc (p + 1) kept
        else
          when (negb (kept =? p)) (on_staged (move_patch kept p));;
          filter_patches fuel' t sk audit membio dst pc (p + 1) (kept +32 1)
  end.

(** [patch_count = kept] *)
Definition set_count (kept : Z) (v : tc_pending_val) : tc_pending_val := v <| tp_patch_count := kept |>.

Definition socket_filter_patches (t : task) (sk : sock) (membio : bool) : M Z :=
  mode ← gets k_sni_check_mode;
  let audit := mode =? SNI_CHECK_AUDIT in
  dst ← gets (λ s, checked_dst s sk);
  v ← gets (λ s, staged_tc (k_ghash_scratch s));
  let pc := if XOR_MAX_PATCHES <? tp_patch_count v then XOR_MAX_PATCHES else tp_patch_count v in
  kept ← filter_patches (Z.to_nat XOR_MAX_PATCHES) t sk audit membio dst pc 0 0;
  on_staged (set_count kept);;
  mret kept.

(** *** H, when the bridge recovers it itself *)

Definition h_fail {A} : M (option A) := dbg_inc DBG_KPROBE_BRIDGE_H_FAIL;; mret None.

Definition go_conn (h : bytes) (nonce : Z) : tls_conn_state :=
  {| ghash_h := h; cipher_type := KLOAK_CIPHER_AES_GCM; nonce_len := nonce |}.

(** The Go branch. *)
Definition go_recover_h (t : task) (ssl_ptr : Z) : M (option tls_conn_state) :=
  m ← gets k_go_tls_offset_config;
  match m !! (cgroup_id t, exe_inode t) with
  | None => h_fail
  | Some go_off =>
      match probe_ptr t (ssl_ptr + conn_to_cipher go_off) with
      | None => h_fail
      | Some cipher_data =>
          match probe_ptr t (cipher_data + aead_iface_off go_off) with
          | None => h_fail
          | Some gcm_ptr =>
              match probe_word t (gcm_ptr + h2_hi_off go_off) 8, probe_word t (gcm_ptr + h2_lo_off go_off) 8 with
              | Some hi, Some lo =>
                  if (hi =? 0) && (lo =? 0) then h_fail
                  else
                    let go_tls_ver :=
                      if 0 <? conn_vers_off go_off then probe_word_z t (ssl_ptr + conn_vers_off go_off) 2 else 0 in
                    mret (Some (go_conn (gf128_halve_to_h lo hi) (if 0x0304 <=? go_tls_ver then 0 else 8)))
              | _, _ => h_fail
              end
          end
      end
  end.

(** The BoringSSL branch of the walk. *)
Definition bssl_conn (t : task) (ssl_ptr : Z) (o : tls_offsets) : M (option tls_conn_state) :=
  dbg_inc DBG_BSSL_REACHED;;
  h ← bssl_recover_h t ssl_ptr (bssl_ssl_to_s3 o) (bssl_s3_to_aead o) (bssl_aead_to_aeskey o);
  match h with
  | None => h_fail
  | Some h => dbg_inc DBG_BSSL_H_OK;; mret (Some (go_conn h (version_nonce t ssl_ptr o)))
  end.

(** The OpenSSL branch. *)
Definition ossl_conn (t : task) (ssl_ptr : Z) (o : tls_offsets) : M (option tls_conn_state) :=
  match walk_enc_ctx t ssl_ptr o with
  | None => mret None
  | Some enc_ctx =>
      match probe_ptr t (enc_ctx + enc_ctx_to_algctx o) with
      | None => mret None
      | Some algctx =>
          r ← ossl_read_gcm_h t algctx o;
          if negb (OSSL_H_OK (fst r)) then h_fail
          else mret (Some (go_conn (snd r) (version_nonce t ssl_ptr o)))
      end
  end.

Definition walk_recover_h (t : task) (ssl_ptr : Z) : M (option tls_conn_state) :=
  dbg_inc DBG_KPROBE_WALK_LEGACY;;
  m ← gets k_tls_offset_config;
  match lookup_offsets OFFSETS_UNCALIBRATED t m with
  | None => h_fail
  | Some o => if tls_lib o =? TLS_LIB_BORINGSSL then bssl_conn t ssl_ptr o else ossl_conn t ssl_ptr o
  end.

(** new_conn, or [None] when the code returns without it. *)
Definition recover_h (t : task) (x : xor_pending_val) : M (option tls_conn_state) :=
  if xp_chain_type x =? CHAIN_GO_TLS then go_recover_h t (xp_ssl_ptr x)
  else if h_valid x && (xp_cipher_type x =? KLOAK_CIPHER_AES_GCM) then
    dbg_inc DBG_KPROBE_BRIDGE_FROM_PENDING;;
    mret (Some {| ghash_h := xp_ghash_h x; cipher_type := xp_cipher_type x; nonce_len := xp_nonce_len x |})
  else walk_recover_h t (xp_ssl_ptr x).

(** *** The bridge *)

Definition drop_xor_pending (t : task) : M unit :=
  modify (λ s, s <| k_xor_pending := delete (tgid_of t) (k_xor_pending s) |>).

(** [staged_tc], from the entry. *)
Definition staged_of (t : task) (x : xor_pending_val) : tc_pending_val :=
  let pc := if XOR_MAX_PATCHES <? xp_patch_count x then XOR_MAX_PATCHES else xp_patch_count x in
  Build_tc_pending_val (tgid_of t) (xp_ssl_ptr x) pc
    (imap (λ i p, if Z.of_nat i <? pc then nth_patch (xp_patches x) (Z.of_nat i) else p) (replicate 4 xor_patch_zero))
    true (xp_plaintext_len x) 0.

(** The label h_ready: the connection's H is stored when it changed. *)
Definition store_conn (ck : tls_conn_key) (new_conn : tls_conn_state) : M unit :=
  existing ← gets (λ s, k_tls_conn_state s !! ck);
  when (match existing with Some e => negb (bool_decide (ghash_h e = ghash_h new_conn)) | None => true end)
    (modify (λ s, s <| k_tls_conn_state := <[ck := new_conn]> (k_tls_conn_state s) |>)).

Definition dest_key (t : task) (sk : sock) : tc_dest_key := (sock_dst_addr sk, skc_num sk, cgroup_id t).

(** [write_seq = seq] *)
Definition set_write_seq (seq : Z) (v : tc_pending_val) : tc_pending_val := v <| write_seq := seq |>.

(** The hand-over: from h_ready to the end. *)
Definition bridge_commit (t : task) (sk : sock) (x : xor_pending_val) (new_conn : tls_conn_state) : M unit :=
  store_conn (tgid_of t, xp_ssl_ptr x) new_conn;;
  on_staged (set_write_seq (if xp_memory_bio x then 0 else sk_write_seq sk));;
  modify (λ s, s <| k_tc_pending := <[dest_key t sk := staged_tc (k_ghash_scratch s)]> (k_tc_pending s) |>);;
  dbg_inc DBG_KPROBE_BRIDGE;;
  when (negb (xp_memory_bio x)) (drop_xor_pending t).

Definition bpf_kprobe_tcp_sendmsg (t : task) (sk : option sock) : M unit :=
  pending ← gets (λ s, k_xor_pending s !! tgid_of t);
  match pending with
  | None => dbg_inc DBG_KPROBE_BRIDGE_NO_ENTRY
  | Some x =>
      if xp_patch_count x =? 0 then dbg_inc DBG_KPROBE_BRIDGE_NO_ENTRY
      else if xp_memory_bio x && (2000000000 <? u64 (ktime_ns t - created_at x)) then drop_xor_pending t
      else
        match sk with
        | None => pass
        | Some sk =>
            on_staged (λ _, staged_of t x);;
            kept ← socket_filter_patches t sk (xp_memory_bio x);
            if kept =? 0 then when (negb (xp_memory_bio x)) (drop_xor_pending t)
            else
              conn ← recover_h t x;
              match conn with
              | None => pass
              | Some new_conn => bridge_commit t sk x new_conn
              end
        end
  end.

End TcpSend.
