(* ===== verification/SendFacts.v ===== *)
(** * What tcp_sendmsg's programs do to the state

    [SniTrack]: the SNI entry of a socket as a state machine over the handshake
    records written on it.
    [BridgeFacts]: the patches a socket may carry, and what the bridge hands to
    tc. *)

From S2P Require Import Prelude Host TlsRecord Sni VipAddr State Hooks HExtract TcGhash TcFacts TcpSend.
Import Host TlsRecord Types Kernel Sni VipAddr Hooks HExtract TcpSend.

Module SniTrack.

(** The bytes of a handshake record the program looks at. *)
Definition handshake_read (t : task) (msg : msghdr) : option bytes :=
  match sendmsg_first_buf msg with
  | None => None
  | Some (base, len) =>
      if len <? 2 then None
      else
        match probe_read t base 2 with
        | None => None
        | Some hdr =>
            if negb (hdr.[0] =? TLS_CT_HANDSHAKE) || negb (hdr.[1] =? 0x03) then None
            else probe_read t base (Z.to_nat (Z.min TLS_SNI_BUF_LEN len))
        end
  end.

(** What a handshake record, parsed to [st], does to a socket's entry. *)
Definition sni_step (cur : option sni_state_val) (st : sni_state_val) : option sni_state_val :=
  match cur with
  | None => Some (sni_first st)
  | Some c =>
      if st_status c =? SNI_STATUS_NONE then Some (sni_first st)
      else if st_status c =? SNI_STATUS_SEEN then Some (default c (sni_after_seen c st))
      else Some c
  end.

Definition sni_of (data : bytes) : sni_state_val := parsed_state data (zlen data).

(** What the program leaves alone. *)
Definition but_sni (s : kst) : kst :=
  s <| k_sni_state := ∅ |> <| k_sni_buf := [] |> <| k_debug_counters := λ _, 0 |>.

(** The parse of the scratch buffer is that of the bytes read. *)
Lemma parsed_splice buf data : bytes_ok buf → bytes_ok data →
  parsed_state (splice buf 0 data) (zlen data) = sni_of data.
Proof.
  intros Hb Hd. unfold sni_of, parsed_state. rewrite (SniFacts.parse_sni_agree (splice buf 0 data) data); [done| |done|].
  - unfold splice. rewrite !bytes_ok_app. split; [by apply bytes_ok_take|]. split; [done|by apply bytes_ok_drop].
  - intros i Hi. unfold splice. cbn [Z.to_nat take app]. change (Z.to_nat 0) with 0%nat. rewrite take_0. cbn [app].
    by apply byte_at_app_l.
Qed.

Lemma alter_as {K V} `{Countable K} (f : option V → option V) (k : K) (m : gmap K V) v :
  f (m !! k) = Some v → <[k := v]> m = partial_alter f k m.
Proof. intros E. apply partial_alter_ext. by intros ? <-. Qed.
Lemma alter_same {K V} `{Countable K} (f : option V → option V) (k : K) (m : gmap K V) :
  f (m !! k) = m !! k → partial_alter f k m = m.
Proof. intros E. rewrite <- (partial_alter_self m k) at 2. apply partial_alter_ext. by intros ? <-. Qed.

(** A record at [base], past the header check. *)
Lemma handshake_spec t k base len s : mem_ok t → bytes_ok (k_sni_buf s) → 2 ≤ len →
  let s' := snd (sni_handshake t k base len s) in
  but_sni s' = but_sni s ∧ bytes_ok (k_sni_buf s') ∧
  k_sni_state s' =
    match probe_read t base (Z.to_nat (Z.min TLS_SNI_BUF_LEN len)) with
    | None => k_sni_state s
    | Some data => partial_alter (λ c, sni_step c (sni_of data)) k (k_sni_state s)
    end.
Proof.
  intros Hm Hb Hl. cbn zeta. unfold sni_handshake, set_sni, dbg_inc. mrun.
  replace (if TLS_SNI_BUF_LEN <? len then TLS_SNI_BUF_LEN else u32 len) with (Z.min TLS_SNI_BUF_LEN len)
    by (unfold TLS_SNI_BUF_LEN; destruct (Z.ltb_spec 2048 len); rewrite ?u32_small by lia; lia).
  set (n := Z.min TLS_SNI_BUF_LEN len). set (cur := k_sni_state s !! k).
  assert (Hdec : ∀ st, negb (match cur with Some c => st_status c | None => SNI_STATUS_NONE end =? SNI_STATUS_NONE) &&
    negb (match cur with Some c => st_status c | None => SNI_STATUS_NONE end =? SNI_STATUS_SEEN) = true → sni_step cur st = cur).
  { intros st Hd. destruct cur as [c|]; [|done]. cbn in *. by destruct (st_status c =? SNI_STATUS_NONE), (st_status c =? SNI_STATUS_SEEN). }
  destruct (probe_read t base (Z.to_nat n)) as [data|] eqn:Er.
  - destruct (probe_read_ok _ _ _ _ Hm Er) as [Hd Hdl]. assert (En : n = zlen data) by (unfold zlen; rewrite Hdl; unfold n, TLS_SNI_BUF_LEN; lia).
    assert (Hb2 : bytes_ok (splice (k_sni_buf s) 0 data)).
    { unfold splice. rewrite !bytes_ok_app. split; [by apply bytes_ok_take|]. split; [done|by apply bytes_ok_drop]. }
    pose proof (parsed_splice (k_sni_buf s) data Hb Hd) as Ep. rewrite <- En in Ep.
    destruct (negb _ && negb _) eqn:Ed.
    { split; [done|]. split; [done|]. symmetry. apply alter_same. by apply Hdec. }
    cbn [default from_option]. unfold id.
    change (k_sni_buf (s <| k_sni_buf := splice (k_sni_buf s) 0 data |>)) with (splice (k_sni_buf s) 0 data). rewrite Ep.
    destruct cur as [c|] eqn:Ec; [destruct (Z.eqb_spec (st_status c) SNI_STATUS_SEEN) as [E1|E1]|].
    + destruct (sni_after_seen c (sni_of data)) as [c'|] eqn:Ea; (split; [by destruct s|]; split; [done|]).
      * apply alter_as. change (sni_step cur (sni_of data) = Some c'). rewrite Ec. cbn. by rewrite E1, Ea.
      * symmetry. apply alter_same. change (sni_step cur (sni_of data) = cur). rewrite Ec. cbn. by rewrite E1, Ea.
    + split; [by destruct s|]. split; [done|]. apply alter_as. change (sni_step cur (sni_of data) = Some (sni_first (sni_of data))).
      rewrite Ec. cbn.
      by destruct (Z.eqb_spec (st_status c) SNI_STATUS_NONE).
    + split; [by destruct s|]. split; [done|]. apply alter_as. change (sni_step cur (sni_of data) = Some (sni_first (sni_of data))).
      by rewrite Ec.
  - destruct (negb _ && negb _); [done|]. split; [by destruct s|]. split; [|done].
    cbn. unfold splice. rewrite !bytes_ok_app. split; [by apply bytes_ok_take|]. split; [apply bytes_ok_zeros|by apply bytes_ok_drop].
Qed.

(** One send on a tracked process. *)
Lemma sni_send_spec t sk msg s : mem_ok t → bytes_ok (k_sni_buf s) →
  is_Some (k_tracked_tgids s !! tgid_of t) →
  let s' := snd (bpf_kprobe_tcp_sendmsg_sni t (Some sk) (Some msg) s) in
  but_sni s' = but_sni s ∧ bytes_ok (k_sni_buf s') ∧
  k_sni_state s' =
    match handshake_read t msg with
    | None => k_sni_state s
    | Some data => partial_alter (λ c, sni_step c (sni_of data)) (sk_ptr sk) (k_sni_state s)
    end.
Proof.
  intros Hm Hb [x Hx]. unfold bpf_kprobe_tcp_sendmsg_sni, handshake_read. mrun. rewrite Hx.
  destruct (sendmsg_first_buf msg) as [[base len]|]; [|done]. destruct (Z.ltb_spec len 2); [done|].
  destruct (probe_read t base 2) as [hdr|]; [|done]. destruct (_ || _); [done|]. by apply handshake_spec.
Qed.

(** The sends on one socket, and the handshake records among them. *)
Fixpoint run_sends (sk : sock) (l : list (task * msghdr)) : M unit :=
  match l with
  | [] => pass
  | (t, msg) :: l' => bpf_kprobe_tcp_sendmsg_sni t (Some sk) (Some msg);; run_sends sk l'
  end.
Definition hellos (l : list (task * msghdr)) : list sni_state_val :=
  omap (λ x, sni_of <$> handshake_read (fst x) (snd x)) l.

(** The processes that send are tracked, and their memory holds bytes. *)
Definition senders_ok (s : kst) (l : list (task * msghdr)) : Prop :=
  Forall (λ x, mem_ok (fst x) ∧ is_Some (k_tracked_tgids s !! tgid_of (fst x))) l.

Lemma run_sends_spec sk l : ∀ s, senders_ok s l → bytes_ok (k_sni_buf s) →
  let s' := snd (run_sends sk l s) in
  but_sni s' = but_sni s ∧
  k_sni_state s' !! sk_ptr sk = fold_left sni_step (hellos l) (k_sni_state s !! sk_ptr sk) ∧
  ∀ k, k ≠ sk_ptr sk → k_sni_state s' !! k = k_sni_state s !! k.
Proof.
  induction l as [|[t msg] l IH]; intros s Hs Hb; cbn zeta; [done|].
  apply Forall_cons in Hs as [[Hm Ht] Hs]. cbn [run_sends]. mrun. cbn [fst] in *.
  pose proof (sni_send_spec t sk msg s Hm Hb Ht) as H1. cbn zeta in H1.
  destruct (bpf_kprobe_tcp_sendmsg_sni t (Some sk) (Some msg) s) as [[] s1]. cbn [snd] in H1. destruct H1 as (B1 & Hb1 & E1).
  assert (T1 : k_tracked_tgids s1 = k_tracked_tgids s) by exact (f_equal k_tracked_tgids B1).
  destruct (IH s1) as (B2 & E2 & O2); [by unfold senders_ok; rewrite T1|done|]. cbn zeta in *.
  rewrite B2, E2, E1. unfold hellos. cbn [omap list_omap fst snd]. unfold hellos in *.
  split; [done|]. split.
  - destruct (handshake_read t msg) as [data|]; [|done]. cbn [fmap option_fmap option_map fold_left].
    by rewrite lookup_partial_alter_eq.
  - intros k Hk. rewrite O2, E1 by done. destruct (handshake_read t msg); [|done]. by rewrite lookup_partial_alter_ne.
Qed.

(** An entry other than a name seen never becomes one. *)
Lemma step_not_seen l : ∀ c, st_status c ≠ SNI_STATUS_NONE → st_status c ≠ SNI_STATUS_SEEN →
  fold_left sni_step l (Some c) = Some c.
Proof.
  induction l as [|h l IH]; intros c H0 H1; [done|]. cbn [fold_left]. cbn [sni_step].
  destruct (Z.eqb_spec (st_status c) SNI_STATUS_NONE); [done|]. destruct (Z.eqb_spec (st_status c) SNI_STATUS_SEEN); [done|].
  by apply IH.
Qed.

Lemma step_seen l : ∀ c st, st_status c = SNI_STATUS_SEEN → fold_left sni_step l (Some c) = Some st →
  st_status st = SNI_STATUS_SEEN →
  st = c ∧ Forall (λ h, st_status h ≠ SNI_STATUS_ECH ∧ (st_status h = SNI_STATUS_SEEN → hosts_match (st_sni c) (st_sni h) = true)) l.
Proof.
  induction l as [|h l IH]; intros c st Hc Hf Hst.
  { injection Hf as <-. split; [done|]. apply Forall_nil_2. }
  cbn [fold_left] in Hf. unfold sni_step at 2 in Hf. rewrite Hc in Hf.
  change (SNI_STATUS_SEEN =? SNI_STATUS_NONE) with false in Hf. change (SNI_STATUS_SEEN =? SNI_STATUS_SEEN) with true in Hf.
  cbv iota in Hf. unfold sni_after_seen in Hf.
  destruct ((st_status h =? SNI_STATUS_ECH) || _) eqn:E; cbn [default from_option] in Hf.
  - unfold id in Hf. rewrite step_not_seen in Hf by done. injection Hf as <-. done.
  - destruct (IH c st Hc Hf Hst) as [-> HF]. split; [done|]. apply Forall_cons. split; [|done]. zbool. split; [done|].
    intros Es. rewrite Es in H0. cbn in H0. destruct H0 as [H0|H0]; [done|]. by apply negb_false_iff in H0.
Qed.

Lemma hellos_status s l : senders_ok s l → Forall (λ h, st_status h ∈ SniFacts.parse_statuses) (hellos l).
Proof.
  unfold hellos. induction 1 as [|[t msg] l [Hm _] _ IH]; [apply Forall_nil_2|]. cbn [omap list_omap fst snd].
  destruct (handshake_read t msg) as [data|] eqn:E; [|exact IH]. cbn [fmap option_fmap option_map]. apply Forall_cons. split; [|exact IH].
  revert E. unfold handshake_read. destruct (sendmsg_first_buf msg) as [[base len]|]; [|done]. destruct (_ <? _); [done|].
  destruct (probe_read t base 2); [|done]. destruct (_ || _); [done|]. intros E. apply probe_read_ok in E as [Hd _]; [|done].
  apply (SniFacts.parse_status_range data (zlen data) (zeros 64) Hd).
Qed.

(** A hello that a decided socket takes for its own: not encrypted, and with no other
    name (one that names no host, or does not parse, changes nothing). *)
Definition agrees (st h : sni_state_val) : Prop :=
  st_status h ≠ SNI_STATUS_ECH ∧ (st_status h = SNI_STATUS_SEEN → hosts_match (st_sni st) (st_sni h) = true).

Lemma step_agrees l c : st_status c = SNI_STATUS_SEEN → Forall (agrees c) l → fold_left sni_step l (Some c) = Some c.
Proof.
  intros Hc. induction 1 as [|h l [He Hm] _ IH]; [done|]. cbn [fold_left]. replace (sni_step (Some c) h) with (Some c); [done|].
  unfold sni_step. rewrite Hc. change (SNI_STATUS_SEEN =? SNI_STATUS_NONE) with false. change (SNI_STATUS_SEEN =? SNI_STATUS_SEEN) with true.
  cbv iota. unfold sni_after_seen. destruct (Z.eqb_spec (st_status h) SNI_STATUS_ECH); [done|].
  destruct (Z.eqb_spec (st_status h) SNI_STATUS_SEEN) as [E|]; [|done]. by rewrite (Hm E).
Qed.

(** The sends of a socket without an entry leave a name seen exactly when the first
    hello has it and the others agree. *)
Lemma seen_iff hs st : Forall (λ h, st_status h ∈ SniFacts.parse_statuses) hs → st_status st = SNI_STATUS_SEEN →
  fold_left sni_step hs None = Some st ↔ head hs = Some st ∧ Forall (agrees st) (tail hs).
Proof.
  intros Hh Hst. destruct hs as [|h hs]; [split; [done|by intros [? _]]|]. apply Forall_cons in Hh as [Hh _].
  cbn [fold_left sni_step head tail]. unfold sni_first. split.
  - intros Hf. destruct (Z.eqb_spec (st_status h) SNI_NOT_CLIENT_HELLO) as [E1|E1].
    + rewrite step_not_seen in Hf by done. by injection Hf as <-.
    + destruct (decide (st_status h = SNI_STATUS_SEEN)) as [Eh|Eh]; [destruct (step_seen hs h st Eh Hf Hst) as [-> HF]; by split|].
      rewrite step_not_seen in Hf; [by injection Hf as <-| |done]. intros E0. rewrite E0 in Hh.
      revert Hh. change (SNI_STATUS_NONE ∉ SniFacts.parse_statuses). by_compute.
  - intros [[= ->] HF]. rewrite Hst. change (SNI_STATUS_SEEN =? SNI_NOT_CLIENT_HELLO) with false. by apply step_agrees.
Qed.

(** C12: after a socket starts to connect or closes (tp_inet_sock_set_state), and for
    whatever it then sends, it counts as having sent the name in [st] exactly when the
    first handshake record it sent is a ClientHello with that name, and of the later
    ones none is an encrypted ClientHello or names another host; what an earlier
    connection on the same struct sock sent does not count, and other sockets' entries
    are left alone. *)
Theorem sni_seen_means_one_name sk state l s st :
  senders_ok s l → bytes_ok (k_sni_buf s) → state = TCP_SYN_SENT ∨ state = TCP_CLOSE → st_status st = SNI_STATUS_SEEN →
  let s' := snd ((tp_inet_sock_set_state IPPROTO_TCP state sk;; run_sends sk l) s) in
  (∀ k, k ≠ sk_ptr sk → k_sni_state s' !! k = k_sni_state s !! k) ∧
  (k_sni_state s' !! sk_ptr sk = Some st ↔ head (hellos l) = Some st ∧ Forall (agrees st) (tail (hellos l))).
Proof.
  intros Hs Hb Hst Hseen. cbn zeta. mrun.
  assert (Hset : ∃ s1, tp_inet_sock_set_state IPPROTO_TCP state sk s = ((), s1) ∧ k_sni_state s1 = delete (sk_ptr sk) (k_sni_state s) ∧
    k_sni_buf s1 = k_sni_buf s ∧ k_tracked_tgids s1 = k_tracked_tgids s).
  { unfold tp_inet_sock_set_state. destruct Hst as [-> | ->]; mrun; [by eexists|]. cbn. destruct (negb (skc_cookie sk =? 0)); by eexists. }
  destruct Hset as (s1 & -> & E1 & Eb & Et). cbn [fst snd].
  destruct (run_sends_spec sk l s1) as (_ & E & O); [unfold senders_ok; by rewrite Et|by rewrite Eb|]. cbn zeta in *. split.
  - intros k Hk. rewrite O, E1 by done. by apply lookup_delete_ne.
  - rewrite E, E1, lookup_delete_eq. apply seen_iff; [by apply (hellos_status s)|done].
Qed.

(** The sample hello sent twice on a socket. *)
Definition sample_sock : sock := Build_sock 900 2 (zeros 16) [10; 0; 0; 2] 40000 443 5 1000.
Definition sample_hello_bytes : bytes := take 200 SniFacts.sample_buf.
Definition sample_sender : task := task_with 4096 sample_hello_bytes.
Definition sample_msg : msghdr :=
  {| msg_iter_type := Some ITER_UBUF; msg_count := 200; iov_offset := 0; ubuf := 4096; iov := None |}.
Definition tracking : kst := kst_init <| k_tracked_tgids := {[ 7 := 1 ]} |>.

(** The socket had sent another name before. *)
Definition reused : kst := tracking <| k_sni_state := {[ 900 := {| st_status := SNI_STATUS_SEEN; st_len := 1; st_sni := 97 :: zeros 63 |} ]} |>.

Lemma sni_seen_means_one_name_witness :
  let l := [(sample_sender, sample_msg); (sample_sender, sample_msg)] in
  k_sni_state (snd ((tp_inet_sock_set_state IPPROTO_TCP TCP_SYN_SENT sample_sock;; run_sends sample_sock l) reused)) !! 900 = Some (sni_of sample_hello_bytes).
Proof.
  cbn zeta. set (l := [_; _]).
  destruct (sni_seen_means_one_name sample_sock TCP_SYN_SENT l reused (sni_of sample_hello_bytes)) as [_ H].
  - apply Forall_cons. split; [|apply Forall_singleton]; (split; [apply task_with_mem_ok; by_compute|exists 1; reflexivity]).
  - apply bytes_ok_zeros.
  - left. reflexivity.
  - vm_compute. reflexivity.
  - apply H. split; [vm_compute; reflexivity|]. apply Forall_singleton. split; [vm_compute; congruence|]. intros _. vm_compute. reflexivity.
Defined.

End SniTrack.

Module BridgeFacts.
Import TcGhashFacts TcFacts(pending_ps).

(** *** The patches a socket may carry *)

Definition restricted (val : secret_value) : bool := (0 <? host_len val) && (host_len val <? MAX_HOST_LEN).

(** The secret of [key] may leave on [sk], in audit mode or not. *)
Definition may_leave (s : kst) (sk : sock) (audit : bool) (key : secret_key) : bool :=
  match k_secret_map s !! key with
  | None => false
  | Some val =>
      let dst := checked_dst s sk in
      (vip_socket_check (if skc_cookie sk =? 0 then None else k_vip_sock_host s !! skc_cookie sk)
         (host_len val) (allowed_host val) (ip_len val) (allowed_ip val) (fst dst) (sv_port val) (snd dst) =? VIP_SOCK_OK) &&
      (negb (restricted val) || (sni_status_for s sk val =? SNI_STATUS_SEEN) || audit)
  end.

(** What the checks change. *)
Definition but_check (s : kst) : kst := s <| k_debug_counters := λ _, 0 |> <| k_binding_events := [] |>.

Lemma check_key_spec t sk audit membio key s :
  fst (socket_check_key t sk audit membio (checked_dst s sk) key s) = may_leave s sk audit key ∧
  but_check (snd (socket_check_key t sk audit membio (checked_dst s sk) key s)) = but_check s.
Proof.
  unfold socket_check_key, may_leave, report_secret_event, dbg_inc, restricted. mrun.
  destruct (k_secret_map s !! key) as [val|]; [|done].
  destruct (vip_socket_check _ _ _ _ _ _ _ _ =? VIP_SOCK_OK); cbn [negb andb]; [|by destruct s].
  destruct ((0 <? host_len val) && (host_len val <? MAX_HOST_LEN)); cbn [negb orb]; [|done].
  destruct (sni_status_for s sk val =? SNI_STATUS_SEEN); cbn [negb orb]; [done|].
  destruct (ringbuf_free t); by destruct s.
Qed.

(** What the filter changes besides. *)
Definition but_filter (s : kst) : kst :=
  (but_check s) <| k_ghash_scratch := (k_ghash_scratch s) <| staged_tc := tc_pending_zero |> |>.
Definition staged (s : kst) : tc_pending_val := staged_tc (k_ghash_scratch s).
(** An entry without its patches. *)
Definition but_patches (v : tc_pending_val) : tc_pending_val := v <| tp_patches := [] |> <| tp_patch_count := 0 |>.

Lemma may_leave_frame s s' sk audit key : but_filter s' = but_filter s → may_leave s' sk audit key = may_leave s sk audit key.
Proof. apply (frame but_filter (λ s, may_leave s sk audit key)). done. Qed.
Lemma checked_dst_frame s s' sk : but_filter s' = but_filter s → checked_dst s' sk = checked_dst s sk.
Proof. apply (frame but_filter (λ s, checked_dst s sk)). done. Qed.

(** A patch kept moves down to its place. *)
Lemma keep_step p kept x s : (kept <= p < 4)%nat → length (tp_patches (staged s)) = 4%nat →
  tp_patches (staged s) !! p = Some x →
  ∃ s', when (negb (Z.of_nat kept =? Z.of_nat p)) (on_staged (move_patch (Z.of_nat kept) (Z.of_nat p))) s = ((), s') ∧
    but_filter s' = but_filter s ∧ but_patches (staged s') = but_patches (staged s) ∧
    tp_patches (staged s') = <[kept := x]> (tp_patches (staged s)).
Proof.
  intros Hk Hl Ex. unfold when. destruct (Z.eqb_spec (Z.of_nat kept) (Z.of_nat p)) as [E|E]; cbn [negb].
  - exists s. split_and!; try done. rewrite list_insert_id; [done|]. by replace kept with p by lia.
  - eexists. split; [reflexivity|]. split; [by destruct s as [???????????????????????????? ? w ??????]; destruct w|]. split; [done|].
    change (set_patch (Z.land (Z.of_nat kept) (XOR_MAX_PATCHES - 1))
      (nth_patch (tp_patches (staged s)) (Z.land (Z.of_nat p) (XOR_MAX_PATCHES - 1))) (tp_patches (staged s)) =
      <[kept := x]> (tp_patches (staged s))).
    unfold XOR_MAX_PATCHES. change (4 - 1) with (2 ^ 2 - 1). rewrite !land_mask, !Z.mod_small by lia.
    unfold set_patch, nth_patch. by rewrite !Nat2Z.id, nth_lookup, Ex.
Qed.

Lemma filter_spec t sk audit membio dst n : ∀ fuel p kept s,
  dst = checked_dst s sk → (n <= fuel)%nat → (kept <= p)%nat → (p + n <= 4)%nat → length (tp_patches (staged s)) = 4%nat →
  let todo := take n (drop p (tp_patches (staged s))) in
  let keep := List.filter (λ x, may_leave s sk audit (p_key x)) todo in
  ∃ s', filter_patches fuel t sk audit membio dst (Z.of_nat (p + n)) (Z.of_nat p) (Z.of_nat kept) s =
      (Z.of_nat (kept + length keep), s') ∧
    but_filter s' = but_filter s ∧ but_patches (staged s') = but_patches (staged s) ∧
    length (tp_patches (staged s')) = 4%nat ∧
    take (kept + length keep) (tp_patches (staged s')) = take kept (tp_patches (staged s)) ++ keep.
Proof.
  induction n as [|n IH]; intros fuel p kept s Hd Hf Hk Hp Hl todo keep.
  - exists s. subst keep todo. rewrite take_0. cbn [List.filter length app]. rewrite !Nat.add_0_r, app_nil_r.
    split; [|by split_and!]. destruct fuel; cbn [filter_patches]; [done|]. by rewrite Z.leb_refl.
  - destruct fuel as [|fuel]; [lia|]. cbn [filter_patches]. destruct (Z.leb_spec (Z.of_nat (p + S n)) (Z.of_nat p)); [lia|].
    destruct (lookup_lt_is_Some_2 (tp_patches (staged s)) p ltac:(lia)) as [x Ex].
    assert (Et : todo = x :: take n (drop (S p) (tp_patches (staged s)))) by (unfold todo; by rewrite (drop_S _ _ _ Ex)).
    unfold XOR_MAX_PATCHES. change (4 - 1) with (2 ^ 2 - 1). rewrite land_mask, (Z.mod_small (Z.of_nat p)) by lia.
    mrun. fold (staged s). assert (Enth : nth_patch (tp_patches (staged s)) (Z.of_nat p) = x) by (unfold nth_patch; by rewrite Nat2Z.id, nth_lookup, Ex).
    rewrite Enth, Hd. pose proof (check_key_spec t sk audit membio (p_key x) s) as [C1 C2].
    destruct (socket_check_key _ _ _ _ _ _ s) as [ok s1]. cbn [fst snd] in C1, C2. subst ok.
    assert (S1 : staged s1 = staged s) by exact (f_equal staged C2).
    assert (B1 : but_filter s1 = but_filter s) by exact (f_equal but_filter C2).
    replace (Z.of_nat p + 1) with (Z.of_nat (S p)) by lia. replace (p + S n)%nat with (S p + n)%nat by lia.
    assert (EF : ∀ s', but_filter s' = but_filter s → ∀ l,
      List.filter (λ x, may_leave s' sk audit (p_key x)) l = List.filter (λ x, may_leave s sk audit (p_key x)) l).
    { intros s' Bs l. apply filter_ext. intros y. by apply may_leave_frame. }
    subst keep. rewrite Et. cbn [List.filter]. rewrite <- Hd. destruct (may_leave s sk audit (p_key x)) eqn:Ek; cbn [negb]; cycle 1.
    + destruct (IH fuel (S p) kept s1) as (s2 & E2 & B2 & P2 & L2 & T2); try lia; [by rewrite Hd, (checked_dst_frame s1 s)|by rewrite S1|].
      rewrite S1, (EF s1 B1) in *. exists s2. split; [exact E2|]. split_and!; try done; congruence.
    + destruct (keep_step p kept x s1) as (s2 & E2 & B2 & P2 & T2); [lia|by rewrite S1|by rewrite S1|]. rewrite S1 in *.
      unfold when in E2. rewrite E2. rewrite u32_small by lia. replace (Z.of_nat kept + 1) with (Z.of_nat (S kept)) by lia.
      assert (B2' : but_filter s2 = but_filter s) by (by rewrite B2).
      assert (Ed : drop (S p) (tp_patches (staged s2)) = drop (S p) (tp_patches (staged s))) by (rewrite T2; apply drop_insert_lt; lia).
      destruct (IH fuel (S p) (S kept) s2) as (s3 & E3 & B3 & P3 & L3 & T3); try lia;
        [by rewrite Hd, (checked_dst_frame s2 s)|by rewrite T2, length_insert|].
      rewrite Ed, (EF s2 B2') in *. exists s3. cbn [length]. rewrite Nat.add_succ_r. split; [exact E3|]. split_and!; try done; try congruence.
      cbn [Nat.add] in T3. rewrite T3, T2, (take_S_r _ kept x) by (apply list_lookup_insert_eq; lia).
      by rewrite take_insert_ge, <- app_assoc by lia.
Qed.

(** The patches staged, those that may leave. *)
Lemma socket_filter_spec t sk membio s : 0 ≤ tp_patch_count (staged s) ≤ 4 → length (tp_patches (staged s)) = 4%nat →
  let keep := List.filter (λ x, may_leave s sk (k_sni_check_mode s =? SNI_CHECK_AUDIT) (p_key x)) (pending_ps (staged s)) in
  ∃ s', socket_filter_patches t sk membio s = (zlen keep, s') ∧ but_filter s' = but_filter s ∧
    but_patches (staged s') = but_patches (staged s) ∧ length (tp_patches (staged s')) = 4%nat ∧
    tp_patch_count (staged s') = zlen keep ∧ pending_ps (staged s') = keep.
Proof.
  intros Hc Hl keep. unfold socket_filter_patches. mrun. fold (staged s).
  destruct (Z.ltb_spec XOR_MAX_PATCHES (tp_patch_count (staged s))); [unfold XOR_MAX_PATCHES in *; lia|].
  destruct (filter_spec t sk (k_sni_check_mode s =? SNI_CHECK_AUDIT) membio (checked_dst s sk) (Z.to_nat (tp_patch_count (staged s)))
    (Z.to_nat XOR_MAX_PATCHES) 0 0 s) as (s1 & E & B & P & L & T); try done; try (unfold XOR_MAX_PATCHES; lia).
  cbn [Nat.add] in E. rewrite Z2Nat.id in E by lia. change (Z.of_nat 0) with 0 in E. rewrite drop_0 in E, T.
  fold (pending_ps (staged s)) in E, T. fold keep in E, T. rewrite E. cbn [Nat.add] in T. rewrite take_0 in T. cbn [app] in T.
  unfold on_staged. mrun. eexists. split; [reflexivity|].
  split; [rewrite <- B; by destruct s1 as [???????????????????????????? ? w ??????]; destruct w|].
  split; [exact P|]. split; [exact L|]. split; [done|]. unfold pending_ps.
  change (take (Z.to_nat (Z.of_nat (length keep))) (tp_patches (staged s1)) = keep). by rewrite Nat2Z.id.
Qed.

(** *** Programs that only read, and count *)

Definition quiet {A} (m : M A) : Prop :=
  ∀ s, but_check (snd (m s)) = but_check s ∧ fst (m s) = fst (m (but_filter s)).

Lemma quiet_filter {A} (m : M A) s : quiet m → but_filter (snd (m s)) = but_filter s.
Proof. intros H. exact (f_equal but_filter (proj1 (H s))). Qed.
Lemma but_filter_idem s : but_filter (but_filter s) = but_filter s.
Proof. done. Qed.
Lemma quiet_ret {A} (a : A) : quiet (mret a).
Proof. done. Qed.
Lemma quiet_gets {A} (f : kst → A) : (∀ s, f s = f (but_filter s)) → quiet (gets f).
Proof. intros H s. split; [done|apply H]. Qed.
Lemma quiet_dbg i : quiet (dbg_inc i).
Proof. intros s. split; [by destruct s|done]. Qed.
Lemma quiet_bind {A B} (m : M A) (f : A → M B) : quiet m → (∀ a, quiet (f a)) → quiet (m ≫= f).
Proof.
  intros Hm Hf s. unfold mbind, m_bind. pose proof (Hm s) as [C F]. pose proof (quiet_filter m s Hm) as B1.
  pose proof (quiet_filter m (but_filter s) Hm) as B2. rewrite but_filter_idem in B2.
  destruct (m s) as [a s1], (m (but_filter s)) as [a' s2]. cbn [fst snd] in *. subst a'.
  pose proof (Hf a s1) as [C1 F1]. pose proof (Hf a s2) as [_ F2]. split; [by rewrite C1|]. by rewrite F1, F2, B1, B2.
Qed.
Lemma quiet_when c m : quiet m → quiet (when c m).
Proof. intros. unfold when. by destruct c. Qed.

(** [quiet_walk]: through the binds and the cases of a walk, with [tac] at the
    calls. *)
Ltac quiet_walk_with tac :=
  repeat lazymatch goal with
    | |- quiet (mret _) => apply quiet_ret
    | |- quiet (dbg_inc _) => apply quiet_dbg
    | |- quiet (gets _) => apply quiet_gets; intros ?; reflexivity
    | |- quiet (when _ _) => apply quiet_when
    | |- quiet (mbind _ _) => apply quiet_bind; [|intros ?]
    | |- quiet (match ?x with _ => _ end) => destruct x
    | |- quiet _ => tac
    end.

Lemma quiet_h_fail {A} : quiet (@h_fail A).
Proof. unfold h_fail. quiet_walk_with fail. Qed.
Lemma quiet_ossl t a o : quiet (ossl_read_gcm_h t a o).
Proof. unfold ossl_read_gcm_h. cbv zeta. quiet_walk_with fail. Qed.
Lemma quiet_bssl t p a b c : quiet (bssl_recover_h t p a b c).
Proof. unfold bssl_recover_h. cbv zeta. quiet_walk_with fail. Qed.

(** The recovery of H changes nothing but counters, and depends on the offsets
    and the process only. *)
Lemma quiet_recover t x : quiet (recover_h t x).
Proof.
  unfold recover_h, go_recover_h, walk_recover_h, bssl_conn, ossl_conn. cbv zeta.
  quiet_walk_with ltac:(first [apply quiet_h_fail | apply quiet_ossl | apply quiet_bssl]).
Qed.

(** *** The bridge *)

(** The entry handed to tc for [x], with the patches [keep]. *)
Definition handed (t : task) (sk : sock) (x : xor_pending_val) (keep : list xor_patch) (v : tc_pending_val) : Prop :=
  pending_ps v = keep ∧ tp_patch_count v = zlen keep ∧ length (tp_patches v) = 4%nat ∧ tp_active v = true ∧
  tp_tgid v = tgid_of t ∧ tp_ssl_ptr v = xp_ssl_ptr x ∧ tp_plaintext_len v = xp_plaintext_len x ∧
  write_seq v = if xp_memory_bio x then 0 else sk_write_seq sk.

(** What the bridge may change. *)
Definition but_bridge (s : kst) : kst :=
  (but_filter s) <| k_tc_pending := ∅ |> <| k_tls_conn_state := ∅ |> <| k_xor_pending := ∅ |>.

Definition stale (t : task) (x : xor_pending_val) : bool :=
  xp_memory_bio x && (2000000000 <? u64 (ktime_ns t - created_at x)).

Lemma staged_of_ps t x : 0 ≤ xp_patch_count x ≤ 4 → length (xp_patches x) = 4%nat →
  tp_patch_count (staged_of t x) = xp_patch_count x ∧ length (tp_patches (staged_of t x)) = 4%nat ∧
  pending_ps (staged_of t x) = take (Z.to_nat (xp_patch_count x)) (xp_patches x).
Proof.
  intros Hc Hl. unfold staged_of, XOR_MAX_PATCHES. destruct (Z.ltb_spec 4 (xp_patch_count x)); [lia|].
  unfold pending_ps. cbn [tp_patch_count tp_patches]. split; [done|]. split; [by rewrite length_imap|].
  destruct (xp_patches x) as [|x0 [|x1 [|x2 [|x3 [|? ?]]]]]; try done.
  assert (xp_patch_count x = 0 ∨ xp_patch_count x = 1 ∨ xp_patch_count x = 2 ∨ xp_patch_count x = 3 ∨ xp_patch_count x = 4)
    as [->|[->|[->|[->| ->]]]] by lia; reflexivity.
Qed.

(** The connection's entry after the hand-over of [c]: [c], or the entry it had, with
    the same H. *)
Definition kept_conn (old : option tls_conn_state) (c c' : tls_conn_state) : Prop :=
  c' = c ∨ (old = Some c' ∧ ghash_h c' = ghash_h c).

Lemma store_conn_spec ck c s : ∃ s', store_conn ck c s = ((), s') ∧
  but_bridge s' = but_bridge s ∧ staged s' = staged s ∧ k_tc_pending s' = k_tc_pending s ∧ k_xor_pending s' = k_xor_pending s ∧
  ∃ c', k_tls_conn_state s' = <[ck := c']> (k_tls_conn_state s) ∧ kept_conn (k_tls_conn_state s !! ck) c c'.
Proof.
  unfold store_conn. mrun. destruct (k_tls_conn_state s !! ck) as [e|] eqn:E.
  - destruct (bool_decide_reflect (ghash_h e = ghash_h c)) as [Eh|]; cbn [negb].
    + exists s. split_and!; try done. exists e. split; [by rewrite insert_id|by right].
    + eexists. split; [reflexivity|]. split_and!; try done. exists c. split; [done|by left].
  - eexists. split; [reflexivity|]. split_and!; try done. exists c. split; [done|by left].
Qed.

Lemma commit_spec t sk x c keep s : but_patches (staged s) = but_patches (staged_of t x) →
  pending_ps (staged s) = keep → tp_patch_count (staged s) = zlen keep → length (tp_patches (staged s)) = 4%nat →
  let s' := snd (bridge_commit t sk x c s) in
  but_bridge s' = but_bridge s ∧
  (∃ v, handed t sk x keep v ∧ k_tc_pending s' = <[dest_key t sk := v]> (k_tc_pending s)) ∧
  (∃ c', k_tls_conn_state s' = <[(tgid_of t, xp_ssl_ptr x) := c']> (k_tls_conn_state s) ∧
    kept_conn (k_tls_conn_state s !! (tgid_of t, xp_ssl_ptr x)) c c') ∧
  k_xor_pending s' = if xp_memory_bio x then k_xor_pending s else delete (tgid_of t) (k_xor_pending s).
Proof.
  intros Hb Hk Hc Hl. cbn zeta. unfold bridge_commit, on_staged, dbg_inc, drop_xor_pending.
  destruct (store_conn_spec (tgid_of t, xp_ssl_ptr x) c s) as (s1 & E & B1 & S1 & T1 & X1 & C1).
  mrun. rewrite E, <- T1, <- X1, <- B1.
  set (v := set_write_seq (if xp_memory_bio x then 0 else sk_write_seq sk) (staged s1)).
  assert (Hv : handed t sk x keep v).
  { unfold handed, v. rewrite S1. split; [exact Hk|]. split; [exact Hc|]. split; [exact Hl|].
    pose proof (f_equal tp_active Hb) as H1. pose proof (f_equal tp_tgid Hb) as H2.
    pose proof (f_equal tp_ssl_ptr Hb) as H3. pose proof (f_equal tp_plaintext_len Hb) as H4. by split_and!. }
  destruct (xp_memory_bio x); cbn [negb].
  - split; [by destruct s1|]. split; [exists v; split; [exact Hv|reflexivity]|]. split; [exact C1|done].
  - split; [by destruct s1|]. split; [exists v; split; [exact Hv|reflexivity]|]. split; [exact C1|done].
Qed.

(** What the bridge does with an entry of the process. *)
Lemma bridge_spec t sk s x :
  k_xor_pending s !! tgid_of t = Some x → 1 ≤ xp_patch_count x ≤ 4 → length (xp_patches x) = 4%nat → stale t x = false →
  let keep := List.filter (λ p, may_leave s sk (k_sni_check_mode s =? SNI_CHECK_AUDIT) (p_key p))
    (take (Z.to_nat (xp_patch_count x)) (xp_patches x)) in
  let ck := (tgid_of t, xp_ssl_ptr x) in
  let s' := snd (bpf_kprobe_tcp_sendmsg t (Some sk) s) in
  but_bridge s' = but_bridge s ∧
  match (if decide (keep = []) then None else fst (recover_h t x s)) with
  | None =>
      k_tc_pending s' = k_tc_pending s ∧ k_tls_conn_state s' = k_tls_conn_state s ∧
      k_xor_pending s' = if decide (keep = [] ∧ xp_memory_bio x = false)
                         then delete (tgid_of t) (k_xor_pending s) else k_xor_pending s
  | Some c =>
      (∃ v, handed t sk x keep v ∧ k_tc_pending s' = <[dest_key t sk := v]> (k_tc_pending s)) ∧
      (∃ c', k_tls_conn_state s' = <[ck := c']> (k_tls_conn_state s) ∧ kept_conn (k_tls_conn_state s !! ck) c c') ∧
      k_xor_pending s' = if xp_memory_bio x then k_xor_pending s else delete (tgid_of t) (k_xor_pending s)
  end.
Proof.
  intros Hx Hc Hl Hs keep ck. cbn zeta. unfold bpf_kprobe_tcp_sendmsg, on_staged. mrun. rewrite Hx.
  destruct (Z.eqb_spec (xp_patch_count x) 0); [lia|]. fold (stale t x). rewrite Hs.
  set (s1 := s <| k_ghash_scratch := _ |>). destruct (staged_of_ps t x) as (P1 & P2 & P3); [lia|done|].
  assert (B1 : but_filter s1 = but_filter s) by (by destruct s as [???????????????????????????? ? w ??????]; destruct w).
  change (staged_of t x) with (staged s1) in P1, P2, P3.
  destruct (socket_filter_spec t sk (xp_memory_bio x) s1) as (s2 & E2 & B2 & Pb & L2 & N2 & K2); [lia|done|].
  rewrite P3 in *. change (k_sni_check_mode s1) with (k_sni_check_mode s) in *.
  assert (EF : List.filter (λ p, may_leave s1 sk (k_sni_check_mode s =? SNI_CHECK_AUDIT) (p_key p)) (take (Z.to_nat (xp_patch_count x)) (xp_patches x)) = keep).
  { apply filter_ext. intros p. by apply may_leave_frame. }
  rewrite EF in *. rewrite E2. clear EF. rewrite B1 in B2.
  assert (V2 : k_tc_pending s2 = k_tc_pending s ∧ k_tls_conn_state s2 = k_tls_conn_state s ∧ k_xor_pending s2 = k_xor_pending s ∧ but_bridge s2 = but_bridge s).
  { split_and!; [exact (f_equal k_tc_pending B2)|exact (f_equal k_tls_conn_state B2)|exact (f_equal k_xor_pending B2)|exact (f_equal but_bridge B2)]. }
  destruct V2 as (T2 & C2 & X2 & G2).
  assert (Hz : zlen keep = 0 ↔ keep = []) by (unfold zlen; destruct keep; cbn; split; [done|done|lia|done]).
  destruct (Z.eqb_spec (zlen keep) 0) as [E0|E0]; destruct (decide (keep = [])) as [Ek|Ek]; try tauto.
  - unfold drop_xor_pending, modify, pass, mret, m_ret. destruct (xp_memory_bio x); cbn [negb].
    + rewrite decide_False by (intros [_ ?]; done). done.
    + rewrite decide_True by done. split; [rewrite <- G2; by destruct s2|]. split; [exact T2|]. split; [exact C2|]. cbn. by rewrite X2.
  - destruct (quiet_recover t x s2) as [B3 R3]. rewrite B2, <- (proj2 (quiet_recover t x s)) in R3.
    destruct (recover_h t x s2) as [r s3]. cbn [fst snd] in B3, R3. subst r.
    assert (V3 : staged s3 = staged s2 ∧ k_tc_pending s3 = k_tc_pending s ∧ k_tls_conn_state s3 = k_tls_conn_state s ∧
      k_xor_pending s3 = k_xor_pending s ∧ but_bridge s3 = but_bridge s).
    { rewrite <- T2, <- C2, <- X2, <- G2. split_and!; [exact (f_equal staged B3)|exact (f_equal k_tc_pending B3)|
        exact (f_equal k_tls_conn_state B3)|exact (f_equal k_xor_pending B3)|exact (f_equal but_bridge B3)]. }
    destruct V3 as (S3 & T3 & C3 & X3 & G3).
    destruct (fst (recover_h t x s)) as [c|].
    + destruct (commit_spec t sk x c keep s3) as (G4 & V4 & C4 & X4); rewrite ?S3; try done.
      rewrite G4, X4, X3. split; [exact G3|]. rewrite T3 in V4. rewrite C3 in C4. done.
    + cbn [snd pass mret m_ret]. rewrite decide_False by tauto. done.
Qed.

(** C11: the bridge, for an entry of the process: of its patches, exactly those whose
    secret may leave on this socket are handed to tc, under the connection's key;
    when there is none, or H cannot be recovered, nothing is handed over, and H is
    stored only with the hand-over. *)
Theorem bridge_hands_over t sk s x :
  k_xor_pending s !! tgid_of t = Some x → 1 ≤ xp_patch_count x ≤ 4 → length (xp_patches x) = 4%nat → stale t x = false →
  let keep := List.filter (λ p, may_leave s sk (k_sni_check_mode s =? SNI_CHECK_AUDIT) (p_key p))
    (take (Z.to_nat (xp_patch_count x)) (xp_patches x)) in
  let ck := (tgid_of t, xp_ssl_ptr x) in
  let s' := snd (bpf_kprobe_tcp_sendmsg t (Some sk) s) in
  but_bridge s' = but_bridge s ∧
  match (if decide (keep = []) then None else fst (recover_h t x s)) with
  | None =>
      k_tc_pending s' = k_tc_pending s ∧ k_tls_conn_state s' = k_tls_conn_state s ∧
      k_xor_pending s' = if decide (keep = [] ∧ xp_memory_bio x = false)
                         then delete (tgid_of t) (k_xor_pending s) else k_xor_pending s
  | Some c =>
      (∃ v, handed t sk x keep v ∧ k_tc_pending s' = <[dest_key t sk := v]> (k_tc_pending s)) ∧
      (∃ c', k_tls_conn_state s' = <[ck := c']> (k_tls_conn_state s) ∧ kept_conn (k_tls_conn_state s !! ck) c c') ∧
      k_xor_pending s' = if xp_memory_bio x then k_xor_pending s else delete (tgid_of t) (k_xor_pending s)
  end.
Proof. exact (bridge_spec t sk s x). Qed.


(** A write with two patches, one of a secret for another host. *)
Definition sample_patch (k : secret_key) : xor_patch :=
  {| secret_offset := 5; secret_len := 3; xor_delta := 1 :: 2 :: 3 :: zeros 125; p_key := k |}.
Definition sample_val (host : bytes) (len : Z) : secret_value :=
  {| sv_len := 3; real_secret := zeros 128; host_len := len; allowed_host := host ++ zeros (64 - length host); ip_len := 0;
     allowed_ip := zeros 16; sv_port := 443; protocol := 0; prefix_len := 0; full_prefix := zeros 42 |}.
Definition sample_x : xor_pending_val :=
  xor_pending_zero <| xp_ssl_ptr := 77 |> <| xp_tgid := 7 |> <| xp_patch_count := 2 |>
    <| xp_patches := [sample_patch [1]; sample_patch [2]; xor_patch_zero; xor_patch_zero] |>
    <| h_valid := true |> <| xp_cipher_type := KLOAK_CIPHER_AES_GCM |> <| xp_plaintext_len := 100 |>.
Definition sample_bridge : kst :=
  kst_init <| k_xor_pending := {[ 7 := sample_x ]} |>
    <| k_secret_map := {[ [1] := sample_val [97] 1; [2] := sample_val [] 0 ]} |>.

Lemma bridge_hands_over_witness :
  let t := task_with 0 [] in
  let s' := snd (bpf_kprobe_tcp_sendmsg t (Some SniTrack.sample_sock) sample_bridge) in
  but_bridge s' = but_bridge sample_bridge ∧
  (∃ v, handed t SniTrack.sample_sock sample_x [sample_patch [2]] v ∧
    k_tc_pending s' = <[dest_key t SniTrack.sample_sock := v]> (k_tc_pending sample_bridge)) ∧
  k_xor_pending s' = delete 7 (k_xor_pending sample_bridge).
Proof.
  cbn zeta. destruct (bridge_hands_over (task_with 0 []) SniTrack.sample_sock sample_bridge sample_x) as [B H].
  - reflexivity.
  - cbn; lia.
  - reflexivity.
  - reflexivity.
  - split; [exact B|]. 
    assert (Ek : List.filter (λ p, may_leave sample_bridge SniTrack.sample_sock
      (k_sni_check_mode sample_bridge =? SNI_CHECK_AUDIT) (p_key p)) (take (Z.to_nat (xp_patch_count sample_x)) (xp_patches sample_x)) =
      [sample_patch [2]]) by (vm_compute; reflexivity).
    rewrite Ek in H. rewrite decide_False in H by discriminate.
    assert (Er : fst (recover_h (task_with 0 []) sample_x sample_bridge) =
      Some {| ghash_h := zeros 16; cipher_type := KLOAK_CIPHER_AES_GCM; nonce_len := 0 |}) by reflexivity.
    rewrite Er in H. destruct H as (H1 & _ & H2). split; [exact H1|exact H2].
Defined.

End BridgeFacts.
