(* ===== verification/Vip.v ===== *)
(** * Virtual IPs: DNS answers, connect and getpeername (pkg/ebpf/bpf/tls_uprobe.c)

    [Vip]: tc_dns_rewrite, step by step, and the cgroup hooks that redirect a
    connect to a fake IP and report the fake IP back. *)

From S2P Require Import Prelude Host Dns VipAddr State Hooks Packet.
Import Host Dns VipAddr Types Kernel Hooks Skb.

Module Vip.

Definition TC_PASS : Z := -1.
Definition TC_ACT_SHOT : Z := 2.
Definition ETH_P_IP : Z := 0x0800.
Definition ETH_P_IPV6 : Z := 0x86DD.
Definition IPPROTO_UDP : Z := 17.
Definition vip_upstream_max_entries : Z := 4096.

(** *** The addresses of an answer's records *)

Definition vip_record_addr (r : dns_addr_record) (six : bool) : addr16 :=
  if six then rec_ip r else ipv4_to_mapped (rec_ip r).

(** The walks, a bpf_loop each. *)
Definition dns_question_cb (msg : bytes) (_ : Z) (q : dns_question) : bool * dns_question := dns_question_step q msg.
Definition dns_answers_cb (msg : bytes) (_ : Z) (a : dns_answers) : bool * dns_answers := dns_answers_step a msg.

(** *** The headers *)

Record dns_headers := {
  d_src : addr16;        (* the resolver *)
  d_pod : addr16;        (* pk->pod_ip *)
  d_l4_off : Z
}.

Definition dns_l3_off (p : skb) : Z :=
  match bpf_skb_load_bytes p 12 2 with
  | Some h => if u16_at h 0 =? sb_protocol p then 14 else 0
  | None => 0
  end.

(** [None] when the packet is passed. *)
Definition dns_ip (p : skb) (l3_off : Z) : option dns_headers :=
  if sb_protocol p =? ETH_P_IP then
    match bpf_skb_load_bytes p l3_off 20 with
    | None => None
    | Some ip =>
        if negb (Z.shiftr (ip.[0]) 4 =? 4) || negb (ip.[9] =? IPPROTO_UDP) then None
        else if negb (Z.land (u16_at ip 6) 0x3FFF =? 0) then None
        else
          let ihl := Z.land (ip.[0]) 0xF * 4 in
          if ihl <? 20 then None
          else Some {| d_src := ipv4_to_mapped (slice ip 12 4); d_pod := ipv4_to_mapped (slice ip 16 4);
                       d_l4_off := l3_off +32 ihl |}
    end
  else
    match bpf_skb_load_bytes p l3_off 40 with
    | None => None
    | Some ip6 =>
        if negb (Z.shiftr (ip6.[0]) 4 =? 6) || negb (ip6.[6] =? IPPROTO_UDP) then None
        else Some {| d_src := slice ip6 8 16; d_pod := slice ip6 24 16; d_l4_off := l3_off +32 40 |}
    end.

(** The UDP header, of a datagram from port 53 whose message fits. *)
Definition dns_udp (p : skb) (h : dns_headers) : option bytes :=
  match bpf_skb_load_bytes p (d_l4_off h) 8 with
  | None => None
  | Some udp => if negb (u16_at udp 0 =? 53) then None else Some udp
  end.

(** *** The question *)

(** The answered question of the message, [None] when it has none. *)
Definition dns_question_of (msg : bytes) (msg_len : Z) : option dns_question :=
  let q := dns_question_begin dns_question_zero msg msg_len in
  let q := if q_status q =? DNS_SCAN_RUNNING then bpf_loop DNS_QNAME_STEPS (dns_question_cb msg) q else q in
  let '(status, q) := dns_question_end q in
  if status =? DNS_SCAN_OK then Some q else None.

(** The fake IP of the question's family, for a watched host. *)
Definition fake_for (s : kst) (q : dns_question) (six : bool) : option addr16 :=
  match k_vip_host_ip s !! qname q with
  | None => None
  | Some hv =>
      let fk := if six then vh_ip6 hv else ipv4_to_mapped (vh_ip4 hv) in
      if vip_addr_in_range (k_vip_config s) fk then Some fk else None
  end.

(** The pod has a secret for the host, or for any. *)
Definition pod_bound (s : kst) (pod : addr16) (host : bytes) : bool :=
  bool_decide (is_Some (k_vip_pod_host s !! (pod, host))) ||
  bool_decide (is_Some (k_vip_pod_host s !! (pod, zeros 64))).

(** *** The answers *)

Definition dns_answers_of (msg : bytes) (msg_len : Z) (q : dns_question) : option (list dns_addr_record) :=
  let a := dns_answers_begin dns_answers_zero msg_len (answers_off q) (q_ancount q) (qtype q) in
  let a := bpf_loop DNS_SCAN_STEPS (dns_answers_cb msg) a in
  let '(status, a) := dns_answers_end a in
  if status =? DNS_SCAN_OK then Some (take (Z.to_nat (n_recs a)) (take (Z.to_nat DNS_MAX_ADDR_RECORDS) (recs a)))
  else None.

(** The records that do not hold a fake IP already. *)
Definition real_records (cfg : vip_config_val) (six : bool) (rs : list dns_addr_record) : list dns_addr_record :=
  List.filter (λ r, negb (vip_addr_in_range cfg (vip_record_addr r six))) rs.

(** The slots after recording the records' addresses. *)
Definition record_all (now : Z) (six : bool) (rs : list dns_addr_record) (up : vip_upstream_val) : vip_upstream_val :=
  fold_left (λ up r,
    let ttl := if 0x7FFFFFFF <? rec_ttl r then 0 else rec_ttl r in
    vip_upstream_record up (vip_record_addr r six) (u64 (now + ttl * 1000000000))) rs up.

Definition vip_upstream_zero : vip_upstream_val := replicate 4 {| slot_ip := zeros 16; expires_at := 0 |}.

(** *** The rewrite *)

Section Rewrite.
(** bpf_l4_csum_replace: the packet with the checksum at the first offset updated
    for a word that changes from the second argument to the third. *)
Variable bpf_l4_csum_replace : skb → Z → Z → Z → option skb.

(** The checksum updates for [words] words from the [k]-th on. *)
Fixpoint csum_words (words : nat) (k : Z) (csum_off : Z) (odd : bool) (from to : bytes) (p : skb) : option skb :=
  match words with
  | O => Some p
  | S words' =>
      let w (b : bytes) := let v := le_val (slice b (4 * k) 4) in if odd then csum_odd_bytes v else v in
      match bpf_l4_csum_replace p csum_off (w from) (w to) with
      | None => None
      | Some p => csum_words words' (k + 1) csum_off odd from to p
      end
  end.

Definition vip_rewrite_addr (p : skb) (at_ csum_off : Z) (odd has_csum : bool) (from to : bytes) (six : bool) : option skb :=
  match try_store p at_ (take (if six then 16 else 4) to) with
  | None => None
  | Some p => if has_csum then csum_words (if six then 4 else 1) 0 csum_off odd from to p else Some p
  end.

(** All records; [None] when one fails. *)
Fixpoint rewrite_all (msg_off csum_off : Z) (has_csum six : bool) (rdata : bytes) (rs : list dns_addr_record) (p : skb)
    : option skb :=
  match rs with
  | [] => Some p
  | r :: rs' =>
      match vip_rewrite_addr p (msg_off +32 rec_off r) csum_off (negb (Z.land (rec_off r) 1 =? 0)) has_csum
              (rec_ip r) rdata six with
      | None => None
      | Some p => rewrite_all msg_off csum_off has_csum six rdata rs' p
      end
  end.

(** From the accepted answers on. *)
Definition dns_apply (t : task) (p : skb) (h : dns_headers) (udp : bytes) (six : bool) (fk : addr16)
    (rs : list dns_addr_record) : M (Z * skb) :=
  if (length rs =? 0)%nat then mret (TC_PASS, p)
  else
    cfg ← gets k_vip_config;
    cur ← gets (λ s, k_vip_upstream s !! fk);
    let real := real_records cfg six rs in
    let up := record_all (boot_ns t) six real (default vip_upstream_zero cur) in
    if (length real =? 0)%nat then mret (TC_PASS, p)
    else
      upd ← gets (λ s, hash_update vip_upstream_max_entries fk up (k_vip_upstream s));
      if negb (fst upd) then mret (TC_PASS, p)
      else
        modify (λ s, s <| k_vip_upstream := snd upd |>);;
        let rdata := if six then fk else slice fk 12 4 in
        let has_csum := negb (u16_at udp 6 =? 0) in
        match rewrite_all (d_l4_off h +32 8) (d_l4_off h +32 6) has_csum six rdata real p with
        | None => mret (TC_ACT_SHOT, p)
        | Some p => dbg_inc DBG_VIP_DNS_REWRITTEN;; mret (TC_PASS, p)
        end.

(** From the message on. *)
Definition dns_message (t : task) (p : skb) (h : dns_headers) (udp msg : bytes) (msg_len : Z) : M (Z * skb) :=
  match dns_question_of msg msg_len with
  | None => mret (TC_PASS, p)
  | Some q =>
      let six := qtype q =? DNS_TYPE_AAAA in
      if negb six && negb (qtype q =? DNS_TYPE_A) then mret (TC_PASS, p)
      else
        fake ← gets (λ s, fake_for s q six);
        match fake with
        | None => mret (TC_PASS, p)
        | Some fk =>
            bound ← gets (λ s, pod_bound s (d_pod h) (qname q));
            if negb bound then dbg_inc DBG_VIP_DNS_UNBOUND;; mret (TC_PASS, p)
            else
              match dns_answers_of msg msg_len q with
              | None => dbg_inc DBG_VIP_DNS_UNCHANGED;; mret (TC_PASS, p)
              | Some rs => dns_apply t p h udp six fk rs
              end
        end
  end.

Definition tc_dns_rewrite (t : task) (p : skb) : M (Z * skb) :=
  cfg ← gets k_vip_config;
  if mask4 cfg =? 0 then mret (TC_PASS, p)
  else if negb (sb_protocol p =? ETH_P_IP) && negb (sb_protocol p =? ETH_P_IPV6) then mret (TC_PASS, p)
  else
    match dns_ip p (dns_l3_off p) with
    | None => mret (TC_PASS, p)
    | Some h =>
        match dns_udp p h with
        | None => mret (TC_PASS, p)
        | Some udp =>
            trusted ← dns_server_trusted (d_src h);
            if negb trusted then mret (TC_PASS, p)
            else
              let udp_len := u16_at udp 4 in
              if (udp_len <? 20) || (8 + MAX_DNS_PKT <? udp_len) then mret (TC_PASS, p)
              else
                let msg_len := udp_len - 8 in
                let data := bpf_skb_load_bytes p (d_l4_off h +32 8) msg_len in
                modify (λ s, s <| k_dns_msg := splice (k_dns_msg s) 0 (default (zeros (Z.to_nat msg_len)) data) |>);;
                msg ← gets k_dns_msg;
                match data with
                | None => mret (TC_PASS, p)
                | Some _ => dns_message t p h udp msg msg_len
                end
        end
    end.

End Rewrite.

(** *** connect *)

(** struct bpf_sock_addr: the address and port of the call, and the socket. *)
Record sock_addr := {
  user_ip4 : bytes;
  user_ip6 : bytes;
  user_port : Z;               (* the 32-bit field, network byte order *)
  sa_type : Z;
  sa_cookie : Z;
  sa_sk : option Z             (* the socket, a key of its storage *)
}.
#[export] Instance sock_addr_eta : Eta sock_addr := λ c,
  Build_sock_addr (user_ip4 c) (user_ip6 c) (user_port c) (sa_type c) (sa_cookie c) (sa_sk c).

Definition bpf_ntohs (x : Z) : Z := (x mod 256) * 256 + x / 256 mod 256.

(** bpf_sk_storage_get with BPF_SK_STORAGE_GET_F_CREATE, then the stores. *)
Definition store_sock (t : task) (sk : Z) (v : vip_sock_val) : M unit :=
  have ← gets (λ s, k_vip_sock s !! sk);
  when (bool_decide (is_Some have) || storage_free t)
    (modify (λ s, s <| k_vip_sock := <[sk := v]> (k_vip_sock s) |>)).

(** The host of the fake IP [dst] and the real address picked for it. *)
Definition vip_target (t : task) (s : kst) (dst : addr16) : option (vip_ip_val * addr16) :=
  match k_vip_ip_host s !! dst, k_vip_upstream s !! dst with
  | Some ih, Some up =>
      match vip_upstream_pick up (boot_ns t) (prandom t) with
      | Some real => if eqb (vip_addr_v4mapped real) (vip_addr_v4mapped dst) then Some (ih, real) else None
      | None => None
      end
  | _, _ => None
  end.

(** The result, and [real]. *)
Definition vip_redirect (t : task) (ctx : sock_addr) (dst : addr16) : M (Z * addr16) :=
  cfg ← gets k_vip_config;
  if negb (vip_addr_in_range cfg dst) then mret (-1, zeros 16)
  else
    picked ← gets (λ s, vip_target t s dst);
    match picked with
    | None => dbg_inc DBG_VIP_CONNECT_REFUSED;; mret (0, zeros 16)
    | Some (ih, real) =>
        modify (λ s, s <| k_vip_sock_host := <[sa_cookie ctx := vi_host ih]> (k_vip_sock_host s) |>);;
        match sa_sk ctx with
        | Some sk => store_sock t sk {| fake_ip := dst; real_ip := real; vs_port := user_port ctx |}
        | None => pass
        end;;
        dbg_inc DBG_VIP_CONNECT_REDIRECT;;
        mret (1, real)
    end.

Definition vip_forget_host (ctx : sock_addr) : M unit :=
  modify (λ s, s <| k_vip_sock_host := delete (sa_cookie ctx) (k_vip_sock_host s) |>);;
  match sa_sk ctx with
  | Some sk => modify (λ s, s <| k_vip_sock := delete sk (k_vip_sock s) |>)
  | None => pass
  end.

Definition vip_record_dst (ctx : sock_addr) (dst : addr16) : M unit :=
  if negb (sa_type ctx =? 1) then pass
  else modify (λ s, s <| k_vip_sock_dst :=
    <[sa_cookie ctx := {| vd_ip := dst; vd_port := bpf_ntohs (u16 (user_port ctx)) |}]> (k_vip_sock_dst s) |>).

(** The hook of either family: [dst] the address the call asks for, [set] its
    update of the context. *)
Definition connect_hook (t : task) (ctx : sock_addr) (dst : addr16) (set : addr16 → sock_addr) : M (Z * sock_addr) :=
  '(r, real) ← vip_redirect t ctx dst;
  if r =? 1 then vip_record_dst ctx real;; mret (1, set real)
  else
    vip_forget_host ctx;;
    when (r <? 0) (vip_record_dst ctx dst);;
    mret ((if r =? 0 then 0 else 1), ctx).

(** The result (0: EPERM) and the context. *)
Definition vip_connect4 (t : task) (ctx : sock_addr) : M (Z * sock_addr) :=
  connect_hook t ctx (ipv4_to_mapped (user_ip4 ctx)) (λ real, ctx <| user_ip4 := slice real 12 4 |>).
Definition vip_connect6 (t : task) (ctx : sock_addr) : M (Z * sock_addr) :=
  connect_hook t ctx (user_ip6 ctx) (λ real, ctx <| user_ip6 := real |>).

(** *** getpeername *)

(** [None] when the code returns 0; else the fake IP, and the context. *)
Definition vip_peer_fake (ctx : sock_addr) (peer : addr16) : M (option (addr16 * sock_addr)) :=
  match sa_sk ctx with
  | None => mret None
  | Some sk =>
      sv ← gets (λ s, k_vip_sock s !! sk);
      mret (match sv with
            | Some sv =>
                if eqb (vip_addr_v4mapped (fake_ip sv)) (vip_addr_v4mapped peer)
                then Some (fake_ip sv, ctx <| user_port := vs_port sv |>) else None
            | None => None
            end)
  end.

Definition vip_getpeername4 (ctx : sock_addr) : M (Z * sock_addr) :=
  r ← vip_peer_fake ctx (ipv4_to_mapped (user_ip4 ctx));
  mret (1, match r with Some (fake, ctx') => ctx' <| user_ip4 := slice fake 12 4 |> | None => ctx end).
Definition vip_getpeername6 (ctx : sock_addr) : M (Z * sock_addr) :=
  r ← vip_peer_fake ctx (user_ip6 ctx);
  mret (1, match r with Some (fake, ctx') => ctx' <| user_ip6 := fake |> | None => ctx end).

End Vip.
