(* ===== verification/VipHooks.v ===== *)
(** * What the virtual-IP programs do

    [ConnectFacts]: where a connect goes, and what getpeername reports after it. *)

From S2P Require Import Prelude Host Dns VipAddr State Hooks Packet Vip.
Import Host Dns VipAddr Types Kernel Hooks Skb SkbFacts Vip.

Module ConnectFacts.
Import VipFacts HooksFacts.

(** The real addresses kept: four slots per fake IP; none of them is a fake IP
    itself, and those of a fake IPv4 are IPv4 addresses. *)
Definition slot_real (cfg : vip_config_val) (fk : addr16) (sl : vip_upstream_slot) : Prop :=
  live sl → vip_addr_in_range cfg (slot_ip sl) = false ∧ (vip_addr_v4mapped fk = true → vip_addr_v4mapped (slot_ip sl) = true).
Definition slots_ok (cfg : vip_config_val) (fk : addr16) (up : vip_upstream_val) : Prop :=
  upstream_ok up ∧ Forall (slot_real cfg fk) up.
Definition upstreams_ok (s : kst) : Prop := ∀ fk up, k_vip_upstream s !! fk = Some up → slots_ok (k_vip_config s) fk up.

(** Where a connect to the fake IP [dst] may be sent: the address of a live slot,
    one not expired when there is one, of [dst]'s family. *)
Definition target (t : task) (s : kst) (dst real : addr16) : Prop :=
  ∃ up sl, k_vip_upstream s !! dst = Some up ∧ sl ∈ up ∧ live sl ∧ slot_ip sl = real ∧
    (unexpired (boot_ns t) up ≠ [] → boot_ns t < expires_at sl) ∧
    vip_addr_v4mapped real = vip_addr_v4mapped dst.

(** What the cgroup hooks leave alone. *)
Definition but_vip (s : kst) : kst :=
  s <| k_vip_sock := ∅ |> <| k_vip_sock_host := ∅ |> <| k_vip_sock_dst := ∅ |> <| k_debug_counters := λ _, 0 |>.

Definition stream_dst (ctx : sock_addr) (dst : addr16) (m : gmap Z vip_sock_dst_val) : gmap Z vip_sock_dst_val :=
  if sa_type ctx =? 1 then <[sa_cookie ctx := {| vd_ip := dst; vd_port := bpf_ntohs (u16 (user_port ctx)) |}]> m else m.

Lemma unexpired_live now up sl : (∃ i, unexpired now up !! i = Some sl) → now < expires_at sl.
Proof.
  intros [i H]. apply list_elem_of_lookup_2 in H. unfold unexpired in H. apply list_elem_of_filter in H. tauto.
Qed.

Lemma pick_target t s dst up real : upstream_ok up → 0 ≤ boot_ns t → 0 ≤ prandom t → k_vip_upstream s !! dst = Some up →
  vip_upstream_pick up (boot_ns t) (prandom t) = Some real → vip_addr_v4mapped real = vip_addr_v4mapped dst → target t s dst real.
Proof.
  intros Hok Hb Hr Hup Hp Hf. pose proof (pick_spec up (boot_ns t) (prandom t) Hok Hb Hr) as H. rewrite Hp in H.
  destruct H as (sl & Hin & Hl & E & H). exists up, sl. split_and!; try done.
  intros Hne. destruct (decide (unexpired (boot_ns t) up = [])); [done|]. apply (unexpired_live _ up). eauto.
Qed.

Lemma forget_spec ctx s : ∃ s', vip_forget_host ctx s = ((), s') ∧ but_vip s' = but_vip s ∧
  k_vip_sock_host s' = delete (sa_cookie ctx) (k_vip_sock_host s) ∧ k_vip_sock_dst s' = k_vip_sock_dst s ∧
  ∀ sk, sa_sk ctx = Some sk → k_vip_sock s' !! sk = None.
Proof.
  unfold vip_forget_host. mrun. destruct (sa_sk ctx) as [sk|]; (eexists; split; [reflexivity|]; split; [by destruct s|]);
    (split_and!; try done). intros sk' [= <-]. apply lookup_delete_eq.
Qed.

Lemma record_dst_spec ctx dst s : ∃ s', vip_record_dst ctx dst s = ((), s') ∧ but_vip s' = but_vip s ∧
  k_vip_sock_host s' = k_vip_sock_host s ∧ k_vip_sock s' = k_vip_sock s ∧ k_vip_sock_dst s' = stream_dst ctx dst (k_vip_sock_dst s).
Proof.
  unfold vip_record_dst, stream_dst. mrun. destruct (sa_type ctx =? 1); (eexists; split; [reflexivity|]); split_and!; try done; by destruct s.
Qed.

Lemma store_sock_spec t sk v s : ∃ s', store_sock t sk v s = ((), s') ∧ but_vip s' = but_vip s ∧
  k_vip_sock_dst s' = k_vip_sock_dst s ∧ k_vip_sock_host s' = k_vip_sock_host s ∧
  (storage_free t = true → k_vip_sock s' !! sk = Some v).
Proof.
  unfold store_sock. mrun. destruct (_ || storage_free t) eqn:Es; eexists; (split; [reflexivity|]); split_and!; try done.
  - intros _. apply lookup_insert_eq.
  - intros Hf. by rewrite Hf, orb_true_r in Es.
Qed.

(** vip_redirect: not a fake IP, refused, or sent to a target. *)
Lemma redirect_spec t ctx dst s : upstreams_ok s → 0 ≤ boot_ns t → 0 ≤ prandom t →
  ∃ r real s', vip_redirect t ctx dst s = ((r, real), s') ∧ but_vip s' = but_vip s ∧ k_vip_sock_dst s' = k_vip_sock_dst s ∧
  ((vip_addr_in_range (k_vip_config s) dst = false ∧ r = -1 ∧ k_vip_sock_host s' = k_vip_sock_host s) ∨
   (vip_addr_in_range (k_vip_config s) dst = true ∧ r = 0 ∧ k_vip_sock_host s' = k_vip_sock_host s) ∨
   (vip_addr_in_range (k_vip_config s) dst = true ∧ r = 1 ∧
    ∃ ih, k_vip_ip_host s !! dst = Some ih ∧ target t s dst real ∧
      k_vip_sock_host s' = <[sa_cookie ctx := vi_host ih]> (k_vip_sock_host s) ∧
      (storage_free t = true → ∀ sk, sa_sk ctx = Some sk →
        k_vip_sock s' !! sk = Some {| fake_ip := dst; real_ip := real; vs_port := user_port ctx |}))).
Proof.
  intros Hu Hb Hr. unfold vip_redirect. mrun. destruct (vip_addr_in_range (k_vip_config s) dst); cbn [negb]; cycle 1.
  { exists (-1), (zeros 16), s. split_and!; try done. by left. }
  destruct (vip_target t s dst) as [[ih real]|] eqn:Et; unfold dbg_inc; mrun; cycle 1.
  { exists 0, (zeros 16). eexists. split; [reflexivity|]. split; [by destruct s|]. split; [done|]. right. by left. }
  unfold vip_target in Et. destruct (k_vip_ip_host s !! dst) as [ih'|]; [|done].
  destruct (k_vip_upstream s !! dst) as [up|] eqn:Eu; [|done].
  destruct (vip_upstream_pick up _ _) as [real'|] eqn:Ep; [|done]. destruct (eqb _ _) eqn:Ee; [|done]. injection Et as -> ->.
  apply eqb_prop in Ee. pose proof (pick_target t s dst up real (proj1 (Hu _ _ Eu)) Hb Hr Eu Ep Ee) as Ht.
  set (s1 := s <| k_vip_sock_host := _ |>). set (v := Build_vip_sock_val _ _ _).
  assert (∃ s2, match sa_sk ctx with Some sk => store_sock t sk v | None => pass end s1 = ((), s2) ∧ but_vip s2 = but_vip s1 ∧
    k_vip_sock_dst s2 = k_vip_sock_dst s1 ∧ k_vip_sock_host s2 = k_vip_sock_host s1 ∧
    (storage_free t = true → ∀ sk, sa_sk ctx = Some sk → k_vip_sock s2 !! sk = Some v)) as (s2 & E2 & B2 & D2 & H2 & K2).
  { destruct (sa_sk ctx) as [sk|]; [|by exists s1]. destruct (store_sock_spec t sk v s1) as (s2 & ? & ? & ? & ? & H).
    exists s2. split_and!; try done. intros Hf ? [= <-]. by apply H. }
  mrun. rewrite E2. cbv beta iota zeta. eexists 1, real, _. split; [reflexivity|]. split; [exact B2|]. split; [exact D2|].
  right. right. split; [done|]. split; [done|]. exists ih. by split_and!.
Qed.

(** The three outcomes of a connect. *)
Lemma hook_outcome t ctx dst set s : upstreams_ok s → 0 ≤ boot_ns t → 0 ≤ prandom t →
  ∃ r ctx' s', connect_hook t ctx dst set s = ((r, ctx'), s') ∧ but_vip s' = but_vip s ∧
  ((vip_addr_in_range (k_vip_config s) dst = false ∧ r = 1 ∧ ctx' = ctx ∧
    k_vip_sock_host s' = delete (sa_cookie ctx) (k_vip_sock_host s) ∧
    k_vip_sock_dst s' = stream_dst ctx dst (k_vip_sock_dst s) ∧
    (∀ sk, sa_sk ctx = Some sk → k_vip_sock s' !! sk = None)) ∨
   (vip_addr_in_range (k_vip_config s) dst = true ∧ r = 0 ∧ ctx' = ctx ∧
    k_vip_sock_host s' = delete (sa_cookie ctx) (k_vip_sock_host s) ∧ k_vip_sock_dst s' = k_vip_sock_dst s ∧
    (∀ sk, sa_sk ctx = Some sk → k_vip_sock s' !! sk = None)) ∨
   (vip_addr_in_range (k_vip_config s) dst = true ∧ r = 1 ∧
    ∃ ih real, k_vip_ip_host s !! dst = Some ih ∧ target t s dst real ∧ ctx' = set real ∧
      k_vip_sock_host s' = <[sa_cookie ctx := vi_host ih]> (k_vip_sock_host s) ∧
      k_vip_sock_dst s' = stream_dst ctx real (k_vip_sock_dst s) ∧
      (storage_free t = true → ∀ sk, sa_sk ctx = Some sk →
        k_vip_sock s' !! sk = Some {| fake_ip := dst; real_ip := real; vs_port := user_port ctx |}))).
Proof.
  intros Hu Hb Hr. unfold connect_hook, mbind, m_bind.
  destruct (redirect_spec t ctx dst s Hu Hb Hr) as (r & real & s1 & -> & B1 & D1 & [(Ei & -> & H1)|[(Ei & -> & H1)|(Ei & -> & ih & Hi & Ht & H1 & K1)]]);
    cbn [Z.eqb Pos.eqb Z.ltb Z.compare when].
  - destruct (forget_spec ctx s1) as (s2 & -> & B2 & H2 & D2 & K2). destruct (record_dst_spec ctx dst s2) as (s3 & E3 & B3 & H3 & K3 & D3).
    unfold when. rewrite E3. exists 1, ctx, s3. split; [done|]. split; [congruence|]. left. split_and!; try done; try congruence. intros sk Hsk. rewrite K3. by apply K2.
  - destruct (forget_spec ctx s1) as (s2 & -> & B2 & H2 & D2 & K2). exists 0, ctx, s2. split; [done|]. split; [congruence|].
    right. left. split_and!; try done; congruence.
  - destruct (record_dst_spec ctx real s1) as (s2 & -> & B2 & H2 & K2 & D2). exists 1, (set real), s2. split; [done|]. split; [congruence|].
    right. right. split; [done|]. split; [done|]. exists ih, real. split_and!; try done; try congruence.
    intros Hf sk Hsk. rewrite K2. by apply K1.
Qed.

(** The address each family's context holds. *)
Definition dst4 (ctx : sock_addr) : addr16 := ipv4_to_mapped (user_ip4 ctx).
Definition dst6 (ctx : sock_addr) : addr16 := user_ip6 ctx.
Definition ctx_ok (ctx : sock_addr) : Prop :=
  length (user_ip4 ctx) = 4%nat ∧ bytes_ok (user_ip4 ctx) ∧ addr (user_ip6 ctx).

Lemma mapped_eq v4 : length v4 = 4%nat → ipv4_to_mapped v4 = v4mapped v4.
Proof. intros H. by destruct v4 as [|? [|? [|? [|? []]]]]. Qed.

Lemma mapped_back v4 : length v4 = 4%nat → slice (ipv4_to_mapped v4) 12 4 = v4.
Proof. intros H. by destruct v4 as [|? [|? [|? [|? []]]]]. Qed.

Lemma target_addr t s dst real : upstreams_ok s → target t s dst real →
  addr real ∧ vip_addr_in_range (k_vip_config s) real = false ∧ vip_addr_v4mapped real = vip_addr_v4mapped dst.
Proof.
  intros Hu (up & sl & Hup & Hin & Hl & <- & _ & Hf). destruct (Hu _ _ Hup) as [(_ & Hs & _) Hr].
  rewrite Forall_forall in Hs, Hr. split; [by destruct (Hs _ Hin)|]. split; [by apply (Hr _ Hin)|done].
Qed.

(** A target of an IPv4 address survives the context's 4 bytes. *)
Lemma target_mapped t s v4 real : upstreams_ok s → length v4 = 4%nat → bytes_ok v4 → target t s (ipv4_to_mapped v4) real →
  length (slice real 12 4) = 4%nat ∧ ipv4_to_mapped (slice real 12 4) = real.
Proof.
  intros Hu Hl Hb Ht. destruct (target_addr t s _ real Hu Ht) as (Ha & _ & Hf).
  rewrite mapped_is_v4mapped in Hf by done. apply v4mapped_spec in Hf as (v & Hv & ->); [|done].
  rewrite <- mapped_eq by done. by rewrite !mapped_back.
Qed.

(** What a connect hook does: [dst] reads the address of a context. *)
Definition connected (t : task) (s : kst) (ctx : sock_addr) (dst : sock_addr → addr16) (out : (Z * sock_addr) * kst) : Prop :=
  let '((r, ctx'), s') := out in
  but_vip s' = but_vip s ∧
  if vip_addr_in_range (k_vip_config s) (dst ctx) then
    (r = 0 ∧ ctx' = ctx ∧ k_vip_sock_host s' = delete (sa_cookie ctx) (k_vip_sock_host s) ∧ k_vip_sock_dst s' = k_vip_sock_dst s ∧
     (∀ sk, sa_sk ctx = Some sk → k_vip_sock s' !! sk = None)) ∨
    (r = 1 ∧ target t s (dst ctx) (dst ctx') ∧ vip_addr_in_range (k_vip_config s) (dst ctx') = false ∧
     user_port ctx' = user_port ctx ∧
     ∃ ih, k_vip_ip_host s !! dst ctx = Some ih ∧
       k_vip_sock_host s' = <[sa_cookie ctx := vi_host ih]> (k_vip_sock_host s) ∧
       k_vip_sock_dst s' = stream_dst ctx (dst ctx') (k_vip_sock_dst s))
  else r = 1 ∧ ctx' = ctx ∧ k_vip_sock_host s' = delete (sa_cookie ctx) (k_vip_sock_host s) ∧
       k_vip_sock_dst s' = stream_dst ctx (dst ctx) (k_vip_sock_dst s) ∧
       (∀ sk, sa_sk ctx = Some sk → k_vip_sock s' !! sk = None).

Lemma connect_hook_connected t s ctx dst set : upstreams_ok s → 0 ≤ boot_ns t → 0 ≤ prandom t →
  (∀ real, target t s (dst ctx) real → dst (set real) = real ∧ user_port (set real) = user_port ctx) →
  connected t s ctx dst (connect_hook t ctx (dst ctx) set s).
Proof.
  intros Hu Hb Hr Hset. unfold connected.
  destruct (hook_outcome t ctx (dst ctx) set s Hu Hb Hr) as (r & ctx' & s' & -> & B & H). split; [done|].
  destruct H as [(-> & H)|[(-> & H)|(-> & -> & ih & real & Hi & Ht & -> & H1 & H2 & H3)]]; [tauto|tauto|].
  right. destruct (Hset real Ht) as [-> ->]. destruct (target_addr t s _ real Hu Ht) as (_ & ? & _).
  split_and!; try done. by exists ih.
Qed.

(** C14: a connect to a fake IP goes to a recorded real address of the host it
    stands for, of the same family and unexpired when there is one, never to a
    fake IP, and ties the socket to that host; or it is refused, and the socket
    loses the host of an earlier connect. A connect to any other address goes
    where the app asked, and the socket has no host. Nothing else changes. *)
Theorem vip_connect_outcome t ctx s :
  upstreams_ok s → 0 ≤ boot_ns t → 0 ≤ prandom t → ctx_ok ctx →
  connected t s ctx dst4 (vip_connect4 t ctx s) ∧ connected t s ctx dst6 (vip_connect6 t ctx s).
Proof.
  intros Hu Hb Hr (L4 & B4 & _).
  split; apply connect_hook_connected; try done. intros real Ht. split; [|done].
  by apply (target_mapped t s (user_ip4 ctx)).
Qed.

(** A fake range 240.0.0.0/8, the host of 240.0.0.1 and its two addresses. *)
Definition sample_cfg : vip_config_val := {| net4 := 240; mask4 := 255; net6 := zeros 16; mask6 := zeros 16 |}.
Definition sample_fake : addr16 := ipv4_to_mapped [240; 0; 0; 1].
Definition sample_host : bytes := pad64 [97; 46; 98].
Definition sample_vip : kst := kst_init <| k_vip_config := sample_cfg |>
  <| k_vip_ip_host := {[sample_fake := {| vi_host := sample_host; vi_host_len := 3; vi_flags := 0; vi_retired_at := 0 |}]} |>
  <| k_vip_upstream := {[sample_fake := sample_slots]} |>.
Definition sample_ctx : sock_addr := {| user_ip4 := [240; 0; 0; 1]; user_ip6 := zeros 16; user_port := 0xBB01; sa_type := 1;
  sa_cookie := 77; sa_sk := Some 5 |}.

Lemma sample_upstreams_ok : upstreams_ok sample_vip.
Proof.
  intros fk up H. change (k_vip_upstream sample_vip) with ({[sample_fake := sample_slots]} : gmap addr16 (list vip_upstream_slot)) in H.
  apply lookup_singleton_Some in H as [<- <-]. split; [apply sample_slots_ok|].
  repeat (apply Forall_cons; split;
    [intros Hl; split; [vm_compute; reflexivity|intros _; first [vm_compute; reflexivity | by destruct Hl]]|]). apply Forall_nil_2.
Qed.

Lemma sample_ctx_ok : ctx_ok sample_ctx.
Proof. split_and!; [done|by_compute|by_compute]. Qed.

Lemma vip_connect_outcome_witness :
  fst (fst (vip_connect4 (task_with 0 []) sample_ctx sample_vip)) = 1 ∧
  connected (task_with 0 []) sample_vip sample_ctx dst4 (vip_connect4 (task_with 0 []) sample_ctx sample_vip).
Proof.
  split; [vm_compute; reflexivity|].
  refine (proj1 (vip_connect_outcome (task_with 0 []) sample_ctx sample_vip _ _ _ _));
    [apply sample_upstreams_ok|vm_compute; congruence|vm_compute; congruence|apply sample_ctx_ok].
Defined.

(** *** getpeername *)

Lemma peer_fake_spec sk v s peer ip : sa_sk peer = Some sk → k_vip_sock s !! sk = Some v →
  vip_peer_fake peer ip s =
    (if eqb (vip_addr_v4mapped (fake_ip v)) (vip_addr_v4mapped ip) then Some (fake_ip v, peer <| user_port := vs_port v |>) else None, s).
Proof. intros Hs Hv. unfold vip_peer_fake. rewrite Hs. mrun. by rewrite Hv. Qed.

Lemma peer_fake_none sk s peer ip : sa_sk peer = Some sk → k_vip_sock s !! sk = None → vip_peer_fake peer ip s = (None, s).
Proof. intros Hs Hv. unfold vip_peer_fake. rewrite Hs. mrun. by rewrite Hv. Qed.

(** Whether the app connected to a fake IP of the peer's family. *)
Definition took_fake (s : kst) (r : Z) (dst peer : addr16) : bool :=
  (r =? 1) && vip_addr_in_range (k_vip_config s) dst && eqb (vip_addr_v4mapped dst) (vip_addr_v4mapped peer).

Lemma peer_after_connect t ctx dst set s sk peer ip : upstreams_ok s → 0 ≤ boot_ns t → 0 ≤ prandom t → storage_free t = true →
  sa_sk ctx = Some sk → sa_sk peer = Some sk →
  let '((r, _), s') := connect_hook t ctx dst set s in
  vip_peer_fake peer ip s' = (if took_fake s r dst ip then Some (dst, peer <| user_port := user_port ctx |>) else None, s').
Proof.
  intros Hu Hb Hr Hf Hs Hp.
  destruct (hook_outcome t ctx dst set s Hu Hb Hr) as (r & ctx' & s' & -> & B & H). unfold took_fake.
  destruct H as [(-> & -> & _ & _ & _ & H)|[(-> & -> & _ & _ & _ & H)|(-> & -> & ih & real & _ & _ & _ & _ & _ & H)]];
    cbn [Z.eqb Pos.eqb andb]; [by apply (peer_fake_none sk); auto..|].
  by rewrite (peer_fake_spec sk _ _ _ _ Hp (H Hf sk Hs)).
Qed.

(** C15: getpeername undoes what a redirected connect hid: on the socket of a
    connect to a fake IP it reports that fake IP and the port the app gave,
    whatever address the kernel holds; on a socket whose last connect went
    elsewhere, or was refused, it reports what the kernel holds. *)
Theorem vip_getpeername_roundtrip t ctx s sk peer :
  upstreams_ok s → 0 ≤ boot_ns t → 0 ≤ prandom t → storage_free t = true → ctx_ok ctx → ctx_ok peer →
  sa_sk ctx = Some sk → sa_sk peer = Some sk →
  (let '((r, _), s') := vip_connect4 t ctx s in
   vip_getpeername4 peer s' = ((1, if (r =? 1) && vip_addr_in_range (k_vip_config s) (dst4 ctx)
     then peer <| user_port := user_port ctx |> <| user_ip4 := user_ip4 ctx |> else peer), s')) ∧
  (let '((r, _), s') := vip_connect6 t ctx s in
   vip_getpeername6 peer s' = ((1, if took_fake s r (dst6 ctx) (dst6 peer)
     then peer <| user_port := user_port ctx |> <| user_ip6 := user_ip6 ctx |> else peer), s')).
Proof.
  intros Hu Hb Hr Hf (L4 & B4 & _) (P4 & Q4 & _) Hs Hp. unfold vip_connect4, vip_connect6, vip_getpeername4, vip_getpeername6.
  split.
  - pose proof (peer_after_connect t ctx (ipv4_to_mapped (user_ip4 ctx)) (λ real, ctx <| user_ip4 := slice real 12 4 |>)
      s sk peer (ipv4_to_mapped (user_ip4 peer)) Hu Hb Hr Hf Hs Hp) as H.
    destruct (connect_hook _ _ _ _ _) as [[r c] s']. mrun. rewrite H. unfold took_fake, dst4.
    rewrite !mapped_is_v4mapped by done. rewrite eqb_reflx, andb_true_r.
    destruct (_ && _); [|done]. by rewrite mapped_back.
  - pose proof (peer_after_connect t ctx (user_ip6 ctx) (λ real, ctx <| user_ip6 := real |>)
      s sk peer (user_ip6 peer) Hu Hb Hr Hf Hs Hp) as H.
    destruct (connect_hook _ _ _ _ _) as [[r c] s']. mrun. rewrite H. unfold dst6. by destruct (took_fake _ _ _ _).
Qed.

Lemma vip_getpeername_roundtrip_witness :
  let peer := sample_ctx <| user_ip4 := [10; 0; 0; 9] |> <| user_port := 0 |> in
  fst (vip_getpeername4 peer (snd (vip_connect4 (task_with 0 []) sample_ctx sample_vip))) = (1, sample_ctx).
Proof.
  cbn zeta. destruct (vip_getpeername_roundtrip (task_with 0 []) sample_ctx sample_vip 5
    (sample_ctx <| user_ip4 := [10; 0; 0; 9] |> <| user_port := 0 |>)) as [H _];
    [apply sample_upstreams_ok|vm_compute; congruence|vm_compute; congruence|reflexivity|apply sample_ctx_ok| |reflexivity..|].
  { split_and!; [done|by_compute|by_compute]. }
  assert (E : fst (fst (vip_connect4 (task_with 0 []) sample_ctx sample_vip)) = 1) by (vm_compute; reflexivity).
  destruct (vip_connect4 (task_with 0 []) sample_ctx sample_vip) as [[r c] s']. cbn [fst snd] in *. subst r.
  rewrite H. reflexivity.
Defined.

End ConnectFacts.
