(* ===== verification/DnsRewrite.v ===== *)
(** * What tc_dns_rewrite does to an answer

    [Walks]: its walks are the parser's of helpers.h; where the records lie.
    [Csums]: the checksum after the stores.
    [RewriteFacts]: the program: an answer it changes is an answer to a watched
    host's question, for a pod with a secret for the host; it has the fake IP
    in every record, its checksum still right, and its real addresses are kept
    for the connects to come. *)

From S2P Require Import Prelude Host TlsRecord Sni Dns VipAddr State Hooks Packet Vip VipHooks.
Import Host Dns VipAddr Types Kernel Hooks Skb SkbFacts Vip.

Module Walks.
Import DnsMsg DnsAnswers.

Lemma question_cb_loop msg n : ∀ i q, bpf_loop_from (dns_question_cb msg) n i q = dns_question_loop n q msg.
Proof.
  induction n as [|n IH]; intros i q; [done|]. cbn [bpf_loop_from dns_question_loop]. unfold dns_question_cb at 1.
  by destruct (dns_question_step q msg) as [[] q'].
Qed.

Lemma answers_cb_loop msg n : ∀ i a, bpf_loop_from (dns_answers_cb msg) n i a = dns_answers_loop n a msg.
Proof.
  induction n as [|n IH]; intros i a; [done|]. cbn [bpf_loop_from dns_answers_loop]. unfold dns_answers_cb at 1.
  by destruct (dns_answers_step a msg) as [[] a'].
Qed.

Lemma question_of_eq msg len : dns_question_of msg len =
  let '(status, q) := dns_parse_question msg len dns_question_zero in if status =? DNS_SCAN_OK then Some q else None.
Proof.
  unfold dns_question_of, dns_parse_question. set (q := dns_question_begin _ _ _).
  assert (E : (if q_status q =? DNS_SCAN_RUNNING then bpf_loop DNS_QNAME_STEPS (dns_question_cb msg) q else q) =
    dns_question_loop (Z.to_nat DNS_QNAME_STEPS) q msg).
  { destruct (q_status q =? DNS_SCAN_RUNNING) eqn:Es; [apply question_cb_loop|].
    change (Z.to_nat DNS_QNAME_STEPS) with 65%nat. cbn [dns_question_loop]. unfold dns_question_step. by rewrite Es. }
  by rewrite E.
Qed.

Lemma answers_of_eq msg len q : dns_answers_of msg len q =
  let '(status, a) := dns_scan_addr_records msg len (answers_off q) (q_ancount q) (qtype q) dns_answers_zero in
  if status =? DNS_SCAN_OK then Some (take (Z.to_nat (n_recs a)) (take 8 (recs a))) else None.
Proof.
  unfold dns_answers_of, dns_scan_addr_records, bpf_loop. change (BPF_MAX_LOOPS <? DNS_SCAN_STEPS) with false. cbv iota.
  by rewrite answers_cb_loop.
Qed.

(** The walks that tc_dns_rewrite runs with bpf_loop, a message's question
    and its answers, give what the loops of helpers.h give on it. *)
Theorem rewrite_walks_are_parsers msg len q :
  dns_question_of msg len =
    (let '(status, q) := dns_parse_question msg len dns_question_zero in if status =? DNS_SCAN_OK then Some q else None) ∧
  dns_answers_of msg len q =
    (let '(status, a) := dns_scan_addr_records msg len (answers_off q) (q_ancount q) (qtype q) dns_answers_zero in
     if status =? DNS_SCAN_OK then Some (take (Z.to_nat (n_recs a)) (take 8 (recs a))) else None).
Proof. split; [apply question_of_eq|apply answers_of_eq]. Qed.

(** *** Where the records lie *)

(** The records' addresses are [alen] bytes of [b] each, in order and apart,
    between [off] and [lim]; [shift] is added to their offsets. *)
Fixpoint laid (b : bytes) (shift lim alen off : Z) (rs : list dns_addr_record) : Prop :=
  match rs with
  | [] => True
  | r :: rs' =>
      off ≤ rec_off r ∧ rec_off r + alen ≤ lim ∧ length (rec_ip r) = 16%nat ∧ bytes_ok (rec_ip r) ∧
      window b (shift + rec_off r) (Z.to_nat alen) = take (Z.to_nat alen) (rec_ip r) ∧
      laid b shift lim alen (rec_off r + alen) rs'
  end.

Lemma laid_weaken b shift lim alen off off' rs : off' ≤ off → laid b shift lim alen off rs → laid b shift lim alen off' rs.
Proof. destruct rs as [|r rs]; [done|]. cbn [laid]. intros ? (? & H). split; [lia|done]. Qed.

Lemma laid_agree b b' shift shift' lim alen off rs : (∀ i, off ≤ i < lim → b.[shift + i] = b'.[shift' + i]) → 0 ≤ alen →
  laid b shift lim alen off rs → laid b' shift' lim alen off rs.
Proof.
  revert off. induction rs as [|r rs IH]; intros off H Ha; [done|]. cbn [laid]. intros (H1 & H2 & H3 & H4 & <- & H6).
  split_and!; try done.
  - apply byte_list_ext; [by rewrite !length_window|]. intros i Hi. rewrite zlen_window in Hi.
    rewrite !byte_at_window by lia. rewrite <- !Z.add_assoc. symmetry. apply H. lia.
  - apply IH; [|done|done]. intros i Hi. apply H. lia.
Qed.

Lemma laid_filter b shift lim alen (f : dns_addr_record → bool) rs : ∀ off, 0 ≤ alen → laid b shift lim alen off rs →
  laid b shift lim alen off (List.filter f rs).
Proof.
  induction rs as [|r rs IH]; intros off Ha; [done|]. cbn [laid List.filter]. intros (H1 & H2 & H3 & H4 & H5 & H6).
  apply IH in H6; [|done]. destruct (f r); [by split_and!|]. eapply laid_weaken; [|done]. lia.
Qed.

Lemma laid_Forall b shift lim alen off rs : laid b shift lim alen off rs → 0 ≤ alen →
  Forall (λ r, off ≤ rec_off r ∧ rec_off r + alen ≤ lim ∧ length (rec_ip r) = 16%nat ∧ bytes_ok (rec_ip r)) rs.
Proof.
  revert off. induction rs as [|r rs IH]; intros off; [by constructor|]. cbn [laid]. intros (H1 & H2 & H3 & H4 & H5 & H6) Ha.
  constructor; [done|]. eapply Forall_impl; [by apply IH|]. cbn. intros r' (? & ? & ? & ?). split_and!; try done. lia.
Qed.

Lemma listed_laid msg len qt rs : ∀ off, bytes_ok msg → 0 ≤ off → holds msg off (encode_rrs rs) →
  off + zlen (encode_rrs rs) ≤ len → Forall fields_ok rs →
  Forall (λ r, wanted qt r = true → zlen (rdata r) = dns_addr_len qt) rs →
  laid msg 0 len (dns_addr_len qt) off (listed qt off rs).
Proof.
  induction rs as [|r rs IH]; intros off Hm Ho Hh Hl Hf Hw; [done|].
  rewrite encode_rrs_cons, holds_app, zlen_app in *. destruct Hh as [Hr Hh].
  apply Forall_cons in Hf as [Hf Hfs]. apply Forall_cons in Hw as [Hw Hws].
  pose proof (zlen_nonneg (encode_rr r)). pose proof (zlen_nonneg (encode_rrs rs)). pose proof (zlen_nonneg (owner r)).
  pose proof (zlen_encode_rr r) as Er. cbn [listed].
  assert (IH' : laid msg 0 len (dns_addr_len qt) (off + zlen (encode_rr r)) (listed qt (off + zlen (encode_rr r)) rs))
    by (apply IH; done || lia).
  destruct (wanted qt r) eqn:Ew; cbn [app].
  2:{ eapply laid_weaken; [|done]. lia. }
  specialize (Hw eq_refl). destruct Hf as (_ & _ & _ & _ & Hb). cbn [laid rec_off rec_ip].
  destruct (dns_addr_len_cases qt) as [E|E]. { exfalso. unfold wanted in Ew. by rewrite E in Ew. }
  assert (Hlen : length (rdata r) = Z.to_nat (dns_addr_len qt)) by (unfold zlen in Hw; lia).
  split_and!.
  - lia.
  - lia.
  - unfold zeros. rewrite length_app, length_replicate. destruct E as [E|E]; rewrite E in Hlen; rewrite Hlen; done.
  - apply bytes_ok_app. split; [done|apply bytes_ok_zeros].
  - rewrite <- Hlen, take_app_length.
    unfold encode_rr in Hr. rewrite !holds_app, !zlen_be16 in Hr. destruct Hr as (_ & _ & _ & _ & _ & _ & Hr).
    unfold holds in Hr. replace (0 + (off + zlen (encode_rr r) - zlen (rdata r))) with (off + zlen (owner r) + 2 + 2 + 2 + 2 + 2) by lia. exact Hr.
  - by replace (off + zlen (encode_rr r) - zlen (rdata r) + dns_addr_len qt) with (off + zlen (encode_rr r)) by lia.
Qed.

End Walks.

(** ** The checksum *)

Module Csums.
Import VipFacts.

(** The same ones' complement sum. *)
Definition sum_eq (a b : Z) : Prop := a mod 65535 = b mod 65535.

Lemma sum_eq_iff a b : sum_eq a b ↔ ∃ k, a = b + 65535 * k.
Proof.
  unfold sum_eq. split.
  - intros H. exists (a / 65535 - b / 65535). Z.div_mod_to_equations. lia.
  - intros [k ->]. rewrite Z.mul_comm. apply Z.mod_add. lia.
Qed.

(** What bpf_l4_csum_replace does with BPF_F_MARK_MANGLED_0: a checksum of zero
    ("none") stays; any other, which counters the sum of the datagram it is part
    of, counters it after a 32-bit value changes from [from] to [to]. *)
Definition csum_updates (f : skb → Z → Z → Z → option skb) : Prop :=
  ∀ p off from to p', 0 ≤ off → f p off from to = Some p' →
    off + 2 ≤ zlen (sb_data p) ∧ ∃ c, 0 ≤ c < 65536 ∧ p' = p <| sb_data := splice (sb_data p) off (be16 c) |> ∧
    (u16_at (sb_data p) off ≠ 0 →
     c ≠ 0 ∧ sum_eq c (u16_at (sb_data p) off + value_sum from - value_sum to)).

(** The sum of the [n] bytes of [b] at [off]. *)
Definition sum_at (b : bytes) (off n : Z) : Z := csum true (window b off (Z.to_nat n)).

Lemma even_nat n : Z.even (Z.of_nat n) = Nat.even n.
Proof.
  induction n as [|n IH]; [done|]. by rewrite Nat2Z.inj_succ, Z.even_succ, Nat.even_succ, <- Z.negb_even, <- Nat.negb_even, IH.
Qed.

(** Bytes that differ only in [at_, at_ + m) change the sum by what is there. *)
Lemma sum_at_change b b' off n at_ m :
  off ≤ at_ → 0 ≤ m → at_ + m ≤ off + n → (∀ i, off ≤ i < off + n → ¬ at_ ≤ i < at_ + m → b'.[i] = b.[i]) →
  let par := Z.even (at_ - off) in
  sum_at b' off n = sum_at b off n - csum par (window b at_ (Z.to_nat m)) + csum par (window b' at_ (Z.to_nat m)).
Proof.
  intros H1 H2 H3 H. cbn zeta. unfold sum_at.
  replace (Z.to_nat n) with (Z.to_nat (at_ - off) + (Z.to_nat m + Z.to_nat (off + n - at_ - m)))%nat by lia.
  rewrite !window_app, !csum_app, !length_window.
  replace (off + Z.of_nat (Z.to_nat (at_ - off))) with at_ by lia.
  assert (Hpar : (if Nat.even (Z.to_nat (at_ - off)) then true else negb true) = Z.even (at_ - off)).
  { rewrite <- (Z2Nat.id (at_ - off)) at 2 by lia. rewrite even_nat. by destruct (Nat.even _). }
  rewrite Hpar. replace (at_ + Z.of_nat (Z.to_nat m)) with (at_ + m) by lia.
  rewrite (window_agree b' b off) by (intros; apply H; lia).
  rewrite (window_agree b' b (at_ + m)) by (intros; apply H; lia). lia.
Qed.

Lemma csum_be16 c : csum true (be16 c) = c.
Proof. unfold be16. cbn. Z.div_mod_to_equations. lia. Qed.

Lemma csum_window2 b off : csum true (window b off 2) = u16_at b off.
Proof. rewrite window_S, window_byte. cbn. unfold u16_at. lia. Qed.

(** The word the update gets for four bytes stands for them at their place. *)
Lemma word_sum (odd : bool) l : length l = 4%nat → bytes_ok l →
  value_sum (if odd then csum_odd_bytes (le_val l) else le_val l) = csum (negb odd) l.
Proof.
  intros Hl Hok. destruct l as [|b0 [|b1 [|b2 [|b3 [|]]]]]; try done.
  unfold bytes_ok in Hok. rewrite !Forall_cons in Hok. destruct Hok as (B0 & B1 & B2 & B3 & _).
  destruct odd; [rewrite csum_odd_le by done|]; rewrite value_sum_le by done; cbn; lia.
Qed.

(** A field of two bytes after the store of [c] at [off]. *)
Lemma u16_splice b off c : 0 ≤ off → off + 2 ≤ zlen b → u16_at (splice b off (be16 c)) off = c.
Proof.
  intros. unfold u16_at. rewrite !byte_at_splice by (rewrite ?zlen_be16; lia). rewrite !zlen_be16.
  destruct (Z.leb_spec off off); [|lia]. destruct (Z.ltb_spec off (off + 2)); [|lia].
  destruct (Z.leb_spec off (off + 1)); [|lia]. destruct (Z.ltb_spec (off + 1) (off + 2)); [|lia].
  cbn [andb]. rewrite Z.sub_diag. replace (off + 1 - off) with 1 by lia.
  change ((be16 c).[0]) with (c / 256). change ((be16 c).[1]) with (c mod 256). pose proof (Z.div_mod c 256 ltac:(lia)). lia.
Qed.

(** [b'] is [b] with the field [c] at [off]. *)
Definition with_field (b b' : bytes) (off c : Z) : Prop :=
  zlen b' = zlen b ∧ u16_at b' off = c ∧ (∀ i, 0 ≤ i → ¬ off ≤ i < off + 2 → b'.[i] = b.[i]) ∧ (bytes_ok b → bytes_ok b').

Lemma with_field_splice b off c : 0 ≤ off → off + 2 ≤ zlen b → 0 ≤ c < 65536 → with_field b (splice b off (be16 c)) off c.
Proof.
  intros Ho Hz Hc. split_and!; [by apply zlen_splice; rewrite ?zlen_be16|by apply u16_splice| |].
  - intros i Hi Hn. rewrite byte_at_splice by (rewrite ?zlen_be16; lia). rewrite zlen_be16.
    destruct (Z.leb_spec off i), (Z.ltb_spec i (off + 2)); (done || lia).
  - intros Hb. apply splice_ok; [done|by apply be16_ok].
Qed.

Lemma with_field_trans b b1 b2 off c1 c2 : with_field b b1 off c1 → with_field b1 b2 off c2 → with_field b b2 off c2.
Proof.
  intros (Z1 & _ & H1 & O1) (Z2 & F2 & H2 & O2). split_and!; [congruence|done| |auto].
  intros i Hi Hn. rewrite H2 by done. by apply H1.
Qed.

Lemma csum_four hi l off n : (off + 4 + n <= length l)%nat →
  csum hi (slice l (Z.of_nat off) (4 + n)) = csum hi (slice l (Z.of_nat off) 4) + csum hi (slice l (Z.of_nat off + 4) n).
Proof.
  intros Hn. rewrite slice_app_split by lia. rewrite csum_app, length_slice; [done|lia|unfold zlen; lia].
Qed.

(** The updates of [words] words from the [k]-th on. *)
Lemma csum_words_spec f (Hf : csum_updates f) odd from to : bytes_ok from → bytes_ok to →
  ∀ words k p p' off, 0 ≤ off → (4 * (k + words) <= length from)%nat → (4 * (k + words) <= length to)%nat → words ≠ O →
  u16_at (sb_data p) off ≠ 0 → csum_words f words (Z.of_nat k) off odd from to p = Some p' →
  ∃ c b', c ≠ 0 ∧ p' = p <| sb_data := b' |> ∧ with_field (sb_data p) b' off c ∧
  sum_eq c (u16_at (sb_data p) off + csum (negb odd) (slice from (Z.of_nat (4 * k)) (4 * words))
                                   - csum (negb odd) (slice to (Z.of_nat (4 * k)) (4 * words))).
Proof.
  intros Hfr Hto. induction words as [|words IH]; intros k p p' off Hoff Lf Lt Hw Hn E; [done|]. cbn [csum_words] in E.
  replace (4 * Z.of_nat k) with (Z.of_nat (4 * k)) in E by lia.
  assert (Hwd : ∀ l, bytes_ok l → (4 * (k + S words) <= length l)%nat →
    value_sum (let v := le_val (slice l (Z.of_nat (4 * k)) 4) in if odd then csum_odd_bytes v else v)
      = csum (negb odd) (slice l (Z.of_nat (4 * k)) 4)).
  { intros l Hl L. cbv zeta. apply word_sum; [apply length_slice; unfold zlen; lia|by apply slice_ok]. }
  destruct (f p off _ _) as [p1|] eqn:Ef; [|done]. apply Hf in Ef as (Hz & c1 & Hc1 & -> & Hs); [|done].
  destruct (Hs Hn) as [Hc Hs1]. cbv zeta in Hwd. rewrite !Hwd in Hs1 by done.
  pose proof (with_field_splice (sb_data p) off c1 Hoff Hz Hc1) as W1.
  destruct words as [|words].
  - cbn [csum_words] in E. injection E as <-. by exists c1, (splice (sb_data p) off (be16 c1)).
  - replace (Z.of_nat k + 1) with (Z.of_nat (S k)) in E by lia.
    assert (F1 : u16_at (splice (sb_data p) off (be16 c1)) off = c1) by apply W1.
    apply IH in E as (c & b' & H1 & -> & W & H2); [|lia|lia|lia|done|cbn; congruence].
    exists c, b'. split_and!; [done|done|by eapply with_field_trans|].
    cbn [sb_data skb_eta setter] in H2. rewrite sum_eq_iff in *. destruct Hs1 as [k1 Hs1], H2 as [k2 H2].
    exists (k1 + k2). rewrite H2.
    change (sb_data (p <| sb_data := splice (sb_data p) off (be16 c1) |>)) with (splice (sb_data p) off (be16 c1)).
    rewrite F1, Hs1.
    replace (4 * S (S words))%nat with (4 + 4 * S words)%nat by lia. rewrite !csum_four by lia.
    replace (Z.of_nat (4 * S k)) with (Z.of_nat (4 * k) + 4) by lia. lia.
Qed.

Lemma slice_window l off n : 0 ≤ off → off + Z.of_nat n ≤ zlen l → slice l off n = window l off n.
Proof.
  intros. apply byte_list_ext.
  - by rewrite length_window, length_slice.
  - intros i Hi. unfold zlen in Hi. rewrite length_slice in Hi by done. by rewrite byte_at_slice, byte_at_window by lia.
Qed.

Lemma slice_0 l n : slice l 0 n = take n l.
Proof. done. Qed.

(** [b'] is the datagram [b] (its UDP header at [l4], [n] bytes) with changes in
    [ins] and, when it has a checksum, in the checksum, which counters the same
    sum as before. *)
Definition dgram_ok (has_csum : bool) (l4 n : Z) (ins : Z → Prop) (b b' : bytes) : Prop :=
  zlen b' = zlen b ∧ (bytes_ok b → bytes_ok b') ∧
  (∀ i, 0 ≤ i → ¬ ins i → (has_csum = true → ¬ l4 + 6 ≤ i < l4 + 8) → b'.[i] = b.[i]) ∧
  (has_csum = true → u16_at b' (l4 + 6) ≠ 0 ∧ sum_eq (sum_at b' l4 n) (sum_at b l4 n)).

Definition in_addr (at_ alen i : Z) : Prop := at_ ≤ i < at_ + alen.

Lemma odd_bit o : 0 ≤ o → negb (Z.land o 1 =? 0) = Z.odd o.
Proof.
  intros. change 1 with (Z.ones 1). rewrite Z.land_ones by lia. change (2 ^ 1) with 2. rewrite Zmod_odd. by destruct (Z.odd o).
Qed.

Lemma rewrite_addr_spec f (Hf : csum_updates f) p p' l4 n o (six has_csum : bool) from to :
  let alen := if six then 16 else 4 in let at_ := l4 + 8 + o in let b := sb_data p in
  0 ≤ l4 → 0 ≤ o → at_ + alen ≤ l4 + n → alen ≤ zlen from → zlen to = alen → bytes_ok from → bytes_ok to →
  window b at_ (Z.to_nat alen) = take (Z.to_nat alen) from → (has_csum = true → u16_at b (l4 + 6) ≠ 0) →
  vip_rewrite_addr f p at_ (l4 + 6) (negb (Z.land o 1 =? 0)) has_csum from to six = Some p' →
  ∃ b', p' = p <| sb_data := b' |> ∧ window b' at_ (Z.to_nat alen) = to ∧ dgram_ok has_csum l4 n (in_addr at_ alen) b b'.
Proof.
  cbn zeta. set (alen := if six then 16 else 4). set (at_ := l4 + 8 + o). intros Hl4 Ho Hat Hfrom Hto Bf Bt Hw Hn E.
  unfold vip_rewrite_addr in E.
  assert (Hal : (if six then 16%nat else 4%nat) = Z.to_nat alen) by (by destruct six).
  assert (Hal' : 4 ≤ alen) by (unfold alen; destruct six; lia).
  rewrite Hal, take_ge in E by (unfold zlen in *; lia).
  unfold try_store in E. destruct (in_skb p at_ (zlen to) && sb_writable p) eqn:Ei; [|done].
  apply andb_prop in Ei as [Ei _]. unfold in_skb in Ei. apply andb_prop in Ei as [_ Ei]. apply Z.leb_le in Ei.
  set (b := sb_data p) in *. set (b1 := splice b at_ to) in *.
  assert (Z1 : zlen b1 = zlen b) by (apply zlen_splice; lia).
  assert (O1 : ∀ i, 0 ≤ i → ¬ in_addr at_ alen i → b1.[i] = b.[i]).
  { intros i Hi Hni. unfold b1. rewrite byte_at_splice by lia. unfold in_addr in Hni.
    destruct (Z.leb_spec at_ i), (Z.ltb_spec i (at_ + zlen to)); cbn [andb]; done || lia. }
  assert (W1 : window b1 at_ (Z.to_nat alen) = to).
  { apply byte_list_ext; [rewrite length_window; unfold zlen in *; lia|]. intros i Hi. rewrite zlen_window in Hi.
    rewrite byte_at_window by lia. unfold b1. rewrite byte_at_splice by lia.
    destruct (Z.leb_spec at_ (at_ + i)), (Z.ltb_spec (at_ + i) (at_ + zlen to)); try lia. cbn [andb]. f_equal. lia. }
  assert (K1 : bytes_ok b → bytes_ok b1) by (intros; by apply splice_ok).
  destruct has_csum; cycle 1.
  { injection E as <-. exists b1. split; [done|]. split; [done|]. split_and!; try done. intros i Hi Hni _. by apply O1. }
  specialize (Hn eq_refl).
  assert (Hf1 : u16_at b1 (l4 + 6) = u16_at b (l4 + 6)).
  { unfold u16_at. rewrite !O1 by (unfold in_addr; lia). done. }
  assert (Hlen : 4 * (0 + (if six then 4 else 1)) = alen) by (by destruct six).
  apply (csum_words_spec f Hf _ from to Bf Bt _ 0) in E as (c & b' & Hc & -> & (Z2 & F2 & O2 & K2) & Hs);
    [|lia|unfold zlen in *; destruct six; cbn in *; lia|unfold zlen in *; destruct six; cbn in *; lia|by destruct six|change (u16_at b1 (l4 + 6) ≠ 0); by rewrite Hf1].
  change (sb_data (p <| sb_data := b1 |>)) with b1 in *.
  exists b'. split; [done|]. split.
  { rewrite <- W1. apply window_agree. intros i Hi. apply O2; lia. }
  split_and!; [lia|auto| |].
  { intros i Hi Hni Hci. specialize (Hci eq_refl). rewrite O2 by lia. by apply O1. }
  intros _. rewrite F2. split; [done|]. rewrite odd_bit, <- Z.negb_even, negb_involutive in Hs by done.
  pose proof (sum_at_change b b1 l4 n at_ alen ltac:(lia) ltac:(lia) ltac:(lia)) as S1. cbn zeta in S1.
  rewrite W1, Hw in S1. specialize (S1 ltac:(intros; apply O1; [lia|unfold in_addr; lia])).
  pose proof (sum_at_change b1 b' l4 n (l4 + 6) 2 ltac:(lia) ltac:(lia) ltac:(lia)) as S2. cbn zeta in S2.
  specialize (S2 ltac:(intros; apply O2; lia)).
  replace (l4 + 6 - l4) with 6 in S2 by lia. change (Z.even 6) with true in S2. change (Z.to_nat 2) with 2%nat in S2.
  rewrite !csum_window2, F2 in S2.
  assert (Hpar : Z.even (at_ - l4) = Z.even o).
  { replace (at_ - l4) with (o + 2 * 4) by (unfold at_; lia). by rewrite Z.even_add_mul_2. }
  rewrite Hpar in S1. change (Z.of_nat (4 * 0)) with 0 in Hs. rewrite !slice_0 in Hs.
  replace (4 * (if six then 4 else 1))%nat with (Z.to_nat alen) in Hs by (by destruct six).
  rewrite (take_ge to) in Hs by (unfold zlen in *; lia).
  rewrite sum_eq_iff in *. destruct Hs as [k Hs]. exists k. rewrite S2, Hs, S1, Hf1. lia.
Qed.

Lemma dgram_ok_refl has_csum l4 n ins b : (has_csum = true → u16_at b (l4 + 6) ≠ 0) → dgram_ok has_csum l4 n ins b b.
Proof. intros H. split_and!; try done. intros Hc. split; [by apply H|done]. Qed.

Lemma dgram_ok_trans has_csum l4 n (ins1 ins2 ins : Z → Prop) b b1 b2 :
  (∀ i, ins1 i → ins i) → (∀ i, ins2 i → ins i) →
  dgram_ok has_csum l4 n ins1 b b1 → dgram_ok has_csum l4 n ins2 b1 b2 → dgram_ok has_csum l4 n ins b b2.
Proof.
  intros I1 I2 (Z1 & K1 & O1 & C1) (Z2 & K2 & O2 & C2). split_and!; [congruence|auto| |].
  - intros i Hi Hn Hc. rewrite O2, O1 by auto. done.
  - intros Hc. destruct (C1 Hc) as [_ S1], (C2 Hc) as [F2 S2]. split; [done|]. unfold sum_eq in *. congruence.
Qed.

(** Where the addresses of [rs] are. *)
Definition in_records (msg_off alen : Z) (rs : list dns_addr_record) (i : Z) : Prop :=
  Exists (λ r, in_addr (msg_off + rec_off r) alen i) rs.

Lemma rewrite_all_spec f (Hf : csum_updates f) l4 n lim (six has_csum : bool) rdata :
  let alen := if six then 16 else 4 in
  0 ≤ l4 < 2 ^ 20 → 8 + lim ≤ n → lim < 2 ^ 20 → zlen rdata = alen → bytes_ok rdata →
  ∀ rs off p p', 0 ≤ off → Walks.laid (sb_data p) (l4 + 8) lim alen off rs → (has_csum = true → u16_at (sb_data p) (l4 + 6) ≠ 0) →
  rewrite_all f (l4 + 8) (l4 + 6) has_csum six rdata rs p = Some p' →
  ∃ b', p' = p <| sb_data := b' |> ∧ Forall (λ r, window b' (l4 + 8 + rec_off r) (Z.to_nat alen) = rdata) rs ∧
    dgram_ok has_csum l4 n (in_records (l4 + 8) alen rs) (sb_data p) b'.
Proof.
  cbn zeta. set (alen := if six then 16 else 4). intros Hl4 Hlim Hlim2 Hrd Brd.
  change (2 ^ 20) with 1048576 in *. assert (Hal : 4 ≤ alen ≤ 16) by (unfold alen; destruct six; lia).
  induction rs as [|r rs IH]; intros off p p' Hoff Hlaid Hn E; cbn [rewrite_all] in E.
  { injection E as <-. exists (sb_data p). split; [by destruct p|]. split; [constructor|]. by apply dgram_ok_refl. }
  destruct Hlaid as (L1 & L2 & L3 & L4 & L5 & L6).
  destruct (vip_rewrite_addr _ _ _ _ _ _ _ _ _) as [p1|] eqn:E1; [|done].
  rewrite (u32_small (l4 + 8 + rec_off r)) in E1 by lia.
  apply (rewrite_addr_spec f Hf p p1 l4 n) in E1 as (b1 & -> & W1 & D1);
    [|lia|lia|fold alen; lia|fold alen; unfold zlen; lia|done|done|done|done|done].
  fold alen in W1, D1. pose proof D1 as (Z1 & K1 & O1 & C1).
  apply (IH (rec_off r + alen)) in E as (b' & -> & F2 & D2).
  2: lia.
  2:{ eapply Walks.laid_agree; [|lia|exact L6]. intros i Hi. change (sb_data (p <| sb_data := b1 |>)) with b1.
      rewrite (O1 (l4 + 8 + i)) by (unfold in_addr; lia). done. }
  2:{ intros Hc. by apply C1. }
  change (sb_data (p <| sb_data := b1 |>)) with b1 in D2. exists b'. split; [done|].
  pose proof (Walks.laid_Forall _ _ _ _ _ _ L6 ltac:(lia)) as Hin. rewrite Forall_forall in Hin. split.
  - constructor; [|done]. rewrite <- W1. apply window_agree. intros i Hi. apply D2; [lia| |lia].
    unfold in_records. rewrite Exists_exists. intros (r' & Hr' & Hr2). apply Hin in Hr'. unfold in_addr in Hr2. lia.
  - eapply dgram_ok_trans; [| |exact D1|exact D2]; intros i Hi; [by apply Exists_cons_hd|by apply Exists_cons_tl].
Qed.

End Csums.

(** ** The program *)

Module RewriteFacts.
Import VipFacts HooksFacts ConnectFacts DnsMsg DnsFacts DnsAnswers Walks Csums Sni.Hello.

Lemma zero_ok cfg fk : slots_ok cfg fk vip_upstream_zero.
Proof.
  assert (Hz : ∀ sl, sl ∈ vip_upstream_zero → sl = {| slot_ip := zeros 16; expires_at := 0 |}).
  { intros sl H. apply list_elem_of_lookup in H as [i H]. by apply lookup_replicate in H as [-> _]. }
  split; [split_and!|].
  - done.
  - apply Forall_forall. intros sl ->%Hz. split; [by_compute|cbn; lia].
  - intros sl ->%Hz Hl. by destruct Hl.
  - intros i j s s' H _ Hl. apply list_elem_of_lookup_2, Hz in H as ->. by destruct Hl.
  - apply Forall_forall. intros sl ->%Hz Hl. by destruct Hl.
Qed.

Lemma record_slots cfg fk up ip e : slots_ok cfg fk up → addr ip → vip_addr_in_range cfg ip = false →
  (vip_addr_v4mapped fk = true → vip_addr_v4mapped ip = true) → 0 ≤ e < 2 ^ 64 → slots_ok cfg fk (vip_upstream_record up ip e).
Proof.
  intros [Hok Hf] Ha Hr Hfam He. split; [by apply record_keeps_ok|].
  pose proof (record_cases up ip e Hok Ha He) as H. cbv zeta in H.
  destruct H as [[_ ->]|(_ & _ & i & sl & _ & [(_ & _ & ->)|(_ & _ & ->)])]; [done|by apply Forall_insert..].
Qed.

Lemma record_live up ip e : upstream_ok up → addr ip → 0 ≤ e < 2 ^ 64 →
  Exists live up ∨ (e ≠ 0 ∧ vip_addr_unspecified ip = false) → Exists live (vip_upstream_record up ip e).
Proof.
  intros Hok Ha He Hl. pose proof (record_cases up ip e Hok Ha He) as H. cbv zeta in H.
  destruct H as [[Hn ->]|(He0 & _ & i & sl & Hi & H)].
  { destruct Hl as [|[? Hu]]; [done|]. destruct Hn as [|Hn]; congruence. }
  apply Exists_exists. pose proof (lookup_lt_Some _ _ _ Hi) as Hlt.
  destruct H as [(Hs & _ & ->)|(_ & _ & ->)]; eexists;
    (split; [by eapply list_elem_of_lookup_2, list_lookup_insert_eq|]); unfold live in *; cbn; [|done].
  destruct Hok as (_ & Hf & _). pose proof (Forall_lookup_1 _ _ _ _ Hf Hi) as [_ ?]. lia.
Qed.

(** A record to keep for [fk]: a real address of its family. *)
Definition rec_real (cfg : vip_config_val) (fk : addr16) (six : bool) (r : dns_addr_record) : Prop :=
  addr (vip_record_addr r six) ∧ vip_addr_in_range cfg (vip_record_addr r six) = false ∧
  (vip_addr_v4mapped fk = true → vip_addr_v4mapped (vip_record_addr r six) = true).

Lemma record_all_ok cfg fk now six rs : ∀ up, Forall (rec_real cfg fk six) rs → slots_ok cfg fk up →
  slots_ok cfg fk (record_all now six rs up).
Proof.
  induction rs as [|r rs IH]; intros up Hr Hok; [done|]. apply Forall_cons in Hr as [(Ha & Hf & Hfam) Hr].
  change (record_all now six (r :: rs) up) with (record_all now six rs
    (vip_upstream_record up (vip_record_addr r six) (u64 (now + (if 0x7FFFFFFF <? rec_ttl r then 0 else rec_ttl r) * 1000000000)))).
  apply IH; [done|]. apply record_slots; try done. apply u64_range.
Qed.

(** An address worth keeping that is new to [up] leaves it one. *)
Lemma record_all_live cfg fk now six rs : 0 < now < 2 ^ 62 → ∀ up, Forall (rec_real cfg fk six) rs → upstream_ok up → Forall (λ r, 0 ≤ rec_ttl r) rs →
  Exists live up ∨ Exists (λ r, vip_addr_unspecified (vip_record_addr r six) = false) rs →
  Exists live (record_all now six rs up).
Proof.
  change (2 ^ 62) with 4611686018427387904. intros Hnow. induction rs as [|r rs IH]; intros up Hr Hok Ht H.
  { destruct H as [|H]; [done|]. by apply Exists_nil in H. }
  apply Forall_cons in Hr as [(Ha & Hf & _) Hr]. apply Forall_cons in Ht as [Ht Hts].
  change (record_all now six (r :: rs) up) with (record_all now six rs
    (vip_upstream_record up (vip_record_addr r six) (u64 (now + (if 0x7FFFFFFF <? rec_ttl r then 0 else rec_ttl r) * 1000000000)))).
  pose proof (u64_range (now + (if 0x7FFFFFFF <? rec_ttl r then 0 else rec_ttl r) * 1000000000)) as He.
  assert (He0 : u64 (now + (if 0x7FFFFFFF <? rec_ttl r then 0 else rec_ttl r) * 1000000000) ≠ 0).
  { destruct (Z.ltb_spec 0x7FFFFFFF (rec_ttl r)); rewrite u64_small by lia; lia. }
  apply IH; [done|by apply record_keeps_ok|done|].
  destruct H as [H|H]; [left; apply record_live; auto|].
  apply Exists_cons in H as [H|H]; [left; apply record_live; auto|by right].
Qed.

(** *** The packet *)

Lemma dns_ip_off p l3 h : dns_ip p l3 = Some h → bytes_ok (sb_data p) → 0 ≤ l3 ≤ 14 → 0 ≤ d_l4_off h < 80.
Proof.
  intros E Hb Hl. unfold dns_ip in E. destruct (sb_protocol p =? ETH_P_IP).
  - destruct (bpf_skb_load_bytes p l3 20) as [ip|] eqn:El; [|done]. apply load_inv in El as (_ & _ & ->).
    set (ip := slice _ _ _) in *. assert (Hip : bytes_ok ip) by (by apply slice_ok).
    destruct (_ || _); [done|]. destruct (negb _); [done|]. destruct (_ <? 20); [done|]. injection E as <-. cbn [d_l4_off].
    pose proof (byte_at_range ip 0 Hip) as Hb0. unfold byte in Hb0.
    change 0xF with (2 ^ 4 - 1). rewrite land_mask by lia.
    pose proof (Z.mod_pos_bound (ip.[0]) (2 ^ 4) ltac:(lia)). change (2 ^ 4) with 16 in *. rewrite u32_small; lia.
  - destruct (bpf_skb_load_bytes p l3 40) as [ip|] eqn:El; [|done]. destruct (_ || _); [done|]. injection E as <-.
    cbn [d_l4_off]. rewrite u32_small; lia.
Qed.

Lemma dns_l3_range p : 0 ≤ dns_l3_off p ≤ 14.
Proof. unfold dns_l3_off. destruct (bpf_skb_load_bytes p 12 2); [|lia]. destruct (_ =? _); lia. Qed.

Lemma real_recs cfg fk (six : bool) alen lim shift b off rs : alen = (if six then 16 else 4) →
  (six = true → vip_addr_v4mapped fk = false) → laid b shift lim alen off rs → Forall (rec_real cfg fk six) (real_records cfg six rs).
Proof.
  intros Ea Hsix Hl. pose proof (laid_Forall _ _ _ _ _ _ Hl ltac:(destruct six; lia)) as Hf.
  apply Forall_forall. intros r Hr. unfold real_records in Hr. apply list_elem_of_In, filter_In in Hr as [Hin Hr].
  apply list_elem_of_In in Hin. rewrite Forall_forall in Hf. destruct (Hf r Hin) as (_ & _ & L & B).
  unfold vip_record_addr in *. split; [destruct six; [by split|by apply mapped_addr]|]. split; [by apply negb_true_iff|].
  intros Hfk. destruct six; [by rewrite Hsix in Hfk|by apply mapped_is_v4mapped].
Qed.

(** What tc_dns_rewrite may change. *)
Definition but_dns (s : kst) : kst := s <| k_vip_upstream := ∅ |> <| k_dns_msg := [] |> <| k_debug_counters := λ _, 0 |>.

(** The fake IP of [hv] for a question of the family, and the bytes it is in a
    record. *)
Definition fake_of (six : bool) (hv : vip_host_val) : addr16 := if six then vh_ip6 hv else ipv4_to_mapped (vh_ip4 hv).
Definition fake_data (six : bool) (hv : vip_host_val) : bytes := if six then vh_ip6 hv else slice (ipv4_to_mapped (vh_ip4 hv)) 12 4.
Definition addr_size (six : bool) : Z := if six then 16 else 4.

(** A host's fake IPs: an IPv4 one, and an IPv6 one or zeros. *)
Definition host_ok (hv : vip_host_val) : Prop := addr (vh_ip6 hv) ∧ vip_addr_v4mapped (vh_ip6 hv) = false ∧ bytes_ok (vh_ip4 hv).

(** The records of an answer were handed out as the fake IP of [hv]: its real
    records [rs] hold it and nothing else is changed but the checksum, still
    right; the real addresses are kept for the fake IP, one of them live. *)
Record handed_out (t : task) (s : kst) (p : skb) (s' : kst) (p' : skb) (l4 udp_len : Z) (has_csum six : bool)
    (hv : vip_host_val) (rs : list dns_addr_record) : Prop := {
  ho_some : rs ≠ [];
  ho_kept : k_vip_upstream s' = <[fake_of six hv :=
      record_all (boot_ns t) six rs (default vip_upstream_zero (k_vip_upstream s !! fake_of six hv))]> (k_vip_upstream s);
  ho_live : Exists (λ r, vip_addr_unspecified (vip_record_addr r six) = false) rs →
    Exists live (record_all (boot_ns t) six rs (default vip_upstream_zero (k_vip_upstream s !! fake_of six hv)));
  ho_packet : p' = p <| sb_data := sb_data p' |>;
  ho_fake : Forall (λ r, window (sb_data p') (l4 + 8 + rec_off r) (Z.to_nat (addr_size six)) = fake_data six hv) rs;
  ho_rest : dgram_ok has_csum l4 udp_len (in_records (l4 + 8) (addr_size six) rs) (sb_data p) (sb_data p')
}.

(** A real address is kept for the fake IP [fk]. *)
Definition usable (s : kst) (fk : addr16) : Prop := ∃ up, k_vip_upstream s !! fk = Some up ∧ Exists live up.

(** Passed unchanged, dropped, or handed out; a fake IP that could be used still
    can. *)
Definition outcome (t : task) (s : kst) (p : skb) (out : (Z * skb) * kst) (ok : kst → skb → Prop) : Prop :=
  let '((r, p'), s') := out in
  but_dns s' = but_dns s ∧ upstreams_ok s' ∧ (∀ fk, usable s fk → usable s' fk) ∧
  ((r = TC_PASS ∧ p' = p ∧ k_vip_upstream s' = k_vip_upstream s) ∨ (r = TC_ACT_SHOT ∧ p' = p) ∨ (r = TC_PASS ∧ ok s' p')).

Lemma upstreams_insert s s' fk up : upstreams_ok s → k_vip_config s' = k_vip_config s →
  k_vip_upstream s' = <[fk := up]> (k_vip_upstream s) → slots_ok (k_vip_config s) fk up → upstreams_ok s'.
Proof.
  intros Hu Ec E Hok fk' up' H. rewrite E, Ec in *.
  apply lookup_insert_Some in H as [[<- <-]|[_ H]]; [exact Hok|exact (Hu _ _ H)].
Qed.

Lemma apply_spec f (Hf : csum_updates f) t s p h udp six hv rs0 n off :
  upstreams_ok s → 0 < boot_ns t < 2 ^ 62 → 0 ≤ d_l4_off h < 80 → 20 ≤ n ≤ 520 → 0 ≤ off →
  u16_at udp 6 = u16_at (sb_data p) (d_l4_off h + 6) → host_ok hv →
  laid (sb_data p) (d_l4_off h + 8) (n - 8) (addr_size six) off rs0 → Forall (λ r, 0 ≤ rec_ttl r) rs0 →
  outcome t s p (dns_apply f t p h udp six (fake_of six hv) rs0 s) (λ s' p',
    handed_out t s p s' p' (d_l4_off h) n (negb (u16_at udp 6 =? 0)) six hv (real_records (k_vip_config s) six rs0)).
Proof.
  intros Hu Hnow Hl4 Hn Hoff Hudp ([L6 B6] & F6 & B4) Hlaid Httl. change (2 ^ 62) with 4611686018427387904 in Hnow. unfold outcome, dns_apply.
  assert (Hstop : but_dns s = but_dns s ∧ upstreams_ok s ∧ (∀ fk, usable s fk → usable s fk) ∧
    ((TC_PASS = TC_PASS ∧ p = p ∧ k_vip_upstream s = k_vip_upstream s) ∨ (TC_PASS = TC_ACT_SHOT ∧ p = p) ∨
     (TC_PASS = TC_PASS ∧ handed_out t s p s p (d_l4_off h) n (negb (u16_at udp 6 =? 0)) six hv (real_records (k_vip_config s) six rs0)))).
  { split; [done|]. split; [done|]. split; [done|]. by left. }
  destruct (length rs0 =? 0)%nat; [exact Hstop|]. mrun.
  destruct (length (real_records (k_vip_config s) six rs0) =? 0)%nat eqn:E0; [exact Hstop|].
  apply Nat.eqb_neq in E0.
  set (rs := real_records (k_vip_config s) six rs0) in *. set (fk := fake_of six hv).
  set (up := record_all _ _ _ _). unfold hash_update. destruct (_ || _); [|exact Hstop]. cbn [fst snd negb].
  assert (Hreal : Forall (rec_real (k_vip_config s) fk six) rs).
  { apply (real_recs _ _ _ (addr_size six) (n - 8) (d_l4_off h + 8) (sb_data p) off); [done| |done]. unfold fk. by intros ->. }
  assert (Hcur : slots_ok (k_vip_config s) fk (default vip_upstream_zero (k_vip_upstream s !! fk))).
  { destruct (k_vip_upstream s !! fk) as [cur|] eqn:Ec; [exact (Hu _ _ Ec)|apply zero_ok]. }
  assert (Hup : slots_ok (k_vip_config s) fk up) by (by apply record_all_ok).
  set (s1 := s <| k_vip_upstream := _ |>).
  assert (Hu1 : upstreams_ok s1) by (by apply (upstreams_insert s s1 fk up)).
  assert (B1 : but_dns s1 = but_dns s) by done.
  assert (Httl' : Forall (λ r, 0 ≤ rec_ttl r) rs).
  { apply Forall_forall. intros r Hr. rewrite Forall_forall in Httl. apply Httl.
    unfold rs, real_records in Hr. apply list_elem_of_In, filter_In in Hr as [Hr _]. by apply list_elem_of_In. }
  assert (Hlive : ∀ fk', usable s fk' → usable s1 fk').
  { intros fk' (u & Hu0 & Hl). destruct (decide (fk = fk')) as [<-|Hne].
    - exists up. split; [apply lookup_insert_eq|]. apply (record_all_live (k_vip_config s) fk); [lia|done|apply Hcur|done|].
      rewrite Hu0. by left.
    - exists u. split; [|done]. cbn. by rewrite lookup_insert_ne. }
  assert (Hfd : zlen (fake_data six hv) = addr_size six ∧ bytes_ok (fake_data six hv)).
  { destruct six; [split; [unfold zlen; cbn; by rewrite L6|done]|split; [done|by apply slice_ok, mapped_addr]]. }
  assert (Erd : (if six then fk else slice fk 12 4) = fake_data six hv) by (by destruct six). rewrite Erd.
  rewrite !u32_small by lia.
  destruct (rewrite_all _ _ _ _ _ _ _ _) as [p'|] eqn:Er; [|by split; [|split; [|split; [|right; left]]]].
  unfold dbg_inc. mrun. split; [done|]. split; [exact Hu1|]. split; [exact Hlive|]. right. right. split; [done|].
  assert (Hlaid' : laid (sb_data p) (d_l4_off h + 8) (n - 8) (addr_size six) off rs)
    by (apply laid_filter; [destruct six; cbn; lia|done]).
  apply (rewrite_all_spec f Hf (d_l4_off h) n (n - 8)) with (off := off) in Er as (b' & -> & Hfk & Hd);
    [|lia|lia|lia|apply Hfd|apply Hfd|lia|exact Hlaid'|].
  2:{ rewrite <- Hudp. intros E. apply negb_true_iff, Z.eqb_neq in E. done. }
  constructor.
  - intros E. by rewrite E in E0.
  - done.
  - intros Hun. apply (record_all_live (k_vip_config s) fk); [lia|done|apply Hcur|done|by right].
  - done.
  - exact Hfk.
  - exact Hd.
Qed.

(** *** The message *)

Definition addr_type (six : bool) : Z := if six then DNS_TYPE_AAAA else DNS_TYPE_A.
Definition answers_at (ls : list bytes) : Z := 12 + zlen (encode_labels ls) + 5.

(** [msg] answers the address question for the watched host [ls] of [hv] with the
    records [rrs], for a pod with a secret for the host. *)
Record asked (s : kst) (pod : addr16) (msg : bytes) (msg_len : Z) (six : bool) (ls : list bytes) (hv : vip_host_val)
    (rrs : list rr) : Prop := {
  as_header : answer_header msg;
  as_question : question_at msg msg_len ls;
  as_type : u16_at msg (answers_at ls - 4) = addr_type six;
  as_host : k_vip_host_ip s !! pad_host (text ls) = Some hv;
  as_fake : vip_addr_in_range (k_vip_config s) (fake_of six hv) = true;
  as_bound : pod_bound s pod (pad_host (text ls)) = true;
  as_count : zlen rrs = u16_at msg 6;
  as_records : holds msg (answers_at ls) (encode_rrs rrs) ∧ answers_at ls + zlen (encode_rrs rrs) ≤ msg_len ∧
    Forall fields_ok rrs ∧ Forall (λ r, owner_ok (owner r)) rrs
}.

Definition hosts_ok (s : kst) : Prop := ∀ h hv, k_vip_host_ip s !! h = Some hv → host_ok hv.

Lemma outcome_impl t s p out (P Q : kst → skb → Prop) : (∀ s' p', P s' p' → Q s' p') → outcome t s p out P → outcome t s p out Q.
Proof. unfold outcome. destruct out as [[r p'] s']. intros H (? & ? & ? & [|[|[? ?]]]); auto 10. Qed.

(** The copy buffer is not part of the outcome. *)
Lemma outcome_base t s s1 p out (P Q : kst → skb → Prop) : (∀ s' p', P s' p' → Q s' p') →
  outcome t s1 p out P → but_dns s1 = but_dns s → k_vip_upstream s1 = k_vip_upstream s → outcome t s p out Q.
Proof. unfold outcome. destruct out as [[r p'] s']. intros H (? & ? & Hl & Ho) <- E. unfold usable in *. rewrite E in *.
  split_and!; [done..|]. destruct Ho as [|[|[? ?]]]; auto 10. Qed.

Lemma pass_outcome t s p s' P : but_dns s' = but_dns s → k_vip_upstream s' = k_vip_upstream s → upstreams_ok s →
  outcome t s p ((TC_PASS, p), s') P.
Proof.
  intros B E Hu. split; [done|]. split; [|split; [|by left]].
  2:{ intros fk. unfold usable. by rewrite E. }
  intros fk up H. rewrite E in H. change (k_vip_config s') with (k_vip_config (but_dns s')). rewrite B. exact (Hu _ _ H).
Qed.

Lemma answers_listed msg len ls q rs : bytes_ok msg → 12 ≤ len ≤ 512 → question_at msg len ls → answers_off q = answers_at ls →
  q_ancount q = u16_at msg 6 → u16_at msg 6 ≠ 0 → dns_answers_of msg len q = Some rs →
  ∃ rrs, zlen rrs = u16_at msg 6 ∧ rs = listed (qtype q) (answers_at ls) rrs ∧
    (holds msg (answers_at ls) (encode_rrs rrs) ∧ answers_at ls + zlen (encode_rrs rrs) ≤ len ∧
     Forall fields_ok rrs ∧ Forall (λ r, owner_ok (owner r)) rrs) ∧
    laid msg 0 len (dns_addr_len (qtype q)) (answers_at ls) rs.
Proof.
  intros Hm Hl (_ & _ & _ & Hq & _) Ha Hc H0 E. pose proof (zlen_nonneg (encode_labels ls)). unfold answers_at in *.
  pose proof (u16_at_range msg 6 Hm). rewrite answers_of_eq, Ha, Hc in E.
  destruct (dns_scan_addr_records _ _ _ _ _ _) as [st a] eqn:Es. destruct (Z.eqb_spec st DNS_SCAN_OK) as [->|]; [|done].
  apply answers_scan_spec in Es as (rrs & S1 & S2 & S3 & S4 & S5 & S6 & S7 & S8 & S9); [|done|lia|lia].
  exists rrs. injection E as <-. rewrite take_take, Nat.min_l, S9 by lia. specialize (S5 ltac:(lia)).
  split_and!; try done; [lia|]. apply listed_laid; try done; lia.
Qed.

Lemma listed_ttl qt rs : ∀ off, Forall fields_ok rs → Forall (λ r, 0 ≤ rec_ttl r) (listed qt off rs).
Proof.
  induction rs as [|r rs IH]; intros off Hf; [constructor|]. apply Forall_cons in Hf as [(_ & _ & Ht & _) Hf].
  cbn [listed]. apply Forall_app. split; [|by apply IH]. destruct (wanted qt r); [|constructor].
  constructor; [cbn; lia|constructor].
Qed.

(** dns_message passes the packet on, or applies the records of an answer. *)
Lemma message_cases f t s p h udp n msg : 20 ≤ n ≤ 520 → bytes_ok msg →
  (∃ s', dns_message f t p h udp msg (n - 8) s = ((TC_PASS, p), s') ∧ but_dns s' = but_dns s ∧ k_vip_upstream s' = k_vip_upstream s) ∨
  ∃ six ls hv rrs, asked s (d_pod h) msg (n - 8) six ls hv rrs ∧
    laid msg 0 (n - 8) (addr_size six) (answers_at ls) (listed (addr_type six) (answers_at ls) rrs) ∧
    dns_message f t p h udp msg (n - 8) s = dns_apply f t p h udp six (fake_of six hv) (listed (addr_type six) (answers_at ls) rrs) s.
Proof.
  intros Hn Hm. unfold dns_message.
  assert (Hpass : ∃ s', ((TC_PASS, p), s) = ((TC_PASS, p), s') ∧ but_dns s' = but_dns s ∧ k_vip_upstream s' = k_vip_upstream s) by (by exists s).
  destruct (dns_question_of msg (n - 8)) as [q|] eqn:Eq; [|by left].
  rewrite question_of_eq in Eq. destruct (dns_parse_question _ _ _) as [st q'] eqn:Ep.
  destruct (Z.eqb_spec st DNS_SCAN_OK) as [->|]; [|done]. injection Eq as ->.
  apply parse_question_spec in Ep as (ls & H1 & H2 & H3 & H4 & H5 & H6 & H7 & H8); [|done].
  rewrite Z.min_l in H3 by lia.
  destruct (negb (qtype q =? DNS_TYPE_AAAA) && negb (qtype q =? DNS_TYPE_A)) eqn:Et; [by left|].
  mrun. destruct (fake_for s q _) as [fk|] eqn:Ef; [|by left].
  unfold fake_for in Ef. rewrite H4 in Ef. destruct (k_vip_host_ip s !! _) as [hv|] eqn:Ehv; [|done].
  set (six := qtype q =? DNS_TYPE_AAAA) in *.
  assert (Eqt : qtype q = addr_type six).
  { unfold addr_type. destruct six eqn:E6; [by apply Z.eqb_eq in E6|]. cbn [negb andb] in Et.
    by apply negb_false_iff, Z.eqb_eq in Et. }
  change (if six then vh_ip6 hv else ipv4_to_mapped (vh_ip4 hv)) with (fake_of six hv) in Ef.
  destruct (vip_addr_in_range _ _) eqn:Er; [|done]. injection Ef as <-.
  destruct (pod_bound s (d_pod h) (qname q)) eqn:Eb; cbn [negb]; [|unfold dbg_inc; mrun; left; by eexists].
  destruct (dns_answers_of msg (n - 8) q) as [rs|] eqn:Ea; [|unfold dbg_inc; mrun; left; by eexists].
  apply (answers_listed msg (n - 8) ls) in Ea as (rrs & Hc & -> & Hr & Hlaid); [|done|lia|done|exact H7|done|apply H2].
  assert (Es : dns_addr_len (addr_type six) = addr_size six) by (by destruct six).
  right. exists six, ls, hv, rrs. split; [|split; rewrite Eqt in *; [|done]].
  - rewrite H4 in Eb. constructor; try done. rewrite <- Eqt, H8, H7. done.
  - by rewrite Es in Hlaid.
Qed.

Lemma message_spec f (Hf : csum_updates f) t s p h udp n msg :
  upstreams_ok s → hosts_ok s → 0 < boot_ns t < 2 ^ 62 → 0 ≤ d_l4_off h < 80 → 20 ≤ n ≤ 520 →
  u16_at udp 6 = u16_at (sb_data p) (d_l4_off h + 6) → bytes_ok msg →
  (∀ i, 0 ≤ i < n - 8 → msg.[i] = (sb_data p).[d_l4_off h + 8 + i]) →
  outcome t s p (dns_message f t p h udp msg (n - 8) s) (λ s' p', ∃ six ls hv rrs,
    asked s (d_pod h) msg (n - 8) six ls hv rrs ∧
    handed_out t s p s' p' (d_l4_off h) n (negb (u16_at udp 6 =? 0)) six hv
      (real_records (k_vip_config s) six (listed (addr_type six) (answers_at ls) rrs))).
Proof.
  intros Hu Hh Hnow Hl4 Hn Hudp Hm Hagree.
  destruct (message_cases f t s p h udp n msg Hn Hm) as [(s' & -> & ? & ?)|(six & ls & hv & rrs & Ha & Hlaid & ->)]; [by apply pass_outcome|].
  pose proof (zlen_nonneg (encode_labels ls)). eapply outcome_impl; [|apply (apply_spec f Hf t s p h udp six hv _ n (answers_at ls)); try done].
  - intros s' p' Ho. by exists six, ls, hv, rrs.
  - unfold answers_at. lia.
  - apply (Hh _ _ (as_host _ _ _ _ _ _ _ _ Ha)).
  - eapply laid_agree; [|destruct six; cbn; lia|exact Hlaid]. intros i Hi. cbn [Z.add]. unfold answers_at in Hi. apply Hagree. lia.
  - apply listed_ttl, (as_records _ _ _ _ _ _ _ _ Ha).
Qed.

(** *** The claim *)

(** The message the program reads: its copy buffer. *)
Definition message (s : kst) (p : skb) (h : dns_headers) (msg_len : Z) : bytes :=
  splice (k_dns_msg s) 0 (slice (sb_data p) (d_l4_off h + 8) (Z.to_nat msg_len)).

(** The packet was a trusted resolver's answer for a watched host, to a pod with
    a secret for it, and its records were handed out as the host's fake IP. *)
Definition answered (t : task) (s : kst) (p : skb) (s' : kst) (p' : skb) : Prop :=
  ∃ h udp six ls hv rrs,
    dns_ip p (dns_l3_off p) = Some h ∧ dns_udp p h = Some udp ∧ fst (dns_server_trusted (d_src h) s) = true ∧
    asked s (d_pod h) (message s p h (u16_at udp 4 - 8)) (u16_at udp 4 - 8) six ls hv rrs ∧
    handed_out t s p s' p' (d_l4_off h) (u16_at udp 4) (negb (u16_at udp 6 =? 0)) six hv
      (real_records (k_vip_config s) six (listed (addr_type six) (answers_at ls) rrs)).

(** tc_dns_rewrite passes the packet on, or looks at a trusted resolver's message. *)
Lemma rewrite_cases f t p s : bytes_ok (sb_data p) → bytes_ok (k_dns_msg s) → length (k_dns_msg s) = 512%nat →
  (∃ s', tc_dns_rewrite f t p s = ((TC_PASS, p), s') ∧ but_dns s' = but_dns s ∧ k_vip_upstream s' = k_vip_upstream s) ∨
  ∃ h udp, let n := u16_at udp 4 in let msg := message s p h (n - 8) in
    dns_ip p (dns_l3_off p) = Some h ∧ dns_udp p h = Some udp ∧ fst (dns_server_trusted (d_src h) s) = true ∧
    0 ≤ d_l4_off h < 80 ∧ 20 ≤ n ≤ 520 ∧ u16_at udp 6 = u16_at (sb_data p) (d_l4_off h + 6) ∧ bytes_ok msg ∧
    (∀ i, 0 ≤ i < n - 8 → msg.[i] = (sb_data p).[d_l4_off h + 8 + i]) ∧
    tc_dns_rewrite f t p s = dns_message f t p h udp msg (n - 8) (s <| k_dns_msg := msg |>).
Proof.
  intros Hb Hmb Hml. unfold tc_dns_rewrite. mrun.
  assert (Hpass : ∃ s', ((TC_PASS, p), s) = ((TC_PASS, p), s') ∧ but_dns s' = but_dns s ∧ k_vip_upstream s' = k_vip_upstream s) by (by exists s).
  destruct (mask4 _ =? 0); [by left|]. destruct (_ && _); [by left|].
  destruct (dns_ip p (dns_l3_off p)) as [h|] eqn:Eh; [|by left].
  pose proof (dns_ip_off p _ h Eh Hb (dns_l3_range p)) as Hl4.
  destruct (dns_udp p h) as [udp|] eqn:Eu; [|by left].
  assert (Hud : u16_at udp 6 = u16_at (sb_data p) (d_l4_off h + 6) ∧ d_l4_off h + 8 ≤ zlen (sb_data p)).
  { unfold dns_udp in Eu. destruct (bpf_skb_load_bytes p (d_l4_off h) 8) as [u|] eqn:El; [|done].
    destruct (negb _); [done|]. injection Eu as ->. apply load_inv in El as (_ & Hz & ->). split; [|lia].
    unfold u16_at. rewrite !byte_at_slice by lia. by rewrite <- !Z.add_assoc. }
  destruct Hud as [Hud Hz]. destruct (dns_server_trusted (d_src h) s) as [tr s'] eqn:Etr.
  assert (s' = s) as ->.
  { unfold dns_server_trusted in Etr. mrun. by destruct (negb _); injection Etr. }
  destruct tr; cbn [negb]; [|by left].
  destruct ((u16_at udp 4 <? 20) || (8 + MAX_DNS_PKT <? u16_at udp 4)) eqn:En; [by left|].
  unfold MAX_DNS_PKT in En. zbool. rewrite (u32_small (d_l4_off h + 8)) by lia.
  unfold bpf_skb_load_bytes. destruct (in_skb p (d_l4_off h + 8) (u16_at udp 4 - 8)) eqn:Ei; [|left; by eexists].
  unfold in_skb in Ei. zbool. right. exists h, udp. cbn zeta. rewrite Etr.
  set (n := u16_at udp 4) in *. assert (Lsl : zlen (slice (sb_data p) (d_l4_off h + 8) (Z.to_nat (n - 8))) = n - 8).
  { unfold zlen. rewrite length_slice by lia. lia. }
  split_and!; try done; try lia.
  - unfold message. apply splice_ok; [done|by apply slice_ok].
  - intros i Hi. unfold message. rewrite byte_at_splice by (unfold zlen in *; lia).
    destruct (Z.leb_spec 0 i), (Z.ltb_spec i (0 + zlen (slice (sb_data p) (d_l4_off h + 8) (Z.to_nat (n - 8))))); try lia.
    cbn [andb]. rewrite byte_at_slice by lia. f_equal. lia.
Qed.

Lemma asked_buffer s b pod msg len six ls hv rrs : asked (s <| k_dns_msg := b |>) pod msg len six ls hv rrs → asked s pod msg len six ls hv rrs.
Proof. intros []. by constructor. Qed.

Lemma rewrite_outcome f t p s :
  csum_updates f → upstreams_ok s → hosts_ok s → 0 < boot_ns t < 2 ^ 62 →
  bytes_ok (sb_data p) → bytes_ok (k_dns_msg s) → length (k_dns_msg s) = 512%nat →
  outcome t s p (tc_dns_rewrite f t p s) (answered t s p).
Proof.
  intros Hf Hu Hh Hnow Hb Hmb Hml.
  destruct (rewrite_cases f t p s Hb Hmb Hml) as [(s' & -> & ? & ?)|(h & udp & Eh & Eu & Etr & Hl4 & Hn & Hud & Hm & Hagree & ->)]; [by apply pass_outcome|].
  set (n := u16_at udp 4) in *. set (msg := message s p h (n - 8)) in *.
  eapply (outcome_base t s (s <| k_dns_msg := msg |>)); [|by apply (message_spec f Hf t _ p h udp n msg)|done|done].
  intros s2 p' (six & ls & hv & rrs & Ha & Ho). exists h, udp, six, ls, hv, rrs. split_and!; try done; [by eapply asked_buffer|].
  destruct Ho. by constructor.
Qed.

(** What a run of tc_dns_rewrite records, whatever becomes of the packet. *)
Lemma rewrite_records f t p s : bytes_ok (sb_data p) → bytes_ok (k_dns_msg s) → length (k_dns_msg s) = 512%nat →
  let s' := snd (tc_dns_rewrite f t p s) in k_vip_upstream s' = k_vip_upstream s ∨
  ∃ h udp six ls hv rrs, dns_ip p (dns_l3_off p) = Some h ∧ dns_udp p h = Some udp ∧ fst (dns_server_trusted (d_src h) s) = true ∧
    asked s (d_pod h) (message s p h (u16_at udp 4 - 8)) (u16_at udp 4 - 8) six ls hv rrs ∧
    laid (message s p h (u16_at udp 4 - 8)) 0 (u16_at udp 4 - 8) (addr_size six) (answers_at ls) (listed (addr_type six) (answers_at ls) rrs) ∧
    k_vip_upstream s' = <[fake_of six hv := record_all (boot_ns t) six (real_records (k_vip_config s) six (listed (addr_type six) (answers_at ls) rrs))
      (default vip_upstream_zero (k_vip_upstream s !! fake_of six hv))]> (k_vip_upstream s).
Proof.
  intros Hb Hmb Hml. destruct (rewrite_cases f t p s Hb Hmb Hml) as [(s' & -> & _ & ?)|(h & udp & Eh & Eu & Etr & Hl4 & Hn & _ & Hm & _ & ->)]; [by left|].
  destruct (message_cases f t (s <| k_dns_msg := message s p h (u16_at udp 4 - 8) |>) p h udp (u16_at udp 4) _ Hn Hm)
    as [(s' & -> & _ & E)|(six & ls & hv & rrs & Ha & Hlaid & ->)]; [by left|].
  unfold dns_apply. destruct (length _ =? 0)%nat; [by left|]. mrun. destruct (length (real_records _ _ _) =? 0)%nat; [by left|].
  unfold hash_update. destruct (_ || _); [|by left]. cbn [fst snd negb]. right. exists h, udp, six, ls, hv, rrs. split_and!; try done; [by eapply asked_buffer|].
  destruct (rewrite_all _ _ _ _ _ _ _ _); [|done]. unfold dbg_inc. by mrun.
Qed.

(** C13: tc_dns_rewrite passes a packet unchanged, drops it, or hands out a fake
    IP. It does the last only for a trusted resolver's answer to the A or AAAA
    question for a watched host, to a pod with a secret for the host; then every
    record of the question's type holds the host's fake IP of that family (or did
    already), nothing else of the datagram is changed but its checksum, which is
    as right as it was, and the real addresses are kept for the fake IP, one that
    a connect can use at least. No fake IP loses its last usable address. *)
Theorem tc_dns_rewrite_correct f t p s :
  csum_updates f → upstreams_ok s → hosts_ok s → 0 < boot_ns t < 2 ^ 62 →
  bytes_ok (sb_data p) → bytes_ok (k_dns_msg s) → length (k_dns_msg s) = 512%nat →
  outcome t s p (tc_dns_rewrite f t p s) (answered t s p).
Proof. exact (rewrite_outcome f t p s). Qed.

(** A kernel that updates the field of any packet. *)
Definition kernel_csum (p : skb) (off from to : Z) : option skb :=
  if in_skb p off 2 then
    let c0 := u16_at (sb_data p) off in
    let x := (c0 + value_sum from - value_sum to) mod 65535 in
    let c := if c0 =? 0 then 0 else if x =? 0 then 65535 else x in
    Some (p <| sb_data := splice (sb_data p) off (be16 c) |>)
  else None.

Lemma kernel_csum_updates : csum_updates kernel_csum.
Proof.
  intros p off from to p' Ho E. unfold kernel_csum in E. destruct (in_skb p off 2) eqn:Ei; [|done].
  unfold in_skb in Ei. zbool. split; [done|]. injection E as <-. eexists. split; [|split; [reflexivity|]].
  - pose proof (Z.mod_pos_bound (u16_at (sb_data p) off + value_sum from - value_sum to) 65535 ltac:(lia)).
    destruct (_ =? 0); [lia|]. destruct (_ =? 0); lia.
  - intros Hnz. destruct (Z.eqb_spec (u16_at (sb_data p) off) 0); [done|]. unfold sum_eq.
    destruct (Z.eqb_spec ((u16_at (sb_data p) off + value_sum from - value_sum to) mod 65535) 0) as [E|E].
    + split; [lia|]. by rewrite E.
    + split; [done|]. apply Z.mod_mod. lia.
Qed.

(** The answer of [sample_msg] in an IPv4 datagram, and a host [ab.c] with the
    fake IP 240.0.0.1 that any pod may have a secret for. *)
Definition sample_packet : skb :=
  {| sb_data := [0x45; 0; 0; 66; 0; 0; 0; 0; 64; 17; 0; 0; 10; 0; 0; 53; 10; 1; 2; 9] ++
       [0; 53; 0x9C; 0x40; 0; 46; 0x12; 0x34] ++ take 38 sample_msg;
     sb_linear := 66; sb_protocol := 0x0800; sb_sk := None; sb_cgroup_id := 3; sb_writable := true |}.
Definition sample_dns : kst := kst_init <| k_vip_config := sample_cfg |>
  <| k_vip_host_ip := {[pad_host [97; 98; 46; 99] := {| vh_ip4 := [240; 0; 0; 1]; vh_ip6 := zeros 16 |}]} |>
  <| k_vip_pod_host := {[(ipv4_to_mapped [10; 1; 2; 9], zeros 64) := 1]} |>.

Lemma sample_hosts_ok : hosts_ok sample_dns.
Proof.
  intros h hv H. change (k_vip_host_ip sample_dns) with
    ({[pad_host [97; 98; 46; 99] := {| vh_ip4 := [240; 0; 0; 1]; vh_ip6 := zeros 16 |}]} : gmap bytes vip_host_val) in H.
  apply lookup_singleton_Some in H as [_ <-]. split; [by_compute|]. split; [reflexivity|by_compute].
Qed.

Lemma tc_dns_rewrite_correct_witness :
  let out := tc_dns_rewrite kernel_csum (task_with 0 []) sample_packet sample_dns in
  fst (fst out) = TC_PASS ∧ window (sb_data (snd (fst out))) 62 4 = [240; 0; 0; 1] ∧
  outcome (task_with 0 []) sample_dns sample_packet out (answered (task_with 0 []) sample_dns sample_packet).
Proof.
  cbn zeta. split; [vm_compute; reflexivity|]. split; [vm_compute; reflexivity|].
  refine (tc_dns_rewrite_correct kernel_csum (task_with 0 []) sample_packet sample_dns kernel_csum_updates _ sample_hosts_ok _ _ _ _).
  - intros fk up H. exfalso. change (k_vip_upstream sample_dns) with (∅ : gmap addr16 (list vip_upstream_slot)) in H.
    by rewrite lookup_empty in H.
  - split; vm_compute; reflexivity.
  - by_compute.
  - by_compute.
  - vm_compute; reflexivity.
Defined.

End RewriteFacts.
