(* ===== verification/StateType.v ===== *)
(** * The type of the state

    [StateType]: the type of every map's entries and of every scratch buffer (the
    sizes of the C arrays, the ranges of the fields), and the capacities of the
    HASH maps, as one invariant [kst_ok]; a lemma per field an update changes. *)

From S2P Require Import Prelude GF128 Host Ghash VipAddr State Hooks HExtract XorPath Packet Vip VipHooks DnsRewrite.
Import Host GF128Facts VipAddr Types Kernel Hooks HExtract XorPath Vip VipFacts ConnectFacts RewriteFacts.

Module StateType.

(** [n] bytes. *)
Definition buf (n : nat) (l : bytes) : Prop := length l = n ∧ bytes_ok l.

Record secret_ok (v : secret_value) : Prop := {
  so_len : 0 ≤ sv_len v;
  so_secret : buf 128 (real_secret v);
  so_host : host_buf (allowed_host v);
  so_ip : addr (allowed_ip v)
}.

(** A patch: at most the 128 bytes of its delta. *)
Definition patch_ok (p : xor_patch) : Prop :=
  0 ≤ secret_offset p < 2 ^ 32 ∧ 0 ≤ secret_len p ≤ 128 ∧ buf 128 (xor_delta p).
Definition patches_ok (count : Z) (ps : list xor_patch) : Prop :=
  0 ≤ count ≤ 4 ∧ length ps = 4%nat ∧ Forall patch_ok ps.

Definition pending_ok (x : xor_pending_val) : Prop := patches_ok (xp_patch_count x) (xp_patches x) ∧ block (xp_ghash_h x).
Definition tc_ok (v : tc_pending_val) : Prop := patches_ok (tp_patch_count v) (tp_patches v).
Definition conn_ok (c : tls_conn_state) : Prop := block (ghash_h c).
Definition evp_ok (c : evp_h_val) : Prop := block (evp_ghash_h c).
Definition tag_ok (v : tc_tag_val) : Prop := block (tv_tag_delta v).
Definition sni_ok (v : sni_state_val) : Prop := host_buf (st_sni v).
Definition ip_host_ok (v : vip_ip_val) : Prop := host_buf (vi_host v).
Definition sock_ok (v : vip_sock_val) : Prop := addr (fake_ip v) ∧ addr (real_ip v).

(** The prescan's scratch area. *)
Record scratch_ok (d : scratch_buf) : Prop := {
  sc_data : buf 256 (sd_data d);
  sc_count : 0 ≤ xor_match_count d ≤ 4;
  sc_matches : length (xor_matches d) = 4%nat;
  sc_pos : Forall (λ m, 0 ≤ m_pos m < 2 ^ 32) (xor_matches d)
}.

(** The work area; the operands of the multiplication are set up before each one. *)
Record work_ok (w : ghash_work) : Prop := {
  wk_pending : pending_ok (staged_pending w);
  wk_tc : tc_ok (staged_tc w);
  wk_ct : buf 128 (ct_buf w);
  wk_old_tag : block (old_tag w);
  wk_new_tag : block (new_tag w);
  wk_tag_delta : block (tag_delta w);
  wk_block_delta : block (block_delta w);
  wk_h_pow : block (h_pow w);
  wk_delta : buf 128 (ghash_xor_delta w)
}.

Abbreviation all P := (map_Forall (λ _ v, P v)).
Definition fits {K V} `{Countable K} (max : Z) (m : gmap K V) : Prop := Z.of_nat (size m) ≤ max.

Record kst_ok (s : kst) : Prop := {
  ok_secrets : all secret_ok (k_secret_map s);
  ok_scratch : scratch_ok (k_scratch s);
  ok_tgids : fits tracked_tgids_max_entries (k_tracked_tgids s);
  ok_cgroups : fits tracked_cgroups_max_entries (k_tracked_cgroups s);
  ok_conn_ip : all (λ v, addr (civ_ip v)) (k_conn_ip_map s);
  ok_connect : all (λ v, addr (cpv_ip v)) (k_connect_pending s);
  ok_connects : fits connect_pending_max_entries (k_connect_pending s);
  ok_evp_inits : fits evp_init_scratch_max_entries (k_evp_init_scratch s);
  ok_evp : all evp_ok (k_evp_h_cache s);
  ok_hosts : hosts_ok s;
  ok_ip_host : all ip_host_ok (k_vip_ip_host s);
  ok_up : upstreams_ok s;
  ok_ups : fits vip_upstream_max_entries (k_vip_upstream s);
  ok_sock : all sock_ok (k_vip_sock s);
  ok_sock_host : all host_buf (k_vip_sock_host s);
  ok_sock_dst : all (λ v, addr (vd_ip v)) (k_vip_sock_dst s);
  ok_dns_msg : buf 512 (k_dns_msg s);
  ok_conns : all conn_ok (k_tls_conn_state s);
  ok_pending : all pending_ok (k_xor_pending s);
  ok_pendings : fits xor_pending_max_entries (k_xor_pending s);
  ok_work : work_ok (k_ghash_scratch s);
  ok_powers : length (k_h_power_entries s) = 16%nat ∧ Forall block (k_h_power_entries s);
  ok_tc : all tc_ok (k_tc_pending s);
  ok_tags : all tag_ok (k_tc_tag_pending s);
  ok_sni : all sni_ok (k_sni_state s);
  ok_sni_buf : buf 2048 (k_sni_buf s)
}.

(** *** An update of one field *)

Ltac keep_fields := intros []; constructor; assumption.

Section Setters.
Context (s : kst) (Hs : kst_ok s).
Lemma set_scratch v : scratch_ok v → kst_ok (s <| k_scratch := v |>).
Proof using Hs. revert Hs; keep_fields. Qed.
Lemma set_work v : work_ok v → kst_ok (s <| k_ghash_scratch := v |>).
Proof using Hs. revert Hs; keep_fields. Qed.
Lemma set_events v : kst_ok (s <| k_binding_events := v |>).
Proof using Hs. revert Hs; keep_fields. Qed.
Lemma set_proc_events v : kst_ok (s <| k_proc_events := v |>).
Proof using Hs. revert Hs; keep_fields. Qed.
Lemma set_counters v : kst_ok (s <| k_debug_counters := v |>).
Proof using Hs. revert Hs; keep_fields. Qed.
Lemma set_tgids v : fits tracked_tgids_max_entries v → kst_ok (s <| k_tracked_tgids := v |>).
Proof using Hs. revert Hs; keep_fields. Qed.
Lemma set_cgroups v : fits tracked_cgroups_max_entries v → kst_ok (s <| k_tracked_cgroups := v |>).
Proof using Hs. revert Hs; keep_fields. Qed.
Lemma set_conn_ip v : all (λ v, addr (civ_ip v)) v → kst_ok (s <| k_conn_ip_map := v |>).
Proof using Hs. revert Hs; keep_fields. Qed.
Lemma set_connect v : all (λ v, addr (cpv_ip v)) v → fits connect_pending_max_entries v → kst_ok (s <| k_connect_pending := v |>).
Proof using Hs. revert Hs; keep_fields. Qed.
Lemma set_evp_init v : fits evp_init_scratch_max_entries v → kst_ok (s <| k_evp_init_scratch := v |>).
Proof using Hs. revert Hs; keep_fields. Qed.
Lemma set_evp v : all evp_ok v → kst_ok (s <| k_evp_h_cache := v |>).
Proof using Hs. revert Hs; keep_fields. Qed.
Lemma set_sock v : all sock_ok v → kst_ok (s <| k_vip_sock := v |>).
Proof using Hs. revert Hs; keep_fields. Qed.
Lemma set_sock_host v : all host_buf v → kst_ok (s <| k_vip_sock_host := v |>).
Proof using Hs. revert Hs; keep_fields. Qed.
Lemma set_sock_dst v : all (λ v, addr (vd_ip v)) v → kst_ok (s <| k_vip_sock_dst := v |>).
Proof using Hs. revert Hs; keep_fields. Qed.
Lemma set_conns v : all conn_ok v → kst_ok (s <| k_tls_conn_state := v |>).
Proof using Hs. revert Hs; keep_fields. Qed.
Lemma set_pending v : all pending_ok v → fits xor_pending_max_entries v → kst_ok (s <| k_xor_pending := v |>).
Proof using Hs. revert Hs; keep_fields. Qed.
Lemma set_powers v : length v = 16%nat ∧ Forall block v → kst_ok (s <| k_h_power_entries := v |>).
Proof using Hs. revert Hs; keep_fields. Qed.
Lemma set_tc v : all tc_ok v → kst_ok (s <| k_tc_pending := v |>).
Proof using Hs. revert Hs; keep_fields. Qed.
Lemma set_tags v : all tag_ok v → kst_ok (s <| k_tc_tag_pending := v |>).
Proof using Hs. revert Hs; keep_fields. Qed.
Lemma set_sni_state v : all sni_ok v → kst_ok (s <| k_sni_state := v |>).
Proof using Hs. revert Hs; keep_fields. Qed.
Lemma set_sni_buf v : buf 2048 v → kst_ok (s <| k_sni_buf := v |>).
Proof using Hs. revert Hs; keep_fields. Qed.
End Setters.

(** *** Maps *)

Lemma fits_delete {K V} `{Countable K} max (k : K) (m : gmap K V) : fits max m → fits max (delete k m).
Proof.
  unfold fits. intros. rewrite map_size_delete. destruct (m !! k); cbn; lia.
Qed.

Lemma fits_update {K V} `{Countable K} max (k : K) (v : V) (m : gmap K V) : fits max m → fits max (snd (hash_update max k v m)).
Proof.
  unfold fits, hash_update. intros Hm. destruct (bool_decide_reflect (is_Some (m !! k))) as [Hk|Hk]; cbn [orb snd].
  - by rewrite map_size_insert_Some.
  - destruct (Z.ltb_spec (Z.of_nat (size m)) max); [|done]. cbn [snd]. rewrite map_size_insert_None by (by apply eq_None_not_Some). lia.
Qed.

Lemma all_update {K V} `{Countable K} (P : V → Prop) max (k : K) (v : V) (m : gmap K V) :
  map_Forall (λ _ v, P v) m → P v → map_Forall (λ _ v, P v) (snd (hash_update max k v m)).
Proof. unfold hash_update. intros. destruct (_ || _); [|done]. by apply map_Forall_insert_2. Qed.

Lemma all_delete {K V} `{Countable K} (P : V → Prop) (k : K) (m : gmap K V) :
  map_Forall (λ _ v, P v) m → map_Forall (λ _ v, P v) (delete k m).
Proof. apply map_Forall_delete. Qed.

End StateType.
