(* ===== verification/Keeps.v ===== *)
(** * A logic to show that programs keep an invariant

    [Keeps]: [keeps I R m], the program [m] keeps the invariant [I] of the state
    and returns what [R] holds of, with a rule per construct of the programs. *)

From S2P Require Import Prelude GF128 Host Ghash VipAddr State Hooks Packet Vip VipHooks DnsRewrite.
Import Host Types Kernel.

Module Keeps.

Definition keeps {A} (I : kst → Prop) (R : A → Prop) (m : M A) : Prop := ∀ s, I s → I (snd (m s)) ∧ R (fst (m s)).

Section Rules.
Context (I : kst → Prop).

Lemma keeps_ret {A} (R : A → Prop) (a : A) : R a → keeps I R (mret a).
Proof using. by intros H s Hs. Qed.

Lemma keeps_gets {A} (R : A → Prop) (f : kst → A) : (∀ s, I s → R (f s)) → keeps I R (gets f).
Proof using. intros H s Hs. split; [done|by apply H]. Qed.

Lemma keeps_modify (R : unit → Prop) (f : kst → kst) : (∀ s, I s → I (f s)) → R () → keeps I R (modify f).
Proof using. intros H Hr s Hs. split; [by apply H|done]. Qed.

Lemma keeps_bind {A B} (R : A → Prop) (S : B → Prop) (m : M A) (f : A → M B) :
  keeps I R m → (∀ a, R a → keeps I S (f a)) → keeps I S (m ≫= f).
Proof using.
  intros Hm Hf s Hs. unfold mbind, m_bind. destruct (Hm s Hs) as [H1 H2]. destruct (m s) as [a s1]. by apply Hf.
Qed.

Lemma keeps_when (R : unit → Prop) (c : bool) (m : M unit) : (c = true → keeps I R m) → R () → keeps I R (when c m).
Proof using. intros H Hr. unfold when. destruct c; [by apply H|by apply keeps_ret]. Qed.

Lemma keeps_weaken {A} (R R' : A → Prop) (m : M A) : keeps I R m → (∀ a, R a → R' a) → keeps I R' m.
Proof using. intros Hm HR s Hs. destruct (Hm s Hs). split; [done|by apply HR]. Qed.

Lemma keeps_loop_from (f : Z → M bool) n : (∀ i, keeps I (λ _, True) (f i)) → ∀ i s, I s → I (bpf_loop_from f n i s).
Proof using.
  intros Hf. induction n as [|n IH]; intros i s Hs; [done|]. cbn [bpf_loop_from]. destruct (Hf i s Hs) as [H _].
  destruct (f i s) as [[] s1]; [done|]. by apply IH.
Qed.

Lemma keeps_loop (R : unit → Prop) (f : Z → M bool) n : (∀ i, keeps I (λ _, True) (f i)) → R () → keeps I R (λ s, ((), bpf_loop n f s)).
Proof using.
  intros Hf Hr s Hs. split; [|done]. unfold bpf_loop. cbn [snd]. destruct (_ <? n); [done|]. by apply keeps_loop_from.
Qed.

End Rules.

Arguments keeps_ret {I A R} a.
Arguments keeps_bind {I A B} R {S m f}.

Ltac keeps_leaf tac :=
  lazymatch goal with
  | |- keeps _ _ (when _ _) => fail
  | |- keeps _ _ (mbind _ _) => fail
  | |- keeps _ _ (match _ with _ => _ end) => fail
  | |- _ => tac
  end.

(** [keeps_walk_with tac]: through a program, along its binds and cases; [tac]
    is used at the reads, updates and calls; where it does not prove what a read
    or call returns, nothing is known of it. *)
Ltac keeps_walk_with tac :=
  repeat (cbv beta zeta; lazymatch goal with
    | |- keeps _ _ (mret _) => apply keeps_ret; try done
    | |- keeps _ _ pass => apply keeps_ret; try done
    | |- keeps _ _ (when _ _) => apply keeps_when; [intros ?|try done]
    | |- keeps _ _ (mbind _ _) =>
        first [eapply keeps_bind; [solve [keeps_leaf tac]|intros ? ?] | apply (keeps_bind (λ _, True)); [|intros ? _]]
    | |- keeps _ _ (match ?x with _ => _ end) => destruct x eqn:?
    | |- keeps _ _ _ => tac
    end).

End Keeps.
