(* ===== verification/Frames.v ===== *)
(** * What the programs leave alone

    [Frames]: two views of the state, and the programs that keep them: [core], the
    part that few programs write (the control plane's tables, the real addresses of
    the fake IPs, and the writes on their way out), and [inner], which has the
    connections' keys and the deferred tags too. *)

From S2P Require Import Prelude Host GF128 TlsRecord Sni Dns VipAddr State Hooks HExtract XorPath Packet TcGhash TcEgress TcpSend Vip.
From S2P Require Import VipHooks DnsRewrite Keeps.
Import Host Types Kernel Keeps.

Module Frames.
Import Hooks HExtract XorPath TcGhash TcEgress TcpSend Vip Skb.

(** [m] keeps what [B] sees of the state. *)
Definition fixes {V A} (B : kst → V) (m : M A) : Prop := ∀ c, keeps (λ s, B s = c) (λ _, True) m.

Lemma fixes_at {V A} (B : kst → V) (m : M A) s : fixes B m → B (snd (m s)) = B s.
Proof. intros H. by destruct (H (B s) s eq_refl). Qed.

(** What is seen through a view that is kept is kept. *)
Lemma fixes_through {V A} (B : kst → kst) (f : kst → V) (m : M A) : (∀ s, f s = f (B s)) → fixes B m → fixes f m.
Proof. intros Hf Hm v s <-. split; [|done]. rewrite (Hf s), (Hf (snd (m s))). by rewrite fixes_at. Qed.

Lemma fixes_gets {V A} (B : kst → V) (f : kst → A) : fixes B (gets f).
Proof. intros c. by apply keeps_gets. Qed.
Lemma fixes_modify {V} (B : kst → V) (f : kst → kst) : (∀ s, B (f s) = B s) → fixes B (modify f).
Proof. intros Hf c. apply keeps_modify; [|done]. intros s <-. apply Hf. Qed.
Lemma fixes_loop {V} (B : kst → V) n (f : Z → M bool) : (∀ i, fixes B (f i)) → fixes B (λ s, ((), bpf_loop n f s)).
Proof. intros Hf c. apply keeps_loop; [|done]. intros i. apply Hf. Qed.

(** The state without what most programs write. *)
Definition inner (s : kst) : kst :=
  s <| k_scratch := k_scratch kst_init |> <| k_binding_events := [] |> <| k_debug_counters := λ _, 0 |>
    <| k_tracked_tgids := ∅ |> <| k_conn_ip_map := ∅ |> <| k_connect_pending := ∅ |> <| k_evp_init_scratch := ∅ |>
    <| k_evp_h_cache := ∅ |> <| k_vip_sock := ∅ |> <| k_vip_sock_host := ∅ |> <| k_vip_sock_dst := ∅ |> <| k_dns_msg := [] |>
    <| k_tracked_cgroups := ∅ |> <| k_proc_events := [] |>
    <| k_ghash_scratch := (k_ghash_scratch kst_init) <| ghash_conn_key := ghash_conn_key (k_ghash_scratch s) |> |>
    <| k_h_power_entries := [] |> <| k_sni_state := ∅ |> <| k_sni_buf := [] |>.
Definition core (s : kst) : kst :=
  (inner s) <| k_tls_conn_state := ∅ |> <| k_ghash_scratch := k_ghash_scratch kst_init |> <| k_tc_tag_pending := ∅ |>.

Abbreviation still := (fixes inner).
Abbreviation same := (fixes core).

Lemma still_same {A} (m : M A) : still m → same m.
Proof. by apply fixes_through. Qed.

Create HintDb frames discriminated.
#[export] Hint Constants Opaque : frames.
#[export] Hint Resolve still_same : frames.

(** Through a program; [tac] at the calls. *)
Ltac fixes_mod := apply fixes_modify; intros ?; first [reflexivity | repeat case_match; reflexivity].
Ltac fixes_walk_with tac :=
  try intros ?c; cbv zeta; keeps_walk_with ltac:(idtac; lazymatch goal with
    | |- keeps _ _ (gets _) => apply fixes_gets
    | |- keeps _ _ (dbg_inc _) => fixes_mod
    | |- keeps _ _ (modify _) => fixes_mod
    | |- keeps _ _ (on_work _) => fixes_mod
    | |- keeps _ _ (on_staged _) => fixes_mod
    | |- _ => tac end).
Ltac fixes_walk := fixes_walk_with idtac.

(** *** The tracepoints and the key extraction *)

Lemma still_binding t key : still (secret_binding_allows t key).
Proof. unfold secret_binding_allows, report_secret_event. fixes_walk. Qed.
#[export] Hint Resolve still_binding : frames.
Lemma still_enter_connect t fd a : still (tp_enter_connect t fd a).
Proof. unfold tp_enter_connect. fixes_walk. Qed.
#[export] Hint Resolve still_enter_connect : frames.
Lemma still_exit_connect t r : still (tp_exit_connect t r).
Proof. unfold tp_exit_connect. fixes_walk. Qed.
#[export] Hint Resolve still_exit_connect : frames.
Lemma still_close t fd : still (tp_enter_close t fd).
Proof. unfold tp_enter_close. fixes_walk. Qed.
#[export] Hint Resolve still_close : frames.
Lemma still_exec t pid : still (tp_sched_process_exec t pid).
Proof. unfold tp_sched_process_exec. fixes_walk. Qed.
#[export] Hint Resolve still_exec : frames.
Lemma still_exit pid : still (tp_sched_process_exit pid).
Proof. unfold tp_sched_process_exit. fixes_walk. Qed.
#[export] Hint Resolve still_exit : frames.
Lemma still_ossl t a o : still (ossl_read_gcm_h t a o).
Proof. unfold ossl_read_gcm_h. fixes_walk. Qed.
#[export] Hint Resolve still_ossl : frames.
Lemma still_bssl t p a b c : still (bssl_recover_h t p a b c).
Proof. unfold bssl_recover_h. fixes_walk. Qed.
#[export] Hint Resolve still_bssl : frames.
Lemma still_read_fd t p : still (ssl_read_fd t p).
Proof. unfold ssl_read_fd, resolve_wbio_offset. fixes_walk. Qed.
#[export] Hint Resolve still_read_fd : frames.
Lemma still_evp_init t p : still (bpf_uprobe_evp_cipher_init t p).
Proof. unfold bpf_uprobe_evp_cipher_init. fixes_walk. Qed.
#[export] Hint Resolve still_evp_init : frames.
Lemma still_evp_ret t : still (bpf_uretprobe_evp_cipher_init t).
Proof. unfold bpf_uretprobe_evp_cipher_init. fixes_walk_with ltac:(apply still_ossl). Qed.
#[export] Hint Resolve still_evp_ret : frames.
Lemma still_enc_ctx t e o : still (h_of_enc_ctx t e o).
Proof. unfold h_of_enc_ctx. fixes_walk_with ltac:(apply still_ossl). Qed.
#[export] Hint Resolve still_enc_ctx : frames.
Lemma same_extract t : same (bpf_h_extract t).
Proof. unfold bpf_h_extract. fixes_walk_with ltac:(apply still_same, still_enc_ctx). Qed.
#[export] Hint Resolve same_extract : frames.

(** *** The scan *)

Lemma still_scan n : ∀ i lim off, still (prescan_scan n i lim off).
Proof. induction n as [|n IH]; intros i lim off; cbn [prescan_scan]; [fixes_walk|]. fixes_walk_with ltac:(apply IH). Qed.
Lemma still_chunk t udp total i : still (prescan_chunk t udp total i).
Proof. unfold prescan_chunk. fixes_walk_with ltac:(apply still_scan). Qed.
Lemma still_prescan t udp total : still (prescan t udp total).
Proof. apply fixes_loop. intros i. apply still_chunk. Qed.
#[export] Hint Resolve still_prescan : frames.
Lemma still_write_scratch t a n total p ch b : still (write_scratch t a n total p ch b).
Proof. unfold write_scratch. fixes_walk. Qed.
#[export] Hint Resolve still_write_scratch : frames.
Lemma still_init_staged t d : still (xor_init_staged t d).
Proof. unfold xor_init_staged. fixes_walk. Qed.
#[export] Hint Resolve still_init_staged : frames.
Lemma still_match t d m : still (xor_match_patch t d m).
Proof. unfold xor_match_patch, xor_stage_patch. fixes_walk_with ltac:(apply still_binding). Qed.
#[export] Hint Resolve still_match : frames.

(** *** tcp_sendmsg *)

Lemma still_set_sni k st : still (set_sni k st).
Proof. unfold set_sni. fixes_walk. Qed.
#[export] Hint Resolve still_set_sni : frames.
Lemma still_sni t sk msg : still (bpf_kprobe_tcp_sendmsg_sni t sk msg).
Proof. unfold bpf_kprobe_tcp_sendmsg_sni, sni_handshake. fixes_walk_with ltac:(apply still_set_sni). Qed.
#[export] Hint Resolve still_sni : frames.
Lemma still_set_state pr st sk : still (tp_inet_sock_set_state pr st sk).
Proof. unfold tp_inet_sock_set_state. fixes_walk. Qed.
#[export] Hint Resolve still_set_state : frames.

Lemma still_check_key t sk audit membio dst key : still (socket_check_key t sk audit membio dst key).
Proof. unfold socket_check_key, report_secret_event. fixes_walk. Qed.
Lemma still_filter fuel t sk audit membio dst pc : ∀ p kept, still (filter_patches fuel t sk audit membio dst pc p kept).
Proof.
  induction fuel as [|fuel IH]; intros p kept; cbn [filter_patches]; [fixes_walk|].
  fixes_walk_with ltac:(idtac; lazymatch goal with
    | |- keeps _ _ (socket_check_key _ _ _ _ _ _) => apply still_check_key
    | |- _ => apply IH end).
Qed.
Lemma still_socket_filter t sk membio : still (socket_filter_patches t sk membio).
Proof. unfold socket_filter_patches. fixes_walk_with ltac:(apply still_filter). Qed.
#[export] Hint Resolve still_socket_filter : frames.
Lemma still_recover t x : still (recover_h t x).
Proof.
  unfold recover_h, go_recover_h, walk_recover_h, bssl_conn, ossl_conn, h_fail.
  fixes_walk_with ltac:(idtac; lazymatch goal with
    | |- keeps _ _ (bssl_recover_h _ _ _ _ _) => apply still_bssl
    | |- keeps _ _ (ossl_read_gcm_h _ _ _) => apply still_ossl end).
Qed.
#[export] Hint Resolve still_recover : frames.
Lemma same_store_conn k c : same (store_conn k c).
Proof. unfold store_conn. fixes_walk. Qed.
#[export] Hint Resolve same_store_conn : frames.

(** *** tc egress *)

Lemma still_mul a v : still (mul_in_work a v).
Proof.
  unfold mul_in_work. fixes_walk_with idtac. apply fixes_loop. intros i. unfold gf128_mul_iter. fixes_walk.
Qed.
Lemma still_copy i : still (copy_h_power_step i).
Proof. unfold copy_h_power_step. fixes_walk_with ltac:(apply still_mul). Qed.
Lemma still_power i : still (h_power_step i).
Proof. unfold h_power_step. fixes_walk_with ltac:(apply still_mul). Qed.
Lemma still_block i : still (ghash_block_iter i).
Proof.
  unfold ghash_block_iter. fixes_walk_with ltac:(idtac; lazymatch goal with
    | |- keeps _ _ (run_loop _ _) => apply fixes_loop, still_power
    | |- _ => apply still_mul end).
Qed.
Lemma still_patch i : still (ghash_patch_iter i).
Proof. unfold ghash_patch_iter. fixes_walk_with ltac:(apply fixes_loop, still_block). Qed.
Lemma still_compute : still ghash_compute.
Proof.
  unfold ghash_compute. fixes_walk_with ltac:(idtac; lazymatch goal with
    | |- keeps _ _ (run_loop _ copy_h_power_step) => apply fixes_loop, still_copy
    | |- keeps _ _ (run_loop _ _) => apply fixes_loop, still_patch end).
Qed.
Lemma same_ghash_update p : same (tc_ghash_update p).
Proof. unfold tc_ghash_update. fixes_walk_with ltac:(apply still_same, still_compute). Qed.
#[export] Hint Resolve same_ghash_update : frames.
Lemma same_deferred p h v : same (apply_deferred_tag p h v).
Proof. unfold apply_deferred_tag. fixes_walk. Qed.
#[export] Hint Resolve same_deferred : frames.
Lemma same_stage_record v h a b n : same (stage_record v h a b n).
Proof. unfold stage_record. fixes_walk. Qed.
#[export] Hint Resolve same_stage_record : frames.
Lemma still_apply_patches fuel : ∀ i pc len nonce off n p, still (apply_patches fuel i pc len nonce off n p).
Proof.
  induction fuel as [|fuel IH]; intros i pc len nonce off n p; cbn [apply_patches]; [fixes_walk|].
  unfold apply_patch, drop_staged. fixes_walk_with ltac:(apply IH).
Qed.
#[export] Hint Resolve still_apply_patches : frames.

(** *** The hooks of the virtual IPs *)

Lemma still_hook t ctx dst set : still (connect_hook t ctx dst set).
Proof. unfold connect_hook, vip_redirect, vip_forget_host, vip_record_dst, store_sock. fixes_walk. Qed.
Lemma still_connect4 t ctx : still (vip_connect4 t ctx).
Proof. apply still_hook. Qed.
Lemma still_connect6 t ctx : still (vip_connect6 t ctx).
Proof. apply still_hook. Qed.
#[export] Hint Resolve still_connect4 still_connect6 : frames.
Lemma still_peer ctx a : still (vip_peer_fake ctx a).
Proof. unfold vip_peer_fake. fixes_walk. Qed.
#[export] Hint Resolve still_peer : frames.
Lemma still_peer4 ctx : still (vip_getpeername4 ctx).
Proof. unfold vip_getpeername4. fixes_walk_with ltac:(apply still_peer). Qed.
#[export] Hint Resolve still_peer4 : frames.
Lemma still_peer6 ctx : still (vip_getpeername6 ctx).
Proof. unfold vip_getpeername6. fixes_walk_with ltac:(apply still_peer). Qed.
#[export] Hint Resolve still_peer6 : frames.

End Frames.
