(* ===== verification/Inv.v ===== *)
(** * Every program keeps the type of the state

    [Reads]: what the programs read from user memory is bytes.
    [Inv]: for each program of the development, [keeps kst_ok]. *)

From S2P Require Import Prelude GF128 Host Ghash Aes TlsRecord Sni Dns VipAddr State Hooks HExtract XorPath Packet TcGhash TcEgress.
From S2P Require Import TcFacts TcpSend SendFacts Vip VipHooks DnsRewrite StateType Keeps.
Import Host GF128 GhashCode GF128Facts Types Kernel Keeps StateType SniTrack.

Module Reads.
Import HExtract.

Lemma buf_probe t a n : mem_ok t → buf n (probe_read_z t a n).
Proof.
  intros Hm. unfold probe_read_z. destruct (probe_read t a n) as [l|] eqn:E; cbn.
  - destruct (probe_read_ok t a n l Hm E). by split.
  - split; [by unfold zeros; rewrite length_replicate|apply bytes_ok_zeros].
Qed.

Lemma block_buf l : buf 16 l → block l.
Proof. done. Qed.

Lemma le_range l n : buf n l → 0 ≤ le_val l < 256 ^ Z.of_nat n.
Proof.
  intros [L B]. unfold le_val. pose proof (be_val_range (rev l)) as H.
  unfold zlen in H. rewrite length_rev, L in H. apply H. by apply List.Forall_rev.
Qed.

Lemma buf_slice n l off m : buf n l → (off + m <= n)%nat → buf m (slice l (Z.of_nat off) m).
Proof. intros [L B] H. split; [apply length_slice; unfold zlen; lia|by apply slice_ok]. Qed.

Lemma probe_word_range t a v : mem_ok t → probe_word t a 8 = Some v → 0 ≤ v < 2 ^ 64.
Proof.
  unfold probe_word. intros Hm E. destruct (probe_read t a 8) as [l|] eqn:El; [|done]. injection E as <-.
  destruct (probe_read_ok t a 8 l Hm El). apply (le_range l 8). by split.
Qed.

Lemma halve_block lo hi : 0 ≤ lo < 2 ^ 64 → 0 ≤ hi < 2 ^ 64 → block (gf128_halve_to_h lo hi).
Proof. intros. by apply halve_pair. Qed.

Lemma bswap_block h : block h → block (bswap_halves h).
Proof.
  intros Hh. unfold bswap_halves.
  assert (H1 : buf 8 (slice h 0 8)) by (apply (buf_slice 16 h 0 8); [done|lia]).
  assert (H2 : buf 8 (slice h 8 8)) by (apply (buf_slice 16 h 8 8); [done|lia]).
  destruct H1 as [L1 B1], H2 as [L2 B2]. split; [by rewrite length_app, !length_rev, L1, L2|].
  apply bytes_ok_app. split; by apply List.Forall_rev.
Qed.

Lemma probe_block t a h : mem_ok t → probe_read t a 16 = Some h → block h.
Proof. intros Hm E. apply probe_read_ok in E as [B L]; [by split|done]. Qed.

Lemma halve_slices h : block h → block (gf128_halve_to_h (le_val (slice h 0 8)) (le_val (slice h 8 8))).
Proof.
  intros Hh. apply halve_block; apply (le_range _ 8); [apply (buf_slice 16 h 0 8)|apply (buf_slice 16 h 8 8)]; done || lia.
Qed.

End Reads.

Module Inv.
Import Aes Hooks HExtract XorPath TcGhash TcEgress TcpSend Vip VipFacts ConnectFacts RewriteFacts Skb SkbFacts Reads.

(** *** Reads and updates of the state *)

Lemma read_any {A} (f : kst → A) : keeps kst_ok (λ _, True) (gets f).
Proof. by apply keeps_gets. Qed.
Lemma read_scratch : keeps kst_ok scratch_ok (gets k_scratch).
Proof. apply keeps_gets. exact ok_scratch. Qed.
Lemma read_work : keeps kst_ok work_ok (gets k_ghash_scratch).
Proof. apply keeps_gets. exact ok_work. Qed.
Lemma read_lookup {K V} `{Countable K} (P : V → Prop) (f : kst → gmap K V) k : (∀ s, kst_ok s → map_Forall (λ _ v, P v) (f s)) →
  keeps kst_ok (λ o, ∀ v, o = Some v → P v) (gets (λ s, f s !! k)).
Proof. intros Hf. apply keeps_gets. intros s Hs v. by apply Hf. Qed.
Lemma read_map {K V} `{Countable K} (P : V → Prop) (f : kst → gmap K V) : (∀ s, kst_ok s → map_Forall (λ _ v, P v) (f s)) →
  keeps kst_ok (λ m, ∀ k v, m !! k = Some v → P v) (gets f).
Proof. intros Hf. apply keeps_gets. intros s Hs k v. by apply Hf. Qed.

Lemma keeps_dbg i : keeps kst_ok (λ _, True) (dbg_inc i).
Proof. apply keeps_modify; [|done]. intros s Hs. by apply set_counters. Qed.

(** Calls and updates without a result to speak of. *)
Ltac kleaf :=
  lazymatch goal with
  | |- keeps _ _ (dbg_inc _) => apply keeps_dbg
  | |- keeps _ _ (gets k_scratch) => apply read_scratch
  | |- keeps _ _ (gets k_ghash_scratch) => apply read_work
  | |- keeps _ _ (gets _) => apply read_any
  end.
Ltac kwalk := keeps_walk_with ltac:(idtac; first [kleaf | fail 1]).

(** *** Bindings, connections, processes *)

Lemma keeps_report t key audit reason st mb sni : keeps kst_ok (λ _, True) (report_secret_event t key audit reason st mb sni).
Proof.
  unfold report_secret_event. destruct (ringbuf_free t); [|by apply keeps_ret].
  apply keeps_modify; [|done]. intros s Hs. by apply set_events.
Qed.

Lemma keeps_binding t key : keeps kst_ok (λ _, True) (secret_binding_allows t key).
Proof. unfold secret_binding_allows. keeps_walk_with ltac:(first [kleaf | apply keeps_report]). Qed.

Ltac upd := lazymatch goal with |- keeps _ _ (modify _) => apply (keeps_modify _ (λ _, True)); [intros s Hs|done] end.

Lemma keeps_enter_connect t fd a : mem_ok t → keeps kst_ok (λ _, True) (tp_enter_connect t fd a).
Proof.
  intros Hm. unfold tp_enter_connect. keeps_walk_with ltac:(first [kleaf | upd;
    apply set_connect; [done|apply all_update; [apply ok_connect, Hs|]|apply fits_update, ok_connects, Hs]; cbn [cpv_ip]]).
  - apply HooksFacts.mapped_addr. by apply buf_probe.
  - by apply (buf_probe t _ 16).
Qed.

Lemma keeps_exit_connect t ret : keeps kst_ok (λ _, True) (tp_exit_connect t ret).
Proof.
  unfold tp_exit_connect. eapply keeps_bind; [apply (read_lookup (λ v, addr (cpv_ip v)) k_connect_pending); exact ok_connect|].
  intros pending Hp. keeps_walk_with ltac:(first [kleaf | idtac]).
  - upd. apply set_connect; [done|apply all_delete, ok_connect, Hs|apply fits_delete, ok_connects, Hs].
  - upd. apply set_conn_ip; [done|]. apply map_Forall_insert_2; [by apply Hp|apply ok_conn_ip, Hs].
Qed.

Lemma keeps_close t fd : keeps kst_ok (λ _, True) (tp_enter_close t fd).
Proof. unfold tp_enter_close. upd. apply set_conn_ip; [done|]. apply all_delete, ok_conn_ip, Hs. Qed.

Lemma keeps_exec t pid : keeps kst_ok (λ _, True) (tp_sched_process_exec t pid).
Proof.
  unfold tp_sched_process_exec. keeps_walk_with ltac:(first [kleaf | upd]).
  - apply set_tgids; [done|]. apply fits_update, ok_tgids, Hs.
  - apply set_cgroups; [done|]. apply fits_update, ok_cgroups, Hs.
  - by apply set_proc_events.
Qed.

Lemma keeps_exit pid : keeps kst_ok (λ _, True) (tp_sched_process_exit pid).
Proof. unfold tp_sched_process_exit. upd. apply set_tgids; [done|]. apply fits_delete, ok_tgids, Hs. Qed.

(** *** The key extraction *)

Lemma keeps_ossl t a o : mem_ok t → keeps kst_ok (λ r, block (snd r)) (ossl_read_gcm_h t a o).
Proof.
  intros Hm. assert (Hz : block (zeros 16)) by apply AesFacts.zeros_block.
  unfold ossl_read_gcm_h. keeps_walk_with ltac:(first [kleaf | idtac]); cbn [snd].
  - by eapply bswap_block, probe_block.
  - by eapply halve_slices, probe_block.
Qed.

Lemma recover_block rk rounds h : bytes_ok rk → zlen rk = 240 → aes_recover_h rk rounds = Some h → block h.
Proof.
  intros Hr Hl E. unfold aes_recover_h in E.
  destruct ((rounds =? 10) || (rounds =? 9)) eqn:E1.
  { injection E as <-. apply (AesFacts.aes_block_encrypt_correct 10); auto using AesFacts.zeros_block. lia. }
  destruct ((rounds =? 14) || (rounds =? 13)); [|done].
  injection E as <-. apply (AesFacts.aes_block_encrypt_correct 14); auto using AesFacts.zeros_block. lia.
Qed.

Lemma keeps_bssl t p a b c : mem_ok t → keeps kst_ok (λ o, ∀ h, o = Some h → block h) (bssl_recover_h t p a b c).
Proof.
  intros Hm. unfold bssl_recover_h. keeps_walk_with ltac:(first [kleaf | idtac]).
  intros h [= <-]. match goal with H : probe_read _ _ _ = Some _ |- _ => apply probe_read_ok in H as [HB HL]; [|done] end.
  eapply recover_block; [exact HB|unfold zlen; by rewrite HL|eassumption].
Qed.

Lemma keeps_read_fd t p : keeps kst_ok (λ _, True) (ssl_read_fd t p).
Proof. unfold ssl_read_fd, resolve_wbio_offset. keeps_walk_with ltac:(first [kleaf | idtac]). Qed.

Lemma keeps_evp_init t p : keeps kst_ok (λ _, True) (bpf_uprobe_evp_cipher_init t p).
Proof.
  unfold bpf_uprobe_evp_cipher_init. keeps_walk_with ltac:(first [kleaf | upd]).
  apply set_evp_init; [done|]. apply fits_update, ok_evp_inits, Hs.
Qed.

Lemma keeps_evp_ret t : mem_ok t → keeps kst_ok (λ _, True) (bpf_uretprobe_evp_cipher_init t).
Proof.
  intros Hm. unfold bpf_uretprobe_evp_cipher_init. keeps_walk_with ltac:(first [kleaf | by apply keeps_ossl | upd]).
  - apply set_evp_init; [done|]. apply fits_delete, ok_evp_inits, Hs.
  - apply set_evp; [done|]. apply all_delete, ok_evp, Hs.
  - apply set_evp; [done|]. apply map_Forall_insert_2; [assumption|apply ok_evp, Hs].
Qed.

Lemma keeps_enc_ctx t e o : mem_ok t → keeps kst_ok (λ r, ∀ h c, r = Some (h, c) → block h) (h_of_enc_ctx t e o).
Proof.
  intros Hm. unfold h_of_enc_ctx. eapply keeps_bind; [apply (read_lookup evp_ok k_evp_h_cache); exact ok_evp|].
  intros cached Hc. keeps_walk_with ltac:(first [kleaf | by apply keeps_ossl | upd]).
  - intros h c [= <- _]. by apply Hc.
  - apply set_evp; [done|]. apply map_Forall_insert_2; [assumption|apply ok_evp, Hs].
  - by intros h c [= <- _].
Qed.

Lemma set_fresh d b : scratch_ok d → scratch_ok (d <| h_fresh := b |>).
Proof. intros []. by constructor. Qed.

Lemma keeps_extract t : mem_ok t → keeps kst_ok (λ _, True) (bpf_h_extract t).
Proof.
  intros Hm. unfold bpf_h_extract. keeps_walk_with ltac:(first [kleaf | by apply keeps_enc_ctx | upd]).
  - apply set_conns; [done|]. apply map_Forall_insert_2; [|apply ok_conns, Hs]. unfold conn_ok. cbn. naive_solver.
  - apply set_scratch; [done|]. apply set_fresh, ok_scratch, Hs.
Qed.

(** *** The XOR path *)

Lemma splice_buf n l off new : buf n l → bytes_ok new → (off + length new <= n)%nat → buf n (splice l (Z.of_nat off) new).
Proof.
  intros [L B] Bn Hn. split; [|by apply splice_ok]. unfold splice. rewrite !length_app, length_take, length_drop. lia.
Qed.

Lemma set_data d v : scratch_ok d → buf 256 v → scratch_ok (d <| sd_data := v |>).
Proof. intros [] Hv. by constructor. Qed.

Lemma add_match_ok d m : scratch_ok d → 0 ≤ m_pos m < 2 ^ 32 → xor_match_count d < 4 →
  scratch_ok (d <| xor_matches := set_match (Z.land (xor_match_count d) (XOR_MAX_MATCHES - 1)) m (xor_matches d) |>
    <| xor_match_count := xor_match_count d +32 1 |>).
Proof.
  intros [D C M P] Hp Hc. constructor; [exact D| | |].
  - cbn [xor_match_count]. change (0 ≤ u32 (xor_match_count d + 1) ≤ 4). rewrite u32_small by lia. lia.
  - cbn. unfold set_match. by rewrite length_insert.
  - by apply Forall_insert.
Qed.

Lemma keeps_prescan_scan n : ∀ i lim off, keeps kst_ok (λ _, True) (prescan_scan n i lim off).
Proof.
  induction n as [|n IH]; intros i lim off; cbn [prescan_scan].
  { by apply keeps_ret. }
  keeps_walk_with ltac:(first [kleaf | apply IH | upd]).
  apply set_scratch; [done|]. apply add_match_ok; [done| |].
  - cbn [m_pos]. apply u32_range.
  - apply Z.leb_gt. assumption.
Qed.

Lemma keeps_chunk t udp total i : mem_ok t → keeps kst_ok (λ _, True) (prescan_chunk t udp total i).
Proof.
  intros Hm. unfold prescan_chunk. keeps_walk_with ltac:(first [kleaf | apply keeps_prescan_scan | upd]).
  apply set_scratch; [done|]. apply set_data; [done|]. apply (splice_buf 256 _ 0); [by apply sc_data|by apply buf_probe|].
  match goal with |- context [probe_read_z t ?a ?n] => destruct (buf_probe t a n Hm) as [-> _] end.
  unfold MAX_DATA_SIZE; destruct (Z.ltb_spec 256 (total -32 (i *32 CHUNK_STRIDE))); lia.
Qed.

Lemma keeps_prescan t udp total : mem_ok t → keeps kst_ok (λ _, True) (prescan t udp total).
Proof. intros Hm. unfold prescan. cbv zeta. apply keeps_loop; [|done]. intros i. by apply keeps_chunk. Qed.

Lemma patches_zero : patches_ok 0 (replicate 4 xor_patch_zero).
Proof.
  unfold patches_ok. split_and!; [lia|lia|done|]. apply Forall_replicate. unfold patch_ok.
  split; [by cbn|]. split; [by cbn|]. split; [done|apply (bytes_ok_zeros 128)].
Qed.

Lemma pending_zero x : xp_patch_count x = 0 → xp_patches x = replicate 4 xor_patch_zero → block (xp_ghash_h x) → pending_ok x.
Proof. intros Hc Hp Hh. split; [rewrite Hc, Hp; apply patches_zero|done]. Qed.

Lemma staged_init_ok t sd conns : (∀ k c, conns !! k = Some c → conn_ok c) → pending_ok (staged_init t sd conns).
Proof.
  intros Hc. unfold staged_init. assert (Hz := AesFacts.zeros_block).
  destruct (negb _ && _); [|by apply pending_zero].
  destruct (conns !! _) as [c|] eqn:Ec; [|by apply pending_zero]. apply Hc in Ec.
  destruct (_ =? _); by apply pending_zero.
Qed.

(** Updates of one field of the work area. *)
Section WorkSetters.
Context (w : ghash_work) (Hw : work_ok w).
Ltac keep_work := revert Hw; intros []; constructor; assumption.
Lemma work_pending x : pending_ok x → work_ok (w <| staged_pending := x |>).
Proof using Hw. keep_work. Qed.
Lemma work_tc x : tc_ok x → work_ok (w <| staged_tc := x |>).
Proof using Hw. keep_work. Qed.
Lemma work_ct x : buf 128 x → work_ok (w <| ct_buf := x |>).
Proof using Hw. keep_work. Qed.
Lemma work_delta x : block x → work_ok (w <| tag_delta := x |>).
Proof using Hw. keep_work. Qed.
Lemma work_pow x : block x → work_ok (w <| h_pow := x |>).
Proof using Hw. keep_work. Qed.
End WorkSetters.

Lemma xor_prefix_buf n b real k : buf n b → bytes_ok real → buf n (xor_prefix b real k).
Proof.
  intros [L B] Hr. unfold xor_prefix. split; [by rewrite length_imap|].
  apply Forall_lookup. intros i x Hx. rewrite list_lookup_imap in Hx.
  destruct (b !! i) as [y|] eqn:Ey; [|done]. injection Hx as <-.
  pose proof (Forall_lookup_1 _ _ _ _ B Ey). destruct (_ <? _); [|done]. apply byte_lxor; [done|]. by apply byte_at_range.
Qed.

Lemma stage_ok x p : pending_ok x → patch_ok p → xp_patch_count x < 4 →
  pending_ok (x <| xp_patches := set_patch (Z.land (xp_patch_count x) (XOR_MAX_PATCHES - 1)) p (xp_patches x) |>
    <| xp_patch_count := xp_patch_count x +32 1 |>).
Proof.
  intros [(C & L & F) Hh] Hp Hc. split; [|exact Hh]. split_and!.
  - change (0 ≤ u32 (xp_patch_count x + 1)). apply u32_range.
  - change (u32 (xp_patch_count x + 1) ≤ 4). rewrite u32_small; lia.
  - cbn. unfold set_patch. by rewrite length_insert.
  - by apply Forall_insert.
Qed.

Lemma keeps_stage p : patch_ok p → keeps kst_ok (λ _, True) (xor_stage_patch p).
Proof.
  intros Hp. unfold xor_stage_patch. upd. destruct (Z.ltb_spec (xp_patch_count (staged_pending (k_ghash_scratch s))) XOR_MAX_PATCHES); [|done].
  apply set_work; [done|]. apply work_pending; [apply ok_work, Hs|]. apply stage_ok; [|done|done]. apply wk_pending, ok_work, Hs.
Qed.

Lemma keeps_match t sd m : mem_ok t → 0 ≤ m_pos m < 2 ^ 32 → keeps kst_ok (λ _, True) (xor_match_patch t sd m).
Proof.
  intros Hm Hp. unfold xor_match_patch. eapply keeps_bind; [apply (read_map secret_ok k_secret_map); exact ok_secrets|].
  intros secrets Hsec. keeps_walk_with ltac:(first [kleaf | apply keeps_binding | idtac]); apply Hsec in Heqo as [? [L B] ? ?].
  all: assert (Hb : buf 128 (xor_prefix (probe_read_z t (user_data_ptr sd + m_pos m) (Z.to_nat SECRET_MAX_LEN)) (real_secret s)
    (clamp_write_len (sv_len s)))) by (apply xor_prefix_buf; [by apply (buf_probe t _ 128)|done]).
  - apply (keeps_modify _ (λ _, True)); [intros s' Hs|done]. apply set_work; [done|]. apply work_ct; [apply ok_work, Hs|done].
  - apply keeps_stage. split_and!; cbn; try lia; [|apply Hb..]. zbool. unfold SECRET_MAX_LEN in *. lia.
Qed.

Lemma keeps_init_staged t sd : keeps kst_ok (λ _, True) (xor_init_staged t sd).
Proof.
  unfold xor_init_staged. eapply keeps_bind; [apply (read_map conn_ok k_tls_conn_state); exact ok_conns|].
  intros conns Hc. upd. apply set_work; [done|]. apply work_pending; [apply ok_work, Hs|]. by apply staged_init_ok.
Qed.

Lemma keeps_finish t : keeps kst_ok (λ _, True) (xor_finish t).
Proof.
  unfold xor_finish. keeps_walk_with ltac:(first [kleaf | upd]).
  apply set_pending; [done|apply all_update; [apply ok_pending, Hs|by apply wk_pending]|apply fits_update, ok_pendings, Hs].
Qed.

Lemma nth_match_ok d i : scratch_ok d → 0 ≤ m_pos (nth_match (xor_matches d) i) < 2 ^ 32.
Proof.
  intros Hd. unfold nth_match. rewrite nth_lookup. destruct (xor_matches d !! Z.to_nat i) as [m|] eqn:E; [|done].
  exact (Forall_lookup_1 _ _ _ _ (sc_pos d Hd) E).
Qed.

Lemma set_current d i : scratch_ok d → scratch_ok (d <| xor_current_match := i |>).
Proof. intros []. by constructor. Qed.

Lemma keeps_xor_path t : mem_ok t → keeps kst_ok (λ _, True) (bpf_xor_path t).
Proof.
  intros Hm. unfold bpf_xor_path. keeps_walk_with ltac:(first [kleaf | apply keeps_init_staged | apply keeps_finish | upd]).
  - apply keeps_match; [done|]. by apply nth_match_ok.
  - apply set_scratch; [done|]. apply set_current, ok_scratch, Hs.
Qed.

Lemma keeps_xor_run fuel t : mem_ok t → keeps kst_ok (λ _, True) (xor_path_run fuel t).
Proof.
  intros Hm. induction fuel as [|fuel IH]; cbn [xor_path_run]; [by apply keeps_ret|].
  keeps_walk_with ltac:(first [by apply keeps_xor_path | kleaf | apply IH]).
Qed.

Lemma keeps_write_scratch t data n total ssl chain membio : mem_ok t → n ≤ 256 →
  keeps kst_ok (λ _, True) (write_scratch t data n total ssl chain membio).
Proof.
  intros Hm Hn. unfold write_scratch. keeps_walk_with ltac:(first [kleaf | upd]).
  - destruct (ok_scratch s Hs). apply set_scratch; [done|]. constructor; [|done..].
    apply (splice_buf 256 _ 0); [done|by apply buf_probe|]. destruct (buf_probe t data (Z.to_nat n) Hm) as [-> _]. lia.
  - destruct (ok_scratch s Hs). apply set_scratch; [done|]. by constructor.
Qed.

Lemma keeps_go_write t c d n : mem_ok t → keeps kst_ok (λ _, True) (bpf_uprobe_go_tls_write t c d n).
Proof.
  intros Hm. unfold bpf_uprobe_go_tls_write. keeps_walk_with ltac:(first [kleaf | by apply keeps_prescan | by apply keeps_xor_run | idtac]).
  apply keeps_write_scratch; [done|]. unfold MAX_DATA_SIZE. destruct (Z.ltb_spec 256 (u32 n)); lia.
Qed.

Lemma keeps_ssl_write t ssl d n : mem_ok t → keeps kst_ok (λ _, True) (bpf_uprobe_ssl_write t ssl d n).
Proof.
  intros Hm. unfold bpf_uprobe_ssl_write.
  keeps_walk_with ltac:(first [kleaf | apply keeps_read_fd | by apply keeps_prescan | by apply keeps_xor_run | by apply keeps_extract | idtac]).
  apply keeps_write_scratch; [done|]. unfold MAX_DATA_SIZE. destruct (Z.ltb_spec 256 n); lia.
Qed.

End Inv.
