(* ===== verification/InvSend.v ===== *)
(** * The programs at tcp_sendmsg and the virtual IPs keep the type of the state

    [InvSend]: [keeps kst_ok] for the SNI kprobe, the socket tracepoint and the
    bridge.
    [InvVip]: for the DNS rewrite and the hooks of the virtual IPs. *)

From S2P Require Import Prelude GF128 Host Ghash Aes TlsRecord Sni Dns VipAddr State Hooks HExtract XorPath Packet TcGhash TcEgress.
From S2P Require Import TcFacts TcpSend SendFacts Vip VipHooks DnsRewrite StateType Keeps Inv.
Import Host GF128 GhashCode GF128Facts Types Kernel Keeps StateType SniTrack.

Module InvSend.
Import Hooks HExtract Sni TcpSend Skb SkbFacts Reads Inv.

(** *** The SNI *)

Lemma set_byte_host i v h : byte v → host_buf h → host_buf (set_byte i v h).
Proof. intros Hv [L B]. split; [by rewrite length_set_byte|by apply bytes_ok_insert]. Qed.

Lemma to_lower_byte c : byte c → byte (to_lower c).
Proof. unfold to_lower. intros. destruct (_ && _); [apply u8_range|done]. Qed.

Lemma copy_host fuel buf off n : bytes_ok buf → ∀ j h, host_buf h → host_buf (snd (sni_copy_loop fuel j buf off n h)).
Proof.
  intros Hb. induction fuel as [|fuel IH]; intros j h Hh; [done|]. cbn [sni_copy_loop].
  destruct (n <=? j); [done|]. destruct (sni_host_char_ok _); [|done].
  apply IH. apply set_byte_host; [|done]. by apply to_lower_byte, byte_at_range.
Qed.

Lemma finish_host buf off n h : bytes_ok buf → host_buf h → host_buf (r_host (sni_finish buf off n h)).
Proof.
  intros Hb Hh. unfold sni_finish. pose proof (copy_host (Z.to_nat MAX_HOST_LEN) buf off n Hb 0 h Hh) as H.
  destruct (sni_copy_loop _ 0 buf off n h) as [ok h']. cbn [snd] in H.
  repeat case_match; simplify_eq; cbn; try done; by apply set_byte_host.
Qed.

Lemma parse_host buf n h : bytes_ok buf → host_buf h → host_buf (r_host (tls_parse_sni buf n h)).
Proof.
  intros Hb Hh. unfold tls_parse_sni. repeat case_match; first [exact Hh | by apply finish_host].
Qed.

Lemma zeros_host : host_buf (zeros 64).
Proof. split; [done|apply bytes_ok_zeros]. Qed.

Lemma parsed_ok buf n : bytes_ok buf → sni_ok (parsed_state buf n).
Proof. intros. by apply parse_host, zeros_host. Qed.

Lemma keeps_set_sni k st : sni_ok st → keeps kst_ok (λ _, True) (set_sni k st).
Proof. intros H. unfold set_sni. upd. apply set_sni_state; [done|]. apply map_Forall_insert_2; [done|apply ok_sni, Hs]. Qed.

Lemma first_ok st : sni_ok st → sni_ok (sni_first st).
Proof. unfold sni_first. by destruct (_ =? _). Qed.

Lemma after_seen_ok c st c' : sni_ok c → sni_after_seen c st = Some c' → sni_ok c'.
Proof. unfold sni_after_seen. intros Hc. destruct (_ || _); [|done]. by intros [= <-]. Qed.

Lemma read_sni_buf : keeps kst_ok bytes_ok (gets k_sni_buf).
Proof. apply keeps_gets. intros s Hs. apply ok_sni_buf, Hs. Qed.

Lemma keeps_handshake t k base len : mem_ok t → 2 ≤ len → keeps kst_ok (λ _, True) (sni_handshake t k base len).
Proof.
  intros Hm Hl. unfold sni_handshake. eapply keeps_bind; [apply (read_lookup sni_ok k_sni_state); exact ok_sni|].
  intros cur Hc. keeps_walk_with ltac:(first [apply read_sni_buf | kleaf | apply keeps_set_sni | upd]).
  - apply set_sni_buf; [done|]. set (n := if TLS_SNI_BUF_LEN <? len then TLS_SNI_BUF_LEN else u32 len).
    fold (probe_read_z t base (Z.to_nat n)).
    destruct (buf_probe t base (Z.to_nat n) Hm) as [L B]. apply (splice_buf 2048 _ 0); [apply ok_sni_buf, Hs|done|].
    rewrite L. unfold n, TLS_SNI_BUF_LEN. destruct (Z.ltb_spec 2048 len); [lia|]. rewrite u32_small; lia.
  - eapply after_seen_ok; [by apply Hc|eassumption].
  - by apply first_ok, parsed_ok.
  - by apply first_ok, parsed_ok.
Qed.

Lemma keeps_sni t sk msg : mem_ok t → keeps kst_ok (λ _, True) (bpf_kprobe_tcp_sendmsg_sni t sk msg).
Proof.
  intros Hm. unfold bpf_kprobe_tcp_sendmsg_sni. keeps_walk_with ltac:(first [kleaf | idtac]).
  apply keeps_handshake; [done|]. zbool. lia.
Qed.

Lemma keeps_set_state pr st sk : keeps kst_ok (λ _, True) (tp_inet_sock_set_state pr st sk).
Proof.
  unfold tp_inet_sock_set_state. keeps_walk_with ltac:(first [kleaf | upd]).
  - apply set_sni_state; [done|]. apply all_delete, ok_sni, Hs.
  - apply set_sock_host; [done|]. apply all_delete, ok_sock_host, Hs.
  - apply set_sock_dst; [done|]. apply all_delete, ok_sock_dst, Hs.
Qed.

(** *** The bridge *)

Lemma keeps_check_key t sk audit membio dst key : keeps kst_ok (λ _, True) (socket_check_key t sk audit membio dst key).
Proof. unfold socket_check_key. keeps_walk_with ltac:(first [kleaf | apply keeps_report]). Qed.

Lemma keeps_staged f : (∀ v, tc_ok v → tc_ok (f v)) → keeps kst_ok (λ _, True) (on_staged f).
Proof.
  intros Hf. unfold on_staged. upd. apply set_work; [done|]. apply work_tc; [apply ok_work, Hs|]. apply Hf, wk_tc, ok_work, Hs.
Qed.

Lemma nth_patch_ok ps i : Forall patch_ok ps → patch_ok (nth_patch ps i).
Proof.
  intros H. unfold nth_patch. rewrite nth_lookup. destruct (ps !! Z.to_nat i) as [x|] eqn:E.
  - exact (Forall_lookup_1 _ _ _ _ H E).
  - destruct patches_zero as (_ & _ & F). by inversion_clear F.
Qed.

Lemma set_patch_ok i x ps : length ps = 4%nat → Forall patch_ok ps → patch_ok x →
  length (set_patch i x ps) = 4%nat ∧ Forall patch_ok (set_patch i x ps).
Proof. intros. unfold set_patch. split; [by rewrite length_insert|by apply Forall_insert]. Qed.

Lemma move_ok kept p v : tc_ok v → tc_ok (move_patch kept p v).
Proof. intros (C & L & F). split; [exact C|]. apply set_patch_ok; [done..|]. by apply nth_patch_ok. Qed.

Lemma keeps_filter fuel t sk audit membio dst pc : ∀ p kept, 0 ≤ kept → kept + Z.of_nat fuel ≤ 4 →
  keeps kst_ok (λ k, 0 ≤ k ≤ 4) (filter_patches fuel t sk audit membio dst pc p kept).
Proof.
  induction fuel as [|fuel IH]; intros p kept Hk Hf; cbn [filter_patches].
  { apply keeps_ret. lia. }
  keeps_walk_with ltac:(first [kleaf | apply keeps_check_key | apply keeps_staged; intros ?; apply move_ok | idtac]).
  - lia.
  - apply IH; lia.
  - rewrite u32_small by lia. apply IH; lia.
Qed.

Lemma set_count_ok k v : 0 ≤ k ≤ 4 → tc_ok v → tc_ok (set_count k v).
Proof. by intros Hk (_ & L & F). Qed.

Lemma keeps_socket_filter t sk membio : keeps kst_ok (λ _, True) (socket_filter_patches t sk membio).
Proof.
  unfold socket_filter_patches.
  keeps_walk_with ltac:(first [kleaf | by apply keeps_filter | apply keeps_staged; intros ?; by apply set_count_ok | idtac]).
Qed.

Definition conn_res (o : option tls_conn_state) : Prop := ∀ c, o = Some c → conn_ok c.

Lemma conn_some c : conn_ok c → conn_res (Some c).
Proof. by intros H ? [= <-]. Qed.

Lemma keeps_h_fail : keeps kst_ok conn_res h_fail.
Proof. unfold h_fail. keeps_walk_with ltac:(first [kleaf | idtac]). Qed.

Lemma keeps_go_recover t p : mem_ok t → keeps kst_ok conn_res (go_recover_h t p).
Proof.
  intros Hm. unfold go_recover_h. keeps_walk_with ltac:(first [kleaf | apply keeps_h_fail]).
  apply conn_some. apply halve_block; by eapply probe_word_range.
Qed.

Lemma keeps_bssl_conn t p o : mem_ok t → keeps kst_ok conn_res (bssl_conn t p o).
Proof.
  intros Hm. unfold bssl_conn. keeps_walk_with ltac:(first [kleaf | apply keeps_h_fail | by apply keeps_bssl]).
  apply conn_some. naive_solver.
Qed.

Lemma keeps_ossl_conn t p o : mem_ok t → keeps kst_ok conn_res (ossl_conn t p o).
Proof.
  intros Hm. unfold ossl_conn. keeps_walk_with ltac:(first [kleaf | apply keeps_h_fail | by apply keeps_ossl]).
  by apply conn_some.
Qed.

Lemma keeps_recover t x : mem_ok t → pending_ok x → keeps kst_ok conn_res (recover_h t x).
Proof.
  intros Hm [_ Hx]. unfold recover_h, walk_recover_h.
  keeps_walk_with ltac:(first [kleaf | apply keeps_h_fail | by apply keeps_go_recover | by apply keeps_bssl_conn | by apply keeps_ossl_conn]).
  by apply conn_some.
Qed.

Lemma keeps_drop t : keeps kst_ok (λ _, True) (drop_xor_pending t).
Proof.
  unfold drop_xor_pending. upd. apply set_pending; [done|apply all_delete, ok_pending, Hs|apply fits_delete, ok_pendings, Hs].
Qed.

Lemma keeps_commit t sk x c : conn_ok c → keeps kst_ok (λ _, True) (bridge_commit t sk x c).
Proof.
  intros Hc. unfold bridge_commit, store_conn. keeps_walk_with ltac:(first [kleaf | apply keeps_drop | apply keeps_staged; by intros ? | upd]).
  - apply set_conns; [done|]. apply map_Forall_insert_2; [done|apply ok_conns, Hs].
  - apply set_tc; [done|]. apply map_Forall_insert_2; [apply wk_tc, ok_work, Hs|apply ok_tc, Hs].
Qed.

Lemma staged_of_ok t x : pending_ok x → tc_ok (staged_of t x).
Proof.
  intros [(C & L & F) _]. unfold staged_of. split_and!; cbn [tp_patch_count tp_patches].
  - destruct (_ <? _); unfold XOR_MAX_PATCHES; lia.
  - destruct (_ <? _); unfold XOR_MAX_PATCHES; lia.
  - by rewrite length_imap.
  - apply Forall_lookup. intros i y Hy. rewrite list_lookup_imap in Hy.
    destruct (replicate 4 xor_patch_zero !! i) as [z|] eqn:Ez; [|done]. injection Hy as <-.
    destruct patches_zero as (_ & _ & Fz). destruct (_ <? _); [by apply nth_patch_ok|exact (Forall_lookup_1 _ _ _ _ Fz Ez)].
Qed.

Lemma keeps_bridge t sk : mem_ok t → keeps kst_ok (λ _, True) (bpf_kprobe_tcp_sendmsg t sk).
Proof.
  intros Hm. unfold bpf_kprobe_tcp_sendmsg. eapply keeps_bind; [apply (read_lookup pending_ok k_xor_pending); exact ok_pending|].
  intros pending Hp. destruct pending as [x|]; [specialize (Hp x eq_refl)|].
  all: keeps_walk_with ltac:(first [kleaf | apply keeps_drop | apply keeps_socket_filter | by apply keeps_recover
    | apply keeps_staged; intros ? _; by apply staged_of_ok | idtac]).
  apply keeps_commit. auto.
Qed.

End InvSend.

Module InvVip.
Import Hooks Dns VipAddr Vip VipFacts ConnectFacts Csums RewriteFacts Skb SkbFacts Reads Inv.

Lemma keeps_store_sock t sk v : sock_ok v → keeps kst_ok (λ _, True) (store_sock t sk v).
Proof.
  intros Hv. unfold store_sock. keeps_walk_with ltac:(first [kleaf | upd]).
  apply set_sock; [done|]. apply map_Forall_insert_2; [done|apply ok_sock, Hs].
Qed.

Lemma keeps_record_dst ctx dst : addr dst → keeps kst_ok (λ _, True) (vip_record_dst ctx dst).
Proof.
  intros Hd. unfold vip_record_dst. keeps_walk_with ltac:(first [kleaf | upd]).
  apply set_sock_dst; [done|]. apply map_Forall_insert_2; [done|apply ok_sock_dst, Hs].
Qed.

Lemma keeps_forget ctx : keeps kst_ok (λ _, True) (vip_forget_host ctx).
Proof.
  unfold vip_forget_host. keeps_walk_with ltac:(first [kleaf | upd]).
  - apply set_sock_host; [done|]. apply all_delete, ok_sock_host, Hs.
  - apply set_sock; [done|]. apply all_delete, ok_sock, Hs.
Qed.

(** A task: its memory holds bytes, its clock is that of a machine up for less
    than 146 years. *)
Record task_ok (t : task) : Prop := {
  t_mem : mem_ok t;
  t_boot : 0 < boot_ns t < 2 ^ 62;
  t_prandom : 0 ≤ prandom t
}.

Definition picked_ok (o : option (vip_ip_val * addr16)) : Prop := ∀ ih real, o = Some (ih, real) → host_buf (vi_host ih) ∧ addr real.

Lemma read_target t dst : task_ok t → keeps kst_ok picked_ok (gets (λ s, vip_target t s dst)).
Proof.
  intros [_ Hb Hr]. apply keeps_gets. intros s Hs ih real E. unfold vip_target in E.
  destruct (k_vip_ip_host s !! dst) as [ih'|] eqn:Ei; [|done].
  destruct (k_vip_upstream s !! dst) as [up|] eqn:Eu; [|done].
  destruct (vip_upstream_pick up _ _) as [real'|] eqn:Ep; [|done]. destruct (eqb _ _) eqn:Ee; [|done]. injection E as -> ->.
  split; [exact (ok_ip_host s Hs _ _ Ei)|]. apply eqb_prop in Ee.
  apply (target_addr t s dst real (ok_up s Hs)).
  apply (pick_target t s dst up); [apply (ok_up s Hs _ _ Eu)|lia|done..].
Qed.

Lemma keeps_redirect t ctx dst : task_ok t → addr dst →
  keeps kst_ok (λ x, fst x = 1 → addr (snd x)) (vip_redirect t ctx dst).
Proof.
  intros Ht Hd. unfold vip_redirect. keeps_walk_with ltac:(first [by apply read_target | kleaf | idtac]); try done;
    try (by intros; cbn in *).
  all: match goal with H : picked_ok _ |- _ => destruct (H _ _ eq_refl) as [Hi Hr] end.
  - upd. apply set_sock_host; [done|]. apply map_Forall_insert_2; [done|apply ok_sock_host, Hs].
  - apply keeps_store_sock. by split.
  - done.
Qed.

Lemma keeps_hook t ctx dst set : task_ok t → addr dst → keeps kst_ok (λ _, True) (connect_hook t ctx dst set).
Proof.
  intros Ht Hd. unfold connect_hook. keeps_walk_with ltac:(first [by apply keeps_redirect | kleaf | apply keeps_forget
    | by apply keeps_record_dst | idtac]).
  apply keeps_record_dst. zbool. auto.
Qed.

Lemma keeps_connect4 t ctx : task_ok t → ctx_ok ctx → keeps kst_ok (λ _, True) (vip_connect4 t ctx).
Proof. intros Ht (L & B & _). apply keeps_hook; [done|]. by apply HooksFacts.mapped_addr. Qed.

Lemma keeps_connect6 t ctx : task_ok t → ctx_ok ctx → keeps kst_ok (λ _, True) (vip_connect6 t ctx).
Proof. intros Ht (_ & _ & A). by apply keeps_hook. Qed.

Lemma keeps_peer ctx peer : keeps kst_ok (λ _, True) (vip_peer_fake ctx peer).
Proof. unfold vip_peer_fake. keeps_walk_with ltac:(first [kleaf | idtac]). Qed.

Lemma keeps_peer4 ctx : keeps kst_ok (λ _, True) (vip_getpeername4 ctx).
Proof. unfold vip_getpeername4. keeps_walk_with ltac:(first [kleaf | apply keeps_peer]). Qed.
Lemma keeps_peer6 ctx : keeps kst_ok (λ _, True) (vip_getpeername6 ctx).
Proof. unfold vip_getpeername6. keeps_walk_with ltac:(first [kleaf | apply keeps_peer]). Qed.

(** *** The DNS rewrite *)

(** The sizes of what it changes. *)
Definition dns_sizes (s : kst) : Prop := fits vip_upstream_max_entries (k_vip_upstream s) ∧ buf 512 (k_dns_msg s).

Lemma read_dns {A} (f : kst → A) : keeps dns_sizes (λ _, True) (gets f).
Proof. by apply keeps_gets. Qed.
Lemma sizes_dbg i : keeps dns_sizes (λ _, True) (dbg_inc i).
Proof. by apply keeps_modify. Qed.

Lemma sizes_trusted a : keeps dns_sizes (λ _, True) (dns_server_trusted a).
Proof. unfold dns_server_trusted. keeps_walk_with ltac:(first [apply read_dns | idtac]). Qed.

Lemma sizes_apply f t p h udp six fk rs : keeps dns_sizes (λ _, True) (dns_apply f t p h udp six fk rs).
Proof.
  unfold dns_apply. keeps_walk_with ltac:(first [apply sizes_dbg | lazymatch goal with
    | |- keeps _ _ (gets (λ s, hash_update _ _ _ _)) =>
        apply (keeps_gets _ (λ u : bool * _, fits vip_upstream_max_entries (snd u))); intros ? []; by apply fits_update
    | |- _ => apply read_dns end | idtac]).
  apply (keeps_modify _ (λ _, True)); [|done]. by intros s [_ ?].
Qed.

Lemma sizes_message f t p h udp msg n : keeps dns_sizes (λ _, True) (dns_message f t p h udp msg n).
Proof.
  unfold dns_message. keeps_walk_with ltac:(first [apply sizes_dbg | apply sizes_apply | apply read_dns | idtac]).
Qed.

Lemma sizes_rewrite f t p : bytes_ok (sb_data p) → keeps dns_sizes (λ _, True) (tc_dns_rewrite f t p).
Proof.
  intros Hp. unfold tc_dns_rewrite. keeps_walk_with ltac:(first [apply sizes_message | apply sizes_trusted | apply read_dns | idtac]).
  apply (keeps_modify _ (λ _, True)); [|done]. intros s [Hu Hm]. split; [done|]. zbool. unfold MAX_DNS_PKT in *.
  set (n := u16_at _ 4 - 8) in *.
  assert (Hl : buf (Z.to_nat n) (default (zeros (Z.to_nat n)) (bpf_skb_load_bytes p (d_l4_off d +32 8) n))).
  { destruct (bpf_skb_load_bytes _ _ _) as [msg|] eqn:El; cbn.
    - apply load_inv in El as (_ & Hz & ->). pose proof (u32_range (d_l4_off d + 8)).
      split; [apply length_slice; lia|by apply slice_ok].
    - split; [by unfold zeros; rewrite length_replicate|apply bytes_ok_zeros]. }
  destruct Hl as [L B]. apply (splice_buf 512 _ 0); [done..|]. rewrite L. lia.
Qed.

Lemma sizes_ok s s' : but_dns s' = but_dns s → upstreams_ok s' → dns_sizes s' → kst_ok s → kst_ok s'.
Proof.
  intros B Hu [Hf Hm] Hs. destruct s, s'. unfold but_dns in B. cbn in *. injection B as ->.
  intros. subst. destruct Hs. by constructor.
Qed.

Lemma keeps_dns_rewrite f t p : csum_updates f → task_ok t → bytes_ok (sb_data p) → keeps kst_ok (λ _, True) (tc_dns_rewrite f t p).
Proof.
  intros Hf [_ Hb _] Hp s Hs. split; [|done]. destruct (ok_dns_msg s Hs) as [L B].
  pose proof (rewrite_outcome f t p s Hf (ok_up s Hs) (ok_hosts s Hs) Hb Hp B L) as H.
  destruct (sizes_rewrite f t p Hp s (conj (ok_ups s Hs) (ok_dns_msg s Hs))) as [Hz _].
  destruct (tc_dns_rewrite f t p s) as [[r p'] s']. destruct H as (Hd & Hu & _ & _). by apply (sizes_ok s).
Qed.

End InvVip.
