(* ===== verification/InvTc.v ===== *)
(** * The programs at tc egress keep the type of the state

    [InvTc]: [keeps kst_ok] for the tag recomputation and tc_egress_patch. *)

From S2P Require Import Prelude GF128 Host Ghash Aes TlsRecord VipAddr State Hooks XorPath Packet TcGhash TcEgress Vip VipHooks.
From S2P Require Import DnsRewrite StateType Keeps Inv InvSend.
Import Host Aes GF128 GhashCode GF128Facts Types Kernel Keeps StateType.

Module InvTc.
Import Hooks TcGhash TcGhashFacts TcEgress Skb SkbFacts Reads StateType Inv InvSend.

(** *** The work area *)

Lemma but_mul_ok s s' : but_mul s' = but_mul s → kst_ok s → kst_ok s'.
Proof.
  intros B Hs. destruct s as [? ? ? ? ? ? ? ? ? ? ? ? ? ? ? ? ? ? ? ? ? ? ? ? ? ? ? ? ? w ? ? ? ? ? ?],
    s' as [? ? ? ? ? ? ? ? ? ? ? ? ? ? ? ? ? ? ? ? ? ? ? ? ? ? ? ? ? w' ? ? ? ? ? ?]. destruct w, w'.
  injection B. intros. subst. destruct Hs. constructor; try done. by destruct ok_work0.
Qed.

Lemma keeps_mul a v : block a → block v → keeps kst_ok block (mul_in_work a v).
Proof.
  intros Ha Hv s Hs. destruct (mul_run a v s) as [-> B]. split; [by apply (but_mul_ok s)|]. by apply mul_spec.
Qed.

Lemma keeps_work (f : ghash_work → ghash_work) : (∀ w, work_ok w → work_ok (f w)) → keeps kst_ok (λ _, True) (on_work f).
Proof. intros Hf. unfold on_work. upd. apply set_work; [done|]. apply Hf, ok_work, Hs. Qed.

Ltac keep_work := lazymatch goal with |- keeps _ _ (on_work _) => idtac end; apply keeps_work; intros ? []; constructor; try done.

Lemma keeps_run n f : (∀ i, keeps kst_ok (λ _, True) (f i)) → keeps kst_ok (λ _, True) (run_loop n f).
Proof. intros. by apply keeps_loop. Qed.

Definition powers_ok (l : list bytes) : Prop := length l = 16%nat ∧ Forall block l.

Lemma read_powers : keeps kst_ok powers_ok (gets k_h_power_entries).
Proof. apply keeps_gets. exact ok_powers. Qed.

Lemma nth_power l i : powers_ok l → i < 16 → block (nth (Z.to_nat i) l []).
Proof.
  intros [L F] Hi. rewrite nth_lookup. destruct (lookup_lt_is_Some_2 l (Z.to_nat i)) as [x Hx]; [lia|].
  rewrite Hx. exact (Forall_lookup_1 _ _ _ _ F Hx).
Qed.

Ltac krun l := lazymatch goal with |- keeps _ _ (run_loop _ _) => apply keeps_run, l end.
Ltac kmul := lazymatch goal with |- keeps _ _ (mul_in_work _ _) => apply keeps_mul; [by apply wk_block_delta|by apply wk_h_pow] end.

(** *** The recomputation *)

Lemma keeps_copy i : keeps kst_ok (λ _, True) (copy_h_power_step i).
Proof.
  unfold copy_h_power_step. destruct (Z.leb_spec 11 i); [by apply keeps_ret|].
  eapply keeps_bind; [apply read_work|]. intros w Hw.
  eapply keeps_bind; [apply (read_lookup conn_ok k_tls_conn_state); exact ok_conns|]. intros [c|] Hc; [|by apply keeps_ret].
  eapply (keeps_bind block).
  { destruct (i =? 0); [apply keeps_ret; by apply Hc|]. eapply keeps_bind; [apply read_powers|].
    intros l Hl. apply keeps_mul; apply nth_power; done || lia. }
  intros e He. keeps_walk_with ltac:(first [kleaf | upd]). apply set_powers; [done|].
  destruct (ok_powers s Hs). split; [by rewrite length_insert|by apply Forall_insert].
Qed.

Lemma keeps_power i : keeps kst_ok (λ _, True) (h_power_step i).
Proof.
  unfold h_power_step. eapply keeps_bind; [apply read_work|]. intros w Hw. destruct (Z.leb_spec 11 i); [by apply keeps_ret|].
  destruct (_ =? 0); [by apply keeps_ret|]. eapply keeps_bind; [apply read_powers|]. intros l Hl.
  eapply keeps_bind; [apply keeps_mul; [by apply wk_h_pow|apply nth_power; done || lia]|].
  intros z Hz. keeps_walk_with ltac:(first [kleaf | keep_work]).
Qed.

Lemma delta_block xd b off len : block (ghash_block_delta xd b off len).
Proof.
  split; [unfold ghash_block_delta; by rewrite length_map, length_seq|].
  apply Forall_fmap, Forall_forall. intros i _. apply u8_range.
Qed.

Lemma xor_block a b : block a → block b → block (xor_bytes a b).
Proof. intros [La Ba] [Lb Bb]. split; [rewrite length_xor_bytes; congruence|by apply bytes_ok_xor]. Qed.

Lemma keeps_block i : keeps kst_ok (λ _, True) (ghash_block_iter i).
Proof.
  unfold ghash_block_iter. keeps_walk_with ltac:(first [kleaf | krun keeps_power | kmul | keep_work]).
  - apply delta_block.
  - apply block_one.
  - by apply xor_block.
Qed.

Lemma keeps_patch i : keeps kst_ok (λ _, True) (ghash_patch_iter i).
Proof.
  unfold ghash_patch_iter. keeps_walk_with ltac:(first [kleaf | krun keeps_block | keep_work]).
  apply nth_patch_ok. apply wk_pending. done.
Qed.

Lemma keeps_compute : keeps kst_ok (λ _, True) ghash_compute.
Proof.
  unfold ghash_compute. keeps_walk_with ltac:(first [kleaf | krun keeps_copy | krun keeps_patch | keep_work]).
  apply AesFacts.zeros_block.
Qed.

(** *** Packets *)

Definition pkt_ok (p : skb) : Prop := bytes_ok (sb_data p).

Lemma load_buf p off n l : pkt_ok p → 0 ≤ off → 0 ≤ n → bpf_skb_load_bytes p off n = Some l → buf (Z.to_nat n) l.
Proof. intros Hp Ho Hn E. apply load_inv in E as (_ & Hz & ->). split; [apply length_slice; lia|by apply slice_ok]. Qed.

Lemma store_pkt p off l : pkt_ok p → bytes_ok l → pkt_ok (bpf_skb_store_bytes p off l).
Proof. intros. unfold bpf_skb_store_bytes. destruct (_ && _); [by apply splice_ok|done]. Qed.

Lemma keeps_ghash_update p : pkt_ok p → keeps kst_ok (λ _, True) (tc_ghash_update p).
Proof.
  intros Hp. unfold tc_ghash_update. keeps_walk_with ltac:(first [kleaf | apply keeps_compute | keep_work | upd]).
  - match goal with H : bpf_skb_load_bytes _ _ _ = Some _ |- _ => apply load_buf in H; [exact H|done|apply u32_range|done] end.
  - apply xor_block; [|by apply wk_tag_delta].
    match goal with H : bpf_skb_load_bytes _ _ _ = Some _ |- _ => apply load_buf in H; [exact H|done|apply u32_range|done] end.
  - apply AesFacts.zeros_block.
  - apply set_tags; [done|]. apply map_Forall_insert_2; [by apply wk_tag_delta|apply ok_tags, Hs].
Qed.

(** *** tc_egress_patch *)

Lemma keeps_deferred p h v : keeps kst_ok (λ _, True) (apply_deferred_tag p h v).
Proof.
  unfold apply_deferred_tag. keeps_walk_with ltac:(first [kleaf | upd]).
  all: apply set_tags; [done|]; apply all_delete, ok_tags, Hs.
Qed.

Lemma copy_ok pc ps old : length old = 4%nat → Forall patch_ok ps → Forall patch_ok old →
  length (copy_patches pc ps old) = 4%nat ∧ Forall patch_ok (copy_patches pc ps old).
Proof.
  intros L F G. unfold copy_patches. split; [by rewrite length_imap|]. apply Forall_lookup. intros i x Hx.
  rewrite list_lookup_imap in Hx. destruct (old !! i) as [y|] eqn:Ey; [|done]. injection Hx as <-.
  destruct (_ <? _); [by apply nth_patch_ok|exact (Forall_lookup_1 _ _ _ _ G Ey)].
Qed.

Lemma keeps_stage_record v h off len nonce : tc_ok v → keeps kst_ok (λ _, True) (stage_record v h off len nonce).
Proof.
  intros (C & L & F). unfold stage_record. apply keeps_work. intros w Hw.
  destruct (wk_pending w Hw) as [(C' & L' & F') Hh]. destruct Hw. constructor; try done. split; [|exact Hh]. split.
  - change (0 ≤ (if XOR_MAX_PATCHES <? tp_patch_count v then XOR_MAX_PATCHES else tp_patch_count v) ≤ 4).
    unfold XOR_MAX_PATCHES. destruct (Z.ltb_spec 4 (tp_patch_count v)); lia.
  - by apply copy_ok.
Qed.

Lemma drop_ok x : patch_ok x → patch_ok (x <| secret_len := 0 |>).
Proof. by intros (H & _ & B). Qed.

Lemma keeps_drop_staged i : keeps kst_ok (λ _, True) (drop_staged i).
Proof.
  unfold drop_staged. apply keeps_work. intros w Hw. apply work_pending; [done|].
  destruct (wk_pending w Hw) as [(C & L & F) Hh]. split; [|exact Hh]. split; [exact C|].
  apply set_patch_ok; [done..|]. by apply drop_ok, nth_patch_ok.
Qed.

Lemma xor_first_buf n b m δ : buf n b → bytes_ok δ → buf n (xor_first m b δ).
Proof. apply xor_prefix_buf. Qed.

(** The loop body on a work area whose buffer holds the bytes loaded. *)
Lemma ct_ok w n l : work_ok w → 1 ≤ n ≤ 128 → buf (Z.to_nat n) l → buf 128 (splice (ct_buf w) 0 l).
Proof. intros Hw Hn [L B]. apply (splice_buf 128 _ 0); [by apply wk_ct|done|]. rewrite L. lia. Qed.

Lemma keeps_apply i len nonce off p : pkt_ok p → keeps kst_ok (λ r, pkt_ok (fst r)) (apply_patch i len nonce off p).
Proof.
  intros Hp. unfold apply_patch. eapply keeps_bind; [apply read_work|]. intros w Hw. cbv zeta.
  set (j := Z.land i _). set (x := nth_patch (xp_patches (staged_pending w)) j). set (n := clamp_write_len (secret_len x)).
  assert (Hx : patch_ok x) by (apply nth_patch_ok; by apply wk_pending).
  assert (Hn : 1 ≤ n ≤ 128) by apply clamp_range.
  keeps_walk_with ltac:(first [kleaf | apply keeps_drop_staged | idtac]).
  - match goal with H : bpf_skb_load_bytes _ _ _ = Some _ |- _ => apply load_buf in H; [|done|apply u32_range|lia] end.
    apply keeps_work. intros w' Hw'. apply work_ct; [done|]. apply xor_first_buf; [by apply (ct_ok w n)|apply Hx].
  - match goal with H : bpf_skb_load_bytes _ _ _ = Some _ |- _ => apply load_buf in H; [|done|apply u32_range|lia] end.
    apply store_pkt; [done|]. apply bytes_ok_take. apply (xor_first_buf 128); [by apply (ct_ok w n)|apply Hx].
  - apply keeps_work. intros w' Hw'. apply work_ct; [done|]. apply (ct_ok w' n); [done..|].
    split; [by unfold zeros; rewrite length_replicate|apply bytes_ok_zeros].
Qed.

Lemma keeps_apply_patches fuel : ∀ i pc len nonce off applied p, pkt_ok p →
  keeps kst_ok (λ r, pkt_ok (fst r)) (apply_patches fuel i pc len nonce off applied p).
Proof.
  induction fuel as [|fuel IH]; intros i pc len nonce off applied p Hp; cbn [apply_patches]; [by apply keeps_ret|].
  keeps_walk_with ltac:(first [by apply keeps_apply | kleaf | by apply IH]).
Qed.

Lemma alter_all {V} (P : V → Prop) (f : V → V) (k : tc_dest_key) (m : gmap tc_dest_key V) :
  (∀ v, P v → P (f v)) → map_Forall (λ _ v, P v) m → map_Forall (λ _ v, P v) (alter f k m).
Proof.
  intros Hf Hm k' v. rewrite lookup_alter. destruct (decide (k = k')) as [->|]; [|apply Hm].
  destruct (m !! k') as [v0|] eqn:E; [|done]. intros [= <-]. by eapply Hf, Hm.
Qed.

Lemma keeps_patch_record loaded h v off len nonce p : pkt_ok p → tc_ok v →
  keeps kst_ok (λ _, True) (patch_record loaded h v off len nonce p).
Proof.
  intros Hp Hv. unfold patch_record.
  keeps_walk_with ltac:(first [kleaf | by apply keeps_stage_record | by apply keeps_apply_patches | by apply keeps_ghash_update | idtac]).
  apply (keeps_modify _ (λ _, True)); [|done]. intros s' Hs. apply set_tc; [done|]. apply alter_all; [by intros ?|apply ok_tc, Hs].
Qed.

Lemma keeps_segment loaded h p : pkt_ok p → keeps kst_ok (λ _, True) (patch_segment loaded h p).
Proof.
  intros Hp. unfold patch_segment. destruct (_ <? _); [by apply keeps_ret|]. destruct (find_appdata _ _ _ _) as [[off len]|]; [|by apply keeps_ret].
  eapply keeps_bind; [apply (read_lookup tc_ok k_tc_pending); exact ok_tc|]. intros entry He. 
  keeps_walk_with ltac:(first [kleaf | idtac]). apply keeps_patch_record; [done|by apply He].
Qed.

Lemma keeps_egress loaded p : pkt_ok p → keeps kst_ok (λ _, True) (tc_egress_patch loaded p).
Proof.
  intros Hp. unfold tc_egress_patch. keeps_walk_with ltac:(first [kleaf | apply keeps_deferred | by apply keeps_segment]).
Qed.

End InvTc.
