(* ===== verification/System.v ===== *)
(** * The programs together: steps and reachable states

    [System]: a step is a run of one of the programs attached (pkg/ebpf/bpf/tls_uprobe.c),
    an eviction from an LRU map, a change of CPU, or an update by the control
    plane; [reachable]: the states such steps lead to from the maps at load. *)

From S2P Require Import Prelude GF128 Host Ghash Aes Sni Dns VipAddr State Hooks HExtract XorPath Packet TcGhash TcEgress TcpSend.
From S2P Require Import SendFacts Vip VipHooks DnsRewrite StateType Keeps Inv InvSend InvTc.
Import Host GF128Facts Types Kernel Keeps StateType.

Module System.
Import Hooks HExtract XorPath TcEgress TcpSend SniTrack Sni.Hello Vip ConnectFacts Csums RewriteFacts Skb Inv InvSend InvVip InvTc.

(** *** The programs attached, and what each runs on *)

Inductive call :=
  | Enter_connect (t : task) (fd addr_ptr : Z)
  | Exit_connect (t : task) (ret : Z)
  | Enter_close (t : task) (fd : Z)
  | Sched_exec (t : task) (pid : Z)
  | Sched_exit (pid : Z)
  | Evp_init (t : task) (evp_ctx_ptr : Z)
  | Evp_init_ret (t : task)
  | Go_tls_write (t : task) (conn_ptr data_ptr data_len : Z)
  | Ssl_write (t : task) (ssl_ptr data_ptr num : Z)
  | Sendmsg_sni (t : task) (sk : option sock) (msg : option msghdr)
  | Sendmsg (t : task) (sk : option sock)
  | Sock_set_state (protocol newstate : Z) (sk : sock)
  | Tc_egress (loaded : bool) (p : skb)
  | Tc_dns (t : task) (p : skb)
  | Connect4 (t : task) (ctx : sock_addr)
  | Connect6 (t : task) (ctx : sock_addr)
  | Getpeername4 (ctx : sock_addr)
  | Getpeername6 (ctx : sock_addr).

Section Steps.
(** bpf_l4_csum_replace of the kernel. *)
Context (csum : skb → Z → Z → Z → option skb).

(** The state a program leaves. *)
Definition run (c : call) (s : kst) : kst :=
  match c with
  | Enter_connect t fd a => snd (tp_enter_connect t fd a s)
  | Exit_connect t ret => snd (tp_exit_connect t ret s)
  | Enter_close t fd => snd (tp_enter_close t fd s)
  | Sched_exec t pid => snd (tp_sched_process_exec t pid s)
  | Sched_exit pid => snd (tp_sched_process_exit pid s)
  | Evp_init t ctx => snd (bpf_uprobe_evp_cipher_init t ctx s)
  | Evp_init_ret t => snd (bpf_uretprobe_evp_cipher_init t s)
  | Go_tls_write t conn data len => snd (bpf_uprobe_go_tls_write t conn data len s)
  | Ssl_write t ssl data num => snd (bpf_uprobe_ssl_write t ssl data num s)
  | Sendmsg_sni t sk msg => snd (bpf_kprobe_tcp_sendmsg_sni t sk msg s)
  | Sendmsg t sk => snd (bpf_kprobe_tcp_sendmsg t sk s)
  | Sock_set_state pr st sk => snd (tp_inet_sock_set_state pr st sk s)
  | Tc_egress loaded p => snd (tc_egress_patch loaded p s)
  | Tc_dns t p => snd (tc_dns_rewrite csum t p s)
  | Connect4 t ctx => snd (vip_connect4 t ctx s)
  | Connect6 t ctx => snd (vip_connect6 t ctx s)
  | Getpeername4 ctx => snd (vip_getpeername4 ctx s)
  | Getpeername6 ctx => snd (vip_getpeername6 ctx s)
  end.

(** What the kernel hands a program: memory, packets and addresses made of bytes. *)
Definition call_ok (c : call) : Prop :=
  match c with
  | Exit_connect _ _ | Enter_close _ _ | Sched_exec _ _ | Sched_exit _ | Evp_init _ _ | Sock_set_state _ _ _
  | Getpeername4 _ | Getpeername6 _ => True
  | Enter_connect t _ _ | Evp_init_ret t | Go_tls_write t _ _ _ | Ssl_write t _ _ _ | Sendmsg_sni t _ _ | Sendmsg t _ => mem_ok t
  | Tc_egress _ p => pkt_ok p
  | Tc_dns t p => task_ok t ∧ pkt_ok p
  | Connect4 t ctx | Connect6 t ctx => task_ok t ∧ ctx_ok ctx
  end.

(** *** The steps that are not programs *)

(** An entry of an LRU map is evicted, or a socket's storage is freed. *)
Inductive evicts (s : kst) : kst → Prop :=
  | evict_conn_ip k : evicts s (s <| k_conn_ip_map := delete k (k_conn_ip_map s) |>)
  | evict_evp_h k : evicts s (s <| k_evp_h_cache := delete k (k_evp_h_cache s) |>)
  | evict_sock_host k : evicts s (s <| k_vip_sock_host := delete k (k_vip_sock_host s) |>)
  | evict_sock_dst k : evicts s (s <| k_vip_sock_dst := delete k (k_vip_sock_dst s) |>)
  | evict_conn k : evicts s (s <| k_tls_conn_state := delete k (k_tls_conn_state s) |>)
  | evict_tc k : evicts s (s <| k_tc_pending := delete k (k_tc_pending s) |>)
  | evict_tag k : evicts s (s <| k_tc_tag_pending := delete k (k_tc_tag_pending s) |>)
  | evict_sni k : evicts s (s <| k_sni_state := delete k (k_sni_state s) |>)
  | free_sock k : evicts s (s <| k_vip_sock := delete k (k_vip_sock s) |>).

(** The next program runs on another CPU, with that CPU's areas. *)
Inductive migrates (s : kst) : kst → Prop :=
  | migrate d w pw msg b : scratch_ok d → work_ok w → length pw = 16%nat ∧ Forall block pw → buf 512 msg → buf 2048 b →
      migrates s (s <| k_scratch := d |> <| k_ghash_scratch := w |> <| k_h_power_entries := pw |>
        <| k_dns_msg := msg |> <| k_sni_buf := b |>).

(** The state without what the control plane writes: its tables, and the events
    it reads. *)
Definition but_user (s : kst) : kst :=
  s <| k_secret_map := ∅ |> <| k_secret_acl := ∅ |> <| k_secret_binding_mode := 0 |> <| k_binding_events := [] |>
    <| k_tracked_tgids := ∅ |> <| k_trusted_dns_servers := ∅ |> <| k_dns_whitelist_enabled := 0 |> <| k_tls_strategy := ∅ |>
    <| k_vip_host_ip := ∅ |> <| k_vip_ip_host := ∅ |> <| k_vip_config := k_vip_config kst_init |> <| k_vip_upstream := ∅ |>
    <| k_vip_pod_host := ∅ |> <| k_tracked_cgroups := ∅ |> <| k_proc_events := [] |>
    <| k_tls_offset_config := ∅ |> <| k_go_tls_offset_config := ∅ |> <| k_sni_check_mode := 0 |>.

(** An update by the control plane (pkg/ebpf/*.go): well-typed entries; of the
    real addresses it only removes some, and it sets the range of the fake IPs
    while there are none. *)
Record updates (s s' : kst) : Prop := {
  up_rest : but_user s' = but_user s;
  up_secrets : map_Forall (λ _ v, secret_ok v) (k_secret_map s');
  up_tgids : fits tracked_tgids_max_entries (k_tracked_tgids s');
  up_cgroups : fits tracked_cgroups_max_entries (k_tracked_cgroups s');
  up_hosts : hosts_ok s';
  up_ip_host : map_Forall (λ _ v, ip_host_ok v) (k_vip_ip_host s');
  up_upstream : k_vip_upstream s' ⊆ k_vip_upstream s;
  up_config : k_vip_config s' = k_vip_config s ∨ k_vip_upstream s' = ∅
}.

Inductive label := Program (c : call) | Evict | Migrate | Update.

Definition step (s : kst) (l : label) (s' : kst) : Prop :=
  match l with
  | Program c => call_ok c ∧ s' = run c s
  | Evict => evicts s s'
  | Migrate => migrates s s'
  | Update => updates s s'
  end.

(** The states the system can reach. *)
Inductive reachable : kst → Prop :=
  | reach_load : reachable kst_init
  | reach_step s l s' : reachable s → step s l s' → reachable s'.

(** *** Every step keeps the type of the state *)

Lemma keeps_run_state {A} (m : M A) R s : keeps kst_ok R m → kst_ok s → kst_ok (snd (m s)).
Proof using. intros Hm Hs. by destruct (Hm s Hs). Qed.

Lemma program_ok c s : csum_updates csum → call_ok c → kst_ok s → kst_ok (run c s).
Proof using.
  intros Hf Hc Hs. destruct c; cbn [run call_ok] in *; (eapply keeps_run_state; [|exact Hs]).
  - by apply keeps_enter_connect.
  - by apply keeps_exit_connect.
  - by apply keeps_close.
  - by apply keeps_exec.
  - by apply keeps_exit.
  - by apply keeps_evp_init.
  - by apply keeps_evp_ret.
  - by apply keeps_go_write.
  - by apply keeps_ssl_write.
  - by apply keeps_sni.
  - by apply keeps_bridge.
  - by apply keeps_set_state.
  - by apply keeps_egress.
  - destruct Hc. by apply keeps_dns_rewrite.
  - destruct Hc. by apply keeps_connect4.
  - destruct Hc. by apply keeps_connect6.
  - apply keeps_peer4.
  - apply keeps_peer6.
Qed.

Lemma evict_ok s s' : evicts s s' → kst_ok s → kst_ok s'.
Proof using.
  intros He Hs. destruct Hs eqn:E. destruct He.
  - apply set_conn_ip; [done|]. by apply all_delete.
  - apply set_evp; [done|]. by apply all_delete.
  - apply set_sock_host; [done|]. by apply all_delete.
  - apply set_sock_dst; [done|]. by apply all_delete.
  - apply set_conns; [done|]. by apply all_delete.
  - apply set_tc; [done|]. by apply all_delete.
  - apply set_tags; [done|]. by apply all_delete.
  - apply set_sni_state; [done|]. by apply all_delete.
  - apply set_sock; [done|]. by apply all_delete.
Qed.

Lemma migrate_ok s s' : migrates s s' → kst_ok s → kst_ok s'.
Proof using. intros [] []. by constructor. Qed.

Lemma update_ok s s' : updates s s' → kst_ok s → kst_ok s'.
Proof using.
  intros [B ? ? ? Hh Hi Hsub Hc] Hs. assert (Hu : upstreams_ok s').
  { destruct Hc as [Hc|Hc]; intros fk up E; [|by rewrite Hc in E].
    rewrite Hc. apply (ok_up s Hs). by eapply lookup_weaken. }
  assert (Hf : fits vip_upstream_max_entries (k_vip_upstream s')).
  { pose proof (ok_ups s Hs) as Hf. unfold fits in *. pose proof (map_subseteq_size _ _ Hsub). lia. }
  destruct s, s'. cbn in *. injection B as ->. intros. subst. destruct Hs. by constructor.
Qed.

Lemma step_ok s l s' : csum_updates csum → step s l s' → kst_ok s → kst_ok s'.
Proof using.
  intros Hf H Hs. destruct l; cbn [step] in H; [|by eapply evict_ok|by eapply migrate_ok|by eapply update_ok].
  destruct H as [Hc ->]. by apply program_ok.
Qed.

Lemma zeros_buf n : buf n (zeros n).
Proof using. split; [by unfold zeros; rewrite length_replicate|apply bytes_ok_zeros]. Qed.

Lemma init_ok : kst_ok kst_init.
Proof using.
  assert (Hz := AesFacts.zeros_block). constructor; try (intros ? ? E; done); try (by cbn).
  - constructor; [apply (zeros_buf 256)|by cbn|done|by apply Forall_replicate].
  - apply (zeros_buf 512).
  - constructor; try exact Hz; try apply (zeros_buf 128); [|apply patches_zero]. split; [apply patches_zero|exact Hz].
  - split; [done|by apply Forall_replicate].
  - apply (zeros_buf 2048).
Qed.

Lemma reachable_ok s : csum_updates csum → reachable s → kst_ok s.
Proof using.
  intros Hf. induction 1 as [|s l s' _ IH Hst]; [apply init_ok|by apply (step_ok s l s')].
Qed.

End Steps.

(** C24: in every state the system can reach, each entry of each map has the type
    its struct declares (sizes, ranges, at most four patches of at most 128 bytes,
    host names of 64 bytes), each HASH map the programs write holds at most its
    max_entries, and the real addresses kept for a fake IP are no fake IPs, and
    IPv4 addresses for a fake IPv4 one. *)
Theorem reachable_states_typed csum s : csum_updates csum → reachable csum s → kst_ok s.
Proof. apply reachable_ok. Qed.

(** The control plane reserves 240.0.0.1 for ab.c, which any pod has a secret
    for; a resolver's answer for it arrives, and the pod connects. *)
Definition sample_system : kst := sample_dns
  <| k_vip_ip_host := {[sample_fake := {| vi_host := pad_host [97; 98; 46; 99]; vi_host_len := 4; vi_flags := 0; vi_retired_at := 0 |}]} |>.
Definition sample_answer : call := Tc_dns (task_with 0 []) sample_packet.
Definition sample_connect : call := Connect4 (task_with 0 []) sample_ctx.

Lemma sample_updates : updates kst_init sample_system.
Proof.
  constructor; try (intros ? ? E; done); try done; [apply sample_hosts_ok| |by right].
  apply map_Forall_singleton. split; [done|by_compute].
Qed.

Lemma sample_task_ok : task_ok (task_with 0 []).
Proof. constructor; [apply task_with_mem_ok, Forall_nil_2|split; vm_compute; reflexivity|vm_compute; congruence]. Qed.

Lemma sample_calls_ok : call_ok sample_answer ∧ call_ok sample_connect.
Proof. split; (split; [apply sample_task_ok|]); [by_compute|apply sample_ctx_ok]. Qed.

Definition sample_end : kst := run kernel_csum sample_connect (run kernel_csum sample_answer sample_system).

Lemma sample_reachable : reachable kernel_csum sample_end.
Proof.
  destruct sample_calls_ok. apply (reach_step _ (run kernel_csum sample_answer sample_system) (Program sample_connect)); [|done].
  apply (reach_step _ sample_system (Program sample_answer)); [|done].
  apply (reach_step _ kst_init Update); [constructor|apply sample_updates].
Qed.

Lemma reachable_states_typed_witness :
  k_vip_sock_host sample_end !! 77 = Some (pad_host [97; 98; 46; 99]) ∧ kst_ok sample_end.
Proof.
  split; [vm_compute; reflexivity|].
  exact (reachable_states_typed kernel_csum sample_end kernel_csum_updates sample_reachable).
Defined.

End System.
