(* ===== verification/Refine.v ===== *)
(** * Secrets on their way out: an abstract machine and its refinement

    [Vault]: the abstract machine. Its state is the secrets each process holds
    for its next send, and those leaving on each connection; its policy says which
    secrets a pod may redeem and which may leave on a socket.
    [Refine]: the patches in xor_pending and tc_pending are a state of that
    machine, and every step of the system is a run of it. *)

From S2P Require Import Prelude Host GF128 Sni Dns VipAddr State Hooks HExtract XorPath Packet TcGhash TcEgress TcFacts TcpSend.
From S2P Require Import SendFacts Vip VipHooks DnsRewrite StateType Keeps Frames Inv InvSend InvTc System.
Import Host Types Kernel Keeps.

Module Vault.
Import TcpSend.

(** The keys of the secrets held per process, and leaving per connection. *)
Record vault := { held : gmap Z (list secret_key); leaving : gmap tc_dest_key (list secret_key) }.
#[export] Instance vault_eta : Eta vault := λ v, Build_vault (held v) (leaving v).

(** Which secrets a cgroup may redeem, and which may leave on a socket. *)
Record policy := { redeem : Z → secret_key → Prop; leave : sock → secret_key → Prop }.

(** What can happen; [who]: the process (tgid, cgroup) that acts, if any. A process
    comes to hold secrets its cgroup may redeem, four at most; it sends some of
    those it holds, to the connection of a socket they may leave on; held secrets
    may be forgotten and leaving ones be gone, nothing else. *)
Inductive act (P : policy) : option (Z * Z) → vault → vault → Prop :=
  | hold tgid cg ks v : ks ≠ [] → (length ks <= 4)%nat → Forall (redeem P cg) ks →
      act P (Some (tgid, cg)) v (v <| held := <[tgid := ks]> (held v) |>)
  | forget tgid cg v : act P (Some (tgid, cg)) v (v <| held := delete tgid (held v) |>)
  | send tgid cg sk had ks v : held v !! tgid = Some had → ks `sublist_of` had → ks ≠ [] → Forall (leave P sk) ks →
      act P (Some (tgid, cg)) v (v <| leaving := <[(sock_dst_addr sk, skc_num sk, cg) := ks]> (leaving v) |>)
  | gone k v : act P None v (v <| leaving := delete k (leaving v) |>).

End Vault.

Module Refine.
Import Vault Hooks HooksFacts HExtract XorPath TcEgress TcpSend Csums BridgeFacts StateType Inv InvSend InvTc Frames System.

Definition x_keys (x : xor_pending_val) : list secret_key := map p_key (take (Z.to_nat (xp_patch_count x)) (xp_patches x)).
Definition t_keys (v : tc_pending_val) : list secret_key := map p_key (take (Z.to_nat (tp_patch_count v)) (tp_patches v)).

(** The state as a vault, and its tables as a policy. *)
Definition on_way (v : tc_pending_val) : option (list secret_key) := if tp_active v then Some (t_keys v) else None.
Definition abs (s : kst) : vault := {| held := x_keys <$> k_xor_pending s; leaving := omap on_way (k_tc_pending s) |}.

Definition usable_secret (s : kst) (key : secret_key) : Prop :=
  ∃ val, k_secret_map s !! key = Some val ∧ 1 ≤ sv_len val ≤ SECRET_MAX_LEN.
Definition policy_of (s : kst) : policy :=
  {| redeem := λ cg key, usable_secret s key ∧ (is_Some (k_secret_acl s !! (cg, key)) ∨ k_secret_binding_mode s = SECRET_BINDING_AUDIT);
     leave := λ sk key, may_leave s sk (k_sni_check_mode s =? SNI_CHECK_AUDIT) key = true |}.

(** The process a step acts for. *)
Definition actor (l : label) : option (Z * Z) :=
  match l with
  | Program (Go_tls_write t _ _ _) | Program (Ssl_write t _ _ _) | Program (Sendmsg t _) => Some (tgid_of t, cgroup_id t)
  | _ => None
  end.

(** *** A write *)

Section Write.
Context (t : task) (s0 : kst) (Hs0 : kst_ok s0).

Definition redeemed (key : secret_key) : Prop := redeem (policy_of s0) (cgroup_id t) key.

(** An entry of secrets the caller may redeem. *)
Definition entry_ok (x : xor_pending_val) : Prop :=
  0 ≤ xp_patch_count x ≤ 4 ∧ length (xp_patches x) = 4%nat ∧ Forall redeemed (x_keys x).

(** During the chain: only the work area has changed, and holds such an entry. *)
Definition staging (s : kst) : Prop := core s = core s0 ∧ entry_ok (staged_pending (k_ghash_scratch s)).

Lemma staging_frame (f : kst → kst) s : core (f s) = core s → staged_pending (k_ghash_scratch (f s)) = staged_pending (k_ghash_scratch s) →
  staging s → staging (f s).
Proof using. unfold staging. intros -> ->. done. Qed.

Lemma staging_dbg i : keeps staging (λ _, True) (dbg_inc i).
Proof using. apply keeps_modify; [|done]. intros s. by apply staging_frame. Qed.

Lemma staging_gets {A} (f : kst → A) : (∀ s, f s = f (core s)) → keeps staging (λ a, a = f s0) (gets f).
Proof using. intros Hf. apply keeps_gets. intros s [H _]. by rewrite (Hf s), H, <- Hf. Qed.

Lemma staging_report key audit reason st mb sni : keeps staging (λ _, True) (report_secret_event t key audit reason st mb sni).
Proof using.
  unfold report_secret_event. destruct (ringbuf_free t); [|by apply keeps_ret].
  apply keeps_modify; [|done]. intros s. by apply staging_frame.
Qed.

Lemma staging_binding key : keeps staging
  (λ b, b = true → is_Some (k_secret_acl s0 !! (cgroup_id t, key)) ∨ k_secret_binding_mode s0 = SECRET_BINDING_AUDIT)
  (secret_binding_allows t key).
Proof using.
  unfold secret_binding_allows. eapply keeps_bind; [by apply (staging_gets k_secret_acl)|]. intros acl ->.
  destruct (k_secret_acl s0 !! _) eqn:E; [apply keeps_ret; intros _; left; by eexists|].
  eapply keeps_bind; [by apply (staging_gets k_secret_binding_mode)|]. intros mode ->.
  eapply keeps_bind; [apply staging_dbg|intros _ _]. eapply keeps_bind; [apply staging_report|intros _ _].
  apply keeps_ret. intros H. right. by apply Z.eqb_eq.
Qed.

Lemma entry_add x p : entry_ok x → redeemed (p_key p) → xp_patch_count x < 4 →
  entry_ok (x <| xp_patches := set_patch (Z.land (xp_patch_count x) (XOR_MAX_PATCHES - 1)) p (xp_patches x) |>
    <| xp_patch_count := xp_patch_count x +32 1 |>).
Proof using.
  intros (C & L & F) Hp Hc. unfold XOR_MAX_PATCHES. change (4 - 1) with (2 ^ 2 - 1).
  rewrite land_mask, (Z.mod_small (xp_patch_count x)), (u32_small (xp_patch_count x + 1)) by lia.
  split; [change (0 ≤ xp_patch_count x + 1 ≤ 4); lia|]. split.
  { change (length (<[Z.to_nat (xp_patch_count x) := p]> (xp_patches x)) = 4%nat). by rewrite length_insert. }
  change (Forall redeemed (map p_key (take (Z.to_nat (xp_patch_count x + 1)) (<[Z.to_nat (xp_patch_count x) := p]> (xp_patches x))))).
  replace (Z.to_nat (xp_patch_count x + 1)) with (S (Z.to_nat (xp_patch_count x))) by lia.
  rewrite (take_S_r _ _ p) by (apply list_lookup_insert_eq; lia). rewrite take_insert_ge by lia.
  rewrite map_app. apply Forall_app. split; [done|]. by apply Forall_cons.
Qed.

Lemma staging_patch p : redeemed (p_key p) → keeps staging (λ _, True) (xor_stage_patch p).
Proof using.
  intros Hp. apply keeps_modify; [|done]. intros s [Hc He]. cbv zeta.
  destruct (Z.ltb_spec (xp_patch_count (staged_pending (k_ghash_scratch s))) XOR_MAX_PATCHES); [|by split].
  split; [done|]. by apply entry_add.
Qed.

Lemma staging_match d m : keeps staging (λ _, True) (xor_match_patch t d m).
Proof using Hs0.
  unfold xor_match_patch. eapply keeps_bind; [by apply (staging_gets k_secret_map)|]. intros secrets ->.
  destruct (k_secret_map s0 !! m_key m) as [val|] eqn:Ev; [|by apply keeps_ret].
  destruct ((sv_len val =? 0) || (SECRET_MAX_LEN <? sv_len val)) eqn:El; [by apply keeps_ret|].
  eapply keeps_bind; [apply staging_binding|]. intros allowed Ha. destruct allowed; [|by apply keeps_ret]. cbn [negb].
  eapply keeps_bind; [apply staging_dbg|intros _ _]. cbv zeta.
  apply (keeps_bind (λ _, True)); [apply keeps_modify; [intros s; by apply staging_frame|done]|intros _ _].
  apply staging_patch. split; [|by apply Ha]. exists val. split; [done|].
  pose proof (so_len val (ok_secrets s0 Hs0 _ _ Ev)). zbool. lia.
Qed.

(** What a chain of invocations leaves: the entry stored, or nothing new. *)
Definition kept (s : kst) : Prop := core s = core s0.
Definition stored_by (s : kst) : Prop :=
  kept s ∨ ∃ x, entry_ok x ∧ xp_patch_count x ≠ 0 ∧
    core s = core (s0 <| k_xor_pending := snd (hash_update xor_pending_max_entries (tgid_of t) x (k_xor_pending s0)) |>).

Lemma init_staging s d : kept s → staging (snd (xor_init_staged t d s)).
Proof using.
  intros Hc. split; [exact Hc|]. change (entry_ok (staged_init t d (k_tls_conn_state s))). unfold staged_init.
  assert (H : ∀ x, xp_patch_count x = 0 → xp_patches x = replicate 4 xor_patch_zero → entry_ok x).
  { intros x E1 E2. unfold entry_ok, x_keys. rewrite E1, E2. split; [lia|]. by split. }
  repeat case_match; by apply H.
Qed.

Lemma finish_stored s : staging s → stored_by (snd (xor_finish t s)).
Proof using.
  intros [Hc He]. unfold xor_finish, dbg_inc. mrun. destruct (Z.eqb_spec (xp_patch_count (staged_pending (k_ghash_scratch s))) 0); [by left|].
  right. eexists. split; [exact He|]. split; [done|]. cbn [snd].
  assert (E : k_xor_pending s = k_xor_pending s0) by exact (f_equal k_xor_pending Hc). rewrite <- E.
  exact (f_equal (λ c, c <| k_xor_pending := snd (hash_update xor_pending_max_entries (tgid_of t)
    (staged_pending (k_ghash_scratch s)) (k_xor_pending s)) |>) Hc).
Qed.

Lemma invocation_stored s : kept s → (xor_current_match (k_scratch s) = 0 ∨ staging s) → 0 ≤ xor_current_match (k_scratch s) →
  let '(again, s') := bpf_xor_path t s in
  if again then staging s' ∧ 0 ≤ xor_current_match (k_scratch s') else stored_by s'.
Proof using Hs0.
  intros Hk Hi H0. unfold bpf_xor_path. set (d := k_scratch s) in *. set (mi := xor_current_match d) in *.
  unfold mbind at 1, m_bind at 1, gets at 1. fold d. fold mi. destruct (_ || _); [by left|]. unfold mbind, m_bind.
  destruct (when (mi =? 0) (xor_init_staged t d) s) as [u1 s1] eqn:E1.
  assert (H1 : staging s1).
  { unfold when in E1. destruct (Z.eqb_spec mi 0).
    - pose proof (init_staging s d Hk) as H. by rewrite E1 in H.
    - injection E1 as _ <-. by destruct Hi. }
  destruct (dbg_inc DBG_XOR_PATH_ENTERED s1) as [u2 s2] eqn:E2.
  assert (H2 : staging s2) by (destruct (staging_dbg DBG_XOR_PATH_ENTERED s1 H1) as [H _]; by rewrite E2 in H).
  set (m := nth_match _ _). destruct (xor_match_patch t d m s2) as [u3 s3] eqn:E3.
  assert (H3 : staging s3) by (destruct (staging_match d m s2 H2) as [H _]; by rewrite E3 in H).
  unfold modify at 1. set (s4 := s3 <| k_scratch := _ |>).
  assert (H4 : staging s4) by (destruct H3; by split).
  destruct (_ && _ && _); [split; [done|apply u32_range]|].
  pose proof (finish_stored s4 H4) as H. by destruct (xor_finish t s4).
Qed.

Lemma run_stored fuel : ∀ s, kept s → (xor_current_match (k_scratch s) = 0 ∨ staging s) → 0 ≤ xor_current_match (k_scratch s) →
  stored_by (snd (xor_path_run fuel t s)).
Proof using Hs0.
  induction fuel as [|fuel IH]; intros s Hk Hi H0; cbn [xor_path_run]; [by left|].
  unfold mbind, m_bind. pose proof (invocation_stored s Hk Hi H0) as H. destruct (bpf_xor_path t s) as [[] s1]; cbn [when].
  - destruct H as [H1 H2]. apply IH; [apply H1|by right|done].
  - exact H.
Qed.

End Write.

(** *** The index of the first match, until the chain starts *)

Definition at_start (s : kst) : Prop := xor_current_match (k_scratch s) = 0.

Lemma start_modify (f : kst → kst) : (∀ s, xor_current_match (k_scratch (f s)) = xor_current_match (k_scratch s)) →
  keeps at_start (λ _, True) (modify f).
Proof. intros Hf. apply keeps_modify; [|done]. intros s. unfold at_start. by rewrite Hf. Qed.

Ltac start_walk_with tac := keeps_walk_with ltac:(idtac; lazymatch goal with
  | |- keeps _ _ (gets k_scratch) => apply (keeps_gets _ (λ d, xor_current_match d = 0)); intros ? ?; assumption
  | |- keeps _ _ (gets _) => by apply keeps_gets
  | |- keeps _ _ (dbg_inc _) => by apply start_modify
  | |- keeps _ _ (modify _) => first [by apply start_modify | apply keeps_modify; [intros ? _; assumption|done]]
  | |- _ => tac end).

Lemma start_scan n : ∀ i lim off, keeps at_start (λ _, True) (prescan_scan n i lim off).
Proof. induction n as [|n IH]; intros i lim off; cbn [prescan_scan]; [by apply keeps_ret|]. start_walk_with ltac:(apply IH). Qed.

Lemma start_prescan t udp total : keeps at_start (λ _, True) (prescan t udp total).
Proof.
  unfold prescan. cbv zeta. apply keeps_loop; [|done]. intros i. unfold prescan_chunk. start_walk_with ltac:(apply start_scan).
Qed.

Lemma start_ossl t a o : keeps at_start (λ _, True) (ossl_read_gcm_h t a o).
Proof. unfold ossl_read_gcm_h. start_walk_with idtac. Qed.
Lemma start_extract t : keeps at_start (λ _, True) (bpf_h_extract t).
Proof. unfold bpf_h_extract, h_of_enc_ctx. start_walk_with ltac:(apply start_ossl). Qed.

Lemma keeps_both {A} (I J : kst → Prop) (m : M A) : keeps I (λ _, True) m → keeps J (λ _, True) m →
  keeps (λ s, I s ∧ J s) (λ _, True) m.
Proof. intros HI HJ s [Hi Hj]. destruct (HI s Hi), (HJ s Hj). done. Qed.

Section Uprobes.
Context (t : task) (s0 : kst) (Hs0 : kst_ok s0).

(** Before the chain: nothing has changed but scratch areas. *)
Definition begun (s : kst) : Prop := kept s0 s ∧ at_start s.

Lemma begun_keeps {A} (m : M A) : same m → keeps at_start (λ _, True) m → keeps begun (λ _, True) m.
Proof using. intros H1 H2. apply keeps_both; [apply H1|done]. Qed.

Lemma begun_at {A} (m : M A) s : same m → keeps at_start (λ _, True) m → begun s → begun (snd (m s)).
Proof using. intros H1 H2 Hs. by destruct (begun_keeps m H1 H2 s Hs). Qed.

Lemma begun_run fuel s : begun s → stored_by t s0 (snd (xor_path_run fuel t s)).
Proof using Hs0. intros [Hk Ha]. apply run_stored; [done..|by left|by rewrite Ha]. Qed.

Lemma begun_scan a n total ssl chain b udp s : kept s0 s → begun (snd ((write_scratch t a n total ssl chain b;; prescan t udp total) s)).
Proof using.
  intros Hk. unfold mbind, m_bind. pose proof (fixes_at core (write_scratch t a n total ssl chain b) s (still_same _ (still_write_scratch _ _ _ _ _ _ _))) as H.
  destruct (write_scratch t a n total ssl chain b s) as [u s1] eqn:E. cbn [snd] in H.
  apply begun_at; [auto with frames|apply start_prescan|]. split; [by unfold kept; rewrite H|].
  unfold write_scratch, dbg_inc in E. mrun. by injection E as _ <-.
Qed.

Lemma go_stored c d n : stored_by t s0 (snd (bpf_uprobe_go_tls_write t c d n s0)).
Proof using Hs0.
  unfold bpf_uprobe_go_tls_write. destruct (_ || _); [by left|]. cbv zeta.
  set (rl := if _ <? _ then _ else _). pose proof (begun_scan d rl (u32 n) c CHAIN_GO_TLS false d s0 eq_refl) as H.
  unfold mbind, m_bind in *. destruct (write_scratch _ _ _ _ _ _ _ s0) as [u1 s1]. destruct (prescan _ _ _ s1) as [u2 s2].
  cbn [snd] in H. destruct (prog_loaded t 1); [by apply begun_run|left; apply H].
Qed.

Lemma ssl_stored ssl d n : stored_by t s0 (snd (bpf_uprobe_ssl_write t ssl d n s0)).
Proof using Hs0.
  unfold bpf_uprobe_ssl_write. unfold mbind at 1, m_bind at 1, gets at 1.
  destruct (k_tracked_cgroups s0 !! cgroup_id t) as [v|]; [|by left].
  unfold mbind at 1, m_bind at 1. pose proof (fixes_at core (ssl_read_fd t ssl) s0 (still_same _ (still_read_fd _ _))) as H1.
  destruct (ssl_read_fd t ssl s0) as [fd s1]. cbn [snd] in H1. unfold mbind at 1, m_bind at 1, gets at 1.
  destruct (_ && _); [by left|]. destruct (_ || _); [by left|]. cbv zeta.
  set (rl := if _ <? _ then _ else _). pose proof (begun_scan d rl n ssl 0 (fd =? 0) d s1 H1) as H.
  unfold mbind, m_bind in *. destruct (write_scratch _ _ _ _ _ _ _ s1) as [u2 s2]. destruct (prescan _ _ _ s2) as [u3 s3].
  cbn [snd] in H. unfold gets. destruct (bool_decide _).
  - destruct (prog_loaded t 2); cbn [when]; [|left; apply H]. unfold mbind, m_bind.
    pose proof (begun_at (bpf_h_extract t) s3 (same_extract t) (start_extract t) H) as H3.
    destruct (bpf_h_extract t s3) as [again s4]. cbn [snd] in H3. destruct (again && _); [by apply begun_run|left; apply H3].
  - destruct (prog_loaded t 1); [by apply begun_run|left; apply H].
Qed.

End Uprobes.

(** *** The vault of the state a program leaves *)

Lemma abs_core s s' : core s' = core s → abs s' = abs s.
Proof. apply (TcGhashFacts.frame core abs). done. Qed.

Lemma abs_held f s : abs (s <| k_xor_pending := f |>) = (abs s) <| held := x_keys <$> f |>.
Proof. done. Qed.

Lemma stored_acts t s s' : stored_by t s s' → rtc (act (policy_of s) (Some (tgid_of t, cgroup_id t))) (abs s) (abs s').
Proof.
  intros [Hk|(x & He & Hc & E)]; [by rewrite (abs_core s s' Hk)|]. rewrite (abs_core _ s' E), abs_held.
  unfold hash_update. destruct (_ || _); cbn [snd]; [|apply rtc_refl].
  rewrite fmap_insert. apply rtc_once. destruct He as (C & L & F). apply (hold _ _ (cgroup_id t) (x_keys x) (abs s)); [| |exact F].
  - unfold x_keys. intros E0. apply (f_equal length) in E0. rewrite length_map, length_take in E0. cbn in E0. lia.
  - unfold x_keys. rewrite length_map, length_take. lia.
Qed.

Lemma abs_eq s s' v : v = abs s → k_xor_pending s' = k_xor_pending s → k_tc_pending s' = k_tc_pending s → v = abs s'.
Proof. intros -> E1 E2. unfold abs. by rewrite E1, E2. Qed.

Lemma filter_sublist {A} (f : A → bool) l : List.filter f l `sublist_of` l.
Proof. induction l as [|x l IH]; cbn; [done|]. destruct (f x); by constructor. Qed.

Lemma sublist_map {A B} (f : A → B) l k : l `sublist_of` k → map f l `sublist_of` map f k.
Proof. induction 1; cbn; by constructor. Qed.

(** The bridge: a send, and the process forgets what it held. *)
Lemma forget_acts P who v (b : bool) m : held v = x_keys <$> m →
  rtc (act P (Some who)) v (v <| held := x_keys <$> (if b then m else delete (fst who) m) |>).
Proof.
  destruct who as [tgid cg]. intros E. destruct b.
  - destruct v as [h l]. cbn in *. subst h. apply rtc_refl.
  - apply rtc_once. cbn [fst]. rewrite fmap_delete, <- E. apply forget.
Qed.

Lemma bridge_acts t sk s : kst_ok s →
  rtc (act (policy_of s) (Some (tgid_of t, cgroup_id t))) (abs s) (abs (snd (bpf_kprobe_tcp_sendmsg t sk s))).
Proof.
  intros Hs. destruct (k_xor_pending s !! tgid_of t) as [x|] eqn:Ex.
  2:{ unfold bpf_kprobe_tcp_sendmsg. mrun. rewrite Ex. apply rtc_refl. }
  destruct (ok_pending s Hs _ _ Ex) as [(C & L & _) _].
  destruct (decide (xp_patch_count x = 0)) as [E0|N0].
  { unfold bpf_kprobe_tcp_sendmsg. mrun. rewrite Ex, E0. apply rtc_refl. }
  destruct (stale t x) eqn:Est.
  { unfold bpf_kprobe_tcp_sendmsg, drop_xor_pending. mrun. rewrite Ex. destruct (Z.eqb_spec (xp_patch_count x) 0); [done|].
    fold (stale t x). rewrite Est. exact (forget_acts _ (tgid_of t, cgroup_id t) (abs s) false _ eq_refl). }
  destruct sk as [sk|].
  2:{ unfold bpf_kprobe_tcp_sendmsg. mrun. rewrite Ex. destruct (_ =? 0); [apply rtc_refl|].
      fold (stale t x). rewrite Est. apply rtc_refl. }
  pose proof (bridge_spec t sk s x Ex ltac:(lia) L Est) as H. cbn zeta in H.
  set (keep := List.filter _ _) in *. set (s' := snd _) in *. destruct H as [_ H].
  destruct (decide (keep = [])) as [Ek|Ek].
  { destruct H as (T & _ & X). destruct (decide _); [|by erewrite <- (abs_eq s s'); [apply rtc_refl|..]].
    pose proof (forget_acts (policy_of s) (tgid_of t, cgroup_id t) (abs s) false _ eq_refl) as H.
    unfold abs at 2. rewrite X, T. exact H. }
  destruct (fst (recover_h t x s)) as [c|].
  2:{ destruct H as (T & _ & X). rewrite decide_False in X by tauto. by erewrite <- (abs_eq s s'); [apply rtc_refl|..]. }
  destruct H as ((v & Hv & T) & _ & X).
  set (v1 := (abs s) <| leaving := <[dest_key t sk := map p_key keep]> (leaving (abs s)) |>).
  apply (rtc_l _ _ v1).
  - apply (send _ _ _ sk (x_keys x)).
    + unfold abs. cbn [held]. by rewrite lookup_fmap, Ex.
    + apply sublist_map, filter_sublist.
    + intros E. by apply map_eq_nil in E.
    + apply Forall_map, Forall_forall. intros p Hp. by apply list_elem_of_In, filter_In in Hp as [_ Hp].
  - pose proof (forget_acts (policy_of s) (tgid_of t, cgroup_id t) v1 (xp_memory_bio x) (k_xor_pending s) eq_refl) as H.
    unfold abs. rewrite X, T. destruct Hv as (K1 & K2 & _ & K4 & _).
    rewrite (omap_insert_Some _ _ _ _ (map p_key keep)); [exact H|]. unfold on_way. rewrite K4.
    exact (f_equal (λ l, Some (map p_key l)) K1).
Qed.

(** *** tc egress *)

(** Patches leave, and nothing else does. *)
Definition egress_run (s0 s : kst) : Prop := rtc (act (policy_of s0) None) (abs s0) (abs s).

Lemma egress_same {A} s0 (m : M A) : same m → keeps (egress_run s0) (λ _, True) m.
Proof. intros Hm s Hs. split; [|done]. unfold egress_run. by rewrite (abs_core s _ (fixes_at core m s Hm)). Qed.

Lemma omap_deactivate (k : tc_dest_key) (m : gmap tc_dest_key tc_pending_val) : omap on_way (alter deactivate k m) = delete k (omap on_way m).
Proof.
  apply map_eq. intros k'. rewrite lookup_omap. destruct (decide (k = k')) as [<-|Hne].
  - rewrite lookup_alter_eq, lookup_delete_eq. by destruct (m !! k).
  - by rewrite lookup_alter_ne, lookup_delete_ne, lookup_omap by done.
Qed.

Lemma egress_deactivate s0 k : keeps (egress_run s0) (λ _, True) (modify (λ s, s <| k_tc_pending := alter deactivate k (k_tc_pending s) |>)).
Proof.
  apply keeps_modify; [|done]. intros s Hs. eapply rtc_r; [exact Hs|]. unfold abs at 2. cbn [k_xor_pending k_tc_pending].
  change (act (policy_of s0) None (abs s) {| held := x_keys <$> k_xor_pending s; leaving := omap on_way (alter deactivate k (k_tc_pending s)) |}).
  rewrite omap_deactivate. apply (gone _ k (abs s)).
Qed.

Lemma egress_acts loaded p s : rtc (act (policy_of s) None) (abs s) (abs (snd (tc_egress_patch loaded p s))).
Proof.
  assert (H : keeps (egress_run s) (λ _, True) (tc_egress_patch loaded p)); [|by destruct (H s (rtc_refl _ _))].
  unfold tc_egress_patch, patch_segment, patch_record. keeps_walk_with ltac:(idtac; lazymatch goal with
    | |- keeps _ _ (gets _) => by apply keeps_gets
    | |- keeps _ _ (dbg_inc _) => by apply egress_same, fixes_modify
    | |- keeps _ _ (apply_deferred_tag _ _ _) => apply egress_same; auto with frames
    | |- keeps _ _ (stage_record _ _ _ _ _) => apply egress_same; auto with frames
    | |- keeps _ _ (apply_patches _ _ _ _ _ _ _ _) => apply egress_same; auto with frames
    | |- keeps _ _ (TcGhash.tc_ghash_update _) => apply egress_same; auto with frames
    | |- keeps _ _ (modify _) => apply egress_deactivate
    | |- _ => idtac end).
Qed.

(** *** Every step *)

Lemma same_acts {A} (m : M A) P who s : same m → rtc (act P who) (abs s) (abs (snd (m s))).
Proof. intros Hm. by rewrite (abs_core s _ (fixes_at core m s Hm)). Qed.

Section Steps.
Context (csum : Skb.skb → Z → Z → Z → option Skb.skb) (Hcsum : csum_updates csum).

Lemma program_acts c s : call_ok c → kst_ok s → rtc (act (policy_of s) (actor (Program c))) (abs s) (abs (run csum c s)).
Proof using Hcsum.
  intros Hc Hs. destruct c; cbn [run actor]; try (apply same_acts; by auto with frames).
  - by apply stored_acts, go_stored.
  - by apply stored_acts, ssl_stored.
  - by apply bridge_acts.
  - apply egress_acts.
  - destruct Hc as [[_ Hb _] Hp]. destruct (ok_dns_msg s Hs) as [L B].
    pose proof (RewriteFacts.rewrite_outcome csum t p s Hcsum (ok_up s Hs) (ok_hosts s Hs) Hb Hp B L) as H.
    destruct (Vip.tc_dns_rewrite csum t p s) as [[r p'] s']. destruct H as (B' & _). cbn [snd]. by rewrite (f_equal abs B' : abs s' = abs s).
Qed.

Lemma evict_acts s s' : evicts s s' → rtc (act (policy_of s) None) (abs s) (abs s').
Proof using.
  intros []; try apply rtc_refl. apply rtc_once. unfold abs at 2. cbn.
  rewrite omap_delete. apply (gone _ k (abs s)).
Qed.

Lemma step_acts s l s' : step csum s l s' → kst_ok s → rtc (act (policy_of s) (actor l)) (abs s) (abs s').
Proof using Hcsum.
  intros Hst Hs. destruct l; cbn [step] in Hst.
  - destruct Hst as [Hc ->]. by apply program_acts.
  - by apply evict_acts.
  - destruct Hst. apply rtc_refl.
  - destruct Hst as [B]. by rewrite (f_equal abs B : abs s' = abs s).
Qed.

End Steps.

(** C7: the system refines the vault: it starts empty, and every step of the
    system, by whatever program, eviction or update, is a run of the abstract
    machine under the policy of the tables at that time, by the process the step
    acts for. So a process holds only secrets its cgroup may redeem, got by a
    write of its own, and a connection carries only secrets its sender held that
    may leave on its socket. *)
Theorem system_refines_vault csum : csum_updates csum →
  abs kst_init = {| held := ∅; leaving := ∅ |} ∧
  ∀ s l s', reachable csum s → step csum s l s' → rtc (act (policy_of s) (actor l)) (abs s) (abs s').
Proof.
  intros Hf. split.
  - unfold abs. change (k_xor_pending kst_init) with (∅ : gmap Z xor_pending_val).
    change (k_tc_pending kst_init) with (∅ : gmap tc_dest_key tc_pending_val). by rewrite fmap_empty, omap_empty.
  - intros s l s' Hr Hst. by apply (step_acts csum Hf s l s'), (reachable_ok csum).
Qed.

(** A write of a placeholder by a Go program. *)
Definition sample_go : call := Go_tls_write (task_with 4096 XorPathFacts.sample_write) 77 4096 200.

Lemma sample_secret_update : updates kst_init XorPathFacts.sample_state.
Proof.
  constructor; try (intros ? ? E; done); try done; [|by right].
  apply map_Forall_singleton. constructor; [done|split; [done|by_compute]|split; [done|by_compute]|split; [done|by_compute]].
Qed.

Lemma system_refines_vault_witness :
  let s' := run DnsRewrite.RewriteFacts.kernel_csum sample_go XorPathFacts.sample_state in
  held (abs s') !! 7 = Some [XorPathFacts.sample_key] ∧
  rtc (act (policy_of XorPathFacts.sample_state) (Some (7, 3))) (abs XorPathFacts.sample_state) (abs s').
Proof.
  cbn zeta. split; [vm_compute; reflexivity|].
  apply (proj2 (system_refines_vault DnsRewrite.RewriteFacts.kernel_csum DnsRewrite.RewriteFacts.kernel_csum_updates)
    XorPathFacts.sample_state (Program sample_go)).
  - apply (reach_step _ kst_init Update); [constructor|apply sample_secret_update].
  - split; [|reflexivity]. apply Kernel.task_with_mem_ok. by_compute.
Defined.

End Refine.
