(* ===== verification/Progress.v ===== *)
(** * Programs end, and fake IPs work (pkg/ebpf/bpf/tls_uprobe.c)

    [TailCalls]: the chain of tail calls of bpf_xor_path ends by itself, far below
    the kernel's limit.
    [VipProgress]: a fake IP handed out to a pod leads somewhere: as long as the
    control plane keeps its reservation, a connect to it is sent to a real address. *)

From S2P Require Import Prelude Host GF128 Dns VipAddr State Hooks HExtract XorPath Packet TcGhash TcEgress TcpSend SendFacts Vip.
From S2P Require Import VipHooks DnsRewrite StateType Keeps Frames Inv InvSend InvTc System.
Import Host Types Kernel Keeps.

Module TailCalls.
Import Hooks XorPath Inv.

(** [n] invocations of bpf_xor_path, the last of which makes no tail call. *)
Inductive chain (t : task) : nat → kst → kst → Prop :=
  | chain_last s s' : bpf_xor_path t s = (false, s') → chain t 1 s s'
  | chain_more n s s1 s' : bpf_xor_path t s = (true, s1) → chain t n s1 s' → chain t (S n) s s'.

(** The matches of the scan that one chain handles. *)
Definition handled (d : scratch_buf) : Z := Z.min (xor_match_count d) XOR_MAX_MATCHES.

Section Area.
Context (t : task) (d : scratch_buf).
Abbreviation area := (λ s, k_scratch s = d).

Lemma area_modify (f : kst → kst) : (∀ s, k_scratch (f s) = k_scratch s) → keeps area (λ _, True) (modify f).
Proof using. intros Hf. apply keeps_modify; [|done]. intros s <-. apply Hf. Qed.
Lemma area_gets {A} (f : kst → A) : keeps area (λ _, True) (gets f).
Proof using. by apply keeps_gets. Qed.

Ltac area_walk := keeps_walk_with ltac:(first [apply area_gets | apply area_modify; intros ?; first [reflexivity | by case_match] | idtac]).

Lemma area_binding key : keeps area (λ _, True) (secret_binding_allows t key).
Proof using. unfold secret_binding_allows, report_secret_event. area_walk. Qed.

Lemma area_match m : keeps area (λ _, True) (xor_match_patch t d m).
Proof using.
  unfold xor_match_patch, xor_stage_patch, dbg_inc. cbv zeta.
  keeps_walk_with ltac:(first [apply area_binding | apply area_gets | apply area_modify; intros ?; first [reflexivity | by case_match] | idtac]).
Qed.

Lemma area_init : keeps area (λ _, True) (xor_init_staged t d).
Proof using. unfold xor_init_staged. area_walk. Qed.

Lemma area_finish : keeps area (λ _, True) (xor_finish t).
Proof using. unfold xor_finish, dbg_inc. area_walk. Qed.

End Area.

Lemma area_run {A} d (R : A → Prop) (m : M A) s a s' : keeps (λ s, k_scratch s = d) R m → m s = (a, s') → k_scratch s = d → k_scratch s' = d.
Proof. intros Hm E Hs. destruct (Hm s Hs) as [H _]. by rewrite E in H. Qed.

(** One invocation: it goes on exactly when a match is left, with the index moved. *)
Lemma invocation t s : let d := k_scratch s in let mi := xor_current_match d in 0 ≤ mi →
  ∃ s', bpf_xor_path t s = ((mi + 1 <? handled d) && prog_loaded t 1, s') ∧
    (mi + 1 < handled d → k_scratch s' = d <| xor_current_match := mi + 1 |>).
Proof.
  cbn zeta. intros Hmi. unfold bpf_xor_path, handled, XOR_MAX_MATCHES. set (d := k_scratch s) in *. set (mi := xor_current_match d) in *.
  unfold mbind at 1, m_bind at 1, gets at 1. fold d. fold mi.
  destruct (Z.leb_spec (xor_match_count d) mi), (Z.leb_spec 4 mi); cbn [orb].
  1-3: eexists; split; [|lia]; destruct (Z.ltb_spec (mi + 1) (Z.min (xor_match_count d) 4)); [lia|reflexivity].
  unfold mbind, m_bind.
  destruct (when (mi =? 0) (xor_init_staged t d) s) as [u1 s1] eqn:E1.
  assert (H1 : k_scratch s1 = d).
  { unfold when in E1. destruct (mi =? 0); [|by injection E1 as _ <-]. by apply (area_run d _ _ _ _ _ (area_init t d) E1). }
  destruct (dbg_inc DBG_XOR_PATH_ENTERED s1) as [u2 s2] eqn:E2. assert (H2 : k_scratch s2 = d) by (by injection E2 as _ <-).
  destruct (xor_match_patch t d _ s2) as [u3 s3] eqn:E3. pose proof (area_run d _ _ _ _ _ (area_match t d _) E3 H2) as H3.
  unfold modify at 1. rewrite (u32_small (mi + 1)), H3 by lia.
  set (s4 := s3 <| k_scratch := d <| xor_current_match := mi + 1 |> |>).
  replace (mi + 1 <? Z.min (xor_match_count d) 4) with ((mi + 1 <? xor_match_count d) && (mi + 1 <? 4))
    by (destruct (Z.ltb_spec (mi + 1) (xor_match_count d)), (Z.ltb_spec (mi + 1) 4), (Z.ltb_spec (mi + 1) (Z.min (xor_match_count d) 4)); done || lia).
  destruct ((mi + 1 <? xor_match_count d) && (mi + 1 <? 4) && prog_loaded t 1) eqn:Eg; [by exists s4|].
  destruct (xor_finish t s4) as [u5 s5] eqn:E5. exists s5. split; [done|]. intros _.
  by apply (area_run (d <| xor_current_match := mi + 1 |>) _ _ _ _ _ (area_finish t _) E5).
Qed.

Lemma run_chain t n s s' : chain t n s s' → ∀ fuel, (n ≤ fuel)%nat → xor_path_run fuel t s = ((), s').
Proof.
  induction 1 as [s s' E|n s s1 s' E _ IH]; intros [|fuel] Hf; [lia| |lia|]; cbn [xor_path_run]; unfold mbind, m_bind; rewrite E.
  - done.
  - apply IH. lia.
Qed.

Lemma chain_exists t k : ∀ s, let d := k_scratch s in 0 ≤ xor_current_match d → handled d - xor_current_match d ≤ Z.of_nat k →
  ∃ n s', chain t n s s' ∧ Z.of_nat n ≤ Z.max 1 (handled d - xor_current_match d) ∧
    (prog_loaded t 1 = true → Z.of_nat n = Z.max 1 (handled d - xor_current_match d)).
Proof.
  induction k as [|k IH]; intros s; cbn zeta; intros Hc Hk; destruct (invocation t s Hc) as (s1 & E & H1).
  - exists 1%nat, s1. destruct (Z.ltb_spec (xor_current_match (k_scratch s) + 1) (handled (k_scratch s))); [lia|].
    split; [by apply chain_last|]. split; lia.
  - destruct (Z.ltb_spec (xor_current_match (k_scratch s) + 1) (handled (k_scratch s))); cbn [andb] in E.
    2:{ exists 1%nat, s1. split; [by apply chain_last|]. split; lia. }
    destruct (prog_loaded t 1) eqn:El.
    2:{ exists 1%nat, s1. split; [by apply chain_last|]. split; [lia|done]. }
    assert (H2 : handled (k_scratch s1) = handled (k_scratch s) ∧
      xor_current_match (k_scratch s1) = xor_current_match (k_scratch s) + 1) by (rewrite H1; done).
    destruct H2 as [H2 H3]. destruct (IH s1) as (n & s' & Hch & Hn & Hl); [lia..|]. rewrite H2, H3 in *.
    exists (S n), s'. split; [by eapply chain_more|]. split; [lia|]. intros Hp. specialize (Hl Hp). lia.
Qed.

(** C25: the XOR path ends by itself: from the scan's result, the chain of tail
    calls makes one invocation per match (one at least, four at most) when the
    program is in the array, fewer only when it is not, and any number of
    invocations the kernel allows from four on, its limit of 33 (or the 32 that
    the key extraction leaves) among them, gives the same result. *)
Theorem xor_chain_ends t s : xor_current_match (k_scratch s) = 0 →
  ∃ n s', chain t n s s' ∧ (n ≤ 4 < pred MAX_TAIL_CALL_CNT)%nat ∧
    (prog_loaded t 1 = true → Z.of_nat n = Z.max 1 (handled (k_scratch s))) ∧
    ∀ fuel, (n ≤ fuel)%nat → xor_path_run fuel t s = ((), s').
Proof.
  intros Hc. destruct (chain_exists t 4 s) as (n & s' & Hch & Hn & Hl); rewrite Hc in *.
  - done.
  - unfold handled, XOR_MAX_MATCHES. lia.
  - exists n, s'. split; [done|]. split; [unfold handled, XOR_MAX_MATCHES, MAX_TAIL_CALL_CNT in *; cbn; lia|].
    split; [intros Hp; rewrite Hl by done; lia|]. by apply run_chain.
Qed.

(** The write of XorPath's sample, scanned. *)
Definition sample_scanned : kst :=
  snd ((write_scratch (task_with 4096 XorPathFacts.sample_write) 4096 200 200 77 CHAIN_GO_TLS false;;
        prescan (task_with 4096 XorPathFacts.sample_write) 4096 200) XorPathFacts.sample_state).

Lemma xor_chain_ends_witness :
  handled (k_scratch sample_scanned) = 1 ∧
  ∃ n s', chain (task_with 4096 XorPathFacts.sample_write) n sample_scanned s' ∧ Z.of_nat n = 1 ∧
    xor_path_run 33 (task_with 4096 XorPathFacts.sample_write) sample_scanned = ((), s').
Proof.
  split; [vm_compute; reflexivity|].
  destruct (xor_chain_ends (task_with 4096 XorPathFacts.sample_write) sample_scanned) as (n & s' & H1 & H2 & H3 & H4);
    [vm_compute; reflexivity|].
  specialize (H3 eq_refl). change (Z.of_nat n = Z.max 1 (handled (k_scratch sample_scanned))) in H3.
  assert (E : handled (k_scratch sample_scanned) = 1) by (vm_compute; reflexivity). rewrite E in H3.
  exists n, s'. split; [exact H1|]. split; [exact H3|]. apply H4. lia.
Defined.

End TailCalls.

Module VipProgress.
Import Dns DnsAnswers VipAddr Hooks HExtract XorPath TcGhash TcEgress TcpSend Vip VipFacts HooksFacts ConnectFacts Csums RewriteFacts Skb StateType Inv InvSend InvVip InvTc Frames System.

(** *** Which programs touch the real addresses *)

Definition vip_tables (s : kst) := (k_vip_config s, k_vip_ip_host s, k_vip_host_ip s).
(** The tables that say what pods may redeem, which programs only read too. *)
Definition grant_tables (s : kst) := (k_secret_map s, k_secret_acl s, k_secret_binding_mode s, k_vip_pod_host s, k_sni_check_mode s).
Definition vip_part (s : kst) := (k_vip_upstream s, (vip_tables s, grant_tables s)).

Lemma part_same {A} (m : M A) v : same m → keeps (λ s, vip_part s = v) (λ _, True) m.
Proof. intros H. by apply (fixes_through core vip_part m). Qed.

Lemma part_gets {A} v (f : kst → A) : keeps (λ s, vip_part s = v) (λ _, True) (gets f).
Proof. by apply keeps_gets. Qed.
Lemma part_modify v (f : kst → kst) : (∀ s, vip_part (f s) = vip_part s) → keeps (λ s, vip_part s = v) (λ _, True) (modify f).
Proof. intros Hf. apply keeps_modify; [|done]. intros s <-. apply Hf. Qed.

Ltac part_walk_with tac := keeps_walk_with ltac:(idtac; lazymatch goal with
  | |- keeps _ _ (gets _) => apply part_gets
  | |- keeps _ _ (modify _) => by apply part_modify
  | |- keeps _ _ (dbg_inc _) => by apply part_modify
  | |- keeps _ _ (on_staged _) => by apply part_modify
  | |- _ => tac end).

Lemma part_xor_run t v fuel : keeps (λ s, vip_part s = v) (λ _, True) (xor_path_run fuel t).
Proof.
  induction fuel as [|fuel IH]; cbn [xor_path_run]; [by apply keeps_ret|]. unfold bpf_xor_path, xor_finish.
  part_walk_with ltac:(idtac; lazymatch goal with
    | |- keeps _ _ (xor_path_run _ _) => apply IH
    | |- keeps _ _ (xor_init_staged _ _) => apply part_same; auto with frames
    | |- keeps _ _ (xor_match_patch _ _ _) => apply part_same; auto with frames
    | |- _ => idtac end).
Qed.

Ltac write_leaf := idtac; lazymatch goal with
  | |- keeps _ _ (write_scratch _ _ _ _ _ _ _) => apply part_same; auto with frames
  | |- keeps _ _ (prescan _ _ _) => apply part_same; auto with frames
  | |- keeps _ _ (ssl_read_fd _ _) => apply part_same; auto with frames
  | |- keeps _ _ (bpf_h_extract _) => apply part_same; auto with frames
  | |- keeps _ _ (xor_path_run _ _) => apply part_xor_run
  | |- _ => idtac end.

Lemma part_go_write t c d n v : keeps (λ s, vip_part s = v) (λ _, True) (bpf_uprobe_go_tls_write t c d n).
Proof. unfold bpf_uprobe_go_tls_write. part_walk_with write_leaf. Qed.
Lemma part_ssl_write t c d n v : keeps (λ s, vip_part s = v) (λ _, True) (bpf_uprobe_ssl_write t c d n).
Proof. unfold bpf_uprobe_ssl_write. part_walk_with write_leaf. Qed.

Lemma part_bridge t sk v : keeps (λ s, vip_part s = v) (λ _, True) (bpf_kprobe_tcp_sendmsg t sk).
Proof.
  unfold bpf_kprobe_tcp_sendmsg, bridge_commit, drop_xor_pending. part_walk_with ltac:(idtac; lazymatch goal with
    | |- keeps _ _ (socket_filter_patches _ _ _) => apply part_same; auto with frames
    | |- keeps _ _ (recover_h _ _) => apply part_same; auto with frames
    | |- keeps _ _ (store_conn _ _) => apply part_same; auto with frames
    | |- _ => idtac end).
Qed.

Lemma part_egress loaded p v : keeps (λ s, vip_part s = v) (λ _, True) (tc_egress_patch loaded p).
Proof.
  unfold tc_egress_patch, patch_segment, patch_record. part_walk_with ltac:(idtac; lazymatch goal with
    | |- keeps _ _ (apply_deferred_tag _ _ _) => apply part_same; auto with frames
    | |- keeps _ _ (stage_record _ _ _ _ _) => apply part_same; auto with frames
    | |- keeps _ _ (apply_patches _ _ _ _ _ _ _ _) => apply part_same; auto with frames
    | |- keeps _ _ (tc_ghash_update _) => apply part_same; auto with frames
    | |- _ => idtac end).
Qed.

Lemma part_at {A} (m : M A) s : (∀ v, keeps (λ s, vip_part s = v) (λ _, True) m) → vip_part (snd (m s)) = vip_part s.
Proof. intros H. by destruct (H (vip_part s) s eq_refl). Qed.

Section Steps.
Context (csum : skb → Z → Z → Z → option skb) (Hcsum : csum_updates csum).

Lemma program_part c s : (∃ t p, c = Tc_dns t p) ∨ vip_part (run csum c s) = vip_part s.
Proof using.
  destruct c; cbn [run]; first [left; by do 2 eexists | right; apply part_at; intros v]; try (apply part_same; by auto with frames).
  - apply part_go_write.
  - apply part_ssl_write.
  - apply part_bridge.
  - apply part_egress.
Qed.

(** A program keeps the tables, and every usable fake IP usable. *)
Lemma program_tables c s : call_ok c → kst_ok s →
  (vip_tables (run csum c s), grant_tables (run csum c s)) = (vip_tables s, grant_tables s) ∧ ∀ fk, usable s fk → usable (run csum c s) fk.
Proof using Hcsum.
  intros Hc Hs. destruct (program_part c s) as [(t & p & ->)|H].
  - destruct Hc as [[_ Hb _] Hp]. destruct (ok_dns_msg s Hs) as [L B]. cbn [run].
    pose proof (rewrite_outcome csum t p s Hcsum (ok_up s Hs) (ok_hosts s Hs) Hb Hp B L) as Ho.
    destruct (tc_dns_rewrite csum t p s) as [[r p'] s']. destruct Ho as (Hd & _ & Hl & _).
    split; [exact (f_equal (λ s, (vip_tables s, grant_tables s)) Hd)|exact Hl].
  - split; [exact (f_equal snd H)|]. intros fk. unfold usable. by rewrite (f_equal fst H : k_vip_upstream (run csum c s) = k_vip_upstream s).
Qed.

Lemma program_kept c s : call_ok c → kst_ok s →
  vip_tables (run csum c s) = vip_tables s ∧ ∀ fk, usable s fk → usable (run csum c s) fk.
Proof using Hcsum. intros Hc Hs. destruct (program_tables c s Hc Hs) as [E H]. by split; [exact (f_equal fst E)|]. Qed.

Lemma program_grants c s : call_ok c → kst_ok s → grant_tables (run csum c s) = grant_tables s.
Proof using Hcsum. intros Hc Hs. exact (f_equal snd (proj1 (program_tables c s Hc Hs))). Qed.

(** A step in which the control plane leaves the fake IP [fk] alone. *)
Definition leaves (fk : addr16) (s s' : kst) : Prop :=
  ∃ l, step csum s l s' ∧
    (l = Update → k_vip_config s' = k_vip_config s ∧ k_vip_upstream s' !! fk = k_vip_upstream s !! fk).

Lemma leaves_kept fk s s' : leaves fk s s' → kst_ok s → usable s fk →
  kst_ok s' ∧ k_vip_config s' = k_vip_config s ∧ usable s' fk.
Proof using Hcsum.
  intros (l & Hst & Hl) Hs Hu. split; [by apply (step_ok csum s l s')|]. destruct l; cbn [step] in Hst.
  - destruct Hst as [Hc ->]. destruct (program_kept c s Hc Hs) as [H1 H2]. injection H1 as H1 _ _. auto.
  - by destruct Hst.
  - by destruct Hst.
  - destruct (Hl eq_refl) as [H1 H2]. split; [done|]. unfold usable. by rewrite H2.
Qed.

Lemma run_kept fk s s' : rtc (leaves fk) s s' → kst_ok s → usable s fk →
  kst_ok s' ∧ k_vip_config s' = k_vip_config s ∧ usable s' fk.
Proof using Hcsum.
  induction 1 as [s|s s1 s' Hst _ IH]; intros Hs Hu; [done|].
  destruct (leaves_kept fk s s1 Hst Hs Hu) as (H1 & H2 & H3). destruct (IH H1 H3) as (? & ? & ?). split_and!; congruence.
Qed.

End Steps.

(** *** A connect finds a target *)

Lemma target_exists t s fk ih : task_ok t → upstreams_ok s → usable s fk → k_vip_ip_host s !! fk = Some ih →
  vip_addr_v4mapped fk = true → ∃ real, vip_target t s fk = Some (ih, real).
Proof.
  intros [_ Hb Hr] Hu (up & Eu & Hl) Ei Hf. destruct (Hu fk up Eu) as [Hok Hreal].
  unfold vip_target. rewrite Ei, Eu. pose proof (pick_spec up (boot_ns t) (prandom t) Hok ltac:(lia) Hr) as Hp.
  destruct (vip_upstream_pick up _ _) as [real|].
  - destruct Hp as (sl & Hin & Hlv & <- & _). rewrite Forall_forall in Hreal.
    destruct (Hreal sl Hin Hlv) as [_ H4]. rewrite (H4 Hf), Hf. by eexists.
  - apply Exists_exists in Hl as (sl & Hin & Hlv). by destruct (Hp sl Hin).
Qed.

Lemma connect4_redirects t ctx s ih : task_ok t → ctx_ok ctx → upstreams_ok s → usable s (dst4 ctx) →
  vip_addr_in_range (k_vip_config s) (dst4 ctx) = true → k_vip_ip_host s !! dst4 ctx = Some ih →
  ∃ ctx' s', vip_connect4 t ctx s = ((1, ctx'), s').
Proof.
  intros Ht (L & B & _) Hu Hus Hr Hi.
  destruct (target_exists t s (dst4 ctx) ih Ht Hu Hus Hi) as [real E]; [by apply mapped_is_v4mapped|].
  unfold vip_connect4, connect_hook, vip_redirect. fold (dst4 ctx). mrun. rewrite Hr. cbn [negb]. rewrite E.
  repeat case_match; simplify_eq; try done; by do 2 eexists.
Qed.

(** The packet [p] was an answer in which the pod is given the fake IP [fk] in
    place of some real address. *)
Definition given (t : task) (s : kst) (p : skb) (s' : kst) (p' : skb) (fk : addr16) : Prop :=
  ∃ h n has_csum six ls hv rrs,
    let rs := real_records (k_vip_config s) six (listed (addr_type six) (answers_at ls) rrs) in
    asked s (d_pod h) (message s p h (n - 8)) (n - 8) six ls hv rrs ∧
    handed_out t s p s' p' (d_l4_off h) n has_csum six hv rs ∧
    fk = fake_of six hv ∧ Exists (λ r, vip_addr_unspecified (vip_record_addr r six) = false) rs.

Lemma given_usable t s p s' p' fk : given t s p s' p' fk → usable s' fk ∧ vip_addr_in_range (k_vip_config s) fk = true.
Proof.
  intros (h & n & b & six & ls & hv & rrs & Ha & Ho & -> & Hr). split; [|apply Ha].
  eexists. split; [rewrite (ho_kept _ _ _ _ _ _ _ _ _ _ _ Ho); apply lookup_insert_eq|by apply (ho_live _ _ _ _ _ _ _ _ _ _ _ Ho)].
Qed.

(** A connect to a usable fake IPv4 that is reserved is sent to one of its addresses. *)
Lemma usable_connects t ctx s : kst_ok s → usable s (dst4 ctx) → vip_addr_in_range (k_vip_config s) (dst4 ctx) = true →
  is_Some (k_vip_ip_host s !! dst4 ctx) → task_ok t → ctx_ok ctx →
  ∃ ctx' s', vip_connect4 t ctx s = ((1, ctx'), s') ∧ target t s (dst4 ctx) (dst4 ctx').
Proof.
  intros Hs Hus Hr [ih Hi] Ht Hctx.
  destruct (connect4_redirects t ctx s ih Ht Hctx (ok_up s Hs) Hus Hr Hi) as (ctx' & s' & E). exists ctx', s'. split; [done|].
  destruct Ht as [_ Hb Hpr]. destruct Hctx as (L & B & A).
  assert (Hset : ∀ real, target t s (dst4 ctx) real → dst4 (ctx <| user_ip4 := slice real 12 4 |>) = real ∧
    user_port (ctx <| user_ip4 := slice real 12 4 |>) = user_port ctx).
  { intros real Hta. split; [|done]. apply (target_mapped t s (user_ip4 ctx) real (ok_up s Hs) L B Hta). }
  pose proof (connect_hook_connected t s ctx dst4 (λ real, ctx <| user_ip4 := slice real 12 4 |>) (ok_up s Hs) ltac:(lia) Hpr Hset) as H.
  change (connect_hook t ctx (dst4 ctx) (λ real, ctx <| user_ip4 := slice real 12 4 |>) s) with (vip_connect4 t ctx s) in H.
  rewrite E in H. unfold connected in H. rewrite Hr in H.
  by destruct H as [_ [(? & _)|(_ & ? & _)]].
Qed.

(** The state after the answer. *)
Lemma given_state csum t p s s1 p' fk : csum_updates csum → reachable csum s → call_ok (Tc_dns t p) →
  s1 = run csum (Tc_dns t p) s → given t s p s1 p' fk →
  kst_ok s1 ∧ usable s1 fk ∧ vip_addr_in_range (k_vip_config s1) fk = true.
Proof.
  intros Hf Hs Hc -> Hg. apply (reachable_ok csum s Hf) in Hs. destruct (given_usable _ _ _ _ _ _ Hg) as [Hus Hr].
  split; [by apply program_ok|]. split; [done|]. destruct (program_kept csum Hf _ s Hc Hs) as [E _]. by rewrite (f_equal (λ x, x.1.1) E : k_vip_config (run csum (Tc_dns t p) s) = k_vip_config s).
Qed.

(** A fake IP works: after a pod was given the fake IPv4 address [fk] in an
    answer with a real address, whatever the programs do, whatever is evicted and
    whatever else the control plane updates, a connect to [fk] is redirected to a
    real address recorded for it (never refused), as long as the control plane
    keeps the range and [fk]'s reservation and addresses. *)
Theorem given_fake_ip_connects csum t p s s1 p' fk s2 t' ctx :
  csum_updates csum → reachable csum s → call_ok (Tc_dns t p) →
  s1 = run csum (Tc_dns t p) s → given t s p s1 p' fk →
  rtc (leaves csum fk) s1 s2 → is_Some (k_vip_ip_host s2 !! fk) →
  task_ok t' → ctx_ok ctx → dst4 ctx = fk →
  ∃ ctx' s3, vip_connect4 t' ctx s2 = ((1, ctx'), s3) ∧ target t' s2 fk (dst4 ctx').
Proof.
  intros Hf Hs Hc E1 Hg Hrun Hi Ht Hctx <-. destruct (given_state csum t p s s1 p' _ Hf Hs Hc E1 Hg) as (Hs1 & Hus & Hr).
  destruct (run_kept csum Hf _ s1 s2 Hrun Hs1 Hus) as (Hs2 & Ec2 & Hus2). rewrite <- Ec2 in Hr. by apply usable_connects.
Qed.

(** *** A run *)

Lemma record_unspecified now six rs : ∀ up, Forall (λ r, vip_addr_unspecified (vip_record_addr r six) = true) rs →
  record_all now six rs up = up.
Proof.
  induction rs as [|r rs IH]; intros up H; [done|]. apply Forall_cons in H as [Hr H].
  unfold record_all. cbn [fold_left]. unfold vip_upstream_record at 2. rewrite Hr, orb_true_r. by apply IH.
Qed.

Definition sample_packet' : skb := snd (fst (tc_dns_rewrite kernel_csum (task_with 0 []) sample_packet sample_system)).
Definition sample_given : kst := run kernel_csum sample_answer sample_system.

Lemma sample_is_given : given (task_with 0 []) sample_system sample_packet sample_given sample_packet' sample_fake.
Proof.
  assert (Hu : upstreams_ok sample_system) by (apply (ok_up _ (update_ok kst_init sample_system sample_updates init_ok))).
  pose proof (rewrite_outcome kernel_csum (task_with 0 []) sample_packet sample_system kernel_csum_updates Hu sample_hosts_ok
    ltac:(split; vm_compute; reflexivity) ltac:(by_compute) ltac:(by_compute) ltac:(vm_compute; reflexivity)) as H.
  assert (E : tc_dns_rewrite kernel_csum (task_with 0 []) sample_packet sample_system = ((TC_PASS, sample_packet'), sample_given)).
  { assert (Er : fst (fst (tc_dns_rewrite kernel_csum (task_with 0 []) sample_packet sample_system)) = TC_PASS) by (vm_compute; reflexivity).
    unfold sample_packet', sample_given, sample_answer, run. destruct (tc_dns_rewrite _ _ _ _) as [[r p'] s']. cbn in *. by rewrite Er. }
  rewrite E in H. destruct H as (_ & _ & _ & [(_ & Ep & _)|[(Ep & _)|(_ & h & udp & six & ls & hv & rrs & _ & _ & _ & Ha & Ho)]]).
  { apply (f_equal (λ p, (sb_data p).[62])) in Ep. vm_compute in Ep. discriminate Ep. }
  { discriminate Ep. }
  exists h, (u16_at udp 4), (negb (u16_at udp 6 =? 0)), six, ls, hv, rrs. cbn zeta. split; [exact Ha|]. split; [exact Ho|].
  set (rs := real_records _ _ _) in *. pose proof (ho_kept _ _ _ _ _ _ _ _ _ _ _ Ho) as Hk.
  assert (Ev : existsb (λ sl, negb (expires_at sl =? 0)) (default [] (k_vip_upstream sample_given !! sample_fake)) = true)
    by (vm_compute; reflexivity).
  rewrite Hk in Ev. change (k_vip_upstream sample_system) with (∅ : gmap addr16 (list vip_upstream_slot)) in Ev.
  rewrite lookup_empty in Ev. destruct (decide (fake_of six hv = sample_fake)) as [Ef|Nf].
  2:{ rewrite lookup_insert_ne, lookup_empty in Ev by exact Nf. discriminate Ev. }
  rewrite Ef, lookup_insert_eq in Ev. split; [symmetry; exact Ef|].
  destruct (decide (Forall (λ r, vip_addr_unspecified (vip_record_addr r six) = true) rs)) as [Hall|Hex].
  - cbn [default from_option id] in Ev. rewrite (record_unspecified _ _ _ _ Hall) in Ev. discriminate Ev.
  - apply not_Forall_Exists in Hex; [|apply _]. eapply Exists_impl; [exact Hex|]. intros r Hr. by apply not_true_is_false.
Qed.

(** The pod connects after a socket was closed and an entry evicted. *)
Definition sample_later : kst :=
  let s := run kernel_csum (Enter_close (task_with 0 []) 4) sample_given in s <| k_sni_state := delete 900 (k_sni_state s) |>.

Lemma given_fake_ip_connects_witness :
  ∃ ctx' s3, vip_connect4 (task_with 0 []) sample_ctx sample_later = ((1, ctx'), s3) ∧
    target (task_with 0 []) sample_later sample_fake (dst4 ctx').
Proof.
  apply (given_fake_ip_connects kernel_csum (task_with 0 []) sample_packet sample_system sample_given sample_packet' sample_fake).
  - apply kernel_csum_updates.
  - apply (reach_step _ kst_init Update); [constructor|apply sample_updates].
  - apply sample_calls_ok.
  - reflexivity.
  - apply sample_is_given.
  - apply (rtc_l _ _ (run kernel_csum (Enter_close (task_with 0 []) 4) sample_given)).
    + exists (Program (Enter_close (task_with 0 []) 4)). by split.
    + apply rtc_once. exists Evict. split; [apply evict_sni|done].
  - apply (bool_decide_unpack _). vm_compute. exact I.
  - apply sample_task_ok.
  - apply sample_ctx_ok.
  - reflexivity.
Defined.

End VipProgress.
