(* ===== verification/Between.v ===== *)
(** * What runs between a send and its packet

    [Between]: programs that run for other processes and other connections leave a
    write handed to tc, and the key of its connection, where they are. *)

From S2P Require Import Prelude Host GF128 State Hooks HExtract XorPath Packet TcGhash TcEgress TcpSend Vip VipHooks DnsRewrite.
From S2P Require Import StateType Keeps Frames Inv InvSend InvTc System.
Import Host Types Kernel Keeps StateType.

Module Between.
Import Hooks HExtract XorPath TcGhash TcEgress TcpSend Vip Csums RewriteFacts Frames System.

Section Line.
(** The key of a connection in tc_pending, and in tls_conn_state. *)
Context (dest : tc_dest_key) (ck : tls_conn_key).

(** The entry of the write, its deferred tag, and the connection's key. *)
Definition line (s : kst) := (k_tc_pending s !! dest, k_tc_tag_pending s !! dest, k_tls_conn_state s !! ck).

Lemma line_still {A} (m : M A) : still m → fixes line m.
Proof using. by apply fixes_through. Qed.

Ltac line_walk_with tac := try intros ?c; cbv zeta; keeps_walk_with ltac:(idtac; lazymatch goal with
  | |- keeps _ _ (gets _) => apply fixes_gets
  | |- keeps _ _ (dbg_inc _) => by apply fixes_modify
  | |- keeps _ _ (on_staged _) => by apply fixes_modify
  | |- keeps _ _ (modify _) => first [by apply fixes_modify | tac]
  | |- _ => tac end).
Ltac line_still := apply line_still; by auto with frames.

(** *** Writes and sends of other processes *)

Lemma line_conn t ptr c : tgid_of t ≠ fst ck →
  fixes line (modify (λ s, s <| k_tls_conn_state := <[(tgid_of t, ptr) := c]> (k_tls_conn_state s) |>)).
Proof using. intros Hne. apply fixes_modify. intros s. unfold line. cbn. rewrite lookup_insert_ne; [done|]. by intros <-. Qed.

Lemma line_extract t : tgid_of t ≠ fst ck → fixes line (bpf_h_extract t).
Proof using.
  intros Hne. unfold bpf_h_extract. line_walk_with ltac:(idtac; lazymatch goal with
    | |- keeps _ _ (h_of_enc_ctx _ _ _) => line_still
    | |- keeps _ _ (modify _) => by apply line_conn
    | |- _ => idtac end).
Qed.

Lemma line_xor_run t fuel : fixes line (xor_path_run fuel t).
Proof using.
  induction fuel as [|fuel IH]; cbn [xor_path_run]; [intros c; by apply keeps_ret|]. unfold bpf_xor_path, xor_finish.
  line_walk_with ltac:(idtac; lazymatch goal with
    | |- keeps _ _ (xor_path_run _ _) => apply IH
    | |- _ => line_still end).
Qed.

Lemma line_go_write t p a n : fixes line (bpf_uprobe_go_tls_write t p a n).
Proof using.
  unfold bpf_uprobe_go_tls_write. line_walk_with ltac:(idtac; lazymatch goal with
    | |- keeps _ _ (xor_path_run _ _) => apply line_xor_run
    | |- _ => line_still end).
Qed.

Lemma line_ssl_write t p a n : tgid_of t ≠ fst ck → fixes line (bpf_uprobe_ssl_write t p a n).
Proof using.
  intros Hne. unfold bpf_uprobe_ssl_write. line_walk_with ltac:(idtac; lazymatch goal with
    | |- keeps _ _ (xor_path_run _ _) => apply line_xor_run
    | |- keeps _ _ (bpf_h_extract _) => by apply line_extract
    | |- _ => line_still end).
Qed.

Lemma line_store_conn t ptr c : tgid_of t ≠ fst ck → fixes line (store_conn (tgid_of t, ptr) c).
Proof using. intros Hne. unfold store_conn. line_walk_with ltac:(by apply line_conn). Qed.

Lemma line_bridge t sk : tgid_of t ≠ fst ck → (∀ k, sk = Some k → dest_key t k ≠ dest) →
  fixes line (bpf_kprobe_tcp_sendmsg t sk).
Proof using.
  intros Hne Hd. unfold bpf_kprobe_tcp_sendmsg, bridge_commit, drop_xor_pending. destruct sk as [sk|]; [specialize (Hd sk eq_refl)|clear Hd].
  - line_walk_with ltac:(idtac; lazymatch goal with
      | |- keeps _ _ (store_conn _ _) => by apply line_store_conn
      | |- keeps _ _ (modify _) => apply fixes_modify; intros s; unfold line; cbn; by rewrite lookup_insert_ne
      | |- _ => line_still end).
  - line_walk_with fail.
Qed.

(** *** Packets of other connections *)

Lemma line_deferred p h v : h_key h ≠ dest → fixes line (apply_deferred_tag p h v).
Proof using.
  intros Hne. unfold apply_deferred_tag. line_walk_with fail.
  all: apply fixes_modify; intros s; unfold line; cbn; by rewrite lookup_delete_ne.
Qed.

(** The line, and the connection the tag recomputation works for. *)
Definition staged_line (s : kst) := (line s, ghash_conn_key (k_ghash_scratch s)).

Lemma staged_still {A} (m : M A) : still m → fixes staged_line m.
Proof using. by apply fixes_through. Qed.

Lemma staged_key c k : k ≠ dest →
  keeps (λ s, staged_line s = (c, k)) (λ w, ghash_conn_key w = k) (gets k_ghash_scratch).
Proof using. intros _. apply keeps_gets. intros s Hs. exact (f_equal snd Hs). Qed.

Lemma staged_update c k p : k ≠ dest → keeps (λ s, staged_line s = (c, k)) (λ _, True) (tc_ghash_update p).
Proof using.
  intros Hne. unfold tc_ghash_update. keeps_walk_with ltac:(idtac; lazymatch goal with
    | |- keeps _ _ (gets k_ghash_scratch) => by apply staged_key
    | |- keeps _ _ (on_work _) => by apply (fixes_modify staged_line)
    | |- keeps _ _ ghash_compute => apply staged_still, still_compute
    | |- _ => idtac end).
  apply keeps_modify; [|done]. intros s <-. unfold staged_line, line. cbn. rewrite lookup_insert_ne; [done|congruence].
Qed.

Lemma staged_deactivate c k : k ≠ dest →
  keeps (λ s, staged_line s = (c, k)) (λ _, True) (modify (λ s, s <| k_tc_pending := alter deactivate k (k_tc_pending s) |>)).
Proof using. intros Hne. apply (fixes_modify staged_line). intros s. unfold staged_line, line. cbn. by rewrite lookup_alter_ne. Qed.

Lemma line_patch_record loaded h v off len nonce p : h_key h ≠ dest → fixes line (patch_record loaded h v off len nonce p).
Proof using.
  intros Hne c s <-. unfold patch_record. destruct (_ <? _); [done|]. unfold mbind at 1, m_bind at 1.
  destruct (stage_record v h off len nonce s) as [u s1] eqn:E.
  assert (H1 : staged_line s1 = (line s, h_key h)) by (unfold stage_record, on_work, modify in E; by injection E as _ <-).
  match goal with |- line (snd (?m s1)) = _ ∧ _ =>
    assert (H : keeps (λ s', staged_line s' = (line s, h_key h)) (λ _, True) m) end.
  { keeps_walk_with ltac:(idtac; lazymatch goal with
      | |- keeps _ _ (gets _) => apply (fixes_gets staged_line)
      | |- keeps _ _ (apply_patches _ _ _ _ _ _ _ _) => apply staged_still; by auto with frames
      | |- keeps _ _ (modify _) => by apply staged_deactivate
      | |- keeps _ _ (tc_ghash_update _) => by apply staged_update
      | |- _ => idtac end). }
  destruct (H s1 H1) as [H2 _]. split; [exact (f_equal fst H2)|done].
Qed.

Lemma line_egress loaded p : (∀ h, parse_headers p = Some h → h_key h ≠ dest) → fixes line (tc_egress_patch loaded p).
Proof using.
  intros Hd. unfold tc_egress_patch, patch_segment. line_walk_with ltac:(idtac; lazymatch goal with
    | |- keeps _ _ (apply_deferred_tag _ _ _) => apply line_deferred; by apply Hd
    | |- keeps _ _ (patch_record _ _ _ _ _ _ _) => apply line_patch_record; by apply Hd
    | |- _ => idtac end).
Qed.

(** *** Steps *)

(** A program that runs for another process, or another connection's packet. *)
Definition elsewhere (c : call) : Prop :=
  match c with
  | Ssl_write t _ _ _ => tgid_of t ≠ fst ck
  | Sendmsg t sk => tgid_of t ≠ fst ck ∧ ∀ k, sk = Some k → dest_key t k ≠ dest
  | Tc_egress _ p => ∀ h, parse_headers p = Some h → h_key h ≠ dest
  | _ => True
  end.

Context (csum : Skb.skb → Z → Z → Z → option Skb.skb) (Hcsum : csum_updates csum).

(** A step of the system elsewhere; an eviction is of another entry. *)
Definition other (s s' : kst) : Prop :=
  ∃ l, step csum s l s' ∧ match l with Program c => elsewhere c | Evict => line s' = line s | Migrate | Update => True end.

Lemma line_at {A} (m : M A) s : fixes line m → line (snd (m s)) = line s.
Proof using. apply fixes_at. Qed.

Lemma program_line c s : call_ok c → kst_ok s → elsewhere c → line (run csum c s) = line s.
Proof using Hcsum.
  intros Hc Hs He. destruct c; cbn [run elsewhere] in *; try (apply line_at; line_still).
  - apply line_at, line_go_write.
  - by apply line_at, line_ssl_write.
  - destruct He. by apply line_at, line_bridge.
  - by apply line_at, line_egress.
  - destruct Hc as [[_ Hb _] Hp]. destruct (ok_dns_msg s Hs) as [L B].
    pose proof (rewrite_outcome csum t p s Hcsum (ok_up s Hs) (ok_hosts s Hs) Hb Hp B L) as H.
    destruct (tc_dns_rewrite csum t p s) as [[r p'] s']. destruct H as (B' & _). exact (f_equal line B').
Qed.

Lemma other_line s s' : other s s' → kst_ok s → line s' = line s ∧ kst_ok s'.
Proof using Hcsum.
  intros (l & Hst & Hl) Hs. split; [|by apply (step_ok csum s l s')]. destruct l; cbn [step] in Hst.
  - destruct Hst as [Hc ->]. by apply program_line.
  - done.
  - by destruct Hst.
  - destruct Hst as [B _ _ _ _ _ _ _]. exact (f_equal line B).
Qed.

(** However many of them run. *)
Lemma others_line s s' : rtc other s s' → kst_ok s → line s' = line s ∧ kst_ok s'.
Proof using Hcsum.
  induction 1 as [s|s s1 s' Hst _ IH]; intros Hs; [done|].
  destruct (other_line s s1 Hst Hs) as [<- H1]. by apply IH.
Qed.

End Line.
End Between.
