(* ===== verification/Library.v ===== *)
(** * What the bridge asks of a TLS library, and the libraries

    [TlsLibrary]: the interface, a write uprobe together with the place where its
    library keeps a connection's GHASH key: after the uprobe the process has an
    entry with the patches of the write, from which the bridge recovers that key.
    [Libraries]: its implementations: Go's crypto/tls, BoringSSL and OpenSSL with
    H read at send time, and OpenSSL with H read at the write. *)

From S2P Require Import Prelude GF128 Host Ghash Aes State Hooks HExtract XorPath TcpSend SendFacts TcGhash StateType Keeps Inv.
Import Host GF128Facts Types Kernel Hooks StateType Keeps.

Module TlsLibrary.
Import HExtract XorPath PrescanFacts XorPathFacts TcpSend SniTrack.

(** What a write uprobe may change of what the bridge and tc read. *)
Definition but_hook (s : kst) : kst := (but_write s) <| k_tls_conn_state := ∅ |> <| k_evp_h_cache := ∅ |>.

(** A write of [d] at [addr] the uprobes can follow: its programs are loaded, its
    memory is mapped, and the process has an entry, or one fits. *)
Record write_ok (t : task) (addr : Z) (d : bytes) (s : kst) : Prop := {
  wo_loaded : prog_loaded t 1 = true ∧ prog_loaded t 2 = true;
  wo_mem : mapped t addr d ∧ mem_ok t ∧ addr ≠ 0;
  wo_len : 0 < zlen d ≤ 249 * 8388608;
  wo_state : kst_ok s;
  wo_room : is_Some (k_xor_pending s !! tgid_of t) ∨ Z.of_nat (size (k_xor_pending s)) < xor_pending_max_entries
}.

(** The entry of the write. *)
Definition entry_for (t : task) (ptr addr : Z) (d : bytes) (s : kst) (x : xor_pending_val) : Prop :=
  xp_patch_count x = zlen (write_patches t addr s d) ∧
  take (Z.to_nat (xp_patch_count x)) (xp_patches x) = write_patches t addr s d ∧
  xp_ssl_ptr x = ptr ∧ xp_plaintext_len x = zlen d ∧ created_at x = ktime_ns t.

(** The same thread, at most two seconds later. *)
Record later (t t' : task) : Prop := {
  la_pid : pid_tgid t' = pid_tgid t;
  la_cgroup : cgroup_id t' = cgroup_id t;
  la_inode : exe_inode t' = exe_inode t;
  la_mem : umem t' = umem t;
  la_x86 : x86 t' = x86 t;
  la_time : u64 (ktime_ns t' - ktime_ns t) ≤ 2000000000
}.

(** The bridge finds [key], and the nonce length the connection has. *)
Definition recovers (t : task) (ptr : Z) (x : xor_pending_val) (s : kst) (key : bytes) (nonce : Z) : Prop :=
  (∃ c, fst (recover_h t x s) = Some c ∧ ghash_h c = key ∧ nonce_len c = nonce) ∧
  ∀ e, k_tls_conn_state s !! (tgid_of t, ptr) = Some e → ghash_h e = key → nonce_len e = nonce.

(** [keyed t s ptr key nonce]: the memory of the process and the control plane's
    tables lead from the connection at [ptr] to its GHASH key. *)
Class TlsLibrary (hook : task → Z → Z → bytes → M unit) (keyed : task → kst → Z → bytes → Z → Prop) : Prop :=
  library_write t ptr addr d s key nonce :
    write_ok t addr d s → keyed t s ptr key nonce → write_patches t addr s d ≠ [] →
    let s' := snd (hook t ptr addr d s) in
    but_hook s' = but_hook s ∧ kst_ok s' ∧
    ∃ x, k_xor_pending s' !! tgid_of t = Some x ∧ entry_for t ptr addr d s x ∧
      ∀ t', later t t' → recovers t' ptr x s' key nonce.

End TlsLibrary.

Module Libraries.
Import GF128 GhashCode HExtract HFacts XorPath PrescanFacts XorPathFacts TcpSend SniTrack TlsLibrary Inv.

(** *** Shared steps *)

Lemma write_ok_buffers t addr d s : write_ok t addr d s → buffers_ok s.
Proof.
  intros H. destruct (wo_state _ _ _ _ H) as [Hsec [[Hd _] _ Hm _]]. split; [done|]. split; [done|].
  intros k val E. exact (so_len _ (Hsec k val E)).
Qed.

(** The entry the chain stores is found. *)
Lemma stored_found t s x : xp_patch_count x ≠ 0 →
  is_Some (k_xor_pending s !! tgid_of t) ∨ Z.of_nat (size (k_xor_pending s)) < xor_pending_max_entries →
  stored t s x !! tgid_of t = Some x.
Proof.
  intros Hc Hr. unfold stored, hash_update. destruct (Z.eqb_spec (xp_patch_count x) 0); [done|].
  destruct (bool_decide_reflect (is_Some (k_xor_pending s !! tgid_of t))), (Z.ltb_spec (Z.of_nat (size (k_xor_pending s))) xor_pending_max_entries);
    cbn [orb snd]; rewrite ?lookup_insert_eq; done || (exfalso; destruct Hr; done || lia).
Qed.

Lemma patches_count t addr s d : write_patches t addr s d ≠ [] → zlen (write_patches t addr s d) ≠ 0.
Proof. destruct (write_patches t addr s d); [done|]. rewrite zlen_cons. pose proof (zlen_nonneg l). lia. Qed.

(** A connection already known by this H has this nonce length. *)
Definition nonce_known (t : task) (s : kst) (ptr : Z) (key : bytes) (nonce : Z) : Prop :=
  ∀ e, k_tls_conn_state s !! (tgid_of t, ptr) = Some e → ghash_h e = key → nonce_len e = nonce.

(** Later tasks read the same memory. *)
Lemma later_same {P : task → Prop} t t' : later t t' →
  (∀ k b r pl rb sf ua, P (Build_task (pid_tgid t) (cgroup_id t) (exe_inode t) k b r (umem t) (x86 t) pl rb sf ua)) → P t'.
Proof. intros [E1 E2 E3 E4 E5 _] H. destruct t'. cbn in *. subst. apply H. Qed.

(** *** Go *)

(** Go's gcm holds the doubled H, as two words. *)
Definition go_keyed (t : task) (s : kst) (ptr : Z) (key : bytes) (nonce : Z) : Prop :=
  block key ∧ be_val key ≠ 0 ∧ nonce_known t s ptr key nonce ∧
  ∃ o cipher gcm, k_go_tls_offset_config s !! (cgroup_id t, exe_inode t) = Some o ∧
    probe_ptr t (ptr + conn_to_cipher o) = Some cipher ∧ probe_ptr t (cipher + aead_iface_off o) = Some gcm ∧
    probe_word t (gcm + h2_hi_off o) 8 = Some (double_h (be_val key) / 2 ^ 64) ∧
    probe_word t (gcm + h2_lo_off o) 8 = Some (double_h (be_val key) mod 2 ^ 64) ∧
    nonce = if 0x0304 <=? (if 0 <? conn_vers_off o then probe_word_z t (ptr + conn_vers_off o) 2 else 0) then 0 else 8.

Lemma halve_key key : block key → be_val key ≠ 0 →
  let n := double_h (be_val key) in
  (n / 2 ^ 64 =? 0) && (n mod 2 ^ 64 =? 0) = false ∧ gf128_halve_to_h (n mod 2 ^ 64) (n / 2 ^ 64) = key.
Proof.
  intros Hk H0 n. destruct (halve_double (be_val key) (block_elt _ Hk)) as [Hb Ev]. fold n in Hb, Ev.
  split; [|by apply block_inj]. apply not_true_is_false. intros E. apply andb_true_iff in E as [E1%Z.eqb_eq E2%Z.eqb_eq].
  rewrite E1, E2 in Ev. apply H0. rewrite <- Ev. vm_compute. reflexivity.
Qed.

Lemma go_recovers t s x key nonce : xp_chain_type x = CHAIN_GO_TLS → go_keyed t s (xp_ssl_ptr x) key nonce →
  recovers t (xp_ssl_ptr x) x s key nonce.
Proof.
  intros Hc (Hk & H0 & Hn & o & cipher & gcm & E1 & E2 & E3 & E4 & E5 & En). split; [|exact Hn].
  destruct (halve_key key Hk H0) as [Hz Eh]. exists (go_conn key nonce). split; [|done].
  unfold recover_h. rewrite Hc, Z.eqb_refl. unfold go_recover_h. mrun. rewrite E1, E2, E3, E4, E5, Hz, Eh. by subst nonce.
Qed.

#[export] Instance go_library : TlsLibrary (λ t ptr addr d, bpf_uprobe_go_tls_write t ptr addr (zlen d)) go_keyed.
Proof.
  intros t ptr addr d s key nonce Hw Hk Hps s'. pose proof Hw as [[Hl _] (Hm & Hmem & Ha) Hz Hs Hr].
  destruct (go_write_spec t ptr addr d s Hl Hm Hz Ha (write_ok_buffers _ _ _ _ Hw)) as (B & x & C & T & D & E).
  fold s' in B, E. destruct D as (_ & Dp & Dc & Dl & _ & _ & _ & Dt).
  split; [exact (f_equal but_hook B)|]. split; [by apply (keeps_go_write t ptr addr (zlen d) Hmem s Hs)|].
  exists x. split; [rewrite E; apply stored_found; [rewrite C; by apply patches_count|done]|].
  split; [split; [exact C|]; rewrite C; done|]. intros t' Ht. rewrite <- Dp. apply go_recovers; [done|]. rewrite Dp.
  apply (later_same (P := λ t', go_keyed t' s' ptr key nonce) t t' Ht). intros.
  assert (F : k_go_tls_offset_config s' = k_go_tls_offset_config s ∧ k_tls_conn_state s' = k_tls_conn_state s).
  { split; [exact (f_equal k_go_tls_offset_config B)|exact (f_equal k_tls_conn_state B)]. }
  destruct F as [F1 F2]. unfold go_keyed, nonce_known. rewrite F1, F2. exact Hk.
Qed.

(** *** SSL_write, with H read at send time *)

Definition ssl_hook (t : task) (ptr addr : Z) (d : bytes) : M unit := bpf_uprobe_ssl_write t ptr addr (zlen d).

(** The uprobe follows the connection: its container is tracked, and its BIO has no
    descriptor, or one whose connect was seen. *)
Definition ssl_ready (t : task) (s : kst) (ptr : Z) : Prop :=
  is_Some (k_tracked_cgroups s !! cgroup_id t) ∧
  let fd := fst (ssl_read_fd t ptr s) in fd = 0 ∨ is_Some (k_conn_ip_map s !! (tgid_of t, fd)).

Lemma read_fd_state t ptr s : snd (ssl_read_fd t ptr s) = s.
Proof. unfold ssl_read_fd, resolve_wbio_offset. mrun. by destruct (ptr =? 0). Qed.

(** What follows the scan. *)
Definition after_scan (t : task) : M unit :=
  strat ← gets (λ s, k_tls_strategy s !! tgid_of t);
  if bool_decide (strat = Some STRATEGY_LIBCRYPTO_HOOK) then
    when (prog_loaded t 2)
      (again ← bpf_h_extract t; when (again && prog_loaded t 1) (xor_path_run (pred MAX_TAIL_CALL_CNT) t))
  else when (prog_loaded t 1) (xor_path_run MAX_TAIL_CALL_CNT t).

Lemma ssl_prefix t ptr addr d s : ssl_ready t s ptr → write_ok t addr d s →
  ∃ s1 membio, ssl_hook t ptr addr d s = (prescan t addr (zlen d);; after_scan t) s1 ∧
    but_write s1 = but_write s ∧ buffers_ok s1 ∧ k_xor_pending s1 = k_xor_pending s ∧
    user_data_ptr (k_scratch s1) = addr ∧ total_data_len (k_scratch s1) = zlen d ∧ sd_ssl_ptr (k_scratch s1) = ptr ∧
    sd_chain_type (k_scratch s1) = 0 ∧ sd_memory_bio (k_scratch s1) = membio ∧ h_fresh (k_scratch s1) = false ∧
    xor_match_count (k_scratch s1) = 0 ∧ xor_current_match (k_scratch s1) = 0.
Proof.
  intros [[b Hb] Hfd] Hw. pose proof Hw as [_ (_ & _ & Ha) Hz _ _]. cbn zeta in Hfd.
  set (fd := fst (ssl_read_fd t ptr s)) in *. set (len := if MAX_DATA_SIZE <? zlen d then MAX_DATA_SIZE else zlen d).
  assert (Hl : 0 ≤ len ≤ 256) by (unfold len, MAX_DATA_SIZE; destruct (Z.ltb_spec 256 (zlen d)); lia).
  exists (snd (write_scratch t addr len (zlen d) ptr 0 (fd =? 0) s)), (fd =? 0).
  split; [|by apply (write_scratch_spec t addr len (zlen d) ptr 0 (fd =? 0) s Hl (write_ok_buffers _ _ _ _ Hw))].
  unfold ssl_hook, bpf_uprobe_ssl_write. unfold mbind at 1, m_bind at 1, gets at 1. rewrite Hb.
  unfold mbind at 1, m_bind at 1. pose proof (read_fd_state t ptr s) as Es. unfold fd in *.
  destruct (ssl_read_fd t ptr s) as [fd' s0]. cbn [fst snd] in *. subst s0. unfold mbind at 1, m_bind at 1, gets at 1.
  assert (E : negb (fd' =? 0) && negb (bool_decide (is_Some (k_conn_ip_map s !! (tgid_of t, fd')))) = false).
  { destruct Hfd as [->|Hs]; [done|]. rewrite (bool_decide_true _ Hs). apply andb_false_r. }
  rewrite E. destruct (Z.eqb_spec addr 0); [done|]. destruct (Z.leb_spec (zlen d) 0); [lia|]. cbn [orb]. fold len.
  unfold mbind at 1, m_bind at 1. by destruct (write_scratch _ _ _ _ _ _ _ s) as [[] ?].
Qed.

(** The uprobe without the H extraction: an entry without H. *)
Lemma walk_write t ptr addr d s : ssl_ready t s ptr → k_tls_strategy s !! tgid_of t ≠ Some STRATEGY_LIBCRYPTO_HOOK →
  write_ok t addr d s → write_patches t addr s d ≠ [] →
  let s' := snd (ssl_hook t ptr addr d s) in
  but_write s' = but_write s ∧ kst_ok s' ∧
  ∃ x, k_xor_pending s' !! tgid_of t = Some x ∧ entry_for t ptr addr d s x ∧ xp_chain_type x = 0 ∧ h_valid x = false.
Proof.
  intros Hr Hst Hw Hps s'. destruct (ssl_prefix t ptr addr d s Hr Hw) as
    (s1 & mb & E & B1 & Hb1 & P1 & U1 & T1 & I1 & C1 & M1 & F1 & N1 & Q1).
  pose proof Hw as [[Hl _] (Hm & Hmem & _) Hz Hs Hroom].
  destruct (write_path t addr d s1) as (x & Hx & B2 & P2); try done; [lia|].
  destruct (scan_path t addr d s1) as (B3 & _); try done; [lia|]. cbn zeta in *.
  assert (Es : s' = snd ((prescan t addr (zlen d);; xor_path_run MAX_TAIL_CALL_CNT t) s1)).
  { unfold s'. rewrite E. unfold mbind, m_bind. destruct (prescan t addr (zlen d) s1) as [[] s2]. cbn [snd] in B3.
    unfold after_scan, mbind, m_bind, gets. rewrite Hl.
    assert (Ek : k_tls_strategy s2 = k_tls_strategy s) by exact (eq_trans (f_equal k_tls_strategy B3) (f_equal k_tls_strategy B1)).
    rewrite Ek. by rewrite bool_decide_false. }
  rewrite <- Es in B2, P2. split; [by rewrite B2|]. split; [by apply (keeps_ssl_write t ptr addr (zlen d) Hmem s Hs)|].
  pose proof (entry_describes _ _ _ _ _ Hx F1) as (_ & D1 & D2 & D3 & _ & _ & D4 & D5). destruct Hx as (G1 & G2 & _).
  rewrite (write_patches_but t addr s s1) in G1, G2 by done. rewrite I1 in D1. rewrite T1 in D3. rewrite C1 in D2.
  exists x. split; [|split; [split_and!; done|done]]. rewrite P2. apply stored_found; [rewrite G1; by apply patches_count|by rewrite P1].
Qed.

(** A place [keys] where a walk finds keys, for the SSL_write uprobe. *)
Definition walk_keyed (keys : task → kst → Z → bytes → Z → Prop) (t : task) (s : kst) (ptr : Z) (key : bytes) (nonce : Z) : Prop :=
  ssl_ready t s ptr ∧ k_tls_strategy s !! tgid_of t ≠ Some STRATEGY_LIBCRYPTO_HOOK ∧ nonce_known t s ptr key nonce ∧ keys t s ptr key nonce.

Definition ossl_keys (t : task) (s : kst) (ptr : Z) (key : bytes) (nonce : Z) : Prop :=
  ∃ o enc algctx, lookup_offsets OFFSETS_UNCALIBRATED t (k_tls_offset_config s) = Some o ∧
    tls_lib o ≠ TLS_LIB_BORINGSSL ∧ walk_enc_ctx t ptr o = Some enc ∧
    probe_ptr t (enc + enc_ctx_to_algctx o) = Some algctx ∧
    block key ∧ be_val key ≠ 0 ∧ gcm_ctx t algctx o (be_val key) ∧ nonce = version_nonce t ptr o.

Definition bssl_keys (t : task) (s : kst) (ptr : Z) (key : bytes) (nonce : Z) : Prop :=
  ∃ o rk rounds nr, lookup_offsets OFFSETS_UNCALIBRATED t (k_tls_offset_config s) = Some o ∧
    tls_lib o = TLS_LIB_BORINGSSL ∧
    bssl_ctx t ptr (bssl_ssl_to_s3 o) (bssl_s3_to_aead o) (bssl_aead_to_aeskey o) rk rounds ∧
    bytes_ok rk ∧ length rk = 240%nat ∧ (nr = 10%nat ∧ (rounds = 10 ∨ rounds = 9) ∨ nr = 14%nat ∧ (rounds = 14 ∨ rounds = 13)) ∧
    key = Fips197.cipher nr rk (zeros 16) ∧ h_nonzero key = true ∧ nonce = version_nonce t ptr o.

(** Both walks read the process's memory and the offsets, and find the key. *)
Class KeyWalk (keys : task → kst → Z → bytes → Z → Prop) : Prop := {
  keys_found t s ptr key nonce : keys t s ptr key nonce →
    ∃ c, fst (walk_recover_h t ptr s) = Some c ∧ ghash_h c = key ∧ nonce_len c = nonce;
  keys_later t t' s s' ptr key nonce : later t t' → k_tls_offset_config s' = k_tls_offset_config s →
    keys t s ptr key nonce → keys t' s' ptr key nonce
}.

#[export] Instance ossl_walk : KeyWalk ossl_keys.
Proof.
  split.
  - intros t s ptr key nonce (o & enc & algctx & E1 & Hl & E2 & E3 & Hb & H0 & Hg & En).
    unfold walk_recover_h, ossl_conn, h_fail, dbg_inc. mrun. change (k_tls_offset_config (s <| k_debug_counters := _ |>)) with (k_tls_offset_config s).
    rewrite E1, E2, E3. destruct (Z.eqb_spec (tls_lib o) TLS_LIB_BORINGSSL); [done|].
    set (s1 := s <| k_debug_counters := _ |>).
    destruct (read_gcm_h_ok t algctx o (be_val key) s1 (block_elt _ Hb) H0 Hg) as (r & h & E & Hr & Hbh & Ev).
    destruct (ossl_read_gcm_h t algctx o s1) as [? s2]. cbn [fst] in E. subst p. cbn [fst snd]. rewrite Hr. cbn [negb].
    exists (go_conn h (version_nonce t ptr o)). split; [done|]. split; [by apply block_inj|done].
  - intros t t' s s' ptr key nonce Ht E H. apply (later_same (P := λ t', ossl_keys t' s' ptr key nonce) t t' Ht).
    intros. unfold ossl_keys. rewrite E. exact H.
Qed.

#[export] Instance bssl_walk : KeyWalk bssl_keys.
Proof.
  split.
  - intros t s ptr key nonce (o & rk & rounds & nr & E1 & Hl & Hc & Hb & Hlen & Hr & -> & Hz & En).
    unfold walk_recover_h, bssl_conn, h_fail, dbg_inc. mrun. change (k_tls_offset_config (s <| k_debug_counters := _ |>)) with (k_tls_offset_config s).
    rewrite E1, Hl, Z.eqb_refl. match goal with |- context [bssl_recover_h t ptr ?a ?b ?c ?s1] =>
      pose proof (bssl_recover_ok t ptr a b c rk rounds nr s1 Hc Hb Hlen Hr Hz) as E; destruct (bssl_recover_h t ptr a b c s1) as [? s2] end.
    cbn [fst] in E. subst o0. by exists (go_conn (Fips197.cipher nr rk (zeros 16)) (version_nonce t ptr o)).
  - intros t t' s s' ptr key nonce Ht E H. apply (later_same (P := λ t', bssl_keys t' s' ptr key nonce) t t' Ht).
    intros. unfold bssl_keys. rewrite E. exact H.
Qed.

(** SSL_write over either walk. *)
#[export] Instance walk_library keys `{!KeyWalk keys} : TlsLibrary ssl_hook (walk_keyed keys).
Proof.
  intros t ptr addr d s key nonce Hw (Hr & Hst & Hn & Hk) Hps s'.
  destruct (walk_write t ptr addr d s Hr Hst Hw Hps) as (B & Hs' & x & Ex & He & Hc & Hv). fold s' in B, Hs', Ex.
  split; [exact (f_equal but_hook B)|]. split; [done|]. exists x. split; [done|]. split; [done|]. intros t' Ht.
  assert (Eo : k_tls_offset_config s' = k_tls_offset_config s) by exact (f_equal k_tls_offset_config B).
  assert (Ec : k_tls_conn_state s' = k_tls_conn_state s) by exact (f_equal k_tls_conn_state B).
  split.
  - unfold recover_h. rewrite Hc, Hv. change (0 =? CHAIN_GO_TLS) with false. cbn [andb]. destruct He as (_ & _ & -> & _).
    by apply keys_found, (keys_later t t' s s').
  - apply (later_same (P := λ t', ∀ e, k_tls_conn_state s' !! (tgid_of t', ptr) = Some e → ghash_h e = key → nonce_len e = nonce) t t' Ht).
    intros ???????. rewrite Ec. exact Hn.
Qed.

(** *** SSL_write, with H read at the write *)

(** The key is cached from EVP_CipherInit_ex, or in the cipher's context. *)
Definition evp_key (t : task) (s : kst) (enc : Z) (o : tls_offsets) (key : bytes) : Prop :=
  match k_evp_h_cache s !! (tgid_of t, enc) with
  | Some v => evp_ghash_h v = key ∧ u8 (evp_cipher_type v) = KLOAK_CIPHER_AES_GCM
  | None => ∃ algctx, probe_ptr t (enc + enc_ctx_to_algctx o) = Some algctx ∧
      block key ∧ be_val key ≠ 0 ∧ gcm_ctx t algctx o (be_val key)
  end.

Definition hook_keyed (t : task) (s : kst) (ptr : Z) (key : bytes) (nonce : Z) : Prop :=
  ssl_ready t s ptr ∧ k_tls_strategy s !! tgid_of t = Some STRATEGY_LIBCRYPTO_HOOK ∧ ptr ≠ 0 ∧
  ∃ o enc, lookup_offsets (λ o, ssl_to_wrl o =? 0) t (k_tls_offset_config s) = Some o ∧
    walk_enc_ctx t ptr o = Some enc ∧ evp_key t s enc o key ∧ nonce = version_nonce t ptr o.

(** What reading H changes besides the cache. *)
Definition but_evp (s : kst) : kst := (BridgeFacts.but_check s) <| k_evp_h_cache := ∅ |>.

Lemma enc_ctx_found t s enc o key : evp_key t s enc o key →
  ∃ s', h_of_enc_ctx t enc o s = (Some (key, KLOAK_CIPHER_AES_GCM), s') ∧ but_evp s' = but_evp s.
Proof.
  unfold evp_key, h_of_enc_ctx, dbg_inc. mrun. destruct (k_evp_h_cache s !! (tgid_of t, enc)) as [v|].
  - intros [-> ->]. eexists. by split.
  - intros (algctx & -> & Hb & H0 & Hg).
    destruct (read_gcm_h_ok t algctx o (be_val key) s (block_elt _ Hb) H0 Hg) as (r & h & E & Hr & Hbh & Ev).
    pose proof (proj1 (BridgeFacts.quiet_ossl t algctx o s)) as Q.
    destruct (ossl_read_gcm_h t algctx o s) as [? s2]. cbn [fst snd] in *. subst p. rewrite Hr. cbn [negb].
    rewrite (block_inj h key Hbh Hb Ev). eexists. split; [reflexivity|]. exact (f_equal but_evp Q).
Qed.

Lemma extract_found t s ptr key nonce o enc : sd_ssl_ptr (k_scratch s) = ptr → ptr ≠ 0 →
  lookup_offsets (λ o, ssl_to_wrl o =? 0) t (k_tls_offset_config s) = Some o →
  walk_enc_ctx t ptr o = Some enc → evp_key t s enc o key → nonce = version_nonce t ptr o →
  ∃ s', bpf_h_extract t s = (true, s') ∧ but_hook s' = but_hook s ∧ k_xor_pending s' = k_xor_pending s ∧
    k_scratch s' = (k_scratch s) <| h_fresh := true |> ∧ k_secret_map s' = k_secret_map s ∧
    k_tls_conn_state s' !! (tgid_of t, ptr) = Some {| ghash_h := key; cipher_type := KLOAK_CIPHER_AES_GCM; nonce_len := nonce |}.
Proof.
  intros Ep H0 E1 E2 Hk ->. unfold bpf_h_extract, dbg_inc. mrun. rewrite Ep. destruct (Z.eqb_spec ptr 0); [done|].
  rewrite E1, E2. destruct (enc_ctx_found t s enc o key Hk) as (s1 & -> & B).
  assert (F : k_scratch s1 = k_scratch s ∧ k_xor_pending s1 = k_xor_pending s ∧ k_secret_map s1 = k_secret_map s ∧ but_hook s1 = but_hook s).
  { split_and!; [exact (f_equal k_scratch B)|exact (f_equal k_xor_pending B)|exact (f_equal k_secret_map B)|exact (f_equal but_hook B)]. }
  destruct F as (F1 & F2 & F3 & F4). eexists. split; [reflexivity|]. split; [rewrite <- F4; by destruct s1|].
  split; [exact F2|]. split; [change ((k_scratch s1) <| h_fresh := true |> = (k_scratch s) <| h_fresh := true |>); by rewrite F1|].
  split; [exact F3|]. cbn. apply lookup_insert_eq.
Qed.

(** The entry of a write whose H was just read. *)
Lemma entry_keyed t sc conns ps x key nonce : entry_of t sc conns ps x → h_fresh sc = true → sd_chain_type sc = 0 →
  conns !! (tgid_of t, sd_ssl_ptr sc) = Some {| ghash_h := key; cipher_type := KLOAK_CIPHER_AES_GCM; nonce_len := nonce |} →
  xp_ssl_ptr x = sd_ssl_ptr sc ∧ xp_plaintext_len x = total_data_len sc ∧ created_at x = ktime_ns t ∧
  xp_chain_type x = 0 ∧ h_valid x = true ∧ xp_cipher_type x = KLOAK_CIPHER_AES_GCM ∧ xp_ghash_h x = key ∧ xp_nonce_len x = nonce.
Proof.
  intros (_ & _ & E) Hf Hc Hk. unfold staged_init in E. rewrite Hf, Hc, Hk in E.
  change (negb (0 =? CHAIN_GO_TLS) && true) with true in E. cbn [cipher_type] in E. rewrite Z.eqb_refl in E.
  exact (conj (f_equal xp_ssl_ptr E) (conj (f_equal xp_plaintext_len E) (conj (f_equal created_at E) (conj (f_equal xp_chain_type E)
    (conj (f_equal h_valid E) (conj (f_equal xp_cipher_type E) (conj (f_equal xp_ghash_h E) (f_equal xp_nonce_len E)))))))).
Qed.

(** The scan, the extraction and the chain. *)
Lemma hook_run t ptr addr d s key nonce : hook_keyed t s ptr key nonce → write_ok t addr d s →
  let s' := snd (ssl_hook t ptr addr d s) in
  ∃ x s3, entry_of t (k_scratch s3) (k_tls_conn_state s3) (write_patches t addr s d) x ∧
    but_hook s' = but_hook s ∧ k_xor_pending s' = stored t s x ∧ k_tls_conn_state s' = k_tls_conn_state s3 ∧
    h_fresh (k_scratch s3) = true ∧ sd_chain_type (k_scratch s3) = 0 ∧ sd_ssl_ptr (k_scratch s3) = ptr ∧
    total_data_len (k_scratch s3) = zlen d ∧
    k_tls_conn_state s3 !! (tgid_of t, ptr) = Some {| ghash_h := key; cipher_type := KLOAK_CIPHER_AES_GCM; nonce_len := nonce |}.
Proof.
  intros (Hr & Hst & H0 & o & enc & E1 & E2 & Hk & En) Hw s'.
  destruct (ssl_prefix t ptr addr d s Hr Hw) as (s1 & mb & E & B1 & Hb1 & P1 & U1 & T1 & I1 & C1 & _ & F1 & N1 & Q1).
  pose proof Hw as [[Hl Hl2] (Hm & _ & _) Hz _ _].
  destruct (scan_path t addr d s1) as (B2 & P2 & K2 & S2 & U2 & Q2 & _ & (J2 & C2 & T2 & _) & N2 & M2 & L2); try done; [lia|]. cbn zeta in *.
  destruct (prescan t addr (zlen d) s1) as [[] s2] eqn:Es2. cbn [snd] in *.
  assert (B : but_write s2 = but_write s) by (by rewrite B2).
  assert (F : k_tls_offset_config s2 = k_tls_offset_config s ∧ k_evp_h_cache s2 = k_evp_h_cache s ∧ k_tls_strategy s2 = k_tls_strategy s).
  { split_and!; [exact (f_equal k_tls_offset_config B)|exact (f_equal k_evp_h_cache B)|exact (f_equal k_tls_strategy B)]. }
  destruct F as (Fo & Fe & Fs). rewrite <- Fo in E1.
  destruct (extract_found t s2 ptr key nonce o enc) as (s3 & E3 & B3 & P3 & K3 & S3 & H3); try done; [congruence|by unfold evp_key; rewrite Fe|].
  destruct (chain_run t addr d 32 s3) as (x & Hx & B4 & P4); rewrite ?K3; try done; [lia|by unfold secrets_ok; rewrite S3|].
  assert (Es : s' = snd (xor_path_run 32 t s3)).
  { unfold s'. rewrite E. unfold mbind, m_bind. rewrite Es2. unfold after_scan, mbind, m_bind, gets. rewrite Fs, Hst, bool_decide_true by done.
    rewrite Hl2, Hl. cbn [when]. by rewrite E3. }
  exists x, s3. cbn zeta in B4, P4. rewrite <- Es in B4, P4. rewrite K3 in Hx |- *.
  assert (W : write_patches t addr s3 d = write_patches t addr s d).
  { unfold write_patches. apply omap_same. intros m. change (patch_at t addr (but_hook s3) m = patch_at t addr (but_hook s) m).
    by rewrite B3, (f_equal (λ b, b <| k_tls_conn_state := ∅ |> <| k_evp_h_cache := ∅ |>) B : but_hook s2 = but_hook s). }
  rewrite W in Hx. split; [exact Hx|]. split; [exact (eq_trans (f_equal (λ b, b <| k_tls_conn_state := ∅ |> <| k_evp_h_cache := ∅ |>) B4)
    (eq_trans B3 (f_equal (λ b, b <| k_tls_conn_state := ∅ |> <| k_evp_h_cache := ∅ |>) B)))|].
  split; [rewrite P4; unfold stored; by rewrite P3, P2, P1|]. split; [exact (f_equal k_tls_conn_state B4)|].
  cbn. rewrite C2, J2, T2. by split_and!.
Qed.

#[export] Instance hook_library : TlsLibrary ssl_hook hook_keyed.
Proof.
  intros t ptr addr d s key nonce Hw Hk Hps s'. pose proof Hw as [_ (_ & Hmem & _) _ Hs Hroom].
  destruct (hook_run t ptr addr d s key nonce Hk Hw) as (x & s3 & Hx & B & P & C & Hf & Hc & Hp & Ht & Hcn). fold s' in B, P, C.
  rewrite <- Hp in Hcn. destruct (entry_keyed t _ _ _ x key nonce Hx Hf Hc Hcn) as (G1 & G2 & G3 & G4 & G5 & G6 & G7 & G8).
  destruct Hx as (X1 & X2 & _). rewrite Hp in *. split; [exact B|]. split; [by apply (keeps_ssl_write t ptr addr (zlen d) Hmem s Hs)|].
  exists x. split; [rewrite P; apply stored_found; [rewrite X1; by apply patches_count|done]|].
  split; [split_and!; try done; congruence|]. intros t' Hl. split.
  - unfold recover_h, dbg_inc. rewrite G4, G5, G6. change (0 =? CHAIN_GO_TLS) with false. rewrite Z.eqb_refl. cbn [andb]. mrun.
    eexists. split; [reflexivity|]. by split.
  - unfold tgid_of. rewrite (la_pid _ _ Hl). fold (tgid_of t). rewrite C, Hcn. by intros e [= <-] _.
Qed.

End Libraries.
