(* ===== verification/EndToEnd.v ===== *)
(** * A write leaves as the encryption of its text with the secrets

    [Redeemed]: the text of a write with its placeholders replaced, and a record
    that holds the encryption of a text.
    [EndToEnd]: the write uprobe of any [TlsLibrary], the bridge and tc_egress_patch
    together. *)

From S2P Require Import Prelude GF128 Host TlsRecord Ghash State Hooks XorPath Packet TcGhash TcEgress TcFacts TcpSend SendFacts.
From S2P Require Import Vip VipHooks DnsRewrite StateType Keeps Inv InvSend InvTc System Between Library.
Import Host TlsRecord GF128Facts Types Kernel Hooks StateType Keeps Skb SkbFacts.

Module Redeemed.
Import PrescanFacts XorPathFacts TcGhashFacts GhashCode TcRecords TcPatches TcFacts.

(** The secret of a patch, and a text with the secrets of [ps] in their places. *)
Definition secret_of (s : kst) (x : xor_patch) : bytes :=
  match k_secret_map s !! p_key x with
  | Some val => take (Z.to_nat (sv_len val)) (real_secret val)
  | None => []
  end.
Definition redeem (s : kst) (ps : list xor_patch) (d : bytes) : bytes :=
  fold_left (λ d x, splice d (secret_offset x) (secret_of s x)) ps d.

(** No secret reaches into the place of the next. *)
Definition apart : list xor_patch → Prop := ForallOrdPairs (λ x y, secret_offset x + secret_len x ≤ secret_offset y).

(** The record at [base] is [plain] encrypted: by the key stream [ks], with the GCM
    tag for the key and the other inputs of the tag. *)
Definition sealed (key : bytes) (ks : Z → Z) (ek0 : Z) (aad plain : bytes) (base : Z) (d : bytes) : Prop :=
  (∀ q, 0 ≤ q < zlen plain → d.[base + q] = Z.lxor (plain.[q]) (ks q)) ∧
  be_val (tag_at d base (zlen plain)) = Ghash.gcm_tag (be_val key) ek0 aad (ct_at d base (zlen plain)).

(** A patch of the write of [d]: it has the secret for its place. *)
Definition redeems (s : kst) (d : bytes) (x : xor_patch) : Prop :=
  0 ≤ secret_offset x ∧ 1 ≤ secret_len x ≤ 128 ∧ zlen (secret_of s x) = secret_len x ∧
  ∀ j, 0 ≤ j < secret_len x → Z.lxor (d.[secret_offset x + j]) ((xor_delta x).[j]) = (secret_of s x).[j].

Lemma patch_fn_at x q : secret_len x ≠ 0 → patch_fn x q =
  if (secret_offset x <=? q) && (q <? secret_offset x + secret_len x) then (xor_delta x).[q - secret_offset x] else 0.
Proof. intros H. unfold patch_fn, patch_delta. by destruct (Z.eqb_spec (secret_len x) 0). Qed.

(** Replacing is the change the patches make. *)
Lemma redeem_step s d d0 x : redeems s d x → secret_offset x + secret_len x ≤ zlen d0 →
  (∀ q, secret_offset x ≤ q < secret_offset x + secret_len x → d0.[q] = d.[q]) →
  zlen (splice d0 (secret_offset x) (secret_of s x)) = zlen d0 ∧
  ∀ q, 0 ≤ q → (splice d0 (secret_offset x) (secret_of s x)).[q] = Z.lxor (d0.[q]) (patch_fn x q).
Proof.
  intros (Ho & Hl & Hz & Hj) Hle Hd. split; [apply zlen_splice; lia|]. intros q Hq.
  rewrite byte_at_splice by (rewrite ?Hz; lia). rewrite Hz, patch_fn_at by lia.
  destruct (Z.leb_spec (secret_offset x) q), (Z.ltb_spec q (secret_offset x + secret_len x)); cbn [andb]; rewrite ?Z.lxor_0_r; try done.
  rewrite Hd, <- Hj by lia. by replace (secret_offset x + (q - secret_offset x)) with q by lia.
Qed.

Lemma redeem_delta s d ps : ∀ d0, apart ps → Forall (redeems s d) ps → Forall (λ x, secret_offset x + secret_len x ≤ zlen d0) ps →
  (∀ q, 0 ≤ q → Exists (λ x, secret_offset x ≤ q < secret_offset x + secret_len x) ps → d0.[q] = d.[q]) →
  zlen (redeem s ps d0) = zlen d0 ∧ ∀ q, 0 ≤ q → (redeem s ps d0).[q] = Z.lxor (d0.[q]) (total_delta ps q).
Proof.
  induction ps as [|x ps IH]; intros d0 Ha Hr Hin Hd.
  { split; [done|]. intros q _. symmetry. apply Z.lxor_0_r. }
  inversion Ha as [|? ? Hx Ha']; subst. apply Forall_cons in Hr as [Hrx Hr]. apply Forall_cons in Hin as [Hix Hin].
  destruct (redeem_step s d d0 x Hrx Hix) as [L1 E1]; [intros q Hq; apply Hd; [destruct Hrx; lia|by left]|].
  set (d1 := splice d0 (secret_offset x) (secret_of s x)) in *.
  destruct (IH d1) as [L2 E2]; rewrite ?L1; try done.
  { intros q H0 Hq. rewrite E1, Hd by (done || by right). destruct Hrx as (_ & Hlx & _). rewrite patch_fn_at by lia.
    apply Exists_exists in Hq as (y & Hy & Hq). rewrite List.Forall_forall in Hx. apply list_elem_of_In in Hy. specialize (Hx y Hy).
    destruct (Z.ltb_spec q (secret_offset x + secret_len x)); [lia|]. by rewrite andb_false_r, Z.lxor_0_r. }
  change (redeem s (x :: ps) d0) with (redeem s ps d1). rewrite L2, L1. split; [done|]. intros q Hq.
  by rewrite E2, E1, Z.lxor_assoc by done.
Qed.

End Redeemed.

Module EndToEnd.
Import XorPath PrescanFacts XorPathFacts TcGhash TcEgress TcpSend SniTrack BridgeFacts TcRecords TcPatches TcFacts TcGhashFacts Csums RewriteFacts System Between TlsLibrary Redeemed.

(** *** The three programs, one after the other *)

(** The packet of the write on the socket: its segment has the header of the record
    of [d], and starts at or before the write. *)
Record sent (t : task) (sk : sock) (d : bytes) (nonce : Z) (p : skb) (hd : pkt_headers)
    (leads others : list tls_rec) (r : tls_rec) (n : Z) : Prop := {
  se_headers : parse_headers p = Some hd ∧ 5 ≤ h_payload_len hd ∧ h_key hd = dest_key t sk;
  se_seq : 0 < sk_write_seq sk → h_seq hd ≤ sk_write_seq sk < h_seq hd +32 h_payload_len hd;
  se_packet : sb_writable p = true ∧ bytes_ok (sb_data p) ∧ zlen (sb_data p) < 2 ^ 30;
  se_segment : segment_of (zlen d) nonce (sb_data p) (h_payload_off hd) leads others r n
}.

(** The next segment of the connection: the record at [start] of the payload is cut
    between its ciphertext's end and its tag, or before. *)
Record cut_at (p1 p2 : skb) (hd1 hd2 : pkt_headers) (start ct_len : Z) : Prop := {
  ct_next : parse_headers p2 = Some hd2 ∧ h_key hd2 = h_key hd1 ∧ h_seq hd2 = h_seq hd1 + h_payload_len hd1;
  ct_packet : sb_writable p2 = true ∧ bytes_ok (sb_data p2) ∧ zlen (sb_data p2) < 2 ^ 30;
  ct_lens : zlen (sb_data p1) = h_payload_off hd1 + h_payload_len hd1 ∧ zlen (sb_data p2) = h_payload_off hd2 + h_payload_len hd2;
  ct_seqs : 0 ≤ h_seq hd1 ∧ h_seq hd2 + h_payload_len hd2 < 2 ^ 32;
  ct_cut : h_payload_len hd1 ≤ start + ct_len ∧ start + ct_len + 16 ≤ h_payload_len hd1 + h_payload_len hd2
}.

(** The state tc finds: the write has its entry and the connection its key, as the
    bridge left them in [s2], and no tag is deferred. *)
Record waits (t : task) (sk : sock) (ptr : Z) (s2 s3 : kst) : Prop := {
  wt_entry : k_tc_pending s3 !! dest_key t sk = k_tc_pending s2 !! dest_key t sk;
  wt_conn : k_tls_conn_state s3 !! (tgid_of t, ptr) = k_tls_conn_state s2 !! (tgid_of t, ptr);
  wt_tag : k_tc_tag_pending s3 !! dest_key t sk = None;
  wt_state : kst_ok s3
}.

Section Write.
Context {hook : task → Z → Z → bytes → M unit} {keyed : task → kst → Z → bytes → Z → Prop} {L : TlsLibrary hook keyed}.
Context (t t' : task) (ptr addr : Z) (d rest : bytes) (s : kst) (key : bytes) (nonce : Z) (sk : sock).
Context (Hw : write_ok t addr d s) (Hk : keyed t s ptr key nonce) (Ht : later t t').
Context (Hm : mapped t addr (d ++ rest)) (Hrest : 128 ≤ zlen rest) (Hd : zlen d ≤ 16384).

(** The patches whose secrets may leave on the socket. *)
Let keep := List.filter (λ x, may_leave s sk (k_sni_check_mode s =? SNI_CHECK_AUDIT) (p_key x)) (write_patches t addr s d).
Context (Hkeep : keep ≠ []) (Hin : Forall (λ x, secret_offset x + secret_len x ≤ zlen d) keep).
Let s1 := snd (hook t ptr addr d s).
Let s2 := snd (bpf_kprobe_tcp_sendmsg t' (Some sk) s1).

Lemma keep_patches x : x ∈ keep → x ∈ write_patches t addr s d.
Proof using. intros H. apply list_elem_of_In, filter_In in H as [H _]. by apply list_elem_of_In. Qed.

Lemma patch_redeems x : x ∈ keep → redeems s d x.
Proof using Hw Hm Hrest Hin.
  intros Hx. pose proof (proj1 (Forall_forall _ _) Hin x Hx) as Hix. cbv beta in Hix. apply keep_patches in Hx. unfold write_patches in Hx.
  apply list_elem_of_omap in Hx as (m & Hp & E). apply list_elem_of_fmap in Hp as (p & -> & Hp).
  apply (subseteq_take 4), list_elem_of_filter in Hp as [_ Hp]. apply elem_of_seq in Hp.
  assert (Em : match_at (d ++ rest) p = match_at d p).
  { unfold match_at. f_equal. rewrite drop_app_le by lia. rewrite take_app_le; [done|]. rewrite length_drop. lia. }
  rewrite <- Em in E. unfold zlen in Hrest.
  destruct (patch_turns t addr (d ++ rest) s p x Hm) as (val & Ev & _ & El & Hl & Ho & Hj); [rewrite length_app; lia|done|].
  pose proof (so_secret _ (ok_secrets _ (wo_state _ _ _ _ Hw) _ _ Ev)) as [Lr _].
  unfold redeems, secret_of. rewrite Ev. split; [lia|]. split; [lia|].
  split; [unfold zlen; rewrite length_take, Lr; lia|]. intros j Hjj. rewrite byte_at_take by lia. rewrite <- Hj by lia.
  rewrite Ho in Hix |- *. by rewrite byte_at_app_l by lia.
Qed.

(** After the bridge: the entry for tc, and the connection's key. *)
Lemma bridged : k_tc_tag_pending s2 = k_tc_tag_pending s ∧ kst_ok s1 ∧ ∃ v c, k_tc_pending s2 !! dest_key t' sk = Some v ∧ k_tls_conn_state s2 !! (tgid_of t, ptr) = Some c ∧
  ghash_h c = key ∧ nonce_len c = nonce ∧ pending_ps v = keep ∧ tp_patch_count v = zlen keep ∧ length (tp_patches v) = 4%nat ∧
  tp_active v = true ∧ (tp_tgid v, tp_ssl_ptr v) = (tgid_of t, ptr) ∧ tp_plaintext_len v = zlen d ∧
  (write_seq v = 0 ∨ write_seq v = sk_write_seq sk).
Proof using L Hw Hk Ht Hkeep.
  clear Hm Hrest Hd Hin.
  assert (Hps : write_patches t addr s d ≠ []) by (intros E; apply Hkeep; unfold keep; by rewrite E).
  destruct (library_write t ptr addr d s key nonce Hw Hk Hps) as (B & Hs1 & x & Ex & (X1 & X2 & X3 & X4 & X5) & Hrec).
  fold s1 in B, Hs1, Ex, Hrec. destruct (Hrec t' Ht) as [(c & Ec & Hc & Hn) Hold].
  assert (Etg : tgid_of t' = tgid_of t) by (unfold tgid_of; by rewrite (la_pid _ _ Ht)). rewrite Etg in Hold.
  destruct (ok_pending _ Hs1 _ _ Ex) as [(Xc & Xl & _) _].
  assert (Hz : zlen (write_patches t addr s d) ≠ 0) by (unfold zlen; destruct (write_patches t addr s d); cbn; [done|lia]).
  assert (Hst : stale t' x = false).
  { unfold stale. rewrite X5. pose proof (la_time _ _ Ht). destruct (Z.ltb_spec 2000000000 (u64 (ktime_ns t' - ktime_ns t))); [lia|]. apply andb_false_r. }
  rewrite <- Etg in Ex. destruct (bridge_spec t' sk s1 x Ex ltac:(lia) Xl Hst) as [B2 H]. fold s2 in B2, H. cbn zeta in H.
  split; [exact (eq_trans (f_equal k_tc_tag_pending B2) (f_equal k_tc_tag_pending B))|]. split; [done|].
  assert (Ef : List.filter (λ p, may_leave s1 sk (k_sni_check_mode s1 =? SNI_CHECK_AUDIT) (p_key p)) (take (Z.to_nat (xp_patch_count x)) (xp_patches x)) = keep).
  { rewrite X2. unfold keep. apply filter_ext. intros y.
    change (may_leave (but_hook s1) sk (k_sni_check_mode (but_hook s1) =? SNI_CHECK_AUDIT) (p_key y) =
      may_leave (but_hook s) sk (k_sni_check_mode (but_hook s) =? SNI_CHECK_AUDIT) (p_key y)). by rewrite B. }
  rewrite Ef, decide_False, Ec in H by done. destruct H as ((v & (V1 & V2 & V3 & V4 & V5 & V6 & V7 & V8) & T2) & (c' & C2 & Hc') & _).
  rewrite Etg, X3 in *. exists v, c'. rewrite T2, C2, !lookup_insert_eq. split; [done|]. split; [done|].
  assert (Hc2 : ghash_h c' = key ∧ nonce_len c' = nonce).
  { destruct Hc' as [->|[Ho Eh]]; [done|]. rewrite Hc in Eh. split; [done|]. by apply Hold. }
  destruct Hc2. split_and!; try done; [by rewrite V5, V6|congruence|]. rewrite V8. destruct (xp_memory_bio x); [by left|by right].
Qed.

(** Whatever ran elsewhere. *)
Lemma others_wait csum s3 : csum_updates csum → k_tc_tag_pending s !! dest_key t' sk = None →
  rtc (other (dest_key t' sk) (tgid_of t', ptr) csum) s2 s3 → waits t' sk ptr s2 s3.
Proof using L Hw Hk Ht Hkeep.
  clear Hm Hrest Hd Hin. intros Hcsum Htag Hrun. destruct bridged as (Et & Hs1 & _).
  assert (Hm' : mem_ok t') by (unfold mem_ok; rewrite (la_mem _ _ Ht); apply (wo_mem _ _ _ _ Hw)).
  assert (Hs2 : kst_ok s2) by (by apply (InvSend.keeps_bridge t' (Some sk) Hm' s1)).
  destruct (others_line _ _ csum Hcsum s2 s3 Hrun Hs2) as [Hl Hs3]. unfold line in Hl. injection Hl as E1 E2 E3.
  split; [done|done| |done]. by rewrite E2, Et.
Qed.

Context (p : skb) (hd : pkt_headers) (leads others : list tls_rec) (r : tls_rec) (n : Z) (s3 : kst).
Context (Hs : sent t' sk d nonce p hd leads others r n) (Hwt : waits t' sk ptr s2 s3).

Lemma later_tgid : tgid_of t' = tgid_of t.
Proof using Ht. unfold tgid_of. by rewrite (la_pid _ _ Ht). Qed.

Lemma write_carried : ∃ v, carries s3 p hd v key leads others r n ∧ pending_ps v = keep.
Proof using All.
  destruct bridged as (_ & _ & v & c & T2 & C2 & Hc & Hn & Hps & Hct & Hl & Hact & Hkey & Hpt & Hsq).
  destruct Hwt as [W1 W2 W3 W4], Hs as [(Hh & Hlen & Hdk) Hseq Hpkt Hseg]. rewrite later_tgid in W2.
  rewrite T2 in W1. rewrite C2 in W2. pose proof (ok_conns _ W4 _ _ W2) as Hb. unfold conn_ok in Hb. rewrite Hc in Hb.
  destruct (ok_tc _ W4 _ _ W1) as (Hcount & _ & Hpok). destruct (ok_powers _ W4) as [Hpw _]. destruct (ok_work _ W4) as [[(_ & Hwl & _) _] _ [Hwc _] _ _ _ _ _ _].
  exists v. split; [|done]. split; try done.
  - split; [by rewrite Hdk|]. split; [done|]. split.
    + unfold seq_matches. destruct Hsq as [->| ->]; [done|]. destruct (Z.ltb_spec 0 (sk_write_seq sk)) as [Hpos|]; [|done].
      specialize (Hseq Hpos). destruct (Z.ltb_spec (sk_write_seq sk) (h_seq hd)), (Z.leb_spec (h_seq hd +32 h_payload_len hd) (sk_write_seq sk)); done || lia.
    + split; [done|]. split; [done|]. rewrite Hps. apply Forall_forall. intros x Hx. destruct (patch_redeems x Hx) as (H1 & H2 & _).
      pose proof (proj1 (Forall_forall _ _) Hin x Hx) as H3. cbv beta in H3.
      assert (Hx' : x ∈ tp_patches v) by (rewrite <- Hps in Hx; by apply (subseteq_take _ (tp_patches v)) in Hx).
      destruct (proj1 (Forall_forall _ _) Hpok x Hx') as (_ & _ & _ & Hx3). by split_and!; try lia.
  - by rewrite Hdk.
  - rewrite Hkey. exists c. rewrite Hn. split; [done|]. split; [done|]. split; [done|]. split; [|by rewrite Hpt].
    destruct (seg_rec _ _ _ _ _ _ _ _ Hseg) as [_ (_ & [->| ->] & _ & [->| ->])]; apply list_elem_of_In; cbn; tauto.
  - split; [done|]. split; [done|]. unfold zlen. by rewrite Hwc.
  - rewrite Hps, Hpt. exact Hin.
Qed.

(** The change of the record is the replacement of the text. *)
Lemma repatched_sealed ks ek0 aad trailer ct_len base d0 d' : apart keep → Forall staged_ok keep →
  bytes_ok aad → zlen aad < 2 ^ 40 → zlen trailer = ct_len - zlen d → 0 ≤ base → base + ct_len + 16 ≤ zlen d0 →
  repatched key keep base ct_len d0 d' →
  sealed key ks ek0 aad (d ++ trailer) base d0 → sealed key ks ek0 aad (redeem s keep d ++ trailer) base d'.
Proof using Hw Hm Hrest Hin Hd.
  intros Ha Hok Hao Hal Ht0 Hb Hz (Ld & _ & C & T) [S1 S2]. pose proof (zlen_nonneg trailer). pose proof (zlen_nonneg d).
  assert (Hr : Forall (redeems s d) keep) by (apply Forall_forall; apply patch_redeems).
  destruct (redeem_delta s d keep d Ha Hr Hin ltac:(done)) as [Lr Er].
  assert (Lz : zlen (redeem s keep d ++ trailer) = ct_len) by (rewrite zlen_app, Lr; lia).
  assert (Lz0 : zlen (d ++ trailer) = ct_len) by (rewrite zlen_app; lia). rewrite Lz0 in S1, S2.
  assert (Etxt : ∀ q, 0 ≤ q → (redeem s keep d ++ trailer).[q] = Z.lxor ((d ++ trailer).[q]) (total_delta keep q)).
  { intros q Hq. destruct (Z.ltb_spec q (zlen d)).
    - rewrite !byte_at_app_l by lia. by apply Er.
    - rewrite !byte_at_app_r by lia. rewrite (total_delta_out keep (zlen d)) by (done || lia). by rewrite Lr, Z.lxor_0_r. }
  split; rewrite Lz; [|by apply T]. intros q Hq. rewrite Etxt by lia. specialize (C q Hq). unfold ct_at in C.
  rewrite !byte_at_slice in C by lia. rewrite C, S1 by lia. rewrite !Z.lxor_assoc. f_equal. apply Z.lxor_comm.
Qed.

(** The program on the packet. *)
Lemma write_patched : apart keep →
  let base := ct_off hd leads others n in let ct_len := ct_len_of r n in
  base + ct_len + 16 ≤ zlen (sb_data p) →
  ∃ s' d', tc_egress_patch true p s3 = ((TC_PASS, put p d'), s') ∧ zlen d' = zlen (sb_data p) ∧
    (∀ q, 0 ≤ q < base ∨ base + ct_len + 16 ≤ q → d'.[q] = (sb_data p).[q]) ∧
    (∀ ks ek0 aad trailer, bytes_ok aad → zlen aad < 2 ^ 40 → zlen trailer = ct_len - zlen d →
      sealed key ks ek0 aad (d ++ trailer) base (sb_data p) → sealed key ks ek0 aad (redeem s keep d ++ trailer) base d') ∧
    k_tc_pending s' = alter deactivate (dest_key t' sk) (k_tc_pending s3) ∧ k_tc_tag_pending s' = k_tc_tag_pending s3.
Proof using All.
  intros Ha base ct_len Hz. destruct write_carried as (v & Hc & Hps).
  destruct (egress_record s3 p hd v key leads others r n Hc) as (s' & d' & E & R & _ & T & G); [by rewrite Hps|done|].
  destruct (egress_run s3 p hd v key leads others r n Hc) as (Hpo & Hct & _ & Hn & _).
  destruct (ca_pending _ _ _ _ _ _ _ _ _ Hc) as (_ & _ & _ & _ & _ & Hok). rewrite Hps in R, Hok.
  rewrite (proj2 (proj2 (se_headers _ _ _ _ _ _ _ _ _ _ Hs))) in T. pose proof R as (Ld & Ho & _).
  exists s', d'. split; [done|]. split; [done|]. split; [done|]. split; [|done].
  intros ks ek0 aad trailer Hao Hal Htr. apply (repatched_sealed ks ek0 aad trailer ct_len base (sb_data p) d'); try done.
  unfold base, ct_off. lia.
Qed.

(** The program on the first segment of a cut record: the ciphertext is patched, and
    the change of the tag waits. *)
Lemma write_first p2 hd2 :
  let ct_len := ct_len_of r n in let start := ct_off hd leads others n - h_payload_off hd in
  cut_at p p2 hd hd2 start ct_len → Forall (λ x, start + secret_offset x + secret_len x ≤ h_payload_len hd) keep →
  block key ∧ Forall staged_ok keep ∧ Forall (in_record ct_len) keep ∧ 5 ≤ start ∧ 0 ≤ ct_len ≤ 18416 ∧
  ∃ s4 d1 td, tc_egress_patch true p s3 = ((TC_PASS, put p d1), s4) ∧ kst_ok s4 ∧
    tag_delta_of key keep ct_len td ∧ changed (h_payload_off hd + start) (total_delta keep) (sb_data p) d1 ∧
    k_tc_pending s4 = alter deactivate (dest_key t' sk) (k_tc_pending s3) ∧
    k_tc_tag_pending s4 = <[dest_key t' sk := {| tv_tag_delta := td; tag_tcp_seq := h_seq hd + start + ct_len |}]> (k_tc_tag_pending s3).
Proof using All.
  intros ct_len start [(_ & _ & Hq2) _ [Hz1 Hz2] [Hs0 Hs3] [Hcut Hend]] Hps. destruct write_carried as (v & Hc & Ek).
  destruct Hs as [(Hh & Hlen & Hdk) _ (_ & Hb & _) _].
  destruct (split_first s3 p hd v key leads others r n Hc) as (Hk' & (_ & _ & Hok) & Hi & H5 & Hct & s4 & d1 & td & E & Htd & C & _ & T & G);
    fold ct_len start; rewrite ?Ek; try done; try lia.
  fold ct_len in Hi, Hct, Htd, G. fold start in H5, G. rewrite Ek in Hi, Hok, Htd, C. rewrite Hdk in T, G.
  split_and!; try done; try lia.
  exists s4, d1, td. split; [done|]. split.
  { destruct (InvTc.keeps_egress true p Hb s3 (wt_state _ _ _ _ _ Hwt)) as [Hs4 _]. by rewrite E in Hs4. }
  split; [done|]. split; [|done]. by replace (h_payload_off hd + start) with (ct_off hd leads others n) by (unfold start; lia).
Qed.

End Write.
(** C1: a write to a TLS connection leaves as the encryption of its text with the
    secrets: for a library that keeps its promise to the bridge, the write uprobe,
    the bridge and tc_egress_patch make, of the record that encrypts the written
    text, the record that encrypts, under the same key stream and with the right tag,
    the text in which every placeholder that the pod may redeem and whose secret may
    leave on this socket is replaced by its secret. Nothing else of the packet
    changes, and the write is done once. Between the send and the packet anything may
    run for other processes and other connections. *)
Theorem write_leaves_redeemed {hook keyed} `{!TlsLibrary hook keyed} csum t t' ptr addr d rest s key nonce sk p hd leads others r n s3 :
  csum_updates csum →
  write_ok t addr d s → keyed t s ptr key nonce → later t t' →
  mapped t addr (d ++ rest) → 128 ≤ zlen rest → zlen d ≤ 16384 →
  let keep := List.filter (λ x, may_leave s sk (k_sni_check_mode s =? SNI_CHECK_AUDIT) (p_key x)) (write_patches t addr s d) in
  keep ≠ [] → Forall (λ x, secret_offset x + secret_len x ≤ zlen d) keep → apart keep →
  k_tc_tag_pending s !! dest_key t' sk = None →
  rtc (other (dest_key t' sk) (tgid_of t', ptr) csum) (snd (bpf_kprobe_tcp_sendmsg t' (Some sk) (snd (hook t ptr addr d s)))) s3 →
  sent t' sk d nonce p hd leads others r n →
  let base := ct_off hd leads others n in let ct_len := ct_len_of r n in
  base + ct_len + 16 ≤ zlen (sb_data p) →
  ∃ s' d', tc_egress_patch true p s3 = ((TC_PASS, put p d'), s') ∧ zlen d' = zlen (sb_data p) ∧
    (∀ q, 0 ≤ q < base ∨ base + ct_len + 16 ≤ q → d'.[q] = (sb_data p).[q]) ∧
    (∀ ks ek0 aad trailer, bytes_ok aad → zlen aad < 2 ^ 40 → zlen trailer = ct_len - zlen d →
      sealed key ks ek0 aad (d ++ trailer) base (sb_data p) → sealed key ks ek0 aad (redeem s keep d ++ trailer) base d') ∧
    k_tc_pending s' = alter deactivate (dest_key t' sk) (k_tc_pending s3) ∧ k_tc_tag_pending s' = k_tc_tag_pending s3.
Proof.
  intros Hf Hw Hk Ht Hm Hrest Hd keep Hkeep Hin Ha Htag Hrun Hs base ct_len Hz.
  pose proof (others_wait t t' ptr addr d s key nonce sk Hw Hk Ht Hkeep csum s3 Hf Htag Hrun) as Hwt.
  by eapply (write_patched t t' ptr addr d rest s key nonce sk).
Qed.

(** C2: a write whose record is cut by a segment boundary: when the boundary lies after
    the placeholders and before the tag, the two segments leave with, together, the
    record that encrypts the text with the secrets, under the same key stream and with
    the right tag, nothing else of the two payloads changes, and nothing is left
    pending. Between the send and the first segment, and between the two segments,
    anything may run for other processes and other connections. *)
Theorem split_write_leaves_redeemed {hook keyed} `{!TlsLibrary hook keyed} csum t t' ptr addr d rest s key nonce sk
    p1 p2 hd1 hd2 leads others r n s3 s5 :
  csum_updates csum →
  write_ok t addr d s → keyed t s ptr key nonce → later t t' →
  mapped t addr (d ++ rest) → 128 ≤ zlen rest → zlen d ≤ 16384 →
  let keep := List.filter (λ x, may_leave s sk (k_sni_check_mode s =? SNI_CHECK_AUDIT) (p_key x)) (write_patches t addr s d) in
  keep ≠ [] → Forall (λ x, secret_offset x + secret_len x ≤ zlen d) keep → apart keep →
  k_tc_tag_pending s !! dest_key t' sk = None →
  rtc (other (dest_key t' sk) (tgid_of t', ptr) csum) (snd (bpf_kprobe_tcp_sendmsg t' (Some sk) (snd (hook t ptr addr d s)))) s3 →
  sent t' sk d nonce p1 hd1 leads others r n →
  let ct_len := ct_len_of r n in let start := ct_off hd1 leads others n - h_payload_off hd1 in
  cut_at p1 p2 hd1 hd2 start ct_len → Forall (λ x, start + secret_offset x + secret_len x ≤ h_payload_len hd1) keep →
  rtc (other (dest_key t' sk) (tgid_of t', ptr) csum) (snd (tc_egress_patch true p1 s3)) s5 →
  ∃ d1 s6 d2, fst (tc_egress_patch true p1 s3) = (TC_PASS, put p1 d1) ∧
    tc_egress_patch true p2 s5 = ((TC_PASS, put p2 d2), s6) ∧
    let before := stream hd1 hd2 (sb_data p1) (sb_data p2) in let after := stream hd1 hd2 d1 d2 in
    zlen after = zlen before ∧
    (∀ q, 0 ≤ q < start ∨ start + ct_len + 16 ≤ q → after.[q] = before.[q]) ∧
    (∀ ks ek0 aad trailer, bytes_ok aad → zlen aad < 2 ^ 40 → zlen trailer = ct_len - zlen d →
      sealed key ks ek0 aad (d ++ trailer) start before → sealed key ks ek0 aad (redeem s keep d ++ trailer) start after) ∧
    k_tc_pending s5 !! dest_key t' sk = deactivate <$> k_tc_pending s3 !! dest_key t' sk ∧
    k_tc_pending s6 = k_tc_pending s5 ∧ k_tc_tag_pending s6 !! dest_key t' sk = None.
Proof.
  intros Hf Hw Hk Ht Hm Hrest Hd keep Hkeep Hin Ha Htag Hrun Hs ct_len start Hcut Hps Hrun2.
  pose proof (others_wait t t' ptr addr d s key nonce sk Hw Hk Ht Hkeep csum s3 Hf Htag Hrun) as Hwt.
  destruct (write_first t t' ptr addr d rest s key nonce sk Hw Hk Ht Hm Hrest Hd Hkeep Hin p1 hd1 leads others r n s3 Hs Hwt p2 hd2 Hcut Hps)
    as (Hbk & Hok & Hi & H5 & Hct & s4 & d1 & td & E1 & Hs4 & Htd & C1 & T4 & G4).
  fold keep ct_len start in Hok, Hi, H5, Hct, Htd, C1, G4. rewrite E1 in Hrun2. cbn [snd] in Hrun2.
  destruct (others_line _ _ csum Hf s4 s5 Hrun2 Hs4) as [Hl Hs5]. unfold line in Hl. injection Hl as L1 L2 _.
  pose proof Hcut as [(Hh2 & Hk2 & Hq2) (Hw2 & Hb2 & Hz2) [Hlen1 Hlen2] [Hs0 Hs3] [Hc1 Hc2]].
  pose proof Hs as [(Hh1 & Hl1 & Hdk) _ (_ & Hb1 & _) _]. pose proof (parse_headers_off p1 hd1 Hb1 Hh1) as Ho1.
  pose proof (parse_headers_off p2 hd2 Hb2 Hh2) as Ho2.
  destruct (split_second s5 p1 p2 hd1 hd2 keep key start ct_len td d1) as (s6 & d2 & E2 & R & _ & T6 & G6); try done; try lia.
  { rewrite Hk2, Hdk, L2, G4. apply lookup_insert_eq. }
  exists d1, s6, d2. rewrite E1. split; [done|]. split; [done|]. cbv zeta. pose proof R as (Rz & Ro & _).
  split; [done|]. split; [done|]. split; [|split; [|split; [done|]]].
  - intros ks ek0 aad trailer Hao Hal Htr. apply (repatched_sealed t addr d rest s key sk Hw Hm Hrest Hd Hin ks ek0 aad trailer ct_len start); try done; [lia|].
    unfold stream, zlen in *. rewrite length_app, !length_drop. lia.
  - rewrite L1, T4. apply lookup_alter_eq.
  - by rewrite G6, Hk2, Hdk, lookup_delete_eq.
Qed.

(** *** A sample: a Go connection whose memory follows the written text *)

Definition sample_text : bytes := sample_write.
Definition sample_rest : bytes :=
  zeros 128 ++ rev (be_bytes 8 4432) ++ rev (be_bytes 8 4440) ++ zeros 8 ++ rev (be_bytes 8 (2 ^ 57)) ++ [4; 3].
Definition sample_task : task := task_with 4096 (sample_text ++ sample_rest).
Definition sample_offsets : go_tls_offsets :=
  {| conn_to_cipher := 0; aead_iface_off := 0; h2_hi_off := 8; h2_lo_off := 0; conn_vers_off := 32 |}.
Definition sample_go_state : kst := XorPathFacts.sample_state <| k_go_tls_offset_config := {[ (3, 11) := sample_offsets ]} |>.
Abbreviation sample_sent_state :=
  (snd (bpf_kprobe_tcp_sendmsg sample_task (Some sample_sock) (snd (bpf_uprobe_go_tls_write sample_task 4424 4096 (zlen sample_text) sample_go_state)))).

(** The record: TLS 1.3, its key stream all zeros. *)
Definition sample_aad : bytes := [23; 3; 3; 0; 217].
Definition sample_record : tls_rec := {| r_ct := 23; r_minor := 3; r_len := 217 |}.
Definition sample_sealed_record : bytes :=
  let ct := sample_text ++ [23] in sample_aad ++ ct ++ be_bytes 16 (Ghash.gcm_tag (be_val TcFacts.sample_key) 5 sample_aad ct).
Definition sample_out : skb := TcFacts.sample_packet 1000 sample_sealed_record.

Lemma sample_typed : kst_ok sample_go_state ∧ kst_ok sample_sent_state.
Proof.
  assert (H : kst_ok sample_go_state).
  { apply (System.update_ok kst_init); [|apply System.init_ok].
    constructor; try (intros ? ? E; done); try done; [| by right].
    apply map_Forall_singleton. constructor; [done|split; [done|by_compute]|split; [done|by_compute]|split; [done|by_compute]]. }
  split; [done|].
  assert (Hm : mem_ok sample_task) by (apply task_with_mem_ok; by_compute).
  apply InvSend.keeps_bridge; [done|]. by apply Inv.keeps_go_write.
Qed.

Lemma sample_write_ok : write_ok sample_task 4096 sample_text sample_go_state.
Proof.
  split.
  - by split.
  - split; [|split; [apply task_with_mem_ok; by_compute|lia]].
    intros i Hi. change (zlen sample_text) with 200 in Hi.
    assert (Hm : mapped sample_task 4096 (sample_text ++ sample_rest)) by (apply task_with_mapped; [lia|vm_compute; congruence]).
    rewrite Hm; [|change (zlen (sample_text ++ sample_rest)) with 362; lia].
    f_equal. apply byte_at_app_l. change (zlen sample_text) with 200. lia.
  - change (zlen sample_text) with 200. lia.
  - apply sample_typed.
  - right. vm_compute. reflexivity.
Qed.

Lemma sample_go_keyed : Libraries.go_keyed sample_task sample_go_state 4424 TcFacts.sample_key 0.
Proof.
  split; [split; [reflexivity|by_compute]|]. split; [vm_compute; congruence|]. split; [done|].
  exists sample_offsets, 4432, 4440. split; [reflexivity|]. split_and!; vm_compute; reflexivity.
Qed.

Lemma sample_segment p : sb_writable p = true → bytes_ok (sb_data p) → zlen (sb_data p) < 2 ^ 30 → 59 ≤ zlen (sb_data p) →
  holds (sb_data p) 54 (rec_hdr sample_record) → segment_of (zlen sample_text) 0 (sb_data p) 54 [] [] sample_record 0.
Proof.
  intros Hw Hb Hz Hl Hh. split.
  - change ([] ++ [] ++ [sample_record]) with [sample_record]. cbn [records_at]. split.
    + unfold rec_ok, legal_len, TLS_MAX_RECORD_LEN. cbn. split_and!; try done; try lia; try (by right; left); by left.
    + split; [done|]. split; [lia|done].
  - split; [apply Forall_nil_2|cbn; lia].
  - split; [done|]. split; [apply Forall_nil_2|cbn; lia].
  - split; [reflexivity|]. split; [reflexivity|]. split; [by left|]. split; [reflexivity|by right].
Qed.

Lemma sample_is_sent : sent sample_task sample_sock sample_text 0 sample_out (sample_hd 1000 222) [] [] sample_record 0.
Proof.
  split.
  - split; [vm_compute; reflexivity|]. split; [cbn; lia|reflexivity].
  - intros _. vm_compute. split; congruence.
  - split; [reflexivity|]. split; [by_compute|vm_compute; reflexivity].
  - apply sample_segment; [done|by_compute|vm_compute; reflexivity|vm_compute; congruence|vm_compute; reflexivity].
Qed.

Lemma sample_later : later sample_task sample_task.
Proof. split; vm_compute; congruence. Qed.
Lemma sample_rest_len : 128 ≤ zlen sample_rest.
Proof. vm_compute. congruence. Qed.
Lemma sample_text_len : zlen sample_text ≤ 16384.
Proof. vm_compute. congruence. Qed.

(** Another descriptor of the process is closed before the packet leaves. *)
Definition sample_close : call := Enter_close sample_task 9.

Lemma sample_run : rtc (other (dest_key sample_task sample_sock) (tgid_of sample_task, 4424) kernel_csum)
  sample_sent_state (run kernel_csum sample_close sample_sent_state).
Proof. apply rtc_once. exists (Program sample_close). by split. Qed.

(** The write's patches, all allowed on the socket. *)
Definition sample_keep : list xor_patch :=
  List.filter (λ x, may_leave sample_go_state sample_sock (k_sni_check_mode sample_go_state =? SNI_CHECK_AUDIT) (p_key x))
    (write_patches sample_task 4096 sample_go_state sample_text).

Lemma sample_kept : sample_keep ≠ [] ∧
  Forall (λ x, secret_offset x + secret_len x ≤ zlen sample_text) sample_keep ∧ apart sample_keep ∧
  redeem sample_go_state sample_keep sample_text = zeros 5 ++ [97; 98; 99] ++ drop 8 sample_text.
Proof.
  split; [vm_compute; congruence|]. split; [apply (bool_decide_unpack _); vm_compute; exact I|].
  split; [vm_compute; repeat constructor|vm_compute; reflexivity].
Qed.

Lemma sample_sealed : sealed TcFacts.sample_key (λ _, 0) 5 sample_aad (sample_text ++ [23]) 59 (sb_data sample_out).
Proof.
  split; [|vm_compute; reflexivity]. intros q Hq. rewrite Z.lxor_0_r.
  change (zlen (sample_text ++ [23])) with 201 in Hq.
  assert (Es : slice (sb_data sample_out) 59 201 = sample_text ++ [23]) by (vm_compute; reflexivity).
  by rewrite <- Es, byte_at_slice by lia.
Qed.

Lemma sample_mapped : mapped sample_task 4096 (sample_text ++ sample_rest).
Proof. apply task_with_mapped; [lia|vm_compute; congruence]. Qed.

(** [abc] in the place of the placeholder. *)
Lemma write_leaves_redeemed_witness :
  ∃ s' d', tc_egress_patch true sample_out (run kernel_csum sample_close sample_sent_state) = ((TC_PASS, put sample_out d'), s') ∧
    sealed TcFacts.sample_key (λ _, 0) 5 sample_aad ((zeros 5 ++ [97; 98; 99] ++ drop 8 sample_text) ++ [23]) 59 d'.
Proof.
  destruct sample_kept as (K1 & K2 & K3 & K4).
  destruct (@write_leaves_redeemed _ _ Libraries.go_library kernel_csum sample_task sample_task 4424 4096 sample_text sample_rest
    sample_go_state TcFacts.sample_key 0 sample_sock sample_out (sample_hd 1000 222) [] [] sample_record 0
    (run kernel_csum sample_close sample_sent_state) kernel_csum_updates
    sample_write_ok sample_go_keyed sample_later sample_mapped sample_rest_len sample_text_len K1 K2 K3 eq_refl sample_run sample_is_sent
    ltac:(vm_compute; congruence))
    as (s' & d' & E & _ & _ & R & _).
  exists s', d'. split; [exact E|]. fold sample_keep in R. rewrite K4 in R.
  apply (R (λ _, 0) 5 sample_aad [23]); [by_compute|reflexivity|reflexivity|exact sample_sealed].
Defined.

(** The same record, cut after 100 bytes of payload. *)
Definition sample_out1 : skb := TcFacts.sample_packet 1000 (take 100 sample_sealed_record).
Definition sample_out2 : skb := TcFacts.sample_packet 1100 (drop 100 sample_sealed_record).
Abbreviation sample_mid := (snd (tc_egress_patch true sample_out1 (run kernel_csum sample_close sample_sent_state))).

Lemma sample_first_sent : sent sample_task sample_sock sample_text 0 sample_out1 (sample_hd 1000 100) [] [] sample_record 0.
Proof.
  split.
  - split; [vm_compute; reflexivity|]. split; [cbn; lia|reflexivity].
  - intros _. vm_compute. split; congruence.
  - split; [reflexivity|]. split; [by_compute|vm_compute; reflexivity].
  - apply sample_segment; [done|by_compute|vm_compute; reflexivity|vm_compute; congruence|vm_compute; reflexivity].
Qed.

Lemma sample_cut : cut_at sample_out1 sample_out2 (sample_hd 1000 100) (sample_hd 1100 122) 5 201.
Proof.
  split.
  - split; [vm_compute; reflexivity|]. by split.
  - split; [reflexivity|]. split; [by_compute|vm_compute; reflexivity].
  - split; vm_compute; reflexivity.
  - split; [cbn; lia|vm_compute; reflexivity].
  - cbn; lia.
Qed.

Lemma sample_mid_run : rtc (other (dest_key sample_task sample_sock) (tgid_of sample_task, 4424) kernel_csum)
  sample_mid (run kernel_csum sample_close sample_mid).
Proof. apply rtc_once. exists (Program sample_close). by split. Qed.

Lemma sample_kept_first : Forall (λ x, 5 + secret_offset x + secret_len x ≤ 100) sample_keep.
Proof. apply (bool_decide_unpack _). vm_compute. exact I. Qed.

Lemma sample_cut_sealed : sealed TcFacts.sample_key (λ _, 0) 5 sample_aad (sample_text ++ [23]) 5
  (stream (sample_hd 1000 100) (sample_hd 1100 122) (sb_data sample_out1) (sb_data sample_out2)).
Proof.
  split; [|vm_compute; reflexivity]. intros q Hq. rewrite Z.lxor_0_r. change (zlen (sample_text ++ [23])) with 201 in Hq.
  set (b := stream _ _ _ _). assert (Es : slice b 5 201 = sample_text ++ [23]) by (vm_compute; reflexivity).
  by rewrite <- Es, byte_at_slice by lia.
Qed.

Lemma split_write_leaves_redeemed_witness :
  ∃ d1 s6 d2, fst (tc_egress_patch true sample_out1 (run kernel_csum sample_close sample_sent_state)) = (TC_PASS, put sample_out1 d1) ∧
    tc_egress_patch true sample_out2 (run kernel_csum sample_close sample_mid) = ((TC_PASS, put sample_out2 d2), s6) ∧
    sealed TcFacts.sample_key (λ _, 0) 5 sample_aad ((zeros 5 ++ [97; 98; 99] ++ drop 8 sample_text) ++ [23]) 5
      (stream (sample_hd 1000 100) (sample_hd 1100 122) d1 d2).
Proof.
  destruct sample_kept as (K1 & K2 & K3 & K4).
  destruct (@split_write_leaves_redeemed _ _ Libraries.go_library kernel_csum sample_task sample_task 4424 4096 sample_text sample_rest
    sample_go_state TcFacts.sample_key 0 sample_sock sample_out1 sample_out2 (sample_hd 1000 100) (sample_hd 1100 122) [] [] sample_record 0
    (run kernel_csum sample_close sample_sent_state) (run kernel_csum sample_close sample_mid) kernel_csum_updates
    sample_write_ok sample_go_keyed sample_later sample_mapped sample_rest_len sample_text_len K1 K2 K3 eq_refl sample_run
    sample_first_sent sample_cut sample_kept_first sample_mid_run)
    as (d1 & s6 & d2 & E1 & E2 & _ & _ & R & _).
  exists d1, s6, d2. split; [exact E1|]. split; [exact E2|]. fold sample_keep in R. rewrite K4 in R.
  apply (R (λ _, 0) 5 sample_aad [23]); [by_compute|reflexivity|reflexivity|exact sample_cut_sealed].
Defined.

End EndToEnd.
