(* ===== verification/Corners.v ===== *)
(** * Corner cases of the tc and process programs (pkg/ebpf/bpf/tls_uprobe.c)

    [Corners]: what the programs do where their comments, or the layouts the other
    files assume, do not reach: a deferred tag cut by a segment boundary, sequence
    numbers that wrap, a write larger than one record, a connection's H evicted
    before its write leaves, and a process that exits with a write on its way. *)

From S2P Require Import Prelude Host GF128 Ghash TlsRecord State Hooks Packet TcGhash TcEgress TcFacts.
Import Host Types Kernel Skb TcGhash TcEgress TcFacts.

Module Corners.
Import Hooks.

(** A connection with a deferred tag passes every segment that does not hold the
    whole tag, and keeps the tag: once a boundary has cut the tag in two, no later
    segment holds it, and no record of the connection is patched any more. *)
Lemma cut_tag_stays loaded s p hd v : parse_headers p = Some hd → k_tc_tag_pending s !! h_key hd = Some v →
  (h_seq hd <=? tag_tcp_seq v) && (tag_tcp_seq v +32 16 <=? h_seq hd +32 h_payload_len hd) = false →
  ∃ s', tc_egress_patch loaded p s = ((TC_PASS, p), s') ∧
    k_tc_tag_pending s' = k_tc_tag_pending s ∧ k_tc_pending s' = k_tc_pending s.
Proof.
  intros Hp Hv Hcut. destruct (egress_tag loaded s p hd v Hp Hv) as (s1 & T & P & _ & E). rewrite E.
  unfold apply_deferred_tag. rewrite Hcut. by exists s1.
Qed.

(** The segment that holds a write is not found when the sequence numbers of the
    segment wrap around. *)
Lemma wrapped_segment_missed :
  seq_matches (sample_pending <| write_seq := 2 ^ 32 - 5 |>)
    {| h_key := sample_dest; h_seq := 2 ^ 32 - 10; h_payload_off := 54; h_payload_len := 200 |} = false.
Proof. reflexivity. Qed.

(** A patch whose offset lies past the record the program picked (a placeholder in
    the second record of a write that needs two) is applied to the bytes after it:
    here three bytes of the record that follows, at 60 bytes into it. *)
Definition far_patch : xor_patch := sample_patch <| secret_offset := 182 |>.
Definition far_state : kst :=
  sample_state <| k_tc_pending := {[ sample_dest := sample_pending <| tp_patches := far_patch :: replicate 3 xor_patch_zero |>
    <| tp_plaintext_len := 300 |> ]} |>.
Definition two_records : skb := sample_packet 1000 (sample_payload ++ [23; 3; 3; 0; 117] ++ zeros 117).

Lemma far_patch_leaves_record :
  let out := sb_data (snd (fst (tc_egress_patch true two_records far_state))) in
  ∃ off, 60 + 5 + 117 ≤ off ∧ slice (sb_data two_records) off 3 = [0; 0; 0] ∧ slice out off 3 = [1; 2; 3].
Proof.
  cbn zeta. exists (60 + 5 + 182). split; [lia|]. split; vm_compute; reflexivity.
Qed.

(** With the connection's entry evicted, the table of powers is not filled: the tag
    is corrected with the powers of the last connection this CPU worked for. *)
Lemma evicted_conn_keeps_table s : k_tls_conn_state s !! (ghash_tgid (k_ghash_scratch s), ghash_ssl_ptr (k_ghash_scratch s)) = None →
  run_loop 11 copy_h_power_step s = ((), s).
Proof.
  intros H. rewrite TcGhashFacts.run_loop_eq by done. change (Z.to_nat 11) with 11%nat. cbn [bpf_loop_from].
  assert (E : copy_h_power_step 0 s = (true, s)); [|by rewrite E].
  unfold copy_h_power_step. change (11 <=? 0) with false. mrun. by rewrite H.
Qed.

(** The exit of a process leaves the patches of its last write. *)
Lemma exit_keeps_write pid s : k_xor_pending (snd (tp_sched_process_exit pid s)) = k_xor_pending s.
Proof. reflexivity. Qed.

End Corners.
