(* ===== verification/VipPlan.v ===== *)
(** * Reservation of fake IPs (pkg/ebpf/virtual_ip.go)

    [NetIP]: the addresses and prefixes of Go's net/netip, as far as the file uses
    them. [Plan]: planVirtualIPs and the functions it calls, which work out the fake
    IP of each watched host from the reservations there are. Host names are Go
    strings, lists of bytes; times are nanoseconds since the epoch. *)

From S2P Require Import Prelude.
From stdpp Require Import sorting.
#[local] Open Scope Z_scope.

(** ** Addresses (Go's net/netip) *)

Module NetIP.

(** [netip.Addr], without the zero Addr (an [option] where it can occur) and zones. *)
Inductive ip := IPv4 (v : Z) | IPv6 (v : Z).

#[export] Instance ip_eq_dec : EqDecision ip.
Proof. solve_decision. Defined.
#[export] Instance ip_countable : Countable ip.
Proof.
  refine (inj_countable' (λ a, match a with IPv4 v => inl v | IPv6 v => inr v end)
    (λ x, match x with inl v => IPv4 v | inr v => IPv6 v end) _). by intros [].
Defined.

Definition Is4 (a : ip) : bool := match a with IPv4 _ => true | IPv6 _ => false end.
Definition BitLen (a : ip) : Z := if Is4 a then 32 else 128.
Definition val (a : ip) : Z := match a with IPv4 v | IPv6 v => v end.

(** The address is one: its value has the bits of its family. *)
Definition ip_ok (a : ip) : Prop := 0 ≤ val a < 2 ^ BitLen a.

(** [Addr.Compare]: by length, then by value. *)
Definition Less (a b : ip) : bool := (BitLen a <? BitLen b) || ((BitLen a =? BitLen b) && (val a <? val b)).
Definition ip_le (a b : ip) : Prop := Less b a = false.
#[export] Instance ip_le_dec : RelDecision ip_le.
Proof. intros a b. unfold ip_le. apply _. Defined.

(** [As16], and [AddrFrom16(b).Unmap()]. *)
Definition As16 (a : ip) : bytes :=
  match a with
  | IPv4 v => zeros 10 ++ [0xff; 0xff] ++ be_bytes 4 v
  | IPv6 v => be_bytes 16 v
  end.
Definition From16 (b : bytes) : ip :=
  if bool_decide (take 12 b = zeros 10 ++ [0xff; 0xff]) then IPv4 (be_val (drop 12 b)) else IPv6 (be_val b).

(** [netip.Prefix]; the zero Prefix is an absent one. *)
Record prefix := { p_addr : ip; p_bits : Z }.
Definition host_bits (r : prefix) : Z := BitLen (p_addr r) - p_bits r.
Definition Contains (r : prefix) (a : ip) : bool :=
  eqb (Is4 (p_addr r)) (Is4 a) && (Z.shiftr (val a) (host_bits r) =? Z.shiftr (val (p_addr r)) (host_bits r)).

Definition Masked (r : prefix) : prefix :=
  let k := 2 ^ host_bits r in
  let a := val (p_addr r) / k * k in
  {| p_addr := if Is4 (p_addr r) then IPv4 a else IPv6 a; p_bits := p_bits r |}.
Definition Overlaps (r q : prefix) : bool :=
  let k := BitLen (p_addr r) - Z.min (p_bits r) (p_bits q) in
  eqb (Is4 (p_addr r)) (Is4 (p_addr q)) && (Z.shiftr (val (p_addr r)) k =? Z.shiftr (val (p_addr q)) k).

(** A prefix as netip makes them. *)
Definition prefix_ok (r : prefix) : Prop := ip_ok (p_addr r) ∧ 0 ≤ p_bits r ≤ BitLen (p_addr r).

(** *** The ranges accepted (parseVirtualIPPrefix, after netip.ParsePrefix) *)

Definition minVirtualIPHostBits : Z := 13.
Definition v4MappedPrefix : prefix := {| p_addr := IPv6 (0xffff * 2 ^ 32); p_bits := 96 |}.

Inductive range_error := Overlaps4Mapped | HostBitsSet | TooSmall.
Definition check_range (p : prefix) : option range_error :=
  if negb (Is4 (p_addr p)) && Overlaps p v4MappedPrefix then Some Overlaps4Mapped
  else if negb (bool_decide (p_addr (Masked p) = p_addr p)) then Some HostBitsSet
  else if BitLen (p_addr p) - minVirtualIPHostBits <? p_bits p then Some TooSmall
  else None.

End NetIP.

(** ** The plan *)

Module Plan.
Import NetIP.

(** [fnv.New64a]: the 64-bit FNV-1a hash. *)
Definition fnv1a64 (host : bytes) : Z :=
  fold_left (λ h b, u64 (Z.lxor h b * 1099511628211)) host 14695981039346656037.

(** [for i := range n]: the first result of [f], from [i]. *)
Fixpoint first_of {A} (f : Z → option A) (n : nat) (i : Z) : option A :=
  match n with
  | O => None
  | S n' => match f i with Some x => Some x | None => first_of f n' (i + 1) end
  end.

Record vipEntry := { e_host : bytes; e_retired : bool; e_retired_at : Z }.
#[export] Instance vipEntry_eq_dec : EqDecision vipEntry.
Proof. solve_decision. Defined.

(** The zero time, year 1. *)
Definition time_zero : Z := -62135596800 * 10 ^ 9.
(** The entry of a host that is watched, [vipEntry{Host: host}]. *)
Definition active (host : bytes) : vipEntry := {| e_host := host; e_retired := false; e_retired_at := time_zero |}.
Definition retire (host : bytes) (now : Z) : vipEntry := {| e_host := host; e_retired := true; e_retired_at := now |}.

(** [now.Sub(t)] saturates; [t.Unix()] is in seconds. *)
Definition Sub (a b : Z) : Z := Z.max (- 2 ^ 63) (Z.min (2 ^ 63 - 1) (a - b)).
Definition Unix (t : Z) : Z := t / 10 ^ 9.
Definition virtualIPRetention : Z := 24 * 3600 * 10 ^ 9.

Abbreviation reservations := (gmap ip vipEntry).

(** *** A free address *)

Definition freeVirtualIP4 (r : prefix) (hash : Z) (taken : reservations) : option ip :=
  let size := 2 ^ (32 - p_bits r) in
  let base := val (p_addr r) in
  let start := hash mod size in
  first_of (λ i,
    let off := u64 (start + i) mod size in
    if (off =? 0) || (off =? size - 1) then None
    else
      let v := base +32 u32 off in
      let last := u8 v in
      if (last =? 0) || (last =? 0xff) then None
      else match taken !! IPv4 v with Some _ => None | None => Some (IPv4 v) end) (Z.to_nat size) 0.

Definition max64 : Z := 2 ^ 64 - 1.

Definition freeVirtualIP6 (r : prefix) (hash : Z) (taken : reservations) : option ip :=
  let hostBits := 128 - p_bits r in
  let last := if hostBits <? 64 then 2 ^ hostBits - 1 else max64 in
  let hi := val (p_addr r) / 2 ^ 64 in
  let lo := val (p_addr r) mod 2 ^ 64 in
  let start := if last =? max64 then hash else hash mod (last + 1) in
  first_of (λ i,
    let off := u64 (start + i) in
    let off := if last =? max64 then off else off mod (last + 1) in
    if (off =? 0) || (off =? last) then None
    else
      let a := IPv6 (hi * 2 ^ 64 + Z.lor lo off) in
      match taken !! a with Some _ => None | None => Some a end) (size taken + 3) 0.

Definition freeVirtualIP (r : prefix) (host : bytes) (taken : reservations) : option ip :=
  let hash := fnv1a64 host in
  if Is4 (p_addr r) then freeVirtualIP4 r hash taken else freeVirtualIP6 r hash taken.

(** *** The plan *)

Inductive reason := NoHost | NoRange | OutsideRange | RetentionOver | Evicted.
#[export] Instance reason_eq_dec : EqDecision reason.
Proof. solve_decision. Defined.

Record vipPlan := {
  Entries : reservations;
  Hosts : gmap bytes ip;
  Allocated : list (ip * bytes);
  Reactivated : list (ip * bytes);
  Retired : list (ip * bytes);
  Released : list (ip * bytes * reason);
  Unallocated : list bytes
}.
#[export] Instance vipPlan_eta : Eta vipPlan := λ p,
  Build_vipPlan (Entries p) (Hosts p) (Allocated p) (Reactivated p) (Retired p) (Released p) (Unallocated p).
Definition plan_empty : vipPlan := Build_vipPlan ∅ ∅ [] [] [] [] [].

(** Go's order of strings, byte by byte. *)
Fixpoint str_leb (a b : bytes) : bool :=
  match a, b with
  | [], _ => true
  | _, [] => false
  | x :: a', y :: b' => (x <? y) || ((x =? y) && str_leb a' b')
  end.
Definition str_le (a b : bytes) : Prop := str_leb a b = true.
#[export] Instance str_le_dec : RelDecision str_le.
Proof. intros a b. unfold str_le. apply _. Defined.

(** [slices.Sorted(maps.Keys(m))]. *)
Definition sorted_ips (m : reservations) : list ip := merge_sort ip_le (elements (dom m)).
Definition sorted_keys {V} (m : gmap bytes V) : list bytes := merge_sort str_le (elements (dom m)).
Definition sorted_hosts (hosts : gset bytes) : list bytes := merge_sort str_le (elements hosts).

(** Why a reservation is not kept, if so. *)
Definition release_reason (r : option prefix) (now : Z) (a : ip) (e : vipEntry) : option reason :=
  match e_host e, r with
  | [], _ => Some NoHost
  | _, None => Some NoRange
  | _, Some r =>
      if negb (Contains r a) then Some OutsideRange
      else if e_retired e && (virtualIPRetention <=? Sub now (e_retired_at e)) then Some RetentionOver
      else None
  end.

(** The first loop: what is kept, by host. *)
Definition keep_valid (r : option prefix) (now : Z) (existing : reservations) (st : vipPlan * gmap bytes (list ip)) (a : ip) :=
  let '(plan, byHost) := st in
  let e := default {| e_host := []; e_retired := false; e_retired_at := time_zero |} (existing !! a) in
  match release_reason r now a e with
  | Some why => (plan <| Released := Released plan ++ [(a, e_host e, why)] |>, byHost)
  | None => (plan <| Entries := <[a := e]> (Entries plan) |>, <[e_host e := default [] (byHost !! e_host e) ++ [a]]> byHost)
  end.

Definition is_retired (m : reservations) (a : ip) : bool := match m !! a with Some e => e_retired e | None => false end.

(** The IP a watched host keeps: its first active one, or else its first. *)
Definition pick_keep (m : reservations) (ips : list ip) : option ip :=
  match List.find (λ a, negb (is_retired m a)) ips with Some a => Some a | None => head ips end.

Definition retire_other (host : bytes) (keep : option ip) (now : Z) (plan : vipPlan) (a : ip) : vipPlan :=
  if bool_decide (Some a = keep) || is_retired (Entries plan) a then plan
  else plan <| Entries := <[a := retire host now]> (Entries plan) |> <| Retired := Retired plan ++ [(a, host)] |>.

(** The second loop: one active IP for a watched host, none for another. *)
Definition settle_host (hosts : gset bytes) (now : Z) (byHost : gmap bytes (list ip)) (plan : vipPlan) (host : bytes) : vipPlan :=
  let ips := default [] (byHost !! host) in
  let keep := if decide (host ∈ hosts) then pick_keep (Entries plan) ips else None in
  let plan := match keep with
    | Some a =>
        let plan := plan <| Hosts := <[host := a]> (Hosts plan) |> in
        if is_retired (Entries plan) a then
          plan <| Entries := <[a := active host]> (Entries plan) |> <| Reactivated := Reactivated plan ++ [(a, host)] |>
        else plan
    | None => plan
    end in
  fold_left (retire_other host keep now) ips plan.

Section Order.
(** The order in which [range] visits a map, which Go leaves open. *)
Context (range : reservations → list (ip * vipEntry)).

(** [a] was retired before [b], or has the lower address. *)
Definition older (a b : ip * vipEntry) : bool :=
  let ta := Unix (e_retired_at (snd a)) in let tb := Unix (e_retired_at (snd b)) in
  (ta <? tb) || ((ta =? tb) && Less (fst a) (fst b)).

Definition oldest_retired (m : reservations) : option (ip * vipEntry) :=
  fold_left (λ oldest x, if negb (e_retired (snd x)) then oldest
    else match oldest with None => Some x | Some o => if older x o then Some x else oldest end) (range m) None.

(** [None]: there was none, and the plan is as it was. *)
Definition evictOldestRetired (p : vipPlan) : option vipPlan :=
  match oldest_retired (Entries p) with
  | None => None
  | Some (a, e) => Some (p <| Released := Released p ++ [(a, e_host e, Evicted)] |> <| Entries := delete a (Entries p) |>)
  end.

(** [for len(plan.Entries) > capacity && plan.evictOldestRetired() {}]: an eviction
    takes an entry away, so as many rounds as there are entries are enough. *)
Fixpoint evict_excess (fuel : nat) (capacity : Z) (p : vipPlan) : vipPlan :=
  match fuel with
  | O => p
  | S fuel' => if capacity <? Z.of_nat (size (Entries p)) then
                 match evictOldestRetired p with Some p' => evict_excess fuel' capacity p' | None => p end
               else p
  end.

(** The last loop: a new IP for a watched host that has none. *)
Definition allocate (r : option prefix) (capacity : Z) (plan : vipPlan) (host : bytes) : vipPlan :=
  match Hosts plan !! host, host with
  | Some _, _ | _, [] => plan
  | None, _ =>
      let left_out := plan <| Unallocated := Unallocated plan ++ [host] |> in
      let room := if capacity <=? Z.of_nat (size (Entries plan)) then evictOldestRetired plan else Some plan in
      match room with
      | None => left_out
      | Some plan =>
          match r ≫= λ r, freeVirtualIP r host (Entries plan) with
          | None => plan <| Unallocated := Unallocated plan ++ [host] |>
          | Some a => plan <| Entries := <[a := active host]> (Entries plan) |> <| Hosts := <[host := a]> (Hosts plan) |>
                        <| Allocated := Allocated plan ++ [(a, host)] |>
          end
      end
  end.

Definition planVirtualIPs (r : option prefix) (hosts : gset bytes) (existing : reservations) (now capacity : Z) : vipPlan :=
  let '(plan, byHost) := fold_left (keep_valid r now existing) (sorted_ips existing) (plan_empty, ∅) in
  let plan := fold_left (settle_host hosts now byHost) (sorted_keys byHost) plan in
  let plan := evict_excess (size (Entries plan)) capacity plan in
  fold_left (allocate r capacity) (sorted_hosts hosts) plan.

Record VirtualIPRanges := { V4 : prefix; V6 : option prefix }.

Definition planVirtualIPRanges (ranges : VirtualIPRanges) (hosts : gset bytes) (existing : reservations) (now capacity : Z) : vipPlan * vipPlan :=
  let ex4 := filter (λ '(a, _), Is4 a = true) existing in
  let ex6 := filter (λ '(a, _), Is4 a = false) existing in
  let cap4 := match V6 ranges with Some _ => capacity / 2 | None => capacity end in
  let hosts6 := match V6 ranges with Some _ => hosts | None => ∅ end in
  (planVirtualIPs (Some (V4 ranges)) hosts ex4 now cap4,
   planVirtualIPs (V6 ranges) hosts6 ex6 now (capacity - cap4)).

End Order.
End Plan.

(** ** A free address is found *)

Module FreeFacts.
Import NetIP Plan.

(** A range the controller runs with. *)
Definition range_ok (r : prefix) : Prop := prefix_ok r ∧ check_range r = None.

(** The number of addresses probed: all of an IPv4 range, the first 2^64 of an IPv6
    one. The address at an offset, and those the probe may take. *)
Definition span (r : prefix) : Z := 2 ^ (if Is4 (p_addr r) then host_bits r else Z.min (host_bits r) 64).
Definition addr_at (r : prefix) (off : Z) : ip :=
  if Is4 (p_addr r) then IPv4 (val (p_addr r) + off) else IPv6 (val (p_addr r) + off).
Definition usable (r : prefix) (off : Z) : bool :=
  negb (off =? 0) && negb (off =? span r - 1) && (negb (Is4 (p_addr r)) || (negb (off mod 256 =? 0) && negb (off mod 256 =? 255))).

Lemma range_facts r : range_ok r →
  13 ≤ host_bits r ≤ BitLen (p_addr r) ∧ 0 ≤ val (p_addr r) ∧ val (p_addr r) + 2 ^ host_bits r ≤ 2 ^ BitLen (p_addr r) ∧
  ∃ q, 0 ≤ q ∧ val (p_addr r) = q * 2 ^ host_bits r.
Proof.
  intros [[Ha Hb] Hc]. unfold check_range, minVirtualIPHostBits in Hc. destruct (_ && _); [done|].
  destruct (bool_decide_reflect (p_addr (Masked r) = p_addr r)) as [Hm|]; [|done]. cbn [negb] in Hc.
  destruct (Z.ltb_spec (BitLen (p_addr r) - 13) (p_bits r)); [done|]. clear Hc.
  set (k := host_bits r). assert (Hk : 13 ≤ k ≤ BitLen (p_addr r)) by (unfold k, host_bits; lia).
  pose proof (Z.pow_pos_nonneg 2 k ltac:(lia) ltac:(lia)). unfold ip_ok in Ha. set (v := val (p_addr r)) in *.
  assert (Hv : v / 2 ^ k * 2 ^ k = v).
  { apply (f_equal val) in Hm. unfold Masked in Hm. cbn [p_addr] in Hm. fold k v in Hm. by destruct (Is4 (p_addr r)). }
  split; [done|]. split; [lia|]. split; [|exists (v / 2 ^ k); split; [apply Z.div_pos; lia|lia]].
  assert (Hd : 2 ^ BitLen (p_addr r) = 2 ^ (BitLen (p_addr r) - k) * 2 ^ k) by (rewrite <- Z.pow_add_r by lia; f_equal; lia).
  rewrite Hd in *. assert (v / 2 ^ k < 2 ^ (BitLen (p_addr r) - k)) by (apply Z.div_lt_upper_bound; lia). nia.
Qed.

Lemma span_bounds r : range_ok r → 2 ^ 13 ≤ span r ≤ 2 ^ host_bits r ∧ span r ≤ 2 ^ 64 ∧ ∃ q, 0 < q ∧ 2 ^ 64 = q * span r.
Proof.
  intros Hr. destruct (range_facts r Hr) as (Hk & _). unfold span, BitLen in *.
  set (k := if Is4 (p_addr r) then host_bits r else Z.min (host_bits r) 64).
  assert (13 ≤ k ≤ host_bits r ∧ k ≤ 64) as [Hk1 Hk2] by (unfold k; destruct (Is4 (p_addr r)); lia).
  split; [split; apply Z.pow_le_mono_r; lia|]. split; [apply Z.pow_le_mono_r; lia|].
  exists (2 ^ (64 - k)). split; [apply Z.pow_pos_nonneg; lia|]. rewrite <- Z.pow_add_r by lia. f_equal. lia.
Qed.

(** *** The loop of [first_of] *)

Lemma first_of_Some {A} (f : Z → option A) n i x : first_of f n i = Some x ↔
  ∃ j, i ≤ j < i + Z.of_nat n ∧ f j = Some x ∧ ∀ k, i ≤ k < j → f k = None.
Proof.
  revert i. induction n as [|n IH]; intros i; cbn [first_of].
  { split; [done|]. intros (j & ? & _). lia. }
  destruct (f i) as [y|] eqn:E.
  - split; [intros [= ->]; exists i; split_and!; try lia; try done; intros k; lia|].
    intros (j & Hj & Ej & Hk). destruct (decide (i = j)) as [->|]; [congruence|]. specialize (Hk i ltac:(lia)). congruence.
  - rewrite IH. split; intros (j & Hj & Ej & Hk).
    + exists j. split; [lia|]. split; [done|]. intros k Hk'. destruct (decide (i = k)) as [->|]; [done|apply Hk; lia].
    + destruct (decide (i = j)) as [->|]; [congruence|]. exists j. split; [lia|]. split; [done|]. intros k Hk'. apply Hk. lia.
Qed.

Lemma first_of_ext {A} (f g : Z → option A) n i : (∀ j, i ≤ j < i + Z.of_nat n → f j = g j) → first_of f n i = first_of g n i.
Proof.
  revert i. induction n as [|n IH]; intros i H; cbn [first_of]; [done|]. rewrite H by lia. destruct (g i); [done|]. apply IH. intros. apply H. lia.
Qed.

(** Among more addresses than are taken, one is free. *)
Lemma one_free (taken : reservations) (L : list ip) : NoDup L → (size taken < length L)%nat → ∃ a, a ∈ L ∧ taken !! a = None.
Proof.
  intros HL Hs. destruct (decide (Forall (λ a, is_Some (taken !! a)) L)) as [H|H].
  - exfalso. rewrite <- size_dom, <- (size_list_to_set (C := gset ip) L HL) in Hs.
    assert (size (list_to_set L : gset ip) ≤ size (dom taken))%nat; [|lia].
    apply subseteq_size. intros a Ha. apply elem_of_list_to_set in Ha. apply elem_of_dom. by apply (proj1 (Forall_forall _ _) H).
  - apply not_Forall_Exists in H; [|apply _]. apply Exists_exists in H as (a & Ha & Hn). exists a. split; [done|]. by apply eq_None_not_Some.
Qed.

(** *** The two probes as one *)

Definition probe (r : prefix) (taken : reservations) (off : Z) : option ip :=
  if usable r off then match taken !! addr_at r off with Some _ => None | None => Some (addr_at r off) end else None.
Definition tries (r : prefix) (taken : reservations) : nat := if Is4 (p_addr r) then Z.to_nat (span r) else (size taken + 3)%nat.

Lemma fnv1a64_range host : 0 ≤ fnv1a64 host < 2 ^ 64.
Proof.
  unfold fnv1a64. assert (H : 0 ≤ 14695981039346656037 < 2 ^ 64) by lia. revert H. generalize 14695981039346656037.
  induction host as [|b l IH]; intros h Hh; cbn [fold_left]; [done|]. apply IH. apply (u64_range (Z.lxor h b * 1099511628211)).
Qed.

Lemma mod_shift x i n : 0 < n → (x mod n + i) mod n = (x + i) mod n.
Proof. intros. by rewrite Zplus_mod_idemp_l. Qed.

Lemma u64_mod x r : range_ok r → u64 x mod span r = x mod span r.
Proof.
  intros Hr. destruct (span_bounds r Hr) as ([? _] & _ & q & Hq & E). unfold u64.
  change 18446744073709551616 with (2 ^ 64). rewrite E, (Z.mul_comm q), Z.rem_mul_r by lia.
  by rewrite (Z.mul_comm (span r)), Z_mod_plus_full, Z.mod_mod by lia.
Qed.

Lemma free4_probe r hash taken : range_ok r → Is4 (p_addr r) = true → 0 ≤ hash →
  freeVirtualIP4 r hash taken = first_of (λ i, probe r taken ((hash + i) mod span r)) (tries r taken) 0.
Proof.
  intros Hr H4 Hh. destruct (range_facts r Hr) as (Hk & Hv & Hle & q & Hq & Ev). destruct (span_bounds r Hr) as ([Hs _] & _ & _).
  unfold BitLen in *. rewrite H4 in *. unfold freeVirtualIP4, tries. rewrite H4.
  assert (Es : 2 ^ (32 - p_bits r) = span r) by (unfold span, host_bits, BitLen; by rewrite H4).
  rewrite Es. apply first_of_ext. intros i Hi. rewrite u64_mod, mod_shift by (done || lia).
  set (off := (hash + i) mod span r). pose proof (Z.mod_pos_bound (hash + i) (span r) ltac:(lia)) as Ho. fold off in Ho.
  assert (Ho2 : off < 2 ^ host_bits r) by (unfold span in Ho; rewrite H4 in Ho; lia).
  unfold probe, usable, addr_at. rewrite H4. cbn [negb orb].
  destruct (off =? 0); [done|]. destruct (off =? span r - 1); [done|]. cbn [orb negb andb].
  change (2 ^ 32) with 4294967296 in Hle. rewrite (u32_small off), u32_small by lia.
  assert (E8 : u8 (val (p_addr r) + off) = off mod 256).
  { unfold u8. rewrite Ev. replace (2 ^ host_bits r) with (2 ^ (host_bits r - 8) * 256)
      by (change 256 with (2 ^ 8); rewrite <- Z.pow_add_r by lia; f_equal; lia).
    by rewrite Z.mul_assoc, Z.add_comm, Z_mod_plus_full. }
  rewrite E8. by destruct (off mod 256 =? 0), (off mod 256 =? 255).
Qed.

Lemma free6_probe r hash taken : range_ok r → Is4 (p_addr r) = false → 0 ≤ hash < 2 ^ 64 →
  freeVirtualIP6 r hash taken = first_of (λ i, probe r taken ((hash + i) mod span r)) (tries r taken) 0.
Proof.
  intros Hr H6 Hh. destruct (range_facts r Hr) as (Hk & Hv & Hle & q & Hq & Ev). destruct (span_bounds r Hr) as ([Hs _] & Hs64 & _).
  unfold BitLen in *. rewrite H6 in *. unfold freeVirtualIP6, tries. rewrite H6.
  assert (Ehb : 128 - p_bits r = host_bits r) by (unfold host_bits, BitLen; by rewrite H6). rewrite Ehb.
  assert (El : (if host_bits r <? 64 then 2 ^ host_bits r - 1 else max64) = span r - 1).
  { unfold span, max64. rewrite H6. destruct (Z.ltb_spec (host_bits r) 64); [by rewrite Z.min_l by lia|by rewrite Z.min_r by lia]. }
  rewrite El. apply first_of_ext. intros i Hi.
  assert (Eoff : (if span r - 1 =? max64 then u64 ((if span r - 1 =? max64 then hash else hash mod (span r - 1 + 1)) + i)
    else u64 ((if span r - 1 =? max64 then hash else hash mod (span r - 1 + 1)) + i) mod (span r - 1 + 1)) = (hash + i) mod span r).
  { replace (span r - 1 + 1) with (span r) by lia. destruct (Z.eqb_spec (span r - 1) max64) as [E|_].
    - unfold max64 in E. by replace (span r) with (2 ^ 64) by lia.
    - by rewrite u64_mod, mod_shift by (done || lia). }
  rewrite Eoff. clear Eoff. set (off := (hash + i) mod span r).
  pose proof (Z.mod_pos_bound (hash + i) (span r) ltac:(lia)) as Ho. fold off in Ho.
  unfold probe, usable, addr_at. rewrite H6. cbn [negb orb]. rewrite andb_true_r.
  destruct (off =? 0); [done|]. destruct (off =? span r - 1); [done|]. cbn [orb negb andb].
  assert (Ea : val (p_addr r) / 2 ^ 64 * 2 ^ 64 + Z.lor (val (p_addr r) mod 2 ^ 64) off = val (p_addr r) + off).
  { assert (Hlor : Z.lor (val (p_addr r) mod 2 ^ 64) off = val (p_addr r) mod 2 ^ 64 + off).
    { unfold span in Ho. rewrite H6 in Ho. rewrite Ev. destruct (Z.le_ge_cases (host_bits r) 64).
      - rewrite Z.min_l in Ho by lia. replace (2 ^ 64) with (2 ^ (64 - host_bits r) * 2 ^ host_bits r) by (rewrite <- Z.pow_add_r by lia; f_equal; lia).
        rewrite Zmult_mod_distr_r. rewrite lor_disjoint by lia. done.
      - rewrite Z.min_r in Ho by lia. replace (2 ^ host_bits r) with (2 ^ (host_bits r - 64) * 2 ^ 64) by (rewrite <- Z.pow_add_r by lia; f_equal; lia).
        rewrite Z.mul_assoc, Z_mod_mult. by rewrite Z.lor_0_l. }
    rewrite Hlor. pose proof (Z.div_mod (val (p_addr r)) (2 ^ 64) ltac:(lia)). lia. }
  rewrite Ea. done.
Qed.

Lemma free_probe r host taken : range_ok r →
  freeVirtualIP r host taken = first_of (λ i, probe r taken ((fnv1a64 host + i) mod span r)) (tries r taken) 0.
Proof.
  intros Hr. unfold freeVirtualIP. pose proof (fnv1a64_range host).
  destruct (Is4 (p_addr r)) eqn:E; [apply free4_probe|apply free6_probe]; done || lia.
Qed.

Lemma addr_at_inj r : Inj (=) (=) (addr_at r).
Proof. intros x y. unfold addr_at. destruct (Is4 _); intros [= ?]; lia. Qed.

Lemma addr_at_in r off : range_ok r → 0 ≤ off < span r → Contains r (addr_at r off) = true ∧ ip_ok (addr_at r off).
Proof.
  intros Hr Ho. destruct (range_facts r Hr) as (Hk & Hv & Hle & q & Hq & Ev). destruct (span_bounds r Hr) as ([Hs Hsk] & _).
  assert (Ho2 : off < 2 ^ host_bits r) by lia.
  unfold Contains, ip_ok, addr_at. assert (Hsh : Z.shiftr (val (p_addr r) + off) (host_bits r) = Z.shiftr (val (p_addr r)) (host_bits r)).
  { rewrite !Z.shiftr_div_pow2 by lia. rewrite Ev, Z.add_comm, Z_div_plus_full, Z_div_mult, Z.div_small by lia. done. }
  unfold BitLen in *. destruct (Is4 (p_addr r)) eqn:E; cbn [Is4 val eqb]; rewrite Hsh, Z.eqb_refl; (split; [done|lia]).
Qed.

(** *** Enough addresses are probed *)

Definition spread : list Z := filter (λ off, off mod 256 ≠ 0 ∧ off mod 256 ≠ 255) (seqZ 0 8192).

Lemma spread_length : zlen spread = 8128.
Proof. vm_compute. reflexivity. Qed.

Lemma elem_of_spread off : off ∈ spread → (off mod 256 ≠ 0 ∧ off mod 256 ≠ 255) ∧ 0 ≤ off < 8192.
Proof. unfold spread. intros H. apply list_elem_of_filter in H as [H Ho]. by apply elem_of_seqZ in Ho. Qed.

Lemma spread_nodup : NoDup spread.
Proof. unfold spread. apply NoDup_filter, NoDup_seqZ. Qed.
#[local] Opaque spread.

Lemma spread_usable r off : range_ok r → Is4 (p_addr r) = true → off ∈ spread → usable r off = true ∧ 0 ≤ off < span r.
Proof.
  intros Hr H4 Ho. apply elem_of_spread in Ho as [[H0 H255] Ho].
  destruct (span_bounds r Hr) as ([Hs _] & _). change (2 ^ 13) with 8192 in Hs. split; [|lia].
  destruct (range_facts r Hr) as (Hk & _).
  assert (Hm : (span r - 1) mod 256 = 255).
  { unfold span. rewrite H4. replace (2 ^ host_bits r) with (2 ^ (host_bits r - 8) * 256)
      by (change 256 with (2 ^ 8); rewrite <- Z.pow_add_r by lia; f_equal; lia).
    replace (_ * 256 - 1) with (255 + (2 ^ (host_bits r - 8) - 1) * 256) by lia. by rewrite Z_mod_plus_full. }
  unfold usable. rewrite H4. cbn [negb orb].
  destruct (Z.eqb_spec off 0) as [->|]; [done|]. destruct (Z.eqb_spec off (span r - 1)) as [->|]; [done|].
  destruct (Z.eqb_spec (off mod 256) 0); [done|]. by destruct (Z.eqb_spec (off mod 256) 255).
Qed.

(** The offsets an IPv6 range is probed at: all different. *)
Definition visited (r : prefix) (hash : Z) (n : nat) : list Z := (λ i, (hash + i) mod span r) <$> seqZ 0 (Z.of_nat n).

Lemma visited_nodup r hash n : range_ok r → Z.of_nat n ≤ span r → NoDup (visited r hash n).
Proof.
  intros Hr Hn. apply NoDup_fmap_2_strong; [|apply NoDup_seqZ]. intros x y Hx Hy E.
  apply elem_of_seqZ in Hx, Hy. destruct (span_bounds r Hr) as ([Hs _] & _). change (2 ^ 13) with 8192 in Hs.
  assert (H : (x - y) mod span r = 0).
  { replace (x - y) with ((hash + x) - (hash + y)) by lia. rewrite Zminus_mod, E, Z.sub_diag. apply Z.mod_0_l. lia. }
  apply Z.mod_divide in H as [c Hc]; [|lia]. assert (c = 0) by nia. lia.
Qed.

(** Leaving out two values of a list without duplicates leaves all but two. *)
Lemma nodup_without_two (l : list Z) a b : NoDup l → (length l ≤ length (filter (λ x, x ≠ a ∧ x ≠ b) l) + 2)%nat.
Proof.
  intros Hl. assert (Hsub : l ⊆+ filter (λ x, x ≠ a ∧ x ≠ b) l ++ [a; b]).
  { apply NoDup_submseteq; [done|]. intros x Hx. apply elem_of_app.
    destruct (decide (x = a)) as [->|]; [right; by left|]. destruct (decide (x = b)) as [->|]; [right; right; by left|].
    left. by apply list_elem_of_filter. }
  apply submseteq_length in Hsub. rewrite length_app in Hsub. cbn in Hsub. lia.
Qed.

(** The probed offsets that may be taken. *)
Definition offered (r : prefix) (hash : Z) (taken : reservations) : list Z :=
  if Is4 (p_addr r) then spread
  else filter (λ off, off ≠ 0 ∧ off ≠ span r - 1) (visited r hash (size taken + 3)).

Lemma offered_enough r hash taken : range_ok r → Z.of_nat (size taken) < 8128 →
  NoDup (offered r hash taken) ∧ (size taken < length (offered r hash taken))%nat.
Proof.
  intros Hr Hs. unfold offered. destruct (span_bounds r Hr) as ([Hsp _] & _). change (2 ^ 13) with 8192 in Hsp. destruct (Is4 (p_addr r)).
  - split; [apply spread_nodup|]. pose proof spread_length as L. unfold zlen in L. lia.
  - assert (Hn : NoDup (visited r hash (size taken + 3))) by (apply visited_nodup; [done|lia]).
    split; [by apply NoDup_filter|]. pose proof (nodup_without_two _ 0 (span r - 1) Hn) as H.
    assert (L : length (visited r hash (size taken + 3)) = (size taken + 3)%nat) by (unfold visited; rewrite length_fmap, length_seqZ; lia).
    rewrite L in H. lia.
Qed.

Lemma offered_probed r hash taken off : range_ok r → 0 ≤ hash → off ∈ offered r hash taken →
  usable r off = true ∧ ∃ i, 0 ≤ i < Z.of_nat (tries r taken) ∧ (hash + i) mod span r = off.
Proof.
  intros Hr Hh Ho. unfold offered, tries in *. destruct (span_bounds r Hr) as ([Hsp _] & _). change (2 ^ 13) with 8192 in Hsp.
  destruct (Is4 (p_addr r)) eqn:E.
  - destruct (spread_usable r off Hr E Ho) as [Hu Hoff]. split; [done|]. exists ((off - hash) mod span r).
    pose proof (Z.mod_pos_bound (off - hash) (span r) ltac:(lia)). split; [lia|].
    rewrite Zplus_mod_idemp_r. replace (hash + (off - hash)) with off by lia. by apply Z.mod_small.
  - apply list_elem_of_filter in Ho as [[H0 H1] Ho]. apply list_elem_of_fmap in Ho as (i & -> & Hi). apply elem_of_seqZ in Hi.
    split; [|exists i; split; [lia|done]]. unfold usable. rewrite E.
    apply Z.eqb_neq in H0. apply Z.eqb_neq in H1. by rewrite H0, H1.
Qed.

Lemma probe_Some r taken off a : probe r taken off = Some a ↔ usable r off = true ∧ a = addr_at r off ∧ taken !! a = None.
Proof.
  unfold probe. destruct (usable r off); [|split; [done|by intros [? _]]]. destruct (taken !! addr_at r off) eqn:E; split.
  - done.
  - intros (_ & -> & H). congruence.
  - by intros [= <-].
  - by intros (_ & -> & _).
Qed.

Lemma first_of_None {A} (f : Z → option A) n : ∀ i, first_of f n i = None → ∀ j, i ≤ j < i + Z.of_nat n → f j = None.
Proof.
  induction n as [|n IH]; intros i H j Hj; [lia|]. cbn [first_of] in H. destruct (f i) eqn:E; [done|].
  destruct (decide (i = j)) as [->|]; [done|]. apply (IH (i + 1)); [done|lia].
Qed.

(** A probe of a free address that the range offers succeeds. *)
Lemma free_found r host taken : range_ok r → Z.of_nat (size taken) < 8128 → is_Some (freeVirtualIP r host taken).
Proof.
  intros Hr Hs. rewrite free_probe by done. pose proof (fnv1a64_range host) as Hh.
  destruct (offered_enough r (fnv1a64 host) taken Hr Hs) as [Hnd Hlen].
  destruct (one_free taken (addr_at r <$> offered r (fnv1a64 host) taken)) as (a & Ha & Hfree).
  { apply NoDup_fmap_2; [apply addr_at_inj|done]. } { by rewrite length_fmap. }
  apply list_elem_of_fmap in Ha as (off & -> & Ho). destruct (offered_probed _ _ _ _ Hr (proj1 Hh) Ho) as (Hu & i & Hi & Ei).
  destruct (first_of _ _ _) as [x|] eqn:E; [by eexists|exfalso].
  assert (Hp : probe r taken ((fnv1a64 host + i) mod span r) = Some (addr_at r off)) by (rewrite Ei; by apply probe_Some).
  rewrite (first_of_None _ _ _ E i) in Hp by lia. done.
Qed.

Lemma free_sound r host taken a : range_ok r → freeVirtualIP r host taken = Some a → ∃ n, 0 ≤ n ∧
  let at_ m := (fnv1a64 host + m) mod span r in
  a = addr_at r (at_ n) ∧ usable r (at_ n) = true ∧ taken !! a = None ∧ Contains r a = true ∧ ip_ok a ∧
  ∀ m, 0 ≤ m < n → usable r (at_ m) = false ∨ is_Some (taken !! addr_at r (at_ m)).
Proof.
  intros Hr E. rewrite free_probe in E by done. apply first_of_Some in E as (n & Hn & E & Hm). apply probe_Some in E as (Hu & -> & Hf).
  exists n. split; [lia|]. destruct (span_bounds r Hr) as ([Hsp _] & _). change (2 ^ 13) with 8192 in Hsp.
  destruct (addr_at_in r ((fnv1a64 host + n) mod span r) Hr) as [Hc Ho]; [apply Z.mod_pos_bound; lia|]. cbn zeta. split_and!; try done.
  intros m Hmn. specialize (Hm m ltac:(lia)). unfold probe in Hm. destruct (usable r ((fnv1a64 host + m) mod span r)); [|by left]. right. destruct (taken !! addr_at r ((fnv1a64 host + m) mod span r)); [by eexists|done].
Qed.
(** *** The property *)

(** C22: a probe finds the address the comment promises: in a range the controller
    accepts, with fewer than 8128 addresses taken (vip_ip_host holds 4096), freeVirtualIP
    returns the first address at or after the host's hash slot, wrapping at the end of
    the range, that is neither an end of the range nor (in IPv4) ends in .0 or .255,
    and is not taken. *)
Theorem free_ip_is_first r host taken : range_ok r → Z.of_nat (size taken) < 8128 →
  ∃ n, 0 ≤ n ∧ let at_ m := (fnv1a64 host + m) mod span r in
    freeVirtualIP r host taken = Some (addr_at r (at_ n)) ∧ usable r (at_ n) = true ∧ taken !! addr_at r (at_ n) = None ∧
    Contains r (addr_at r (at_ n)) = true ∧
    ∀ m, 0 ≤ m < n → usable r (at_ m) = false ∨ is_Some (taken !! addr_at r (at_ m)).
Proof.
  intros Hr Hs. destruct (free_found r host taken Hr Hs) as [a E]. destruct (free_sound r host taken a Hr E) as (n & Hn & -> & Hu & Hf & Hc & _ & Hm).
  exists n. by rewrite E.
Qed.

(** 198.18.0.0/15, with the slot of a host taken. *)
Definition sample_range : prefix := {| p_addr := IPv4 0xC6120000; p_bits := 15 |}.
Definition host_a : bytes := [97; 46; 99].
Definition sample_taken : reservations := {[ IPv4 0xC6120707 := active host_a ]}.

Lemma sample_range_ok : range_ok sample_range.
Proof. split; [|reflexivity]. split; [split; [vm_compute; congruence|vm_compute; reflexivity]|cbn; lia]. Qed.

Lemma free_ip_is_first_witness : ∃ a, freeVirtualIP sample_range host_a sample_taken = Some a ∧ Contains sample_range a = true.
Proof.
  destruct (free_ip_is_first sample_range host_a sample_taken sample_range_ok) as (n & _ & H); [vm_compute; reflexivity|].
  cbn zeta in H. destruct H as (E & _ & _ & Hc & _). eexists. split; [exact E|exact Hc].
Defined.
End FreeFacts.
