(* ===== verification/VipReserve.v ===== *)
(** * What the reservation of fake IPs promises (pkg/ebpf/virtual_ip.go)

    [Reserve]: theorems on planVirtualIPs: one active fake IP per watched host, each
    reservation kept while it may be cached, and a plan that does not depend on the
    order in which Go visits a map. *)

From S2P Require Import Prelude VipPlan.
From stdpp Require Import sorting.
#[local] Open Scope Z_scope.

Module Reserve.
Import NetIP Plan FreeFacts.

(** [range] visits every entry once. *)
Definition visits (range : reservations → list (ip * vipEntry)) : Prop := ∀ m, range m ≡ₚ map_to_list m.

Section Plans.
Context (range : reservations → list (ip * vipEntry)) (Hrange : visits range).
Context (r : option prefix) (hosts : gset bytes) (existing : reservations) (now capacity : Z).

(** *** The first loop *)

Record kept (l : list ip) (p : vipPlan) (byHost : gmap bytes (list ip)) : Prop := {
  kp_entries : ∀ a e, Entries p !! a = Some e ↔ a ∈ l ∧ existing !! a = Some e ∧ release_reason r now a e = None;
  kp_by : ∀ h a, a ∈ default [] (byHost !! h) ↔ ∃ e, Entries p !! a = Some e ∧ e_host e = h;
  kp_nodup : ∀ h, NoDup (default [] (byHost !! h));
  kp_full : ∀ h ips, byHost !! h = Some ips → ips ≠ [];
  kp_released : ∀ a h why, (a, h, why) ∈ Released p ↔ a ∈ l ∧ ∃ e, existing !! a = Some e ∧ e_host e = h ∧ release_reason r now a e = Some why;
  kp_rest : Hosts p = ∅ ∧ Unallocated p = []
}.

Section Step.
Context (l : list ip) (p : vipPlan) (by_ : gmap bytes (list ip)) (a : ip) (e : vipEntry).
Context (Hk : kept l p by_) (Ha : a ∉ l) (E : existing !! a = Some e).

Lemma kept_new : Entries p !! a = None.
Proof using Hk Ha. destruct (Entries p !! a) as [e'|] eqn:Ee; [|done]. apply (kp_entries _ _ _ Hk) in Ee as [? _]. done. Qed.

Lemma kept_drop why : release_reason r now a e = Some why →
  kept (l ++ [a]) (p <| Released := Released p ++ [(a, e_host e, why)] |>) by_.
Proof using Hk Ha E.
  intros Ew. destruct Hk as [He Hb Hn Hf Hr [Hh Hu]]. split; cbn [setter Entries Hosts Released Unallocated]; try done.
  - intros b e'. rewrite He, elem_of_app, list_elem_of_singleton. split; [tauto|].
    intros ([?| ->] & E1 & E2); [done|]. congruence.
  - intros b h w. rewrite elem_of_app, Hr, !elem_of_app, !list_elem_of_singleton. split.
    + intros [(? & ?)|[= -> -> ->]]; [tauto|]. split; [by right|]. by exists e.
    + intros [[?| ->] (e' & E1 & E2 & E3)]; [left; split; [done|by exists e']|]. right. rewrite E in E1. injection E1 as <-.
      rewrite Ew in E3. injection E3 as ->. by subst.
Qed.

Lemma kept_add : release_reason r now a e = None →
  kept (l ++ [a]) (p <| Entries := <[a := e]> (Entries p) |>) (<[e_host e := default [] (by_ !! e_host e) ++ [a]]> by_).
Proof using Hk Ha E.
  intros Ew. pose proof kept_new as Ha'. destruct Hk as [He Hb Hn Hf Hr [Hh Hu]].
  assert (Hin : ∀ b e', <[a := e]> (Entries p) !! b = Some e' ↔ Entries p !! b = Some e' ∨ b = a ∧ e' = e).
  { intros b e'. rewrite lookup_insert_Some. destruct (decide (b = a)) as [->|]; naive_solver. }
  split; cbn [setter Entries Hosts Released Unallocated]; try done.
  - intros b e'. rewrite Hin, elem_of_app, list_elem_of_singleton, He. split; [naive_solver|].
    intros ([?| ->] & ? & ?); [naive_solver|]. right. split; [done|]. congruence.
  - intros h b. setoid_rewrite Hin. destruct (decide (h = e_host e)) as [->|Hne].
    + rewrite lookup_insert_eq. cbn [default from_option id]. rewrite elem_of_app, list_elem_of_singleton, Hb. naive_solver.
    + rewrite lookup_insert_ne, Hb by done. naive_solver.
  - intros h. destruct (decide (h = e_host e)) as [->|Hne]; [|by rewrite lookup_insert_ne].
    rewrite lookup_insert_eq. cbn [default from_option id]. apply NoDup_app. split; [done|]. split; [|apply NoDup_singleton].
    intros b Hbb ->%list_elem_of_singleton. apply Hb in Hbb as (e' & E1 & _). congruence.
  - intros h ips. destruct (decide (h = e_host e)) as [->|Hne]; [|rewrite lookup_insert_ne by done; by apply Hf].
    rewrite lookup_insert_eq. intros [= <-]. by destruct (default [] (by_ !! e_host e)).
  - intros b h w. rewrite Hr, elem_of_app, list_elem_of_singleton. split; [tauto|].
    intros [[?| ->] (e' & E1 & E2 & E3)]; [split; [done|by exists e']|]. congruence.
Qed.

Lemma kept_snoc : let '(p', by_') := keep_valid r now existing (p, by_) a in kept (l ++ [a]) p' by_'.
Proof using Hk Ha E.
  unfold keep_valid. rewrite E. cbn [default from_option id].
  destruct (release_reason r now a e) eqn:Ew; [by apply kept_drop|by apply kept_add].
Qed.
End Step.

Lemma kept_loop l : NoDup l → (∀ a, a ∈ l → is_Some (existing !! a)) →
  let '(p, by_) := fold_left (keep_valid r now existing) l (plan_empty, ∅) in kept l p by_.
Proof using.
  induction l as [|a l IH] using rev_ind; intros Hn Hl.
  { cbn [fold_left]. split; cbn [plan_empty Entries Hosts Released Unallocated].
    - intros a e. rewrite lookup_empty. split; [done|]. intros (H & _). by apply elem_of_nil in H.
    - intros h a. rewrite lookup_empty. split; [intros H; by apply elem_of_nil in H|]. intros (e & E & _). by rewrite lookup_empty in E.
    - intros h. rewrite lookup_empty. apply NoDup_nil_2.
    - done.
    - intros a h w. split; [intros H; by apply elem_of_nil in H|]. intros (H & _). by apply elem_of_nil in H.
    - done. }
  rewrite fold_left_app. cbn [fold_left]. apply NoDup_app in Hn as (Hn & Hd & _).
  destruct (Hl a) as [e E]; [apply elem_of_app; right; by left|].
  specialize (IH Hn). destruct (fold_left _ l _) as [p by_]. apply (kept_snoc l p by_ a e); [|intros H; by apply (Hd a H); left|done].
  apply IH. intros b Hb. apply Hl. apply elem_of_app. by left.
Qed.

Lemma elem_of_sorted_ips m a : a ∈ sorted_ips m ↔ is_Some (m !! a).
Proof using. unfold sorted_ips. rewrite merge_sort_Permutation. by rewrite elem_of_elements, elem_of_dom. Qed.
Lemma sorted_ips_nodup m : NoDup (sorted_ips m).
Proof using. unfold sorted_ips. rewrite merge_sort_Permutation. apply NoDup_elements. Qed.
Lemma elem_of_sorted_keys {V} (m : gmap bytes V) h : h ∈ sorted_keys m ↔ is_Some (m !! h).
Proof using. unfold sorted_keys. rewrite merge_sort_Permutation. by rewrite elem_of_elements, elem_of_dom. Qed.
Lemma sorted_keys_nodup {V} (m : gmap bytes V) : NoDup (sorted_keys m).
Proof using. unfold sorted_keys. rewrite merge_sort_Permutation. apply NoDup_elements. Qed.

(** *** The second loop *)

Lemma pick_keep_ext m m' ips : (∀ a, a ∈ ips → is_retired m a = is_retired m' a) → pick_keep m ips = pick_keep m' ips.
Proof using.
  intros H. unfold pick_keep. assert (E : List.find (λ a, negb (is_retired m a)) ips = List.find (λ a, negb (is_retired m' a)) ips); [|by rewrite E].
  induction ips as [|a ips IH]; [done|]. cbn [List.find]. rewrite (H a) by left. destruct (negb _); [done|]. apply IH. intros b Hb. apply H. by right.
Qed.

Lemma pick_keep_in m ips a : pick_keep m ips = Some a → a ∈ ips ∧ ((∃ b, b ∈ ips ∧ is_retired m b = false) → is_retired m a = false).
Proof using.
  unfold pick_keep. destruct (List.find _ ips) as [x|] eqn:E.
  - intros [= ->]. apply List.find_some in E as [Hi Hr]. split; [by apply list_elem_of_In|]. intros _. by apply negb_true_iff.
  - intros H. split; [destruct ips; [done|]; injection H as ->; by left|]. intros (b & Hb & Hr). apply list_elem_of_In in Hb.
    pose proof (List.find_none _ _ E b Hb) as Hn. cbv beta in Hn. by rewrite Hr in Hn.
Qed.

Lemma pick_keep_some m ips : ips ≠ [] → is_Some (pick_keep m ips).
Proof using. intros H. unfold pick_keep. destruct (List.find _ ips); [by eexists|]. destruct ips; [done|]. by eexists. Qed.

(** What the loops of the plan do not touch. *)
Definition rest (p : vipPlan) := (Released p, Allocated p, Unallocated p).

Lemma retire_loop host keep ips : NoDup ips → ∀ p, let p' := fold_left (retire_other host keep now) ips p in
  Hosts p' = Hosts p ∧ rest p' = rest p ∧ ∀ a, Entries p' !! a =
    if decide (a ∈ ips ∧ Some a ≠ keep ∧ is_retired (Entries p) a = false) then Some (retire host now) else Entries p !! a.
Proof using.
  induction 1 as [|a ips Ha Hn IH]; intros p; cbn [fold_left].
  { split; [done|]. split; [done|]. intros a. rewrite decide_False; [done|]. intros [H _]. by apply elem_of_nil in H. }
  destruct (IH (retire_other host keep now p a)) as (H1 & H2 & H3).
  assert (Hp : Hosts (retire_other host keep now p a) = Hosts p ∧ rest (retire_other host keep now p a) = rest p ∧
    ∀ b, Entries (retire_other host keep now p a) !! b =
      if decide (b = a ∧ Some a ≠ keep ∧ is_retired (Entries p) a = false) then Some (retire host now) else Entries p !! b).
  { unfold retire_other. destruct (bool_decide_reflect (Some a = keep)) as [Hk|Hk]; cbn [orb].
    - split; [done|]. split; [done|]. intros b. rewrite decide_False; [done|]. by intros (_ & ? & _).
    - destruct (is_retired (Entries p) a) eqn:Er.
      + split; [done|]. split; [done|]. intros b. rewrite decide_False; [done|]. by intros (_ & _ & ?).
      + split; [done|]. split; [done|]. intros b. cbn [setter Entries]. destruct (decide (b = a)) as [->|Hb].
        * by rewrite lookup_insert_eq, decide_True.
        * rewrite lookup_insert_ne by done. rewrite decide_False; [done|]. by intros [? _]. }
  destruct Hp as (P1 & P2 & P3). split; [by rewrite H1|]. split; [by rewrite H2|]. intros b. rewrite H3, P3.
  destruct (decide (b = a)) as [->|Hb].
  - rewrite (decide_False (P := a ∈ ips ∧ _)) by (by intros [? _]). destruct (decide (a = a ∧ _)) as [(_ & A & B)|Hd].
    + rewrite decide_True; [done|]. split; [by left|done].
    + rewrite decide_False; [done|]. intros (_ & ? & ?). by apply Hd.
  - rewrite (decide_False (P := b = a ∧ _)) by (by intros [? _]).
    assert (Er : is_retired (Entries (retire_other host keep now p a)) b = is_retired (Entries p) b).
    { unfold is_retired. rewrite P3, decide_False; [done|]. by intros [? _]. }
    rewrite Er. apply decide_ext. rewrite elem_of_cons. naive_solver.
Qed.

Section Settle.
Context (p1 : vipPlan) (by_ : gmap bytes (list ip)) (l : list ip) (Hk : kept l p1 by_).

Definition keep_of (h : bytes) : option ip := if decide (h ∈ hosts) then pick_keep (Entries p1) (default [] (by_ !! h)) else None.
Definition settle (a : ip) (e : vipEntry) : vipEntry :=
  if bool_decide (Some a = keep_of (e_host e)) then if e_retired e then active (e_host e) else e
  else if e_retired e then e else retire (e_host e) now.

(** The plan with the hosts of [dn] settled. *)
Record settled (dn : list bytes) (p : vipPlan) : Prop := {
  se_entries : ∀ a, Entries p !! a = (λ e, if decide (e_host e ∈ dn) then settle a e else e) <$> Entries p1 !! a;
  se_hosts : ∀ h, Hosts p !! h = if decide (h ∈ dn) then keep_of h else None;
  se_rest : rest p = rest p1
}.

Lemma in_by a h : a ∈ default [] (by_ !! h) ↔ ∃ e, Entries p1 !! a = Some e ∧ e_host e = h.
Proof using Hk. apply (kp_by _ _ _ Hk). Qed.

Lemma keep_of_in h a : keep_of h = Some a → h ∈ hosts ∧ ∃ e, Entries p1 !! a = Some e ∧ e_host e = h.
Proof using Hk.
  unfold keep_of. destruct (decide (h ∈ hosts)) as [Hin|]; [|done]. intros E. split; [done|].
  apply pick_keep_in in E as [E _]. by apply in_by.
Qed.

(** The IP a host keeps, made active. *)
Definition with_keep (h : bytes) (k : option ip) (p : vipPlan) : vipPlan :=
  match k with
  | Some a =>
      let p := p <| Hosts := <[h := a]> (Hosts p) |> in
      if is_retired (Entries p) a then p <| Entries := <[a := active h]> (Entries p) |> <| Reactivated := Reactivated p ++ [(a, h)] |> else p
  | None => p
  end.

Lemma with_keep_spec h k p : let q := with_keep h k p in rest q = rest p ∧
  (∀ g, Hosts q !! g = if decide (g = h ∧ is_Some k) then k else Hosts p !! g) ∧
  ∀ b, Entries q !! b = if decide (Some b = k ∧ is_retired (Entries p) b = true) then Some (active h) else Entries p !! b.
Proof using.
  cbv zeta. unfold with_keep. destruct k as [a|].
  2:{ split; [done|]. split; [intros g; rewrite decide_False; [done|]; by intros [_ []]|intros b; rewrite decide_False; [done|]; by intros [? _]]. }
  cbn [setter Entries]. assert (Hg : ∀ g, <[h:=a]> (Hosts p) !! g = if decide (g = h ∧ is_Some (Some a)) then Some a else Hosts p !! g).
  { intros g. destruct (decide (g = h)) as [->|].
    - rewrite lookup_insert_eq, decide_True; [done|]. split; [done|by eexists].
    - rewrite lookup_insert_ne by done. rewrite decide_False; [done|]. by intros [? _]. }
  destruct (is_retired (Entries p) a) eqn:Er; (split; [done|]; split; [exact Hg|]; intros b).
  - cbn [setter Entries]. destruct (decide (b = a)) as [->|]; [by rewrite lookup_insert_eq, decide_True|].
    rewrite lookup_insert_ne by done. rewrite decide_False; [done|]. intros [? _]. congruence.
  - rewrite decide_False; [done|]. intros [? ?]. congruence.
Qed.

Lemma settled_step dn p h : settled dn p → h ∉ dn → settled (dn ++ [h]) (settle_host hosts now by_ p h).
Proof using Hk.
  intros [He Hh Hr] Hd. set (ips := default [] (by_ !! h)).
  assert (Hraw : ∀ a e, Entries p1 !! a = Some e → e_host e = h → Entries p !! a = Some e).
  { intros a e E Eh. rewrite He, E. cbn. by rewrite decide_False by (by rewrite Eh). }
  assert (Ek : (if decide (h ∈ hosts) then pick_keep (Entries p) ips else None) = keep_of h).
  { unfold keep_of. destruct (decide (h ∈ hosts)) as [Hin|]; [|done]. apply pick_keep_ext. intros a Ha. apply in_by in Ha as (e & E & Eh).
    unfold is_retired. by rewrite E, (Hraw a e E Eh). }
  change (settle_host hosts now by_ p h) with (fold_left (retire_other h (if decide (h ∈ hosts) then pick_keep (Entries p) ips else None) now) ips
    (with_keep h (if decide (h ∈ hosts) then pick_keep (Entries p) ips else None) p)). rewrite Ek.
  destruct (with_keep_spec h (keep_of h) p) as (Q1 & Q2 & Q3). set (q := with_keep h (keep_of h) p) in *.
  destruct (retire_loop h (keep_of h) ips (kp_nodup _ _ _ Hk h) q) as (R1 & R2 & R3). split; [| |by rewrite R2, Q1].
  - intros a. rewrite R3. unfold is_retired. rewrite Q3. unfold is_retired.
    destruct (Entries p1 !! a) as [e|] eqn:E; cbn.
    + destruct (decide (e_host e = h)) as [Eh|Eh].
      * rewrite (Hraw a e E Eh). rewrite (decide_True (P := e_host e ∈ _)) by (rewrite Eh; apply elem_of_app; right; by left).
        assert (Hin : a ∈ ips) by (apply in_by; by exists e). unfold settle. rewrite Eh.
        destruct (bool_decide_reflect (Some a = keep_of h)) as [Hka|Hka].
        { rewrite (decide_False (P := a ∈ ips ∧ _)) by (intros (_ & ? & _); done).
          destruct (e_retired e); [by rewrite decide_True|]. rewrite decide_False; [done|]. by intros [_ ?]. }
        rewrite (decide_False (P := Some a = keep_of h ∧ _)) by (by intros [? _]).
        destruct (e_retired e); [rewrite decide_False; [done|]; by intros (_ & _ & ?)|by rewrite decide_True].
      * assert (Hni : a ∉ ips) by (intros (e' & E' & Eh')%in_by; congruence).
        assert (Hnk : Some a ≠ keep_of h) by (intros Hka; destruct (keep_of_in h a) as (_ & e' & E' & Eh'); [done|congruence]).
        rewrite (decide_False (P := a ∈ ips ∧ _)) by (by intros [? _]). rewrite (decide_False (P := Some a = keep_of h ∧ _)) by (by intros [? _]).
        rewrite He, E. cbn. f_equal. apply decide_ext. rewrite elem_of_app, list_elem_of_singleton. tauto.
    + assert (Hni : a ∉ ips) by (intros (e' & E' & Eh')%in_by; congruence).
      assert (Hnk : Some a ≠ keep_of h) by (intros Hka; destruct (keep_of_in h a) as (_ & e' & E' & Eh'); [done|congruence]).
      rewrite (decide_False (P := a ∈ ips ∧ _)) by (by intros [? _]). rewrite (decide_False (P := Some a = keep_of h ∧ _)) by (by intros [? _]).
      by rewrite He, E.
  - intros g. rewrite R1, Q2, Hh. destruct (decide (g = h)) as [->|Hg].
    + rewrite (decide_True (P := h ∈ dn ++ [h])) by (apply elem_of_app; right; by left). destruct (keep_of h) as [a|].
      * rewrite decide_True; [done|]. split; [done|by eexists].
      * rewrite decide_False by (by intros [_ []]). by rewrite decide_False.
    + rewrite (decide_False (P := g = h ∧ _)) by (by intros [? _]). apply decide_ext. rewrite elem_of_app, list_elem_of_singleton. tauto.
Qed.

Lemma settle_loop hs : NoDup hs → ∀ dn p, settled dn p → (∀ h, h ∈ hs → h ∉ dn) →
  settled (dn ++ hs) (fold_left (settle_host hosts now by_) hs p).
Proof using Hk.
  induction 1 as [|h hs Hh _ IH]; intros dn p Hp Hd; cbn [fold_left]; [by rewrite app_nil_r|].
  replace (dn ++ h :: hs) with ((dn ++ [h]) ++ hs) by (by rewrite <- app_assoc). apply IH.
  - apply settled_step; [done|]. apply Hd. by left.
  - intros g Hg. rewrite elem_of_app, list_elem_of_singleton. intros [?| ->]; [|done]. by apply (Hd g); [right|].
Qed.
End Settle.

(** *** Evictions *)

Definition all_active (m : reservations) : Prop := ∀ a e, m !! a = Some e → e_retired e = false.

Lemma older_false a b : older a b = false ↔
  let ta := Unix (e_retired_at (snd a)) in let tb := Unix (e_retired_at (snd b)) in
  tb < ta ∨ ta = tb ∧ (BitLen (fst b) < BitLen (fst a) ∨ BitLen (fst a) = BitLen (fst b) ∧ val (fst b) ≤ val (fst a)).
Proof using.
  unfold older, Less. cbv zeta. generalize (Unix (e_retired_at (snd a))) (Unix (e_retired_at (snd b))). intros ta tb.
  rewrite orb_false_iff, andb_false_iff, orb_false_iff, andb_false_iff, !Z.ltb_ge, !Z.eqb_neq. lia.
Qed.

Lemma older_refl x : older x x = false.
Proof using. apply older_false. lia. Qed.
Lemma older_trans x y z : older x y = false → older y z = false → older x z = false.
Proof using. rewrite !older_false. cbv zeta. lia. Qed.
Lemma older_total x y : older x y = true → older y x = false.
Proof using.
  intros H. apply older_false. apply not_false_iff_true in H. rewrite older_false in H. cbv zeta in *. lia.
Qed.
Lemma older_antisym x y : older x y = false → older y x = false → fst x = fst y.
Proof using.
  rewrite !older_false. cbv zeta. intros H1 H2.
  assert (H : BitLen (fst x) = BitLen (fst y) ∧ val (fst x) = val (fst y)) by lia. destruct H as [Hl Hv].
  destruct (fst x), (fst y); cbn in *; congruence.
Qed.

Definition oldest_of (l : list (ip * vipEntry)) (start : option (ip * vipEntry)) : option (ip * vipEntry) :=
  fold_left (λ oldest x, if negb (e_retired (snd x)) then oldest
    else match oldest with None => Some x | Some o => if older x o then Some x else oldest end) l start.

Lemma oldest_of_spec l : ∀ start, match oldest_of l start with
  | None => start = None ∧ Forall (λ x, e_retired (snd x) = false) l
  | Some o => (start = Some o ∨ o ∈ l ∧ e_retired (snd o) = true) ∧ (∀ s, start = Some s → older s o = false) ∧
      Forall (λ x, e_retired (snd x) = true → older x o = false) l
  end.
Proof using.
  induction l as [|x l IH]; intros start; cbn [oldest_of fold_left].
  { destruct start as [o|]; [|done]. split; [by left|]. split; [intros s [= ->]; apply older_refl|done]. }
  change (fold_left _ l ?s) with (oldest_of l s). destruct (e_retired (snd x)) eqn:Ex; cbn [negb].
  2:{ specialize (IH start). destruct (oldest_of l start) as [o|].
      - destruct IH as ([->|[Hi Ho]] & H2 & H3); (split; [|split; [done|]]); try (by left); try (right; split; [by right|done]); (constructor; [congruence|done]).
      - destruct IH as [-> H]. split; [done|]. by constructor. }
  set (s' := match start with None => Some x | Some o => if older x o then Some x else start end).
  specialize (IH s'). assert (Hs : ∃ y, s' = Some y ∧ older x y = false ∧ (y = x ∨ start = Some y) ∧ ∀ s, start = Some s → older s y = false).
  { unfold s'. destruct start as [o|]; [|exists x; split_and!; try done; [apply older_refl|by left]].
    destruct (older x o) eqn:Eo; [exists x|exists o]; split_and!; try done; try apply older_refl; try (by left); try (by right).
    - intros s [= ->]. by apply older_total.
    - intros s [= ->]. apply older_refl. }
  destruct Hs as (y & Ey & Hxy & Hy & Hsy). rewrite Ey in *. destruct (oldest_of l (Some y)) as [o|]; [|by destruct IH].
  destruct IH as (H1 & H2 & H3). specialize (H2 y eq_refl).
  assert (Hle : ∀ z, older z y = false → older z o = false).
  { intros z Hz. by apply (older_trans z y o). }
  split; [|split; [intros s Hs; by apply Hle, Hsy|constructor; [intros _; by apply Hle|done]]].
  destruct H1 as [[= ->]|[Hi Ho]]; [|right; split; [by right|done]]. destruct Hy as [->| ->]; [right; split; [by left|done]|by left].
Qed.

Lemma oldest_retired_Some m a e : oldest_retired range m = Some (a, e) →
  m !! a = Some e ∧ e_retired e = true ∧ ∀ b e', m !! b = Some e' → e_retired e' = true → older (b, e') (a, e) = false.
Proof using Hrange.
  intros E. pose proof (oldest_of_spec (range m) None) as H. change (oldest_of (range m) None) with (oldest_retired range m) in H. rewrite E in H.
  destruct H as ([?|[Hi Hr]] & _ & H); [done|]. rewrite (Hrange m) in Hi. apply elem_of_map_to_list in Hi. split; [done|]. split; [done|].
  intros b e' Eb Hb. rewrite Forall_forall in H. apply (H (b, e')); [|done]. rewrite (Hrange m). by apply elem_of_map_to_list.
Qed.

Lemma oldest_retired_None m : oldest_retired range m = None → all_active m.
Proof using Hrange.
  intros E. pose proof (oldest_of_spec (range m) None) as H. change (oldest_of (range m) None) with (oldest_retired range m) in H. rewrite E in H.
  destruct H as [_ H]. intros a e Ea. rewrite Forall_forall in H. apply (H (a, e)). rewrite (Hrange m). by apply elem_of_map_to_list.
Qed.

(** *** The whole plan *)

Section Whole.
Context (p1 : vipPlan) (by_ : gmap bytes (list ip)) (Hk : kept (sorted_ips existing) p1 by_).
Abbreviation kept_ip := (keep_of p1 by_).

Record plan_inv (p : vipPlan) : Prop := {
  pi_hosts : ∀ h a, Hosts p !! h = Some a → h ∈ hosts ∧ ∃ e, Entries p !! a = Some e ∧ e_host e = h ∧ e_retired e = false;
  pi_active : ∀ a e, Entries p !! a = Some e → e_retired e = false → Hosts p !! e_host e = Some a;
  pi_named : ∀ a e, Entries p !! a = Some e → e_host e ≠ [] ∧ ∃ r', r = Some r' ∧ Contains r' a = true;
  pi_kept : ∀ a e, existing !! a = Some e →
    (∃ e', Entries p !! a = Some e' ∧ e_host e' = e_host e) ∨ ∃ why, (a, e_host e, why) ∈ Released p;
  pi_released : ∀ a h why, (a, h, why) ∈ Released p → ∃ e, existing !! a = Some e ∧ e_host e = h ∧
    (release_reason r now a e = Some why ∨ why = Evicted ∧ release_reason r now a e = None ∧ kept_ip h ≠ Some a);
  pi_keep : ∀ h a, kept_ip h = Some a → Hosts p !! h = Some a;
  pi_retired : ∀ a e, Entries p !! a = Some e → e_retired e = true → kept_ip (e_host e) ≠ Some a ∧
    ∃ e0, existing !! a = Some e0 ∧ e_host e0 = e_host e ∧ release_reason r now a e0 = None;
  pi_from : ∀ a e, Entries p !! a = Some e → (e_retired e = false ∧ ip_ok a) ∨
    ∃ e0, existing !! a = Some e0 ∧ e_host e0 = e_host e ∧ (e_retired e = true → e = e0 ∨ e_retired_at e = now)
}.

Lemma named_valid a e : release_reason r now a e = None → e_host e ≠ [] ∧ ∃ r', r = Some r' ∧ Contains r' a = true.
Proof using. unfold release_reason. destruct (e_host e), r as [r'|]; try done. destruct (Contains r' a) eqn:E; [|done]. intros _. split; [done|]. by exists r'. Qed.

Lemma valid_not_evicted a e : release_reason r now a e ≠ Some Evicted.
Proof using. unfold release_reason. destruct (e_host e), r as [r'|]; try done. by repeat case_match. Qed.

Lemma kept_entry a e : Entries p1 !! a = Some e ↔ existing !! a = Some e ∧ release_reason r now a e = None.
Proof using Hk. rewrite (kp_entries _ _ _ Hk). rewrite elem_of_sorted_ips. split; [tauto|]. intros [H1 H2]. split; [by eexists|done]. Qed.

Lemma settle_host_name a e : e_host (settle p1 by_ a e) = e_host e.
Proof using. unfold settle. by destruct (bool_decide _), (e_retired e). Qed.

Lemma settle_active a e : Entries p1 !! a = Some e → e_retired (settle p1 by_ a e) = bool_decide (Some a ≠ kept_ip (e_host e)).
Proof using. 
  intros E. unfold settle. destruct (bool_decide_reflect (Some a = kept_ip (e_host e))) as [H|H].
  - rewrite bool_decide_eq_false_2 by (by intros ?). by destruct (e_retired e) eqn:Er.
  - rewrite bool_decide_eq_true_2 by done. by destruct (e_retired e) eqn:Er.
Qed.

Lemma settled_inv p2 : settled p1 by_ (sorted_keys by_) p2 → plan_inv p2.
Proof using Hk.
  intros [He Hh Hr]. injection Hr as Hrel Hall Hun.
  assert (Hin : ∀ h a, kept_ip h = Some a → h ∈ hosts ∧ h ∈ sorted_keys by_ ∧ ∃ e, Entries p1 !! a = Some e ∧ e_host e = h).
  { intros h a E. pose proof E as [Hho (e & Ee & Eh)]%(keep_of_in _ _ _ Hk). split; [done|]. split; [|by exists e].
    apply elem_of_sorted_keys. destruct (by_ !! h) eqn:Eb; [by eexists|]. unfold keep_of in E. rewrite Eb in E. by destruct (decide _). }
  assert (He2 : ∀ a e', Entries p2 !! a = Some e' ↔ ∃ e, Entries p1 !! a = Some e ∧ e' = settle p1 by_ a e).
  { intros a e'. rewrite He. destruct (Entries p1 !! a) as [e|] eqn:E; cbn; [|naive_solver]. rewrite decide_True; [naive_solver|].
    apply elem_of_sorted_keys. assert (Ha : a ∈ default [] (by_ !! e_host e)) by (apply (kp_by _ _ _ Hk); by exists e).
    destruct (by_ !! e_host e); [by eexists|]. by apply elem_of_nil in Ha. }
  split.
  - intros h a. rewrite Hh. destruct (decide (h ∈ sorted_keys by_)); [|done]. intros E. destruct (Hin h a E) as (Hho & _ & e0 & Ee & Eh). split; [done|].
    exists (settle p1 by_ a e0). split; [apply He2; by exists e0|]. rewrite settle_host_name, settle_active by done. split; [done|].
    rewrite Eh, E. by case_bool_decide.
  - intros a e' (e & E & ->)%He2. rewrite settle_host_name, settle_active by done. case_bool_decide as Hne; [done|]. intros _.
    rewrite Hh. symmetry in Hne. destruct (Hin _ _ Hne) as (_ & Hs & _). by rewrite decide_True.
  - intros a e' (e & [_ Hv]%kept_entry & ->)%He2. rewrite settle_host_name. by apply named_valid.
  - intros a e E. destruct (release_reason r now a e) as [why|] eqn:Ev.
    + right. exists why. rewrite Hrel. apply (kp_released _ _ _ Hk). rewrite elem_of_sorted_ips. split; [by eexists|]. by exists e.
    + left. exists (settle p1 by_ a e). rewrite settle_host_name. split; [|done]. apply He2. exists e. split; [by apply kept_entry|done].
  - intros a h why. rewrite Hrel. intros (_ & e & E & Eh & Ev)%(kp_released _ _ _ Hk). exists e. auto.
  - intros h a E. rewrite Hh. destruct (Hin h a E) as (_ & Hs & _). by rewrite decide_True.
  - intros a e' (e & E & ->)%He2. rewrite settle_host_name, settle_active by done. intros Hne%bool_decide_eq_true. split; [congruence|].
    apply kept_entry in E as [E Ev]. by exists e.
  - intros a e' (e & [E _]%kept_entry & ->)%He2. right. exists e. rewrite settle_host_name. split; [done|]. split; [done|].
    unfold settle. destruct (bool_decide _), (e_retired e) eqn:Er; cbn; intros ?; first [done|by left|by right|congruence].
Qed.

Lemma evict_inv p p' : plan_inv p → evictOldestRetired range p = Some p' → plan_inv p' ∧ Hosts p' = Hosts p ∧ Unallocated p' = Unallocated p ∧
  ¬ all_active (Entries p) ∧ (size (Entries p) = S (size (Entries p')))%nat.
Proof using Hrange.
  intros [H1 H2 H3 H4 H5 H6 H7 H8]. unfold evictOldestRetired. destruct (oldest_retired range (Entries p)) as [[a e]|] eqn:E; [|done].
  intros [= <-]. apply oldest_retired_Some in E as (Ea & Er & _). destruct (H7 a e Ea Er) as (Hka & e0 & E0 & Eh0 & Ev0).
  assert (Hd : ∀ b e', delete a (Entries p) !! b = Some e' ↔ b ≠ a ∧ Entries p !! b = Some e') by (intros; rewrite lookup_delete_Some; naive_solver).
  split; [|split; [done|split; [done|split]]].
  - split; cbn [setter Entries Hosts Released].
    + intros h b Eb. destruct (H1 h b Eb) as (Hho & e' & E' & Eh & Er'). split; [done|]. exists e'. split; [|done]. apply Hd. split; [|done].
      intros ->. congruence.
    + intros b e' (_ & E')%Hd. by apply H2.
    + intros b e' (_ & E')%Hd. by apply H3.
    + intros b e' Eb. destruct (decide (b = a)) as [->|Hne].
      * right. exists Evicted. apply elem_of_app. right. replace (e_host e') with (e_host e) by congruence. by left.
      * destruct (H4 b e' Eb) as [(e1 & ? & ?)|(why & ?)]; [left; exists e1; split; [by apply Hd|done]|]. right. exists why. apply elem_of_app. by left.
    + intros b h why. rewrite elem_of_app, list_elem_of_singleton. intros [Hi|[= -> -> ->]]; [by apply H5|]. exists e0. split; [done|]. split; [done|]. right. by split_and!.
    + done.
    + intros b e' (_ & E')%Hd. by apply H7.
    + intros b e' (_ & E')%Hd. by apply H8.
  - intros Hall. specialize (Hall a e Ea). congruence.
  - cbn [setter Entries]. rewrite (map_size_delete_Some a (Entries p)) by (by eexists).
    assert (size (Entries p) ≠ 0)%nat; [|lia]. intros Hz. apply map_size_empty_inv in Hz. rewrite Hz in Ea. by rewrite lookup_empty in Ea.
Qed.

Lemma insert_inv p a h : plan_inv p → Entries p !! a = None → Hosts p !! h = None → h ∈ hosts → h ≠ [] →
  (∃ r', r = Some r' ∧ Contains r' a = true) → ip_ok a →
  plan_inv (p <| Entries := <[a := active h]> (Entries p) |> <| Hosts := <[h := a]> (Hosts p) |> <| Allocated := Allocated p ++ [(a, h)] |>).
Proof using.
  intros [H1 H2 H3 H4 H5 H6 H7 H8] Ea Eh Hho Hne Hc Hok.
  assert (Hi : ∀ b e', <[a := active h]> (Entries p) !! b = Some e' ↔ b = a ∧ e' = active h ∨ b ≠ a ∧ Entries p !! b = Some e')
    by (intros; rewrite lookup_insert_Some; naive_solver).
  split; cbn [setter Entries Hosts Released].
  - intros g b. rewrite lookup_insert_Some. intros [[<- <-]|[Hg Eg]].
    + split; [done|]. exists (active h). split; [by rewrite lookup_insert_eq|done].
    + destruct (H1 g b Eg) as (? & e & E & ? & ?). split; [done|]. exists e. split; [|done]. apply Hi. right. split; [|done]. intros ->. congruence.
  - intros b e' [[-> ->]|[Hb E]]%Hi Er; [by rewrite lookup_insert_eq|]. rewrite lookup_insert_ne; [by apply H2|]. intros Heq.
    specialize (H2 b e' E Er). congruence.
  - intros b e' [[-> ->]|[Hb E]]%Hi; [done|by apply (H3 b)].
  - intros b e' E. destruct (H4 b e' E) as [(e1 & E1 & ?)|?]; [|by right]. left. exists e1. split; [|done]. apply Hi. right. split; [|done]. intros ->. congruence.
  - done.
  - intros g b E. rewrite lookup_insert_ne; [by apply H6|]. intros <-. rewrite (H6 h b E) in Eh. done.
  - intros b e' [[-> ->]|[Hb E]]%Hi; [done|by apply H7].
  - intros b e' [[-> ->]|[Hb E]]%Hi; [by left|by apply H8].
Qed.
End Whole.

(** *** Room *)

Section Room.
Context (p1 : vipPlan) (by_ : gmap bytes (list ip)) (Hk : kept (sorted_ips existing) p1 by_).
Context (Hcap : 0 ≤ capacity < 8128) (Hex : Z.of_nat (size existing) < 8128).
Context (Hr : hosts = ∅ ∨ ∃ r', r = Some r' ∧ range_ok r').

Abbreviation count p := (Z.of_nat (size (Entries p))).

(** Within capacity, or all of watched hosts; something is evicted, and a host goes
    without, only when there is no more room. *)
Record room_inv (p : vipPlan) : Prop := {
  ri_plan : plan_inv p1 by_ p;
  ri_bound : count p < 8128;
  ri_size : count p ≤ capacity ∨ all_active (Entries p);
  ri_evicted : ∀ a h, (a, h, Evicted) ∈ Released p → capacity ≤ count p;
  ri_unallocated : ∀ h, h ∈ Unallocated p → h ∈ hosts ∧ h ≠ [] ∧ Hosts p !! h = None ∧ capacity ≤ count p ∧ all_active (Entries p)
}.

Lemma evict_excess_room fuel p : plan_inv p1 by_ p → count p < 8128 → Unallocated p = [] →
  (∀ a h, (a, h, Evicted) ∈ Released p → capacity ≤ count p) → (size (Entries p) ≤ fuel)%nat →
  room_inv (evict_excess range fuel capacity p).
Proof using All.
  revert p. induction fuel as [|fuel IH]; intros p Hp Hb Hu He Hf; cbn [evict_excess].
  { split; try done; [left; lia|]. rewrite Hu. intros h Hh. by apply elem_of_nil in Hh. }
  destruct (Z.ltb_spec capacity (count p)).
  2:{ split; try done; [left; lia|]. rewrite Hu. intros h Hh. by apply elem_of_nil in Hh. }
  destruct (evictOldestRetired range p) as [p'|] eqn:E.
  - destruct (evict_inv p1 by_ p p' Hp E) as (Hp' & _ & Hu' & _ & Hs). apply IH; [done|lia|congruence| |lia]. intros a h _. lia.
  - split; try done; [|rewrite Hu; intros h Hh; by apply elem_of_nil in Hh].
    right. apply oldest_retired_None. unfold evictOldestRetired in E. by destruct (oldest_retired range (Entries p)) as [[]|].
Qed.

Lemma insert_count p a h : Entries p !! a = None →
  count (p <| Entries := <[a := active h]> (Entries p) |> <| Hosts := <[h := a]> (Hosts p) |> <| Allocated := Allocated p ++ [(a, h)] |>) = count p + 1.
Proof using All. intros E. cbn [setter Entries]. rewrite map_size_insert_None by done. lia. Qed.

(** A host is given a fresh address. *)
Lemma give_room p h r' a : plan_inv p1 by_ p → Hosts p !! h = None → h ∈ hosts → h ≠ [] → r = Some r' → range_ok r' →
  count p < capacity → (∀ b g, (b, g, Evicted) ∈ Released p → capacity ≤ count p + 1) → Unallocated p = [] →
  freeVirtualIP r' h (Entries p) = Some a →
  room_inv (p <| Entries := <[a := active h]> (Entries p) |> <| Hosts := <[h := a]> (Hosts p) |> <| Allocated := Allocated p ++ [(a, h)] |>).
Proof using All.
  intros Hp Hh Hho Hne Er Hrok Hc He Hu Ef. destruct (free_sound r' h _ a Hrok Ef) as (n & _ & _ & _ & Hfree & Hcon & Hok & _).
  split.
  - apply insert_inv; try done. by exists r'.
  - rewrite insert_count by done. lia.
  - left. rewrite insert_count by done. lia.
  - intros b g Hb. rewrite insert_count by done. by apply (He b g).
  - cbn [setter Unallocated]. rewrite Hu. intros g Hg. by apply elem_of_nil in Hg.
Qed.

Lemma give_up_room p h : room_inv p → h ∈ hosts → h ≠ [] → Hosts p !! h = None → capacity ≤ count p → all_active (Entries p) →
  room_inv (p <| Unallocated := Unallocated p ++ [h] |>).
Proof using All.
  intros [Hp Hb Hs He Hu] Hho Hne Hh Hc Ha. split; try done; [by destruct Hp|]. cbn [setter Unallocated Hosts Entries].
  intros g. rewrite elem_of_app, list_elem_of_singleton. intros [Hg| ->]; [by apply Hu|done].
Qed.

Lemma unallocated_nil p : room_inv p → count p < capacity ∨ ¬ all_active (Entries p) → Unallocated p = [].
Proof using All.
  intros Hp H. destruct (Unallocated p) as [|h u] eqn:E; [done|exfalso].
  destruct (ri_unallocated p Hp h) as (_ & _ & _ & Hc & Ha); [rewrite E; by left|]. destruct H; [lia|done].
Qed.

(** One round of the last loop: the host has an address, or there is no room. *)
Lemma allocate_room p h : room_inv p → h ∈ hosts → let p' := allocate range r capacity p h in room_inv p' ∧
  (h ≠ [] → is_Some (Hosts p' !! h) ∨ h ∈ Unallocated p') ∧
  (∀ g b, Hosts p !! g = Some b → Hosts p' !! g = Some b) ∧ (∀ g, g ∈ Unallocated p → g ∈ Unallocated p').
Proof using All.
  intros Hp Hho. cbv zeta. unfold allocate. destruct (Hosts p !! h) as [a|] eqn:Eh.
  { split; [done|]. split; [intros _; left; by rewrite Eh|done]. }
  destruct h as [|c h']; [done|]. set (h := c :: h') in *. assert (Hne : h ≠ []) by done.
  destruct Hr as [Hemp|(r' & Er & Hrok)]; [rewrite Hemp in Hho; by apply elem_of_empty in Hho|].
  assert (Hrooms : ∀ q, plan_inv p1 by_ q → Hosts q = Hosts p → Unallocated q = [] → Unallocated p = [] → count q < capacity →
    (∀ b g, (b, g, Evicted) ∈ Released q → capacity ≤ count q + 1) → let p' := match r ≫= λ r, freeVirtualIP r h (Entries q) with
      | None => q <| Unallocated := Unallocated q ++ [h] |>
      | Some a => q <| Entries := <[a := active h]> (Entries q) |> <| Hosts := <[h := a]> (Hosts q) |> <| Allocated := Allocated q ++ [(a, h)] |> end in
    room_inv p' ∧ (h ≠ [] → is_Some (Hosts p' !! h) ∨ h ∈ Unallocated p') ∧
      (∀ g b, Hosts p !! g = Some b → Hosts p' !! g = Some b) ∧ (∀ g, g ∈ Unallocated p → g ∈ Unallocated p')).
  { intros q Hq Eq Eu Eup Hc He. cbv zeta. rewrite Er. cbn. destruct (free_found r' h (Entries q) Hrok) as [a Ea]; [lia|]. rewrite Ea.
    split; [by apply (give_room q h r' a); rewrite ?Eq|]. split; [intros _; left; cbn [setter Hosts]; rewrite lookup_insert_eq; by eexists|].
    split; [|rewrite Eup; intros g Hg; by apply elem_of_nil in Hg]. intros g b Eg. cbn [setter Hosts]. rewrite lookup_insert_ne; [by rewrite Eq|]. intros <-. congruence. }
  destruct (Z.leb_spec capacity (count p)) as [Hfull|Hroom].
  - destruct (evictOldestRetired range p) as [q|] eqn:E.
    + destruct (evict_inv p1 by_ p q (ri_plan p Hp) E) as (Hq & Eq & Eu & Hna & Hs).
      assert (Eup : Unallocated p = []) by (apply unallocated_nil; [done|by right]).
      assert (count p = capacity) by (destruct (ri_size p Hp); [lia|done]).
      apply Hrooms; try done; [by rewrite Eu|lia|]. intros; lia.
    + assert (Ha : all_active (Entries p)) by (apply oldest_retired_None; unfold evictOldestRetired in E; by destruct (oldest_retired range (Entries p)) as [[]|]).
      split; [by apply give_up_room|]. split; [intros _; right; cbn [setter Unallocated]; apply elem_of_app; right; by left|].
      split; [done|]. intros g Hg. cbn [setter Unallocated]. apply elem_of_app. by left.
  - assert (Eup : Unallocated p = []) by (apply unallocated_nil; [done|by left]).
    apply Hrooms; try done; [apply (ri_plan p Hp)|]. intros b g Hb. pose proof (ri_evicted p Hp b g Hb). lia.
Qed.

Lemma allocate_loop hs : (∀ h, h ∈ hs → h ∈ hosts) → ∀ p, room_inv p → let p' := fold_left (allocate range r capacity) hs p in
  room_inv p' ∧ (∀ h, h ∈ hs → h ≠ [] → is_Some (Hosts p' !! h) ∨ h ∈ Unallocated p') ∧
  (∀ g b, Hosts p !! g = Some b → Hosts p' !! g = Some b) ∧ (∀ g, g ∈ Unallocated p → g ∈ Unallocated p').
Proof using All.
  induction hs as [|h hs IH]; intros Hhs p Hp; cbn [fold_left].
  { split; [done|]. split; [|done]. intros h Hh. by apply elem_of_nil in Hh. }
  destruct (allocate_room p h Hp) as (A1 & A2 & A3 & A4); [apply Hhs; by left|].
  destruct (IH (λ g Hg, Hhs g (list_elem_of_further _ _ _ Hg)) _ A1) as (B1 & B2 & B3 & B4). split; [done|]. split; [|split; [|auto]].
  - intros g [->|Hg]%elem_of_cons Hne; [|by apply B2]. destruct (A2 Hne) as [[b Eb]|Hu]; [left; exists b; by apply B3|right; by apply B4].
  - intros g b E. by apply B3, A3.
Qed.
End Room.

(** *** The plan as a whole *)

(** A reservation the plan starts from: of [h], and still valid. *)
Definition valid_for (h : bytes) (a : ip) (e : vipEntry) : Prop :=
  existing !! a = Some e ∧ e_host e = h ∧ release_reason r now a e = None.

(** Few enough reservations for the range. *)
Definition fits_range : Prop := 0 ≤ capacity < 8128 ∧ Z.of_nat (size existing) < 8128 ∧ (hosts = ∅ ∨ ∃ r', r = Some r' ∧ range_ok r').

Abbreviation plan := (planVirtualIPs range r hosts existing now capacity).

Lemma plan_room : fits_range → ∃ p1 by_, kept (sorted_ips existing) p1 by_ ∧ room_inv p1 by_ plan ∧
  ∀ h, h ∈ hosts → h ≠ [] → is_Some (Hosts plan !! h) ∨ h ∈ Unallocated plan.
Proof using Hrange.
  intros (Hcap & Hex & Hr). unfold planVirtualIPs.
  pose proof (kept_loop (sorted_ips existing) (sorted_ips_nodup existing) (λ a, proj1 (elem_of_sorted_ips existing a))) as Hk.
  destruct (fold_left (keep_valid r now existing) _ _) as [p1 by_]. exists p1, by_. split; [done|].
  assert (H0 : settled p1 by_ [] p1).
  { destruct (kp_rest _ _ _ Hk) as [Hh _]. split; [|intros h; by rewrite Hh, lookup_empty|done].
    intros a. destruct (Entries p1 !! a); [|done]. cbn. by rewrite decide_False by apply not_elem_of_nil. }
  pose proof (settle_loop p1 by_ _ Hk _ (sorted_keys_nodup by_) [] p1 H0 (λ h _, not_elem_of_nil h)) as Hs. cbn [app] in Hs.
  set (p2 := fold_left (settle_host _ _ _) _ _) in *. pose proof (settled_inv p1 by_ Hk p2 Hs) as Hp2.
  assert (Hdom : size (Entries p2) = size (Entries p1)).
  { rewrite <- !size_dom. f_equal. apply set_eq. intros a. rewrite !elem_of_dom, (se_entries _ _ _ _ Hs). by rewrite fmap_is_Some. }
  assert (Hsub : Entries p1 ⊆ existing) by (apply map_subseteq_spec; intros a e Ea; by apply (kept_entry p1 by_ Hk) in Ea as [? _]).
  apply map_subseteq_size in Hsub. pose proof (se_rest _ _ _ _ Hs) as Hrest. injection Hrest as Hrel _ Hun.
  assert (Hp3 : room_inv p1 by_ (evict_excess range (size (Entries p2)) capacity p2)).
  { apply (evict_excess_room p1 by_ Hk Hcap Hex Hr); [done|lia| |intros a h Hb|lia].
    - rewrite Hun. apply (kp_rest _ _ _ Hk).
    - rewrite Hrel in Hb. apply (kp_released _ _ _ Hk) in Hb as (_ & e & _ & _ & Hv). by apply valid_not_evicted in Hv. }
  assert (Hhs : ∀ h, h ∈ sorted_hosts hosts ↔ h ∈ hosts) by (intros h; unfold sorted_hosts; by rewrite merge_sort_Permutation, elem_of_elements).
  destruct (allocate_loop p1 by_ Hk Hcap Hex Hr (sorted_hosts hosts) (λ h, proj1 (Hhs h)) _ Hp3) as (H1 & H2 & _).
  split; [done|]. intros h Hh. apply H2. by apply Hhs.
Qed.

(** Where the plan's reservations come from. *)
Lemma plan_from a e : fits_range → Entries plan !! a = Some e → (e_retired e = false ∧ ip_ok a) ∨
  ∃ e0, existing !! a = Some e0 ∧ e_host e0 = e_host e ∧ (e_retired e = true → e = e0 ∨ e_retired_at e = now).
Proof using Hrange. intros Hf. destruct (plan_room Hf) as (p1 & by_ & _ & [Hp _ _ _ _] & _). apply (pi_from _ _ _ Hp). Qed.

(** The host has an IP of its own to keep: an active one if it has one. *)
Lemma keeps_own p1 by_ h a e : kept (sorted_ips existing) p1 by_ → h ∈ hosts → valid_for h a e →
  ∃ b e0, keep_of p1 by_ h = Some b ∧ valid_for h b e0 ∧ (e_retired e = false → e_retired e0 = false).
Proof using.
  intros Hk Hh (Ee & Eh & Ev). assert (Ha : Entries p1 !! a = Some e) by (by apply (kept_entry p1 by_ Hk)).
  assert (Hin : a ∈ default [] (by_ !! h)) by (apply (kp_by _ _ _ Hk); by exists e).
  destruct (pick_keep_some (Entries p1) (default [] (by_ !! h))) as [b Eb]; [intros E; rewrite E in Hin; by apply elem_of_nil in Hin|].
  exists b. destruct (pick_keep_in _ _ _ Eb) as [Hb Hact]. apply (kp_by _ _ _ Hk) in Hb as (e0 & E0 & Eh0).
  exists e0. split; [unfold keep_of; by rewrite decide_True|]. split; [apply (kept_entry p1 by_ Hk) in E0 as [? ?]; by split_and!|].
  intros Hr. assert (Hr0 : is_retired (Entries p1) b = false); [|unfold is_retired in Hr0; by rewrite E0 in Hr0].
  apply Hact. exists a. split; [done|]. unfold is_retired. by rewrite Ha.
Qed.

Lemma plan_sound : fits_range →
  (∀ h a, Hosts plan !! h = Some a ↔ ∃ e, Entries plan !! a = Some e ∧ e_host e = h ∧ e_retired e = false) ∧
  (∀ h a, Hosts plan !! h = Some a → h ∈ hosts) ∧
  (∀ a e, Entries plan !! a = Some e → e_host e ≠ [] ∧ ∃ r', r = Some r' ∧ Contains r' a = true) ∧
  (∀ h, h ∈ hosts → h ≠ [] → is_Some (Hosts plan !! h) ∨ h ∈ Unallocated plan) ∧
  (Z.of_nat (size (Entries plan)) ≤ capacity ∨ all_active (Entries plan)) ∧
  (∀ h, h ∈ Unallocated plan → Hosts plan !! h = None ∧ capacity ≤ Z.of_nat (size (Entries plan)) ∧ all_active (Entries plan)).
Proof using Hrange.
  intros Hf. destruct (plan_room Hf) as (p1 & by_ & _ & [Hp _ Hs _ Hu] & Hall). split_and!; try done.
  - intros h a. split; [intros E; by apply (pi_hosts _ _ _ Hp)|]. intros (e & E & <- & Er). by apply (pi_active _ _ _ Hp).
  - intros h a E. by apply (pi_hosts _ _ _ Hp) in E as [? _].
  - apply (pi_named _ _ _ Hp).
  - intros h Hh. by destruct (Hu h Hh) as (_ & _ & ?).
Qed.

Lemma plan_own h a e : fits_range → h ∈ hosts → valid_for h a e →
  ∃ b e0, Hosts plan !! h = Some b ∧ valid_for h b e0 ∧ (e_retired e = false → e_retired e0 = false).
Proof using Hrange.
  intros Hf Hh Hv. destruct (plan_room Hf) as (p1 & by_ & Hk & [Hp _ _ _ _] & _).
  destruct (keeps_own p1 by_ h a e Hk Hh Hv) as (b & e0 & Eb & H). exists b, e0. split; [by apply (pi_keep _ _ _ Hp)|done].
Qed.

(** The IP of a host that stays watched stays its IP. *)
Lemma plan_stable h a e : fits_range → h ∈ hosts → valid_for h a e → e_retired e = false →
  (∀ b e', valid_for h b e' → e_retired e' = false → b = a) → Hosts plan !! h = Some a.
Proof using Hrange.
  intros Hf Hh Hv Hr Huniq. destruct (plan_own h a e Hf Hh Hv) as (b & e0 & Eb & Hv0 & Hr0).
  by rewrite (Huniq b e0 Hv0 (Hr0 Hr)) in Eb.
Qed.

Lemma plan_released a e : fits_range → existing !! a = Some e →
  (∃ e', Entries plan !! a = Some e' ∧ e_host e' = e_host e) ∨
  ∃ why, (a, e_host e, why) ∈ Released plan ∧ (release_reason r now a e = Some why ∨
    why = Evicted ∧ release_reason r now a e = None ∧ capacity ≤ Z.of_nat (size (Entries plan)) ∧
    (e_host e ∈ hosts → ∃ b, b ≠ a ∧ Hosts plan !! e_host e = Some b)).
Proof using Hrange.
  intros Hf Ea. destruct (plan_room Hf) as (p1 & by_ & Hk & [Hp _ _ He _] & _).
  destruct (pi_kept _ _ _ Hp a e Ea) as [H|(why & Hw)]; [by left|right]. exists why. split; [done|].
  destruct (pi_released _ _ _ Hp a (e_host e) why Hw) as (e0 & E0 & Eh & H). rewrite Ea in E0. injection E0 as <-.
  destruct H as [H|(-> & Hv & Hne)]; [by left|right]. split_and!; try done; [by apply (He a (e_host e))|]. intros Hh.
  destruct (keeps_own p1 by_ (e_host e) a e Hk Hh) as (b & e1 & Eb & _); [by split_and!|].
  exists b. split; [|by apply (pi_keep _ _ _ Hp)]. intros ->. done.
Qed.

End Plans.

(** *** The order of a map's visits *)

Section Order.
Context (range1 range2 : reservations → list (ip * vipEntry)) (H1 : visits range1) (H2 : visits range2).

Lemma oldest_same m : oldest_retired range1 m = oldest_retired range2 m.
Proof using H1 H2.
  destruct (oldest_retired range1 m) as [[a e]|] eqn:E1, (oldest_retired range2 m) as [[b e']|] eqn:E2; [| | |done].
  - apply (oldest_retired_Some _ H1) in E1 as (Ea & Ra & Oa). apply (oldest_retired_Some _ H2) in E2 as (Eb & Rb & Ob).
    pose proof (older_antisym _ _ (Oa b e' Eb Rb) (Ob a e Ea Ra)) as H. cbn in H. subst. congruence.
  - apply (oldest_retired_Some _ H1) in E1 as (Ea & Ra & _). apply (oldest_retired_None _ H2) in E2. specialize (E2 a e Ea). congruence.
  - apply (oldest_retired_Some _ H2) in E2 as (Ea & Ra & _). apply (oldest_retired_None _ H1) in E1. specialize (E1 b e' Ea). congruence.
Qed.

Lemma evict_same p : evictOldestRetired range1 p = evictOldestRetired range2 p.
Proof using H1 H2. unfold evictOldestRetired. by rewrite oldest_same. Qed.

Lemma evict_excess_same fuel capacity : ∀ p, evict_excess range1 fuel capacity p = evict_excess range2 fuel capacity p.
Proof using H1 H2.
  induction fuel as [|fuel IH]; intros p; cbn [evict_excess]; [done|]. rewrite evict_same. destruct (capacity <? _); [|done].
  destruct (evictOldestRetired range2 p); [apply IH|done].
Qed.

Lemma allocate_same r capacity hs : ∀ p, fold_left (allocate range1 r capacity) hs p = fold_left (allocate range2 r capacity) hs p.
Proof using H1 H2.
  induction hs as [|h hs IH]; intros p; cbn [fold_left]; [done|]. rewrite IH. f_equal. unfold allocate. by rewrite evict_same.
Qed.

Lemma plan_same r hosts existing now capacity : planVirtualIPs range1 r hosts existing now capacity = planVirtualIPs range2 r hosts existing now capacity.
Proof using H1 H2.
  unfold planVirtualIPs. destruct (fold_left (keep_valid _ _ _) _ _) as [p by_]. by rewrite evict_excess_same, allocate_same.
Qed.
End Order.

(** *** The properties *)

(** C20: the plan of a family's fake IPs is sound, whatever reservations it starts from:
    the active reservations are exactly the fake IPs of the plan's hosts, one for each,
    all of watched hosts, in the range; every watched host has one or is reported as
    left without; the reservations fit the capacity unless those of watched hosts alone
    do not; and a host is left without only when all the room is taken by active ones. *)
Theorem fake_ip_plan_sound range r hosts existing now capacity : visits range → fits_range r hosts existing capacity →
  let p := planVirtualIPs range r hosts existing now capacity in
  (∀ h a, Hosts p !! h = Some a ↔ ∃ e, Entries p !! a = Some e ∧ e_host e = h ∧ e_retired e = false) ∧
  (∀ h a, Hosts p !! h = Some a → h ∈ hosts) ∧
  (∀ a e, Entries p !! a = Some e → e_host e ≠ [] ∧ ∃ r', r = Some r' ∧ Contains r' a = true) ∧
  (∀ h, h ∈ hosts → h ≠ [] → is_Some (Hosts p !! h) ∨ h ∈ Unallocated p) ∧
  (Z.of_nat (size (Entries p)) ≤ capacity ∨ all_active (Entries p)) ∧
  (∀ h, h ∈ Unallocated p → Hosts p !! h = None ∧ capacity ≤ Z.of_nat (size (Entries p)) ∧ all_active (Entries p)).
Proof. intros Hv Hf. by apply plan_sound. Qed.

(** C21: a fake IP apps may have cached stays with its host: the plan gives an IP that
    was reserved for one host to another only if the reservation had no host, or its
    host was retired for the retention period (24 hours), or it was evicted from a map
    that stays full, and then the host, if watched, has another IP. A watched host with
    a valid reservation gets an IP of its own, and keeps its active one. *)
Theorem fake_ip_not_reassigned range r hosts existing now capacity : visits range → fits_range r hosts existing capacity →
  let p := planVirtualIPs range r hosts existing now capacity in
  (∀ a e e', existing !! a = Some e → Entries p !! a = Some e' → e_host e' ≠ e_host e →
    e_host e = [] ∨ (e_retired e = true ∧ virtualIPRetention ≤ Sub now (e_retired_at e)) ∨
    (capacity ≤ Z.of_nat (size (Entries p)) ∧ (e_host e ∈ hosts → ∃ b, b ≠ a ∧ Hosts p !! e_host e = Some b))) ∧
  (∀ h a e, h ∈ hosts → valid_for r existing now h a e → ∃ b e0, Hosts p !! h = Some b ∧ valid_for r existing now h b e0) ∧
  (∀ h a e, h ∈ hosts → valid_for r existing now h a e → e_retired e = false →
    (∀ b e', valid_for r existing now h b e' → e_retired e' = false → b = a) → Hosts p !! h = Some a).
Proof.
  intros Hv Hf p. split; [|split].
  - intros a e e' Ea Ep Hne. destruct (plan_released range Hv r hosts existing now capacity a e Hf Ea) as [(e1 & E1 & ?)|(why & _ & H)].
    { fold p in E1. congruence. }
    destruct H as [H|(_ & _ & Hc & Hb)]; [|by right; right].
    destruct (plan_sound range Hv r hosts existing now capacity Hf) as (_ & _ & Hin & _). destruct (Hin a e' Ep) as (_ & r' & -> & Hcon).
    unfold release_reason in H. destruct (e_host e); [by left|]. rewrite Hcon in H. cbn [negb] in H. right. left.
    destruct (e_retired e); [|done]. cbn [andb] in H. destruct (Z.leb_spec virtualIPRetention (Sub now (e_retired_at e))); done.
  - intros h a e Hh Hval. destruct (plan_own range Hv r hosts existing now capacity h a e Hf Hh Hval) as (b & e0 & ? & ? & _). by exists b, e0.
  - intros h a e. by apply plan_stable.
Qed.

(** The plan does not depend on the order in which Go visits a map. *)
Theorem plan_is_deterministic range1 range2 ranges hosts existing now capacity : visits range1 → visits range2 →
  planVirtualIPRanges range1 ranges hosts existing now capacity = planVirtualIPRanges range2 ranges hosts existing now capacity.
Proof. intros H1 H2. unfold planVirtualIPRanges. by rewrite !(plan_same range1 range2 H1 H2). Qed.

(** *** Samples *)

(** A host still watched, one retired a day ago, one an hour ago. *)
Definition sample_now : Z := 1800000000 * 10 ^ 9.
Definition host_b : bytes := [98; 46; 99].
Definition host_c : bytes := [99; 46; 99].
Definition sample_existing : reservations :=
  {[ IPv4 0xC6120707 := active host_a;
     IPv4 0xC6120708 := retire host_b (sample_now - virtualIPRetention);
     IPv4 0xC6120709 := retire host_c (sample_now - 3600 * 10 ^ 9) ]}.
Definition by_key (m : reservations) : list (ip * vipEntry) := map_to_list m.

Lemma sample_visits : visits by_key.
Proof. intros m. done. Qed.
Lemma reverse_visits : visits (λ m, rev (by_key m)).
Proof. intros m. symmetry. apply Permutation_rev. Qed.

Lemma sample_fits : fits_range (Some sample_range) {[host_a; host_c]} sample_existing 4096.
Proof. split; [lia|]. split; [vm_compute; reflexivity|]. right. exists sample_range. split; [done|apply sample_range_ok]. Qed.

Lemma fake_ip_plan_sound_witness :
  let p := planVirtualIPs by_key (Some sample_range) {[host_a; host_c]} sample_existing sample_now 4096 in
  Hosts p = {[host_a := IPv4 0xC6120707; host_c := IPv4 0xC6120709]} ∧ ∀ h a, Hosts p !! h = Some a → h ∈ ({[host_a; host_c]} : gset bytes).
Proof.
  cbn zeta. split; [vm_compute; reflexivity|].
  apply (fake_ip_plan_sound by_key (Some sample_range) {[host_a; host_c]} sample_existing sample_now 4096 sample_visits sample_fits).
Defined.

Lemma sample_valid : valid_for (Some sample_range) sample_existing sample_now host_a (IPv4 0xC6120707) (active host_a).
Proof. split_and!; vm_compute; reflexivity. Qed.

Lemma sample_unique b e : valid_for (Some sample_range) sample_existing sample_now host_a b e → e_retired e = false → b = IPv4 0xC6120707.
Proof.
  intros (E & Eh & _) Er. unfold sample_existing in E. rewrite !lookup_insert_Some, lookup_singleton_Some in E.
  destruct E as [[<- _]|[_ [[<- <-]|[_ [<- <-]]]]]; [done|discriminate..].
Qed.

Lemma fake_ip_not_reassigned_witness :
  Hosts (planVirtualIPs by_key (Some sample_range) {[host_a; host_c]} sample_existing sample_now 4096) !! host_a = Some (IPv4 0xC6120707).
Proof.
  destruct (fake_ip_not_reassigned by_key (Some sample_range) {[host_a; host_c]} sample_existing sample_now 4096 sample_visits sample_fits) as (_ & _ & H).
  apply (H host_a (IPv4 0xC6120707) (active host_a)); [by_compute|exact sample_valid|reflexivity|exact sample_unique].
Defined.

Lemma plan_is_deterministic_witness :
  planVirtualIPRanges by_key {| V4 := sample_range; V6 := None |} {[host_b]} sample_existing sample_now 2 =
  planVirtualIPRanges (λ m, rev (by_key m)) {| V4 := sample_range; V6 := None |} {[host_b]} sample_existing sample_now 2.
Proof. exact (plan_is_deterministic by_key _ _ _ _ _ _ sample_visits reverse_visits). Defined.

End Reserve.
