(* ===== verification/VipSync.v ===== *)
(** * The controller's sync of the fake IP maps (pkg/ebpf/virtual_ip_linux.go)

    [Sync]: virtualIPAllocator.sync and what it calls: it reads vip_ip_host and
    vip_host_ip, plans, and writes the two maps and vip_upstream to the plan, one map
    operation at a time. The programs run between any two of its operations ([env]),
    and any operation may fail ([fails]). What it logs is left out. *)

From S2P Require Import Prelude Host VipAddr State Hooks Vip VipPlan VipReserve.
#[local] Open Scope Z_scope.

(** The order in which Go visits a map: any, each entry once. *)
Class GoOrder := {
  go_range {K V} `{Countable K} (m : gmap K V) : list (K * V);
  go_visits {K V} `{Countable K} (m : gmap K V) : go_range m ≡ₚ map_to_list m
}.
#[export] Instance key_order : GoOrder := { go_range _ _ _ _ m := map_to_list m; go_visits _ _ _ _ _ := reflexivity _ }.

Module Sync.
Import Types Kernel NetIP Plan.

#[export] Instance vip_ip_val_eq_dec : EqDecision vip_ip_val.
Proof. solve_decision. Defined.
#[export] Instance vip_host_val_eq_dec : EqDecision vip_host_val.
Proof. solve_decision. Defined.

Definition vip_host_ip_max_entries : Z := 1024.
Definition vip_ip_host_max_entries : Z := 4096.

(** [net.CIDRMask], as a number. *)
Definition CIDRMask (ones bits : Z) : Z := 2 ^ bits - 2 ^ (bits - ones).

(** The value of vip_config; the words of C's struct are read in network order. *)
Definition vipConfig (r : VirtualIPRanges) : vip_config_val :=
  {| net4 := le_val (be_bytes 4 (val (p_addr (Masked (V4 r))))); mask4 := le_val (be_bytes 4 (CIDRMask (p_bits (V4 r)) 32));
     net6 := match V6 r with Some p => As16 (p_addr (Masked p)) | None => zeros 16 end;
     mask6 := match V6 r with Some p => be_bytes 16 (CIDRMask (p_bits p) 128) | None => zeros 16 end |}.

(** *** The values of the maps *)

Fixpoint until_zero (l : bytes) : bytes :=
  match l with [] => [] | c :: l' => if c =? 0 then [] else c :: until_zero l' end.
Definition vipHostString (b : bytes) (n : Z) : bytes := until_zero (take (Z.to_nat (Z.min n (zlen b))) b).

(** [copy(k.Host[:], host)] into zeros. *)
Definition vipHostKey (host : bytes) : bytes := take 64 host ++ zeros (64 - length (take 64 host)).

Definition i64 (x : Z) : Z := if x <? 2 ^ 63 then x else x - 2 ^ 64.

Definition vipIPEntry (v : vip_ip_val) : vipEntry :=
  let host := vipHostString (vi_host v) (vi_host_len v) in
  if Z.land (vi_flags v) 1 =? 0 then active host else retire host (i64 (vi_retired_at v) * 10 ^ 9).
Definition vipIPValue (e : vipEntry) : vip_ip_val :=
  {| vi_host := vipHostKey (e_host e); vi_host_len := Z.min 64 (zlen (e_host e));
     vi_flags := if e_retired e then 1 else 0; vi_retired_at := if e_retired e then u64 (Unix (e_retired_at e)) else 0 |}.

Section Order.
Context `{!GoOrder}.

Definition readVirtualIPs (m : gmap addr16 vip_ip_val) : reservations :=
  fold_left (λ out '(k, v), <[From16 k := vipIPEntry v]> out) (go_range m) ∅.
Definition readVirtualIPHosts (m : gmap bytes vip_host_val) : gmap bytes vip_host_val :=
  fold_left (λ out '(k, v), <[vipHostString k 64 := v]> out) (go_range m) ∅.

Definition As4 (a : ip) : bytes := be_bytes 4 (val a).
Definition no_ips : vip_host_val := {| vh_ip4 := zeros 4; vh_ip6 := zeros 16 |}.
Definition vipHostVals (ip4 ip6 : gmap bytes ip) : gmap bytes vip_host_val :=
  let out := fold_left (λ out '(h, a), <[h := {| vh_ip4 := As4 a; vh_ip6 := vh_ip6 (default no_ips (out !! h)) |}]> out) (go_range ip4) ∅ in
  fold_left (λ out '(h, a), <[h := {| vh_ip4 := vh_ip4 (default no_ips (out !! h)); vh_ip6 := As16 a |}]> out) (go_range ip6) out.

(** Going from the value [cur] to [want] takes a fake IP away. *)
Definition dropsVirtualIP (cur want : vip_host_val) : bool :=
  (bool_decide (vh_ip4 cur ≠ zeros 4) && bool_decide (vh_ip4 cur ≠ vh_ip4 want)) ||
  (bool_decide (vh_ip6 cur ≠ zeros 16) && bool_decide (vh_ip6 cur ≠ vh_ip6 want)).

(** *** Map operations *)

Inductive op := Read | Delete | Update.

(** The run of a sync: the state, the operations done, how many failed, and the
    states before and after each. *)
Record ctl := { c_state : kst; c_ops : nat; c_failed : nat; c_trace : list kst }.

Definition C (A : Type) : Type := ctl → A * ctl.
#[export] Instance c_ret : MRet C := λ _ a c, (a, c).
#[export] Instance c_bind : MBind C := λ _ _ f m c, let '(a, c) := m c in f a c.

Fixpoint each {A X} (f : A → X → C A) (l : list X) (a : A) : C A :=
  match l with
  | [] => mret a
  | x :: l' => a ← f a x; each f l' a
  end.

Section Sync.
(** What runs before the [n]th operation, whether it fails, and how many entries an
    iteration that fails has visited. *)
Context (env : nat → kst → kst) (fails : op → nat → bool) (seen : nat → nat).

(** One operation; [f] is [false] when the kernel refuses it. *)
Definition map_op {A} (o : op) (f : kst → option (A * kst)) : C (option A) := λ c,
  let s := env (c_ops c) (c_state c) in
  match (if fails o (c_ops c) then None else f s) with
  | Some (x, s') => (Some x, {| c_state := s'; c_ops := S (c_ops c); c_failed := c_failed c; c_trace := c_trace c ++ [s; s'] |})
  | None => (None, {| c_state := s; c_ops := S (c_ops c); c_failed := S (c_failed c); c_trace := c_trace c ++ [s] |})
  end.

Definition map_read {A} (f : kst → A) : C (option A) := map_op Read (λ s, Some (f s, s)).
Definition map_delete (f : kst → kst) : C (option unit) := map_op Delete (λ s, Some ((), f s)).
(** A HASH map refuses a new key when it is full. *)
Definition map_update (f : kst → bool * kst) : C (option unit) := map_op Update (λ s, let '(ok, s') := f s in if ok then Some ((), s') else None).

Definition delete_host (host : bytes) : C (option unit) :=
  map_delete (λ s, s <| k_vip_host_ip := delete (vipHostKey host) (k_vip_host_ip s) |>).
Definition put_host (host : bytes) (v : vip_host_val) : C (option unit) :=
  map_update (λ s, let '(ok, m) := hash_update vip_host_ip_max_entries (vipHostKey host) v (k_vip_host_ip s) in (ok, s <| k_vip_host_ip := m |>)).
Definition delete_ip (a : ip) : C (option unit) :=
  map_delete (λ s, s <| k_vip_ip_host := delete (As16 a) (k_vip_ip_host s) |>).
Definition put_ip (a : ip) (e : vipEntry) : C (option unit) :=
  map_update (λ s, let '(ok, m) := hash_update vip_ip_host_max_entries (As16 a) (vipIPValue e) (k_vip_ip_host s) in (ok, s <| k_vip_ip_host := m |>)).
Definition delete_upstream (k : addr16) : C (option unit) :=
  map_delete (λ s, s <| k_vip_upstream := delete k (k_vip_upstream s) |>).

(** pruneUpstreams: the recorded addresses of an IP that is not reserved for the host
    it was reserved for are deleted. *)
Definition leads_on (existing plan : reservations) (k : addr16) : bool :=
  match plan !! From16 k, existing !! From16 k with
  | Some e, Some old => bool_decide (e_host old = e_host e)
  | _, _ => false
  end.
Definition upstream_keys : C (list addr16) := λ c,
  let '(_, c') := map_read (λ _, ()) c in
  let keys := (go_range (k_vip_upstream (c_state c'))).*1 in
  (if fails Read (c_ops c) then take (seen (c_ops c)) keys else keys, c').
Definition pruneUpstreams (existing plan : reservations) : C unit :=
  keys ← upstream_keys;
  each (λ u k, delete_upstream k;; mret u) (List.filter (λ k, negb (leads_on existing plan k)) keys) ().

(** The loops of sync. *)
Definition drop_hosts (currentHosts want : gmap bytes vip_host_val) : C (gset bytes) :=
  each (λ dropped '(host, cur),
    if match want !! host with Some w => negb (dropsVirtualIP cur w) | None => false end then mret dropped
    else delete_host host;; mret ({[host]} ∪ dropped)) (go_range currentHosts) ∅.

Definition release_ips (existing entries : reservations) : C unit :=
  each (λ u '(a, _), match entries !! a with Some _ => mret u | None => delete_ip a;; mret u end) (go_range existing) ().

(** The hosts of each family that still have their fake IP. *)
Definition write_ips (existing entries : reservations) (hosts4 hosts6 : gmap bytes ip) : C (gmap bytes ip * gmap bytes ip) :=
  each (λ '(hosts4, hosts6) '(a, e),
    if bool_decide (vipIPValue <$> existing !! a = Some (vipIPValue e)) then mret (hosts4, hosts6)
    else r ← put_ip a e;
      mret match r with
        | Some _ => (hosts4, hosts6)
        | None => if Is4 a then (delete (e_host e) hosts4, hosts6) else (hosts4, delete (e_host e) hosts6)
        end) (go_range entries) (hosts4, hosts6).

Definition write_hosts (currentHosts want : gmap bytes vip_host_val) (dropped : gset bytes) : C unit :=
  each (λ u '(host, v),
    if bool_decide (host ∉ dropped ∧ currentHosts !! host = Some v) then mret u else put_host host v;; mret u) (go_range want) ().

Definition drop_unwritten (currentHosts want : gmap bytes vip_host_val) (dropped : gset bytes) : C unit :=
  each (λ u '(host, _),
    if bool_decide (want !! host = None ∧ host ∉ dropped) then delete_host host;; mret u else mret u) (go_range currentHosts) ().

Definition any_failed : C bool := λ c, (negb (c_failed c =? 0)%nat, c).

(** The result is whether the sync reports an error. *)
Definition sync (ranges : VirtualIPRanges) (hosts : gset bytes) (now : Z) : C bool :=
  existing ← map_read (λ s, readVirtualIPs (k_vip_ip_host s));
  match existing with
  | None => mret true
  | Some existing =>
      currentHosts ← map_read (λ s, readVirtualIPHosts (k_vip_host_ip s));
      match currentHosts with
      | None => mret true
      | Some currentHosts =>
          let '(p4, p6) := planVirtualIPRanges go_range ranges hosts existing now vip_ip_host_max_entries in
          let entries := Entries p6 ∪ Entries p4 in
          dropped ← drop_hosts currentHosts (vipHostVals (Hosts p4) (Hosts p6));
          release_ips existing entries;;
          pruneUpstreams existing entries;;
          '(hosts4, hosts6) ← write_ips existing entries (Hosts p4) (Hosts p6);
          let want := vipHostVals hosts4 hosts6 in
          write_hosts currentHosts want dropped;;
          drop_unwritten currentHosts want dropped;;
          any_failed
      end
  end.

End Sync.
End Order.
End Sync.
