(* ===== verification/VipSyncFacts.v ===== *)
(** * What the sync of the fake IP maps does (pkg/ebpf/virtual_ip_linux.go)

    [Values]: the values of the maps and what they are read back as.
    [SyncFacts]: a logic of sync's operations, and the theorems on sync. *)

From S2P Require Import Prelude Host GF128 Sni VipAddr State Hooks Vip VipHooks VipPlan VipReserve VipSync.
From stdpp Require Import sorting.
#[local] Open Scope Z_scope.

Module Values.
Import Host.Host Types Kernel Hooks.Hooks HooksFacts VipAddr VipFacts Hello NetIP Plan FreeFacts Reserve Sync.

(** *** Host names: not empty, below 64 bytes, without zeros *)

Definition name (h : bytes) : Prop := h ≠ [] ∧ (length h < 64)%nat ∧ Forall (λ b, 0 < b < 256) h.

Lemma until_zero_app h l : Forall (λ b, 0 < b < 256) h → until_zero (h ++ 0 :: l) = h.
Proof.
  induction 1 as [|b h Hb _ IH]; [done|]. cbn [app until_zero]. destruct (Z.eqb_spec b 0); [lia|]. by rewrite IH.
Qed.
Lemma until_zero_all h : Forall (λ b, 0 < b < 256) h → until_zero h = h.
Proof. induction 1 as [|b h Hb _ IH]; [done|]. cbn [until_zero]. destruct (Z.eqb_spec b 0); [lia|]. by rewrite IH. Qed.

Lemma host_key h : (length h < 64)%nat → vipHostKey h = h ++ zeros (64 - length h).
Proof. intros H. unfold vipHostKey. by rewrite take_ge by lia. Qed.

Lemma host_key_pad h : (length h < 64)%nat → vipHostKey h = pad_host h.
Proof. apply host_key. Qed.

Lemma host_key_buf h : name h → host_buf (vipHostKey h).
Proof.
  intros (_ & Hl & Hb). rewrite host_key by done. split; [unfold zeros; rewrite length_app, length_replicate; lia|].
  apply bytes_ok_app. split; [|apply bytes_ok_zeros]. eapply Forall_impl; [exact Hb|]. unfold byte. lia.
Qed.

Lemma host_string h n : name h → Z.of_nat (length h) ≤ n → vipHostString (vipHostKey h) n = h.
Proof.
  intros Hn Hle. pose proof (host_key_buf h Hn) as [L _]. destruct Hn as (_ & Hl & Hb). unfold vipHostString, zlen. rewrite L, host_key by done.
  set (k := Z.to_nat (Z.min n 64)). assert (Hk : (length h <= k <= 64)%nat) by lia.
  rewrite take_app, (take_ge h) by lia. unfold zeros. rewrite take_replicate.
  destruct (Nat.min _ _) as [|m]; cbn [replicate]; [by rewrite app_nil_r, until_zero_all|by apply until_zero_app].
Qed.

Lemma host_key_inj h g : name h → name g → vipHostKey h = vipHostKey g → h = g.
Proof. intros Hh Hg E. rewrite <- (host_string h 64 Hh), <- (host_string g 64 Hg), E; [done| |]; destruct Hh as (_ & ? & _), Hg as (_ & ? & _); lia. Qed.

(** *** Addresses: an IPv6 one is not IPv4-mapped *)

Definition good (a : ip) : Prop := ip_ok a ∧ From16 (As16 a) = a.

Lemma length_as16 a : length (As16 a) = 16%nat.
Proof. destruct a; cbn [As16]; rewrite ?length_app, !length_be_bytes; done. Qed.
Lemma as16_ok a : bytes_ok (As16 a).
Proof. destruct a; cbn [As16]; [|apply be_bytes_ok]. apply bytes_ok_app. split; [apply bytes_ok_zeros|]. apply bytes_ok_app. split; [by_compute|apply be_bytes_ok]. Qed.
Lemma as16_inj a b : good a → good b → As16 a = As16 b → a = b.
Proof. intros [_ Ha] [_ Hb] E. congruence. Qed.

Lemma good4 v : ip_ok (IPv4 v) → good (IPv4 v).
Proof.
  intros Hv. split; [done|]. unfold ip_ok in Hv. cbn in Hv. unfold From16, As16.
  rewrite app_assoc, take_app_length', drop_app_length' by done. rewrite bool_decide_eq_true_2 by done.
  rewrite be_val_be_bytes, Z.mod_small; [done|]. by change (256 ^ Z.of_nat 4) with (2 ^ 32).
Qed.

Lemma as16_v4 v : As16 (IPv4 v) = ipv4_to_mapped (be_bytes 4 v).
Proof. done. Qed.
Lemma as16_v4mapped v : vip_addr_v4mapped (As16 (IPv4 v)) = true.
Proof. rewrite as16_v4. apply mapped_is_v4mapped, be_bytes_ok. Qed.

Lemma be_bytes_app m n x : be_bytes (m + n) x = be_bytes m (x / 256 ^ Z.of_nat n) ++ be_bytes n x.
Proof.
  induction m as [|m IH]; [done|]. cbn [Nat.add be_bytes app]. rewrite IH. f_equal. f_equal.
  rewrite Z.div_div by lia. f_equal. rewrite <- Z.pow_add_r by lia. f_equal. lia.
Qed.

Lemma be_bytes_inj n x y : 0 ≤ x < 256 ^ Z.of_nat n → 0 ≤ y < 256 ^ Z.of_nat n → be_bytes n x = be_bytes n y → x = y.
Proof. intros Hx Hy E. apply (f_equal be_val) in E. rewrite !be_val_be_bytes, !Z.mod_small in E by done. done. Qed.

Lemma good6 v : ip_ok (IPv6 v) → v / 2 ^ 32 ≠ 0xffff → good (IPv6 v).
Proof.
  intros Hv Hm. split; [done|]. unfold ip_ok in Hv. cbn [val BitLen Is4] in Hv. unfold From16, As16. rewrite bool_decide_eq_false_2.
  - rewrite be_val_be_bytes. f_equal. apply Z.mod_small. by change (256 ^ Z.of_nat 16) with (2 ^ 128).
  - change 16%nat with (12 + 4)%nat. rewrite be_bytes_app, take_app_length' by (by rewrite length_be_bytes).
    change (zeros 10 ++ [255; 255]) with (be_bytes 12 0xffff). change (256 ^ Z.of_nat 4) with (2 ^ 32). intros E.
    apply be_bytes_inj in E; [done| |done]. split; [apply Z.div_pos; lia|]. apply Z.div_lt_upper_bound; [lia|].
    change (2 ^ 32 * 256 ^ Z.of_nat 12) with (2 ^ 128). lia.
Qed.

Lemma in_range_good r a : range_ok r → Contains r a = true → ip_ok a → good a.
Proof.
  intros [[Hp Hb] Hc] Hcon Ha. destruct a as [v|v]; [by apply good4|]. apply good6; [done|]. intros Em.
  unfold Contains in Hcon. apply andb_true_iff in Hcon as [H6 Hs]. apply eqb_prop in H6. cbn [Is4 val] in H6, Hs. apply Z.eqb_eq in Hs.
  unfold check_range, Overlaps, host_bits in *. unfold BitLen in *. rewrite H6 in *. cbn [negb eqb andb v4MappedPrefix p_addr p_bits val Is4] in Hc.
  set (k := 128 - Z.min (p_bits r) 96) in *. set (hb := 128 - p_bits r) in *.
  destruct (Z.eqb_spec (Z.shiftr (val (p_addr r)) k) (Z.shiftr (65535 * 2 ^ 32) k)) as [|Hne]; [done|]. clear Hc. apply Hne.
  assert (Hk : k = hb + (k - hb) ∧ 0 ≤ hb ∧ 0 ≤ k - hb ∧ k = 32 + (k - 32) ∧ 0 ≤ k - 32) by (unfold k, hb; lia).
  destruct Hk as (K1 & K2 & K3 & K4 & K5). rewrite K1 at 1. rewrite <- Z.shiftr_shiftr, <- Hs, Z.shiftr_shiftr by done.
  rewrite <- K1, K4, <- !Z.shiftr_shiftr by done. f_equal. rewrite !Z.shiftr_div_pow2 by lia. rewrite Em. by rewrite Z_div_mult.
Qed.

Lemma good6_not_mapped v : good (IPv6 v) → vip_addr_v4mapped (As16 (IPv6 v)) = false.
Proof.
  intros [_ H]. apply not_true_is_false. intros (v4 & L & E)%v4mapped_spec; [|split; [apply length_as16|apply as16_ok]].
  rewrite E in H. unfold From16, v4mapped in H. rewrite bool_decide_eq_true_2 in H; [done|]. by destruct v4 as [|? [|? [|? [|? []]]]].
Qed.

(** *** Values written are read back as they were meant *)

(** A time the maps can hold: whole seconds from the epoch. *)
Definition time_ok (e : vipEntry) : Prop := e_retired e = true → 0 ≤ Unix (e_retired_at e) < 2 ^ 63.
Definition entry_ok (a : ip) (e : vipEntry) : Prop := good a ∧ name (e_host e) ∧ time_ok e.

(** An entry as the maps hold it. *)
Definition canon (e : vipEntry) : vipEntry :=
  if e_retired e then retire (e_host e) (Unix (e_retired_at e) * 10 ^ 9) else active (e_host e).

Lemma value_entry a e : entry_ok a e → vipIPEntry (vipIPValue e) = canon e.
Proof.
  intros (_ & Hn & Ht). pose proof Hn as (_ & Hl & _). unfold vipIPEntry, vipIPValue, canon, zlen. cbn [vi_host vi_host_len vi_flags vi_retired_at].
  rewrite host_string by (done || lia). unfold time_ok in Ht. destruct (e_retired e); [|done]. cbn [Z.land Pos.land Z.eqb].
  specialize (Ht eq_refl). change (2 ^ 63) with 9223372036854775808 in Ht. rewrite u64_small by lia.
  unfold i64. destruct (Z.ltb_spec (Unix (e_retired_at e)) (2 ^ 63)); [done|lia].
Qed.

Lemma canon_value e : vipIPValue (canon e) = vipIPValue e.
Proof.
  unfold canon, vipIPValue. destruct (e_retired e); [|done]. cbn [e_host e_retired e_retired_at retire]. f_equal. f_equal. unfold Unix. by rewrite Z_div_mult.
Qed.
Lemma canon_host e : e_host (canon e) = e_host e.
Proof. unfold canon. by destruct (e_retired e). Qed.
Lemma canon_retired e : e_retired (canon e) = e_retired e.
Proof. unfold canon. by destruct (e_retired e). Qed.

Lemma value_host a e a' e' : entry_ok a e → entry_ok a' e' → vipIPValue e = vipIPValue e' → e_host e = e_host e' ∧ e_retired e = e_retired e'.
Proof.
  intros H H' E. pose proof (value_entry _ _ H) as E1. pose proof (value_entry _ _ H') as E2. rewrite E, E2 in E1.
  rewrite <- (canon_host e), <- (canon_retired e), <- E1. by rewrite canon_host, canon_retired.
Qed.

End Values.

(** *** The ranges, as the programs know them *)

Module Config.
Import Host.Host Types Kernel VipAddr VipFacts Hooks.Hooks HooksFacts NetIP Plan FreeFacts Sync Values.

(** Ranges as parseVirtualIPPrefix accepts them. *)
Record ranges_ok (ranges : VirtualIPRanges) : Prop := {
  ro_v4 : range_ok (V4 ranges) ∧ Is4 (p_addr (V4 ranges)) = true;
  ro_v6 : ∀ r, V6 ranges = Some r → range_ok r ∧ Is4 (p_addr r) = false
}.
(** The range of an address's family. *)
Definition range_of (ranges : VirtualIPRanges) (a : ip) : option prefix := if Is4 a then Some (V4 ranges) else V6 ranges.

Lemma byte_land a b : byte a → byte b → byte (Z.land a b).
Proof. unfold byte. intros. apply (land_range a b 8); lia. Qed.

Lemma be_val_land l k : bytes_ok l → bytes_ok k → length l = length k → be_val (zip_with Z.land l k) = Z.land (be_val l) (be_val k).
Proof.
  intros Hl. revert k. induction Hl as [|b l Hb Hl IH]; intros [|c k] Hk Hlen; try done.
  apply Forall_cons in Hk as [Hc Hk]. injection Hlen as Hlen. cbn [be_val zip_with]. rewrite IH by done.
  assert (Ez : zlen (zip_with Z.land l k) = zlen l) by (unfold zlen; rewrite length_zip_with; lia).
  assert (Ek : zlen k = zlen l) by (unfold zlen; lia).
  pose proof (be_val_range2 l Hl). pose proof (be_val_range2 k Hk) as Hkr. rewrite Ek in Hkr.
  rewrite Ez, Ek, !pow256 by apply zlen_nonneg. rewrite land_join; [done|pose proof (zlen_nonneg l); lia|done|done].
Qed.

Lemma rev_zip_with (f : Z → Z → Z) l : ∀ k, length l = length k → rev (zip_with f l k) = zip_with f (rev l) (rev k).
Proof.
  induction l as [|b l IH]; intros [|c k] Hlen; try done. injection Hlen as Hlen. cbn [zip_with rev].
  rewrite IH, zip_with_app by (by rewrite ?length_rev). done.
Qed.

Lemma le_val_land l k : bytes_ok l → bytes_ok k → length l = length k → le_val (zip_with Z.land l k) = Z.land (le_val l) (le_val k).
Proof.
  intros Hl Hk Hlen. unfold le_val. rewrite <- be_val_land by (by rewrite ?length_rev || by apply Forall_rev). f_equal.
  by apply rev_zip_with.
Qed.

Lemma be_bytes_land n x y : zip_with Z.land (be_bytes n x) (be_bytes n y) = be_bytes n (Z.land x y).
Proof.
  induction n as [|n IH]; [done|]. cbn [be_bytes zip_with]. rewrite IH. f_equal. unfold u8. change 256 with (2 ^ 8).
  rewrite <- Z.pow_mul_r by lia. rewrite <- !Z.land_ones, <- !Z.shiftr_div_pow2 by lia. rewrite Z.shiftr_land.
  apply Z.bits_inj'. intros i Hi. rewrite !Z.land_spec. by repeat destruct (Z.testbit _ _).
Qed.

(** Masking an address, as the programs do it and as Go does. *)
Lemma mask_bits n k x : 0 ≤ k ≤ n → 0 ≤ x < 2 ^ n → Z.land x (2 ^ n - 2 ^ k) = x / 2 ^ k * 2 ^ k.
Proof.
  intros Hk Hx. replace (2 ^ n - 2 ^ k) with (Z.shiftl (Z.ones (n - k)) k).
  - rewrite <- Z.shiftr_div_pow2, <- Z.shiftl_mul_pow2 by lia. apply Z.bits_inj'. intros i Hi.
    rewrite Z.land_spec, !Z.shiftl_spec by lia. destruct (Z.ltb_spec i k).
    { rewrite !(Z.testbit_neg_r _ (i - k)) by lia. by rewrite andb_false_r. }
    rewrite Z.shiftr_spec by lia. replace (i - k + k) with i by lia.
    destruct (Z.ltb_spec i n); [rewrite Z.ones_spec_low by lia; apply andb_true_r|]. by rewrite (testbit_ge x n) by lia.
  - rewrite Z.shiftl_mul_pow2, Z.ones_equiv by lia. replace (2 ^ n) with (2 ^ (n - k) * 2 ^ k) by (rewrite <- Z.pow_add_r by lia; f_equal; lia). lia.
Qed.

Lemma masked_val r a : prefix_ok r → Is4 (p_addr r) = Is4 a → ip_ok a →
  Z.land (val a) (CIDRMask (p_bits r) (BitLen a)) = val (p_addr (Masked r)) ↔ Contains r a = true.
Proof.
  intros [Hp Hb] Hf Ha. unfold Contains, Masked, CIDRMask, host_bits, ip_ok in *. rewrite Hf, eqb_reflx.
  assert (El : BitLen (p_addr r) = BitLen a) by (unfold BitLen; by rewrite Hf). rewrite El in *. set (k := BitLen a - p_bits r) in *.
  rewrite mask_bits by lia. cbn [andb p_addr]. rewrite Z.eqb_eq, !Z.shiftr_div_pow2 by lia.
  assert (Hk : 0 < 2 ^ k) by (apply Z.pow_pos_nonneg; lia). destruct (Is4 a); cbn [val]; nia.
Qed.

Lemma masked_ok r : prefix_ok r → ip_ok (p_addr (Masked r)) ∧ Is4 (p_addr (Masked r)) = Is4 (p_addr r).
Proof.
  intros [Hp Hb]. unfold Masked, ip_ok, host_bits, BitLen in *. cbn [p_addr].
  set (k := 2 ^ _). assert (0 < k) by (unfold k; apply Z.pow_pos_nonneg; destruct (Is4 (p_addr r)); lia).
  destruct (Is4 (p_addr r)); cbn [val Is4] in *; (split; [|done]); pose proof (Z.mul_div_le (val (p_addr r)) k ltac:(lia));
    pose proof (Z.div_pos (val (p_addr r)) k ltac:(lia) ltac:(lia)); nia.
Qed.

Lemma mask_pos r a : prefix_ok r → Is4 (p_addr r) = Is4 a → 0 < p_bits r → 0 < CIDRMask (p_bits r) (BitLen a) < 2 ^ BitLen a.
Proof.
  intros [_ Hb] Hf Hp. unfold CIDRMask, BitLen in *. rewrite Hf in *. assert (H : ∀ n b, 0 < b ≤ n → 0 < 2 ^ n - 2 ^ (n - b) < 2 ^ n); [|apply H; lia].
  intros n b Hbn. assert (2 ^ (n - b) < 2 ^ n) by (apply Z.pow_lt_mono_r; lia). pose proof (Z.pow_pos_nonneg 2 (n - b)). lia.
Qed.

Lemma length_land n l k : length l = n → length k = n → length (zip_with Z.land l k) = n.
Proof. intros. rewrite length_zip_with. lia. Qed.

(** vip_in_prefix6, with bytes compared at once. *)
Lemma in_prefix6_spec net mask a : addr net → addr mask → addr a →
  vip_in_prefix6 net mask a = bool_decide (zip_with Z.land a mask = net) && negb (be_val mask =? 0).
Proof.
  intros [Ln Bn] [Lm Bm] [La Ba]. unfold vip_in_prefix6.
  assert (Hb : ∀ l i, bytes_ok l → byte (l.[i])) by (intros; by apply byte_at_range).
  assert (H0 : byte 0) by done.
  destruct (or_bytes_spec 16 (λ i, Z.lxor (Z.land (a.[i]) (mask.[i])) (net.[i])) 0 H0) as [_ H1].
  { intros i _. apply byte_lxor; [apply byte_land|]; auto. }
  destruct (or_bytes_spec 16 (λ i, mask.[i]) 0 H0) as [_ H2]; [auto|]. f_equal.
  - apply eq_bool_prop_intro. rewrite bool_decide_spec, Is_true_true, Z.eqb_eq, H1. split.
    + intros [_ H]. apply (list_eq_same_length _ _ 16); [done|by apply length_land|]. intros i x y Hi Ex Ey.
      specialize (H (Z.of_nat i) ltac:(lia)). apply Z.lxor_eq in H. rewrite !byte_at_nat, Ey in H. cbn [default] in H.
      apply lookup_zip_with_Some in Ex as (b & c & -> & Eb & Ec). by rewrite Eb, Ec in H.
    + intros <-. split; [done|]. intros i Hi. rewrite <- (Z2Nat.id i) by lia. rewrite !byte_at_nat. apply Z.lxor_eq_0_iff.
      rewrite lookup_zip_with. destruct (a !! Z.to_nat i) eqn:E1; [|apply lookup_ge_None in E1; lia].
      by destruct (mask !! Z.to_nat i) eqn:E2; [|apply lookup_ge_None in E2; lia].
  - f_equal. apply eq_bool_prop_intro. rewrite !Is_true_true, !Z.eqb_eq, H2. split.
    + intros [_ H]. change 0 with (be_val (zeros 16)). f_equal. apply (list_eq_same_length _ _ 16); [done|done|]. intros i x y Hi Ex Ey.
      specialize (H (Z.of_nat i) ltac:(lia)). rewrite byte_at_nat, Ex in H. cbn in H. apply lookup_replicate in Ey as [-> _]. done.
    + intros E. split; [done|]. assert (mask = zeros 16) as ->; [|intros i _; apply zeros_at].
      apply be_val_inj; [done|apply bytes_ok_zeros|done|]. by rewrite E, be_val_zeros.
Qed.

(** An IPv6 range accepted is no /0, which overlaps the IPv4-mapped addresses. *)
Lemma bits6_pos r : range_ok r → Is4 (p_addr r) = false → 0 < p_bits r.
Proof.
  intros [[Hv Hb] Hc] Hf. destruct (Z.eq_dec (p_bits r) 0) as [E|]; [exfalso|lia]. unfold check_range, Overlaps, ip_ok, BitLen in *. rewrite Hf, E in *.
  cbn [negb eqb andb v4MappedPrefix p_addr p_bits val Is4 Z.min Z.compare] in Hc.
  rewrite (Z.shiftr_div_pow2 (val (p_addr r))), Z.div_small in Hc by (exact Hv || done). discriminate Hc.
Qed.

Lemma masked_bytes n r a : prefix_ok r → Is4 (p_addr r) = Is4 a → ip_ok a → 0 < p_bits r → BitLen a = 8 * Z.of_nat n →
  zip_with Z.land (be_bytes n (val a)) (be_bytes n (CIDRMask (p_bits r) (BitLen a))) = be_bytes n (val (p_addr (Masked r))) ↔ Contains r a = true.
Proof.
  intros Hr Hf Ha Hb Hn. rewrite be_bytes_land, <- masked_val by done. split; [|by intros ->].
  destruct (masked_ok r Hr) as [Hmo Hmf]. pose proof (mask_pos r a Hr Hf Hb) as Hm. unfold ip_ok in *.
  assert (El : BitLen (p_addr (Masked r)) = BitLen a) by (unfold BitLen; by rewrite Hmf, Hf). rewrite El in Hmo.
  intros E. apply be_bytes_inj in E; [done|rewrite pow256, <- Hn by lia..]; [apply land_range; lia|done].
Qed.

(** vip_addr_in_range of the config written is Contains of the ranges. *)
Lemma config_range4 ranges v : ranges_ok ranges → 0 < p_bits (V4 ranges) → ip_ok (IPv4 v) →
  vip_addr_in_range (vipConfig ranges) (As16 (IPv4 v)) = Contains (V4 ranges) (IPv4 v) ∧ mask4 (vipConfig ranges) ≠ 0.
Proof.
  intros [[[Hp _] Hf] _] Hb Ha. assert (Hm : mask4 (vipConfig ranges) ≠ 0).
  { cbn [vipConfig mask4]. intros E. change 0 with (le_val (zeros 4)) in E. apply le_val_inj in E; [|apply be_bytes_ok|apply bytes_ok_zeros|by rewrite length_be_bytes].
    apply (f_equal be_val) in E. rewrite be_val_be_bytes, be_val_zeros in E. pose proof (mask_pos (V4 ranges) (IPv4 v) Hp Hf Hb) as H.
    change (BitLen (IPv4 v)) with 32 in H. rewrite Z.mod_small in E by (change (256 ^ Z.of_nat 4) with (2 ^ 32); lia). lia. }
  split; [|done]. unfold vip_addr_in_range. rewrite as16_v4mapped. unfold vip_in_range. apply Z.eqb_neq in Hm. rewrite Hm. cbn [negb andb].
  assert (Es : slice (As16 (IPv4 v)) 12 4 = be_bytes 4 v) by reflexivity. rewrite Es. cbn [vipConfig mask4 net4].
  rewrite <- le_val_land by (apply be_bytes_ok || by rewrite !length_be_bytes). apply eq_bool_prop_intro. rewrite !Is_true_true, Z.eqb_eq.
  rewrite <- (masked_bytes 4 (V4 ranges) (IPv4 v)) by done. split; [|by intros <-].
  intros E. apply le_val_inj in E; [done|rewrite be_bytes_land; apply be_bytes_ok|apply be_bytes_ok|].
  by rewrite length_zip_with, !length_be_bytes.
Qed.

Lemma config_range ranges a : ranges_ok ranges → 0 < p_bits (V4 ranges) → good a →
  vip_addr_in_range (vipConfig ranges) (As16 a) = match range_of ranges a with Some r => Contains r a | None => false end.
Proof.
  intros Hr Hb Hg. pose proof Hg as [Ha _]. destruct a as [v|v]; [by apply config_range4|].
  destruct (config_range4 ranges 0 Hr Hb) as [_ Hm]; [done|]. unfold vip_addr_in_range, range_of. rewrite good6_not_mapped by done.
  apply Z.eqb_neq in Hm. rewrite Hm. cbn [negb andb vipConfig net6 mask6 Is4]. destruct Hr as [_ Hr6]. destruct (V6 ranges) as [r|].
  2:{ rewrite in_prefix6_spec; [by rewrite andb_false_r|split; [done|apply bytes_ok_zeros]..|split; [apply length_as16|apply as16_ok]]. }
  destruct (Hr6 r eq_refl) as [Hok Hf]. pose proof (bits6_pos r Hok Hf) as Hb6. destruct Hok as [Hp _].
  pose proof (mask_pos r (IPv6 v) Hp Hf Hb6) as Hmp. change (BitLen (IPv6 v)) with 128 in Hmp.
  rewrite in_prefix6_spec by (split; [by rewrite ?length_as16, ?length_be_bytes|first [apply as16_ok|apply be_bytes_ok]]).
  rewrite be_val_be_bytes, Z.mod_small by (change (256 ^ Z.of_nat 16) with (2 ^ 128); lia). destruct (Z.eqb_spec (CIDRMask (p_bits r) 128) 0); [lia|].
  rewrite andb_true_r. apply eq_bool_prop_intro. rewrite bool_decide_spec, Is_true_true, <- (masked_bytes 16 r (IPv6 v)) by done.
  destruct (masked_ok r Hp) as [_ Hmf]. rewrite Hf in Hmf. by destruct (p_addr (Masked r)).
Qed.

(** C23: the range the programs test addresses against is the ranges the controller
    takes fake IPs from: with the value of vip_config that the controller writes for
    them, vip_addr_in_range holds of exactly the addresses, of either family, that
    net/netip says the ranges contain. *)
Theorem config_agrees ranges a : ranges_ok ranges → 0 < p_bits (V4 ranges) → good a →
  vip_addr_in_range (vipConfig ranges) (As16 a) = match range_of ranges a with Some r => Contains r a | None => false end.
Proof. apply config_range. Qed.

Definition sample_ranges : VirtualIPRanges := {| V4 := {| p_addr := IPv4 0xF0000000; p_bits := 8 |}; V6 := None |}.

Lemma sample_ranges_ok : ranges_ok sample_ranges.
Proof. split; [|done]. split; [|done]. split; [|reflexivity]. split; [split; vm_compute; congruence|vm_compute; split; congruence]. Qed.

Lemma config_agrees_witness : vip_addr_in_range (vipConfig sample_ranges) (As16 (IPv4 0xF0000001)) = true ∧
  range_of sample_ranges (IPv4 0xF0000001) = Some (V4 sample_ranges) ∧ Contains (V4 sample_ranges) (IPv4 0xF0000001) = true.
Proof.
  split; [|split; reflexivity]. rewrite (config_agrees sample_ranges (IPv4 0xF0000001)); [reflexivity|apply sample_ranges_ok|done|by apply good4].
Defined.

End Config.

Module SyncLogic.
Import Types Kernel NetIP Plan Sync.

Section Logic.
Context {go : GoOrder} (env : nat → kst → kst) (fails : op → nat → bool) (seen : nat → nat).

Abbreviation map_op := (map_op env fails).

(** From a state in [P], the run of [m] ends in [Q], through states in [R]. *)
Definition runs {A} (R P : kst → Prop) (m : C A) (Q : A → kst → Prop) : Prop :=
  ∀ c, P (c_state c) → Forall R (c_trace c) → Q (fst (m c)) (c_state (snd (m c))) ∧ Forall R (c_trace (snd (m c))).

(** What runs between two operations keeps [P]. *)
Definition stable (P : kst → Prop) : Prop := ∀ n s, P s → P (env n s).

Lemma runs_ret {A} R P (a : A) (Q : A → kst → Prop) : (∀ s, P s → Q a s) → runs R P (mret a) Q.
Proof using. intros H c Hp Hr. split; [by apply H|done]. Qed.

Lemma runs_bind {A B} R P (m : C A) (f : A → C B) Q Q' : runs R P m Q → (∀ a, runs R (Q a) (f a) Q') → runs R P (m ≫= f) Q'.
Proof using.
  intros Hm Hf c Hp Hr. destruct (Hm c Hp Hr) as [Hq Hr']. unfold mbind, c_bind. destruct (m c) as [a c']. by apply Hf.
Qed.

Lemma runs_impl {A} R (P P' : kst → Prop) (m : C A) (Q Q' : A → kst → Prop) : (∀ s, P' s → P s) → (∀ a s, Q a s → Q' a s) → runs R P m Q → runs R P' m Q'.
Proof using. intros Hp Hq H c Hpc Hr. destruct (H c (Hp _ Hpc) Hr) as [H1 H2]. split; [by apply Hq|done]. Qed.

Lemma runs_fact {A} (φ : Prop) R P (m : C A) Q : (φ → runs R P m Q) → runs R (λ s, P s ∧ φ) m Q.
Proof using. intros H c [Hp Hφ] Hr. by apply H. Qed.

(** A loop, with an invariant on the elements it has done. *)
Lemma runs_each {A X} R (I : list X → A → kst → Prop) (f : A → X → C A) (l : list X) (a : A) :
  (∀ dn x rest a, l = dn ++ x :: rest → runs R (I dn a) (f a x) (I (dn ++ [x]))) → runs R (I [] a) (each f l a) (I l).
Proof using.
  intros H. assert (Hgen : ∀ rest dn a, l = dn ++ rest → runs R (I dn a) (each f rest a) (I l)).
  { intros rest. induction rest as [|x rest IH]; intros dn a' E; cbn [each].
    - apply runs_ret. intros s. rewrite E, app_nil_r. done.
    - eapply runs_bind; [by apply (H dn x rest)|]. intros a1. apply IH. by rewrite E, <- app_assoc. }
  by apply Hgen.
Qed.

Lemma runs_op {A} (R P : kst → Prop) o (f : kst → option (A * kst)) Q : stable P → (∀ s, P s → R s) →
  (∀ s, P s → match f s with Some (x, s') => Q (Some x) s' ∧ R s' | None => Q None s end) →
  (∀ n s, P s → fails o n = true → Q None s) → runs R P (map_op o f) Q.
Proof using.
  intros Hst HR Hf Hx c Hp Hr. unfold Sync.map_op. set (s := env (c_ops c) (c_state c)). assert (Hs : P s) by (by apply Hst).
  specialize (Hf s Hs). specialize (Hx (c_ops c) s Hs). destruct (fails o (c_ops c)); cbn [fst snd c_state c_trace].
  { split; [by apply Hx|]. apply Forall_app. split; [done|]. apply Forall_singleton. by apply HR. }
  destruct (f s) as [[x s']|]; cbn [fst snd c_state c_trace].
  - destruct Hf as [Hq Hr']. split; [done|]. apply Forall_app. split; [done|]. repeat constructor; [by apply HR|done].
  - split; [done|]. apply Forall_app. split; [done|]. apply Forall_singleton. by apply HR.
Qed.

(** *** An invariant of every operation *)

Section Invariant.
Context (J R : kst → Prop) (HJ : stable J) (HR : ∀ s, J s → R s).

Lemma keeps_read {A} (f : kst → A) : runs R J (map_read env fails f) (λ r s, J s ∧ ∀ x, r = Some x → ∃ s1, J s1 ∧ x = f s1).
Proof using HJ HR.
  apply runs_op; [done|exact HR| |].
  - intros s Hs. split; [split; [done|intros x [= <-]; by exists s]|by apply HR].
  - intros _ s Hs _. split; [done|]. intros x H. discriminate H.
Qed.

Lemma keeps_delete (f : kst → kst) : (∀ s, J s → J (f s)) → runs R J (map_delete env fails f) (λ _, J).
Proof using HJ HR. intros Hf. apply runs_op; [done|exact HR| |done]. intros s Hs. split; [|apply HR]; by apply Hf. Qed.

Lemma keeps_update (f : kst → bool * kst) : (∀ s, J s → J (snd (f s))) → runs R J (map_update env fails f) (λ _, J).
Proof using HJ HR.
  intros Hf. apply runs_op; [done|exact HR| |done]. intros s Hs. specialize (Hf s Hs). destruct (f s) as [[] s']; [split; [done|by apply HR]|done].
Qed.

Lemma keeps_each {A X} (f : A → X → C A) (l : list X) (a : A) : (∀ a x, x ∈ l → runs R J (f a x) (λ _, J)) → runs R J (each f l a) (λ _, J).
Proof using HJ HR.
  intros H. apply (runs_each R (λ _ _, J)). intros dn x rest b ->. apply H. apply elem_of_app. right. by left.
Qed.

(** Each operation of a sync keeps [J], for the maps and the plan it read and made. *)
Record ops_keep (existing entries : reservations) (cur : gmap bytes vip_host_val) (hosts4 hosts6 : gmap bytes ip) : Prop := {
  ok_drop : ∀ h s, is_Some (cur !! h) → J s → J (s <| k_vip_host_ip := delete (vipHostKey h) (k_vip_host_ip s) |>);
  ok_release : ∀ a s, is_Some (existing !! a) → entries !! a = None → J s → J (s <| k_vip_ip_host := delete (As16 a) (k_vip_ip_host s) |>);
  ok_prune : ∀ k s, leads_on existing entries k = false → J s → J (s <| k_vip_upstream := delete k (k_vip_upstream s) |>);
  ok_write : ∀ a e s, entries !! a = Some e → vipIPValue <$> existing !! a ≠ Some (vipIPValue e) → J s →
    J (s <| k_vip_ip_host := snd (hash_update vip_ip_host_max_entries (As16 a) (vipIPValue e) (k_vip_ip_host s)) |>);
  ok_put : ∀ h v h4 h6 s, h4 ⊆ hosts4 → h6 ⊆ hosts6 → vipHostVals h4 h6 !! h = Some v → J s →
    J (s <| k_vip_host_ip := snd (hash_update vip_host_ip_max_entries (vipHostKey h) v (k_vip_host_ip s)) |>)
}.

Section Ops.
Context (existing entries : reservations) (cur : gmap bytes vip_host_val) (hosts4 hosts6 : gmap bytes ip).
Context (Hops : ops_keep existing entries cur hosts4 hosts6).

Lemma visited {K V} `{Countable K} (m : gmap K V) k v : (k, v) ∈ go_range m ↔ m !! k = Some v.
Proof using. rewrite go_visits. apply elem_of_map_to_list. Qed.

Lemma keeps_drop_hosts want : runs R J (drop_hosts env fails cur want) (λ _, J).
Proof using HJ HR Hops.
  unfold drop_hosts. apply keeps_each. intros dropped [h v] Hx%visited. destruct (match want !! h with Some w => _ | None => _ end); [by apply runs_ret|].
  eapply runs_bind; [apply keeps_delete; intros s; apply (ok_drop _ _ _ _ _ Hops); by eexists|]. intros ?. by apply runs_ret.
Qed.

Lemma keeps_release_ips : runs R J (release_ips env fails existing entries) (λ _, J).
Proof using HJ HR Hops.
  unfold release_ips. apply keeps_each. intros u [a e] Hx%visited. destruct (entries !! a) eqn:E; [by apply runs_ret|].
  eapply runs_bind; [apply keeps_delete; intros s; apply (ok_release _ _ _ _ _ Hops); [by eexists|done]|]. intros ?. by apply runs_ret.
Qed.

Lemma keeps_prune : runs R J (pruneUpstreams env fails seen existing entries) (λ _, J).
Proof using HJ HR Hops.
  unfold pruneUpstreams. apply (runs_bind R J _ _ (λ _, J)).
  - unfold upstream_keys. intros c Hp Hr. destruct (keeps_read (λ _, ()) c Hp Hr) as [[H1 _] H2].
    destruct (map_read env fails (λ _, ()) c) as [? c']. by split.
  - intros keys. apply keeps_each. intros u k Hk%list_elem_of_In%filter_In. destruct Hk as [_ Hk%negb_true_iff].
    eapply runs_bind; [apply keeps_delete; intros s; by apply (ok_prune _ _ _ _ _ Hops)|]. intros ?. by apply runs_ret.
Qed.

Lemma keeps_write_ips : runs R J (write_ips env fails existing entries hosts4 hosts6) (λ '(h4, h6) s, J s ∧ h4 ⊆ hosts4 ∧ h6 ⊆ hosts6).
Proof using HJ HR Hops.
  unfold write_ips. eapply runs_impl; [| |apply (runs_each R (λ _ '(h4, h6) s, J s ∧ h4 ⊆ hosts4 ∧ h6 ⊆ hosts6))].
  - cbv beta. auto.
  - intros [h4 h6] s H. exact H.
  - intros dn [a e] rest [h4 h6] E. assert (Ea : entries !! a = Some e) by (apply visited; rewrite E; apply elem_of_app; right; by left).
    destruct (bool_decide_reflect (vipIPValue <$> existing !! a = Some (vipIPValue e))) as [|Hne]; [by apply runs_ret|].
    eapply runs_bind.
    + apply (runs_op R (λ s, J s ∧ h4 ⊆ hosts4 ∧ h6 ⊆ hosts6) Update _ (λ _ s, J s ∧ h4 ⊆ hosts4 ∧ h6 ⊆ hosts6)); [| |intros s (Hs & H4 & H6)|done].
      * intros n s (Hs & ?). split; [by apply HJ|done].
      * intros s [? _]. by apply HR.
      * pose proof (ok_write _ _ _ _ _ Hops a e s Ea Hne Hs) as Hw. destruct (hash_update _ _ _ _) as [[] m]; [split; [done|by apply HR]|done].
    + intros r. apply runs_ret. intros s (Hs & H4 & H6). destruct r; [done|].
      destruct (Is4 a); (split; [done|]; split); try done; (etrans; [apply delete_subseteq|done]).
Qed.

Lemma keeps_write_hosts dropped h4 h6 : h4 ⊆ hosts4 → h6 ⊆ hosts6 → runs R J (write_hosts env fails cur (vipHostVals h4 h6) dropped) (λ _, J).
Proof using HJ HR Hops.
  intros H4 H6. unfold write_hosts. apply keeps_each. intros u [h v] Hx%visited. destruct (bool_decide _); [by apply runs_ret|].
  eapply runs_bind; [apply keeps_update; intros s Hs|intros ?; by apply runs_ret].
  pose proof (ok_put _ _ _ _ _ Hops h v h4 h6 s H4 H6 Hx Hs) as Hp. by destruct (hash_update _ _ _ _) as [[] m].
Qed.

Lemma keeps_drop_unwritten want dropped : runs R J (drop_unwritten env fails cur want dropped) (λ _, J).
Proof using HJ HR Hops.
  unfold drop_unwritten. apply keeps_each. intros u [h v] Hx%visited. destruct (bool_decide _); [|by apply runs_ret].
  eapply runs_bind; [apply keeps_delete; intros s; apply (ok_drop _ _ _ _ _ Hops); by eexists|]. intros ?. by apply runs_ret.
Qed.
End Ops.

(** A sync keeps what its operations keep. *)
Lemma sync_keeps ranges hosts now :
  (∀ s1 s2, J s1 → J s2 → let existing := readVirtualIPs (k_vip_ip_host s1) in
    let '(p4, p6) := planVirtualIPRanges go_range ranges hosts existing now vip_ip_host_max_entries in
    ops_keep existing (Entries p6 ∪ Entries p4) (readVirtualIPHosts (k_vip_host_ip s2)) (Hosts p4) (Hosts p6)) →
  runs R J (sync env fails seen ranges hosts now) (λ _, J).
Proof using HJ HR.
  intros Hops. unfold sync. eapply runs_bind; [apply keeps_read|]. intros [existing|]; [|by apply runs_ret; intros s [? _]].
  apply runs_fact. intros Hread. destruct (Hread existing eq_refl) as (s1 & Hs1 & ->). clear Hread.
  eapply runs_bind; [apply keeps_read|]. intros [cur|]; [|by apply runs_ret; intros s [? _]].
  apply runs_fact. intros Hread. destruct (Hread cur eq_refl) as (s2 & Hs2 & ->). clear Hread.
  specialize (Hops s1 s2 Hs1 Hs2). cbv zeta in Hops. destruct (planVirtualIPRanges _ _ _ _ _ _) as [p4 p6].
  eapply runs_bind; [by eapply keeps_drop_hosts|]. intros dropped.
  eapply runs_bind; [by eapply keeps_release_ips|]. intros ?.
  eapply runs_bind; [by eapply keeps_prune|]. intros ?.
  eapply runs_bind; [by eapply keeps_write_ips|]. intros [h4 h6]. apply runs_fact. intros [H4 H6].
  eapply runs_bind; [by eapply keeps_write_hosts|]. intros ?.
  eapply runs_bind; [by eapply keeps_drop_unwritten|]. intros ?. intros c Hc Hr. by split.
Qed.
End Invariant.
End Logic.
End SyncLogic.
