(* ===== verification/VipLive.v ===== *)
(** * Fake IPs across the controller's syncs (pkg/ebpf/virtual_ip_linux.go)

    [Reads]: what a sync reads from the maps, and the plan it makes of that.
    [Live]: the operations of a sync are updates of [System] by the control plane; a
    fake IP a pod was given goes on working through any number of syncs that fail
    or are cut short, as long as they are asked to watch its host. *)

From S2P Require Import Prelude Host GF128 Sni Dns VipAddr State Hooks Packet Vip VipHooks DnsRewrite StateType Keeps.
From S2P Require Import InvSend InvTc System Progress VipPlan VipReserve VipSync VipSyncFacts.
From stdpp Require Import sorting.
#[local] Open Scope Z_scope.

Module Reads.
Import Host.Host Types Kernel StateType NetIP Plan FreeFacts Reserve Sync Values Config.

(** *** Folds that fill a map *)

Section Fold.
Context {K K' V V'} `{Countable K} `{Countable K'} (f : K → K') (g : V → V').

Lemma fold_insert_lookup l : (∀ k v k' v', (k, v) ∈ l → (k', v') ∈ l → f k = f k' → v = v') → ∀ (out : gmap K' V') x y,
  fold_left (λ out '(k, v), <[f k := g v]> out) l out !! x = Some y ↔
  (∃ k v, (k, v) ∈ l ∧ f k = x ∧ g v = y) ∨ (out !! x = Some y ∧ ∀ k v, (k, v) ∈ l → f k ≠ x).
Proof using.
  induction l as [|[k v] l IH]; intros Hl out x y; cbn [fold_left].
  { split; [intros E; right; split; [done|]; intros ? ? Hx; by apply elem_of_nil in Hx|]. intros [(? & ? & Hx & _)|[? _]]; [by apply elem_of_nil in Hx|done]. }
  rewrite IH by (intros; eapply Hl; [by right..|done]). rewrite lookup_insert_Some. setoid_rewrite elem_of_cons. split.
  - intros [(k1 & v1 & Hin & Hx)|[[[<- <-]|[Hne E]] Hno]]; [left; exists k1, v1; auto|left; exists k, v; auto|right]. split; [done|].
    intros k1 v1 [[= -> ->]|Hin]; [done|by apply (Hno k1 v1)].
  - intros [(k1 & v1 & [[= -> ->]|Hin] & Hx & Hy)|[E Hno]].
    + destruct (decide (Exists (λ kv, f kv.1 = x) l)) as [([k2 v2] & Hin & Hx2)%Exists_exists|Hn].
      * left. exists k2, v2. cbn in Hx2. split; [done|]. split; [done|]. rewrite <- Hy. f_equal. symmetry. eapply Hl; [by left|by right|by rewrite Hx2].
      * right. split; [left; by split|]. intros k2 v2 Hin Hx2. apply Hn, Exists_exists. by exists (k2, v2).
    + left. by exists k1, v1.
    + right. split; [right; split; [apply (Hno k v); by left|done]|]. intros k1 v1 Hin. apply (Hno k1 v1). by right.
Qed.

Lemma fold_insert_size l : ∀ out : gmap K' V', (size (fold_left (λ out '(k, v), <[f k := g v]> out) l out) ≤ size out + length l)%nat.
Proof using.
  induction l as [|[k v] l IH]; intros out; cbn [fold_left length]; [lia|]. specialize (IH (<[f k := g v]> out)).
  assert (size (<[f k := g v]> out) ≤ S (size out))%nat; [|lia]. rewrite map_size_insert. destruct (out !! f k); unfold id; lia.
Qed.
End Fold.

(** *** What the maps hold *)

(** Reservations a sync wrote. *)
Definition ips_wf (m : gmap addr16 vip_ip_val) : Prop :=
  fits vip_ip_host_max_entries m ∧ ∀ k v, m !! k = Some v → ∃ a e, k = As16 a ∧ v = vipIPValue e ∧ entry_ok a e.
Definition keys_wf (m : gmap bytes vip_host_val) : Prop := ∀ k v, m !! k = Some v → ∃ h, name h ∧ k = vipHostKey h.

Section Order.
Context {go : GoOrder}.

Lemma in_range {K V} `{Countable K} (m : gmap K V) k v : (k, v) ∈ go_range m ↔ m !! k = Some v.
Proof using. rewrite go_visits. apply elem_of_map_to_list. Qed.

Lemma length_range {K V} `{Countable K} (m : gmap K V) : length (go_range m) = size m.
Proof using. rewrite go_visits. apply length_map_to_list. Qed.

Lemma ips_wf_entry m k v : ips_wf m → m !! k = Some v → k = As16 (From16 k) ∧ good (From16 k) ∧ entry_ok (From16 k) (vipIPEntry v) ∧ vipIPValue (vipIPEntry v) = v.
Proof using.
  intros [_ Hw] E. destruct (Hw k v E) as (a & e & -> & -> & Hok). pose proof Hok as ([Ha Ea] & Hn & Ht).
  rewrite Ea, (value_entry a e Hok), canon_value. split; [done|]. split; [done|]. split; [|done]. split; [done|]. rewrite canon_host. split; [done|].
  unfold time_ok, canon in *. destruct (e_retired e); [|done]. cbn [e_retired e_retired_at retire]. unfold Unix. intros _. rewrite Z_div_mult by done. by apply Ht.
Qed.

Lemma read_ips m a e : ips_wf m → readVirtualIPs m !! a = Some e ↔ ∃ v, m !! As16 a = Some v ∧ good a ∧ e = vipIPEntry v.
Proof using.
  intros Hw. unfold readVirtualIPs. rewrite fold_insert_lookup.
  - rewrite lookup_empty. split.
    + intros [(k & v & Hk%in_range & <- & <-)|[? _]]; [|done]. destruct (ips_wf_entry m k v Hw Hk) as (Ek & Hg & _). exists v. by rewrite <- Ek.
    + intros (v & E & Hg & ->). left. exists (As16 a), v. split; [by apply in_range|]. split; [apply Hg|done].
  - intros k v k' v' Hk%in_range Hk'%in_range E. destruct (ips_wf_entry m k v Hw Hk) as (Ek & _), (ips_wf_entry m k' v' Hw Hk') as (Ek' & _).
    rewrite <- E, <- Ek in Ek'. congruence.
Qed.

Lemma read_ips_ok m a e : ips_wf m → readVirtualIPs m !! a = Some e → entry_ok a e.
Proof using.
  intros Hw (v & E & Hg & ->)%read_ips; [|done]. destruct (ips_wf_entry m _ v Hw E) as (_ & _ & Hok & _). destruct Hg as [_ Eg]. by rewrite Eg in Hok.
Qed.

Lemma read_ips_size m : ips_wf m → Z.of_nat (size (readVirtualIPs m)) ≤ vip_ip_host_max_entries.
Proof using.
  intros [Hf _]. pose proof (fold_insert_size From16 vipIPEntry (go_range m) ∅) as H. unfold readVirtualIPs. rewrite length_range, map_size_empty in H.
  unfold fits in Hf. lia.
Qed.

Lemma read_hosts m h v : keys_wf m → readVirtualIPHosts m !! h = Some v ↔ name h ∧ m !! vipHostKey h = Some v.
Proof using.
  intros Hw. unfold readVirtualIPHosts. assert (Hs : ∀ h, name h → vipHostString (vipHostKey h) 64 = h).
  { intros h' Hn. apply host_string; [done|]. destruct Hn as (_ & ? & _). lia. }
  rewrite (fold_insert_lookup (λ k, vipHostString k 64) (λ v, v)).
  - rewrite lookup_empty. split.
    + intros [(k & v' & Hk%in_range & <- & <-)|[? _]]; [|done]. destruct (Hw k v' Hk) as (h' & Hn & ->). by rewrite Hs.
    + intros [Hn E]. left. exists (vipHostKey h), v. split; [by apply in_range|]. split; [by apply Hs|done].
  - intros k v1 k' v' Hk%in_range Hk'%in_range E. destruct (Hw k v1 Hk) as (h1 & Hn & ->), (Hw k' v' Hk') as (h2 & Hn' & ->).
    rewrite !Hs in E by done. subst. congruence.
Qed.

(** *** The values written for hosts *)

Lemma fold_alter_lookup {X Y} (F : X → option Y → Y) l : NoDup l.*1 → ∀ (out : gmap bytes Y) h,
  (∀ x, (h, x) ∈ l → fold_left (λ out '(h, x), <[h := F x (out !! h)]> out) l out !! h = Some (F x (out !! h))) ∧
  (h ∉ l.*1 → fold_left (λ out '(h, x), <[h := F x (out !! h)]> out) l out !! h = out !! h).
Proof using.
  induction l as [|[k y] l IH]; intros Hl out h; cbn [fold_left].
  { split; [intros x Hx; by apply elem_of_nil in Hx|done]. }
  apply NoDup_cons in Hl as [Hk Hl]. destruct (IH Hl (<[k := F y (out !! k)]> out) h) as [H1 H2]. split.
  - intros x [[= -> ->]|Hx]%elem_of_cons; [by rewrite H2, lookup_insert_eq|]. rewrite (H1 x Hx). rewrite lookup_insert_ne; [done|].
    intros ->. apply Hk. apply list_elem_of_fmap. by exists (h, x).
  - cbn [fmap list_fmap fst]. intros Hn. apply not_elem_of_cons in Hn as [Hne Hn]. rewrite H2 by done. by apply lookup_insert_ne.
Qed.

Lemma range_nodup {V} (m : gmap bytes V) : NoDup (go_range m).*1.
Proof using. rewrite go_visits. apply NoDup_fst_map_to_list. Qed.

Definition host_val (o4 o6 : option ip) : vip_host_val := {| vh_ip4 := from_option As4 (zeros 4) o4; vh_ip6 := from_option As16 (zeros 16) o6 |}.

Lemma host_vals h4 h6 h : vipHostVals h4 h6 !! h = match h4 !! h, h6 !! h with None, None => None | o4, o6 => Some (host_val o4 o6) end.
Proof using.
  unfold vipHostVals. set (out := fold_left _ (go_range h4) ∅).
  destruct (fold_alter_lookup (λ a old, {| vh_ip4 := As4 a; vh_ip6 := vh_ip6 (default no_ips old) |}) (go_range h4) (range_nodup h4) ∅ h) as [A1 A2].
  destruct (fold_alter_lookup (λ a old, {| vh_ip4 := vh_ip4 (default no_ips old); vh_ip6 := As16 a |}) (go_range h6) (range_nodup h6) out h) as [B1 B2].
  fold out in A1, A2. rewrite lookup_empty in A1, A2.
  assert (Hno : ∀ m : gmap bytes ip, m !! h = None → h ∉ (go_range m).*1).
  { intros m E. intros ([? x] & -> & Hx%in_range)%list_elem_of_fmap. cbn in E. congruence. }
  destruct (h4 !! h) as [a|] eqn:E4; [rewrite (A1 a) in B1, B2 by (by apply in_range)|rewrite A2 in B1, B2 by (by apply Hno)];
    (destruct (h6 !! h) as [b|] eqn:E6; [rewrite (B1 b) by (by apply in_range)|rewrite B2 by (by apply Hno)]); done.
Qed.

(** *** The plan of a sync *)

Definition now_ok (now : Z) : Prop := 0 ≤ Unix now < 2 ^ 63.
Definition names (hosts : gset bytes) : Prop := ∀ h, h ∈ hosts → name h.

Lemma contains_family r a : Contains r a = true → Is4 (p_addr r) = Is4 a.
Proof using. unfold Contains. intros [H _]%andb_true_iff. by apply eqb_prop in H. Qed.

Section Family.
Context (r : option prefix) (hosts : gset bytes) (existing : reservations) (now capacity : Z).
Context (Hfit : fits_range r hosts existing capacity) (Hnames : names hosts) (Hnow : now_ok now).
Context (Hr : ∀ r', r = Some r' → range_ok r') (Hex : ∀ a e, existing !! a = Some e → entry_ok a e).
Abbreviation plan := (planVirtualIPs go_range r hosts existing now capacity).

Lemma family_entry_ok a e : Entries plan !! a = Some e → entry_ok a e.
Proof using Hfit Hnames Hnow Hr Hex.
  intros E. pose proof (plan_sound _ go_visits r hosts existing now capacity Hfit) as (S1 & S2 & S3 & _).
  destruct (plan_from _ go_visits r hosts existing now capacity a e Hfit E) as [[Er Ha]|(e0 & E0 & Eh & Et)].
  - destruct (S3 a e E) as (_ & r' & -> & Hc). split; [by apply (in_range_good r'); [apply Hr|..]|]. split; [|unfold time_ok; congruence].
    apply Hnames, (S2 _ a), S1. by exists e.
  - destruct (Hex a e0 E0) as (Hg & Hn & Ht). split; [done|]. rewrite <- Eh. split; [done|]. intros Er. by destruct (Et Er) as [->| ->]; [apply Ht|].
Qed.
End Family.

(** What a sync learns of its plan, both families together: [entries] is what
    vip_ip_host is to hold, [hosts4] and [hosts6] the fake IPs of the hosts. *)
Record planned (ranges : VirtualIPRanges) (hosts : gset bytes) (existing entries : reservations) (hosts4 hosts6 : gmap bytes ip) : Prop := {
  pl_ok : ∀ a e, entries !! a = Some e → entry_ok a e;
  pl_active : ∀ h a, (if Is4 a then hosts4 else hosts6) !! h = Some a ↔ ∃ e, entries !! a = Some e ∧ e_host e = h ∧ e_retired e = false;
  pl_family4 : ∀ h a, hosts4 !! h = Some a → Is4 a = true;
  pl_family6 : ∀ h a, hosts6 !! h = Some a → Is4 a = false;
  pl_watched : ∀ h a, (if Is4 a then hosts4 else hosts6) !! h = Some a → h ∈ hosts;
  pl_stable : ∀ h a e, h ∈ hosts → existing !! a = Some e → e_host e = h → e_retired e = false →
    (∃ r, range_of ranges a = Some r ∧ Contains r a = true) →
    (∀ b e', existing !! b = Some e' → Is4 b = Is4 a → e_host e' = h → e_retired e' = false → b = a) →
    (if Is4 a then hosts4 else hosts6) !! h = Some a
}.

Section Both.
Context (ranges : VirtualIPRanges) (hosts : gset bytes) (existing : reservations) (now : Z).
Context (Hranges : ranges_ok ranges) (Hnames : names hosts) (Hnow : now_ok now).
Context (Hex : ∀ a e, existing !! a = Some e → entry_ok a e) (Hsize : Z.of_nat (size existing) ≤ vip_ip_host_max_entries).

Let ex4 : reservations := filter (λ '(a, _), Is4 a = true) existing.
Let ex6 : reservations := filter (λ '(a, _), Is4 a = false) existing.

Lemma fits_family (r : option prefix) (hs : gset bytes) (ex : reservations) cap : ex ⊆ existing → (hs = ∅ ∨ ∃ r', r = Some r' ∧ range_ok r') →
  0 ≤ cap ≤ vip_ip_host_max_entries → fits_range r hs ex cap.
Proof using Hsize.
  intros Hsub Hr Hc. apply map_subseteq_size in Hsub. unfold vip_ip_host_max_entries in *. split; [lia|]. split; [lia|done].
Qed.

Lemma family_stable r hs ex cap h a e : fits_range r hs ex cap → h ∈ hs → ex !! a = Some e → e_host e = h → e_retired e = false → name h →
  (∃ r', r = Some r' ∧ Contains r' a = true) → (∀ b e', ex !! b = Some e' → e_host e' = h → e_retired e' = false → b = a) →
  Hosts (planVirtualIPs go_range r hs ex now cap) !! h = Some a.
Proof using.
  intros Hf Hh Ea Eh Er (Hne & _) (r' & -> & Hc) Hu. apply (plan_stable _ go_visits _ _ _ _ _ h a e); try done.
  - split; [done|]. split; [done|]. unfold release_reason. rewrite Eh, Er, Hc. by destruct h.
  - intros b e' (Eb & Ehb & _). by apply (Hu b e').
Qed.

Lemma sync_planned : let '(p4, p6) := planVirtualIPRanges go_range ranges hosts existing now vip_ip_host_max_entries in
  planned ranges hosts existing (Entries p6 ∪ Entries p4) (Hosts p4) (Hosts p6).
Proof using Hranges Hnames Hnow Hex Hsize.
  destruct Hranges as [[Hr4 Hf4] Hr6]. unfold planVirtualIPRanges. fold ex4 ex6.
  set (cap4 := match V6 ranges with Some _ => vip_ip_host_max_entries / 2 | None => vip_ip_host_max_entries end). assert (Hcap : 0 ≤ cap4 ≤ vip_ip_host_max_entries) by (unfold cap4, vip_ip_host_max_entries; by case_match).
  set (hs6 := match V6 ranges with Some _ => hosts | None => ∅ end). assert (Hsub : hs6 ⊆ hosts) by (unfold hs6; case_match; set_solver).
  assert (H4 : fits_range (Some (V4 ranges)) hosts ex4 cap4) by (apply fits_family; [apply map_filter_subseteq|right; by eexists|done]).
  assert (H6 : fits_range (V6 ranges) hs6 ex6 (vip_ip_host_max_entries - cap4)).
  { apply fits_family; [apply map_filter_subseteq| |lia]. unfold hs6. destruct (V6 ranges) as [r6|]; [right; exists r6; split; [done|by apply Hr6]|by left]. }
  assert (Hex4 : ∀ a e, ex4 !! a = Some e → entry_ok a e) by (intros a e [E _]%map_lookup_filter_Some; by apply Hex).
  assert (Hex6 : ∀ a e, ex6 !! a = Some e → entry_ok a e) by (intros a e [E _]%map_lookup_filter_Some; by apply Hex).
  pose proof (family_entry_ok _ _ _ _ _ H4 Hnames Hnow) as K4. pose proof (family_entry_ok _ _ _ _ _ H6 (λ h Hh, Hnames h (Hsub h Hh)) Hnow) as K6.
  destruct (plan_sound _ go_visits _ _ _ now _ H4) as (A1 & A2 & A3 & _). destruct (plan_sound _ go_visits _ _ _ now _ H6) as (B1 & B2 & B3 & _).
  pose proof (λ h a e, family_stable _ _ _ _ h a e H4) as S4. pose proof (λ h a e, family_stable _ _ _ _ h a e H6) as S6.
  set (p4 := planVirtualIPs _ _ _ ex4 _ _) in *. set (p6 := planVirtualIPs _ _ _ ex6 _ _) in *.
  assert (F4 : ∀ a e, Entries p4 !! a = Some e → Is4 a = true).
  { intros a e E. destruct (A3 a e E) as (_ & r & [= <-] & <-%contains_family). done. }
  assert (F6 : ∀ a e, Entries p6 !! a = Some e → Is4 a = false).
  { intros a e E. destruct (B3 a e E) as (_ & r & Er & <-%contains_family). by apply Hr6. }
  assert (L : ∀ a e, (Entries p6 ∪ Entries p4) !! a = Some e ↔ (if Is4 a then Entries p4 else Entries p6) !! a = Some e).
  { intros a e. rewrite lookup_union_Some_raw. destruct (Is4 a) eqn:Ea.
    - assert (N : Entries p6 !! a = None) by (destruct (Entries p6 !! a) eqn:E; [apply F6 in E; congruence|done]). rewrite N. naive_solver.
    - assert (N : Entries p4 !! a = None) by (destruct (Entries p4 !! a) eqn:E; [apply F4 in E; congruence|done]). rewrite N. naive_solver. }
  split.
  - intros a e E%L. destruct (Is4 a); [apply K4|apply K6]; try done. { by intros r' [= <-]. } { intros r' Er. by apply Hr6. }
  - intros h a. setoid_rewrite L. destruct (Is4 a); [apply A1|apply B1].
  - intros h a (e & E & _)%A1. by apply (F4 a e).
  - intros h a (e & E & _)%B1. by apply (F6 a e).
  - intros h a. destruct (Is4 a); [apply A2|]. intros E. by apply Hsub, (B2 h a).
  - intros h a e Hh Ea Eh Er Hrg Hu. unfold range_of in Hrg. pose proof (Hnames h Hh) as Hn. destruct (Is4 a) eqn:Fa.
    + apply (S4 h a e); try done; [by apply map_lookup_filter_Some|]. intros b e' [Eb Fb]%map_lookup_filter_Some. by apply (Hu b e').
    + apply (S6 h a e); try done; [|by apply map_lookup_filter_Some|].
      * destruct Hrg as (r & Er6 & _). unfold hs6. by rewrite Er6.
      * intros b e' [Eb Fb]%map_lookup_filter_Some. by apply (Hu b e').
Qed.
End Both.

End Order.
End Reads.

Module Live.
Import NetIP Plan FreeFacts Reserve Host.Host Types Kernel Hooks.Hooks ConnectFacts Skb Vip.Vip VipAddr VipFacts HooksFacts Keeps StateType Csums RewriteFacts InvSend.InvVip System VipProgress Sync Values Config SyncLogic Reads.

(** *** Its operations are updates *)

Section Updates.
Context (s : kst) (Hs : kst_ok s).

Lemma host_update m : (∀ h hv, m !! h = Some hv → host_ok hv) → updates s (s <| k_vip_host_ip := m |>).
Proof using Hs. intros Hm. destruct Hs. constructor; try done. by left. Qed.
Lemma ip_update m : map_Forall (λ _ v, ip_host_ok v) m → updates s (s <| k_vip_ip_host := m |>).
Proof using Hs. intros Hm. destruct Hs. constructor; try done. by left. Qed.
Lemma upstream_update m : m ⊆ k_vip_upstream s → updates s (s <| k_vip_upstream := m |>).
Proof using Hs. intros Hm. destruct Hs. constructor; try done. by left. Qed.
End Updates.

Lemma hash_update_all {K V} `{Countable K} (P : K → V → Prop) max k v (m : gmap K V) : P k v → map_Forall P m → map_Forall P (snd (hash_update max k v m)).
Proof. intros Hv Hm. unfold hash_update. destruct (_ || _); [|done]. by apply map_Forall_insert_2. Qed.

Lemma ip_value_ok a e : entry_ok a e → ip_host_ok (vipIPValue e).
Proof. intros (_ & Hn & _). by apply host_key_buf. Qed.

Lemma host_val_ok ranges hosts existing entries hosts4 hosts6 h4 h6 h v : planned ranges hosts existing entries hosts4 hosts6 →
  h4 ⊆ hosts4 → h6 ⊆ hosts6 → ∀ {go : GoOrder}, vipHostVals h4 h6 !! h = Some v → host_ok v.
Proof.
  intros Hp Hs4 Hs6 go. rewrite host_vals. assert (H6 : ∀ a, h6 !! h = Some a → addr (As16 a) ∧ vip_addr_v4mapped (As16 a) = false).
  { intros a E. apply (lookup_weaken _ hosts6) in E; [|done]. pose proof (pl_family6 _ _ _ _ _ _ Hp h a E) as F.
    assert (Ha : good a). { pose proof (proj1 (pl_active _ _ _ _ _ _ Hp h a)) as H. rewrite F in H. destruct (H E) as (e & Ee & _). by destruct (pl_ok _ _ _ _ _ _ Hp a e Ee) as [? _]. }
    split; [split; [apply length_as16|apply as16_ok]|]. destruct a as [?|w]; [done|]. by apply good6_not_mapped. }
  assert (Hv : ∀ o4, host_ok (host_val o4 (h6 !! h))).
  { intros o4. unfold host_ok, host_val. cbn [vh_ip4 vh_ip6]. split; [|split].
    - destruct (h6 !! h) as [a|]; cbn [from_option]; [by apply H6|]. split; [done|apply bytes_ok_zeros].
    - destruct (h6 !! h) as [a|]; cbn [from_option]; [by apply H6|done].
    - destruct o4; cbn [from_option]; [apply be_bytes_ok|apply bytes_ok_zeros]. }
  specialize (Hv (h4 !! h)). destruct (h4 !! h), (h6 !! h); by intros [= <-].
Qed.

Section Steps.
Context {go : GoOrder} (csum : Skb.skb → Z → Z → Z → option Skb.skb) (Hcsum : csum_updates csum).

(** A step that leaves the tables of the fake IPs alone. *)
Definition quiet (s s' : kst) : Prop :=
  ∃ l, step csum s l s' ∧ (l = System.Update → vip_tables s' = vip_tables s ∧ k_vip_upstream s' = k_vip_upstream s).

Lemma quiet_tables s s' : kst_ok s → quiet s s' → vip_tables s' = vip_tables s.
Proof using Hcsum.
  intros Hs (l & Hst & Hl). destruct l; cbn [step] in Hst; [|by destruct Hst|by destruct Hst|by apply Hl].
  destruct Hst as [Hc ->]. by apply program_kept.
Qed.

(** The states of a system whose reservations are a sync's. *)
Definition sound (s : kst) : Prop := reachable csum s ∧ ips_wf (k_vip_ip_host s).

Lemma sound_ok s : sound s → kst_ok s.
Proof using Hcsum. intros [H _]. by apply (reachable_ok csum). Qed.

Lemma sound_step s s' : sound s → updates s s' → ips_wf (k_vip_ip_host s') → sound s'.
Proof using. intros [Hr _] Hu Hw. split; [|done]. by apply (reach_step csum s System.Update s'). Qed.

Lemma quiet_sound s s' : rtc quiet s s' → sound s → sound s' ∧ vip_tables s' = vip_tables s.
Proof using Hcsum.
  induction 1 as [s|s s1 s' Hq _ IH]; intros Hs; [done|]. pose proof (quiet_tables s s1 (sound_ok s Hs) Hq) as Et.
  destruct IH as [H1 H2]; [|by rewrite H2]. destruct Hs as [Hr Hw]. split.
  - destruct Hq as (l & Hst & _). by apply (reach_step csum s l s1).
  - injection Et as _ Ei _. by rewrite Ei.
Qed.

Lemma ips_wf_update m a e : ips_wf m → entry_ok a e → ips_wf (snd (hash_update vip_ip_host_max_entries (As16 a) (vipIPValue e) m)).
Proof using.
  intros [Hf Hw] Hok. split; [by apply fits_update|]. apply (hash_update_all (λ k v, ∃ a e, k = As16 a ∧ v = vipIPValue e ∧ entry_ok a e)); [by exists a, e|done].
Qed.
Lemma ips_wf_delete m k : ips_wf m → ips_wf (delete k m).
Proof using. intros [Hf Hw]. split; [by apply fits_delete|]. intros k' v (_ & E)%lookup_delete_Some. by apply Hw. Qed.

Lemma sound_ops ranges hosts existing entries cur hosts4 hosts6 : planned ranges hosts existing entries hosts4 hosts6 →
  ops_keep sound existing entries cur hosts4 hosts6.
Proof using Hcsum.
  intros Hp. split.
  - intros h s _ Hs. apply (sound_step s); [done| |apply Hs]. apply host_update; [by apply sound_ok|].
    intros h' hv (_ & E)%lookup_delete_Some. by apply (ok_hosts s (sound_ok s Hs) h').
  - intros a s _ _ Hs. apply (sound_step s); [done| |apply ips_wf_delete, Hs]. apply ip_update; [by apply sound_ok|]. apply all_delete, ok_ip_host. by apply sound_ok.
  - intros k s _ Hs. apply (sound_step s); [done| |apply Hs]. apply upstream_update; [by apply sound_ok|]. apply delete_subseteq.
  - intros a e s Ea _ Hs. pose proof (pl_ok _ _ _ _ _ _ Hp a e Ea) as Hok. apply (sound_step s); [done| |apply ips_wf_update; [apply Hs|done]].
    apply ip_update; [by apply sound_ok|]. apply (hash_update_all (λ _ v, ip_host_ok v)); [by apply (ip_value_ok a)|]. apply ok_ip_host. by apply sound_ok.
  - intros h v h4 h6 s H4 H6 Hv Hs. apply (sound_step s); [done| |apply Hs]. apply host_update; [by apply sound_ok|].
    apply (hash_update_all (λ _ hv, host_ok hv)); [by eapply host_val_ok|]. intros h' hv. apply (ok_hosts s (sound_ok s Hs)).
Qed.

(** *** A fake IP that stays *)

(** [a] is the fake IP of [h]: its other reservations of the family are retired. *)
Definition own (h : bytes) (a : ip) (s : kst) : Prop :=
  k_vip_ip_host s !! As16 a = Some (vipIPValue (active h)) ∧
  ∀ b e, b ≠ a → Is4 b = Is4 a → entry_ok b e → k_vip_ip_host s !! As16 b = Some (vipIPValue e) → e_host e = h → e_retired e = true.

Lemma own_delete h a b s m : good a → good b → b ≠ a → own h a s → k_vip_ip_host s = m → own h a (s <| k_vip_ip_host := delete (As16 b) m |>).
Proof using.
  intros Ha Hb Hne [H1 H2] <-. split; cbn [setter k_vip_ip_host].
  - rewrite lookup_delete_ne; [done|]. intros E. apply Hne. by apply as16_inj.
  - intros c e Hc Hf Hok (_ & E)%lookup_delete_Some. by apply (H2 c).
Qed.

Lemma own_write h a b e s : good a → entry_ok b e → b ≠ a → (Is4 b = Is4 a → e_host e = h → e_retired e = true) → own h a s →
  own h a (s <| k_vip_ip_host := snd (hash_update vip_ip_host_max_entries (As16 b) (vipIPValue e) (k_vip_ip_host s)) |>).
Proof using.
  intros Ha Hok Hne He [H1 H2]. unfold hash_update. destruct (_ || _); [|by split]. split; cbn [setter k_vip_ip_host snd].
  - rewrite lookup_insert_ne; [done|]. intros E. apply Hne. apply as16_inj; [by destruct Hok|done..].
  - intros c e' Hc Hf Hok' [[E Ev]|[_ E]]%lookup_insert_Some; [|by apply (H2 c)].
    apply as16_inj in E as <-; [|by destruct Hok|by destruct Hok']. destruct (value_host _ _ _ _ Hok Hok' Ev) as [<- <-]. by apply He.
Qed.

(** The plan keeps it. *)
Lemma own_planned ranges hosts entries hosts4 hosts6 h a s : planned ranges hosts (readVirtualIPs (k_vip_ip_host s)) entries hosts4 hosts6 →
  ips_wf (k_vip_ip_host s) → own h a s → good a → h ∈ hosts → name h → (∃ r, range_of ranges a = Some r ∧ Contains r a = true) →
  readVirtualIPs (k_vip_ip_host s) !! a = Some (active h) ∧
  ∃ e, entries !! a = Some e ∧ e_host e = h ∧ vipIPValue e = vipIPValue (active h) ∧
    ∀ b e', entries !! b = Some e' → Is4 b = Is4 a → b ≠ a → e_host e' = h → e_retired e' = true.
Proof using.
  intros Hp Hw [H1 H2] Ha Hh Hn Hr. assert (Ea : readVirtualIPs (k_vip_ip_host s) !! a = Some (active h)).
  { apply read_ips; [done|]. exists (vipIPValue (active h)). split; [done|]. split; [done|]. by rewrite (value_entry a (active h)). }
  split; [done|]. assert (Hk : (if Is4 a then hosts4 else hosts6) !! h = Some a).
  { apply (pl_stable _ _ _ _ _ _ Hp h a (active h)); try done. intros b e' Eb Hf Eh Er.
    destruct (decide (b = a)) as [|Hne]; [done|]. pose proof (read_ips_ok _ b e' Hw Eb) as Hok. apply read_ips in Eb as (v & E & Hg & ->); [|done].
    destruct (ips_wf_entry _ _ v Hw E) as (_ & _ & _ & Ev). rewrite <- Ev in E. by rewrite (H2 b _ Hne Hf Hok E Eh) in Er. }
  pose proof (proj1 (pl_active _ _ _ _ _ _ Hp h a) Hk) as (e & Ee & Eh & Er). exists e. split; [done|]. split; [done|].
  split; [unfold vipIPValue; by rewrite Er, Eh|]. intros b e' Eb Hf Hne Eh'. destruct (e_retired e') eqn:Er'; [done|]. exfalso. apply Hne.
  assert (Hb : (if Is4 b then hosts4 else hosts6) !! h = Some b) by (apply (pl_active _ _ _ _ _ _ Hp); by exists e').
  rewrite Hf in Hb. congruence.
Qed.

Section Kept.
Context (ranges : VirtualIPRanges) (h : bytes) (w : Z) (cfg : vip_config_val).
Context (Hranges : ranges_ok ranges) (Hname : name h) (Hgood : good (IPv4 w)) (Hin : Contains (V4 ranges) (IPv4 w) = true).
Abbreviation a := (IPv4 w).

(** The fake IPv4 [a] of [h] works. *)
Definition works (s : kst) : Prop := sound s ∧ k_vip_config s = cfg ∧ usable s (As16 a) ∧ own h a s.

Lemma quiet_works s s' : rtc quiet s s' → works s → works s'.
Proof using Hcsum.
  induction 1 as [s|s s1 s' Hq _ IH]; intros (Hs & Hc & Hu & Ho); [done|]. apply IH. pose proof (sound_ok s Hs) as Hok.
  destruct (quiet_sound s s1 (rtc_once _ _ Hq) Hs) as [Hs1 Et]. injection Et as Ec Ei _. split; [done|]. split; [by rewrite Ec|]. split.
  - apply (leaves_kept csum Hcsum (As16 a) s); [|done..]. destruct Hq as (l & Hst & Hl). exists l. split; [done|]. intros El. destruct (Hl El) as [Et E].
    injection Et as Et _ _. by rewrite E.
  - unfold own. by rewrite Ei.
Qed.

Lemma works_ops hosts entries cur hosts4 hosts6 s1 : h ∈ hosts → works s1 →
  planned ranges hosts (readVirtualIPs (k_vip_ip_host s1)) entries hosts4 hosts6 →
  ops_keep works (readVirtualIPs (k_vip_ip_host s1)) entries cur hosts4 hosts6.
Proof using Hcsum Hranges Hname Hgood Hin.
  intros Hh (Hs1 & _ & _ & Ho1) Hp. pose proof (sound_ops _ _ _ entries cur _ _ Hp) as [S1 S2 S3 S4 S5].
  destruct (own_planned _ _ _ _ _ h a s1 Hp (proj2 Hs1) Ho1 Hgood Hh Hname) as (Ex & e & Ee & Eh & Ev & Hu); [by exists (V4 ranges)|].
  split.
  - intros g s Hg (Hs & Hc & Hus & Ho). split; [by apply S1|done].
  - intros b s Hb Eb (Hs & Hc & Hus & Ho). split; [by apply S2|]. split; [done|]. split; [done|]. apply own_delete; try done; [|congruence].
    destruct Hb as [eb Hb]. by destruct (read_ips_ok _ b eb (proj2 Hs1) Hb).
  - intros k s Hk (Hs & Hc & Hus & Ho). split; [by apply S3|]. split; [done|]. split; [|done].
    destruct Hus as (up & Eu & Hl). exists up. split; [|done]. cbn [setter k_vip_upstream]. rewrite lookup_delete_ne; [done|].
    intros ->. destruct Hgood as [_ Ef]. unfold leads_on in Hk. rewrite Ef, Ee, Ex in Hk. cbn in Hk. by rewrite Eh, bool_decide_eq_true_2 in Hk.
  - intros b e' s Eb Hne (Hs & Hc & Hus & Ho). split; [by apply (S4 b e')|]. split; [done|]. split; [done|].
    assert (Hba : b ≠ a). { intros ->. rewrite Ee in Eb. injection Eb as <-. apply Hne. by rewrite Ex, Ev. }
    apply own_write; try done; [by apply (pl_ok _ _ _ _ _ _ Hp)|]. intros Hf. by apply (Hu b).
  - intros g v h4 h6 s H4 H6 Hv (Hs & Hc & Hus & Ho). split; [by apply (S5 g v h4 h6)|done].
Qed.
End Kept.

(** *** Runs of the system with its controller *)

(** A sync from [s], and the states at its end and at each of its operations. *)
Definition start (s : kst) : ctl := {| c_state := s; c_ops := 0; c_failed := 0; c_trace := [] |}.
Definition moments (c : ctl) : list kst := c_state c :: c_trace c.

(** Between two operations of a sync, and between two syncs. *)
Definition around (env : nat → kst → kst) : Prop := ∀ n s, rtc quiet s (env n s).

Section Sync.
Context (ranges : VirtualIPRanges) (Hranges : ranges_ok ranges).

Lemma sync_runs (J R : kst → Prop) env fails seen hosts now : stable env J → (∀ s, J s → R s) → (∀ s, J s → sound s) → names hosts → now_ok now →
  (∀ s1 entries cur hosts4 hosts6, J s1 → planned ranges hosts (readVirtualIPs (k_vip_ip_host s1)) entries hosts4 hosts6 →
    ops_keep J (readVirtualIPs (k_vip_ip_host s1)) entries cur hosts4 hosts6) →
  runs R J (sync env fails seen ranges hosts now) (λ _, J).
Proof using Hranges.
  intros HJ HR Hsound Hn Hnow Hops. apply (sync_keeps env fails seen J R HJ HR). intros s1 s2 H1 H2. cbv zeta. pose proof (proj2 (Hsound s1 H1)) as Hw.
  pose proof (sync_planned ranges hosts (readVirtualIPs (k_vip_ip_host s1)) now Hranges Hn Hnow
    (λ a e, read_ips_ok _ a e Hw) (read_ips_size _ Hw)) as Hp.
  destruct (planVirtualIPRanges _ _ _ _ _ _) as [p4 p6]. by apply Hops.
Qed.

Lemma sync_holds (J : kst → Prop) env fails seen hosts now s : stable env J → (∀ s, J s → sound s) → names hosts → now_ok now →
  (∀ s1 entries cur hosts4 hosts6, J s1 → planned ranges hosts (readVirtualIPs (k_vip_ip_host s1)) entries hosts4 hosts6 →
    ops_keep J (readVirtualIPs (k_vip_ip_host s1)) entries cur hosts4 hosts6) →
  J s → Forall J (moments (snd (sync env fails seen ranges hosts now (start s)))).
Proof using Hranges.
  intros HJ Hsound Hn Hnow Hops Hs. destruct (sync_runs J J env fails seen hosts now HJ (λ _ H, H) Hsound Hn Hnow Hops (start s) Hs (Forall_nil_2 _)) as [H1 H2].
  by apply Forall_cons_2.
Qed.

(** A moment of the system's life while [h] is watched: a step of the system, or a
    sync, done or not (the controller may die and start again). *)
Inductive lives (h : bytes) (s s' : kst) : Prop :=
  | live_step : quiet s s' → lives h s s'
  | live_sync env fails seen hosts now : around env → names hosts → now_ok now → h ∈ hosts →
      s' ∈ moments (snd (sync env fails seen ranges hosts now (start s))) → lives h s s'.

Lemma lives_works h w cfg s s' : name h → good (IPv4 w) → Contains (V4 ranges) (IPv4 w) = true →
  rtc (lives h) s s' → works h w cfg s → works h w cfg s'.
Proof using Hcsum Hranges.
  intros Hn Hg Hin. induction 1 as [s|s s1 s' Hl _ IH]; intros Hs; [done|]. apply IH. clear IH s'. destruct Hl as [Hq|env fails seen hosts now He Hns Hnow Hh Hin1].
  - apply (quiet_works h w cfg s); [by apply rtc_once|done].
  - assert (H : Forall (works h w cfg) (moments (snd (sync env fails seen ranges hosts now (start s))))); [|by rewrite Forall_forall in H; apply H].
    apply sync_holds; try done.
    + intros n s2 Hs2. by apply (quiet_works h w cfg s2).
    + by intros s2 [? _].
    + intros s2 entries cur h4 h6 Hs2 Hp. by apply (works_ops ranges h w cfg Hranges Hn Hg Hin hosts entries cur h4 h6 s2).
Qed.
End Sync.

End Steps.

(** C16: a fake IP a pod was given works as long as its host is watched: after an answer
    that gave a pod the fake IPv4 of [h] with a real address, and whatever runs then:
    programs, evictions, updates of other tables, and any number of syncs of hosts
    that [h] is one of, whichever of their operations fail and wherever the controller
    dies, at each moment a connect to it is redirected to a real address recorded. *)
Theorem fake_ip_survives_syncs {go : GoOrder} csum ranges t p s s1 p' h w s2 t' ctx : csum_updates csum →
  ranges_ok ranges → 0 < p_bits (V4 ranges) → k_vip_config s = vipConfig ranges →
  reachable csum s → call_ok (Tc_dns t p) → s1 = run csum (Tc_dns t p) s → given t s p s1 p' (As16 (IPv4 w)) →
  ip_ok (IPv4 w) → name h → ips_wf (k_vip_ip_host s1) → own h (IPv4 w) s1 →
  rtc (lives csum ranges h) s1 s2 → task_ok t' → ctx_ok ctx → dst4 ctx = As16 (IPv4 w) →
  ∃ ctx' s3, vip_connect4 t' ctx s2 = ((1, ctx'), s3) ∧ target t' s2 (As16 (IPv4 w)) (dst4 ctx').
Proof.
  intros Hf Hr Hb Hcfg Hs Hc E1 Hg Hw Hn Hwf Ho Hl Ht Hctx Ed.
  destruct (given_state csum t p s s1 p' _ Hf Hs Hc E1 Hg) as (Hs1 & Hus & Hin).
  assert (Hr1 : reachable csum s1) by (apply (reach_step csum s (Program (Tc_dns t p))); [done|by split]).
  assert (Ec : k_vip_config s1 = vipConfig ranges).
  { rewrite <- Hcfg, E1. apply (reachable_ok csum s Hf) in Hs. destruct (program_kept csum Hf _ s Hc Hs) as [E _]. exact (f_equal (λ x, x.1.1) E). }
  rewrite Ec in Hin. pose proof (good4 w Hw) as Hgd. rewrite config_range in Hin by done.
  destruct (lives_works csum Hf ranges Hr h w (vipConfig ranges) s1 s2 Hn Hgd Hin Hl) as (Hs2 & Ec2 & Hus2 & Ho2 & _); [by split|].
  rewrite <- Ed in *. apply usable_connects; try done; [by apply (sound_ok csum Hf)|].
  rewrite Ec2, Ed, config_range by done. exact Hin.
Qed.

(** *** A run *)

(** 240.0.0.0/8; another host is watched too, and every second operation fails while
    a process closes a socket before each. *)
Definition sample_name : bytes := [97; 98; 46; 99].
Definition sample_hosts : gset bytes := {[sample_name; host_a]}.
Definition sample_env (n : nat) (s : kst) : kst := run kernel_csum (Enter_close (task_with 0 []) 4) s.
Definition sample_fails (o : op) (n : nat) : bool := match o with Read => false | _ => Nat.odd n end.
Definition sample_sync : ctl := snd (sync sample_env sample_fails (λ _, 0%nat) sample_ranges sample_hosts sample_now (start sample_given)).

Lemma sample_around : around kernel_csum sample_env.
Proof.
  intros n s. apply rtc_once. exists (Program (Enter_close (task_with 0 []) 4)). split; [by split|done].
Qed.

Lemma sample_names : names sample_hosts.
Proof.
  intros h Hh. apply elem_of_union in Hh as [->%elem_of_singleton| ->%elem_of_singleton];
    (split; [done|split; [cbn; lia|repeat constructor; lia]]).
Qed.

Lemma sample_given_ips : k_vip_ip_host sample_given = {[As16 (IPv4 0xF0000001) := vipIPValue (active sample_name)]}.
Proof. vm_compute. reflexivity. Qed.

Lemma sample_name_ok : name sample_name.
Proof. split; [done|split; [cbn; lia|repeat constructor; lia]]. Qed.

Lemma sample_ips_wf : ips_wf (k_vip_ip_host sample_given).
Proof.
  rewrite sample_given_ips. split; [unfold fits; rewrite map_size_singleton; vm_compute; congruence|]. intros k v [<- <-]%lookup_singleton_Some. exists (IPv4 0xF0000001), (active sample_name).
  split; [done|]. split; [done|]. split; [by apply good4|]. split; [apply sample_name_ok|done].
Qed.

Lemma sample_own : own sample_name (IPv4 0xF0000001) sample_given.
Proof.
  unfold own. rewrite sample_given_ips. split; [apply lookup_singleton_eq|]. intros b e Hb _ [Hg _] [E _]%lookup_singleton_Some.
  destruct Hb. symmetry. by apply as16_inj in E; [|apply good4|].
Qed.

Lemma sample_given_reachable : reachable kernel_csum sample_given.
Proof.
  apply (reach_step _ sample_system (Program sample_answer)); [|split; [apply sample_calls_ok|done]].
  apply (reach_step _ kst_init System.Update); [constructor|apply sample_updates].
Qed.

Lemma sample_time : now_ok sample_now.
Proof. split; vm_compute; congruence. Qed.

Lemma fake_ip_survives_syncs_witness : c_failed sample_sync = 1%nat ∧
  ∃ ctx' s3, vip_connect4 (task_with 0 []) sample_ctx (c_state sample_sync) = ((1, ctx'), s3) ∧
    target (task_with 0 []) (c_state sample_sync) (As16 (IPv4 0xF0000001)) (dst4 ctx').
Proof.
  split; [vm_compute; reflexivity|].
  apply (fake_ip_survives_syncs kernel_csum sample_ranges (task_with 0 []) sample_packet sample_system sample_given sample_packet' sample_name).
  - apply kernel_csum_updates.
  - apply sample_ranges_ok.
  - reflexivity.
  - reflexivity.
  - apply (reach_step _ kst_init System.Update); [constructor|apply sample_updates].
  - apply sample_calls_ok.
  - reflexivity.
  - apply sample_is_given.
  - split; [vm_compute; congruence|reflexivity].
  - apply sample_name_ok.
  - apply sample_ips_wf.
  - apply sample_own.
  - apply rtc_once. apply (live_sync _ _ _ _ _ sample_env sample_fails (λ _, 0%nat) sample_hosts sample_now);
      [apply sample_around|apply sample_names|apply sample_time| |by left]. apply elem_of_union. left. by apply elem_of_singleton.
  - apply sample_task_ok.
  - apply sample_ctx_ok.
  - reflexivity.
Defined.

End Live.
