(* ===== verification/VipHome.v ===== *)
(** * Whose addresses a fake IP leads to

    [Home]: vip_upstream holds, for the fake IP of a host, addresses that the
    resolver gave for that host, as long as vip_host_ip and vip_ip_host agree on
    whose fake IP it is. Here: what the programs and the kernel do to that. *)

From S2P Require Import Prelude Host GF128 Sni Dns VipAddr State Hooks Packet Vip VipHooks DnsRewrite StateType Keeps.
From S2P Require Import InvSend InvTc System Progress VipPlan VipReserve VipSync VipSyncFacts VipLive.
#[local] Open Scope Z_scope.

Module Home.
Import NetIP Host.Host Dns DnsMsg DnsFacts DnsAnswers Sni.Hello Types Kernel Hooks.Hooks ConnectFacts Skb Vip.Vip VipAddr VipFacts HooksFacts Keeps StateType.
Import Csums RewriteFacts InvSend.InvVip System VipProgress Sync Values Live.

(** *** Fake IPs that lead back *)

Definition gives (six : bool) (v : vip_host_val) : Prop := if six then vh_ip6 v ≠ zeros 16 else vh_ip4 v ≠ zeros 4.

(** The fake IPs in the value [v] of [h] are reserved for [h], and not retired. *)
Definition leads_back (I : gmap addr16 vip_ip_val) (h : bytes) (v : vip_host_val) : Prop :=
  ∀ six, gives six v → ∃ iv, I !! fake_of six v = Some iv ∧ vi_host iv = vipHostKey h ∧ vi_flags iv = 0.
Definition resolves (H : gmap bytes vip_host_val) (I : gmap addr16 vip_ip_val) : Prop :=
  ∀ k v, H !! k = Some v → ∃ h, name h ∧ k = vipHostKey h ∧ leads_back I h v.

(** No host's answers are given the fake IP [k]. *)
Definition unpublished (H : gmap bytes vip_host_val) (k : addr16) : Prop :=
  ∀ g v six, H !! g = Some v → gives six v → fake_of six v ≠ k.

(** *** The slots after recording *)

Lemma record_from up ip e sl : upstream_ok up → addr ip → 0 ≤ e < 2 ^ 64 → sl ∈ vip_upstream_record up ip e → live sl →
  slot_ip sl = ip ∨ ∃ sl0, sl0 ∈ up ∧ live sl0 ∧ slot_ip sl0 = slot_ip sl.
Proof.
  intros Hok Ha He Hin Hl. pose proof (record_cases up ip e Hok Ha He) as H. cbv zeta in H.
  assert (Hput : ∀ i x, sl ∈ <[i := {| slot_ip := ip; expires_at := x |}]> up → slot_ip sl = ip ∨ ∃ sl0, sl0 ∈ up ∧ live sl0 ∧ slot_ip sl0 = slot_ip sl).
  { intros i x [j Hj]%list_elem_of_lookup. apply list_lookup_insert_Some in Hj as [(_ & <- & _)|[_ Hj]]; [by left|].
    right. exists sl. split; [by eapply list_elem_of_lookup_2|done]. }
  destruct H as [[_ E]|(_ & _ & i & s & _ & [(_ & _ & E)|(_ & _ & E)])]; rewrite E in Hin; [right; by exists sl|by eapply Hput..].
Qed.

Lemma record_all_from now six rs sl : live sl → ∀ up, upstream_ok up → Forall (λ r, addr (vip_record_addr r six)) rs →
  sl ∈ record_all now six rs up → (∃ r, r ∈ rs ∧ slot_ip sl = vip_record_addr r six) ∨ ∃ sl0, sl0 ∈ up ∧ live sl0 ∧ slot_ip sl0 = slot_ip sl.
Proof.
  intros Hl. induction rs as [|r rs IH]; intros up Hok Hr Hin; [right; by exists sl|]. apply Forall_cons in Hr as [Ha Hr].
  change (record_all now six (r :: rs) up) with (record_all now six rs
    (vip_upstream_record up (vip_record_addr r six) (u64 (now + (if 0x7FFFFFFF <? rec_ttl r then 0 else rec_ttl r) * 1000000000)))) in Hin.
  pose proof (u64_range (now + (if 0x7FFFFFFF <? rec_ttl r then 0 else rec_ttl r) * 1000000000)) as He.
  apply IH in Hin as [(r' & Hx & E)|(sl1 & Hx & Hl1 & E1)]; [left; exists r'; by split; [right|]| |by apply record_keeps_ok|done].
  apply record_from in Hx as [E|(sl0 & H0 & Hl0 & E0)]; try done; [left; exists r; split; [left|congruence]|].
  right. exists sl0. split_and!; congruence.
Qed.

Section Home.
(** Which addresses are a host's, by its key in the maps. *)
Context (own_addr : bytes → addr16 → Prop).

(** The addresses kept for a reserved fake IP are its host's. *)
Definition true_to (s : kst) : Prop := ∀ k iv up sl, k_vip_ip_host s !! k = Some iv → k_vip_upstream s !! k = Some up →
  sl ∈ up → live sl → own_addr (vi_host iv) (slot_ip sl).

(** The answers of a trusted resolver for a host hold addresses of it. *)
Definition truthful (c : call) (s : kst) : Prop :=
  match c with
  | Tc_dns t p => ∀ h udp six ls hv rrs r, dns_ip p (dns_l3_off p) = Some h → dns_udp p h = Some udp → fst (dns_server_trusted (d_src h) s) = true →
      asked s (d_pod h) (message s p h (u16_at udp 4 - 8)) (u16_at udp 4 - 8) six ls hv rrs →
      r ∈ listed (addr_type six) (answers_at ls) rrs → own_addr (pad_host (text ls)) (vip_record_addr r six)
  | _ => True
  end.

Context (csum : skb → Z → Z → Z → option skb) (Hcsum : csum_updates csum).

(** A step that leaves the tables of the fake IPs alone, its answers truthful. *)
Definition honest (s s' : kst) : Prop := ∃ l, step csum s l s' ∧
  (l = System.Update → vip_tables s' = vip_tables s ∧ k_vip_upstream s' = k_vip_upstream s) ∧ ∀ c, l = Program c → truthful c s.

Lemma honest_quiet s s' : honest s s' → quiet csum s s'.
Proof using. intros (l & Hst & Hu & _). by exists l. Qed.

(** The values a host without fake IPs has are no fake IPs. *)
Definition unspecified_out (cfg : vip_config_val) : Prop := ∀ six, vip_addr_in_range cfg (fake_of six no_ips) = false.

Lemma in_range_gives cfg six v : unspecified_out cfg → vip_addr_in_range cfg (fake_of six v) = true → gives six v.
Proof using. intros Hz Hr. specialize (Hz six). destruct six; cbn [gives fake_of no_ips vh_ip4 vh_ip6] in *; congruence. Qed.

(** What a step does to vip_upstream: records addresses of a host under its fake IP. *)
Lemma honest_upstream s s' : honest s s' → kst_ok s → k_vip_upstream s' = k_vip_upstream s ∨
  ∃ six k hv up, k_vip_host_ip s !! k = Some hv ∧ vip_addr_in_range (k_vip_config s) (fake_of six hv) = true ∧
    k_vip_upstream s' = <[fake_of six hv := up]> (k_vip_upstream s) ∧
    ∀ sl, sl ∈ up → live sl → own_addr k (slot_ip sl) ∨ ∃ up0 sl0, k_vip_upstream s !! fake_of six hv = Some up0 ∧ sl0 ∈ up0 ∧ live sl0 ∧ slot_ip sl0 = slot_ip sl.
Proof using Hcsum.
  intros (l & Hst & Hu & Ht) Hs. destruct l as [c| | |]; cbn [step] in Hst; [|left; by destruct Hst|left; by destruct Hst|left; by apply Hu].
  destruct Hst as [Hc ->]. destruct (program_part csum c s) as [(t & p & ->)|E]; [|left; exact (f_equal fst E)].
  specialize (Ht _ eq_refl). destruct Hc as [_ Hp]. destruct (ok_dns_msg s Hs) as [L B]. cbn [run truthful] in *.
  destruct (rewrite_records csum t p s Hp B L) as [E|(h & udp & six & ls & hv & rrs & Eh & Eu & Etr & Ha & Hlaid & E)]; [by left|]. right.
  exists six, (pad_host (text ls)), hv. eexists. split; [by apply (as_host _ _ _ _ _ _ _ _ Ha)|]. split; [by apply (as_fake _ _ _ _ _ _ _ _ Ha)|]. split; [exact E|].
  intros sl Hin Hl. set (rs := real_records _ _ _) in *.
  assert (Hf : Forall (rec_real (k_vip_config s) (fake_of six hv) six) rs).
  { eapply real_recs; [done| |exact Hlaid]. intros ->. by apply (ok_hosts s Hs _ _ (as_host _ _ _ _ _ _ _ _ Ha)). }
  apply record_all_from in Hin as [(r & Hr & ->)|(sl0 & H0 & Hl0 & E0)]; try done.
  - left. apply (Ht h udp six ls hv rrs r); try done. unfold rs, real_records in Hr. apply list_elem_of_In, filter_In in Hr as [Hr _]. by apply list_elem_of_In.
  - right. destruct (k_vip_upstream s !! fake_of six hv) as [up0|]; [by exists up0, sl0|]. cbn [default from_option id] in H0.
    unfold vip_upstream_zero in H0. by apply elem_of_replicate in H0 as [-> _].
  - destruct (k_vip_upstream s !! fake_of six hv) as [up0|] eqn:Eup; [apply (ok_up s Hs _ _ Eup)|apply (zero_ok (k_vip_config s) (fake_of six hv))].
  - eapply Forall_impl; [exact Hf|]. by intros r [? _].
Qed.

(** While the maps lead back, the addresses stay true to their hosts, and a fake IP of
    no host gets none. *)
Definition clean (C : addr16 → Prop) (s : kst) : Prop :=
  unspecified_out (k_vip_config s) ∧ true_to s ∧ ∀ k, C k → k_vip_upstream s !! k = None.

Lemma honest_clean C s s' : honest s s' → kst_ok s → resolves (k_vip_host_ip s) (k_vip_ip_host s) → (∀ k, C k → unpublished (k_vip_host_ip s) k) →
  clean C s → clean C s'.
Proof using Hcsum.
  intros Hh Hs Hr Hc (Hz & Ht & Hn). pose proof (quiet_tables csum Hcsum s s' Hs (honest_quiet s s' Hh)) as Et. injection Et as Ec Ei Eh.
  unfold clean, true_to. rewrite Ec, Ei. destruct (honest_upstream s s' Hh Hs) as [->|(six & k & hv & up & Ek & Er & -> & Hup)]; [done|].
  pose proof (in_range_gives _ _ _ Hz Er) as Hg. destruct (Hr k hv Ek) as (h & _ & -> & Hb). destruct (Hb six Hg) as (iv & Eiv & Ev & _).
  split; [done|]. split.
  - intros k' iv' up' sl Ek' [[<- <-]|[_ Eu]]%lookup_insert_Some Hin Hl; [|by apply (Ht k' iv' up' sl)].
    rewrite Eiv in Ek'. injection Ek' as <-. rewrite Ev. destruct (Hup sl Hin Hl) as [?|(up0 & sl0 & E0 & H0 & Hl0 & <-)]; [done|].
    rewrite <- Ev. by apply (Ht (fake_of six hv) iv up0 sl0).
  - intros k' Hk'. rewrite lookup_insert_ne; [by apply Hn|]. by apply (Hc k' Hk' (vipHostKey h) hv six).
Qed.

(** A change of the maps that only takes entries away. *)
Lemma clean_shrink (C C' : addr16 → Prop) s s' : clean C s → k_vip_config s' = k_vip_config s → k_vip_ip_host s' ⊆ k_vip_ip_host s →
  k_vip_upstream s' ⊆ k_vip_upstream s → (∀ k, C' k → C k ∨ k_vip_upstream s' !! k = None) → clean C' s'.
Proof using.
  intros (Hz & Ht & Hn) Ec Hi Hu HC. split; [by rewrite Ec|]. split.
  - intros k iv up sl Ei Eu. apply (Ht k iv up sl); by eapply lookup_weaken.
  - intros k Hk. destruct (HC k Hk) as [H|H]; [|done]. by eapply lookup_weaken_None; [apply Hn|].
Qed.
End Home.
End Home.
