(* ===== verification/VipOrder.v ===== *)
(** * The order of a sync's writes (pkg/ebpf/virtual_ip_linux.go)

    [Order]: as long as no delete fails, every fake IP that vip_host_ip holds leads
    back to its host in vip_ip_host, at every moment of a sync; and when nothing
    fails and there is room, the maps read back as the plan once it is done. On request
    ([tracked]) the same run keeps the addresses recorded true to their hosts: a sync
    prunes those of an IP before it gives the IP to another host. *)

From S2P Require Import Prelude Host GF128 Sni Dns VipAddr State Hooks Packet Vip VipHooks DnsRewrite StateType Keeps.
From S2P Require Import InvSend InvTc System Progress VipPlan VipReserve VipSync VipSyncFacts VipLive VipHome.
From stdpp Require Import sorting.
#[local] Open Scope Z_scope.

Module Order.
Import NetIP Plan FreeFacts Reserve Host.Host Types Kernel Hooks.Hooks ConnectFacts Skb Vip.Vip VipAddr VipFacts HooksFacts Keeps StateType.
Import Csums RewriteFacts InvSend.InvVip System VipProgress Sync Values Config SyncLogic Reads Live Home.

Lemma elem_of_keys_snoc {A B} (l : list (A * B)) x y z : z ∈ (l ++ [(x, y)]).*1 ↔ z ∈ l.*1 ∨ z = x.
Proof. rewrite fmap_app, elem_of_app. cbn [fmap list_fmap fst]. by rewrite list_elem_of_singleton. Qed.

(** *** Rules for the operations *)

Section Rules.
Context {go : GoOrder} (csum : skb → Z → Z → Z → option skb) (Hcsum : csum_updates csum).
(** Whether the addresses recorded are followed too, and whose they are. *)
Context (tracked : Prop) (own_addr : bytes → addr16 → Prop).
Context (env : nat → kst → kst) (fails : op → nat → bool) (seen : nat → nat).
Context (Henv : around csum env) (Hdel : ∀ n, fails Delete n = false) (Hhon : tracked → ∀ n s, rtc (honest own_addr csum) s (env n s)).

Definition none : addr16 → Prop := λ _, False.
(** A sound state; no addresses are recorded for the fake IPs in [C]. *)
Definition steady (C : addr16 → Prop) (s : kst) : Prop := sound csum s ∧ (tracked → clean own_addr C s).
(** A statement about the two maps, in a steady state. *)
Definition at_ (C : addr16 → Prop) (Φ : gmap bytes vip_host_val → gmap addr16 vip_ip_val → Prop) (s : kst) : Prop :=
  steady C s ∧ Φ (k_vip_host_ip s) (k_vip_ip_host s).
(** The maps lead back, and never to [C]. *)
Definition tidy (C : addr16 → Prop) (s : kst) : Prop :=
  resolves (k_vip_host_ip s) (k_vip_ip_host s) ∧ ∀ k, C k → unpublished (k_vip_host_ip s) k.
Definition safe : kst → Prop := at_ none resolves.

Lemma tidy_none s : resolves (k_vip_host_ip s) (k_vip_ip_host s) → tidy none s.
Proof using. by split. Qed.

Lemma steady_weaken (C C' : addr16 → Prop) s : (∀ k, C' k → C k) → steady C s → steady C' s.
Proof using. intros HC [Hs Hc]. split; [done|]. intros Ht. apply (clean_shrink own_addr C C' s s); auto. Qed.

Lemma steady_stable C n s : steady C s → tidy C s → steady C (env n s) ∧ vip_tables (env n s) = vip_tables s.
Proof using Hcsum Henv Hhon.
  intros [Hs Hc] Htd. destruct (quiet_sound csum Hcsum _ _ (Henv n s) Hs) as [Hs' E]. split; [|done]. split; [done|]. intros Ht. specialize (Hc Ht).
  clear Hs' E. specialize (Hhon Ht n s). induction Hhon as [s|s s1 s2 Hh _ IH]; [done|]. pose proof (sound_ok csum Hcsum s Hs) as Hok.
  destruct (quiet_sound csum Hcsum s s1 (rtc_once _ _ (honest_quiet _ _ _ _ Hh)) Hs) as [Hs1 E]. injection E as _ E1 E2.
  apply IH; [done| |split; [rewrite E1, E2|rewrite E2]; apply Htd]. by apply (honest_clean own_addr csum Hcsum C s s1 Hh Hok); [apply Htd..|].
Qed.

Lemma at_stable C Φ : (∀ s, at_ C Φ s → tidy C s) → stable env (at_ C Φ).
Proof using Hcsum Henv Hhon.
  intros HR n s Hs. pose proof (HR s Hs) as Ht. destruct Hs as [Hs H]. destruct (steady_stable C n s Hs Ht) as [Hs' E]. split; [done|]. injection E as _ E1 E2. by rewrite E1, E2.
Qed.

Lemma at_safe C Φ s : (∀ s, at_ C Φ s → tidy C s) → at_ C Φ s → safe s.
Proof using. intros HR Hs. pose proof (HR s Hs) as [Hr _]. split; [|done]. by apply (steady_weaken C none); [|apply Hs]. Qed.

Abbreviation runs_ C Φ m C' Φ' := (runs safe (at_ C Φ) m (λ x, at_ C' (Φ' x))).

(** [f] takes entries away, of the addresses those of [C'] that are not in [C]. *)
Definition takes_away (C C' : addr16 → Prop) (f : kst → kst) : Prop := ∀ s, (sound csum s → sound csum (f s)) ∧
  k_vip_config (f s) = k_vip_config s ∧ k_vip_ip_host (f s) ⊆ k_vip_ip_host s ∧ k_vip_upstream (f s) ⊆ k_vip_upstream s ∧
  ∀ k, C' k → C k ∨ k_vip_upstream (f s) !! k = None.

Lemma rule_delete C C' (f : kst → kst) Φ Φ' : takes_away C C' f → (∀ s, at_ C Φ s → tidy C s) →
  (∀ s, at_ C Φ s → Φ' (k_vip_host_ip (f s)) (k_vip_ip_host (f s)) ∧ resolves (k_vip_host_ip (f s)) (k_vip_ip_host (f s))) →
  runs_ C Φ (map_delete env fails f) C' (λ _, Φ').
Proof using Hcsum Henv Hdel Hhon.
  intros Hsf HR Hf. assert (Hst : ∀ s, steady C s → steady C' (f s)).
  { intros s [Hs Hc]. destruct (Hsf s) as (H1 & H2 & H3 & H4 & H5). split; [by apply H1|]. intros Ht. by apply (clean_shrink own_addr C C' s); [apply Hc|..]. }
  apply runs_op; [by apply at_stable| | |by intros n s _; rewrite Hdel].
  - intros s. by apply at_safe.
  - intros s Hs. destruct (Hf s Hs) as (H1 & H2). pose proof (Hst s (proj1 Hs)) as H3. split; [done|]. split; [|done]. by apply (steady_weaken C' none).
Qed.

Lemma rule_update C (f : kst → bool * kst) Φ Φ' : (∀ s, at_ C Φ s → tidy C s) →
  (∀ s, at_ C Φ s → fst (f s) = true → steady C (snd (f s)) ∧ Φ' (Some ()) (k_vip_host_ip (snd (f s))) (k_vip_ip_host (snd (f s))) ∧
    resolves (k_vip_host_ip (snd (f s))) (k_vip_ip_host (snd (f s)))) →
  (∀ s, at_ C Φ s → (∃ n, fails Sync.Update n = true) ∨ fst (f s) = false → Φ' None (k_vip_host_ip s) (k_vip_ip_host s)) →
  runs_ C Φ (map_update env fails f) C Φ'.
Proof using Hcsum Henv Hhon.
  intros HR Hok Hno. apply runs_op; [by apply at_stable| | |].
  - intros s. by apply at_safe.
  - intros s Hs. specialize (Hok s Hs). specialize (Hno s Hs). destruct (f s) as [[] s']; cbn [fst snd] in *.
    + destruct (Hok eq_refl) as (? & ? & ?). split; [done|]. split; [|done]. by apply (steady_weaken C none).
    + split; [apply Hs|]. apply Hno. by right.
  - intros n s Hs Hn. split; [apply Hs|]. apply (Hno s Hs). left. by exists n.
Qed.

(** A loop: [f] takes the invariant from each prefix to the next. *)
Lemma rule_each {A X} (C : list X → addr16 → Prop) (Φ : list X → A → _ → _ → Prop) (f : A → X → Sync.C A) l a :
  (∀ dn x rest a, l = dn ++ x :: rest → runs_ (C dn) (Φ dn a) (f a x) (C (dn ++ [x])) (Φ (dn ++ [x]))) → runs_ (C []) (Φ [] a) (each f l a) (C l) (Φ l).
Proof using. intros H. by apply (runs_each safe (λ dn a, at_ (C dn) (Φ dn a))). Qed.

Lemma rule_skip {A} C Φ (a : A) Φ' : (∀ H I, Φ H I → Φ' a H I) → runs_ C Φ (mret a) C Φ'.
Proof using. intros H. apply runs_ret. intros s [Hs Hp]. split; [done|by apply H]. Qed.
End Rules.

Lemma resolves_keys H I : resolves H I → keys_wf H.
Proof. intros Hr k v E. destruct (Hr k v E) as (h & ? & ? & _). by exists h. Qed.

Lemma active_value e : e_retired e = false → vipIPValue e = vipIPValue (active (e_host e)).
Proof. intros Er. unfold vipIPValue. by rewrite Er. Qed.

Lemma flags_active a e h : entry_ok a e → name h → vi_host (vipIPValue e) = vipHostKey h → vi_flags (vipIPValue e) = 0 → e_host e = h ∧ e_retired e = false.
Proof.
  intros (_ & Hn & _) Hh Ek Ef. split; [by apply host_key_inj|]. cbn [vipIPValue vi_flags] in Ef. by destruct (e_retired e).
Qed.

Lemma drops_false v w six : dropsVirtualIP v w = false → gives six v → gives six w ∧ fake_of six v = fake_of six w.
Proof.
  unfold dropsVirtualIP. intros [H4 H6]%orb_false_iff Hg. destruct six; cbn [gives fake_of] in *.
  - apply andb_false_iff in H6 as [H6|H6]; apply bool_decide_eq_false in H6; [done|]. apply dec_stable in H6. by rewrite <- H6.
  - apply andb_false_iff in H4 as [H4|H4]; apply bool_decide_eq_false in H4; [done|]. apply dec_stable in H4. by rewrite <- H4.
Qed.

Section Sync.
Context {go : GoOrder} (ranges : VirtualIPRanges) (hosts : gset bytes) (H0 : gmap bytes vip_host_val) (I0 : gmap addr16 vip_ip_val).
Context (entries : reservations) (hosts4 hosts6 : gmap bytes ip).
Abbreviation existing := (readVirtualIPs I0).
Abbreviation cur := (readVirtualIPHosts H0).
Abbreviation want := (vipHostVals hosts4 hosts6).
Context (Hplan : planned ranges hosts existing entries hosts4 hosts6) (Hwf : ips_wf I0).

(** The plan has [a] for [h]. *)
Definition planned_for (h : bytes) (a : ip) : Prop := ∃ e, entries !! a = Some e ∧ e_host e = h ∧ e_retired e = false.

Lemma planned_good h a : planned_for h a → good a.
Proof using Hplan. intros (e & Ee & _). by destruct (pl_ok _ _ _ _ _ _ Hplan a e Ee). Qed.

Lemma want_ip h4 h6 h w six : h4 ⊆ hosts4 → h6 ⊆ hosts6 → vipHostVals h4 h6 !! h = Some w → gives six w →
  ∃ a, (if six then h6 else h4) !! h = Some a ∧ fake_of six w = As16 a ∧ Is4 a = negb six ∧ planned_for h a.
Proof using Hplan.
  intros S4 S6 E Hg. rewrite host_vals in E.
  assert (Ew : w = host_val (h4 !! h) (h6 !! h)) by (destruct (h4 !! h), (h6 !! h); congruence).
  assert (Hp : ∀ a, (if six then hosts6 else hosts4) !! h = Some a → Is4 a = negb six ∧ planned_for h a).
  { intros a Ea. assert (Hf : Is4 a = negb six) by (destruct six; [by apply (pl_family6 _ _ _ _ _ _ Hplan h)|by apply (pl_family4 _ _ _ _ _ _ Hplan h)]).
    split; [done|]. apply (pl_active _ _ _ _ _ _ Hplan). rewrite Hf. by destruct six. }
  assert (Hin : ∀ a, (if six then h6 else h4) !! h = Some a → (if six then hosts6 else hosts4) !! h = Some a)
    by (intros a Ea; destruct six; by eapply lookup_weaken).
  subst w. destruct six; cbn [gives host_val fake_of vh_ip4 vh_ip6] in *.
  - destruct (h6 !! h) as [a|]; [|done]. exists a. destruct (Hp a (Hin a eq_refl)). by split_and!.
  - destruct (h4 !! h) as [a|]; [|done]. exists a. destruct (Hp a (Hin a eq_refl)) as [Hf ?]. split_and!; try done. by destruct a.
Qed.

(** A value that is not dropped leads to reservations that do not change. *)
Lemma kept_value h v w six : resolves H0 I0 → name h → H0 !! vipHostKey h = Some v → want !! h = Some w → dropsVirtualIP v w = false → gives six v →
  ∃ a e e0, fake_of six v = As16 a ∧ entries !! a = Some e ∧ e_host e = h ∧ e_retired e = false ∧
    I0 !! As16 a = Some (vipIPValue e) ∧ existing !! a = Some e0 ∧ vipIPValue e0 = vipIPValue e.
Proof using Hplan Hwf.
  intros Hr Hn Ev Ew Hd Hg. destruct (drops_false v w six Hd Hg) as [Hgw Ef]. destruct (want_ip _ _ h w six (reflexivity _) (reflexivity _) Ew Hgw) as (a & _ & Ea & _ & Hp).
  pose proof (planned_good h a Hp) as Hga. destruct Hp as (e & Ee & Eh & Er). destruct (Hr _ _ Ev) as (h' & Hn' & Ek & Hl).
  apply host_key_inj in Ek as <-; [|done|done]. destruct (Hl six Hg) as (iv & Ei & Eki & Efl). rewrite Ef, Ea in Ei.
  destruct (ips_wf_entry I0 _ iv Hwf Ei) as (_ & _ & Hok & Eiv). rewrite <- Eiv in Eki, Efl. destruct (flags_active _ _ h Hok Hn Eki Efl) as [Eh0 Er0].
  assert (E : vipIPValue (vipIPEntry iv) = vipIPValue e) by (rewrite (active_value _ Er0), (active_value _ Er); congruence).
  exists a, e, (vipIPEntry iv). split_and!; try done; [by rewrite Ef| |].
  - by rewrite Ei, <- E, Eiv.
  - apply read_ips; [done|]. by exists iv.
Qed.

(** *** The loops *)

Context (csum : skb → Z → Z → Z → option skb) (Hcsum : csum_updates csum).
Context (env : nat → kst → kst) (fails : op → nat → bool) (seen : nat → nat).
Context (Henv : around csum env) (Hdel : ∀ n, fails Delete n = false) (Hres : resolves H0 I0).
(** An update may fail, or there is room. *)
Context (can_fail : Prop) (Hfail : ∀ n, fails Sync.Update n = true → can_fail).
Context (Hroom : can_fail ∨ fits vip_ip_host_max_entries entries ∧ fits vip_host_ip_max_entries want).
(** The addresses recorded are followed when vip_upstream is read in full. *)
Context (tracked : Prop) (own_addr : bytes → addr16 → Prop) (Hhon : tracked → ∀ n s, rtc (honest own_addr csum) s (env n s)).
Context (Hreads : tracked → ∀ n, fails Read n = false).

Abbreviation safe_ := (safe csum tracked own_addr).
Abbreviation in_ C Φ := (at_ csum tracked own_addr C Φ).
Abbreviation runs_ Φ m Φ' := (runs safe_ (in_ none Φ) m (λ x, in_ none (Φ' x))).

Definition stays (h : bytes) (v : vip_host_val) : bool := match want !! h with Some w => negb (dropsVirtualIP v w) | None => false end.

(** What is left of vip_host_ip when the hosts [dropped] are deleted. *)
Definition left_of (dropped : gset bytes) (H : gmap bytes vip_host_val) : Prop :=
  keys_wf H ∧ ∀ h, name h → H !! vipHostKey h = if decide (h ∈ dropped) then None else H0 !! vipHostKey h.
Definition dropping (dn : list (bytes * vip_host_val)) (dropped : gset bytes) (H : gmap bytes vip_host_val) (I : gmap addr16 vip_ip_val) : Prop :=
  I = I0 ∧ left_of dropped H ∧ (∀ h, h ∈ dropped → name h) ∧ ∀ h v, (h, v) ∈ dn → name h ∧ (h ∈ dropped ∨ stays h v = true).

Lemma left_resolves dropped H : left_of dropped H → resolves H I0.
Proof using Hres.
  intros [Hk Hl] k v E. destruct (Hk k v E) as (h & Hn & ->). exists h. split; [done|]. split; [done|].
  rewrite (Hl h Hn) in E. destruct (decide _); [done|]. destruct (Hres _ _ E) as (h' & Hn' & Ek & Hb). by apply host_key_inj in Ek as <-.
Qed.

Lemma left_drop dropped H h : left_of dropped H → name h → left_of ({[h]} ∪ dropped) (delete (vipHostKey h) H).
Proof using.
  intros [Hk Hl] Hn. split; [intros k v (_ & E)%lookup_delete_Some; by apply (Hk k v)|]. intros g Hg. destruct (decide (g = h)) as [->|Hne].
  - rewrite lookup_delete_eq, decide_True; [done|]. by apply elem_of_union_l, elem_of_singleton.
  - rewrite lookup_delete_ne by (intros E; apply Hne; symmetry; by apply host_key_inj). rewrite (Hl g Hg). apply decide_ext. rewrite elem_of_union, elem_of_singleton. split; [by right|by intros [?|?]].
Qed.

Lemma sound_delete_host h s : sound csum s → sound csum (s <| k_vip_host_ip := delete (vipHostKey h) (k_vip_host_ip s) |>).
Proof using Hcsum Hplan.
  intros Hs. apply (sound_step csum s); [done| |apply Hs]. apply host_update; [by apply (sound_ok csum Hcsum)|].
  intros g v (_ & E)%lookup_delete_Some. by apply (ok_hosts s (sound_ok csum Hcsum s Hs) g).
Qed.

Lemma takes_host C h : takes_away csum C C (λ s, s <| k_vip_host_ip := delete (vipHostKey h) (k_vip_host_ip s) |>).
Proof using Hcsum Hplan. intros s. split; [apply sound_delete_host|]. split_and!; try done. by left. Qed.

Lemma run_drop_hosts : runs_ (λ H I, H = H0 ∧ I = I0) (drop_hosts env fails cur want) (dropping (go_range cur)).
Proof using Hcsum Henv Hdel Hhon Hres Hplan.
  pose proof (resolves_keys _ _ Hres) as Hk0. unfold drop_hosts. eapply runs_impl; [| |apply (rule_each csum tracked own_addr (λ _, none) dropping)].
  - intros s [Hs [EH EI]]. split; [done|]. split; [done|]. rewrite EH. split; [|split; [intros h Hh; by apply elem_of_empty in Hh|intros h v Hx; by apply elem_of_nil in Hx]].
    split; [done|]. intros h _. by rewrite decide_False by apply not_elem_of_empty.
  - done.
  - intros dn [h v] rest dropped E. assert (Ec : (h, v) ∈ go_range cur) by (rewrite E; apply elem_of_app; right; by left).
    apply in_range, read_hosts in Ec as [Hn Ev]; [|done].
    assert (Hstep : ∀ d, dropped ⊆ d → (h ∈ d ∨ stays h v = true) → (∀ g w, (g, w) ∈ dn → name g ∧ (g ∈ dropped ∨ stays g w = true)) →
      ∀ g w, (g, w) ∈ dn ++ [(h, v)] → name g ∧ (g ∈ d ∨ stays g w = true)).
    { intros d Hd Hx Hdn g w. rewrite elem_of_app, list_elem_of_singleton. intros [Hin|[= -> ->]]; [|done]. destruct (Hdn g w Hin) as [? [?|?]]; auto. }
    fold (stays h v). destruct (stays h v) eqn:Es.
    + apply rule_skip. intros H I (-> & Hl & Hnd & Hdn). split_and!; try done. apply Hstep; auto.
    + eapply runs_bind; [|intros r; apply (rule_skip csum tracked own_addr none (dropping (dn ++ [(h, v)]) ({[h]} ∪ dropped))); done].
      apply rule_delete; [done..|apply takes_host| |].
      * intros s (_ & EI & Hl & _). apply tidy_none. rewrite EI. by eapply left_resolves.
      * intros s (Hs & EI & Hl & Hnd & Hdn). cbn [setter k_vip_host_ip k_vip_ip_host]. rewrite EI. pose proof (left_drop dropped _ h Hl Hn) as Hl'.
        split; [|by eapply left_resolves]. split; [done|]. split; [done|]. split.
        -- intros g. rewrite elem_of_union, elem_of_singleton. intros [->|Hg]; [done|by apply Hnd].
        -- apply Hstep; [apply union_subseteq_r|left; by apply elem_of_union_l, elem_of_singleton|done].
Qed.

(** From here on: only hosts whose value stays are left. *)
Definition started (dropped : gset bytes) (H : gmap bytes vip_host_val) : Prop :=
  left_of dropped H ∧ ∀ h v, name h → H !! vipHostKey h = Some v → stays h v = true.

Lemma dropped_started dropped H I : dropping (go_range cur) dropped H I → started dropped H ∧ I = I0.
Proof using Hres.
  intros (EI & Hl & _ & Hdn). split; [split; [done|]|done]. intros h v Hn E. rewrite (proj2 Hl h Hn) in E. destruct (decide _); [done|].
  assert (Hx : (h, v) ∈ go_range cur) by (apply in_range, read_hosts; [by eapply resolves_keys|done]). by destruct (Hdn h v Hx) as [_ [?|?]].
Qed.

(** Reservations that are written as they are. *)
Definition unchanged (I : gmap addr16 vip_ip_val) : Prop := ∀ a e e0, entries !! a = Some e → existing !! a = Some e0 →
  vipIPValue e0 = vipIPValue e → I !! As16 a = Some (vipIPValue e).

Lemma initial_value a e0 : existing !! a = Some e0 → I0 !! As16 a = Some (vipIPValue e0).
Proof using Hwf.
  intros (v & E & _ & ->)%read_ips; [|done]. by destruct (ips_wf_entry I0 _ v Hwf E) as (_ & _ & _ & ->).
Qed.

Lemma stays_leads I h v : unchanged I → name h → H0 !! vipHostKey h = Some v → stays h v = true → leads_back I h v.
Proof using Hplan Hwf Hres.
  unfold stays. intros Hu Hn Ev Hs six Hg. destruct (want !! h) as [w|] eqn:Ew; [|done]. apply negb_true_iff in Hs.
  destruct (kept_value h v w six Hres Hn Ev Ew Hs Hg) as (a & e & e0 & -> & Ee & Eh & Er & _ & Ex & Eq).
  exists (vipIPValue e). split; [by apply (Hu a e e0)|]. cbn [vipIPValue vi_host vi_flags]. by rewrite Eh, Er.
Qed.

Lemma started_old dropped H h v : started dropped H → name h → H !! vipHostKey h = Some v → H0 !! vipHostKey h = Some v ∧ stays h v = true.
Proof using. intros [[_ Hl] Hs] Hn E. split; [|by apply Hs]. rewrite (Hl h Hn) in E. by destruct (decide _). Qed.

Lemma started_resolves dropped H I : started dropped H → unchanged I → resolves H I.
Proof using Hplan Hwf Hres.
  intros Hst Hu k v E. pose proof Hst as [[Hk _] _]. destruct (Hk k v E) as (h & Hn & ->). exists h. split; [done|]. split; [done|].
  destruct (started_old _ _ _ _ Hst Hn E). by apply stays_leads.
Qed.

(** Released: the reservations of the plan, and no others, as they were. *)
Definition releasing (dropped : gset bytes) (dn : list (ip * vipEntry)) (H : gmap bytes vip_host_val) (I : gmap addr16 vip_ip_val) : Prop :=
  started dropped H ∧ ∀ a, good a → I !! As16 a = if decide (a ∈ dn.*1 ∧ entries !! a = None) then None else I0 !! As16 a.

Lemma releasing_unchanged dropped dn H I : releasing dropped dn H I → unchanged I.
Proof using Hwf.
  intros [_ Hi] a e e0 Ee Ex <-. assert (Hg : good a) by (by apply read_ips in Ex as (? & _ & ? & _)).
  rewrite (Hi a Hg), decide_False by (intros [_ ?]; congruence). by apply initial_value.
Qed.

Lemma sound_delete_ip a s : sound csum s → sound csum (s <| k_vip_ip_host := delete (As16 a) (k_vip_ip_host s) |>).
Proof using Hcsum.
  intros Hs. pose proof (sound_ok csum Hcsum s Hs) as Hk. apply (sound_step csum s); [done| |apply ips_wf_delete, Hs].
  apply ip_update; [done|]. by apply all_delete, ok_ip_host.
Qed.

Lemma takes_ip C a : takes_away csum C C (λ s, s <| k_vip_ip_host := delete (As16 a) (k_vip_ip_host s) |>).
Proof using Hcsum. intros s. split; [apply sound_delete_ip|]. split_and!; [done|apply delete_subseteq|done|by left]. Qed.

Lemma run_release dropped : runs_ (λ H I, started dropped H ∧ I = I0) (release_ips env fails existing entries) (λ _, releasing dropped (go_range existing)).
Proof using Hcsum Henv Hdel Hhon Hres Hplan Hwf.
  unfold release_ips. eapply runs_impl; [| |apply (rule_each csum tracked own_addr (λ _, none) (λ dn _, releasing dropped dn))].
  - intros s [Hs [Hst EI]]. split; [done|]. split; [done|]. intros a _. rewrite EI, decide_False; [done|]. intros [Hx _]. by apply elem_of_nil in Hx.
  - done.
  - intros dn [a e] rest [] E. assert (Ex : existing !! a = Some e) by (apply in_range; rewrite E; apply elem_of_app; right; by left).
    assert (Hg : good a) by (by apply read_ips in Ex as (? & _ & ? & _)). destruct (entries !! a) as [e'|] eqn:Ee.
    + apply rule_skip. intros H I [Hst Hi]. split; [done|]. intros b Hb. rewrite (Hi b Hb). apply decide_ext. rewrite elem_of_keys_snoc.
      split; [by intros [? ?]; auto|]. intros [[?| ->] ?]; [done|]. cbn in *. congruence.
    + eapply runs_bind; [|intros r; apply (rule_skip csum tracked own_addr none (releasing dropped (dn ++ [(a, e)]))); done].
      apply rule_delete; [done..|apply takes_ip| |].
      * intros s [_ Hr]. apply tidy_none. eapply started_resolves; [apply Hr|by eapply releasing_unchanged].
      * intros s (Hs & Hst & Hi). cbn [setter k_vip_host_ip k_vip_ip_host].
        assert (Hn : releasing dropped (dn ++ [(a, e)]) (k_vip_host_ip s) (delete (As16 a) (k_vip_ip_host s))).
        { split; [done|]. intros b Hb. destruct (decide (b = a)) as [->|Hne].
          - rewrite lookup_delete_eq, decide_True; [done|]. split; [|done]. apply elem_of_keys_snoc. by right.
          - rewrite lookup_delete_ne by (intros Eq; apply Hne; symmetry; by apply as16_inj). rewrite (Hi b Hb). apply decide_ext.
            rewrite elem_of_keys_snoc. split; [by intros [? ?]; auto|]. by intros [[?|?] ?]. }
        split; [done|]. by eapply started_resolves; [|eapply releasing_unchanged].
Qed.

(** The fake IPs whose recorded addresses are of a host they no longer lead to. *)
Definition stale (k : addr16) : Prop := leads_on existing entries k = false.

Lemma started_unpublished dropped H k : started dropped H → stale k → unpublished H k.
Proof using Hplan Hwf Hres.
  intros Hst Hk g v six E Hg Ef. pose proof Hst as [[Hkw _] _]. destruct (Hkw g v E) as (h & Hn & ->). destruct (started_old _ _ _ _ Hst Hn E) as [Ev Hs].
  unfold stays in Hs. destruct (want !! h) as [w|] eqn:Ew; [|done]. apply negb_true_iff in Hs.
  destruct (kept_value h v w six Hres Hn Ev Ew Hs Hg) as (a & e & e0 & Ea & Ee & _ & _ & Ei & Ex & Eq).
  pose proof (read_ips_ok _ a e0 Hwf Ex) as Hok0. pose proof (pl_ok _ _ _ _ _ _ Hplan a e Ee) as Hok. destruct (value_host _ _ _ _ Hok0 Hok Eq) as [Eh _].
  destruct Hok as [[_ Eu] _]. unfold stale, leads_on in Hk. rewrite <- Ef, Ea, Eu, Ee, Ex in Hk. by rewrite bool_decide_eq_true_2 in Hk.
Qed.

Lemma takes_upstream C C' k : (∀ k', C' k' → C k' ∨ k' = k) → takes_away csum C C' (λ s, s <| k_vip_upstream := delete k (k_vip_upstream s) |>).
Proof using Hcsum.
  intros HC s. split.
  - intros Hs. apply (sound_step csum s); [done| |apply Hs]. apply upstream_update; [by apply (sound_ok csum Hcsum)|apply delete_subseteq].
  - split; [done|]. split; [done|]. split; [apply delete_subseteq|]. intros k' Hk. destruct (HC k' Hk) as [?| ->]; [by left|]. right. apply lookup_delete_eq.
Qed.

(** The keys read: of the other stale fake IPs no addresses are recorded. *)
Lemma run_upstream_keys Φ : (∀ H I, Φ H I → resolves H I) →
  runs safe_ (in_ none Φ) (upstream_keys env fails seen) (λ keys, in_ (λ k, k ∉ keys) Φ).
Proof using Hcsum Henv Hhon Hreads.
  intros HR c Hp Hr. unfold upstream_keys.
  assert (Ht : ∀ s, in_ none Φ s → tidy none s) by (intros s [_ Hs]; by apply tidy_none, HR).
  destruct (runs_op env fails safe_ (in_ none Φ) Read (λ s, Some ((), s)) (λ _, in_ none Φ)
    (at_stable csum Hcsum tracked own_addr env Henv Hhon none Φ Ht) (λ s, at_safe csum tracked own_addr none Φ s Ht)) with (c := c) as [H1 H2]; try done.
  { intros s Hs. split; [done|]. by apply (at_safe csum tracked own_addr none Φ). }
  unfold map_read. destruct (map_op env fails Read _ c) as [r c']. cbn [fst snd] in *. split; [|done]. destruct H1 as [[H1 Hc] HΦ]. split; [|done]. split; [done|].
  intros Htr. destruct (Hc Htr) as (Hz & Ht' & _). split; [done|]. split; [done|]. rewrite (Hreads Htr). intros k Hk. apply eq_None_not_Some. intros [up E].
  apply Hk, list_elem_of_fmap. exists (k, up). split; [done|]. by apply in_range.
Qed.

Lemma run_prune Φ : (∀ H I, Φ H I → resolves H I ∧ ∀ k, stale k → unpublished H k) →
  runs safe_ (in_ none Φ) (pruneUpstreams env fails seen existing entries) (λ _, in_ stale Φ).
Proof using Hcsum Henv Hdel Hhon Hreads.
  intros HR. unfold pruneUpstreams. eapply runs_bind; [apply run_upstream_keys; intros H I Hf; by apply HR|]. intros keys. set (l := List.filter _ keys).
  assert (Hl : ∀ k, stale k → k ∉ l → k ∉ keys).
  { intros k Hk Hn Hx. apply Hn. unfold l. apply list_elem_of_In, filter_In. split; [by apply list_elem_of_In|]. unfold stale in Hk. by rewrite Hk. }
  eapply runs_impl; [| |apply (rule_each csum tracked own_addr (λ dn k, stale k ∧ (k ∉ l ∨ k ∈ dn)) (λ _ _, Φ))].
  - intros s [Hs Hf]. split; [|done]. eapply steady_weaken; [|exact Hs]. intros k [Hk [Hn|Hx]]; [by apply Hl|by apply elem_of_nil in Hx].
  - intros u s [Hs Hf]. split; [|done]. eapply steady_weaken; [|exact Hs]. intros k Hk. split; [done|]. destruct (decide (k ∈ l)); [by right|by left].
  - intros dn k rest [] _. eapply runs_bind; [|intros r; apply (rule_skip csum tracked own_addr _ Φ); done]. apply rule_delete; [done..| | |].
    + apply takes_upstream. intros k' [Hk Hx]. rewrite elem_of_app, list_elem_of_singleton in Hx.
      destruct Hx as [Hx|[Hx| ->]]; [left; split; [done|by left]|left; split; [done|by right]|by right].
    + intros s [_ Hf]. split; [by apply HR|]. intros k' [Hk _]. by apply (HR _ _ Hf).
    + intros s [_ Hf]. cbn [setter k_vip_host_ip k_vip_ip_host]. split; [done|by apply HR].
Qed.

(** Written: of the plan's reservations, those of [dn]; the host of one that could not
    be is no longer in [h4] or [h6]. *)
Record writing (dropped : gset bytes) (dn : list (ip * vipEntry)) (h : gmap bytes ip * gmap bytes ip)
    (H : gmap bytes vip_host_val) (I : gmap addr16 vip_ip_val) : Prop := {
  wr_started : started dropped H;
  wr_hosts : fst h ⊆ hosts4 ∧ snd h ⊆ hosts6 ∧ (can_fail ∨ h = (hosts4, hosts6));
  wr_free : ∀ a, good a → entries !! a = None → I !! As16 a = None;
  wr_entries : ∀ a e, entries !! a = Some e → I !! As16 a = Some (vipIPValue e) ∨ I !! As16 a = I0 !! As16 a ∧
    ((a, e) ∈ dn → can_fail ∧ (if Is4 a then fst h else snd h) !! e_host e = None)
}.

Lemma writing_unchanged dropped dn h H I : writing dropped dn h H I → unchanged I.
Proof using Hwf.
  intros [_ _ _ He] a e e0 Ee Ex Ev. destruct (He a e Ee) as [?|[-> _]]; [done|]. rewrite <- Ev. by apply initial_value.
Qed.
Lemma writing_resolves dropped dn h H I : writing dropped dn h H I → resolves H I.
Proof using Hplan Hwf Hres. intros Hw. eapply started_resolves; [apply Hw|by eapply writing_unchanged]. Qed.

Lemma released_writing dropped H I : releasing dropped (go_range existing) H I → writing dropped [] (hosts4, hosts6) H I.
Proof using Hwf Hplan.
  intros [Hst Hi]. split; [done| | |].
  - cbn [fst snd]. split; [done|]. split; [done|by right].
  - intros a Hg Ee. rewrite (Hi a Hg). destruct (decide _) as [|Hd]; [done|]. destruct (I0 !! As16 a) as [v|] eqn:E; [|done]. destruct Hd. split; [|done].
    apply list_elem_of_fmap. exists (a, vipIPEntry v). split; [done|]. apply in_range, read_ips; [done|]. by exists v.
  - intros a e Ee. right. split; [|intros Hx; by apply elem_of_nil in Hx]. destruct (pl_ok _ _ _ _ _ _ Hplan a e Ee) as [Hg _].
    rewrite (Hi a Hg). by rewrite decide_False by (intros [_ ?]; congruence).
Qed.

Lemma sound_put_ip a e s : entries !! a = Some e → sound csum s →
  sound csum (s <| k_vip_ip_host := snd (hash_update vip_ip_host_max_entries (As16 a) (vipIPValue e) (k_vip_ip_host s)) |>).
Proof using Hcsum Hplan.
  intros Ee Hs. pose proof (pl_ok _ _ _ _ _ _ Hplan a e Ee) as Hok. pose proof (sound_ok csum Hcsum s Hs) as Hk.
  apply (sound_step csum s); [done| |by apply ips_wf_update; [apply Hs|]].
  apply ip_update; [done|]. apply (hash_update_all (λ _ v, ip_host_ok v)); [by apply (ip_value_ok a)|]. by apply ok_ip_host.
Qed.

(** A map without duplicates after [f] is no larger than one that has its images. *)
Lemma size_le {K1 K2 V1 V2} `{Countable K1} `{Countable K2} (f : K1 → K2) (m1 : gmap K1 V1) (m2 : gmap K2 V2) :
  (∀ k v, m1 !! k = Some v → is_Some (m2 !! f k)) → (∀ k k' v v', m1 !! k = Some v → m1 !! k' = Some v' → f k = f k' → k = k') →
  (size m1 ≤ size m2)%nat.
Proof using.
  intros Hin Hinj. rewrite <- !size_dom. transitivity (length (f <$> elements (dom m1))).
  { rewrite length_fmap. unfold size, set_size. cbn. lia. }
  assert (Hnd : NoDup (f <$> elements (dom m1))).
  { apply NoDup_fmap_2_strong; [|apply NoDup_elements]. intros x y [vx Hx]%elem_of_elements%elem_of_dom [vy Hy]%elem_of_elements%elem_of_dom. by eapply Hinj. }
  transitivity (length (elements (dom m2))); [|unfold size, set_size; cbn; lia]. apply submseteq_length, NoDup_submseteq; [done|].
  intros y (x & -> & [v Hx]%elem_of_elements%elem_of_dom)%list_elem_of_fmap. apply elem_of_elements, elem_of_dom. by eapply Hin.
Qed.

(** A new reservation of the plan fits. *)
Lemma ip_room dropped dn h H I a e : writing dropped dn h H I → ips_wf I → entries !! a = Some e →
  fst (hash_update vip_ip_host_max_entries (As16 a) (vipIPValue e) I) = false → can_fail.
Proof using Hroom Hplan.
  intros Hw Hi Ee. destruct Hroom as [?|[Hf _]]; [done|]. unfold hash_update. destruct (bool_decide_reflect (is_Some (I !! As16 a))) as [|Hn]; [done|].
  destruct (Z.ltb_spec (Z.of_nat (size I)) vip_ip_host_max_entries); [done|]. intros _. exfalso. apply eq_None_not_Some in Hn.
  assert (Hk : ∀ k v, I !! k = Some v → k = As16 (From16 k) ∧ good (From16 k)) by (intros k v E; by destruct (ips_wf_entry I k v Hi E) as (? & ? & _)).
  assert (Hs : (size (<[As16 a := vipIPValue e]> I) ≤ size entries)%nat); [|rewrite map_size_insert_None in Hs by done; unfold fits in Hf; lia].
  destruct (pl_ok _ _ _ _ _ _ Hplan a e Ee) as [[_ Ea] _]. apply (size_le From16).
  - intros k v [[<- <-]|[_ E]]%lookup_insert_Some; [rewrite Ea; by eexists|]. destruct (Hk k v E) as [Ek Hg].
    destruct (entries !! From16 k) eqn:En; [by eexists|]. rewrite Ek, (wr_free _ _ _ _ _ Hw _ Hg En) in E. done.
  - assert (Hk' : ∀ k v, <[As16 a := vipIPValue e]> I !! k = Some v → k = As16 (From16 k)).
    { intros k v [[<- _]|[_ E]]%lookup_insert_Some; [by rewrite Ea|by apply (Hk k v)]. }
    intros k k' v v' E%Hk' E'%Hk' Eq. by rewrite E, E', Eq.
Qed.

Lemma hash_update_ok {K V} `{Countable K} max (k : K) (v : V) m : fst (hash_update max k v m) = true → snd (hash_update max k v m) = <[k := v]> m.
Proof using. unfold hash_update. by destruct (_ || _). Qed.

Lemma put_ip_parts a e s : let f := (λ s, let '(ok, m) := hash_update vip_ip_host_max_entries (As16 a) (vipIPValue e) (k_vip_ip_host s) in (ok, s <| k_vip_ip_host := m |>)) in
  fst (f s) = fst (hash_update vip_ip_host_max_entries (As16 a) (vipIPValue e) (k_vip_ip_host s)) ∧
  snd (f s) = s <| k_vip_ip_host := snd (hash_update vip_ip_host_max_entries (As16 a) (vipIPValue e) (k_vip_ip_host s)) |>.
Proof using. cbn zeta beta. by destruct (hash_update _ _ _ _). Qed.

(** One reservation is written, and those that were stay. *)
Lemma writing_put dropped dn h H I a e : writing dropped dn h H I → entries !! a = Some e →
  vipIPValue <$> existing !! a ≠ Some (vipIPValue e) → writing dropped (dn ++ [(a, e)]) h H (<[As16 a := vipIPValue e]> I).
Proof using Hplan.
  intros [W1 W2 W3 W4] Ee Hne. destruct (pl_ok _ _ _ _ _ _ Hplan a e Ee) as [Hg _]. split; [done|done| |].
  - intros b Hb Eb. rewrite lookup_insert_ne; [by apply W3|]. intros Eq. apply as16_inj in Eq as <-; [congruence|done|done].
  - intros b e' Eb. destruct (pl_ok _ _ _ _ _ _ Hplan b e' Eb) as [Hb _]. destruct (decide (b = a)) as [->|Hba].
    + left. rewrite lookup_insert_eq. congruence.
    + rewrite lookup_insert_ne by (intros Eq; apply Hba; symmetry; by apply as16_inj). destruct (W4 b e' Eb) as [?|[? Hd]]; [by left|right].
      split; [done|]. rewrite elem_of_app, list_elem_of_singleton. by intros [?|[= ? ?]]; [apply Hd|].
Qed.

(** It could not be: its host is not given it. *)
Lemma writing_failed dropped dn h4 h6 H I a e : can_fail → writing dropped dn (h4, h6) H I → entries !! a = Some e →
  writing dropped (dn ++ [(a, e)]) (if Is4 a then (delete (e_host e) h4, h6) else (h4, delete (e_host e) h6)) H I.
Proof using.
  intros Hc [W1 (W2 & W2' & _) W3 W4] Ee. cbn [fst snd] in *. split; [done| |done|].
  - split; [|split; [|by left]]; destruct (Is4 a); cbn [fst snd]; try done; (etrans; [apply delete_subseteq|done]).
  - intros b e' Eb. destruct (W4 b e' Eb) as [?|[Ei Hd]]; [by left|right]. split; [done|]. rewrite elem_of_app, list_elem_of_singleton. intros [Hx|[= -> ->]].
    + destruct (Hd Hx) as [_ Hn]. split; [done|]. destruct (Is4 a), (Is4 b); cbn [fst snd] in *; try done; apply lookup_delete_None; by right.
    + split; [done|]. destruct (Is4 a); cbn [fst snd]; apply lookup_delete_eq.
Qed.

Lemma writing_tidy dropped dn h s : in_ stale (writing dropped dn h) s → tidy stale s.
Proof using Hplan Hwf Hres.
  intros [_ Hw]. split; [by eapply writing_resolves|]. intros k. eapply started_unpublished, Hw.
Qed.

(** A fake IP is only given to a host when no other host's addresses are left under it. *)
Lemma clean_put dropped dn h s a e : clean own_addr stale s → writing dropped dn h (k_vip_host_ip s) (k_vip_ip_host s) → entries !! a = Some e →
  clean own_addr stale (s <| k_vip_ip_host := <[As16 a := vipIPValue e]> (k_vip_ip_host s) |>).
Proof using Hplan Hwf.
  intros (Hz & Ht & Hn) Hw Ee. pose proof (pl_ok _ _ _ _ _ _ Hplan a e Ee) as Hok. split; [done|]. split; [|done]. unfold true_to. cbn [setter k_vip_ip_host k_vip_upstream].
  intros k iv up sl [[<- <-]|[_ Ei]]%lookup_insert_Some Eu Hin Hl; [|by apply (Ht k iv up sl)].
  destruct (leads_on existing entries (As16 a)) eqn:Elead; [|by rewrite (Hn (As16 a) Elead) in Eu].
  unfold leads_on in Elead. rewrite (proj2 (proj1 Hok)), Ee in Elead. destruct (existing !! a) as [e0|] eqn:Ex; [|done]. apply bool_decide_eq_true in Elead.
  destruct (wr_entries _ _ _ _ _ Hw a e Ee) as [Ei|[Ei _]]; [by apply (Ht (As16 a) _ up sl)|]. rewrite (initial_value a e0 Ex) in Ei.
  replace (vi_host (vipIPValue e)) with (vi_host (vipIPValue e0)) by (cbn [vipIPValue vi_host]; by rewrite Elead). by apply (Ht (As16 a) _ up sl).
Qed.

Lemma run_write_ips dropped : runs safe_ (in_ stale (writing dropped [] (hosts4, hosts6)))
  (write_ips env fails existing entries hosts4 hosts6) (λ x, in_ stale (writing dropped (go_range entries) x)).
Proof using Hcsum Henv Hhon Hplan Hwf Hres Hfail Hroom.
  unfold write_ips. apply (rule_each csum tracked own_addr (λ _, stale) (writing dropped)). intros dn [a e] rest [h4 h6] E.
  assert (Ee : entries !! a = Some e) by (apply in_range; rewrite E; apply elem_of_app; right; by left).
  destruct (bool_decide_reflect (vipIPValue <$> existing !! a = Some (vipIPValue e))) as [Hsame|Hne].
  - apply rule_skip. intros H I Hw. pose proof (writing_unchanged _ _ _ _ _ Hw) as Hu. destruct Hw as [W1 W2 W3 W4]. split; try done. intros b e' Eb.
    destruct (decide (b = a)) as [->|Hba].
    + rewrite Ee in Eb. injection Eb as <-. left. apply fmap_Some in Hsame as (e0 & E0 & Ev). by apply (Hu a e e0).
    + destruct (W4 b e' Eb) as [?|[? Hd]]; [by left|right]. split; [done|]. rewrite elem_of_app, list_elem_of_singleton. by intros [?|[= ? ?]]; [apply Hd|].
  - eapply (runs_bind _ _ _ _ (λ r, in_ stale (λ H I, match r with Some _ => writing dropped (dn ++ [(a, e)]) (h4, h6) H I
      | None => can_fail ∧ writing dropped dn (h4, h6) H I end))).
    + apply (rule_update csum Hcsum tracked own_addr env fails Henv Hhon stale _ (writing dropped dn (h4, h6))).
      * apply writing_tidy.
      * intros s [Hs Hw] Hok. destruct (put_ip_parts a e s) as [P1 P2]. rewrite P1 in Hok. rewrite P2.
        cbn [setter k_vip_ip_host k_vip_host_ip].
        assert (Hst : steady csum tracked own_addr stale (s <| k_vip_ip_host := snd (hash_update vip_ip_host_max_entries (As16 a) (vipIPValue e) (k_vip_ip_host s)) |>)).
        { split; [apply sound_put_ip; [done|apply Hs]|]. intros Htr. rewrite (hash_update_ok _ _ _ _ Hok). eapply clean_put; [by apply Hs|done..]. }
        split; [exact Hst|]. rewrite (hash_update_ok _ _ _ _ Hok). pose proof (writing_put _ _ _ _ _ a e Hw Ee Hne) as Hw'. split; [done|by eapply writing_resolves].
      * intros s [Hs Hw] Hx. split; [|done]. destruct Hx as [[n Hn]|Hx]; [by apply (Hfail n)|]. destruct (put_ip_parts a e s) as [P1 _]. rewrite P1 in Hx.
        eapply ip_room; [exact Hw|apply Hs|done..].
    + intros [[]|]; [by apply rule_skip|]. eapply (runs_impl _ _ _ _ (λ x, in_ stale (writing dropped (dn ++ [(a, e)]) x))); [intros s Hs; exact Hs|done|].
      destruct (Is4 a) eqn:Ef; apply rule_skip; intros H I [Hc Hw]; pose proof (writing_failed _ _ _ _ _ _ a e Hc Hw Ee) as Hw'; by rewrite Ef in Hw'.
Qed.

(** The reservations are written; [h4] and [h6] are the hosts whose fake IP is. *)
Section Hosts.
Context (h4 h6 : gmap bytes ip).
Abbreviation want2 := (vipHostVals h4 h6).

Record reserved (I : gmap addr16 vip_ip_val) : Prop := {
  rs_hosts : h4 ⊆ hosts4 ∧ h6 ⊆ hosts6 ∧ (can_fail ∨ (h4, h6) = (hosts4, hosts6));
  rs_free : ∀ a, good a → entries !! a = None → I !! As16 a = None;
  rs_entries : ∀ a e, entries !! a = Some e → I !! As16 a = Some (vipIPValue e) ∨
    I !! As16 a = I0 !! As16 a ∧ can_fail ∧ (if Is4 a then h4 else h6) !! e_host e = None
}.

Lemma written_reserved dropped H I : writing dropped (go_range entries) (h4, h6) H I → started dropped H ∧ reserved I.
Proof using.
  intros [W1 W2 W3 W4]. split; [done|]. split; [done|done|]. intros a e Ee. destruct (W4 a e Ee) as [?|[? Hd]]; [by left|right].
  split; [done|]. by apply Hd, in_range.
Qed.

Lemma reserved_unchanged I : reserved I → unchanged I.
Proof using Hwf. intros [_ _ He] a e e0 Ee Ex Ev. destruct (He a e Ee) as [?|[-> _]]; [done|]. rewrite <- Ev. by apply initial_value. Qed.

Lemma want_leads I h v : reserved I → want2 !! h = Some v → leads_back I h v.
Proof using Hplan.
  intros [(S4 & S6 & _) _ He] Ev six Hg. destruct (want_ip _ _ h v six S4 S6 Ev Hg) as (a & Ea & -> & Hf & e & Ee & Eh & Er).
  destruct (He a e Ee) as [->|(_ & _ & Hn)].
  - exists (vipIPValue e). split; [done|]. cbn [vipIPValue vi_host vi_flags]. by rewrite Eh, Er.
  - rewrite Hf, Eh in Hn. destruct six; cbn [negb] in Hn; congruence.
Qed.

Lemma want_name h v : h4 ⊆ hosts4 → h6 ⊆ hosts6 → want2 !! h = Some v → name h.
Proof using Hplan.
  intros S4 S6 E. assert (Hp : ∃ a, planned_for h a).
  { rewrite host_vals in E. destruct (h4 !! h) as [a|] eqn:E4; [|destruct (h6 !! h) as [a|] eqn:E6; [|done]]; exists a; apply (pl_active _ _ _ _ _ _ Hplan).
    - pose proof (lookup_weaken _ _ _ _ E4 S4) as E'. by rewrite (pl_family4 _ _ _ _ _ _ Hplan h a E').
    - pose proof (lookup_weaken _ _ _ _ E6 S6) as E'. by rewrite (pl_family6 _ _ _ _ _ _ Hplan h a E'). }
  destruct Hp as (a & e & Ee & <- & _). by destruct (pl_ok _ _ _ _ _ _ Hplan a e Ee) as (_ & ? & _).
Qed.

(** What vip_host_ip holds: values that stay, and values written. *)
Definition sourced (H : gmap bytes vip_host_val) : Prop := keys_wf H ∧ ∀ h v, name h → H !! vipHostKey h = Some v →
  (H0 !! vipHostKey h = Some v ∧ stays h v = true) ∨ want2 !! h = Some v.

Lemma sourced_resolves H I : sourced H → reserved I → resolves H I.
Proof using Hplan Hwf Hres.
  intros [Hk Hs] Hr k v E. destruct (Hk k v E) as (h & Hn & ->). exists h. split; [done|]. split; [done|].
  destruct (Hs h v Hn E) as [[? ?]|?]; [by apply stays_leads; [by apply reserved_unchanged|..]|by apply want_leads].
Qed.

Lemma sourced_put H h v : sourced H → want2 !! h = Some v → name h → sourced (<[vipHostKey h := v]> H).
Proof using.
  intros [Hk Hs] Ev Hn. split.
  - intros k w [[<- <-]|[_ E]]%lookup_insert_Some; [by exists h|by apply (Hk k w)].
  - intros g w Hg [[Ek <-]|[_ E]]%lookup_insert_Some; [|by apply Hs]. apply host_key_inj in Ek as <-; [by right|done|done].
Qed.

(** Writing [want2]: the values of [dn] are written, the others as they were left. *)
Record putting (dropped : gset bytes) (dn : list (bytes * vip_host_val)) (H : gmap bytes vip_host_val) (I : gmap addr16 vip_ip_val) : Prop := {
  pu_sourced : sourced H;
  pu_reserved : reserved I;
  pu_rest : ∀ h, name h → h ∉ dn.*1 → H !! vipHostKey h = if decide (h ∈ dropped) then None else H0 !! vipHostKey h;
  pu_done : ∀ h v, (h, v) ∈ dn → H !! vipHostKey h = Some v ∨ can_fail
}.

Lemma sound_put_host h v s : h4 ⊆ hosts4 → h6 ⊆ hosts6 → want2 !! h = Some v → sound csum s →
  sound csum (s <| k_vip_host_ip := snd (hash_update vip_host_ip_max_entries (vipHostKey h) v (k_vip_host_ip s)) |>).
Proof using Hcsum Hplan.
  intros S4 S6 Ev Hs. pose proof (sound_ok csum Hcsum s Hs) as Hk. apply (sound_step csum s); [done| |apply Hs]. apply host_update; [done|].
  apply (hash_update_all (λ _ hv, host_ok hv)); [by eapply host_val_ok|]. intros g hv. apply (ok_hosts s Hk).
Qed.

Lemma host_room H I h v : sourced H → reserved I → want2 !! h = Some v → name h →
  fst (hash_update vip_host_ip_max_entries (vipHostKey h) v H) = false → can_fail.
Proof using Hroom.
  intros Hs Hr Ev Hn. destruct Hroom as [?|[_ Hf]]; [done|]. destruct (rs_hosts _ Hr) as (_ & _ & [?|[= E4 E6]]); [done|].
  unfold hash_update. destruct (bool_decide_reflect (is_Some (H !! vipHostKey h))) as [|Hno]; [done|].
  destruct (Z.ltb_spec (Z.of_nat (size H)) vip_host_ip_max_entries); [done|]. intros _. exfalso. apply eq_None_not_Some in Hno.
  destruct (sourced_put H h v Hs Ev Hn) as [Hk' Hs']. rewrite E4, E6 in *.
  assert (Hsz : (size (<[vipHostKey h := v]> H) ≤ size want)%nat); [|rewrite map_size_insert_None in Hsz by done; unfold fits in Hf; lia].
  assert (Hstr : ∀ g, name g → vipHostString (vipHostKey g) 64 = g) by (intros g Hg; apply host_string; [done|]; destruct Hg as (_ & ? & _); lia).
  apply (size_le (λ k, vipHostString k 64)).
  - intros k w E. destruct (Hk' k w E) as (g & Hg & ->). rewrite Hstr by done. destruct (Hs' g w Hg E) as [[_ Hst]|Ew]; [|by eexists].
    unfold stays in Hst. by destruct (want !! g).
  - intros k k' w w' E E'. destruct (Hk' k w E) as (g & Hg & ->), (Hk' k' w' E') as (g' & Hg' & ->). rewrite !Hstr by done. by intros ->.
Qed.

Lemma put_host_parts h v s : let f := (λ s, let '(ok, m) := hash_update vip_host_ip_max_entries (vipHostKey h) v (k_vip_host_ip s) in (ok, s <| k_vip_host_ip := m |>)) in
  fst (f s) = fst (hash_update vip_host_ip_max_entries (vipHostKey h) v (k_vip_host_ip s)) ∧
  snd (f s) = s <| k_vip_host_ip := snd (hash_update vip_host_ip_max_entries (vipHostKey h) v (k_vip_host_ip s)) |>.
Proof using. cbn zeta beta. by destruct (hash_update _ _ _ _). Qed.

Lemma started_putting dropped H I : started dropped H → reserved I → putting dropped [] H I.
Proof using.
  intros Hst Hr. pose proof Hst as [[Hk Hl] _]. split; [|done| |].
  - split; [done|]. intros h v Hn E. left. by eapply started_old.
  - intros h Hn _. by apply Hl.
  - intros h v Hx. by apply elem_of_nil in Hx.
Qed.

Lemma putting_snoc dropped dn H I h v H' : putting dropped dn H I → name h → sourced H' →
  (∀ g, g ≠ h → name g → H' !! vipHostKey g = H !! vipHostKey g) → H' !! vipHostKey h = Some v ∨ can_fail →
  (∀ g w, (g, w) ∈ dn → name g) → h ∉ dn.*1 → putting dropped (dn ++ [(h, v)]) H' I.
Proof using.
  intros [P1 P2 P3 P4] Hn Hs Hother Hv Hdn Hnew. split; [done|done| |].
  - intros g Hg Hx. rewrite elem_of_keys_snoc in Hx. rewrite Hother; [|by intros ->; apply Hx; right|done]. apply P3; [done|]. intros Hin. apply Hx. by left.
  - intros g w. rewrite elem_of_app, list_elem_of_singleton. intros [Hx|[= -> ->]]; [|done]. rewrite Hother; [by apply P4|intros ->|by apply (Hdn g w)].
    apply Hnew, list_elem_of_fmap. by exists (h, w).
Qed.

Lemma run_write_hosts dropped : h4 ⊆ hosts4 → h6 ⊆ hosts6 →
  runs_ (λ H I, started dropped H ∧ reserved I) (write_hosts env fails cur want2 dropped) (λ _, putting dropped (go_range want2)).
Proof using Hcsum Henv Hhon Hplan Hwf Hres Hfail Hroom.
  intros S4 S6. unfold write_hosts. eapply runs_impl; [| |apply (rule_each csum tracked own_addr (λ _, none) (λ dn _, putting dropped dn))].
  - intros s [Hs [Hst Hr]]. split; [done|by apply started_putting].
  - done.
  - intros dn [h v] rest [] E. assert (Ew : ∀ g w, (g, w) ∈ dn ++ (h, v) :: rest → want2 !! g = Some w) by (intros g w Hx; apply in_range; by rewrite E).
    assert (Ev : want2 !! h = Some v) by (apply Ew, elem_of_app; right; by left). pose proof (want_name h v S4 S6 Ev) as Hn.
    assert (Hdn : ∀ g w, (g, w) ∈ dn → name g) by (intros g w Hx; apply (want_name g w S4 S6), Ew, elem_of_app; by left).
    assert (Hnew : h ∉ dn.*1).
    { pose proof (range_nodup want2) as Hnd. rewrite E, fmap_app in Hnd. apply NoDup_app in Hnd as (_ & Hd & _). intros Hx. apply (Hd h Hx). by left. }
    destruct (bool_decide_reflect (h ∉ dropped ∧ cur !! h = Some v)) as [[Hnd Ec]|_].
    + apply rule_skip. intros H I Hp. apply (putting_snoc _ _ H I); try done; [apply Hp|]. left.
      rewrite (pu_rest _ _ _ _ Hp h Hn Hnew), decide_False by done. apply read_hosts in Ec; [by destruct Ec|by eapply resolves_keys].
    + eapply runs_bind; [|intros r; apply (rule_skip csum tracked own_addr none (putting dropped (dn ++ [(h, v)]))); done].
      apply (rule_update csum Hcsum tracked own_addr env fails Henv Hhon none _ (putting dropped dn) (λ _, putting dropped (dn ++ [(h, v)]))).
      * intros s [_ [P1 P2 _ _]]. by apply tidy_none, sourced_resolves.
      * intros s [Hs Hp] Hok. destruct (put_host_parts h v s) as [F1 F2]. rewrite F1 in Hok. rewrite F2.
        cbn [setter k_vip_ip_host k_vip_host_ip]. split; [split; [by apply sound_put_host; [..|apply Hs]|exact (proj2 Hs)]|]. rewrite (hash_update_ok _ _ _ _ Hok).
        pose proof (sourced_put _ h v (pu_sourced _ _ _ _ Hp) Ev Hn) as Hs'. split; [|apply sourced_resolves; [done|apply Hp]].
        eapply putting_snoc; try done; [|left; apply lookup_insert_eq]. intros g Hg Hgn. apply lookup_insert_ne. intros Ek. apply Hg. symmetry. by apply host_key_inj.
      * intros s [Hs Hp] Hx. apply (putting_snoc _ _ (k_vip_host_ip s)); try done; [apply Hp|]. right.
        destruct Hx as [[n Hx]|Hx]; [by apply (Hfail n)|]. destruct (put_host_parts h v s) as [F1 _]. rewrite F1 in Hx. destruct Hp as [P1 P2 _ _]. by eapply host_room.
Qed.

(** The maps at the end. *)
Record synced (H : gmap bytes vip_host_val) (I : gmap addr16 vip_ip_val) : Prop := {
  sy_sourced : sourced H;
  sy_reserved : reserved I;
  sy_done : ∀ h v, want2 !! h = Some v → H !! vipHostKey h = Some v ∨ can_fail
}.

Lemma run_drop_unwritten dropped : h4 ⊆ hosts4 → h6 ⊆ hosts6 →
  runs_ (putting dropped (go_range want2)) (drop_unwritten env fails cur want2 dropped) (λ _, synced).
Proof using Hcsum Henv Hhon Hdel Hplan Hwf Hres.
  intros S4 S6. unfold drop_unwritten. eapply runs_impl; [| |apply (rule_each csum tracked own_addr (λ _, none) (λ _ _, synced))].
  - intros s [Hs [P1 P2 _ P4]]. split; [done|]. split; [done|done|]. intros h v E. apply P4. by apply in_range.
  - done.
  - intros dn [h v] rest [] E. assert (Ec : (h, v) ∈ go_range cur) by (rewrite E; apply elem_of_app; right; by left).
    apply in_range, read_hosts in Ec as [Hn _]; [|by eapply resolves_keys].
    destruct (bool_decide_reflect (want2 !! h = None ∧ h ∉ dropped)) as [[Eh _]|_]; [|by apply rule_skip].
    eapply runs_bind; [|intros r; apply (rule_skip csum tracked own_addr none synced); done]. apply rule_delete; [done..|apply takes_host| |].
    + intros s [_ [Y1 Y2 _]]. by apply tidy_none, sourced_resolves.
    + intros s [Hs [[Y1 Y1'] Y2 Y3]]. cbn [setter k_vip_host_ip k_vip_ip_host].
      assert (Hs' : sourced (delete (vipHostKey h) (k_vip_host_ip s))).
      { split; [intros k w (_ & Ek)%lookup_delete_Some; by apply (Y1 k w)|]. intros g w Hg (_ & Ek)%lookup_delete_Some. by apply Y1'. }
      split; [|by apply sourced_resolves]. split; [done|done|]. intros g w Ew. rewrite lookup_delete_ne; [by apply Y3|].
      intros Ek. pose proof (want_name g w S4 S6 Ew) as Hg. apply host_key_inj in Ek as <-; [congruence|done|done].
Qed.

End Hosts.

(** The part of sync after its reads. *)
Lemma run_writes : runs_ (λ H I, H = H0 ∧ I = I0)
  (dropped ← drop_hosts env fails cur want;
   release_ips env fails existing entries;;
   pruneUpstreams env fails seen existing entries;;
   '(h4, h6) ← write_ips env fails existing entries hosts4 hosts6;
   let want2 := vipHostVals h4 h6 in
   write_hosts env fails cur want2 dropped;;
   drop_unwritten env fails cur want2 dropped;;
   any_failed) (λ _ H I, ∃ h4 h6, synced h4 h6 H I).
Proof using Hcsum Henv Hdel Hhon Hreads Hplan Hwf Hres Hfail Hroom.
  eapply runs_bind; [apply run_drop_hosts|]. intros dropped. eapply runs_bind.
  { eapply runs_impl; [|intros u s Hs; exact Hs|apply (run_release dropped)]. intros s [Hs Hd]. split; [done|by eapply dropped_started]. }
  intros ?. eapply runs_bind; [apply run_prune; intros H I Hr|]; [split; [eapply started_resolves; [apply Hr|by eapply releasing_unchanged]|intros k; eapply started_unpublished, Hr]|].
  intros ?. eapply runs_bind.
  { eapply runs_impl; [|intros u s Hs; exact Hs|apply (run_write_ips dropped)]. intros s [Hs Hd]. split; [done|by apply released_writing]. }
  intros [h4 h6]. intros c Hp. pose proof (wr_hosts _ _ _ _ _ (proj2 Hp)) as (S4 & S6 & _). revert c Hp.
  change (runs safe_ (in_ stale (writing dropped (go_range entries) (h4, h6)))
    (write_hosts env fails cur (vipHostVals h4 h6) dropped;; drop_unwritten env fails cur (vipHostVals h4 h6) dropped;; any_failed)
    (λ _, in_ none (λ H I, ∃ h4 h6, synced h4 h6 H I))).
  eapply runs_bind.
  { eapply runs_impl; [|intros u s Hs; exact Hs|apply (run_write_hosts h4 h6 dropped)]; [|done..].
    intros s [Hs Hd]. split; [by eapply steady_weaken; [|exact Hs]|by eapply written_reserved]. }
  intros ?. eapply runs_bind; [by apply run_drop_unwritten|]. intros ? c [Hc Hy] Hr. split; [|done]. split; [done|]. by exists h4, h6.
Qed.

Lemma synced_resolves h4 h6 H I : synced h4 h6 H I → resolves H I.
Proof using Hplan Hwf Hres. intros [Y1 Y2 _]. by apply (sourced_resolves h4 h6). Qed.

End Sync.

(** *** The whole sync *)

Section Whole.
Context {go : GoOrder} (csum : skb → Z → Z → Z → option skb) (Hcsum : csum_updates csum).
Context (env : nat → kst → kst) (fails : op → nat → bool) (seen : nat → nat) (Henv : around csum env) (Hdel : ∀ n, fails Delete n = false).
Context (ranges : VirtualIPRanges) (hosts : gset bytes) (now : Z) (Hranges : ranges_ok ranges) (Hnames : names hosts) (Hnow : now_ok now).
Context (s : kst) (Hs : sound csum s) (Hres : resolves (k_vip_host_ip s) (k_vip_ip_host s)).
Abbreviation H0 := (k_vip_host_ip s).
Abbreviation I0 := (k_vip_ip_host s).

(** The plan of a sync from [s]. *)
Definition plan4 : vipPlan := fst (planVirtualIPRanges go_range ranges hosts (readVirtualIPs I0) now vip_ip_host_max_entries).
Definition plan6 : vipPlan := snd (planVirtualIPRanges go_range ranges hosts (readVirtualIPs I0) now vip_ip_host_max_entries).
Definition plan_entries : reservations := Entries plan6 ∪ Entries plan4.
Definition plan_hosts : gmap bytes vip_host_val := vipHostVals (Hosts plan4) (Hosts plan6).

Lemma plan_planned : planned ranges hosts (readVirtualIPs I0) plan_entries (Hosts plan4) (Hosts plan6).
Proof using Hranges Hnames Hnow Hs.
  pose proof (sync_planned ranges hosts (readVirtualIPs I0) now Hranges Hnames Hnow (λ a e, read_ips_ok _ a e (proj2 Hs)) (read_ips_size _ (proj2 Hs))) as Hp.
  unfold plan_entries, plan4, plan6. by destruct (planVirtualIPRanges _ _ _ _ _ _).
Qed.

Context (tracked : Prop) (own_addr : bytes → addr16 → Prop) (Hhon : tracked → ∀ n s, rtc (honest own_addr csum) s (env n s)).
Context (Hreads : tracked → ∀ n, fails Read n = false).
Abbreviation safe_ := (safe csum tracked own_addr).
Abbreviation in_ Φ := (at_ csum tracked own_addr none Φ).

Lemma read_same {A} (f : kst → A) Φ : (∀ s1, in_ Φ s1 → resolves (k_vip_host_ip s1) (k_vip_ip_host s1)) →
  runs safe_ (in_ Φ) (map_read env fails f)
    (λ r s1, in_ Φ s1 ∧ match r with Some x => ∃ s2, in_ Φ s2 ∧ x = f s2 | None => ∃ n, fails Read n = true end).
Proof using Hcsum Henv Hhon.
  intros HR. assert (Ht : ∀ s1, in_ Φ s1 → tidy none s1) by (intros s1 Hs1; by apply tidy_none, HR). apply runs_op; [by apply at_stable| | |].
  - intros s1. by apply at_safe.
  - intros s1 Hs1. split; [split; [done|by exists s1]|]. by apply (at_safe csum tracked own_addr none Φ).
  - intros n s1 Hs1 Hn. split; [done|by exists n].
Qed.

Context (can_fail : Prop) (Hfail : ∀ n, fails Sync.Update n = true → can_fail) (Hread : ∀ n, fails Read n = true → can_fail).
Context (Hroom : can_fail ∨ fits vip_ip_host_max_entries plan_entries ∧ fits vip_host_ip_max_entries plan_hosts).

Lemma run_sync : runs safe_ (in_ (λ H I, H = H0 ∧ I = I0)) (sync env fails seen ranges hosts now)
  (λ _, in_ (λ H I, resolves H I ∧ (can_fail ∨ ∃ h4 h6, synced H0 I0 plan_entries (Hosts plan4) (Hosts plan6) can_fail h4 h6 H I))).
Proof using All.
  assert (HR : ∀ s1, in_ (λ H I, H = H0 ∧ I = I0) s1 → resolves (k_vip_host_ip s1) (k_vip_ip_host s1)) by (intros s1 (_ & -> & ->); done).
  assert (Hstop : can_fail → runs safe_ (in_ (λ H I, H = H0 ∧ I = I0)) (mret (M := C) true)
    (λ _, in_ (λ H I, resolves H I ∧ (can_fail ∨ ∃ h4 h6, synced H0 I0 plan_entries (Hosts plan4) (Hosts plan6) can_fail h4 h6 H I)))).
  { intros Hc. apply runs_ret. intros s1 Hs1. split; [apply Hs1|]. split; [by apply HR|by left]. }
  unfold sync. eapply runs_bind; [apply read_same, HR|]. intros [existing|]; apply runs_fact.
  2:{ intros [n Hn]. apply Hstop. by apply (Hread n). }
  intros (s1 & (_ & _ & E1) & ->). rewrite E1. eapply runs_bind; [apply read_same, HR|]. intros [cur|]; apply runs_fact.
  2:{ intros [n Hn]. apply Hstop. by apply (Hread n). }
  intros (s2 & (_ & E2 & _) & ->). rewrite E2. pose proof plan_planned as Hp. pose proof Hroom as Hrm. revert Hp Hrm. unfold plan_hosts, plan_entries, plan4, plan6.
  destruct (planVirtualIPRanges _ _ _ _ _ _) as [p4 p6]. cbn [fst snd]. intros Hp Hrm.
  eapply runs_impl; [intros s3 Hs3; exact Hs3| |by apply (run_writes ranges hosts H0 I0 (Entries p6 ∪ Entries p4) (Hosts p4) (Hosts p6) Hp (proj2 Hs) csum Hcsum env fails seen Henv Hdel Hres can_fail)].
  intros b s3 (Hs3 & h4 & h6 & Hy). split; [done|]. split; [by apply (synced_resolves ranges hosts H0 I0 _ _ _ Hp (proj2 Hs) Hres can_fail h4 h6)|]. right. by exists h4, h6.
Qed.
End Whole.

(** The maps of a sync that did not fail, read back. *)
Lemma synced_reads {go : GoOrder} ranges hosts H0 I0 entries hosts4 hosts6 h4 h6 H I : planned ranges hosts (readVirtualIPs I0) entries hosts4 hosts6 →
  synced H0 I0 entries hosts4 hosts6 False h4 h6 H I → ips_wf I →
  readVirtualIPHosts H = vipHostVals hosts4 hosts6 ∧ readVirtualIPs I = canon <$> entries.
Proof.
  intros Hp [[Hk Hs] [(_ & _ & Eh) Hfree He] Hd] Hw. destruct Eh as [?|[= -> ->]]; [done|]. split; apply map_eq.
  - intros h. destruct (vipHostVals hosts4 hosts6 !! h) as [v|] eqn:Ev.
    + apply read_hosts; [done|]. split; [by apply (want_name ranges hosts I0 entries hosts4 hosts6 Hp hosts4 hosts6 h v)|]. by destruct (Hd h v Ev).
    + destruct (readVirtualIPHosts H !! h) as [v|] eqn:E; [|done]. apply read_hosts in E as [Hn E]; [|done].
      destruct (Hs h v Hn E) as [[_ Hst]|?]; [|congruence]. unfold stays in Hst. by rewrite Ev in Hst.
  - intros a. rewrite lookup_fmap. destruct (entries !! a) as [e|] eqn:Ee; cbn [fmap option_fmap option_map].
    + pose proof (pl_ok _ _ _ _ _ _ Hp a e Ee) as Hok. apply read_ips; [done|]. exists (vipIPValue e). split; [by destruct (He a e Ee) as [?|(_ & ? & _)]|].
      split; [apply Hok|]. symmetry. by apply (value_entry a).
    + destruct (readVirtualIPs I !! a) as [e|] eqn:E; [|done]. apply read_ips in E as (v & E & Hg & _); [|done]. by rewrite (Hfree a Hg Ee) in E.
Qed.

(** C17: the order of a sync's writes keeps the two maps in step: from maps in which
    every fake IP that vip_host_ip holds is reserved in vip_ip_host for the same host
    and not retired, and as long as no delete fails, the maps are so at every moment
    of the sync, whatever reads and updates fail and whatever runs in between. *)
Theorem write_order_resolves {go : GoOrder} csum env fails seen ranges hosts now s : csum_updates csum → around csum env → (∀ n, fails Delete n = false) →
  ranges_ok ranges → names hosts → now_ok now → reachable csum s → ips_wf (k_vip_ip_host s) → resolves (k_vip_host_ip s) (k_vip_ip_host s) →
  Forall (λ s', resolves (k_vip_host_ip s') (k_vip_ip_host s')) (moments (snd (sync env fails seen ranges hosts now (start s)))).
Proof.
  intros Hf He Hd Hr Hn Hnow Hs Hw Hres. assert (Hsd : sound csum s) by done.
  destruct (run_sync csum Hf env fails seen He Hd ranges hosts now Hr Hn Hnow s Hsd Hres False (λ _ _, True)) with (can_fail := True) (c := start s) as [[_ [H1 _]] H2]; try done; [by left|].
  apply Forall_cons_2; [done|]. eapply Forall_impl; [exact H2|]. by intros s' [_ ?].
Qed.

(** C18: a sync in which no operation fails makes the maps hold its plan: if the plan
    fits the maps, what is read back from vip_host_ip afterwards is the fake IPs of the
    plan's hosts, and from vip_ip_host the plan's reservations (times in seconds),
    whatever the maps held before and whatever runs in between. *)
Theorem sync_writes_plan {go : GoOrder} csum env fails seen ranges hosts now s : csum_updates csum → around csum env → (∀ o n, fails o n = false) →
  ranges_ok ranges → names hosts → now_ok now → reachable csum s → ips_wf (k_vip_ip_host s) → resolves (k_vip_host_ip s) (k_vip_ip_host s) →
  fits vip_ip_host_max_entries (plan_entries ranges hosts now s) → fits vip_host_ip_max_entries (plan_hosts ranges hosts now s) →
  let s' := c_state (snd (sync env fails seen ranges hosts now (start s))) in
  readVirtualIPHosts (k_vip_host_ip s') = plan_hosts ranges hosts now s ∧
  readVirtualIPs (k_vip_ip_host s') = canon <$> plan_entries ranges hosts now s.
Proof.
  intros Hf He Hd Hr Hn Hnow Hs Hw Hres F1 F2. assert (Hsd : sound csum s) by done.
  destruct (run_sync csum Hf env fails seen He (Hd Delete) ranges hosts now Hr Hn Hnow s Hsd Hres False (λ _ _, True)) with (can_fail := False) (c := start s) as [[Hs' (_ & [?|(h4 & h6 & Hy)])] _]; try done.
  - intros n. by rewrite Hd.
  - intros n. by rewrite Hd.
  - by right.
  - eapply synced_reads; [by apply (plan_planned csum)|exact Hy|apply Hs'].
Qed.

(** *** Runs *)

Lemma sample_resolves : resolves (k_vip_host_ip sample_given) (k_vip_ip_host sample_given).
Proof.
  rewrite sample_given_ips. assert (E : k_vip_host_ip sample_given = {[vipHostKey sample_name := {| vh_ip4 := [240; 0; 0; 1]; vh_ip6 := zeros 16 |}]})
    by (vm_compute; reflexivity).
  rewrite E. intros k v [<- <-]%lookup_singleton_Some. exists sample_name. split; [apply sample_name_ok|]. split; [done|]. intros six Hg.
  destruct six; [by destruct Hg|]. clear E. exists (vipIPValue (active sample_name)). split; [apply lookup_singleton_eq|done].
Qed.

(** Syncs of a host more, in which nothing fails; of another host alone, in which a
    write fails; and of another range, in which the first delete fails. *)
Definition sample_updates_fail (o : op) (n : nat) : bool := match o with Sync.Update => (n =? 5)%nat | _ => false end.
Definition sample_sync_other : ctl := snd (sync sample_env sample_updates_fail (λ _, 0%nat) sample_ranges {[host_a]} sample_now (start sample_given)).
Definition sample_delete_fails (o : op) (n : nat) : bool := match o with Delete => (n =? 2)%nat | _ => false end.
Definition sample_sync_moved : ctl :=
  snd (sync sample_env sample_delete_fails (λ _, 0%nat) {| V4 := sample_range; V6 := None |} {[host_a]} sample_now (start sample_given)).
Definition sample_sync_ok : ctl := snd (sync sample_env (λ _ _, false) (λ _, 0%nat) sample_ranges sample_hosts sample_now (start sample_given)).

Lemma write_order_resolves_witness : c_failed sample_sync_other = 1%nat ∧
  Forall (λ s, resolves (k_vip_host_ip s) (k_vip_ip_host s)) (moments sample_sync_other).
Proof.
  split; [vm_compute; reflexivity|].
  apply (write_order_resolves kernel_csum); [apply kernel_csum_updates|apply sample_around|done|apply sample_ranges_ok| |apply sample_time|..].
  - intros h ->%elem_of_singleton. apply sample_names, elem_of_union. right. by apply elem_of_singleton.
  - apply sample_given_reachable.
  - apply sample_ips_wf.
  - apply sample_resolves.
Defined.

(** Only with a delete that failed is a fake IP left that leads nowhere: the host of the
    sample is no longer watched and its IP is outside the new range. *)
Lemma failed_delete_unresolved : c_failed sample_sync_moved = 1%nat ∧
  k_vip_host_ip (c_state sample_sync_moved) !! vipHostKey sample_name = Some {| vh_ip4 := [240; 0; 0; 1]; vh_ip6 := zeros 16 |} ∧
  k_vip_ip_host (c_state sample_sync_moved) !! As16 (IPv4 0xF0000001) = None.
Proof. split; [vm_compute; reflexivity|]. split; vm_compute; reflexivity. Qed.

Lemma sync_writes_plan_witness : size (readVirtualIPHosts (k_vip_host_ip (c_state sample_sync_ok))) = 2%nat ∧
  readVirtualIPHosts (k_vip_host_ip (c_state sample_sync_ok)) = plan_hosts sample_ranges sample_hosts sample_now sample_given.
Proof.
  split; [vm_compute; reflexivity|].
  apply (sync_writes_plan kernel_csum); [apply kernel_csum_updates|apply sample_around|done|apply sample_ranges_ok|apply sample_names|apply sample_time|..].
  - apply sample_given_reachable.
  - apply sample_ips_wf.
  - apply sample_resolves.
  - vm_compute. congruence.
  - vm_compute. congruence.
Defined.
End Order.
