(* ===== verification/VipOwner.v ===== *)
(** * A fake IP leads to its own host (pkg/ebpf/virtual_ip_linux.go, bpf/helpers.h)

    [Owner]: across programs and syncs, a connect to a fake IP goes to an address
    that a resolver gave for the host the IP is reserved for, the one the socket is
    then tied to. *)

From S2P Require Import Prelude Host GF128 Sni Dns VipAddr State Hooks Packet Vip VipHooks DnsRewrite StateType Keeps.
From S2P Require Import InvSend InvTc System Progress VipPlan VipReserve VipSync VipSyncFacts VipLive VipHome VipOrder.
#[local] Open Scope Z_scope.

Module Owner.
Import NetIP Plan FreeFacts Reserve Host.Host Types Kernel Hooks.Hooks ConnectFacts Skb Vip.Vip VipAddr VipFacts HooksFacts StateType.
Import Csums RewriteFacts InvSend.InvVip System VipProgress Sync Values Config SyncLogic Reads Live Home Order.

Section Owner.
Context {go : GoOrder} (csum : skb → Z → Z → Z → option skb) (Hcsum : csum_updates csum).
Context (own_addr : bytes → addr16 → Prop) (ranges : VirtualIPRanges) (Hranges : ranges_ok ranges).

(** A moment of the system's life in which resolvers tell the truth: a step of it, or
    a sync, done or not, whose writes may fail but not its reads and deletes. *)
Inductive lives_truly (s s' : kst) : Prop :=
  | truly_step : honest own_addr csum s s' → lives_truly s s'
  | truly_sync env fails seen hosts now : (∀ n s, rtc (honest own_addr csum) s (env n s)) →
      (∀ o n, o ≠ Sync.Update → fails o n = false) → names hosts → now_ok now →
      s' ∈ moments (snd (sync env fails seen ranges hosts now (start s))) → lives_truly s s'.

Lemma honest_around env : (∀ n s, rtc (honest own_addr csum) s (env n s)) → around csum env.
Proof using. intros He n s. eapply rtc_subrel; [|apply He]. intros x y. apply honest_quiet. Qed.

Lemma truly_safe s s' : lives_truly s s' → safe csum True own_addr s → safe csum True own_addr s'.
Proof using Hcsum Hranges.
  intros [Hh|env fails seen hosts now He Hf Hn Hnow Hin] [[Hs Hc] Hr].
  - destruct (quiet_sound csum Hcsum s s' (rtc_once _ _ (honest_quiet _ _ _ _ Hh)) Hs) as [Hs' E]. injection E as _ Ei Eh.
    split; [|by rewrite Ei, Eh]. split; [done|]. intros Ht. by apply (honest_clean own_addr csum Hcsum none s s' Hh (sound_ok csum Hcsum s Hs)); [..|apply Hc].
  - destruct (run_sync csum Hcsum env fails seen (honest_around env He)) with (ranges := ranges) (hosts := hosts) (now := now) (s := s) (tracked := True)
      (own_addr := own_addr) (can_fail := True) (c := start s) as [[H1 [H2 _]] H3]; try done.
    + intros n. by apply Hf.
    + intros _ n. by apply Hf.
    + by left.
    + apply elem_of_cons in Hin as [->|Hin]; [done|]. rewrite Forall_forall in H3. by apply H3.
Qed.
End Owner.

(** The connect went to an address of the host its socket is tied to. *)
Definition leads_home (own_addr : bytes → addr16 → Prop) (s : kst) (ctx : sock_addr) (dst : sock_addr → addr16) (out : (Z * sock_addr) * kst) : Prop :=
  let '((r, ctx'), s') := out in vip_addr_in_range (k_vip_config s) (dst ctx) = true → r = 1 →
  ∃ ih, k_vip_ip_host s !! dst ctx = Some ih ∧ k_vip_sock_host s' !! sa_cookie ctx = Some (vi_host ih) ∧ own_addr (vi_host ih) (dst ctx').

Lemma connected_home own_addr t s ctx dst out : true_to own_addr s → connected t s ctx dst out → leads_home own_addr s ctx dst out.
Proof.
  unfold connected, leads_home. destruct out as [[r ctx'] s']. intros Ht [_ H] Hr -> . rewrite Hr in H.
  destruct H as [(? & _)|(_ & (up & sl & Eu & Hin & Hl & <- & _) & _ & _ & ih & Ei & Eh & _)]; [done|].
  exists ih. split; [done|]. split; [rewrite Eh; apply lookup_insert_eq|]. by apply (Ht (dst ctx) ih up sl).
Qed.

(** C19: a fake IP only leads to its own host. If the answers of trusted resolvers hold
    real addresses of the host asked for, then from maps that lead back and hold no
    other addresses, with ranges that do not hold the unspecified address, and whatever
    programs run and however many syncs happen, done or cut short anywhere, with writes
    that fail but no reads and deletes, a connect to a fake IP that is let through goes
    to a real address of the host the IP is reserved for, and ties the socket to that
    host: also when the IP was another host's before. *)
Theorem fake_ip_leads_home {go : GoOrder} csum own_addr ranges s s' t ctx : csum_updates csum → ranges_ok ranges →
  reachable csum s → ips_wf (k_vip_ip_host s) → resolves (k_vip_host_ip s) (k_vip_ip_host s) → true_to own_addr s → unspecified_out (k_vip_config s) →
  rtc (lives_truly csum own_addr ranges) s s' → task_ok t → ctx_ok ctx →
  leads_home own_addr s' ctx dst4 (vip_connect4 t ctx s') ∧ leads_home own_addr s' ctx dst6 (vip_connect6 t ctx s').
Proof.
  intros Hf Hr Hs Hw Hres Ht Hz Hl [_ Hb Hp] Hctx.
  assert (H : safe csum True own_addr s) by (split; [split; [done|intros _; by split_and!]|done]).
  assert (Hs' : safe csum True own_addr s') by (induction Hl as [|x y z Hxy _ IH]; [done|]; apply IH; by apply (truly_safe csum Hf own_addr ranges Hr x y)).
  destruct Hs' as [[Hs1 Hc] _]. destruct (vip_connect_outcome t ctx s' (ok_up s' (sound_ok csum Hf s' Hs1)) ltac:(lia) ltac:(lia) Hctx) as [H4 H6].
  split; (eapply connected_home; [by apply Hc|done]).
Qed.
(** *** Runs *)

(** gutywa.de's addresses are probed from the last of 240.0.0.0/8 on: its fake IP is
    the first usable one, 240.0.0.1, when that is free. *)
Definition next_name : bytes := [103; 117; 116; 121; 119; 97; 46; 100; 101].
Definition no_fails (o : op) (n : nat) : bool := false.
Definition sample_day : Z := 24 * 3600 * 10 ^ 9.
Definition sync_of (fails : op → nat → bool) (h : bytes) (now : Z) (s : kst) : ctl :=
  snd (sync sample_env fails (λ _, 0%nat) sample_ranges {[h]} now (start s)).

(** The sample's host is no longer watched, and its fake IP is gutywa.de's a day later. *)
Definition sample_retired : kst := c_state (sync_of no_fails host_a sample_now sample_given).
Definition sample_reused : kst := c_state (sync_of no_fails next_name (sample_now + 2 * sample_day) sample_retired).

(** The real address of the sample's host, 10.1.2.3. *)
Definition sample_real : addr16 := ipv4_to_mapped [10; 1; 2; 3].
Definition sample_owners (h : bytes) (a : addr16) : Prop := h = vipHostKey sample_name ∧ a = sample_real.

Lemma sample_true : true_to sample_owners sample_given.
Proof.
  unfold true_to. rewrite sample_given_ips. intros k iv up sl [<- <-]%lookup_singleton_Some Eu Hin Hl. split; [done|].
  vm_compute in Eu. injection Eu as <-. repeat (apply elem_of_cons in Hin as [->|Hin]; [first [reflexivity|by destruct Hl]|]). by apply elem_of_nil in Hin.
Qed.

Lemma sample_unspecified : unspecified_out (k_vip_config sample_given).
Proof. intros []; vm_compute; reflexivity. Qed.

Lemma sample_honest n s : rtc (honest sample_owners kernel_csum) s (sample_env n s).
Proof.
  apply rtc_once. exists (Program (Enter_close (task_with 0 []) 4)). split; [by split|]. split; [done|]. by intros c [= <-].
Qed.

Lemma fake_ip_leads_home_witness : let out := vip_connect4 (task_with 0 []) sample_ctx (c_state sample_sync_other) in
  c_failed sample_sync_other = 1%nat ∧ fst (fst out) = 1 ∧
  ∃ ih, k_vip_ip_host (c_state sample_sync_other) !! dst4 sample_ctx = Some ih ∧
    k_vip_sock_host (snd out) !! sa_cookie sample_ctx = Some (vi_host ih) ∧ sample_owners (vi_host ih) (dst4 (snd (fst out))).
Proof.
  cbv zeta. split; [vm_compute; reflexivity|]. assert (E : fst (fst (vip_connect4 (task_with 0 []) sample_ctx (c_state sample_sync_other))) = 1) by (vm_compute; reflexivity).
  split; [exact E|].
  destruct (fake_ip_leads_home kernel_csum sample_owners sample_ranges sample_given (c_state sample_sync_other) (task_with 0 []) sample_ctx) as [H _].
  - apply kernel_csum_updates.
  - apply sample_ranges_ok.
  - apply sample_given_reachable.
  - apply sample_ips_wf.
  - apply sample_resolves.
  - apply sample_true.
  - apply sample_unspecified.
  - apply rtc_once. apply (truly_sync _ _ _ _ _ sample_env sample_updates_fail (λ _, 0%nat) {[host_a]} sample_now);
      [apply sample_honest|intros [] n Ho; [reflexivity..|by destruct Ho]| |apply sample_time|by left].
    intros h ->%elem_of_singleton. apply sample_names, elem_of_union. right. by apply elem_of_singleton.
  - apply sample_task_ok.
  - apply sample_ctx_ok.
  - unfold leads_home in H. destruct (vip_connect4 _ _ _) as [[r ctx'] s']. apply H; [vm_compute; reflexivity|exact E].
Defined.

(** Only when the stale addresses could not be deleted does a fake IP lead elsewhere,
    and a later sync in which nothing fails does not change it: 240.0.0.1 is
    gutywa.de's, and its recorded address still that of the host before. *)
Definition sample_prune_fails (o : op) (n : nat) : bool := match o with Delete => (n =? 4)%nat | _ => false end.
Definition sample_left : ctl := sync_of sample_prune_fails next_name (sample_now + 2 * sample_day) sample_retired.
Definition sample_retry : ctl := sync_of no_fails next_name (sample_now + 2 * sample_day) (c_state sample_left).

Lemma retry_keeps_stale : c_failed sample_left = 1%nat ∧ c_failed sample_retry = 0%nat ∧
  k_vip_ip_host (c_state sample_retry) !! sample_fake = Some (vipIPValue (active next_name)) ∧
  slot_ip <$> (k_vip_upstream (c_state sample_retry) !! sample_fake ≫= head) = Some sample_real ∧
  k_vip_upstream sample_reused !! sample_fake = None.
Proof. split_and!; vm_compute; reflexivity. Qed.
End Owner.
