(* ===== verification/SecretSync.v ===== *)
(** * What pods may redeem, and the controller's sync of it

    pkg/ebpf/sync.go, secret_binding.go, and of uprobe.go and virtual_ip_linux.go the
    functions that grant and revoke: [Grants] translates a snapshot of the secrets and
    the pods' bindings into secret_map, secret_acl and vip_pod_host, with the map
    operations of VipSync.v. The HPACK Huffman encoding of a string, which
    golang.org/x/net does, is the parameter [huff]. What is logged is left out. *)

From S2P Require Import Prelude Host VipAddr State Hooks VipPlan VipReserve VipSync.
#[local] Open Scope Z_scope.

Module Grants.
Import Types Kernel Hooks NetIP Plan Sync.

(** pkg/secrets: a secret and what it is restricted to; a reference to keys of an
    owner, [None] for all; what a pod is entitled to. *)
Record secret := {
  OwnerID : bytes; Key : bytes; Real : bytes; Shadow : bytes;
  Host : bytes; IP : option bytes; Port : Z; Protocol : Z
}.
Record Ref := { ref_owner : bytes; ref_keys : option (list bytes) }.
Record podBinding := { podIPs : list ip; cgroupIDs : list Z; refs : list Ref }.

Definition ShadowPrefixLen : Z := 8.
Definition vip_pod_host_max_entries : Z := 16384.

(** [copy] into a zeroed array of [n] bytes. *)
Definition padded (n : nat) (l : bytes) : bytes := take n l ++ zeros (n - length (take n l)).

(** [net.IP.To16]; [Unmap] of netip. *)
Definition To16 (a : bytes) : bytes :=
  if (length a =? 4)%nat then zeros 10 ++ [0xff; 0xff] ++ a else if (length a =? 16)%nat then a else [].
Definition Unmap (a : ip) : ip := From16 (As16 a).

Section Code.
Context (huff : bytes → bytes) {go : GoOrder}.

(** [for k := range set] *)
Definition go_keys {K} `{Countable K} (X : gset K) : list K := (go_range (gset_to_gmap () X)).*1.

(** *** The keys of a placeholder *)

Definition huffmanPlaceholderKey (shadow : bytes) : option bytes :=
  if zlen (huff shadow) <? 8 then None else Some (padded 8 (huff shadow)).
Definition placeholderKeys (shadow : bytes) : list bytes :=
  if zlen shadow <? ShadowPrefixLen then []
  else padded 8 shadow :: match huffmanPlaceholderKey shadow with Some k => [k] | None => [] end.

(** *** What the bindings grant *)

Definition indexSecrets (snapshot : list secret) : gmap bytes (gmap bytes secret) :=
  fold_left (λ ix s, <[OwnerID s := <[Key s := s]> (default ∅ (ix !! OwnerID s))]> ix) snapshot ∅.

(** The secrets [each] calls its function for. *)
Definition each_secret (ix : gmap bytes (gmap bytes secret)) (r : Ref) : list secret :=
  let owned := default ∅ (ix !! ref_owner r) in
  match ref_keys r with
  | None => (go_range owned).*2
  | Some ks => omap (λ k, owned !! k) ks
  end.

Definition secretACL (snapshot : list secret) (bindings : gmap bytes podBinding) : gset secret_acl_key :=
  let ix := indexSecrets snapshot in
  fold_left (λ acl '(_, b), fold_left (λ acl r, fold_left (λ acl s, fold_left (λ acl k,
    fold_left (λ acl cg, {[(cg, k)]} ∪ acl) (cgroupIDs b) acl)
    (placeholderKeys (Shadow s)) acl) (each_secret ix r) acl) (refs b) acl) (go_range bindings) ∅.

Definition vipPodHosts (snapshot : list secret) (bindings : gmap bytes podBinding) (anyHost : bool) : gset vip_pod_host_key :=
  let ix := indexSecrets snapshot in
  fold_left (λ out '(_, b), fold_left (λ out a,
    let addr := As16 (Unmap a) in
    if anyHost then {[(addr, zeros 64)]} ∪ out
    else fold_left (λ out r, fold_left (λ out s,
      if bool_decide (Host s = []) || (64 <=? zlen (Host s)) then out else {[(addr, padded 64 (Host s))]} ∪ out)
      (each_secret ix r) out) (refs b) out) (podIPs b) out) (go_range bindings) ∅.

(** *** The values of secret_map *)

Definition raw_value (s : secret) : secret_value :=
  let len := u32 (zlen (Real s)) in
  let len := if 128 <? len then 128 else len in
  let prefixLen := if 42 <? zlen (Shadow s) then 42 else zlen (Shadow s) in
  {| sv_len := len; real_secret := padded 128 (take (Z.to_nat len) (Real s));
     host_len := match Host s with [] => 0 | _ => u32 (zlen (Host s)) end;
     allowed_host := padded 64 (Host s);
     ip_len := match Host s, IP s with [], Some _ => 16 | _, _ => 0 end;
     allowed_ip := match Host s, IP s with [], Some a => padded 16 (To16 a) | _, _ => zeros 16 end;
     sv_port := Port s; protocol := Protocol s;
     prefix_len := prefixLen; full_prefix := padded 42 (take (Z.to_nat prefixLen) (Shadow s)) |}.

(** The Huffman variant, padded to the length of the placeholder's. *)
Definition huff_value (s : secret) : secret_value :=
  let val := raw_value s in
  let huffShadow := huff (Shadow s) in
  let huffReal := huff (Real s) ++ replicate (length huffShadow - length (huff (Real s))) 0xff in
  let huffLen := if 128 <? zlen huffReal then 128 else zlen huffReal in
  let prefixLen := if 42 <? zlen huffShadow then 42 else zlen huffShadow in
  {| sv_len := huffLen; real_secret := padded 128 (take (Z.to_nat huffLen) huffReal);
     host_len := host_len val; allowed_host := allowed_host val; ip_len := ip_len val; allowed_ip := allowed_ip val;
     sv_port := sv_port val; protocol := protocol val;
     prefix_len := prefixLen; full_prefix := padded 42 (take (Z.to_nat prefixLen) huffShadow) |}.
Definition huff_key (s : secret) : option bytes :=
  let huffShadow := huff (Shadow s) in
  let realHuffLen := zlen (huff (Real s)) in
  if (8 <=? zlen huffShadow) && (0 <? realHuffLen) && (realHuffLen <=? zlen huffShadow) then Some (padded 8 huffShadow) else None.

(** *** The syncs *)

Section Sync.
Context (env : nat → kst → kst) (fails : op → nat → bool) (seen : nat → nat).

Definition put_secret (k : secret_key) (v : secret_value) : C (option unit) :=
  map_update env fails (λ s, let '(ok, m) := hash_update secret_map_max_entries k v (k_secret_map s) in (ok, s <| k_secret_map := m |>)).
Definition delete_secret (k : secret_key) : C (option unit) :=
  map_delete env fails (λ s, s <| k_secret_map := delete k (k_secret_map s) |>).
Definition grant_acl (k : secret_acl_key) : C (option unit) :=
  map_update env fails (λ s, let '(ok, m) := hash_update secret_acl_max_entries k 1 (k_secret_acl s) in (ok, s <| k_secret_acl := m |>)).
Definition revoke_acl (k : secret_acl_key) : C (option unit) :=
  map_delete env fails (λ s, s <| k_secret_acl := delete k (k_secret_acl s) |>).
Definition grant_host (k : vip_pod_host_key) : C (option unit) :=
  map_update env fails (λ s, let '(ok, m) := hash_update vip_pod_host_max_entries k 1 (k_vip_pod_host s) in (ok, s <| k_vip_pod_host := m |>)).
Definition revoke_host (k : vip_pod_host_key) : C (option unit) :=
  map_delete env fails (λ s, s <| k_vip_pod_host := delete k (k_vip_pod_host s) |>).

(** [for iter.Next(&k, &v)]: the keys seen, not all of them when it fails. *)
Definition iterate {K V} `{Countable K} (f : kst → gmap K V) : C (list K) := λ c,
  let '(_, c') := map_read env fails (λ _, ()) c in
  let keys := (go_range (f (c_state c'))).*1 in
  (if fails Read (c_ops c) then take (seen (c_ops c)) keys else keys, c').

(** [f] for each element of [l]. *)
Definition for_each {X} (f : X → C (option unit)) (l : list X) : C unit := each (λ u x, f x;; mret u) l ().

Definition apply_secret (st : gset secret_key * gset bytes) (s : secret) : C (gset secret_key * gset bytes) :=
  let '(newKeys, hostNames) := st in
  if 64 <=? zlen (Host s) then mret st
  else if zlen (Shadow s) <? ShadowPrefixLen then mret st
  else
    let bpfKey := padded 8 (take 8 (Shadow s)) in
    let newKeys := {[bpfKey]} ∪ newKeys in
    let hostNames := match Host s with [] => hostNames | h => {[h]} ∪ hostNames end in
    put_secret bpfKey (raw_value s);;
    match huff_key s with
    | Some k =>
        if bool_decide (k ∈ newKeys) then mret (newKeys, hostNames)
        else put_secret k (huff_value s);; mret ({[k]} ∪ newKeys, hostNames)
    | None => mret (newKeys, hostNames)
    end.

Definition applySecrets (snapshot : list secret) : C (gset bytes) :=
  '(newKeys, hostNames) ← each apply_secret snapshot (∅, ∅);
  keys ← iterate k_secret_map;
  for_each delete_secret (List.filter (λ k, bool_decide (k ∉ newKeys)) keys);;
  mret hostNames.

Definition syncSecretACL (snapshot : list secret) (bindings : gmap bytes podBinding) : C unit :=
  let desired := secretACL snapshot bindings in
  keys ← iterate k_secret_acl;
  for_each grant_acl (List.filter (λ k, bool_decide (k ∉ keys)) (go_keys desired));;
  for_each revoke_acl (List.filter (λ k, bool_decide (k ∉ desired)) keys).

Definition syncVipPodHost (desired : gset vip_pod_host_key) : C unit :=
  keys ← iterate k_vip_pod_host;
  for_each revoke_host (List.filter (λ k, bool_decide (k ∉ desired)) keys);;
  for_each grant_host (List.filter (λ k, bool_decide (k ∉ keys)) (go_keys desired)).

(** *** The manager *)

(** What TLSUprobeManager keeps under bindMu. *)
Record manager := {
  bindings : gmap bytes podBinding; lastSnapshot : list secret;
  bindingAudit : bool; virtualIPs : option VirtualIPRanges
}.

Definition with_bindings (m : manager) (b : gmap bytes podBinding) : manager :=
  {| bindings := b; lastSnapshot := lastSnapshot m; bindingAudit := bindingAudit m; virtualIPs := virtualIPs m |}.
Definition with_snapshot (m : manager) (l : list secret) : manager :=
  {| bindings := bindings m; lastSnapshot := l; bindingAudit := bindingAudit m; virtualIPs := virtualIPs m |}.

Definition pod_hosts (m : manager) (b : gmap bytes podBinding) : gset vip_pod_host_key :=
  match virtualIPs m with Some _ => vipPodHosts (lastSnapshot m) b (bindingAudit m) | None => ∅ end.

Definition revokeLostLocked (m : manager) (prev : podBinding) (acl : gset secret_acl_key) (podHosts : gset vip_pod_host_key) : C unit :=
  let single := {[ [] := prev ]} in
  let lostACL := List.filter (λ k, bool_decide (k ∉ acl)) (go_keys (secretACL (lastSnapshot m) single)) in
  let lostHosts := List.filter (λ k, bool_decide (k ∉ podHosts)) (go_keys (pod_hosts m single)) in
  for_each revoke_acl (List.filter (λ k, bool_decide (k ∉ secretACL (lastSnapshot m) (bindings m))) lostACL);;
  for_each revoke_host (List.filter (λ k, bool_decide (k ∉ pod_hosts m (bindings m))) lostHosts).

Definition bindLocked (m : manager) (podUID : bytes) (b : podBinding) : C manager :=
  let prev := bindings m !! podUID in
  let m := with_bindings m (<[podUID := b]> (bindings m)) in
  let single := {[ podUID := b ]} in
  let acl := secretACL (lastSnapshot m) single in
  for_each grant_acl (go_keys acl);;
  let podHosts := pod_hosts m single in
  for_each grant_host (go_keys podHosts);;
  match prev with Some p => revokeLostLocked m p acl podHosts | None => mret () end;;
  mret m.

Definition BindPodSecrets (m : manager) (podUID : bytes) (ips : list ip) (cgs : list Z) (rs : list Ref) : C manager :=
  bindLocked m podUID {| podIPs := ips; cgroupIDs := cgs; refs := rs |}.
Definition current (m : manager) (podUID : bytes) : podBinding :=
  default {| podIPs := []; cgroupIDs := []; refs := [] |} (bindings m !! podUID).
Definition BindPodNetwork (m : manager) (podUID : bytes) (ips : list ip) (rs : list Ref) : C manager :=
  bindLocked m podUID {| podIPs := ips; cgroupIDs := cgroupIDs (current m podUID); refs := rs |}.
Definition BindPodContainer (m : manager) (podUID : bytes) (ips : list ip) (cg : Z) (rs : list Ref) : C manager :=
  let cur := current m podUID in
  let ips := match podIPs cur with [] => ips | l => l end in
  let cgs := if bool_decide (cg ∈ cgroupIDs cur) then cgroupIDs cur else cgroupIDs cur ++ [cg] in
  bindLocked m podUID {| podIPs := ips; cgroupIDs := cgs; refs := rs |}.

Definition UnbindPod (m : manager) (podUID : bytes) : C manager :=
  match bindings m !! podUID with
  | None => mret m
  | Some b =>
      let m := with_bindings m (delete podUID (bindings m)) in
      keys ← iterate k_secret_acl;
      for_each revoke_acl (List.filter (λ k, bool_decide (fst k ∈ cgroupIDs b)) keys);;
      match virtualIPs m, podIPs b with
      | None, _ | _, [] => mret ()
      | Some _, _ => syncVipPodHost (pod_hosts m (bindings m))
      end;;
      mret m
  end.

(** [None] is a snapshot that failed. The result: whether an error is reported. *)
Definition SyncSecrets (m : manager) (snapshot : option (list secret)) (now : Z) : C (manager * bool) :=
  match snapshot with
  | None => mret (m, true)
  | Some snapshot =>
      hosts ← applySecrets snapshot;
      match virtualIPs m with Some r => sync env fails seen r hosts now;; mret () | None => mret () end;;
      let m := with_snapshot m snapshot in
      syncSecretACL snapshot (bindings m);;
      match virtualIPs m with Some _ => syncVipPodHost (pod_hosts m (bindings m)) | None => mret () end;;
      err ← any_failed;
      mret (m, err)
  end.

End Sync.
End Code.
End Grants.
