(* ===== verification/SecretFacts.v ===== *)
(** * What the controller grants, and what that makes of the system

    [AclFacts]: which entries a snapshot and the bindings come to. [Governed]: the
    system with its controller, whatever fails, redeems only what a pod references. *)

From S2P Require Import Prelude Host GF128 Sni Dns VipAddr State Hooks HExtract XorPath Packet TcpSend SendFacts Vip VipHooks DnsRewrite.
From S2P Require Import VipPlan VipReserve VipSync VipSyncFacts StateType Keeps Frames InvSend System Refine Progress VipLive SecretSync.
#[local] Open Scope Z_scope.

Module AclFacts.
Import Types Plan Grants.

(** A loop that adds to a set. *)
Lemma fold_adds {X K} `{Countable K} (f : gset K → X → gset K) (P : X → Prop) k :
  (∀ S x, k ∈ f S x ↔ k ∈ S ∨ P x) → ∀ l S, k ∈ fold_left f l S ↔ k ∈ S ∨ ∃ x, x ∈ l ∧ P x.
Proof.
  intros Hf. induction l as [|x l IH]; intros S; cbn [fold_left].
  - split; [by left|]. intros [?|(x & []%elem_of_nil & _)]. done.
  - rewrite IH, Hf. setoid_rewrite elem_of_cons. naive_solver.
Qed.

Section Facts.
Context {go : GoOrder}.

Lemma elem_of_go_keys {K} `{Countable K} (X : gset K) k : k ∈ go_keys X ↔ k ∈ X.
Proof using.
  unfold go_keys. rewrite list_elem_of_fmap. split.
  - intros ([k' []] & -> & Hk). rewrite go_visits, elem_of_map_to_list, lookup_gset_to_gmap_Some in Hk. apply Hk.
  - intros Hk. exists (k, ()). split; [done|]. by rewrite go_visits, elem_of_map_to_list, lookup_gset_to_gmap_Some.
Qed.

(** *** The index *)

(** [r] refers to [s]. *)
Definition refers (r : Ref) (s : secret) : Prop :=
  ref_owner r = OwnerID s ∧ match ref_keys r with None => True | Some ks => Key s ∈ ks end.

(** An owner's key names one secret, as pkg/secrets promises of a snapshot. *)
Definition unique (snapshot : list secret) : Prop :=
  ∀ s1 s2, s1 ∈ snapshot → s2 ∈ snapshot → OwnerID s1 = OwnerID s2 → Key s1 = Key s2 → s1 = s2.

Definition named (ix : gmap bytes (gmap bytes secret)) (o k : bytes) : option secret := default ∅ (ix !! o) !! k.

Lemma index_snoc l s o k : named (indexSecrets (l ++ [s])) o k =
  if decide (OwnerID s = o ∧ Key s = k) then Some s else named (indexSecrets l) o k.
Proof using.
  unfold indexSecrets. rewrite fold_left_app. cbn [fold_left]. fold (indexSecrets l). unfold named.
  destruct (decide (OwnerID s = o)) as [<-|Ho].
  - rewrite lookup_insert_eq. cbn [from_option id]. destruct (decide (Key s = k)) as [<-|Hk].
    + by rewrite decide_True, lookup_insert_eq.
    + rewrite decide_False by tauto. by rewrite lookup_insert_ne.
  - rewrite decide_False by tauto. by rewrite lookup_insert_ne.
Qed.

Lemma named_sound l o k s : named (indexSecrets l) o k = Some s → s ∈ l ∧ OwnerID s = o ∧ Key s = k.
Proof using.
  induction l as [|x l IH] using rev_ind; [done|]. rewrite index_snoc, elem_of_app. case_decide; [|naive_solver].
  intros [= <-]. split; [right; by left|done].
Qed.

Lemma named_complete l s : unique l → s ∈ l → named (indexSecrets l) (OwnerID s) (Key s) = Some s.
Proof using.
  induction l as [|x l IH] using rev_ind; [by intros _ ?%elem_of_nil|]. intros Hu Hs. rewrite index_snoc. case_decide as E.
  - f_equal. apply Hu; [apply elem_of_app; right; by left|done|apply E..].
  - apply elem_of_app in Hs as [Hs|Hs]; [|apply list_elem_of_singleton in Hs as ->; by destruct E].
    apply IH; [|done]. intros s1 s2 H1 H2. apply Hu; apply elem_of_app; by left.
Qed.

Lemma elem_of_each_secret ix r s : s ∈ each_secret ix r ↔
  ∃ k, named ix (ref_owner r) k = Some s ∧ match ref_keys r with None => True | Some ks => k ∈ ks end.
Proof using.
  unfold each_secret, named. destruct (ref_keys r) as [ks|].
  - rewrite list_elem_of_omap. naive_solver.
  - rewrite list_elem_of_fmap. setoid_rewrite go_visits. split.
    + intros ([k x] & -> & Hx%elem_of_map_to_list). by exists k.
    + intros (k & Hk & _). exists (k, s). split; [done|]. by apply elem_of_map_to_list.
Qed.

Lemma each_sound l r s : s ∈ each_secret (indexSecrets l) r → s ∈ l ∧ refers r s.
Proof using.
  rewrite elem_of_each_secret. intros (k & (Hs & Ho & Hk)%named_sound & Hks). split; [done|]. split; [done|]. by rewrite Hk.
Qed.
Lemma each_complete l r s : unique l → s ∈ l → refers r s → s ∈ each_secret (indexSecrets l) r.
Proof using.
  intros Hu Hs [Ho Hk]. apply elem_of_each_secret. exists (Key s). rewrite Ho. split; [by apply named_complete|done].
Qed.

(** *** The entries *)

Context (huff : bytes → bytes).

(** What a binding grants over an index. *)
Definition pod_grants (l : list secret) (b : podBinding) (x : secret_acl_key) : Prop :=
  ∃ r s, r ∈ refs b ∧ s ∈ each_secret (indexSecrets l) r ∧ snd x ∈ placeholderKeys huff (Shadow s) ∧ fst x ∈ cgroupIDs b.

Lemma elem_of_secretACL l bs x : x ∈ secretACL huff l bs ↔ ∃ uid b, bs !! uid = Some b ∧ pod_grants l b x.
Proof using.
  unfold secretACL. rewrite (fold_adds _ (λ '(_, b), pod_grants l b x)).
  - rewrite elem_of_empty. split.
    + intros [[]|([uid b] & Hb & Hg)]. rewrite go_visits in Hb. exists uid, b. by rewrite <- elem_of_map_to_list.
    + intros (uid & b & Hb & Hg). right. exists (uid, b). by rewrite go_visits, elem_of_map_to_list.
  - intros S [uid b]. rewrite (fold_adds _ (λ r, ∃ s, s ∈ each_secret (indexSecrets l) r ∧ snd x ∈ placeholderKeys huff (Shadow s) ∧ fst x ∈ cgroupIDs b));
      [unfold pod_grants; naive_solver|].
    intros S1 r. rewrite (fold_adds _ (λ s, snd x ∈ placeholderKeys huff (Shadow s) ∧ fst x ∈ cgroupIDs b)); [done|].
    intros S2 s. rewrite (fold_adds _ (λ k, snd x = k ∧ fst x ∈ cgroupIDs b)); [naive_solver|].
    intros S3 k. rewrite (fold_adds _ (λ cg, x = (cg, k))); [|intros ? ?; rewrite elem_of_union, elem_of_singleton; tauto].
    destruct x as [cg' k']. cbn [fst snd]. naive_solver.
Qed.

End Facts.
End AclFacts.

Module Governed.
Import Host.Host GF128Facts Sni VipAddr Types Kernel NetIP Plan Reserve Sync VipFacts Values Config SyncLogic Hooks.Hooks TcpSend BridgeFacts Csums StateType System VipProgress Vault Refine Reads Live Grants AclFacts.

(** *** The values *)

Section Values.
Context (huff : bytes → bytes).

(** The entries of secret_map that a secret comes to. *)
Definition writes (s : secret) : list (secret_key * secret_value) :=
  if (64 <=? zlen (Host s)) || (zlen (Shadow s) <? ShadowPrefixLen) then []
  else (padded 8 (take 8 (Shadow s)), raw_value s) :: match huff_key huff s with Some k => [(k, huff_value huff s)] | None => [] end.

(** What pkg/secrets hands over: bytes, and a host that is a name. *)
Record secret_wf (s : secret) : Prop := {
  sw_real : bytes_ok (Real s);
  sw_host : Host s ≠ [] → zlen (Host s) < 64 → name (Host s);
  sw_ip : ∀ a, IP s = Some a → bytes_ok a
}.

Lemma padded_buf n l : bytes_ok l → buf n (padded n l).
Proof.
  intros Hl. unfold padded, buf, zeros. rewrite length_app, length_replicate, length_take. split; [lia|].
  apply bytes_ok_app. split; [by apply bytes_ok_take|apply bytes_ok_zeros].
Qed.
Lemma padded_take n l : padded n (take n l) = padded n l.
Proof. unfold padded. by rewrite take_take, Nat.min_id. Qed.

Lemma to16_ok a : bytes_ok a → bytes_ok (To16 a).
Proof.
  intros Ha. unfold To16. destruct (_ =? 4)%nat; [|destruct (_ =? 16)%nat; [done|constructor]].
  apply bytes_ok_app. split; [apply bytes_ok_zeros|]. apply bytes_ok_app. split; [by_compute|done].
Qed.

Lemma host_ok_pad s : secret_wf s → zlen (Host s) < 64 → host_buf (padded 64 (Host s)).
Proof.
  intros Hw Hl. destruct (decide (Host s = [])) as [->|Hne]; [split; [done|apply bytes_ok_zeros]|].
  change (host_buf (vipHostKey (Host s))). by apply host_key_buf, Hw.
Qed.

Lemma raw_value_ok s : secret_wf s → zlen (Host s) < 64 → secret_ok (raw_value s).
Proof.
  intros Hw Hl. pose proof (u32_range (zlen (Real s))). split.
  - cbn [raw_value sv_len]. destruct (128 <? u32 (zlen (Real s))); lia.
  - apply padded_buf, bytes_ok_take, Hw.
  - by apply host_ok_pad.
  - cbn [raw_value allowed_ip]. destruct (Host s), (IP s) eqn:E; try (split; [done|apply bytes_ok_zeros]). by apply padded_buf, to16_ok, (sw_ip s Hw).
Qed.

Lemma huff_value_ok s : (∀ l, bytes_ok (huff l)) → secret_wf s → zlen (Host s) < 64 → secret_ok (huff_value huff s).
Proof.
  intros Hh Hw Hl. destruct (raw_value_ok s Hw Hl) as [_ _ H3 H4]. split; [|apply padded_buf, bytes_ok_take|done..].
  - cbn [huff_value sv_len]. pose proof (zlen_nonneg (huff (Real s) ++ replicate (length (huff (Shadow s)) - length (huff (Real s))) 255)).
    destruct (128 <? _); lia.
  - apply bytes_ok_app. split; [done|]. apply Forall_replicate. by unfold byte.
Qed.

(** Its restrictions are those of the secret. *)
Lemma writes_value s k v : (k, v) ∈ writes s → zlen (Host s) < 64 ∧ k ∈ placeholderKeys huff (Shadow s) ∧
  (v = raw_value s ∨ v = huff_value huff s) ∧ host_len v = host_len (raw_value s) ∧ allowed_host v = allowed_host (raw_value s) ∧
  ip_len v = ip_len (raw_value s) ∧ allowed_ip v = allowed_ip (raw_value s) ∧ sv_port v = Port s.
Proof.
  unfold writes, placeholderKeys. destruct (Z.leb_spec 64 (zlen (Host s))); [by intros ?%elem_of_nil|].
  destruct (zlen (Shadow s) <? ShadowPrefixLen); [by intros ?%elem_of_nil|]. cbn [orb].
  rewrite padded_take, elem_of_cons. intros [[= -> ->]|Hk].
  - split; [done|]. split; [by left|]. by split; [left|].
  - destruct (huff_key huff s) as [hk|] eqn:E; [|by apply elem_of_nil in Hk]. apply list_elem_of_singleton in Hk. injection Hk as -> ->.
    unfold huff_key in E. unfold huffmanPlaceholderKey. destruct (Z.leb_spec 8 (zlen (huff (Shadow s)))); [|done].
    destruct (Z.ltb_spec (zlen (huff (Shadow s))) 8); [lia|]. destruct (_ && _); [|done]. injection E as <-.
    split; [done|]. split; [right; by left|]. by split; [right|].
Qed.

End Values.

(** *** Entitlements *)

Section Policy.
Context (csum : Skb.skb → Z → Z → Z → option Skb.skb) (Hcsum : csum_updates csum) {go : GoOrder}.
Context (huff : bytes → bytes) (Hhuff : ∀ l, bytes_ok (huff l)).
(** The secrets that snapshots held, and the bindings that pods had, so far. *)
Context (known : secret → Prop) (Hknown : ∀ s, known s → secret_wf s) (binds : podBinding → Prop).

(** A binding of a pod with the cgroup refers to a secret whose placeholder has the key. *)
Definition entitled (cg : Z) (k : secret_key) : Prop :=
  ∃ b r s, binds b ∧ cg ∈ cgroupIDs b ∧ r ∈ refs b ∧ known s ∧ refers r s ∧ k ∈ placeholderKeys huff (Shadow s).
Definition stored (k : secret_key) (v : secret_value) : Prop := ∃ s, known s ∧ (k, v) ∈ writes huff s.

Lemma stored_ok k v : stored k v → secret_ok v.
Proof using Hhuff Hknown.
  intros (s & Hs & Hw). destruct (writes_value huff s k v Hw) as (Hl & _ & [->| ->] & _).
  - by apply raw_value_ok; [apply Hknown|].
  - by apply huff_value_ok; [|apply Hknown|].
Qed.

(** The tables hold what the controller may have put there. *)
Record ruled (s : kst) : Prop := {
  ru_sound : sound csum s;
  ru_mode : k_secret_binding_mode s = 0;
  ru_acl : ∀ cg k, is_Some (k_secret_acl s !! (cg, k)) → entitled cg k;
  ru_secrets : map_Forall stored (k_secret_map s)
}.

(** A step that leaves the tables of the controller alone. *)
Definition calm (s s' : kst) : Prop :=
  ∃ l, step csum s l s' ∧
    (l = System.Update → vip_tables s' = vip_tables s ∧ k_vip_upstream s' = k_vip_upstream s ∧ grant_tables s' = grant_tables s).

Lemma calm_quiet s s' : calm s s' → quiet csum s s'.
Proof using. intros (l & Hst & Hl). exists l. split; [done|]. intros E. by destruct (Hl E) as (? & ? & _). Qed.

Lemma calm_grants s s' : kst_ok s → calm s s' → grant_tables s' = grant_tables s.
Proof using Hcsum.
  intros Hs (l & Hst & Hl). destruct l; cbn [step] in Hst; [|by destruct Hst|by destruct Hst|by apply Hl].
  destruct Hst as [Hc ->]. by apply program_grants.
Qed.

Lemma calms_sound s s' : rtc calm s s' → sound csum s → sound csum s' ∧ grant_tables s' = grant_tables s.
Proof using Hcsum.
  induction 1 as [s|s s1 s' Hq _ IH]; intros Hs; [done|]. pose proof (calm_grants s s1 (sound_ok csum Hcsum s Hs) Hq) as Et.
  destruct (quiet_sound csum Hcsum s s1 (rtc_once _ _ (calm_quiet _ _ Hq)) Hs) as [Hs1 _]. destruct (IH Hs1) as [? E]. by rewrite E.
Qed.

Lemma ruled_tables s s' : grant_tables s' = grant_tables s → sound csum s' → ruled s → ruled s'.
Proof using. intros Eg Hs' [_ H2 H3 H4]. injection Eg as E1 E2 E3 _ _. split; [done|..]; by rewrite ?E1, ?E2, ?E3. Qed.

Lemma calms_ruled s s' : rtc calm s s' → ruled s → ruled s'.
Proof using Hcsum. intros Hq Hr. destruct (calms_sound s s' Hq (ru_sound s Hr)) as [H1 H2]. by apply (ruled_tables s). Qed.

(** *** What the system does under them *)

(** The socket is one the secret's restrictions allow: it connected to the host's fake
    IP and its ClientHello named the host, it goes to the IP, and to the port. *)
Definition sends (s : kst) (sk : sock) (sec : secret) : Prop :=
  (Host sec ≠ [] → skc_cookie sk ≠ 0 ∧ k_vip_sock_host s !! skc_cookie sk = Some (padded 64 (Host sec)) ∧
    (k_sni_check_mode s = SNI_CHECK_AUDIT ∨
     ∃ st, k_sni_state s !! sk_ptr sk = Some st ∧ st_status st = SNI_STATUS_SEEN ∧ st_sni st = padded 64 (Host sec))) ∧
  (Host sec = [] → ∀ a, IP sec = Some a → take 16 (fst (checked_dst s sk)) = padded 16 (To16 a)) ∧
  (Port sec ≠ 0 → snd (checked_dst s sk) = Port sec).

(** The policy of the control plane's objects: a process redeems what a binding of its
    pod refers to, and a secret leaves on the sockets its restrictions allow. *)
Definition pods_policy (s : kst) : policy :=
  {| redeem := λ cg k, entitled cg k ∧ ∃ sec v, known sec ∧ (k, v) ∈ writes huff sec;
     leave := λ sk k, ∃ sec v, known sec ∧ (k, v) ∈ writes huff sec ∧ sends s sk sec |}.

Lemma seen_for s sk val : sni_status_for s sk val = SNI_STATUS_SEEN →
  ∃ st, k_sni_state s !! sk_ptr sk = Some st ∧ st_status st = SNI_STATUS_SEEN ∧ hosts_match (st_sni st) (allowed_host val) = true.
Proof using.
  unfold sni_status_for. destruct (k_sni_state s !! _) as [st|]; [|done]. destruct (Z.eqb_spec (st_status st) SNI_STATUS_SEEN) as [E|]; cbn [andb]; [|done].
  destruct (hosts_match _ _) eqn:Em; cbn [negb]; [|done]. intros _. by exists st.
Qed.

Lemma leave_sends s sk k : kst_ok s → map_Forall stored (k_secret_map s) →
  may_leave s sk (k_sni_check_mode s =? SNI_CHECK_AUDIT) k = true → leave (pods_policy s) sk k.
Proof using Hknown.
  intros Hs Hsec Hm. unfold may_leave in Hm. destruct (k_secret_map s !! k) as [val|] eqn:Ek; [|done].
  destruct (Hsec k val Ek) as (sec & Hkn & Hw). exists sec, val. split; [done|]. split; [done|].
  pose proof (Hknown sec Hkn) as Hwf. destruct (writes_value huff sec k val Hw) as (Hl & _ & _ & E1 & E2 & E3 & E4 & E5).
  pose proof (host_ok_pad sec Hwf Hl) as Hpad. pose proof (zlen_nonneg (Host sec)).
  apply andb_true_iff in Hm as [Hv Hn]. unfold vip_socket_check, restricted in *. rewrite E1, E2, E3, E4, E5 in Hv. rewrite E1 in Hn. split; [|split].
  - intros Hne. assert (Hr : (0 <? host_len (raw_value sec)) && (host_len (raw_value sec) <? MAX_HOST_LEN) = true).
    { cbn [raw_value host_len]. destruct (Host sec) as [|x h] eqn:Eh; [done|]. rewrite zlen_cons in *. pose proof (zlen_nonneg h). rewrite u32_small by lia.
      unfold MAX_HOST_LEN. apply andb_true_iff. rewrite !Z.ltb_lt. lia. }
    rewrite Hr in Hv, Hn. destruct (Z.eqb_spec (skc_cookie sk) 0); [done|]. split; [done|].
    destruct (k_vip_sock_host s !! skc_cookie sk) as [h|] eqn:Eh; [|done]. destruct (hosts_match h (allowed_host (raw_value sec))) eqn:Em; [|done].
    apply hosts_match_eq in Em as ->; [|by apply (ok_sock_host s Hs (skc_cookie sk))|done]. split; [done|].
    cbn [negb orb] in Hn. apply orb_true_iff in Hn as [Hn|Hn]; apply Z.eqb_eq in Hn; [right|by left].
    apply seen_for in Hn as (st & Est & Hst & Em). exists st. split; [done|]. split; [done|]. rewrite E2 in Em.
    apply hosts_match_eq in Em; [done| |done]. exact (ok_sni s Hs _ _ Est).
  - intros He a Ea. cbn [raw_value host_len ip_len allowed_ip allowed_host] in Hv. rewrite He, Ea in Hv. cbn [Z.eqb Z.ltb Z.compare andb] in Hv.
    destruct (bool_decide_reflect (take 16 (fst (checked_dst s sk)) = take 16 (padded 16 (To16 a)))) as [E|]; [|done].
    rewrite E. apply take_ge. unfold padded, zeros. rewrite length_app, length_replicate, length_take. lia.
  - intros Hp. destruct (_ && _ && _); [done|]. destruct (_ && _); [done|]. destruct (Z.eqb_spec (Port sec) 0); [done|]. cbn [negb andb] in Hv.
    by destruct (Z.eqb_spec (snd (checked_dst s sk)) (Port sec)).
Qed.

Lemma act_mono P P' who v v' : (∀ cg k, redeem P cg k → redeem P' cg k) → (∀ sk k, leave P sk k → leave P' sk k) → act P who v v' → act P' who v v'.
Proof using.
  intros Hr Hl H. destruct H.
  - apply hold; [done..|]. eapply Forall_impl; [done|]. intros k. apply Hr.
  - apply forget.
  - eapply send; [done..|]. eapply Forall_impl; [done|]. intros k. apply Hl.
  - apply gone.
Qed.

Lemma ruled_policy s : ruled s → (∀ cg k, redeem (policy_of s) cg k → redeem (pods_policy s) cg k) ∧
  (∀ sk k, leave (policy_of s) sk k → leave (pods_policy s) sk k).
Proof using Hcsum Hknown.
  intros [Hs Hm Ha Hsec]. split.
  - intros cg k [(val & Ek & _) [Hb|Hb]]; [|cbn in Hb; by rewrite Hm in Hb]. split; [by apply Ha|].
    destruct (Hsec k val Ek) as (sec & ? & ?). by exists sec, val.
  - intros sk k. apply leave_sends; [by apply (sound_ok csum)|done].
Qed.

Lemma ruled_acts s l s' : ruled s → step csum s l s' → rtc (act (pods_policy s) (actor l)) (abs s) (abs s').
Proof using Hcsum Hknown.
  intros Hr Hst. destruct (ruled_policy s Hr) as [H1 H2]. pose proof (step_acts csum Hcsum s l s' Hst (sound_ok csum Hcsum s (ru_sound s Hr))) as H.
  induction H as [|v1 v2 v3 Ha _ IH]; [done|]. eapply rtc_l; [by eapply act_mono|done].
Qed.

(** *** The operations *)

Lemma secrets_update s m : kst_ok s → map_Forall (λ _ v, secret_ok v) m → updates s (s <| k_secret_map := m |>).
Proof using. intros [] Hm. constructor; try done. by left. Qed.
Lemma acl_update s m : kst_ok s → updates s (s <| k_secret_acl := m |>).
Proof using. intros []. constructor; try done. by left. Qed.
Lemma pod_host_update s m : kst_ok s → updates s (s <| k_vip_pod_host := m |>).
Proof using. intros []. constructor; try done. by left. Qed.

Lemma ruled_update s s' : ruled s → updates s s' → k_vip_ip_host s' = k_vip_ip_host s → k_secret_binding_mode s' = k_secret_binding_mode s →
  (∀ cg k, is_Some (k_secret_acl s' !! (cg, k)) → entitled cg k) → map_Forall stored (k_secret_map s') → ruled s'.
Proof using.
  intros [Hs Hm _ _] Hu Ei Em Ha Hsec. split; [|congruence|done..]. apply (sound_step csum s); [done|done|]. rewrite Ei. apply Hs.
Qed.

Lemma ruled_secrets s m : ruled s → map_Forall stored m → ruled (s <| k_secret_map := m |>).
Proof using Hcsum Hhuff Hknown.
  intros Hr Hm. apply (ruled_update s); try done; [|apply Hr]. apply secrets_update; [by apply (sound_ok csum), ru_sound|].
  eapply map_Forall_impl; [exact Hm|]. apply stored_ok.
Qed.
Lemma ruled_acl s m : ruled s → (∀ cg k, is_Some (m !! (cg, k)) → entitled cg k) → ruled (s <| k_secret_acl := m |>).
Proof using Hcsum. intros Hr Hm. apply (ruled_update s); try done; [|apply Hr]. apply acl_update. by apply (sound_ok csum), ru_sound. Qed.
Lemma ruled_hosts s m : ruled s → ruled (s <| k_vip_pod_host := m |>).
Proof using Hcsum. intros Hr. apply (ruled_update s); try done; [|apply Hr..]. apply pod_host_update. by apply (sound_ok csum), ru_sound. Qed.

Lemma ruled_grant s x : ruled s → entitled x.1 x.2 → ruled (s <| k_secret_acl := snd (hash_update secret_acl_max_entries x 1 (k_secret_acl s)) |>).
Proof using Hcsum.
  intros Hs Hx. apply ruled_acl; [done|]. intros cg k. unfold hash_update. destruct (_ || _); cbn [snd]; [|apply Hs].
  destruct (decide (x = (cg, k))) as [->|Hne]; [done|]. rewrite lookup_insert_ne by done. apply (ru_acl s Hs).
Qed.
Lemma ruled_revoke s x : ruled s → ruled (s <| k_secret_acl := delete x (k_secret_acl s) |>).
Proof using Hcsum. intros Hs. apply ruled_acl; [done|]. intros cg k [v (_ & Hk)%lookup_delete_Some]. apply (ru_acl s Hs). by exists v. Qed.

Lemma entitled_granted l b x : Forall known l → binds b → pod_grants huff l b x → entitled x.1 x.2.
Proof using.
  intros Hl Hb (r & s & Hr & [Hs Hrs]%each_sound & Hk & Hc). rewrite Forall_forall in Hl. exists b, r, s. auto 10.
Qed.
Lemma entitled_acl l bs x : Forall known l → (∀ uid b, bs !! uid = Some b → binds b) → x ∈ secretACL huff l bs → entitled x.1 x.2.
Proof using. intros Hl Hbs (uid & b & Hb & Hg)%elem_of_secretACL. apply (entitled_granted l b); [done|by apply (Hbs uid)|done]. Qed.

Section Ops.
Context (env : nat → kst → kst) (fails : op → nat → bool) (seen : nat → nat).
Context (ranges : VirtualIPRanges) (Hranges : ranges_ok ranges).

(** What the manager has was given to it. *)
Definition manager_ok (m : manager) : Prop :=
  Forall known (lastSnapshot m) ∧ (∀ uid b, bindings m !! uid = Some b → binds b) ∧ ∀ r, virtualIPs m = Some r → r = ranges.

(** A state the controller rules, with [E] of its tables of secrets and grants. *)
Definition held_by (E : gmap secret_key secret_value → gmap secret_acl_key Z → Prop) (s : kst) : Prop :=
  ruled s ∧ E (k_secret_map s) (k_secret_acl s).
Definition any_tables : gmap secret_key secret_value → gmap secret_acl_key Z → Prop := λ _ _, True.

(** [m] goes from tables in [E] to tables in [E'], through states the controller rules. *)
Abbreviation goes E m E' := (runs ruled (held_by E) m (λ _, held_by E')).

(** What lasts while others run. *)
Context (lasts : (gmap secret_key secret_value → gmap secret_acl_key Z → Prop) → Prop) (Henv : ∀ E, lasts E → stable env (held_by E)).

Lemma held_ruled E s : held_by E s → ruled s.
Proof using. by intros [? _]. Qed.

Lemma goes_for_each {X} E (f : X → C (option unit)) l : lasts E → (∀ x, x ∈ l → goes E (f x) E) → goes E (for_each f l) E.
Proof using Hcsum Henv.
  intros HE Hf. unfold for_each. apply (keeps_each env (held_by E) ruled (Henv E HE) (held_ruled E)). intros u x Hx.
  eapply runs_bind; [by apply Hf|]. intros ?. by apply runs_ret.
Qed.

Lemma goes_iterate {K V} `{Countable K} E (f : kst → gmap K V) : lasts E → goes E (iterate env fails seen f) E.
Proof using Hcsum Henv.
  intros HE c Hp Hr. unfold iterate. destruct (keeps_read env fails (held_by E) ruled (Henv E HE) (held_ruled E) (λ _, ()) c Hp Hr) as [[H1 _] H2].
  destruct (map_read env fails (λ _, ()) c) as [? c']. by split.
Qed.

(** *** One operation *)

(** An operation of [o] takes [E] to [E']: it does, and it never fails unless that is in
    [E'] as well. *)
Lemma goes_op (E E' : gmap secret_key secret_value → gmap secret_acl_key Z → Prop) o (f : kst → option (unit * kst)) :
  lasts E → (∀ s, held_by E s → match f s with Some (_, s') => held_by E' s' | None => held_by E' s end) →
  (∀ m a, E m a → E' m a ∨ ∀ n, fails o n = false) → goes E (map_op env fails o f) E'.
Proof using Hcsum Henv.
  intros HE Hf Hx. apply runs_op; [by apply Henv|apply held_ruled| |].
  - intros s Hs. specialize (Hf s Hs). destruct (f s) as [[x s']|]; [|done]. split; [done|by apply (held_ruled E')].
  - intros n s [Hs He] Hn. destruct (Hx _ _ He) as [?|H]; [by split|]. by rewrite H in Hn.
Qed.

Lemma goes_put_secret E E' k v : lasts E → stored k v → (∀ m a, E m a → E' (snd (hash_update secret_map_max_entries k v m)) a) →
  (∀ m a, E m a → E' m a ∨ ∀ n, fails Sync.Update n = false) → goes E (put_secret env fails k v) E'.
Proof using Hcsum Henv Hhuff Hknown.
  intros Hl Hst HE Hx. apply goes_op; [done| |done]. intros s [Hs He]. specialize (HE _ _ He).
  pose proof (hash_update_all stored secret_map_max_entries k v (k_secret_map s) Hst (ru_secrets s Hs)) as H.
  unfold hash_update in *. destruct (_ || _); cbn [snd] in *; (split; [|done]); [by apply ruled_secrets|done].
Qed.
Lemma goes_delete_secret E E' k : lasts E → (∀ m a, E m a → E' (delete k m) a) → (∀ m a, E m a → E' m a ∨ ∀ n, fails Delete n = false) →
  goes E (delete_secret env fails k) E'.
Proof using Hcsum Henv Hhuff Hknown.
  intros Hl HE Hx. apply goes_op; [done| |done]. intros s [Hs He]. split; [|by apply HE]. apply ruled_secrets; [done|]. apply map_Forall_delete, Hs.
Qed.
Lemma goes_grant_acl E E' x : lasts E → entitled x.1 x.2 → (∀ m a, E m a → E' m (snd (hash_update secret_acl_max_entries x 1 a))) →
  (∀ m a, E m a → E' m a ∨ ∀ n, fails Sync.Update n = false) → goes E (grant_acl env fails x) E'.
Proof using Hcsum Henv.
  intros Hl Hx HE Hf. apply goes_op; [done| |done]. intros s [Hs He]. specialize (HE _ _ He). pose proof (ruled_grant s x Hs Hx).
  unfold hash_update in *. by destruct (_ || _).
Qed.
Lemma goes_revoke_acl E E' x : lasts E → (∀ m a, E m a → E' m (delete x a)) → (∀ m a, E m a → E' m a ∨ ∀ n, fails Delete n = false) →
  goes E (revoke_acl env fails x) E'.
Proof using Hcsum Henv.
  intros Hl HE Hf. apply goes_op; [done| |done]. intros s [Hs He]. split; [by apply ruled_revoke|by apply HE].
Qed.
Lemma goes_grant_host E x : lasts E → goes E (grant_host env fails x) E.
Proof using Hcsum Henv.
  intros Hl. apply goes_op; [done| |by left]. intros s [Hs He]. unfold hash_update. destruct (_ || _); (split; [by apply ruled_hosts|done]) || done.
Qed.
Lemma goes_revoke_host E x : lasts E → goes E (revoke_host env fails x) E.
Proof using Hcsum Henv. intros Hl. apply goes_op; [done| |by left]. intros s [Hs He]. split; [by apply ruled_hosts|done]. Qed.

(** *** What leaves the two tables alone *)

Lemma goes_pod_hosts E desired : lasts E → goes E (syncVipPodHost env fails seen desired) E.
Proof using Hcsum Henv.
  intros Hl. unfold syncVipPodHost. eapply runs_bind; [by apply goes_iterate|]. intros keys.
  eapply runs_bind; [apply goes_for_each; [done|]; intros; by apply goes_revoke_host|]. intros ?. apply goes_for_each; [done|]. intros. by apply goes_grant_host.
Qed.

Lemma goes_vip E hosts now : lasts E → names hosts → now_ok now → goes E (sync env fails seen ranges hosts now) E.
Proof using Hcsum Henv Hranges.
  intros Hl Hn Hnow. apply (sync_runs csum ranges Hranges); try done; [by apply Henv|apply held_ruled|by intros s [[]]|].
  intros s1 entries cur h4 h6 Hs1 Hp. destruct (sound_ops csum Hcsum ranges hosts _ entries cur h4 h6 Hp) as [S1 S2 S3 S4 S5]. split.
  - intros h s Hh [Hs He]. split; [|done]. apply (ruled_tables s); [done| |done]. by apply S1, Hs.
  - intros a s Ha Ea [Hs He]. split; [|done]. apply (ruled_tables s); [done| |done]. by apply S2, Hs.
  - intros k s Hk [Hs He]. split; [|done]. apply (ruled_tables s); [done| |done]. by apply S3, Hs.
  - intros a e s Ea Hne [Hs He]. split; [|done]. apply (ruled_tables s); [done| |done]. by apply (S4 a e), Hs.
  - intros h v g4 g6 s H4 H6 Hv [Hs He]. split; [|done]. apply (ruled_tables s); [done| |done]. by apply (S5 h v g4 g6), Hs.
Qed.

(** *** Whatever fails *)

Context (Hany : lasts any_tables).

Abbreviation keeps_ruled m := (goes any_tables m any_tables).

Lemma keeps_revokes l : keeps_ruled (for_each (revoke_acl env fails) l).
Proof using Hany Hcsum Henv. apply goes_for_each; [done|]. intros x _. apply goes_revoke_acl; [done..|by left]. Qed.
Lemma keeps_grants l : (∀ x, x ∈ l → entitled x.1 x.2) → keeps_ruled (for_each (grant_acl env fails) l).
Proof using Hany Hcsum Henv. intros Hl. apply goes_for_each; [done|]. intros x Hx. apply goes_grant_acl; [done|by apply Hl|done|by left]. Qed.

Lemma desired_entitled l bs (keys : list secret_acl_key) x : Forall known l → (∀ uid b, bs !! uid = Some b → binds b) →
  x ∈ List.filter (λ k, bool_decide (k ∉ keys)) (go_keys (secretACL huff l bs)) → entitled x.1 x.2.
Proof using. intros Hl Hbs [Hx%list_elem_of_In%elem_of_go_keys _]%list_elem_of_In%filter_In. by apply (entitled_acl l bs). Qed.

Lemma keeps_acl l bs : Forall known l → (∀ uid b, bs !! uid = Some b → binds b) → keeps_ruled (syncSecretACL huff env fails seen l bs).
Proof using Hany Hcsum Henv.
  intros Hl Hbs. unfold syncSecretACL. eapply runs_bind; [by apply goes_iterate|]. intros keys.
  eapply runs_bind; [apply keeps_grants; intros x; by apply desired_entitled|]. intros ?. apply keeps_revokes.
Qed.

Lemma names_step hosts s : known s → zlen (Host s) < 64 → names hosts → names (match Host s with [] => hosts | h => {[h]} ∪ hosts end).
Proof using Hknown.
  intros Hs Hl Hn. pose proof (sw_host s (Hknown s Hs)) as H. destruct (Host s) as [|x h]; [done|]. intros g [->%elem_of_singleton|Hg]%elem_of_union; [|by apply Hn].
  by apply H.
Qed.

Lemma stored_writes s k v : known s → (k, v) ∈ writes huff s → stored k v.
Proof using. intros Hs ?. by exists s. Qed.

Lemma keeps_apply_secret st s : known s → names st.2 → runs ruled (held_by any_tables) (apply_secret huff env fails st s) (λ st s, held_by any_tables s ∧ names st.2).
Proof using Hany Hcsum Henv Hhuff Hknown.
  intros Hs Hn. destruct st as [newKeys hostNames]. cbn [snd] in Hn. unfold apply_secret. pose proof (λ k v, stored_writes s k v Hs) as Hw. unfold writes in Hw.
  destruct (Z.leb_spec 64 (zlen (Host s))); [by apply runs_ret|]. destruct (zlen (Shadow s) <? ShadowPrefixLen); [by apply runs_ret|]. cbn [orb] in Hw.
  pose proof (names_step hostNames s Hs ltac:(done) Hn) as Hn'.
  eapply runs_bind; [apply (goes_put_secret any_tables any_tables); [done|apply Hw; by left|done|by left]|]. intros ?.
  destruct (huff_key huff s) as [k|]; [|by apply runs_ret]. destruct (bool_decide _); [by apply runs_ret|].
  eapply runs_bind; [apply (goes_put_secret any_tables any_tables); [done|apply Hw; right; by left|done|by left]|]. intros ?. by apply runs_ret.
Qed.

Lemma keeps_snapshot l : Forall known l → runs ruled (held_by any_tables) (applySecrets huff env fails seen l) (λ hosts s, held_by any_tables s ∧ names hosts).
Proof using Hany Hcsum Henv Hhuff Hknown.
  intros Hl. unfold applySecrets. apply (runs_bind _ _ _ _ (λ st s, held_by any_tables s ∧ names st.2)).
  - eapply runs_impl; [| |apply (runs_each ruled (λ _ st s, held_by any_tables s ∧ names st.2))]; [|done|].
    + intros s Hs. split; [done|]. intros h []%elem_of_empty.
    + intros dn s rest st E. apply runs_fact. intros Hn. apply keeps_apply_secret; [|done]. rewrite Forall_forall in Hl. apply Hl.
      rewrite E. apply elem_of_app. right. by left.
  - intros [newKeys hostNames]. apply runs_fact. intros Hn. eapply runs_bind; [by apply goes_iterate|]. intros keys.
    eapply runs_bind; [apply goes_for_each; [done|]; intros; apply goes_delete_secret; [done..|by left]|]. intros ?. by apply runs_ret.
Qed.

Lemma keeps_pod_binding m uid b : manager_ok m → binds b → keeps_ruled (bindLocked huff env fails m uid b).
Proof using Hany Hcsum Henv.
  intros (Hl & Hbs & _) Hb. unfold bindLocked. eapply runs_bind.
  { apply keeps_grants. intros x Hx%elem_of_go_keys. apply (entitled_acl (lastSnapshot m) {[uid := b]}); [done| |exact Hx].
    by intros uid' b' [_ <-]%lookup_singleton_Some. }
  intros ?. eapply runs_bind; [apply goes_for_each; [done|]; intros; by apply goes_grant_host|]. intros ?.
  apply (runs_bind _ _ _ _ (λ _, held_by any_tables)); [|intros ?; by apply runs_ret].
  destruct (bindings m !! uid); [|by apply runs_ret]. unfold revokeLostLocked.
  eapply runs_bind; [apply keeps_revokes|]. intros ?. apply goes_for_each; [done|]. intros. by apply goes_revoke_host.
Qed.

Lemma keeps_unbind m uid : keeps_ruled (UnbindPod env fails seen m uid).
Proof using Hany Hcsum Henv.
  unfold UnbindPod. destruct (bindings m !! uid) as [b|]; [|by apply runs_ret]. eapply runs_bind; [by apply goes_iterate|]. intros keys.
  eapply runs_bind; [apply keeps_revokes|]. intros ?. apply (runs_bind _ _ _ _ (λ _, held_by any_tables)); [|intros ?; by apply runs_ret].
  cbn [with_bindings virtualIPs bindings]. destruct (virtualIPs m), (podIPs b); first [by apply runs_ret|by apply goes_pod_hosts].
Qed.

Lemma goes_vips E m hosts now : lasts E → manager_ok m → names hosts → now_ok now →
  goes E (match virtualIPs m with Some r => sync env fails seen r hosts now;; mret () | None => mret () end) E.
Proof using Hany Hcsum Henv Hranges.
  intros Hl (_ & _ & Hv) Hn Hnow. destruct (virtualIPs m) as [r|]; [|by apply (runs_ret _ (held_by E) () (λ _, held_by E))]. rewrite (Hv r eq_refl).
  eapply runs_bind; [by apply goes_vip|]. intros ?. by apply (runs_ret _ (held_by E) () (λ _, held_by E)).
Qed.

(** The end of a sync: the fake IPs of the pods, and the result. *)
Lemma goes_sync_end E m : lasts E → runs ruled (held_by E) (match virtualIPs m with Some _ => syncVipPodHost env fails seen (pod_hosts m (bindings m)) | None => mret () end;;
  err ← any_failed; mret (m, err)) (λ r s, held_by E s ∧ fst r = m).
Proof using Hany Hcsum Henv.
  intros Hl. apply (runs_bind _ _ _ _ (λ _, held_by E)).
  - destruct (virtualIPs m); [by apply goes_pod_hosts|by apply runs_ret].
  - intros ? c Hc Hr. by split.
Qed.

Lemma keeps_sync m l now : manager_ok m → now_ok now → (∀ l', l = Some l' → Forall known l') → keeps_ruled (SyncSecrets huff env fails seen m l now).
Proof using Hany Hcsum Henv Hhuff Hknown Hranges.
  intros Hm Hnow Hl. unfold SyncSecrets. destruct l as [l|]; [|by apply runs_ret]. specialize (Hl l eq_refl).
  eapply runs_bind; [by apply keeps_snapshot|]. intros hosts. apply runs_fact. intros Hn. eapply runs_bind; [by apply goes_vips|].
  intros ?. eapply runs_bind; [apply keeps_acl; [done|apply Hm]|]. intros ?.
  eapply runs_impl; [| |by apply goes_sync_end]; [done|by intros ? ? [? _]].
Qed.

End Ops.

(** *** The life of the system with its controller *)

(** What the controller is asked to do: the three functions that bind a pod are
    bindLocked of a binding they make. *)
Inductive request := Bind (podUID : bytes) (b : podBinding) | Unbind (podUID : bytes) | Sync_all (snapshot : option (list secret)) (now : Z).

Definition perform (env : nat → kst → kst) (fails : op → nat → bool) (seen : nat → nat) (m : manager) (q : request) : C manager :=
  match q with
  | Bind uid b => bindLocked huff env fails m uid b
  | Unbind uid => UnbindPod env fails seen m uid
  | Sync_all l now => r ← SyncSecrets huff env fails seen m l now; mret (fst r)
  end.

Definition request_ok (q : request) : Prop :=
  match q with
  | Bind _ b => binds b
  | Unbind _ => True
  | Sync_all l now => now_ok now ∧ ∀ l', l = Some l' → Forall known l'
  end.

(** A map operation of a goroutine that binds or unbinds a pod. *)
Inductive touches (s : kst) : kst → Prop :=
  | touch_grant x : entitled x.1 x.2 → touches s (s <| k_secret_acl := snd (hash_update secret_acl_max_entries x 1 (k_secret_acl s)) |>)
  | touch_revoke x : touches s (s <| k_secret_acl := delete x (k_secret_acl s) |>)
  | touch_host x : touches s (s <| k_vip_pod_host := snd (hash_update vip_pod_host_max_entries x 1 (k_vip_pod_host s)) |>)
  | touch_unhost x : touches s (s <| k_vip_pod_host := delete x (k_vip_pod_host s) |>).

(** What happens between two map operations: programs run, without and with others that
    bind and unbind pods (a sync takes the lock of the bindings only for its last part). *)
Definition calmly (env : nat → kst → kst) : Prop := ∀ n s, rtc calm s (env n s).
Definition busily (env : nat → kst → kst) : Prop := ∀ n s, rtc (λ s s', calm s s' ∨ touches s s') s (env n s).

(** A step of the system, or any moment of an operation of the controller, which may
    die there. *)
Inductive governs (ranges : VirtualIPRanges) (s s' : kst) : Prop :=
  | by_step : calm s s' → governs ranges s s'
  | by_request env fails seen m q : busily env → manager_ok ranges m → request_ok q →
      s' ∈ moments (snd (perform env fails seen m q (start s))) → governs ranges s s'.

Lemma touches_ruled s s' : touches s s' → ruled s → ruled s'.
Proof using Hcsum. intros Ht Hs. destruct Ht; first [by apply ruled_grant|by apply ruled_revoke|by apply ruled_hosts]. Qed.

Lemma busily_lasts env : busily env → stable env (held_by any_tables).
Proof using Hcsum.
  intros He n s [Hs _]. split; [|done]. specialize (He n s). induction He as [s|s s1 s' [Hc|Ht] _ IH]; [done|..]; apply IH.
  - by apply (calms_ruled s); [apply rtc_once|].
  - by apply (touches_ruled s).
Qed.

Lemma calmly_lasts env E : calmly env → stable env (held_by E).
Proof using Hcsum.
  intros Henv n s [Hs He]. split; [by apply (calms_ruled s)|]. destruct (calms_sound s (env n s) (Henv n s) (ru_sound s Hs)) as [_ Et].
  injection Et as E1 E2 _ _ _. by rewrite E1, E2.
Qed.

Lemma perform_ruled env fails seen ranges m q s : busily env → ranges_ok ranges → manager_ok ranges m → request_ok q → ruled s →
  Forall ruled (moments (snd (perform env fails seen m q (start s)))).
Proof using Hcsum Hhuff Hknown.
  intros He Hr Hm Hq Hs. pose proof (busily_lasts env He) as Hl.
  assert (Hx : ∀ E, E = any_tables → stable env (held_by E)) by (by intros ? ->).
  assert (H : runs ruled (held_by any_tables) (perform env fails seen m q) (λ _, held_by any_tables)).
  { destruct q as [uid b|uid|l now]; cbn [perform request_ok] in *.
    - by apply (keeps_pod_binding env fails ranges _ Hx).
    - by apply (keeps_unbind env fails seen _ Hx).
    - destruct Hq as [Hnow Hq]. eapply runs_bind; [by apply (keeps_sync env fails seen ranges Hr _ Hx)|]. intros r. by apply runs_ret. }
  destruct (H (start s) (conj Hs I) (Forall_nil_2 _)) as [[H1 _] H2]. by apply Forall_cons_2.
Qed.

Lemma governs_ruled ranges s s' : ranges_ok ranges → rtc (governs ranges) s s' → ruled s → ruled s'.
Proof using Hcsum Hhuff Hknown.
  intros Hr. induction 1 as [s|s s1 s' Hg _ IH]; intros Hs; [done|]. apply IH. destruct Hg as [Hc|env fails seen m q He Hm Hq Hin].
  - by apply (calms_ruled s); [apply rtc_once|].
  - pose proof (perform_ruled env fails seen ranges m q s He Hr Hm Hq Hs) as H. rewrite Forall_forall in H. by apply H.
Qed.

Lemma init_ruled : ruled kst_init.
Proof using.
  split.
  - split; [apply reach_load|]. split; [vm_compute; congruence|].
    change (k_vip_ip_host kst_init) with (∅ : gmap addr16 vip_ip_val). by intros k v []%lookup_empty_Some.
  - reflexivity.
  - change (k_secret_acl kst_init) with (∅ : gmap secret_acl_key Z). intros cg k H. rewrite lookup_empty in H. by destruct H.
  - change (k_secret_map kst_init) with (∅ : gmap secret_key secret_value). by intros k v []%lookup_empty_Some.
Qed.

End Policy.

(** C8: pods redeem only what they reference, and secrets leave only where they may:
    from the loading of the programs on, whatever runs, whatever the controller is asked
    to do (bind and unbind pods, sync snapshots of secrets, other pods bound and unbound
    between the map operations), in whatever order Go visits its maps, wherever its map
    operations fail and wherever it dies, in enforce mode each step of the system is a
    run of the abstract machine of secrets under the policy of the control plane's
    objects: a process comes to hold a secret only if a binding of a pod with its cgroup
    refers to a secret of that placeholder, and a secret leaves only on a socket that
    its own host, IP and port allow. *)
Theorem pods_redeem_only_references {go : GoOrder} csum huff known binds ranges s l s' : csum_updates csum →
  (∀ x, bytes_ok (huff x)) → (∀ sec, known sec → secret_wf sec) → ranges_ok ranges →
  rtc (governs csum huff known binds ranges) kst_init s → step csum s l s' →
  reachable csum s ∧ rtc (act (pods_policy huff known binds s) (actor l)) (abs s) (abs s').
Proof.
  intros Hf Hh Hk Hr Hg Hst. pose proof (governs_ruled csum Hf huff Hh known Hk binds ranges kst_init s Hr Hg (init_ruled csum huff known binds)) as H.
  split; [apply H|]. by apply (ruled_acts csum Hf huff known Hk binds s l s').
Qed.

(** A pod with the cgroup 3 refers to the one secret there is; the secrets are synced
    while the iteration over secret_map fails, and then the pod writes its placeholder. *)
Definition sample_secret : secret :=
  {| OwnerID := [1]; Key := [2]; Real := [97; 98; 99]; Shadow := XorPathFacts.sample_key; Host := []; IP := None; Port := 0; Protocol := 0 |}.
Definition sample_binding : podBinding := {| podIPs := []; cgroupIDs := [3]; refs := [{| ref_owner := [1]; ref_keys := None |}] |}.
Definition sample_manager : manager := {| bindings := {[ [7] := sample_binding ]}; lastSnapshot := []; bindingAudit := false; virtualIPs := None |}.
Definition sample_huff (l : bytes) : bytes := map (λ b, (b + 1) mod 256) l.
Definition sample_request : request := Sync_all (Some [sample_secret]) 0.
Definition sample_done : ctl := snd (perform sample_huff (λ _ s, s) (λ _ n, (n =? 2)%nat) (λ _, 0%nat) sample_manager sample_request (start kst_init)).

Lemma sample_secret_wf : secret_wf sample_secret.
Proof. by split; [by_compute|..]. Qed.
Lemma sample_huff_ok x : bytes_ok (sample_huff x).
Proof. apply Forall_map, Forall_forall. intros b _. cbn. unfold byte. pose proof (Z.mod_pos_bound (b + 1) 256). lia. Qed.
Lemma sample_manager_ok : manager_ok (eq sample_secret) (eq sample_binding) sample_ranges sample_manager.
Proof. split; [constructor|]. split; [|by intros r ?]. cbn [bindings sample_manager]. by intros uid b [_ <-]%lookup_singleton_Some. Qed.

Lemma pods_redeem_only_references_witness :
  let s := c_state sample_done in
  let s' := run DnsRewrite.RewriteFacts.kernel_csum sample_go s in
  c_failed sample_done = 1%nat ∧ held (abs s') !! 7 = Some [XorPathFacts.sample_key] ∧
  rtc (act (pods_policy sample_huff (eq sample_secret) (eq sample_binding) s) (Some (7, 3))) (abs s) (abs s').
Proof.
  cbn zeta. split; [vm_compute; reflexivity|]. split; [vm_compute; reflexivity|].
  apply (pods_redeem_only_references DnsRewrite.RewriteFacts.kernel_csum sample_huff (eq sample_secret) (eq sample_binding) sample_ranges (c_state sample_done) (Program sample_go)).
  - apply DnsRewrite.RewriteFacts.kernel_csum_updates.
  - apply sample_huff_ok.
  - intros ? <-. apply sample_secret_wf.
  - apply sample_ranges_ok.
  - apply rtc_once, (by_request _ _ _ _ _ _ _ (λ _ s, s) (λ _ n, (n =? 2)%nat) (λ _, 0%nat) sample_manager sample_request);
      [by intros ? ?|apply sample_manager_ok| |by left]. split; [by vm_compute|]. intros ? [= <-]. by constructor.
  - split; [|reflexivity]. apply Kernel.task_with_mem_ok. by_compute.
Defined.

End Governed.
