(* ===== verification/SecretExact.v ===== *)
(** * What a sync of the secrets, and a change of a binding, leave in the tables

    [Exact]: when no map operation fails and the maps have room, SyncSecrets leaves
    secret_map and secret_acl exactly as the snapshot and the bindings say, and
    bindLocked and UnbindPod keep secret_acl so: then secret_binding_allows answers
    what they grant. *)

From S2P Require Import Prelude Host GF128 Sni Dns VipAddr State Hooks HExtract XorPath Packet TcpSend SendFacts Vip VipHooks DnsRewrite.
From S2P Require Import VipPlan VipReserve VipSync VipSyncFacts StateType Keeps Frames InvSend System Refine Progress VipLive SecretSync SecretFacts.
#[local] Open Scope Z_scope.

Module Exact.
Import Types Kernel Plan Sync Config SyncLogic Hooks.Hooks Csums Live System VipProgress Reads Grants AclFacts Governed.

Notation tables := (gmap secret_key secret_value → gmap secret_acl_key Z → Prop).

(** *** Maps with room *)

Lemma update_fits `{Countable K} {V} max (k : K) (v : V) m : Z.of_nat (size ({[k]} ∪ dom m)) ≤ max → hash_update max k v m = (true, <[k := v]> m).
Proof.
  intros Hs. unfold hash_update. destruct (decide (is_Some (m !! k))) as [Hk|Hk]; [by rewrite bool_decide_true|].
  rewrite size_union, size_singleton, size_dom in Hs by (rewrite <- elem_of_dom in Hk; set_solver).
  destruct (Z.ltb_spec (Z.of_nat (size m)) max); [by rewrite orb_true_r|lia].
Qed.

Lemma fits_sub `{Countable K} (X Y : gset K) max : Z.of_nat (size Y) ≤ max → X ⊆ Y → Z.of_nat (size X) ≤ max.
Proof. intros Hy ?%subseteq_size. lia. Qed.

Lemma elem_of_kept {K} (p : K → bool) l x : x ∈ List.filter p l ↔ x ∈ l ∧ p x = true.
Proof. by rewrite !list_elem_of_In, filter_In. Qed.

Lemma runs_and {A} R P P' (m : C A) (Q Q' : A → kst → Prop) : runs R P m Q → runs R P' m Q' → runs R (λ s, P s ∧ P' s) m (λ a s, Q a s ∧ Q' a s).
Proof. intros H H' c [Hp Hp'] Hr. destruct (H c Hp Hr) as [? ?], (H' c Hp' Hr) as [? _]. done. Qed.

(** *** The loops *)

Section Exact.
Context (csum : Skb.skb → Z → Z → Z → option Skb.skb) (Hcsum : csum_updates csum) {go : GoOrder}.
Context (huff : bytes → bytes) (known : secret → Prop) (binds : podBinding → Prop).
Context (env : nat → kst → kst) (fails : op → nat → bool) (seen : nat → nat) (Henv : calmly csum env) (Hnf : ∀ o n, fails o n = false).

Notation ruled := (ruled csum huff known binds).
Notation held_by := (held_by csum huff known binds).
Notation goes E m E' := (runs ruled (held_by E) m (λ _, held_by E')).

Lemma all_last E : True → stable env (held_by E).
Proof using Hcsum Henv. intros _. by apply calmly_lasts. Qed.

Lemma goes_along {X} (I : list X → tables) (f : X → C (option unit)) l :
  (∀ dn x rest, l = dn ++ x :: rest → goes (I dn) (f x) (I (dn ++ [x]))) → goes (I []) (for_each f l) (I l).
Proof using.
  intros Hf. apply (runs_each ruled (λ dn _, held_by (I dn)) _ l ()). intros dn x rest [] E.
  eapply runs_bind; [by apply (Hf dn x rest)|]. intros ?. by apply runs_ret.
Qed.

(** Nothing fails: the keys seen are those of the map. *)
Lemma iterates {K V} `{Countable K} E (f : kst → gmap K V) (D : gset K) : (∀ s, held_by E s → dom (f s) = D) →
  runs ruled (held_by E) (iterate env fails seen f) (λ keys s, held_by E s ∧ ∀ k, k ∈ keys ↔ k ∈ D).
Proof using Hcsum Henv Hnf.
  intros Hf c Hp Hr. pose proof (all_last E I (c_ops c) _ Hp) as Hs. unfold iterate, map_read, map_op. rewrite !Hnf. cbn [fst snd c_state c_trace].
  split; [split; [done|]|].
  - intros k. rewrite <- (Hf _ Hs), elem_of_dom, list_elem_of_fmap. split.
    + intros ([k' v] & -> & Hk). rewrite go_visits, elem_of_map_to_list in Hk. by exists v.
    + intros [v Hk]. exists (k, v). by rewrite go_visits, elem_of_map_to_list.
  - apply Forall_app. split; [done|]. pose proof (held_ruled _ _ _ _ E _ Hs). by repeat apply Forall_cons_2.
Qed.

(** *** secret_acl *)

(** secret_acl has the entries of [D]. *)
Definition acl_is (F : gmap secret_key secret_value → Prop) (D : gset secret_acl_key) : tables := λ m a, F m ∧ dom a = D.

Lemma grants_all F D l : (∀ x, x ∈ l → entitled huff known binds x.1 x.2) → Z.of_nat (size (D ∪ list_to_set l)) ≤ secret_acl_max_entries →
  goes (acl_is F D) (for_each (grant_acl env fails) l) (acl_is F (D ∪ list_to_set l)).
Proof using Hcsum Henv Hnf.
  intros Hl Hs. assert (E : acl_is F D = acl_is F (D ∪ list_to_set [])) by (f_equal; set_solver). rewrite E at 1.
  apply (goes_along (λ dn, acl_is F (D ∪ list_to_set dn))). intros dn x rest El.
  apply (goes_grant_acl _ Hcsum _ _ _ _ _ (λ _, True) all_last); [done|apply Hl; set_solver| |by right].
  intros m a [Hm Ha]. rewrite update_fits; [|eapply fits_sub; [exact Hs|]; set_solver]. cbn [snd]. split; [done|].
  rewrite dom_insert_L, Ha, list_to_set_app_L. set_solver.
Qed.

Lemma revokes_all F D l : goes (acl_is F D) (for_each (revoke_acl env fails) l) (acl_is F (D ∖ list_to_set l)).
Proof using Hcsum Henv Hnf.
  assert (E : acl_is F D = acl_is F (D ∖ list_to_set [])) by (f_equal; set_solver). rewrite E at 1.
  apply (goes_along (λ dn, acl_is F (D ∖ list_to_set dn))). intros dn x rest El.
  apply (goes_revoke_acl _ Hcsum _ _ _ _ _ (λ _, True) all_last); [done| |by right].
  intros m a [Hm Ha]. split; [done|]. rewrite dom_delete_L, Ha, list_to_set_app_L. set_solver.
Qed.

Lemma exact_acl F D l bs : Forall known l → (∀ uid b, bs !! uid = Some b → binds b) →
  Z.of_nat (size (D ∪ secretACL huff l bs)) ≤ secret_acl_max_entries →
  goes (acl_is F D) (syncSecretACL huff env fails seen l bs) (acl_is F (secretACL huff l bs)).
Proof using Hcsum Henv Hnf.
  intros Hl Hbs Hs. unfold syncSecretACL. eapply runs_bind; [apply (iterates _ k_secret_acl D); by intros s [_ [_ ?]]|].
  intros keys. apply runs_fact. intros Hk. eapply runs_bind.
  - apply grants_all; [intros x; by apply desired_entitled|]. eapply fits_sub; [exact Hs|]. intros x.
    rewrite !elem_of_union, elem_of_list_to_set, elem_of_kept, elem_of_go_keys. tauto.
  - intros ?. eapply runs_impl; [| |apply revokes_all]; [done|]. intros ? s [Hr [Hm Ha]]. split; [done|]. split; [done|]. rewrite Ha. apply set_eq. intros x.
    rewrite elem_of_difference, elem_of_union, !elem_of_list_to_set, !elem_of_kept, elem_of_go_keys, !bool_decide_eq_true, !Hk.
    destruct (decide (x ∈ D)), (decide (x ∈ secretACL huff l bs)); tauto.
Qed.

(** *** secret_map *)

Context (Hhuff : ∀ l, bytes_ok (huff l)) (Hknown : ∀ s, known s → secret_wf s).

(** secret_map is [M]. *)
Definition secrets_are (G : gset secret_acl_key) (M : gmap secret_key secret_value) : tables := λ m a, m = M ∧ dom a = G.

(** The entries of a snapshot; each key is of one secret. *)
Definition entries (l : list secret) : list (secret_key * secret_value) := l ≫= writes huff.
Definition distinct (l : list secret) : Prop := NoDup (entries l).*1.

Lemma puts G M k v : stored huff known k v → Z.of_nat (size ({[k]} ∪ dom M)) ≤ secret_map_max_entries →
  goes (secrets_are G M) (put_secret env fails k v) (secrets_are G (<[k := v]> M)).
Proof using Hcsum Henv Hhuff Hknown Hnf.
  intros Hst Hs. apply (goes_put_secret _ Hcsum _ Hhuff _ Hknown _ _ _ (λ _, True) all_last); [done..| |by right].
  intros m a [-> Ha]. by rewrite update_fits.
Qed.

Lemma deletes_all G M l : goes (secrets_are G M) (for_each (delete_secret env fails) l) (secrets_are G (filter (λ kv, kv.1 ∉ l) M)).
Proof using Hcsum Henv Hhuff Hknown Hnf.
  apply (runs_impl _ (held_by (secrets_are G (filter (λ kv, kv.1 ∉ []) M))) _ _ (λ _, held_by (secrets_are G (filter (λ kv, kv.1 ∉ l) M)))); [|done|].
  { intros s [Hr [Hm Ha]]. split; [done|]. split; [|done]. rewrite Hm. symmetry. apply map_filter_id. intros. apply not_elem_of_nil. }
  apply (goes_along (λ dn, secrets_are G (filter (λ kv, kv.1 ∉ dn) M))). intros dn x rest El.
  apply (goes_delete_secret _ Hcsum _ Hhuff _ Hknown _ _ _ (λ _, True) all_last); [done| |by right].
  intros m a [-> Ha]. split; [|done]. apply map_eq. intros k. apply option_eq. intros v.
  rewrite lookup_delete_Some, map_lookup_filter_Some, map_lookup_filter_Some. cbn [fst]. set_solver.
Qed.

(** The writes of a snapshot [l], one after another, to a map that was [M]. *)
Section Apply.
Context (G : gset secret_acl_key) (M : gmap secret_key secret_value) (l : list secret).
Context (Hd : distinct l) (Hroom : Z.of_nat (size (dom M ∪ list_to_set (entries l).*1)) ≤ secret_map_max_entries).

Definition written (X : list (secret_key * secret_value)) : tables := secrets_are G (list_to_map X ∪ M).

Lemma puts_next X k v Y : entries l = X ++ (k, v) :: Y → stored huff known k v → goes (written X) (put_secret env fails k v) (written (X ++ [(k, v)])).
Proof using Hcsum Hd Henv Hhuff Hknown Hnf Hroom.
  intros El Hst. unfold written. assert (Hk : k ∉ X.*1).
  { unfold distinct in Hd. rewrite El, fmap_app, fmap_cons in Hd. apply NoDup_app in Hd as (_ & Hx & _). intros Hin. apply (Hx k Hin). by left. }
  rewrite list_to_map_snoc, <- insert_union_l by done. apply puts; [done|]. eapply fits_sub; [exact Hroom|].
  rewrite dom_union_L, dom_list_to_map_L, El, fmap_app, fmap_cons, list_to_set_app_L. cbn [fst list_to_set]. set_solver.
Qed.

Context (Hl : Forall known l).

Lemma exact_apply_secret dn s rest st : l = dn ++ s :: rest → (∀ k, k ∈ st.1 ↔ k ∈ (entries dn).*1) →
  runs ruled (held_by (written (entries dn))) (apply_secret huff env fails st s)
    (λ st s', held_by (written (entries (dn ++ [s]))) s' ∧ ∀ k, k ∈ st.1 ↔ k ∈ (entries (dn ++ [s])).*1).
Proof using Hcsum Hd Henv Hhuff Hknown Hl Hnf Hroom.
  intros El Hst. destruct st as [newKeys hostNames]. cbn [fst] in *. assert (Hs : known s) by (rewrite Forall_forall in Hl; apply Hl; set_solver).
  assert (Ee : entries (dn ++ [s]) = entries dn ++ writes huff s) by (unfold entries; rewrite bind_app; cbn; by rewrite app_nil_r).
  assert (Ew : entries l = entries dn ++ writes huff s ++ entries rest) by (rewrite El; unfold entries; by rewrite bind_app).
  pose proof (λ k v, stored_writes huff known s k v Hs) as Hw. rewrite Ee. unfold apply_secret. unfold writes in *.
  destruct (_ <=? _); [rewrite app_nil_r; by apply runs_ret|]. destruct (_ <? _); [rewrite app_nil_r; by apply runs_ret|]. cbn [orb app] in *.
  eapply runs_bind; [apply (puts_next (entries dn) _ _ _ Ew); apply Hw; by left|]. intros ?.
  assert (Hst' : ∀ v k, k ∈ {[padded 8 (take 8 (Shadow s))]} ∪ newKeys ↔ k ∈ (entries dn ++ [(padded 8 (take 8 (Shadow s)), v)]).*1).
  { intros v k. rewrite fmap_app, elem_of_app, <- Hst, elem_of_union, elem_of_singleton. cbn [fmap list_fmap fst]. rewrite list_elem_of_singleton. tauto. }
  destruct (huff_key huff s) as [k|]; [|apply runs_ret; intros s' Hs'; split; [done|apply Hst']].
  rewrite bool_decide_false.
  - eapply runs_bind; [apply (puts_next (entries dn ++ [(padded 8 (take 8 (Shadow s)), raw_value s)]) k (huff_value huff s) (entries rest)); [by rewrite <- app_assoc|apply Hw; right; by left]|].
    intros ?. rewrite <- app_assoc. apply runs_ret. intros s' Hs'. split; [done|]. intros k'. cbn [fst].
    rewrite elem_of_union, elem_of_singleton, (Hst' (raw_value s)), !fmap_app, !elem_of_app. cbn [fmap list_fmap fst].
    rewrite !elem_of_cons. tauto.
  - rewrite (Hst' (raw_value s)). unfold distinct in Hd. rewrite Ew, !fmap_app in Hd. cbn [fmap list_fmap fst] in Hd.
    rewrite fmap_app. cbn [fmap list_fmap fst]. rewrite elem_of_app, list_elem_of_singleton.
    apply NoDup_app in Hd as (_ & Hx & Hy). intros [Hk| ->]; [apply (Hx k Hk); right; by left|].
    apply NoDup_cons in Hy as [Hn _]. apply Hn. by left.
Qed.

(** secret_map comes to hold exactly the entries. *)
Lemma exact_apply : goes (secrets_are G M) (applySecrets huff env fails seen l) (secrets_are G (list_to_map (entries l))).
Proof using Hcsum Hd Henv Hhuff Hknown Hl Hnf Hroom.
  unfold applySecrets. eapply runs_bind.
  - eapply runs_impl; [| |apply (runs_each ruled (λ dn st s, held_by (written (entries dn)) s ∧ ∀ k, k ∈ st.1 ↔ k ∈ (entries dn).*1))].
    + intros s [Hr [Hm Ha]]. split; [|intros k; cbn; set_solver]. split; [done|]. split; [|done]. rewrite Hm. symmetry. apply (left_id_L ∅ (∪)).
    + intros ? s H. exact H.
    + intros dn s rest st El. apply runs_fact. intros Hst. by apply (exact_apply_secret dn s rest).
  - intros [newKeys hostNames]. cbn [fst]. apply runs_fact. intros Hst.
    eapply runs_bind; [apply (iterates _ k_secret_map (dom (list_to_map (entries l) ∪ M)) ); by intros s [_ [-> _]]|].
    intros keys. apply runs_fact. intros Hk. eapply runs_bind; [apply deletes_all|]. intros ?. apply runs_ret. intros s [Hs [Hm Ha]].
    split; [done|]. split; [|done]. rewrite Hm. apply map_eq. intros k. apply option_eq. intros v.
    rewrite map_lookup_filter_Some. cbn [fst]. split.
    + intros [[?|[Hn Hv]]%lookup_union_Some_raw Hkeep]; [done|]. exfalso. apply Hkeep, elem_of_kept.
      split; [apply Hk, elem_of_dom; exists v; apply lookup_union_Some_raw; by right|]. apply bool_decide_eq_true. rewrite Hst. by apply not_elem_of_list_to_map.
    + intros Hv. split; [apply lookup_union_Some_raw; by left|]. rewrite elem_of_kept, bool_decide_eq_true, Hst. intros [_ Hn]. apply Hn.
      apply elem_of_list_to_map_2, (list_elem_of_fmap_2 fst) in Hv. exact Hv.
Qed.
End Apply.

(** *** The operations *)

Context (ranges : VirtualIPRanges) (Hranges : ranges_ok ranges).

Lemma exact_sync m l now M D : manager_ok known binds ranges m → Forall known l → now_ok now → distinct l →
  Z.of_nat (size (dom M ∪ list_to_set (entries l).*1)) ≤ secret_map_max_entries →
  Z.of_nat (size (D ∪ secretACL huff l (bindings m))) ≤ secret_acl_max_entries →
  runs ruled (held_by (secrets_are D M)) (SyncSecrets huff env fails seen m (Some l) now)
    (λ r s, held_by (secrets_are (secretACL huff l (bindings m)) (list_to_map (entries l))) s ∧ fst r = with_snapshot m l).
Proof using Hcsum Henv Hhuff Hknown Hnf Hranges.
  intros Hm Hl Hnow Hd Hs1 Hs2. unfold SyncSecrets. apply (runs_bind _ _ _ _ (λ hosts s, held_by (secrets_are D (list_to_map (entries l))) s ∧ names hosts)).
  { eapply runs_impl; [| |apply (runs_and _ _ _ _ _ _ (exact_apply D M l Hd Hs1 Hl) (keeps_snapshot _ Hcsum huff Hhuff known Hknown binds env fails seen _ all_last I l Hl))].
    - intros s Hs. split; [done|]. by split; [apply Hs|].
    - by intros hosts s [? [_ ?]]. }
  intros hosts. apply runs_fact. intros Hn. eapply runs_bind; [by apply (goes_vips _ Hcsum huff known binds env fails seen ranges Hranges _ all_last)|].
  intros ?. eapply runs_bind; [apply (exact_acl (λ m, m = list_to_map (entries l)) D); [done|apply Hm|done]|].
  intros ?. by apply (goes_sync_end _ Hcsum huff known binds env fails seen _ all_last I _ (with_snapshot m l)).
Qed.

Lemma exact_hosts G M f l : (f = grant_host env fails ∨ f = revoke_host env fails) → goes (secrets_are G M) (for_each f l) (secrets_are G M).
Proof using Hcsum Henv.
  intros Hf. apply (goes_for_each _ Hcsum _ _ _ _ _ all_last); [done|]. intros x _.
  destruct Hf as [->| ->]; [by apply (goes_grant_host _ Hcsum _ _ _ _ _ _ all_last)|by apply (goes_revoke_host _ Hcsum _ _ _ _ _ _ all_last)].
Qed.

Lemma single_grants l uid b x : x ∈ secretACL huff l {[uid := b]} ↔ pod_grants huff l b x.
Proof using.
  rewrite elem_of_secretACL. split; [by intros (? & ? & [_ <-]%lookup_singleton_Some & ?)|].
  intros Hx. exists uid, b. split; [apply lookup_singleton_eq|done].
Qed.

(** What another binding of the pod would grant. *)
Lemma rebound l bs uid b x : x ∈ secretACL huff l (<[uid := b]> bs) ↔
  x ∈ secretACL huff l {[uid := b]} ∨ ∃ uid' b', uid' ≠ uid ∧ bs !! uid' = Some b' ∧ pod_grants huff l b' x.
Proof using.
  rewrite single_grants, elem_of_secretACL. split.
  - intros (uid' & b' & [[_ <-]|[? ?]]%lookup_insert_Some & Hx); [by left|]. right. exists uid', b'. auto.
  - intros [Hx|(uid' & b' & ? & Hb & Hx)]; [exists uid, b|exists uid', b']; (split; [|done]); [by rewrite lookup_insert_eq|by rewrite lookup_insert_ne].
Qed.

Lemma split_grants l bs uid x : x ∈ secretACL huff l bs ↔
  (∃ b, bs !! uid = Some b ∧ x ∈ secretACL huff l {[ [] := b ]}) ∨ ∃ uid' b', uid' ≠ uid ∧ bs !! uid' = Some b' ∧ pod_grants huff l b' x.
Proof using.
  rewrite elem_of_secretACL. setoid_rewrite single_grants. split.
  - intros (uid' & b & Hb & Hx). destruct (decide (uid' = uid)) as [->|]; [left|right]; eauto 10.
  - intros [(b & Hb & Hx)|(uid' & b & _ & Hb & Hx)]; eauto.
Qed.

Lemma exact_bind m uid b M : let T0 := secretACL huff (lastSnapshot m) (bindings m) in let m' := with_bindings m (<[uid := b]> (bindings m)) in
  manager_ok known binds ranges m → binds b → Z.of_nat (size (T0 ∪ secretACL huff (lastSnapshot m) {[uid := b]})) ≤ secret_acl_max_entries →
  runs ruled (held_by (secrets_are T0 M)) (bindLocked huff env fails m uid b)
    (λ r s, held_by (secrets_are (secretACL huff (lastSnapshot m) (bindings m')) M) s ∧ r = m').
Proof using Hcsum Henv Hnf.
  intros T0 m' (Hl & Hbs & _) Hb Hs. unfold bindLocked. fold m'. set (acl := secretACL huff (lastSnapshot m) {[uid := b]}) in *.
  assert (Ea : acl = list_to_set (go_keys acl)) by (apply set_eq; intros x; by rewrite elem_of_list_to_set, elem_of_go_keys).
  set (others := λ x, ∃ uid' b', uid' ≠ uid ∧ bindings m !! uid' = Some b' ∧ pod_grants huff (lastSnapshot m) b' x).
  assert (Hnew : ∀ x, x ∈ secretACL huff (lastSnapshot m) (bindings m') ↔ x ∈ acl ∨ others x) by (intros x; apply rebound).
  apply (runs_bind _ _ _ _ (λ _, held_by (secrets_are (T0 ∪ acl) M))).
  { eapply runs_impl; [| |apply (grants_all (λ m, m = M) T0 (go_keys acl)); [|by rewrite <- Ea]]; [done|intros ? s; rewrite <- Ea; exact id|]. intros x Hx%elem_of_go_keys. apply (entitled_acl huff known binds (lastSnapshot m) {[uid := b]}); [done| |exact Hx].
    by intros uid' b' [_ <-]%lookup_singleton_Some. }
  intros ?. eapply runs_bind; [apply exact_hosts; by left|]. intros ?.
  apply (runs_bind _ _ _ _ (λ _, held_by (secrets_are (secretACL huff (lastSnapshot m) (bindings m')) M))); [|intros ?; by apply runs_ret].
  destruct (bindings m !! uid) as [p|] eqn:Ep.
  - unfold revokeLostLocked. eapply runs_bind; [apply (revokes_all (λ m, m = M))|]. intros ?. eapply runs_impl; [| |apply (exact_hosts (secretACL huff (lastSnapshot m) (bindings m')) M); by right]; [|intros ? s; exact id].
    intros s [Hr [Hm Ha]]. split; [done|]. split; [done|]. rewrite Ha. apply set_eq. intros x.
    rewrite elem_of_difference, elem_of_union, elem_of_list_to_set, !elem_of_kept, elem_of_go_keys, !bool_decide_eq_true.
    assert (HT : x ∈ T0 ↔ x ∈ secretACL huff (lastSnapshot m) {[ [] := p ]} ∨ others x).
    { unfold T0. rewrite (split_grants _ (bindings m) uid), Ep. split; [intros [(? & [= <-] & ?)|?]; auto|intros [?|?]; eauto]. }
    pose proof (Hnew x) as HN. rewrite HT. destruct (decide (x ∈ acl)), (decide (x ∈ secretACL huff (lastSnapshot m) (bindings m'))); tauto.
  - apply runs_ret. intros s [Hr [Hm Ha]]. split; [done|]. split; [done|]. rewrite Ha. apply set_eq. intros x.
    rewrite elem_of_union, Hnew. unfold T0. rewrite (split_grants _ (bindings m) uid), Ep. split; [intros [[(? & ? & _)|?]|?]; auto; done|tauto].
Qed.

(** No other pod has a cgroup of the pod [uid]. *)
Definition own_cgroups (bs : gmap bytes podBinding) (uid : bytes) : Prop :=
  ∀ b uid' b' cg, bs !! uid = Some b → bs !! uid' = Some b' → uid' ≠ uid → cg ∈ cgroupIDs b → cg ∉ cgroupIDs b'.

Lemma exact_unbind m uid M : let T0 := secretACL huff (lastSnapshot m) (bindings m) in let m' := with_bindings m (delete uid (bindings m)) in
  own_cgroups (bindings m) uid →
  runs ruled (held_by (secrets_are T0 M)) (UnbindPod env fails seen m uid)
    (λ r s, held_by (secrets_are (secretACL huff (lastSnapshot m) (bindings m')) M) s ∧ r = m').
Proof using Hcsum Henv Hnf.
  intros T0 m' Ho. unfold UnbindPod. destruct (bindings m !! uid) as [b|] eqn:Eb.
  - eapply runs_bind; [apply (iterates _ k_secret_acl T0); by intros s [_ [_ ?]]|]. intros keys. apply runs_fact. intros Hk.
    apply (runs_bind _ _ _ _ (λ _, held_by (secrets_are (secretACL huff (lastSnapshot m) (bindings m')) M))).
    + eapply runs_impl; [| |apply (revokes_all (λ m, m = M))]; [done|]. intros ? s [Hr [Hm Ha]]. split; [done|]. split; [done|]. rewrite Ha. apply set_eq. intros x.
      rewrite elem_of_difference, elem_of_list_to_set, elem_of_kept, bool_decide_eq_true, Hk. unfold T0. rewrite (split_grants _ (bindings m) uid), Eb, elem_of_secretACL.
      cbn [m' with_bindings bindings]. split.
      * intros [[(b' & [= <-] & Hx%single_grants)|(uid' & b' & Hu & Hb' & Hx)] Hn]; [|exists uid', b'; by rewrite lookup_delete_ne].
        exfalso. apply Hn. split; [left; exists b; split; [done|by apply single_grants]|]. by destruct Hx as (r & s' & ? & ? & ? & ?).
      * intros (uid' & b' & [Hu Hb']%lookup_delete_Some & Hx). split; [right; by exists uid', b'|]. intros [_ Hc].
        destruct Hx as (r & s' & ? & ? & ? & Hc'). by apply (Ho b uid' b' (fst x)).
    + intros ?. apply (runs_bind _ _ _ _ (λ _, held_by (secrets_are (secretACL huff (lastSnapshot m) (bindings m')) M))); [|intros ?; by apply runs_ret].
      cbn [with_bindings virtualIPs bindings]. destruct (virtualIPs m), (podIPs b); first [by apply runs_ret|by apply (goes_pod_hosts _ Hcsum huff known binds env fails seen _ all_last)].
  - assert (Em : m' = m) by (destruct m; unfold m', with_bindings; cbn in *; by rewrite delete_id). rewrite Em. apply runs_ret. done.
Qed.

(** *** What the tables then say *)

(** What a snapshot and the bindings grant. *)
Definition granted (l : list secret) (bs : gmap bytes podBinding) (cg : Z) (k : secret_key) : Prop :=
  ∃ uid b r sec, bs !! uid = Some b ∧ cg ∈ cgroupIDs b ∧ r ∈ refs b ∧ sec ∈ l ∧ refers r sec ∧ k ∈ placeholderKeys huff (Shadow sec).

Lemma acl_granted l bs cg k : unique l → (cg, k) ∈ secretACL huff l bs ↔ granted l bs cg k.
Proof using.
  intros Hu. rewrite elem_of_secretACL. split.
  - intros (uid & b & Hb & r & sec & Hr & [Hs Hrs]%each_sound & Hk & Hc). exists uid, b, r, sec. auto 10.
  - intros (uid & b & r & sec & Hb & Hc & Hr & Hs & Hrs & Hk). exists uid, b. split; [done|]. exists r, sec. auto using each_complete.
Qed.

Lemma binding_answers l bs M s s2 t k : unique l → held_by (secrets_are (secretACL huff l bs) M) s → rtc (calm csum) s s2 →
  fst (secret_binding_allows t k s2) = true ↔ granted l bs (cgroup_id t) k.
Proof using Hcsum.
  intros Hu [Hr [_ Ha]] Hc. destruct (calms_sound csum Hcsum s s2 Hc (ru_sound _ _ _ _ s Hr)) as [_ E]. injection E as _ E1 E2 _ _.
  rewrite HooksFacts.binding_allows_iff, E1, E2, (ru_mode _ _ _ _ s Hr), <- (acl_granted l bs) by done. rewrite <- Ha, elem_of_dom. split; [intros [?|?]; done|by left].
Qed.

Lemma entries_value l k v : distinct l → (list_to_map (entries l) : gmap secret_key secret_value) !! k = Some v ↔ ∃ sec, sec ∈ l ∧ (k, v) ∈ writes huff sec.
Proof using.
  intros Hd. rewrite <- elem_of_list_to_map by done. unfold entries. rewrite list_elem_of_bind. naive_solver.
Qed.

(** The bindings after a request; what it needs: room for what it adds before it
    revokes, cgroups that are the pod's own. *)
Definition rebinds (q : request) (bs : gmap bytes podBinding) : gmap bytes podBinding :=
  match q with Bind uid b => <[uid := b]> bs | Unbind uid => delete uid bs | Sync_all _ _ => bs end.
Definition fits (m : manager) (q : request) : Prop :=
  match q with
  | Bind uid b => Z.of_nat (size (secretACL huff (lastSnapshot m) (bindings m) ∪ secretACL huff (lastSnapshot m) {[uid := b]})) ≤ secret_acl_max_entries
  | Unbind uid => own_cgroups (bindings m) uid
  | Sync_all _ _ => False
  end.

Lemma exact_rebind m q M : let T0 := secretACL huff (lastSnapshot m) (bindings m) in let m' := with_bindings m (rebinds q (bindings m)) in
  manager_ok known binds ranges m → request_ok known binds q → fits m q →
  runs ruled (held_by (secrets_are T0 M)) (perform huff env fails seen m q)
    (λ r s, held_by (secrets_are (secretACL huff (lastSnapshot m) (bindings m')) M) s ∧ r = m').
Proof using Hcsum Henv Hnf.
  intros T0 m' Hm Hq Hf. destruct q as [uid b|uid|]; cbn [perform fits request_ok rebinds] in *; [by apply exact_bind|by apply exact_unbind|done].
Qed.

End Exact.

(** C9: a sync of the secrets in which nothing fails, with room in the maps and no key of
    two secrets, leaves in secret_map exactly the values of the snapshot's secrets, and
    from then on, whatever programs run, secret_binding_allows lets a process redeem a
    placeholder exactly when a pod's binding with its cgroup refers to a secret of it. *)
Theorem sync_leaves_exactly {go : GoOrder} csum huff known binds ranges env fails seen m l now s s2 t k : csum_updates csum →
  (∀ x, bytes_ok (huff x)) → (∀ sec, known sec → secret_wf sec) → ranges_ok ranges → calmly csum env → (∀ o n, fails o n = false) →
  rtc (governs csum huff known binds ranges) kst_init s → manager_ok known binds ranges m → Forall known l → now_ok now → unique l → distinct huff l →
  Z.of_nat (size (dom (k_secret_map s) ∪ list_to_set (entries huff l).*1)) ≤ secret_map_max_entries →
  Z.of_nat (size (dom (k_secret_acl s) ∪ secretACL huff l (bindings m))) ≤ secret_acl_max_entries →
  let '((m', err), c) := SyncSecrets huff env fails seen m (Some l) now (start s) in
  m' = with_snapshot m l ∧
  (∀ p v, k_secret_map (c_state c) !! p = Some v ↔ ∃ sec, sec ∈ l ∧ (p, v) ∈ writes huff sec) ∧
  (rtc (calm csum) (c_state c) s2 → fst (secret_binding_allows t k s2) = true ↔ granted huff l (bindings m) (cgroup_id t) k).
Proof.
  intros Hf Hh Hk Hr He Hnf Hg Hm Hl Hnow Hu Hd Hs1 Hs2.
  pose proof (governs_ruled csum Hf huff Hh known Hk binds ranges kst_init s Hr Hg (init_ruled csum huff known binds)) as H0.
  destruct (exact_sync csum Hf huff known binds env fails seen He Hnf Hh Hk ranges Hr m l now _ _ Hm Hl Hnow Hd Hs1 Hs2 (start s)
    (conj H0 (conj eq_refl eq_refl)) (Forall_nil_2 _)) as [[H1 H2] _].
  destruct (SyncSecrets _ _ _ _ _ _ _ _) as [[m' err] c]. cbn [fst snd] in *. split; [done|]. split.
  - intros p v. destruct H1 as [_ [-> _]]. by apply entries_value.
  - by apply (binding_answers csum Hf huff known binds l (bindings m) (list_to_map (entries huff l)) (c_state c)).
Qed.

(** C10: binding and unbinding a pod without failures takes effect at once: if secret_acl
    was what the last snapshot and the bindings say, it is so for the new bindings, the
    secrets are untouched, and from then on secret_binding_allows answers exactly what
    these grant; what another pod is granted is kept, what the pod lost is revoked. *)
Theorem bindings_stay_exact {go : GoOrder} csum huff known binds ranges env fails seen m q s s2 t k : csum_updates csum →
  (∀ x, bytes_ok (huff x)) → (∀ sec, known sec → secret_wf sec) → ranges_ok ranges → calmly csum env → (∀ o n, fails o n = false) →
  rtc (governs csum huff known binds ranges) kst_init s → manager_ok known binds ranges m → request_ok known binds q → fits huff m q →
  unique (lastSnapshot m) → dom (k_secret_acl s) = secretACL huff (lastSnapshot m) (bindings m) →
  let '(m', c) := perform huff env fails seen m q (start s) in
  m' = with_bindings m (rebinds q (bindings m)) ∧ k_secret_map (c_state c) = k_secret_map s ∧
  dom (k_secret_acl (c_state c)) = secretACL huff (lastSnapshot m) (rebinds q (bindings m)) ∧
  (rtc (calm csum) (c_state c) s2 → fst (secret_binding_allows t k s2) = true ↔ granted huff (lastSnapshot m) (rebinds q (bindings m)) (cgroup_id t) k).
Proof.
  intros Hf Hh Hk Hr He Hnf Hg Hm Hq Hfit Hu Hd.
  pose proof (governs_ruled csum Hf huff Hh known Hk binds ranges kst_init s Hr Hg (init_ruled csum huff known binds)) as H0.
  destruct (exact_rebind csum Hf huff known binds env fails seen He Hnf ranges m q (k_secret_map s) Hm Hq Hfit (start s)
    (conj H0 (conj eq_refl Hd)) (Forall_nil_2 _)) as [[H1 H2] _].
  destruct (perform _ _ _ _ _ _ _) as [m' c]. cbn [fst snd] in *. split; [done|]. destruct H1 as [H1 [E1 E2]]. split; [done|]. split; [done|].
  by apply (binding_answers csum Hf huff known binds (lastSnapshot m) (rebinds q (bindings m)) (k_secret_map s) (c_state c)).
Qed.

(** The one secret is synced for the pod with the cgroup 3; then the pod is unbound. *)
Definition sample_exact : (manager * bool) * ctl := SyncSecrets sample_huff (λ _ s, s) (λ _ _, false) (λ _, 0%nat) sample_manager (Some [sample_secret]) 0 (start kst_init).
Definition sample_synced : manager * ctl := perform sample_huff (λ _ s, s) (λ _ _, false) (λ _, 0%nat) sample_manager sample_request (start kst_init).
Definition sample_bound : manager := fst sample_synced.

Lemma sample_secrets_unique : unique [sample_secret].
Proof. intros s1 s2 ->%list_elem_of_singleton ->%list_elem_of_singleton. done. Qed.
Lemma sample_distinct : distinct sample_huff [sample_secret].
Proof. apply (bool_decide_unpack _). vm_compute. reflexivity. Qed.

Lemma sync_leaves_exactly_witness :
  snd (fst sample_exact) = false ∧
  (∀ p v, k_secret_map (c_state (snd sample_exact)) !! p = Some v ↔ ∃ sec, sec ∈ [sample_secret] ∧ (p, v) ∈ writes sample_huff sec) ∧
  fst (secret_binding_allows (task_with 0 []) XorPathFacts.sample_key (c_state (snd sample_exact))) = true ∧
  granted sample_huff [sample_secret] (bindings sample_manager) 3 XorPathFacts.sample_key.
Proof.
  pose proof (sync_leaves_exactly DnsRewrite.RewriteFacts.kernel_csum sample_huff (eq sample_secret) (eq sample_binding) sample_ranges (λ _ s, s) (λ _ _, false) (λ _, 0%nat)
    sample_manager [sample_secret] 0 kst_init (c_state (snd sample_exact)) (task_with 0 []) XorPathFacts.sample_key
    DnsRewrite.RewriteFacts.kernel_csum_updates sample_huff_ok ltac:(intros ? <-; apply sample_secret_wf) sample_ranges_ok ltac:(intros ? ?; apply rtc_refl) ltac:(done)
    (rtc_refl _ _) sample_manager_ok ltac:(by constructor) ltac:(by vm_compute) sample_secrets_unique sample_distinct ltac:(by vm_compute) ltac:(by vm_compute)) as H.
  change (SyncSecrets _ _ _ _ _ _ _ _) with sample_exact in H. split; [vm_compute; reflexivity|].
  destruct sample_exact as [[m' err] c] eqn:E. destruct H as (_ & H2 & H3). cbn [fst snd] in *. split; [exact H2|].
  assert (Ha : fst (secret_binding_allows (task_with 0 []) XorPathFacts.sample_key (c_state c)) = true).
  { replace c with (snd sample_exact) by (by rewrite E). vm_compute. reflexivity. }
  split; [exact Ha|]. by apply H3; [apply rtc_refl|].
Defined.

Definition sample_unbound : manager * ctl :=
  perform sample_huff (λ _ s, s) (λ _ _, false) (λ _, 0%nat) sample_bound (Unbind [7]) (start (c_state (snd sample_synced))).

Lemma sample_governs : rtc (governs DnsRewrite.RewriteFacts.kernel_csum sample_huff (eq sample_secret) (eq sample_binding) sample_ranges) kst_init (c_state (snd sample_synced)).
Proof.
  apply rtc_once, (by_request _ _ _ _ _ _ _ (λ _ s, s) (λ _ _, false) (λ _, 0%nat) sample_manager sample_request);
    [by intros ? ?|apply sample_manager_ok| |by left]. split; [by vm_compute|]. intros ? [= <-]. by constructor.
Qed.

Lemma sample_bound_eq : sample_bound = with_snapshot sample_manager [sample_secret].
Proof. reflexivity. Qed.

Lemma bindings_stay_exact_witness :
  fst (secret_binding_allows (task_with 0 []) XorPathFacts.sample_key (c_state (snd sample_synced))) = true ∧
  fst (secret_binding_allows (task_with 0 []) XorPathFacts.sample_key (c_state (snd sample_unbound))) = false ∧
  ¬ granted sample_huff [sample_secret] (delete [7] (bindings sample_manager)) 3 XorPathFacts.sample_key.
Proof.
  assert (Ha : fst (secret_binding_allows (task_with 0 []) XorPathFacts.sample_key (c_state (snd sample_unbound))) = false) by (vm_compute; reflexivity).
  split; [vm_compute; reflexivity|]. split; [exact Ha|].
  pose proof (bindings_stay_exact DnsRewrite.RewriteFacts.kernel_csum sample_huff (eq sample_secret) (eq sample_binding) sample_ranges (λ _ s, s) (λ _ _, false) (λ _, 0%nat)
    sample_bound (Unbind [7]) (c_state (snd sample_synced)) (c_state (snd sample_unbound)) (task_with 0 []) XorPathFacts.sample_key
    DnsRewrite.RewriteFacts.kernel_csum_updates sample_huff_ok ltac:(intros ? <-; apply sample_secret_wf) sample_ranges_ok ltac:(intros ? ?; apply rtc_refl) ltac:(done)
    sample_governs) as H.
  change (perform _ _ _ _ _ _ _) with sample_unbound in H. rewrite sample_bound_eq in H.
  destruct sample_unbound as [m' c] eqn:E. cbn [fst snd] in Ha |- *. destruct H as (_ & _ & _ & H).
  - split; [by constructor|]. apply sample_manager_ok.
  - exact I.
  - clear E Ha. cbn [fits]. intros b uid' b' cg Hb Hb' Hne. destruct Hne. cbn [with_snapshot sample_manager bindings] in *.
    apply lookup_singleton_Some in Hb as [_ <-], Hb' as [<- <-]. reflexivity.
  - apply sample_secrets_unique.
  - apply (bool_decide_unpack _). vm_compute. reflexivity.
  - intros Hg. apply H in Hg; [|apply rtc_refl]. cbn [snd] in Hg. congruence.
Defined.

End Exact.
