(* ===== verification/Conformance.v ===== *)
(** * The repository's test vectors, run on the model

    [Fixtures]: the ClientHello records captured from real clients
    (pkg/ebpf/bpf/tls_sni_fixtures.h). [SniTests], [HostTests], [CryptoTests],
    [RecordTests], [VipTests], [DnsTests]: the tests of pkg/ebpf/bpf/helpers_test.c,
    each as a boolean with the assertions of the C test (a few small ones of one
    function are one boolean). Two are left out, whose claim a theorem states for all
    inputs: the block deltas at every offset, and csum_odd_bytes. *)

From S2P Require Import Prelude GF128 Host Aes TlsRecord Sni Dns VipAddr.
From Stdlib Require Import Strings.String Strings.Ascii.
Import GF128 Host Aes TlsRecord Sni VipAddr.
#[local] Open Scope list_scope.
#[local] Open Scope Z_scope.

Definition str (s : string) : bytes := map (λ c, Z.of_nat (nat_of_ascii c)) (list_ascii_of_string s).

(** [hex_to_bytes]; spaces and line ends are skipped. *)
Definition hex_digit (c : Z) : Z := if c <? 58 then c - 48 else c - 87.
Fixpoint pairs (l : bytes) : bytes := match l with a :: b :: l' => hex_digit a * 16 + hex_digit b :: pairs l' | _ => [] end.
Definition hex_to_bytes (hex : string) : bytes := pairs (List.filter (λ c, 47 <? c) (str hex)).

Definition same (a b : bytes) : bool := bool_decide (a = b).

Module Fixtures.

(** Go 1.24 crypto/tls (X25519MLKEM768 key share): 1477 bytes *)
Definition ch_go : bytes := hex_to_bytes
  "16030105c0010005bc030350d9a514e7b5ef3d59347b786b7f21a0c418c885d1505194eb6ea3208067f94d204e891720bab00c2a83ae0b1aaf0ddb781c2c1555
   b65b89e15394c84941d06b30001ac02bc02fc02cc030cca9cca8c009c013c00ac0141301130213030100055900000014001200000f6170692e6578616d706c65
   2e636f6d000b00020100ff010001000017000000120000000500050100000000000a000c000a11ec001d001700180019000d001a001808040403080708050806
   0401050106010503060302010203002b00050403040303003304ea04e811ec04c00d13c08f34b9b575585d726f5626befdc2158edac38c151998d0144c85c666
   f8705ee606e72290cc66b1ecb850652874319218e2258a76137315f9524e639ce844595cd153a7237ea9e6a494162cd5127aaa617233f73212a0b33b701dd665
   49ed07bae577737a10564e275c94084f6ed98ad4221aed970f34102c17e069095bb77ea8bddc37b4ceb9b8983534c8a3cde30065365abc0a48558be7083c2c18
   a9ba543b87995c036f0129b2a05bcbaca39ac461c0597aa531a072d7a9ce6f3c6b3d8b0c869a8b878c7c73b18277b555b15072aed46b08b899e51b5b03003bc0
   30cf4ff2a8bb2b463b09b942e55199bc1f36007debea6e9ba6664be227c258a301f727f23b2d5ecaa218a855e2a6aa7a3844bc501d3806bb501b66b18acf0ec9
   7d20d2605a08158b038f04c4bd490415d77573da76c5e8ec770c2411f085167a778e89051782ea0226e60864e23a5cfb98241c76f5d519d71984603c5df1cccb
   1146128af73f2e73852149ccc4cb613c88c9c9310991d95ca2c148289690ee02407732b3b08188cd83c98a7c1ac8120856ab47e01769387a4a88203497d6b0d8
   b70ff8032cd777c02872c75e323b0149c7b41b8da1817aca2b60c7868d6970ad7cb2aa6be46dc2e643d9767776c36fbdf4774b0c20eb445b9d6540c9270565d0
   1a71f4c5bba6a32570464ef30963917335aac9a7b54c3c91c58e4b1deda238c8d11bc2f398c2b963782b61b3b58de09b29025855f12a04cb4059379a861a1640
   8bc1ab659a1822fa4c04d6060894783d7758dceaae39450499c96e75e93a78fa293a4860c4d0bae685990ce93e64f2202f4343af953213c408726cad1a50563c
   14c7224b0ab9faa1e73557148523acb7a711f622bb2b190821c8c0e9880b6149c0e62927fa00c462971765b60b72bd24675a51450ab4404fc67acf0b4179789c
   70efc241b0d6c2273b8bbd55ae005123519bb81942a280897aca0b16fed69b5c3a2b4886bb3d6b132eec4308a67954d6a8f71046607c4d8461a5bd13272e0526
   9e075bafbb3e125b7fc6777647f89442a1b4fecc28000396477bce6cca48bd901027cc5974a121cb522c9666bfc3b2aef07bc814831d3df30b0248a1c4bb6a11
   b23ee3fa9a59209f961b03b64757a73149035c54ac40c1d85665c0610fd563caa49b118ac395a5d5c36e5b512cc89fe9612ab5e238eaf837919cb4c765bb5500
   46cc1440a4d07380f9c0f610b3f52365226a11fae30a5af42e74b074627bb73247979033c1272697f09b4f3dbc2c00668270c814f909310d691c4ec46674518a
   f5dbc6880358c805b718fb460f566285d79e355b9bf9081b13702a8aca88b6cb20a7252a9eb5bb0d03cd4550cd89e18cf9499a18cba84edc1189856340081b8c
   997cb8680a1c0a888df84e8b28ae8ecab59344c17e837dc664010c336c43e69d7c372c767ba757154f3dfb80a5e2cadfe96bd4a7aa7d8b63797b4f15427310c5
   ab353770a4dc9b9351bdc11705ef61c7666b3c9bc77d2a153ac3c8be16daaf26fba7f6f9c16a4329a8348af1a3a592268e818434733193ffc475169329b5b969
   d9224b7098b8c16007238993fb4722d719cad046077a2386a307a7472c836454568a36624e0f889e56b65f2de422439f6876a258852a6a791cefcae5602ae23a
   5403898758068d877097e9168054a6f76fe3d9628660be31a976759cadfd100d50001d002003898758068d877097e9168054a6f76fe3d9628660be31a976759c
   adfd100d50"%string.

(** Node.js 22 (bundled OpenSSL): 1592 bytes *)
Definition ch_node : bytes := hex_to_bytes
  "16030106330100062f0303a516eeab2fd36edda192545db424e3d456d05ed7dd110d96345c8c78b1f2ebe8204b27843ee80178d4584e07ab41942660b080a14e
   b88ec28b7ff033b5c07110a60068130213031301c02fc02bc030c02c009ec0270067c028006b00a3009fcca9cca8ccaac0adc09fc05dc061c057c05300a2c0ac
   c09ec05cc060c056c052c024006ac0230040c00ac01400390038c009c01300330032009dc09dc051009cc09cc050003d003c0035002f0100057eff0100010000
   000014001200000f6170692e6578616d706c652e636f6d000b000403000102000a0012001011ec001d0017001e00180019010001010023000000160000001700
   00000d0036003409050906090404030503060308070808081a081b081c0809080a080b080408050806040105010601030303010302040205020602002b000504
   03040303002d00020101003304ea04e811ec04c0fcb58d21338290d09440102d1121ba8dfb28fbf376b9d95dbd5615e13457c16a464859c298c7092cf4111b45
   7ff35a53d5d2369ba03e0c43c131288f89c9829f2a7b2b912950375559fc501aa41abac19566e1659b8abc615528d3aa836d7b3c277293e04c16fe9535570795
   d9bc2ebdf140eb56558a919ec0e6385fd26a6799bd4e0349ab65c5b438c07d7462811a5463db406a0099747139cf8cb230969d09d198cec7805cab4bab2a1ac8
   224db04238210c9176a5831f90a306b10c50159f484a4f9fd6bfa0fc9e2a358d54092bdcc874b1e399c262b2f9d07468b52c45d15dc3025dda07c0a2249864f5
   5ec54a904dab5fca2c3cb6002b33238773ca91be9c889265a6f5b84af353a48568785c29b758d588009b5476014848b99fe0d82ad7b8a3d705abd6004d4d7a55
   17686d49355640922416564284821026c76d2bf0b7bd249505437a558c999856195c6c2c4237033ba20383b3811180cb07db43c0aa614fa8ce28e60fa423370c
   5ba9f7f77759104ea3d6cf1c4a7d5e51c8d171c86b217f01017bc1d23afa4691b6d134e24aba8d5c66e81796a18579de5021b874ce89957486cb05c6d1a260a8
   477133bdc1ea965aa0c8af909f5da4afda571150f1034ad70b7ef2580e7c6f68a396ef2823bab9aed23963c265063ca780d8761d25b888ead1b71f756ceb6833
   72677a544b12d559247bb40bd8512f75c919204101537bac4b58ab1b595b678b3a0f956db13522cfb90a6a697c91e53876aa1400151a6d79a6456abad43437f2
   68b10ac595a367865bb27b503623dfdc1377f544d243161898c2cc63a7c4ba37232913b6976812b35548b7ce1d54298cd82b43b2993950a7c645572a57b75300
   3e7f898b595a4c5281be54a8c6d2c8822de99cd545878785a76c1729afc3558babb380d7384030a28f33514efb4bc243cdc011afc8cc1d07d750cab74f617749
   8c169695dc65050b7dc45a5f0135c96ff06355665c5ff60220d122333290e0a8097320c3b1260656795cc079329939b5c0aa9394cc485bdc8476e71c6a51c9ea
   66ace6656a12ba2f1d48490d100bfdaa8b2b1b0af78657bf113730713fa7c120793526156476695c52c99c473a53161761381ebc4566448de8f446d0b71b19ca
   aee73b81e13b1b0910a9e0322eaad248a4501a37e815dedb2743f2493da45fdf8bb620f4b3fd1665ae6b74d046116c662af768388423151d38034be5c8b4f36e
   4a417c91e48c699184c8e1980628266b704e660c86be31622ca290d347215a541763290d37e102d1a846ef903211152f40469d9413355145adcd137f03c9b48a
   7b1f6ce52fa7fa1fcee76a31d27a8bca6a75235798481b8dcb97c4a37558ec258ca35b69c478df5b194102a47fa254e0a5c4e167080af881c7e2b280d6a3a308
   cb7cf634130765497741a011466fe83ec9022bcc644fdfe64da2233eff50a1838563db6b1f56376924c48d05078c8e60ae622b56ec135d1c530028a4355a1733
   06663d525433727352e9c8832cb2167a6524a43ba3d3282183c60ca4072150f8a9c6c79de53838a5587499f7517202b4cce4bc43e4c004776a9d045e74d97d86
   ec8ae02395e3f103745b53f3e2894f9431205c99dced7e2ab5223d1ed57c9cc76fc3f08ffe9cbe6f31bdae5a039195b67a5dd87d4af4aff796c47e99553ce5a8
   8466dd444bf5c00796aac6a6b5920a6a09c9f23a001d0020fda026d5c2a98c0a329b4a9eb1870b7c1edbac1eea2e6b5dac8d6f66e9c9644d"%string.

(** Bun (BoringSSL, X25519MLKEM768 key share): 1476 bytes *)
Definition ch_bun : bytes := hex_to_bytes
  "16030105bf010005bb03037aa9347da24fd85a7fc4d14f9eaecd6c033ace90bbf84778a52d379dbb7b557e209cee8b215f54e72d96c678bd130cc7764a208b33
   90f73e0e2647285b3a12f4840024130113021303c02fc02bc030c02cc027cca9cca8c009c013c00ac014009c009d002f00350100054e00000014001200000f61
   70692e6578616d706c652e636f6d00170000ff01000100000a000a000811ec001d00170018000b0002010000230000000d001400120403080404010503080505
   01080606010201003304ea04e811ec04c0971490fb1b5afb168bf41185310204a6f23c94648ccfc2984611565ae12e594106b28697bd603ecadc23975c989262
   a8fdbc4864875823c758b6e79aae003392734fde9b7de9924368d194e7068149a944992cc4ef529a51b674e63271a6fc5cd2c1020411988f406d00565d2f38a6
   3152a10b8881e7185ce3f1168407822d171c22f22064f210c2b706fbd94fd5e788bc6956cfebad1e6178304570879182cf5bafb287afcb26440a8030f24300ac
   207e52680b52e26bcd160afa7737837023c0e7a159b0951de40753657ecada59e87ac51d3c8c7b2baf2fd414ce4c9a7ef55417d278c86c9b7db4067e8b718368
   68dcc74ac18687af4889d4d95f70e7298017316bab89dfdb008a6466a69064ff956382f1154669884513c5ee0b7303806adc791e102043454b650222383057a0
   0d987b193bb13e404ae424825c35bc611b08877a985f838951447fba2c6764c9b19521cbc181a8741845d3596c6cf91a2e001b2b604a9bb5339deb0b35185f14
   396a3fa72953a73d59f032e76b962c612445844d97919828a57c2ee4a5bc19a0bac53c80e2cd030a06a48855736671d32093b7f658d7876c8ab80038566307dc
   54aa221d8ff0cc62d5416b80c93bcb9a41a5b8fb144edc9958dab42417ecc0eab446ea677142c22026e5a5f8db2336c0be56862264f43d30c7a441d322f0e978
   7378adb3931ef607176cd672e0f2711ff2546fb65737489f8d8210e445cfbbfc2e56f625a4e1792172bc11255dc8f08663b47a56e23846c64963c2ba2ff108a4
   9615ac7a897daa47f65739e0b3bf0885c32c1995bc79be8d5c6df4130d10154661c20cad9604ac67a440875640e21853fa905222a4e3777904203814e9ca2436
   89452ba8d801862748917f667fb4d827ce298100e4225fb6b18ada0563244cb8023cea4b63dba14a2f8753f2292418965a1a5899af9950e6b50575804ff8769c
   9ad74de3c8b3fc0b7169c21829315eda9a4cfb2cc1cee6a3844b0e12281cb689c30ca24a339a5a4ff76d2ac8b0b9c41f2a3739b75590ecd2ae5016cfa3b7c831
   63c13c039448ac8ce739a3a3045558b6321ad3c12ab13134e0096d950c52611b2122aa4eb67620656b87601666d8add999c335c22e9e533cf09b7fa1776225c0
   281ed7a733a56502612918253ea51c76e2364f19e07bce8a4643749b5b49410563392dc92065344c542c22277b67ea6a65a732b27b1491dbcab6b0859eab5bc6
   e6e05ab7d01aa2e30f50d9a93c9295f2a47010869ae01a94f3a0b297727745d38a2091299be0c70d648c74f66315ea9637397f956a733183bafcf777fb44caaf
   3bc775b8386f354e3a97c651a375b5848f24ba129526c0a2e9380a4b7aedd658c247901d691b89acb55ba7a8f5c3b0c1c07cc3531054612aeda319c277086901
   3bbd1380bbc62e5f7c0eb05207a2f78230b7991025b8880a6380547361557281d62454a013fc9219cc430ab6354f4dcb00ab5636da218d38ba1deaa155c92a1c
   cb492563e47836c978f40b2c6808197ff71ea82b865b80344d6168f41a64eb47b68a264cef2907d5cb8134b62c0f353e7b026deda741692819cff5bb89c336a5
   6081f0c72a25ea96ff5706331c88ceb2c69b70cc36e96830cf263981cdbe52b89e9892e874711efd098a8749a8e03d7f529f4ad7ae03d5be81ff6c22c6e4d737
   74d56aad05dc73a3dd61b2121770b7dc5a001d00207451d6722c1af6016e7601eb3d9c52fa82585fdbb739f32f54cc4696537aae1b002d00020101002b000504
   03040303"%string.

(** Python ssl / OpenSSL 3.0, server_hostname="API.Example.com.": 517 bytes *)
Definition ch_py : bytes := hex_to_bytes
  "1603010200010001fc0303f9f4203baec219054b480c0c8ad3ffa3e03ca456bdb180b626f40901c711d300204556f26ee8cf11a98d0b99aaa3da09a0e99a38e2
   bfbcadf3bda3a2f905a0d9ef0024130213031301c02cc030c02bc02fcca9cca8c024c028c023c027009f009e006b006700ff0100018f00000015001300001041
   50492e4578616d706c652e636f6d2e000b000403000102000a00160014001d0017001e0019001801000101010201030104002300000016000000170000000d00
   2a0028040305030603080708080809080a080b080408050806040105010601030303010302040205020602002b00050403040303002d00020101003300260024
   001d00206277d37cec6629deb0fcadb01c56dfb7bcb507e811c9790d180cf9ca0674745f001500dd000000000000000000000000000000000000000000000000
   00000000000000000000000000000000000000000000000000000000000000000000000000000000000000000000000000000000000000000000000000000000
   00000000000000000000000000000000000000000000000000000000000000000000000000000000000000000000000000000000000000000000000000000000
   00000000000000000000000000000000000000000000000000000000000000000000000000000000000000000000000000000000000000000000000000000000
   0000000000"%string.

(** Python ssl / OpenSSL 3.0, no server_hostname: 517 bytes *)
Definition ch_py_nosni : bytes := hex_to_bytes
  "1603010200010001fc03035da74f5ecd0cd8e0ef089f2985d2eae93341305a99033f84ed2ebc40ac947ead2032a9499ae9ed809b7e47f31af61a98f560e90980
   aee1173d4eac6cd3d69499ca0024130213031301c02cc030c02bc02fcca9cca8c024c028c023c027009f009e006b006700ff0100018f000b000403000102000a
   00160014001d0017001e0019001801000101010201030104002300000016000000170000000d002a0028040305030603080708080809080a080b080408050806
   040105010601030303010302040205020602002b00050403040303002d00020101003300260024001d0020fc6104c9245cbb9d719df4d41f2ca508bed61abb41
   51fbdcc1642f4cd96c0e0d001500f600000000000000000000000000000000000000000000000000000000000000000000000000000000000000000000000000
   00000000000000000000000000000000000000000000000000000000000000000000000000000000000000000000000000000000000000000000000000000000
   00000000000000000000000000000000000000000000000000000000000000000000000000000000000000000000000000000000000000000000000000000000
   00000000000000000000000000000000000000000000000000000000000000000000000000000000000000000000000000000000000000000000000000000000
   0000000000"%string.

End Fixtures.

Module SniTests.
Import Fixtures.

(** *** Reading a hello *)

Definition parse_sni (ch : bytes) (len : Z) : sni_result :=
  let n := Z.to_nat (Z.min len TLS_SNI_BUF_LEN) in
  tls_parse_sni (take n ch ++ zeros (Z.to_nat TLS_SNI_BUF_LEN - n)) len (zeros 64).

Definition assert_sni (ch : bytes) (want : string) : bool :=
  let r := parse_sni ch (zlen ch) in
  (r_status r =? SNI_STATUS_SEEN) && (r_len r =? zlen (str want)) && same (r_host r) (str want ++ zeros (64 - List.length (str want))).
Definition assert_status (ch : bytes) (want : Z) : bool := r_status (parse_sni ch (zlen ch)) =? want.

Definition test_sni_go : bool := assert_sni ch_go "api.example.com".
Definition test_sni_node : bool := assert_sni ch_node "api.example.com".
Definition test_sni_bun : bool := assert_sni ch_bun "api.example.com".
Definition test_sni_lowercase_trailing_dot : bool := assert_sni ch_py "api.example.com".
Definition test_sni_absent : bool :=
  assert_status ch_py_nosni SNI_STATUS_ABSENT && (r_len (parse_sni ch_py_nosni (zlen ch_py_nosni)) =? 0).

(** The prefixes of a hello: refused until one is read, and the right host from then on. *)
Fixpoint prefixes_ok (ch : bytes) (want : bytes) (n : nat) (len : Z) (seen : bool) : bool :=
  match n with
  | O => true
  | S n' =>
      let r := parse_sni ch len in
      if r_status r =? SNI_STATUS_SEEN then
        (r_len r =? zlen want) && same (take (List.length want) (r_host r)) want && prefixes_ok ch want n' (len + 1) true
      else negb seen && ((r_status r =? SNI_STATUS_TRUNCATED) || (r_status r =? SNI_NOT_CLIENT_HELLO)) && prefixes_ok ch want n' (len + 1) false
  end.
Definition test_sni_truncated_real : bool := prefixes_ok ch_go (str "api.example.com") (List.length ch_go) 0 false.

Definition test_sni_not_client_hello : bool :=
  let appdata := [0x17; 0x03; 0x03; 0x00; 0x3b] ++ zeros 59 in
  let server_hello := [0x16; 0x03; 0x03; 0x00; 0x3b; 0x02] ++ zeros 58 in
  let http := str "GET / HTTP/1.1" ++ [13; 10] ++ str "Host: api.example.com" ++ [13; 10; 13; 10] in
  assert_status appdata SNI_NOT_CLIENT_HELLO && assert_status server_hello SNI_NOT_CLIENT_HELLO && assert_status http SNI_NOT_CLIENT_HELLO.

(** *** Hellos made up *)

Definition u16_bytes (x : Z) : bytes := [u8 (Z.shiftr x 8); u8 x].

(** An extensions block in a minimal ClientHello record. *)
Definition build_ch (exts : bytes) : bytes :=
  let body := 2 + 32 + 1 + 4 + 2 + 2 + zlen exts in
  [0x16; 0x03; 0x01] ++ u16_bytes (body + 4) ++ [0x01; 0] ++ u16_bytes body ++ [0x03; 0x03] ++ replicate 32 0xAB ++
  [0; 0; 2; 0x13; 0x01; 1; 0] ++ u16_bytes (zlen exts) ++ exts.
(** A server_name extension with one host_name entry. *)
Definition sni_ext (name : bytes) : bytes :=
  [0; 0] ++ u16_bytes (zlen name + 5) ++ u16_bytes (zlen name + 3) ++ [0] ++ u16_bytes (zlen name) ++ name.
Definition dummy_ext (type len : Z) : bytes := u16_bytes type ++ u16_bytes len ++ replicate (Z.to_nat len) 0x5A.

Definition api : bytes := str "api.example.com".

Definition test_sni_synthetic : bool := assert_sni (build_ch (sni_ext (str "Svc.NS.svc.cluster.local"))) "svc.ns.svc.cluster.local".
Definition test_sni_ech_wins : bool :=
  assert_status (build_ch (sni_ext api ++ dummy_ext TLS_EXT_ECH 32)) SNI_STATUS_ECH &&
  assert_status (build_ch (dummy_ext TLS_EXT_ECH 32 ++ sni_ext api)) SNI_STATUS_ECH.
Definition test_sni_rejects_bad_host_bytes : bool :=
  assert_status (build_ch (sni_ext (api ++ [0] ++ str "evil"))) SNI_STATUS_MALFORMED &&
  assert_status (build_ch (sni_ext (str "api example.com"))) SNI_STATUS_MALFORMED &&
  assert_status (build_ch (sni_ext (str "."))) SNI_STATUS_MALFORMED.
Definition test_sni_too_long : bool :=
  let fits := build_ch (sni_ext (replicate 63 97)) in
  assert_status fits SNI_STATUS_SEEN && (r_len (parse_sni fits (zlen fits)) =? MAX_HOST_LEN - 1) &&
  assert_status (build_ch (sni_ext (replicate 64 97))) SNI_STATUS_MALFORMED.
Definition test_sni_duplicate_server_name : bool := assert_status (build_ch (sni_ext api ++ sni_ext (str "evil.example"))) SNI_STATUS_MALFORMED.
Definition test_sni_lying_lengths : bool :=
  let exts := sni_ext api in
  let ch := build_ch exts in
  let e := zlen exts in
  let len := zlen ch in
  assert_status (set_byte (len - e + 3) 0xFF ch) SNI_STATUS_MALFORMED &&
  assert_status (set_byte (len - 15 - 1) 14 ch) SNI_STATUS_MALFORMED &&
  assert_status (set_byte 4 (u8 (ch.[4] - 1)) ch) SNI_STATUS_MALFORMED &&
  assert_status (set_byte (len - e - 1) (u8 (ch.[len - e - 1] - 1)) ch) SNI_STATUS_MALFORMED.
Definition test_sni_too_many_extensions : bool :=
  let exts := List.concat (map (λ i, dummy_ext (0x1000 + Z.of_nat i) 0) (seq 0 (Z.to_nat TLS_SNI_MAX_EXTS))) in
  assert_status (build_ch (exts ++ sni_ext api)) SNI_STATUS_MALFORMED.
Definition test_sni_past_copy_buffer : bool :=
  let ch := build_ch (dummy_ext 0x0015 TLS_SNI_BUF_LEN ++ sni_ext api) in
  (TLS_SNI_BUF_LEN <? zlen ch) && assert_status ch SNI_STATUS_TRUNCATED.

Definition tests : list bool :=
  [test_sni_go; test_sni_node; test_sni_bun; test_sni_lowercase_trailing_dot; test_sni_absent; test_sni_truncated_real;
   test_sni_not_client_hello; test_sni_synthetic; test_sni_ech_wins; test_sni_rejects_bad_host_bytes; test_sni_too_long;
   test_sni_duplicate_server_name; test_sni_lying_lengths; test_sni_too_many_extensions; test_sni_past_copy_buffer].

Lemma sni_tests_pass : forallb id tests = true.
Proof. vm_compute. reflexivity. Qed.

End SniTests.

Module HostTests.

(** The host read, in a zeroed buffer, and its length. *)
Definition host_at (data : bytes) (data_len : Z) : bytes * Z := parse_http_host data data_len (zeros 64) MAX_HOST_LEN.
Definition assert_host (data : bytes) (data_len : Z) (want : bytes) : bool :=
  let '(host, len) := host_at data data_len in (len =? zlen want) && same (take (List.length want) host) want.
Definition crlf : bytes := [13; 10].
Definition put (b : bytes) (off : nat) (s : bytes) : bytes := take off b ++ s ++ drop (off + List.length s) b.

Definition test_parse_host_basic : bool :=
  let data := str "GET / HTTP/1.1" ++ crlf ++ str "Host: example.com" ++ crlf in assert_host data (zlen data) (str "example.com").
Definition test_parse_host_with_port : bool :=
  let data := str "Host: example.com:8080" ++ crlf in assert_host data (zlen data) (str "example.com").
Definition test_parse_host_short : bool := let data := str "Host: a.b" ++ crlf in assert_host data (zlen data) (str "a.b").
Definition test_parse_host_missing : bool :=
  let data := str "GET / HTTP/1.1" ++ crlf ++ str "Content-Type: text/html" ++ crlf in assert_host data (zlen data) [].
Definition test_parse_host_near_boundary : bool := assert_host (put (replicate 256 88) 248 (str "Host: ab")) MAX_DATA_SIZE (str "ab").
Definition test_parse_host_empty_value : bool := let data := str "Host: " ++ crlf in assert_host data (zlen data) [].
Definition test_parse_host_truncated : bool :=
  assert_host (str "Host: " ++ replicate 74 97 ++ crlf ++ zeros 430) (6 + MAX_HOST_LEN + 12) (replicate 64 97).
Definition test_parse_host_data_len_clamped : bool := assert_host (put (replicate 300 88) 260 (str "Host: ok" ++ crlf)) 300 [].

Definition buf64 (s : bytes) : bytes := s ++ zeros (64 - List.length s).
Definition example : bytes := buf64 (str "example.com").
Definition test_hosts_match : bool :=
  hosts_match example example && negb (hosts_match example (buf64 (str "fxample.com"))) && negb (hosts_match (set_byte 63 120 example) example) &&
  hosts_match (zeros 64) (zeros 64) && negb (hosts_match example (buf64 (str "example.com.au"))).

Definition test_clamp : bool :=
  (clamp_write_len 1 =? 1) && (clamp_write_len 128 =? 128) && (clamp_write_len 0 =? 128) && (clamp_write_len 129 =? 1) &&
  forallb (λ i, clamp_write_len (Z.of_nat i) =? Z.of_nat i) (seq 1 128).

Definition test_prefix : bool :=
  is_kloak_prefix (str "kl::abc") && negb (is_kloak_prefix (str "kl:abcd")) && negb (is_kloak_prefix (str "Kl::abc")) &&
  negb (is_kloak_prefix (str "ka::abc")) && is_kloak_prefix (str "kl::").

Definition tests : list bool :=
  [test_parse_host_basic; test_parse_host_with_port; test_parse_host_short; test_parse_host_missing; test_parse_host_near_boundary;
   test_parse_host_empty_value; test_parse_host_truncated; test_parse_host_data_len_clamped; test_hosts_match; test_clamp; test_prefix].

Lemma host_tests_pass : forallb id tests = true.
Proof. vm_compute. reflexivity. Qed.
End HostTests.

Module CryptoTests.

Definition c : bytes := hex_to_bytes "0388dace60b6a392f328c2b971b2fe78".
Definition h : bytes := hex_to_bytes "66e94bd4ef8a2c3b884cfa59ca342b2e".
Definition identity : bytes := 0x80 :: zeros 15.

Definition test_gf128_mul_identity : bool := same (gf128_mul identity c) c && same (gf128_mul c identity) c.
Definition test_gf128_mul_zero : bool := same (gf128_mul (zeros 16) c) (zeros 16).
Definition test_gf128_mul_known_vector : bool := same (gf128_mul (gf128_mul h h) h) (gf128_mul h (gf128_mul h h)).

(** [for (i = 0; i < 128; i++) gf128_mul_step(a, ws_v, ws_z, i)] *)
Definition steps (a v : bytes) : bytes := snd (fold_left (λ '(v, z) i, gf128_mul_step a v z (Z.of_nat i)) (seq 0 128) (v, zeros 16)).
Definition test_gf128_mul_gcm_vector : bool :=
  let x1 := hex_to_bytes "5e2ec746917062882c85b0685353deb7" in
  same (gf128_mul c h) x1 && same (fst (gf128_mul_ws c h)) x1 &&
  same (steps (set_byte 15 (Z.lxor (x1.[15]) 0x80) x1) h) (hex_to_bytes "f38cbb1ad69223dcc3457ae5b6b0f885").
Definition test_gf128_mul_commutativity : bool := same (gf128_mul c h) (gf128_mul h c).
Definition test_gf128_h_power : bool :=
  same (gf128_h_power h 1) h && same (gf128_h_power h 2) (gf128_mul h h) && same (gf128_h_power h 3) (gf128_mul (gf128_mul h h) h).

Fixpoint power_table (n : nat) (x : bytes) : list bytes := match n with O => [] | S n' => x :: power_table n' (gf128_mul x x) end.
Definition test_gf128_h_power_table : bool :=
  let table := power_table 11 h in
  forallb (λ p, same (gf128_h_power h p) (gf128_h_power_table table p)) [1; 2; 3; 5; 7; 10; 100; 1024].

Definition test_is_aes_gcm : bool := is_aes_gcm KLOAK_CIPHER_AES_GCM && negb (is_aes_gcm KLOAK_CIPHER_UNKNOWN) && negb (is_aes_gcm 0) && negb (is_aes_gcm 99).

(** FIPS-197 key expansion, of the tests alone: the words of the round keys. *)
Definition rcon : bytes := [0x01; 0x02; 0x04; 0x08; 0x10; 0x20; 0x40; 0x80; 0x1b; 0x36; 0x6c; 0xd8; 0xab; 0x4d].
Definition sub_word (t : bytes) : bytes := map (λ x, KLOAK_AES_SBOX.[x]) t.
Fixpoint expand (n : nat) (i nk : Z) (rk : bytes) : bytes :=
  match n with
  | O => rk
  | S n' =>
      let t := slice rk (4 * (i - 1)) 4 in
      let t := if i mod nk =? 0 then let t := sub_word [t.[1]; t.[2]; t.[3]; t.[0]] in set_byte 0 (Z.lxor (t.[0]) (rcon.[i / nk - 1])) t
        else if (6 <? nk) && (i mod nk =? 4) then sub_word t else t in
      expand n' (i + 1) nk (rk ++ xor_bytes (slice rk (4 * (i - nk)) 4) t)
  end.
Definition aes_kat_expand (key : bytes) (nk nr : Z) : bytes := expand (Z.to_nat (4 * (nr + 1) - nk)) nk nk key.

Definition counting (n : nat) (from step : Z) : bytes := map (λ i, from + step * Z.of_nat i) (seq 0 n).
Definition test_aes128_fips197 : bool :=
  same (aes_block_encrypt (aes_kat_expand (counting 16 0 1) 4 10) 10 (counting 16 0 0x11)) (hex_to_bytes "69c4e0d86a7b0430d8cdb78070b4c55a").
Definition test_aes256_fips197 : bool :=
  same (aes_block_encrypt (aes_kat_expand (counting 32 0 1) 8 14) 14 (counting 16 0 0x11)) (hex_to_bytes "8ea2b7ca516745bfeafc49904b496089").
Definition test_aes_recover_h : bool :=
  let rk := aes_kat_expand (counting 16 1 1) 4 10 in
  let want := hex_to_bytes "dbf184112eb9111659712bafcff2ab24" in
  bool_decide (aes_recover_h rk 10 = Some want) && bool_decide (aes_recover_h rk 9 = Some want) && bool_decide (aes_recover_h rk 0 = None).

(** OpenSSL's precomputation of HashKey_1, on its two 64-bit lanes. *)
Definition vaes_hkey1_forward (h : bytes) : Z * Z :=
  let lo := be_val (drop 8 h) in
  let hi := be_val (take 8 h) in
  let carry_out := Z.shiftr hi 63 in
  let hi := Z.lor (u64 (Z.shiftl hi 1)) (Z.shiftr lo 63) in
  let lo := u64 (Z.shiftl lo 1) in
  if carry_out =? 0 then (lo, hi) else (Z.lxor lo 1, Z.lxor hi 0xC200000000000000).
Definition check_hkey1_roundtrip (h : bytes) (want_reduced : option Z) : bool :=
  let '(lo, hi) := vaes_hkey1_forward h in
  match want_reduced with Some r => Z.land lo 1 =? r | None => true end && same (gf128_halve_to_h lo hi) h.
Definition test_gf128_halve_to_h_aes_keys : bool :=
  let h1 := aes_block_encrypt (aes_kat_expand (zeros 16) 4 10) 10 (zeros 16) in
  let h2 := aes_block_encrypt (aes_kat_expand (counting 16 1 1) 4 10) 10 (zeros 16) in
  let h3 := aes_block_encrypt (aes_kat_expand (counting 32 0 1) 8 14) 14 (zeros 16) in
  same h1 h && check_hkey1_roundtrip h1 (Some 0) && same h2 (hex_to_bytes "dbf184112eb9111659712bafcff2ab24") &&
  check_hkey1_roundtrip h2 (Some 1) && check_hkey1_roundtrip h3 None.
Definition test_gf128_halve_to_h_edges : bool :=
  forallb (λ x, let h := hex_to_bytes x in check_hkey1_roundtrip h (Some (Z.shiftr (h.[0]) 7)))
    ["80000000000000000000000000000000"; "00000000000000000000000000000001"; "00000000000000008000000000000000";
     "00000000000000010000000000000000"; "ffffffffffffffffffffffffffffffff"; "7fffffffffffffffffffffffffffffff";
     "0123456789abcdeffedcba9876543210"]%string.

Definition tests : list bool :=
  [test_gf128_mul_identity; test_gf128_mul_zero; test_gf128_mul_known_vector; test_gf128_mul_gcm_vector; test_gf128_mul_commutativity;
   test_gf128_h_power; test_gf128_h_power_table; test_is_aes_gcm; test_aes128_fips197; test_aes256_fips197; test_aes_recover_h;
   test_gf128_halve_to_h_aes_keys; test_gf128_halve_to_h_edges].

Lemma crypto_tests_pass : forallb id tests = true.
Proof. vm_compute. reflexivity. Qed.
End CryptoTests.

Module RecordTests.

Definition assert_kind (hdr : bytes) (kind : Z) (len : option Z) : bool :=
  let '(k, l) := tls_record_hdr_kind hdr 0 in (k =? kind) && match len with Some n => l =? n | None => true end.
Definition test_tls_hdr_appdata : bool := assert_kind [0x17; 0x03; 0x03; 0x00; 0x42] TLS_REC_APPDATA (Some 0x42).
Definition test_tls_hdr_appdata_too_short : bool := assert_kind [0x17; 0x03; 0x03; 0x00; 16] TLS_REC_INVALID None.
Definition test_tls_hdr_ccs : bool :=
  assert_kind [0x14; 0x03; 0x03; 0x00; 0x01] TLS_REC_SKIPPABLE (Some 1) && assert_kind [0x14; 0x03; 0x03; 0x00; 0x02] TLS_REC_INVALID None.
Definition test_tls_hdr_handshake_and_alert : bool :=
  assert_kind [0x16; 0x03; 0x01; 0x05; 0x9b] TLS_REC_SKIPPABLE (Some 0x59b) && assert_kind [0x15; 0x03; 0x03; 0x00; 0x02] TLS_REC_SKIPPABLE None &&
  assert_kind [0x16; 0x03; 0x03; 0x00; 0x03] TLS_REC_INVALID None.
Definition test_tls_hdr_rejects_garbage : bool :=
  forallb (λ hdr, assert_kind hdr TLS_REC_INVALID None)
    [[0x42; 0x03; 0x03; 0x00; 0x42]; [0x17; 0x02; 0x03; 0x00; 0x42]; [0x17; 0x03; 0x04; 0x00; 0x42]; [0x17; 0x03; 0x03; 0x48; 0x01]] &&
  assert_kind [0x17; 0x03; 0x03; 0x48; 0x00] TLS_REC_APPDATA None.

Definition matches (rec pt nonce : Z) (want : option Z) : bool :=
  let '(ok, n) := tls_appdata_reclen_match rec pt nonce 0xAA in
  match want with Some x => ok && (n =? x) | None => negb ok end.
Definition test_tls_reclen_match_known_nonce : bool :=
  matches (49 + 17) 49 0 (Some 0) && matches (49 + 24) 49 0 None && matches (49 + 24) 49 8 (Some 8) && matches (49 + 17) 49 8 None.
Definition test_tls_reclen_match_unknown_nonce : bool :=
  matches (49 + 17) 49 TLS_NONCE_UNKNOWN (Some 0) && matches (49 + 24) 49 TLS_NONCE_UNKNOWN (Some 8) && matches 69 49 TLS_NONCE_UNKNOWN None.
Definition test_tls_reclen_match_zero_plaintext : bool :=
  bool_decide (tls_appdata_reclen_match 17 0 TLS_NONCE_UNKNOWN 0xAA = (false, 0xAA)).

Definition tests : list bool :=
  [test_tls_hdr_appdata; test_tls_hdr_appdata_too_short; test_tls_hdr_ccs; test_tls_hdr_handshake_and_alert; test_tls_hdr_rejects_garbage;
   test_tls_reclen_match_known_nonce; test_tls_reclen_match_unknown_nonce; test_tls_reclen_match_zero_plaintext].

Lemma record_tests_pass : forallb id tests = true.
Proof. vm_compute. reflexivity. Qed.
End RecordTests.

Module VipTests.

(** a.b.c.d IPv4-mapped, and 2001:db8::<last>. *)
Definition v4 (a b c d : Z) : bytes := zeros 10 ++ [0xff; 0xff; a; b; c; d].
Definition v6 (last : Z) : bytes := [0x20; 0x01; 0x0d; 0xb8] ++ zeros 11 ++ [last].

Definition test_vip_addr_eq : bool :=
  vip_addr_eq (v6 1) (v6 1) && negb (vip_addr_eq (v6 1) (v6 2)) && negb (vip_addr_eq (v6 1) (set_byte 0 (Z.lxor 0x20 0x80) (v6 1))) &&
  negb (vip_addr_eq (v4 0 0 0 1) (v6 1)).
Definition test_vip_addr_kinds : bool :=
  vip_addr_v4mapped (v4 10 0 0 1) && negb (vip_addr_v4mapped (v6 1)) &&
  negb (vip_addr_v4mapped (zeros 16)) && vip_addr_unspecified (zeros 16) && vip_addr_unspecified (v4 0 0 0 0) &&
  negb (vip_addr_unspecified (v4 0 0 0 1)) && negb (vip_addr_unspecified (v6 0)) && negb (vip_addr_unspecified (set_byte 15 1 (zeros 16))) &&
  negb (vip_addr_unspecified (set_byte 10 0xff (zeros 16))) && negb (vip_addr_v4mapped (set_byte 10 0xff (zeros 16))).
Definition test_vip_in_prefix6 : bool :=
  let net := [0x20; 0x01; 0x00; 0x02] ++ zeros 12 in
  let mask := replicate 6 0xff ++ zeros 10 in
  let mask52 := replicate 6 0xff ++ [0xf0] ++ zeros 9 in
  let addr b5 b6 := [0x20; 0x01; 0x00; 0x02; 0; b5; b6; 0xcd] ++ zeros 7 ++ [9] in
  vip_in_prefix6 net mask (addr 0 0xab) && negb (vip_in_prefix6 net mask (addr 1 0xab)) && negb (vip_in_prefix6 net mask (v4 198 18 0 5)) &&
  negb (vip_in_prefix6 (zeros 16) (zeros 16) (zeros 16)) && vip_in_prefix6 net mask52 (addr 0 0x0f) && negb (vip_in_prefix6 net mask52 (addr 0 0x10)).

Definition empty : vip_upstream_val := replicate 4 {| slot_ip := zeros 16; expires_at := 0 |}.
Definition record_all (l : list (bytes * Z)) (v : vip_upstream_val) : vip_upstream_val :=
  fold_left (λ v '(ip, exp), vip_upstream_record v ip exp) l v.
Definition slot_is (v : vip_upstream_val) (i : nat) (ip : bytes) (exp : Z) : bool :=
  match v !! i with Some s => same (slot_ip s) ip && (expires_at s =? exp) | None => false end.
Definition test_vip_upstream_record : bool :=
  let v1 := record_all [(v4 10 0 0 1, 100)] empty in
  let v2 := record_all [(v4 10 0 0 1, 200); (v4 10 0 0 1, 150)] v1 in
  let v3 := record_all [(v4 0 0 0 0, 999); (zeros 16, 999); (v4 10 0 0 2, 0)] v2 in
  let v4_ := record_all [(v4 10 0 0 2, 300); (v4 10 0 0 3, 50); (v4 10 0 0 4, 400); (v4 10 0 0 5, 500)] v3 in
  let v5 := record_all [(v6 1, 100); (v6 2, 100); (v6 1, 300)] empty in
  slot_is v1 0 (v4 10 0 0 1) 100 && slot_is v2 0 (v4 10 0 0 1) 200 && slot_is v2 1 (zeros 16) 0 && slot_is v3 1 (zeros 16) 0 &&
  slot_is v4_ 2 (v4 10 0 0 5) 500 && slot_is v4_ 0 (v4 10 0 0 1) 200 && slot_is v4_ 1 (v4 10 0 0 2) 300 && slot_is v4_ 3 (v4 10 0 0 4) 400 &&
  slot_is v5 0 (v6 1) 300 && slot_is v5 1 (v6 2) 100 && slot_is v5 2 (zeros 16) 0.

Definition picks (v : vip_upstream_val) (now rnd : Z) (want : option bytes) : bool := bool_decide (vip_upstream_pick v now rnd = want).
Definition test_vip_upstream_pick : bool :=
  let a := v4 10 0 0 1 in let b := v4 10 0 0 2 in let c := v4 10 0 0 3 in
  let v := record_all [(a, 100); (b, 300); (c, 200)] empty in
  picks empty 0 0 None && picks v 50 0 (Some a) && picks v 50 1 (Some b) && picks v 50 2 (Some c) && picks v 50 3 (Some a) &&
  picks v 150 0 (Some b) && picks v 150 1 (Some c) && picks v 1000 7 (Some b) && picks (record_all [(v6 7, 100)] empty) 50 5 (Some (v6 7)).

Definition test_vip_socket_check : bool :=
  let api := HostTests.buf64 (str "api.example.com") in
  let other := HostTests.buf64 (str "api.example.co") in
  let real := v4 192 0 2 10 in
  let elsewhere := v4 192 0 2 11 in
  let len := 15 in
  forallb (λ '(sock, host_len, allowed, ip_len, ip, dst, port, dport, want), vip_socket_check sock host_len allowed ip_len ip dst port dport =? want)
    [(None, 0, api, 0, real, elsewhere, 0, 1, VIP_SOCK_OK); (None, MAX_HOST_LEN, api, 0, real, elsewhere, 0, 1, VIP_SOCK_OK);
     (Some api, len, api, 0, real, real, 0, 443, VIP_SOCK_OK); (None, len, api, 0, real, real, 0, 443, VIP_SOCK_DENY_HOST);
     (Some other, len, api, 0, real, real, 0, 443, VIP_SOCK_DENY_HOST);
     (Some api, 0, other, 16, real, real, 0, 443, VIP_SOCK_OK); (Some api, 0, other, 16, real, elsewhere, 0, 443, VIP_SOCK_DENY_ADDR);
     (None, 0, other, 4, real, elsewhere, 0, 443, VIP_SOCK_OK);
     (Some api, len, api, 0, real, real, 443, 443, VIP_SOCK_OK); (Some api, len, api, 0, real, real, 443, 8443, VIP_SOCK_DENY_ADDR);
     (Some api, len, api, 16, real, real, 443, 443, VIP_SOCK_OK); (Some other, len, api, 16, real, elsewhere, 443, 80, VIP_SOCK_DENY_HOST);
     (Some api, len, api, 16, real, elsewhere, 443, 443, VIP_SOCK_DENY_ADDR);
     (Some api, len, api, 16, v6 10, v6 10, 443, 443, VIP_SOCK_OK); (Some api, len, api, 16, v6 10, v6 11, 443, 443, VIP_SOCK_DENY_ADDR);
     (Some api, len, api, 16, v6 10, v4 0 0 0 10, 443, 443, VIP_SOCK_DENY_ADDR)].

Definition tests : list bool :=
  [test_vip_addr_eq; test_vip_addr_kinds; test_vip_in_prefix6; test_vip_upstream_record; test_vip_upstream_pick; test_vip_socket_check].

Lemma vip_tests_pass : forallb id tests = true.
Proof. vm_compute. reflexivity. Qed.
End VipTests.

Module DnsTests.
Import Dns.

(** *** Messages: [dm_name], [dm_ptr], [dm_response], [dm_rr] *)

Definition u16_bytes (x : Z) : bytes := [u8 (Z.shiftr x 8); u8 x].
Definition u32_bytes (x : Z) : bytes := u16_bytes (Z.shiftr x 16) ++ u16_bytes (x mod 65536).
Fixpoint labels (label l : bytes) : bytes :=
  match l with
  | [] => match label with [] => [] | _ => zlen label :: label end
  | b :: l' => if b =? 46 then zlen label :: label ++ labels [] l' else labels (label ++ [b]) l'
  end.
Definition dm_name (name : bytes) : bytes := labels [] name ++ [0].
Definition dm_ptr (off : Z) : bytes := u16_bytes (Z.lor 0xC000 off).
Definition dm_response (qname : bytes) (qtype ancount : Z) : bytes :=
  u16_bytes 0x1234 ++ u16_bytes 0x8180 ++ u16_bytes 1 ++ u16_bytes ancount ++ u16_bytes 0 ++ u16_bytes 0 ++
  dm_name qname ++ u16_bytes qtype ++ u16_bytes DNS_CLASS_IN.
Definition dm_rr (type ttl : Z) (rdata : bytes) : bytes := u16_bytes type ++ u16_bytes DNS_CLASS_IN ++ u32_bytes ttl ++ u16_bytes (zlen rdata) ++ rdata.
Definition dm_a (ttl a b c d : Z) : bytes := dm_rr DNS_TYPE_A ttl [a; b; c; d].
Definition db8 (last : Z) : bytes := [0x20; 0x01; 0x0d; 0xb8] ++ zeros 11 ++ [last].
Definition dm_aaaa (ttl last : Z) : bytes := dm_rr DNS_TYPE_AAAA ttl (db8 last).

(** The buffer of a message has MAX_DNS_PKT bytes. *)
Definition padded (m : bytes) : bytes := m ++ zeros (512 - List.length m).
Definition question_of (m : bytes) (len : Z) : Z * dns_question := dns_parse_question (padded m) len dns_question_zero.
Definition question_is (m : bytes) (len status : Z) : bool := fst (question_of m len) =? status.
Definition answers_of (m : bytes) : Z * dns_answers :=
  let q := snd (question_of m (zlen m)) in
  dns_scan_addr_records (padded m) (zlen m) (answers_off q) (q_ancount q) (qtype q) dns_answers_zero.
Definition answers_are (m : bytes) (status : Z) : bool := question_is m (zlen m) DNS_SCAN_OK && (fst (answers_of m) =? status).
Definition rec_at (m : bytes) (i : nat) : dns_addr_record := nth i (recs (snd (answers_of m))) {| rec_off := 0; rec_ttl := 0; rec_ip := [] |}.

(** *** The question *)

Definition api : bytes := str "api.example.com".
Definition test_dns_question_basic : bool :=
  let head := dm_response (str "API.Example.COM") DNS_TYPE_A 1 in
  let m := head ++ dm_ptr 12 ++ dm_a 30 10 0 0 1 in
  let q := snd (question_of m (zlen m)) in
  let m6 := dm_response api DNS_TYPE_AAAA 1 in
  question_is m (zlen m) DNS_SCAN_OK && (qname_len q =? 15) && same (take 16 (qname q)) (api ++ [0]) && (qtype q =? DNS_TYPE_A) &&
  (q_ancount q =? 1) && (answers_off q =? zlen head) && question_is m6 (zlen m6) DNS_SCAN_OK && (qtype (snd (question_of m6 (zlen m6))) =? DNS_TYPE_AAAA).

Definition test_dns_question_not_an_answer : bool :=
  let m := dm_response api DNS_TYPE_A 1 ++ dm_ptr 12 ++ dm_a 30 10 0 0 1 in
  let head := dm_response api DNS_TYPE_A 1 in
  forallb (λ '(byte, value), question_is (set_byte byte value m) (zlen m) DNS_SCAN_NOT_ANSWER)
    [(2, 0x01); (2, 0x83); (2, 0x89); (3, 0x83); (5, 2); (7, 0)] &&
  question_is head 11 DNS_SCAN_NOT_ANSWER && question_is head 20 DNS_SCAN_NOT_ANSWER && question_is head (zlen head - 1) DNS_SCAN_NOT_ANSWER.

Definition asks_raw (name : bytes) : bytes := take 12 (dm_response (str "x") DNS_TYPE_A 1) ++ name ++ u16_bytes DNS_TYPE_A ++ u16_bytes DNS_CLASS_IN.
Definition test_dns_question_bad_names : bool :=
  forallb (λ m, question_is m (zlen m) DNS_SCAN_BAD_NAME)
    [dm_response (str "a b.example.com") DNS_TYPE_A 1; dm_response (str "ex" ++ [1] ++ str "mple.com") DNS_TYPE_A 1; dm_response [] DNS_TYPE_A 1;
     asks_raw [3; 97; 46; 98; 0]; asks_raw (dm_ptr 12)].
Definition test_dns_question_name_length : bool :=
  let name63 := replicate 59 97 ++ str ".com" in
  let m := dm_response name63 DNS_TYPE_A 1 in
  let q := snd (question_of m (zlen m)) in
  let m64 := dm_response (97 :: name63) DNS_TYPE_A 1 in
  question_is m (zlen m) DNS_SCAN_OK && (qname_len q =? 63) && ((qname q).[63] =? 0) && same (take 63 (qname q)) name63 &&
  question_is m64 (zlen m64) DNS_SCAN_BAD_NAME.

(** *** The answers *)

Definition edge : bytes := dm_name (str "edge.example.net").
(** api.example.com CNAME edge.example.net, then records of edge.example.net. *)
Definition with_cname (qtype ancount : Z) (records : bytes → bytes) : bytes :=
  let head := dm_response api qtype ancount in head ++ dm_ptr 12 ++ dm_rr 5 300 edge ++ records (dm_ptr (zlen head + 2 + 10)).
Definition test_dns_answers_cname_chain : bool :=
  let first := with_cname DNS_TYPE_A 3 (λ target, target ++ dm_a 60 192 0 2 10) in
  let m := with_cname DNS_TYPE_A 3 (λ target, target ++ dm_a 60 192 0 2 10 ++ target ++ dm_a 61 192 0 2 11) in
  answers_are m DNS_SCAN_OK && (n_recs (snd (answers_of m)) =? 2) && (rec_ttl (rec_at m 0) =? 60) && (rec_ttl (rec_at m 1) =? 61) &&
  (rec_off (rec_at m 1) =? zlen first + 2 + 10) && same (take 4 (rec_ip (rec_at m 1))) [192; 0; 2; 11] && same (slice m (rec_off (rec_at m 0)) 4) [192; 0; 2; 10].

Definition test_dns_answers_uncompressed_and_aaaa : bool :=
  let m := dm_response api DNS_TYPE_A 3 ++ dm_name api ++ dm_a 5 198 51 100 7 ++ dm_ptr 12 ++ dm_aaaa 5 1 ++ dm_ptr 12 ++ dm_a 5 198 51 100 8 in
  answers_are m DNS_SCAN_OK && (n_recs (snd (answers_of m)) =? 2) && ((rec_ip (rec_at m 0)).[3] =? 7) && ((rec_ip (rec_at m 1)).[3] =? 8) &&
  same (drop 4 (rec_ip (rec_at m 0))) (zeros 12).

Definition test_dns_answers_aaaa : bool :=
  let upto2 := with_cname DNS_TYPE_AAAA 4 (λ target, target ++ dm_aaaa 60 0x10 ++ target ++ dm_a 60 192 0 2 10) in
  let m := with_cname DNS_TYPE_AAAA 4 (λ target, target ++ dm_aaaa 60 0x10 ++ target ++ dm_a 60 192 0 2 10 ++ target ++ dm_aaaa 61 0x11) in
  let txt := dm_response api 16 1 ++ dm_ptr 12 ++ dm_a 5 192 0 2 10 in
  answers_are m DNS_SCAN_OK && (n_recs (snd (answers_of m)) =? 2) && (rec_ttl (rec_at m 0) =? 60) && (rec_ttl (rec_at m 1) =? 61) &&
  (rec_off (rec_at m 1) =? zlen upto2 + 2 + 10) && same (rec_ip (rec_at m 1)) (db8 0x11) && same (slice m (rec_off (rec_at m 1)) 16) (db8 0x11) &&
  answers_are (dm_response api DNS_TYPE_AAAA 1 ++ dm_ptr 12 ++ dm_rr DNS_TYPE_AAAA 5 [1; 2; 3; 4]) DNS_SCAN_MALFORMED &&
  answers_are txt DNS_SCAN_OK && (n_recs (snd (answers_of txt)) =? 0) && (rr_len (snd (answers_of txt)) =? 0).

Definition many (count : nat) : bytes :=
  dm_response api DNS_TYPE_A (Z.of_nat count) ++ List.concat (map (λ i, dm_ptr 12 ++ dm_a 5 10 0 0 (Z.of_nat i)) (seq 0 count)).
Definition test_dns_answers_limits : bool :=
  let m := dm_response api DNS_TYPE_A 3 ++ dm_ptr 12 ++ dm_a 5 10 0 0 1 ++ dm_ptr 12 ++ dm_a 5 10 0 0 2 in
  let cut := take (List.length m - 1) (set_byte 7 2 m) in
  answers_are (many 8) DNS_SCAN_OK && answers_are (many 9) DNS_SCAN_INCOMPLETE && answers_are m DNS_SCAN_INCOMPLETE && answers_are cut DNS_SCAN_INCOMPLETE &&
  answers_are (dm_response api DNS_TYPE_A 1 ++ dm_ptr 12 ++ dm_rr DNS_TYPE_A 5 [1; 2; 3; 4; 5]) DNS_SCAN_MALFORMED &&
  answers_are (dm_response api DNS_TYPE_A 1 ++ [0x80] ++ dm_a 5 10 0 0 1) DNS_SCAN_MALFORMED.

Definition tests : list bool :=
  [test_dns_question_basic; test_dns_question_not_an_answer; test_dns_question_bad_names; test_dns_question_name_length;
   test_dns_answers_cname_chain; test_dns_answers_uncompressed_and_aaaa; test_dns_answers_aaaa; test_dns_answers_limits].

Lemma dns_tests_pass : forallb id tests = true.
Proof. vm_compute. reflexivity. Qed.
End DnsTests.

(** The model gives the answers that the repository's own tests of the C helpers
    expect of the code: the captured ClientHellos of Go, Node.js, Bun and Python (each
    prefix of Go's included) and the made-up hellos, the DNS messages, the AES, GCM and
    key-derivation vectors, the record headers, the addresses and the socket checks. *)
Theorem repository_tests_pass :
  forallb id (SniTests.tests ++ HostTests.tests ++ CryptoTests.tests ++ RecordTests.tests ++ VipTests.tests ++ DnsTests.tests) = true.
Proof.
  rewrite !forallb_app, SniTests.sni_tests_pass, HostTests.host_tests_pass, CryptoTests.crypto_tests_pass, RecordTests.record_tests_pass, VipTests.vip_tests_pass, DnsTests.dns_tests_pass.
  reflexivity.
Qed.
